(* ===== verification/_CoqProject ===== *)
-Q . S2P
Prelude.v
Errors.v
GoStrings.v
Html.v
MachineState.v
MachineThreads.v
MachineLoop.v
Detection.v
Wire.v
MachineMonitors.v
RpcStats.v
RpcServer.v
StatsThreads.v
RpcTypes.v
RpcClient.v
RpcPool.v
RpcRoundtrip.v
RpcRefine.v
Commands.v
Supervisor.v
Keepalive.v
Watchdog.v
Bootstrap.v
Stack.v
Services.v
Authority.v
Ioutil.v
Cluster.v
System.v
TestSystem.v
LocalSystem.v
Filebuf.v
Profile.v
Reports.v
Debug.v
Status.v
Oom.v
Observe.v
Web.v
Index.v
Tee.v
Instances.v
Tmpl.v
Ec2Config.v
Ec2Start.v
Ec2System.v
