(* ===== verification/Prelude.v ===== *)
(** * Bigmachine

    A model of the Go program under src/ (package bigmachine and its packages
    rpc, ec2system, testsystem, driver and internal) with the theorems that make
    it correct.
    A driver process starts machines through a system (EC2, local processes, a
    test system), uploads its own binary to them, registers services on them
    over an RPC protocol and keeps them alive; a machine whose owner is gone
    exits by itself.

    ** The program's parts and the files

    - Errors.v: the interface of the errors package of base (kinds, severities,
      E, Match, Recover) as a class with its documented laws, and an instance.
    - GoStrings.v: the functions of packages strings, path and net that are used.
      Html.v: how html/template escapes what is put into pages, links and unit
      files, and how net/url reads links.
    - MachineState.v, MachineThreads.v (machine.go): a Machine's state word,
      waiters, cancelers, error and keepalive ring; Wait, setState, setError,
      context, KeepaliveReplyTimes, Hostname; all interleavings of the goroutines
      that call them, as a step relation.
    - MachineLoop.v (machine.go): Machine.loop, which bootstraps a machine
      (ping, exec, ping, Register) and keeps it alive, and the calls: call,
      timeoutCall, retryCall, Call, RetryCall, exec.  Detection.v shows that it
      notices the death of its peer.
    - MachineMonitors.v (machine.go, bigmachine.go): tryMonitorOOMs, the
      forwarding of logs, and the race of the monitor with loop.
    - Wire.v, RpcServer.v, RpcTypes.v, RpcClient.v, RpcPool.v, RpcStats.v (rpc/):
      values, streams, HTTP requests and responses; Server.Register and
      ServeHTTP, and the types of the calls it makes by reflection; Client.Call
      and the fault injector; the pool of HTTP clients with its resets, under
      interleaving; the tree of counters, which StatsThreads.v shares between
      goroutines.  RpcRoundtrip.v composes the client with the server, and
      RpcRefine.v makes programs of such calls, over a network that loses
      messages, a refinement of calls of the objects themselves.
    - Supervisor.v (supervisor.go): the service every machine has: replacing
      its process, registering services, keepalives, the watchdog.  Reports.v:
      what it reports about its machine.  Watchdog.v is the watchdog with any number
      of Keepalive calls, interleaved.  Keepalive.v composes the loop of the
      owner with the watchdog of the machine, and Bootstrap.v its exec with the
      supervisor, over a network that loses messages and cuts uploads.  Stack.v
      puts the RPC client, the HTTP handler and the supervisor's methods between
      the two and shows that nothing changes; Services.v runs the whole loop on
      this stack, up to calls of the services it registers.
    - Authority.v (internal/authority): the certificate authority of a cluster
      and what its TLS configurations admit.
    - Cluster.v (bigmachine.go, system.go): the instance B: Dial, Start,
      Machines, Shutdown, run, Init, parameters.
    - System.v (system.go): the interface of the systems that launch machines, as
      a class with laws, and B.Start over any of them; its instances are
      TestSystem.v (testsystem/), LocalSystem.v (local.go), whose Read uses
      Ioutil.v (internal/ioutil), and Ec2System.v.
    - Filebuf.v (internal/filebuf), Profile.v (profile.go): buffers in temporary
      files, and collecting and writing the profiles of a cluster.  Debug.v
      (status.go, expvar.go, driver/, rpc/log.go and bigmachine.go): what the
      debug pages show, the dumps and names of the Bs of a process, and setting
      up a driver.  Status.v: the text of the status page.  Web.v: the HTTP
      handlers of these pages, with the replies they send.  Index.v: the HTML of
      the index page, and where its links lead.  Observe.v runs the calls behind
      the pages through the RPC client, the network and the server of each
      machine, down to what its supervisor measures (Reports.v).
    - Tee.v (internal/tee/writer.go): the asynchronous write multiplexer.
    - Commands.v (cmd/bigpi, regress/): the estimate of bigpi, with floats of
      SpecFloat, and the regression programs on the RPC client and server.
      Oom.v (cmd/bigoom, cmd/ec2boot): what bigoom reports when its machine is
      killed, from the kernel's log to the error of the call.
    - Instances.v (ec2system/instances): the table of instance types.
      Tmpl.v, Ec2Config.v (ec2system/cloudconfig.go, ec2machine.go): templates,
      cloud configuration and data volumes.  Ec2Start.v (ec2machine.go,
      config.go): System.Init and System.Start.  Ec2System.v: requests, the
      configuration profile, HTTP client and server, and commands over SSH.

    ** How the code is modelled

    A Go function that fails returns a [result] or an [option error].  Code that
    sends, waits and logs is a program of the monad [M] below over a state with
    a trace; the answers of the environment (replies, clocks, contexts, the
    file system, the EC2 API) are given by oracles, which are arguments.
    Goroutines are step relations on a shared state whose steps are the critical
    sections of the code, and the theorems on them are invariants of every
    reachable state.  Third-party code is an interface: the errors package
    (class ErrorsLib with ErrorsLaws, instance SimpleErrors), package gob (class
    Gob), packages rsa, x509 and pem (class X509 with X509Laws, instance
    SimpleX509), yaml, the operating system, the EC2 API.  Integers of a fixed
    width are Z with [wrap64] where overflow could matter; strings are byte strings.

    What net/http and the operating system do to the program is part of the model
    where the theorems depend on it.  A call without a deadline may never return
    ([env_hangs] of MachineLoop.v).  A trailer carries only texts of one line, and
    there are versions of HTTP/2 over which a response whose declared trailer has no
    value never ends ([send_trailer] of Wire.v): this is why ServeHTTP always sets
    it.  execve may refuse an uploaded file ([kernel] of Supervisor.v), and a command
    over SSH may go on when its context has ended ([RunsOn] of Ec2System.v).

    Loops that may not end (the retry loop, the ping and keepalive loops, the
    launch loop) take fuel.  A run of the monad that uses its fuel up, or waits in a
    call that does not return, is not an error but an observation of a running
    program, [Looping s]: invariants are proved for it too.  That loops end is proved as such: retryCall returns for
    all fuel above the bound its deadline gives (Lemma retryCall_terminates), the
    loop of a machine for all fuel above that bound and the number of probes its
    peer still answers, if the upload of its binary returns (dead_machine_stops),
    the launch loop with fuel 1 (Lemma Start_loses_errors of Ec2Start.v), a command
    over SSH for all fuel above the number of retries its context allows, if each
    attempt ends (run_command_reads); and the keepalive loop of a healthy machine
    never ends (healthy_machine_keeps_running).

    ** What the theorems show

    - Machine life: the loop sets Starting, Running, Stopped in this order and
      Running only when everything is registered (loop_life,
      loop_running_ready).  The failure detector is accurate and complete: a
      machine that answers and is healthy stays Running
      (healthy_machine_keeps_running), and one that stops answering is Stopped
      (dead_machine_stops), unless it hangs in the upload of its binary
      (hung_upload).  What each call does, retries and returns (exec_order,
      retryCall_attempts, Call_traces, ...); no lost wake-up, no channel closed
      twice, no context left running by a stopped machine (MachineThreads);
      where the life is not monotonic after all (oom_monitor_undone).
    - Remote calls: values, errors and streams arrive as they were sent
      (roundtrip_value, roundtrip_error, roundtrip_stream, which says what becomes
      of the error at the end of a stream if its text has several lines), every call that
      reflection makes is well typed (dispatch_well_typed), what replies mean,
      when connections are reset (reset_discipline), and the one reply that is
      lost (error_with_stream_lost).  What programs may rely on: their calls
      refine direct calls, each of which runs at most once
      (calls_refine_objects); the regression programs pass
      (regression_programs_pass).  Concurrent calls lose no update of a sum in
      the statistics, but can lose a maximum (counters_refine_sequential).
    - Services: a machine that was set Running serves the services of its owner
      to remote calls (running_machine_serves), over all the layers.
    - Keepalive: a prompt owner keeps its machine alive, and a machine without
      an owner exits within 30 seconds of its lease (Keepalive.v); what a reply to
      a keepalive is worth when several interleave (keepalives_interleave).
    - Uploads take effect entirely or not at all (Setbinary_all_or_nothing), if the
      operating system accepts what was uploaded; after exec a machine runs the process it ran, or the owner's binary with the
      arguments and the environment its owner gave it (exec_replaces, over all
      the layers); which of the two, the loop does not always know
      (lost_upload_accepted).
    - Security: an authority survives its way to the machines
      (authority_roundtrip); who gets through to them, and when (mutual_tls).
    - Systems: what B.Start does over any lawful system (started_machines), what
      the machines of the test system are under concurrency (live_machines), and
      that what the local and the EC2 system launch becomes the machine that the
      driver dials (child_serves_driver, instance_serves_driver,
      launch_reaches_B, run_command_reads).
    - The machines of a B (known_machines) and its shutdown (shutdown_waits).
    - Debugging: what profiles are written, and that no temporary file outlives
      it (profiles_written); what the tool that asked for a profile gets, also
      when it fails (profile_response); the totals of the index page
      (index_totals) and its links, whatever names they are made of
      (index_links); and that the pages of a driver show what its machines
      measured, or the error of the call (pages_show_readings).
    - Logs: what a forwarded writer gets, however Write, the goroutines that copy
      and the cancelations interleave (what_a_writer_gets), when Write blocks
      (Write_returns), and what cancelation promises (cancel_stops).
    - EC2: what is launched, with which storage and configuration, and which
      errors are lost (Ec2Config.v, Ec2Start.v).
    - bigpi: its estimate is in range and how many samples it is of
      (bigpi_estimate).

    ** What is not modelled

    The algorithms of RSA, X.509, SSH and HTTP/2; how data.Size prints a size,
    time.Time a point in time and tabwriter aligns columns; the contents of
    profiles; most log messages; how url.Parse finds the host of an address
    (Machine.Hostname gets it as an argument); and the logarithm from which bigpi
    computes how many digits it prints.

    This file holds what the others share: results, integers, the monad [M] with
    its program logic ([spec], [keeps]), tactics, and lemmas on relations. *)
From stdpp Require Export base numbers list strings gmap sets option tactics relations.
From Stdlib Require Export Lia.

Declare Scope bm_scope.
Delimit Scope bm_scope with bm.

(** ** Results: a Go function that returns (T, error) *)

(** [Ok v] is [(v, nil)]; [Err e] is a non-nil error, where the value next to
    the error is not used by the caller. *)
Inductive result (E A : Type) : Type :=
| Ok (a : A)
| Err (e : E).
Arguments Ok {E A} a.
Arguments Err {E A} e.

Definition result_bind {E A B : Type} (r : result E A) (k : A -> result E B) : result E B :=
  match r with
  | Ok a => k a
  | Err e => Err e
  end.

(** A Go function that returns only [error] is an [option E]: [None] is nil. *)
Definition result_err {E A : Type} (r : result E A) : option E :=
  match r with
  | Ok _ => None
  | Err e => Some e
  end.

Notation "'let?' x ':=' c 'in' k" := (result_bind c (fun x => k))
  (at level 10, x name, c at level 100, k at level 200) : bm_scope.

(** ** Fixed-width integers *)

(** Go's int64 (and int on the supported platforms): two's complement. *)
Definition wrap64 (z : Z) : Z := (z + 2 ^ 63) mod 2 ^ 64 - 2 ^ 63.

Definition in_int64 (z : Z) : Prop := (- 2 ^ 63 <= z < 2 ^ 63)%Z.

(** Go's division of a number by a positive one stays in the range. *)
Lemma quot_in_int64 z d : (0 < d)%Z -> in_int64 z -> in_int64 (Z.quot z d).
Proof.
  unfold in_int64. intros Hd Hz. pose proof (Z.quot_rem' z d). pose proof (Z.rem_bound_abs z d ltac:(lia)).
  pose proof (Z.rem_sign_nz z d ltac:(lia)). nia.
Qed.

(** Go's uint64 (and uint on the supported platforms). *)
Definition wrapu64 (z : Z) : Z := z mod 2 ^ 64.

(** ** Programs: state passing with an observable way to run out of fuel *)

(** A run of a piece of code either returns, with the state it leaves, or is
    cut off while a loop of the code, or a call that has no deadline, is still
    going, with the state at that moment.  The second case is an observation of a
    running program, not an error: the theorems that bound the state cover it. *)
Inductive outcome (S A : Type) : Type :=
| Done (a : A) (s : S)
| Looping (s : S).
Arguments Done {S A} a s.
Arguments Looping {S A} s.

Definition M (S A : Type) : Type := S -> outcome S A.

Definition mret {S A : Type} (a : A) : M S A := fun s => Done a s.

Definition mbind {S A B : Type} (m : M S A) (k : A -> M S B) : M S B :=
  fun s => match m s with
           | Done a s' => k a s'
           | Looping s' => Looping s'
           end.

Definition outcome_state {S A : Type} (o : outcome S A) : S :=
  match o with Done _ s | Looping s => s end.

(** Read a component of the state, and update the state. *)
Definition mget {S A : Type} (f : S -> A) : M S A := fun s => Done (f s) s.
Definition mput {S : Type} (f : S -> S) : M S unit := fun s => Done tt (f s).

Notation "x <- m ;; k" := (mbind m (fun x => k))
  (at level 100, m at next level, right associativity) : bm_scope.
Notation "m ;;; k" := (mbind m (fun _ => k))
  (at level 100, right associativity) : bm_scope.

(** A call that does not return. *)
Definition block {S A : Type} : M S A := fun s => Looping s.

(** A [for] loop: [body x] either goes round again with a new loop variable
    or leaves the loop with a result. *)
Fixpoint iterate {S X A : Type} (fuel : nat) (body : X -> M S (X + A)) (x : X) : M S A :=
  match fuel with
  | O => fun s => Looping s
  | S f => mbind (body x) (fun r => match r with
                                    | inl x' => iterate f body x'
                                    | inr a => mret a
                                    end)
  end.

(** [spec P m Q I]: started in a state satisfying [P], [m] returns with [Q]
    or is observed in the middle of a loop in a state satisfying [I]. *)
Definition spec {S A : Type} (P : S -> Prop) (m : M S A)
    (Q : A -> S -> Prop) (I : S -> Prop) : Prop :=
  forall s, P s -> match m s with
                   | Done a s' => Q a s'
                   | Looping s' => I s'
                   end.

(** ** Tactics and hints *)

Create HintDb bm discriminated.
#[export] Hint Constants Opaque : bm.

(** Case analysis on every [match] and [if] of the goal or a hypothesis. *)
Ltac split_match :=
  repeat (case_match || case_decide || case_bool_decide); simplify_eq/=.

(** Take apart a run of a program in a hypothesis or the goal. *)
Ltac run_prog := unfold mbind, mret, mget, mput, block in *; simplify_eq/=.

(** ** Lemmas on integers *)

Lemma wrap64_id (z : Z) : in_int64 z -> wrap64 z = z.
Proof.
  unfold in_int64, wrap64. intros H.
  rewrite Z.mod_small; lia.
Qed.

Lemma wrap64_range (z : Z) : in_int64 (wrap64 z).
Proof.
  unfold in_int64, wrap64.
  pose proof (Z.mod_pos_bound (z + 2 ^ 63) (2 ^ 64) eq_refl). lia.
Qed.

Lemma wrap64_add (a b : Z) : wrap64 (wrap64 a + b) = wrap64 (a + b).
Proof.
  unfold wrap64. f_equal.
  replace ((a + 2 ^ 63) mod 2 ^ 64 - 2 ^ 63 + b + 2 ^ 63)%Z
    with ((a + 2 ^ 63) mod 2 ^ 64 + b)%Z by lia.
  rewrite Zplus_mod_idemp_l. f_equal. lia.
Qed.

Lemma wrapu64_id (z : Z) : (0 <= z < 2 ^ 64)%Z -> wrapu64 z = z.
Proof. apply Z.mod_small. Qed.

(** ** Lemmas on results *)

Lemma result_bind_Ok {E A B : Type} (r : result E A) (k : A -> result E B) (b : B) :
  result_bind r k = Ok b <-> exists a, r = Ok a /\ k a = Ok b.
Proof. destruct r; simpl; naive_solver. Qed.

Lemma result_bind_Err {E A B : Type} (r : result E A) (k : A -> result E B) (e : E) :
  result_bind r k = Err e <-> r = Err e \/ exists a, r = Ok a /\ k a = Err e.
Proof. destruct r; simpl; naive_solver. Qed.

(** ** Rules for program specifications *)

Section spec_rules.
Context {S : Type}.
Implicit Types P I : S -> Prop.

Lemma spec_ret {A} P (Q : A -> S -> Prop) I (a : A) :
  (forall s, P s -> Q a s) -> spec P (mret a) Q I.
Proof. intros H s Hs. by apply H. Qed.

Lemma spec_bind {A B} P (R : A -> S -> Prop) (Q : B -> S -> Prop) I
    (m : M S A) (k : A -> M S B) :
  spec P m R I -> (forall a, spec (R a) (k a) Q I) -> spec P (mbind m k) Q I.
Proof.
  intros Hm Hk s Hs. unfold mbind. specialize (Hm s Hs).
  destruct (m s) as [a s'|s']; [|done]. by apply Hk.
Qed.

Lemma spec_get {A} P (Q : A -> S -> Prop) I (f : S -> A) :
  (forall s, P s -> Q (f s) s) -> spec P (mget f) Q I.
Proof. intros H s Hs. by apply H. Qed.

Lemma spec_put P (Q : unit -> S -> Prop) I (f : S -> S) :
  (forall s, P s -> Q tt (f s)) -> spec P (mput f) Q I.
Proof. intros H s Hs. by apply H. Qed.

Lemma spec_conseq {A} P P' (Q Q' : A -> S -> Prop) I I' (m : M S A) :
  spec P' m Q' I' ->
  (forall s, P s -> P' s) -> (forall a s, Q' a s -> Q a s) -> (forall s, I' s -> I s) ->
  spec P m Q I.
Proof.
  intros Hm HP HQ HI s Hs. specialize (Hm s (HP s Hs)).
  destruct (m s); eauto.
Qed.

Lemma spec_pre {A} P P' (Q : A -> S -> Prop) I (m : M S A) :
  spec P' m Q I -> (forall s, P s -> P' s) -> spec P m Q I.
Proof. intros Hm HP. eapply spec_conseq; eauto. Qed.

(** A loop: [Inv x] holds whenever the loop is about to start a round with
    loop variable [x]. *)
Lemma spec_iterate {X A} (Inv : X -> S -> Prop) (Q : A -> S -> Prop) I
    (body : X -> M S (X + A)) :
  (forall x s, Inv x s -> I s) ->
  (forall x, spec (Inv x) (body x)
     (fun r s => match r with inl x' => Inv x' s | inr a => Q a s end) I) ->
  forall fuel x, spec (Inv x) (iterate fuel body x) Q I.
Proof.
  intros HI Hbody. induction fuel as [|fuel IH]; intros x.
  - intros s Hs. simpl. eauto.
  - simpl. eapply spec_bind; [apply Hbody|].
    intros [x'|a]; [apply IH|]. by apply spec_ret.
Qed.

(** Total correctness of a loop: a round that goes round again decreases the
    [variant], and fuel above the variant is enough.  With [I := fun _ => False]
    the program returns. *)
Lemma spec_iterate_variant {X A} (Inv : X -> S -> Prop) (variant : X -> S -> nat)
    (Q : A -> S -> Prop) I (body : X -> M S (X + A)) :
  (forall x v, spec (fun s => Inv x s /\ variant x s = v) (body x)
     (fun r s => match r with
                 | inl x' => Inv x' s /\ variant x' s < v
                 | inr a => Q a s
                 end) I) ->
  forall fuel x, spec (fun s => Inv x s /\ variant x s < fuel) (iterate fuel body x) Q I.
Proof.
  intros Hbody. induction fuel as [|fuel IH]; intros x s [Hs Hv]; [lia|].
  simpl. revert s Hs Hv. enough (H : forall v, v <= fuel ->
    spec (fun s => Inv x s /\ variant x s = v)
      (mbind (body x) (fun r => match r with inl x' => iterate fuel body x' | inr a => mret a end)) Q I).
  { intros s Hs Hv. apply (H (variant x s)); [lia|done]. }
  intros v Hle. eapply spec_bind; [apply Hbody|]. intros [x'|a]; [|by apply spec_ret].
  eapply spec_pre; [apply IH|]. simpl. intros s [Hs Hv]. split; [done|lia].
Qed.

(** What a total specification says of one run. *)
Lemma spec_total {A} P (Q : A -> S -> Prop) (m : M S A) s :
  spec P m Q (fun _ => False) -> P s -> exists a s', m s = Done a s' /\ Q a s'.
Proof. intros Hm Hs. specialize (Hm s Hs). destruct (m s) as [a s'|s']; [by eauto|done]. Qed.

Lemma spec_if {A} P (Q : A -> S -> Prop) I (b : bool) (m1 m2 : M S A) :
  (b = true -> spec P m1 Q I) -> (b = false -> spec P m2 Q I) ->
  spec P (if b then m1 else m2) Q I.
Proof. destruct b; auto. Qed.

End spec_rules.

(** [keeps R m]: whatever the outcome of [m], the state it leaves is related
    by [R] to the state it started in.  For a preorder [R] this is closed under
    composition, which makes it the tool for the parts of a program a property
    does not depend on. *)
Definition keeps {S A : Type} (R : relation S) (m : M S A) : Prop :=
  forall s, match m s with Done _ s' | Looping s' => R s s' end.

Section keeps_rules.
Context {S : Type} (R : relation S) `{!PreOrder R}.

Lemma keeps_ret {A} (a : A) : keeps R (mret a).
Proof. intros s. simpl. reflexivity. Qed.

Lemma keeps_get {A} (f : S -> A) : keeps R (mget f).
Proof. intros s. simpl. reflexivity. Qed.

Lemma keeps_block {A} : keeps R (block (A := A)).
Proof. intros s. simpl. reflexivity. Qed.

Lemma keeps_put (f : S -> S) : (forall s, R s (f s)) -> keeps R (mput f).
Proof. intros H s. apply H. Qed.

Lemma keeps_bind {A B} (m : M S A) (k : A -> M S B) :
  keeps R m -> (forall a, keeps R (k a)) -> keeps R (mbind m k).
Proof.
  intros Hm Hk s. unfold mbind. specialize (Hm s).
  destruct (m s) as [a s'|s']; [|done]. specialize (Hk a s').
  destruct (k a s'); by etrans.
Qed.

Lemma keeps_iterate {X A} (body : X -> M S (X + A)) :
  (forall x, keeps R (body x)) -> forall fuel x, keeps R (iterate fuel body x).
Proof.
  intros Hb. induction fuel as [|fuel IH]; intros x; simpl.
  - intros s. reflexivity.
  - apply keeps_bind; [apply Hb|]. intros [x'|a]; [apply IH|apply keeps_ret].
Qed.

Lemma keeps_mono {A} (R' : relation S) (m : M S A) :
  (forall s s', R' s s' -> R s s') -> keeps R' m -> keeps R m.
Proof. intros HR Hm s. specialize (Hm s). destruct (m s); auto. Qed.

(** A property the relation preserves is an invariant of the program. *)
Lemma spec_keeps {A} (P : S -> Prop) (m : M S A) :
  keeps R m -> (forall s s', R s s' -> P s -> P s') -> spec P m (fun _ => P) P.
Proof. intros Hm HP s Hs. specialize (Hm s). destruct (m s); eauto. Qed.

End keeps_rules.

(** A run that returns with some fuel returns the same with more. *)
Lemma iterate_mono {S X A} (body : X -> M S (X + A)) fuel fuel' x s a s' :
  fuel <= fuel' ->
  iterate fuel body x s = Done a s' -> iterate fuel' body x s = Done a s'.
Proof.
  revert fuel' x s. induction fuel as [|fuel IH]; intros fuel' x s Hle Hrun; [done|].
  destruct fuel' as [|fuel']; [lia|]. simpl in *. unfold mbind in *.
  destruct (body x s) as [[x'|b] s1|s1]; [|done|done].
  apply IH; [lia|done].
Qed.

#[export] Hint Resolve spec_ret spec_get spec_put : bm.
#[export] Hint Resolve keeps_ret keeps_get keeps_put keeps_block : bm.

(** Prove [keeps R m] along the structure of [m]: a bind, a conditional, a
    match, a loop or a hint of [bm] at the leaves. *)
Ltac keeps_step :=
  match goal with
  | |- keeps _ (mbind _ _) => apply keeps_bind; [try apply _| |intro]
  | |- keeps _ (mret _) => apply keeps_ret; try apply _
  | |- keeps _ (mget _) => apply keeps_get; try apply _
  | |- keeps _ block => apply keeps_block; try apply _
  | |- keeps _ (match ?x with _ => _ end) => destruct x
  | |- keeps _ (if ?b then _ else _) => destruct b
  | |- keeps _ (iterate _ _ _) => apply keeps_iterate; [try apply _|intro]
  end.
Ltac keeps_tac := repeat first [solve [eauto with bm] | keeps_step].

(** ** Reachability *)

(** A property that every step preserves holds in every reachable state. *)
Lemma rtc_invariant {A} (R : relation A) (P : A -> Prop) a b :
  (forall x y, R x y -> P x -> P y) -> P a -> rtc R a b -> P b.
Proof. intros Hstep Ha Hr. induction Hr; eauto. Qed.
