(* ===== verification/Errors.v ===== *)
(** The error values of the code, as an interface.

    The code builds and classifies its errors with the third-party package
    github.com/grailbio/base/errors, which is not part of the repository.  It
    is a type class here: [ErrorsLib] lists the operations the code calls and
    [ErrorsLaws] the documented behaviour the theorems rely on.  Every
    definition that returns an error is parametrised by [ErrorsLib]; only
    theorems assume [ErrorsLaws].  [SimpleErrors] is a concrete instance used
    to evaluate the definitions. *)
From S2P Require Import Prelude.

(** The error kinds and severities the code names. *)
Inductive Kind := Other | Net | Invalid | Unavailable | OOM | Remote | Precondition | NotSupported.
Inductive Severity := Unknown | Retriable | Temporary | Fatal.

#[export] Instance Kind_eq_dec : EqDecision Kind.
Proof. solve_decision. Defined.
#[export] Instance Severity_eq_dec : EqDecision Severity.
Proof. solve_decision. Defined.

(** The arguments of errors.E: it is variadic and tells them apart by type. *)
Inductive earg (error : Type) : Type :=
| AKind (k : Kind)
| ASev (s : Severity)
| AMsg (m : string)
| AErr (e : error).
Arguments AKind {error} k.
Arguments ASev {error} s.
Arguments AMsg {error} m.
Arguments AErr {error} e.

Class ErrorsLib := {
  (** Go's [error] interface values other than nil, with Go's [==]. *)
  error : Type;
  #[global] error_eq_dec :: EqDecision error;
  (** errors.E, errors.Recover, errors.Is, errors.Match, errors.IsTemporary. *)
  E : list (earg error) -> error;
  Recover : error -> error;
  Is : Kind -> error -> bool;
  Match : error -> error -> bool;
  IsTemporary : error -> bool;
  (** errors.New and fmt.Errorf, with the formatted message. *)
  New : string -> error;
  (** The Error() method. *)
  Error : error -> string;
  (** context.Canceled and context.DeadlineExceeded. *)
  Canceled : error;
  DeadlineExceeded : error
}.

Section args.
Context {error : Type}.

(** The kind and severity an argument list of errors.E sets explicitly. *)
Fixpoint arg_kind (args : list (earg error)) : option Kind :=
  match args with
  | [] => None
  | AKind k :: rest => Some (default k (arg_kind rest))
  | _ :: rest => arg_kind rest
  end.

Fixpoint arg_sev (args : list (earg error)) : option Severity :=
  match args with
  | [] => None
  | ASev s :: rest => Some (default s (arg_sev rest))
  | _ :: rest => arg_sev rest
  end.
End args.

(** The documented behaviour of the package: a kind or severity given to
    errors.E is the one errors.Is, errors.Match and errors.IsTemporary see. *)
Class ErrorsLaws {EL : ErrorsLib} : Prop := {
  Is_E : forall args k k',
    arg_kind args = Some k -> k <> Other -> Is k' (E args) = bool_decide (k' = k);
  Match_Fatal_E : forall args s,
    arg_sev args = Some s -> Match (E [ASev Fatal]) (E args) = bool_decide (s = Fatal);
  IsTemporary_E : forall args s,
    arg_sev args = Some s -> s <> Unknown ->
    IsTemporary (E args) = bool_decide (s <> Fatal);
  Is_Net_Canceled : Is Net Canceled = false;
  Is_Net_DeadlineExceeded : Is Net DeadlineExceeded = false;
  Canceled_ne_DeadlineExceeded : Canceled <> DeadlineExceeded
}.
Arguments ErrorsLaws _ : clear implicits.

(** ** A concrete instance, for evaluation *)

Inductive serror :=
| SErr (k : Kind) (s : Severity) (m : string)
| SWrap (k : Kind) (s : Severity) (m : string) (cause : serror)
| SCtx (deadline : bool)
| SOther (m : string).

#[export] Instance serror_eq_dec : EqDecision serror.
Proof. solve_decision. Defined.

Fixpoint arg_cause (args : list (earg serror)) : option serror :=
  match args with
  | [] => None
  | AErr e :: rest => Some (default e (arg_cause rest))
  | _ :: rest => arg_cause rest
  end.

Fixpoint arg_msg (args : list (earg serror)) : string :=
  match args with
  | [] => ""
  | AMsg m :: rest => m +:+ arg_msg rest
  | _ :: rest => arg_msg rest
  end.

Definition serror_E (args : list (earg serror)) : serror :=
  let k := default Other (arg_kind args) in
  let s := default Unknown (arg_sev args) in
  match arg_cause args with
  | None => SErr k s (arg_msg args)
  | Some c => SWrap k s (arg_msg args) c
  end.

Fixpoint serror_kind (e : serror) : Kind :=
  match e with
  | SErr k _ _ => k
  | SWrap Other _ _ c => serror_kind c
  | SWrap k _ _ _ => k
  | _ => Other
  end.

Definition serror_sev (e : serror) : Severity :=
  match e with
  | SErr _ s _ | SWrap _ s _ _ => s
  | _ => Unknown
  end.

Definition serror_Recover (e : serror) : serror :=
  match e with
  | SErr _ _ _ | SWrap _ _ _ _ => e
  | _ => SWrap Other Unknown "" e
  end.

Fixpoint serror_Error (e : serror) : string :=
  match e with
  | SErr _ _ m | SOther m => m
  | SWrap _ _ m c => m +:+ serror_Error c
  | SCtx true => "context deadline exceeded"
  | SCtx false => "context canceled"
  end.

#[export] Instance SimpleErrors : ErrorsLib := {|
  error := serror;
  error_eq_dec := serror_eq_dec;
  E := serror_E;
  Recover := serror_Recover;
  Is := fun k e => bool_decide (k = serror_kind e);
  Match := fun e1 e2 => bool_decide (serror_sev e1 = Unknown \/ serror_sev e1 = serror_sev e2);
  IsTemporary := fun e => bool_decide (serror_sev e = Temporary \/ serror_sev e = Retriable);
  New := SOther;
  Error := serror_Error;
  Canceled := SCtx false;
  DeadlineExceeded := SCtx true
|}.

Lemma serror_E_kind args k :
  arg_kind args = Some k -> k <> Other -> serror_kind (serror_E args) = k.
Proof.
  intros Hk Hne. unfold serror_E. rewrite Hk.
  destruct (arg_cause args); simpl; [by destruct k|done].
Qed.

Lemma serror_E_sev args s :
  arg_sev args = Some s -> serror_sev (serror_E args) = s.
Proof. intros Hs. unfold serror_E. rewrite Hs. by destruct (arg_cause args). Qed.

#[export] Instance SimpleErrors_laws : ErrorsLaws SimpleErrors.
Proof.
  constructor; simpl.
  - intros args k k' Hk Hne. by rewrite (serror_E_kind args k).
  - intros args s Hs. rewrite (serror_E_sev args s Hs). apply bool_decide_ext.
    unfold serror_E; simpl. naive_solver.
  - intros args s Hs Hne. rewrite (serror_E_sev args s Hs).
    apply bool_decide_ext. destruct s; naive_solver.
  - done.
  - done.
  - done.
Qed.
