(* ===== verification/GoStrings.v ===== *)
(** The functions of Go's packages strings and path that the code uses, on
    byte strings, with their lemmas. *)
From S2P Require Import Prelude.
From Stdlib Require Import Ascii.
From Stdlib Require String.
From stdpp Require Import pretty.
Local Open Scope string_scope.

Abbreviation SLASH := "/"%char.
Abbreviation DOT := "."%char.
Abbreviation NEWLINE := "010"%char.

(** ** Definitions *)

(** Does the byte occur in the string? *)
Fixpoint has_byte (c : ascii) (s : string) : bool :=
  match s with
  | EmptyString => false
  | String a r => bool_decide (a = c) || has_byte c r
  end.

(** strings.HasPrefix *)
Fixpoint HasPrefix (s p : string) : bool :=
  match p, s with
  | EmptyString, _ => true
  | String a p', String b s' => bool_decide (a = b) && HasPrefix s' p'
  | _, _ => false
  end.

(** strings.Contains *)
Fixpoint Contains (s sub : string) : bool :=
  HasPrefix s sub ||
  match s with
  | EmptyString => false
  | String _ s' => Contains s' sub
  end.

(** bytes.HasSuffix *)
Fixpoint HasSuffix (s suffix : string) : bool :=
  bool_decide (s = suffix) ||
  match s with
  | EmptyString => false
  | String _ s' => HasSuffix s' suffix
  end.

(** strings.TrimRight(s, cutset) for a cutset of one byte. *)
Fixpoint TrimRight (s : string) (c : ascii) : string :=
  match s with
  | EmptyString => EmptyString
  | String a r =>
      match TrimRight r c with
      | EmptyString => if bool_decide (a = c) then EmptyString else String a EmptyString
      | r' => String a r'
      end
  end.

(** strings.SplitN(s, sep, 2) for a separator of one byte: the part before
    the first separator and, if there is one, the part after it. *)
Fixpoint SplitN2 (s : string) (c : ascii) : string * option string :=
  match s with
  | EmptyString => (EmptyString, None)
  | String a r =>
      if bool_decide (a = c) then (EmptyString, Some r)
      else let '(x, y) := SplitN2 r c in (String a x, y)
  end.

(** The part after the last occurrence of a byte. *)
Fixpoint after_last (s : string) (c : ascii) : option string :=
  match s with
  | EmptyString => None
  | String a r =>
      match after_last r c with
      | Some x => Some x
      | None => if bool_decide (a = c) then Some r else None
      end
  end.

(** The part before the last occurrence of a byte. *)
Fixpoint before_last (s : string) (c : ascii) : option string :=
  match s with
  | EmptyString => None
  | String a r =>
      match before_last r c with
      | Some x => Some (String a x)
      | None => if bool_decide (a = c) then Some EmptyString else None
      end
  end.

(** net.SplitHostPort; [None] is an error. *)
Definition SplitHostPort (hostport : string) : option (string * string) :=
  match before_last hostport ":"%char, after_last hostport ":"%char with
  | Some before, Some port =>
      match hostport with
      | String "["%char r =>
          match SplitN2 r "]"%char with
          | (host, Some (String ":"%char p)) =>
              if has_byte ":"%char p || has_byte "["%char r || has_byte "]"%char p then None else Some (host, p)
          | _ => None
          end
      | _ => if has_byte ":"%char before || has_byte "["%char hostport || has_byte "]"%char hostport
             then None else Some (before, port)
      end
  | _, _ => None
  end.

(** path.Base *)
Definition Base (path : string) : string :=
  if bool_decide (path = EmptyString) then "."
  else
    let p := TrimRight path SLASH in
    let p := default p (after_last p SLASH) in
    if bool_decide (p = EmptyString) then "/" else p.

(** strings.Split(s, sep) for a separator of one byte. *)
Fixpoint Split (s : string) (c : ascii) : list string :=
  match s with
  | EmptyString => [EmptyString]
  | String a r =>
      if bool_decide (a = c) then EmptyString :: Split r c
      else match Split r c with
           | [] => [String a EmptyString]
           | x :: xs => String a x :: xs
           end
  end.

(** strings.Join(elems, sep) *)
Fixpoint Join (elems : list string) (sep : string) : string :=
  match elems with
  | [] => EmptyString
  | [x] => x
  | x :: xs => x +:+ sep +:+ Join xs sep
  end.

(** The white space of net/textproto: blank, tab, newline, carriage return. *)
Definition isASCIISpace (c : ascii) : bool :=
  bool_decide (c = " "%char) || bool_decide (c = "009"%char) ||
  bool_decide (c = NEWLINE) || bool_decide (c = "013"%char).

Fixpoint TrimLeftSpace (s : string) : string :=
  match s with
  | EmptyString => EmptyString
  | String c r => if isASCIISpace c then TrimLeftSpace r else s
  end.

Fixpoint TrimRightSpace (s : string) : string :=
  match s with
  | EmptyString => EmptyString
  | String c r =>
      match TrimRightSpace r with
      | EmptyString => if isASCIISpace c then EmptyString else String c EmptyString
      | r' => String c r'
      end
  end.

(** textproto.TrimString *)
Definition TrimString (s : string) : string := TrimRightSpace (TrimLeftSpace s).

(** The replacer with which net/http writes header values: newlines and
    carriage returns become blanks. *)
Fixpoint headerNewlineToSpace (s : string) : string :=
  match s with
  | EmptyString => EmptyString
  | String c r =>
      String (if bool_decide (c = NEWLINE) || bool_decide (c = "013"%char) then " "%char else c)
        (headerNewlineToSpace r)
  end.

(** httpguts.ValidHeaderFieldValue: no control bytes but tabs. *)
Definition isCTL (c : ascii) : bool := (nat_of_ascii c <? 32)%nat || (nat_of_ascii c =? 127)%nat.

Fixpoint ValidHeaderFieldValue (s : string) : bool :=
  match s with
  | EmptyString => true
  | String c r => negb (isCTL c && negb (bool_decide (c = "009"%char))) && ValidHeaderFieldValue r
  end.

(** ** Lemmas *)

(** A valid value has no newlines to replace. *)
Lemma headerNewlineToSpace_valid s : ValidHeaderFieldValue s = true -> headerNewlineToSpace s = s.
Proof.
  induction s as [|c s IH]; [done|]. cbn [ValidHeaderFieldValue headerNewlineToSpace].
  intros [Hc Hs]%andb_prop. rewrite (IH Hs). f_equal.
  destruct (decide (c = NEWLINE)) as [->|H1]; [done|].
  destruct (decide (c = "013"%char)) as [->|H2]; [done|].
  by rewrite !bool_decide_eq_false_2.
Qed.

#[local] Arguments String.append !_ _ / : simpl nomatch.

Lemma sapp_nil_r s : s +:+ EmptyString = s.
Proof. induction s as [|a s IH]; simpl; [done|]. by f_equal. Qed.

Lemma sapp_assoc s t u : (s +:+ t) +:+ u = s +:+ t +:+ u.
Proof. induction s as [|a s IH]; simpl; [done|]. by f_equal. Qed.

Lemma sapp_length s t : String.length (s +:+ t) = String.length s + String.length t.
Proof. induction s as [|a s IH]; simpl; [done|]. by f_equal. Qed.

Lemma sapp_inj_r s s' t : s +:+ t = s' +:+ t -> s = s'.
Proof.
  revert s'. induction s as [|a s IH]; intros [|b s'] H; simpl in *; try done.
  - apply (f_equal String.length) in H. simpl in H. rewrite sapp_length in H. lia.
  - apply (f_equal String.length) in H. simpl in H. rewrite sapp_length in H. lia.
  - injection H as -> H. f_equal. by apply IH.
Qed.

Lemma Join_cons x xs : Join (x :: xs) "" = x +:+ Join xs "".
Proof. destruct xs; [by rewrite sapp_nil_r|done]. Qed.

Lemma SplitN2_app s t c :
  has_byte c s = false -> SplitN2 (s +:+ String c t) c = (s, Some t).
Proof.
  induction s as [|a s IH]; simpl; intros H.
  - by rewrite bool_decide_eq_true_2.
  - apply orb_false_iff in H as [Ha Hs]. rewrite Ha, (IH Hs). done.
Qed.

Lemma after_last_none s c : has_byte c s = false -> after_last s c = None.
Proof.
  induction s as [|a s IH]; simpl; intros H; [done|].
  apply orb_false_iff in H as [Ha Hs]. rewrite (IH Hs), Ha. done.
Qed.

Lemma after_last_app s t c :
  has_byte c t = false -> after_last (s +:+ String c t) c = Some t.
Proof.
  intros Ht. induction s as [|a s IH]; simpl.
  - rewrite (after_last_none t c Ht). by rewrite bool_decide_eq_true_2.
  - by rewrite IH.
Qed.

Lemma TrimRight_id s t c :
  t <> EmptyString -> has_byte c t = false -> TrimRight (s +:+ t) c = s +:+ t.
Proof.
  intros Hne Ht.
  assert (H : TrimRight t c = t).
  { clear s Hne. induction t as [|a t IH]; simpl in *; [done|].
    apply orb_false_iff in Ht as [Ha Ht]. rewrite (IH Ht), Ha. by destruct t. }
  induction s as [|a s IH]; simpl; [done|]. rewrite IH.
  destruct (s +:+ t) eqn:Hst; [|done].
  destruct s; [|done]. simpl in Hst. by rewrite Hst in Hne.
Qed.

Lemma Base_app pre name :
  name <> EmptyString -> has_byte SLASH name = false -> Base (pre +:+ String SLASH name) = name.
Proof.
  intros Hne Hs. unfold Base.
  rewrite bool_decide_eq_false_2 by (by destruct pre).
  replace (pre +:+ String SLASH name) with ((pre +:+ "/") +:+ name)
    by by rewrite sapp_assoc.
  rewrite TrimRight_id by done. rewrite sapp_assoc. simpl.
  rewrite after_last_app by done. simpl. by rewrite bool_decide_eq_false_2.
Qed.

Lemma has_byte_app c s t : has_byte c (s +:+ t) = has_byte c s || has_byte c t.
Proof. induction s as [|a s IH]; simpl; [done|]. by rewrite IH, orb_assoc. Qed.

Lemma Split_cons s c : exists x xs, Split s c = x :: xs.
Proof.
  destruct s as [|b s]; simpl; [by eexists _, _|].
  case_bool_decide; [by eexists _, _|]. destruct (Split s c); by eexists _, _.
Qed.

Lemma Split_no_sep l c : has_byte c l = false -> Split l c = [l].
Proof.
  induction l as [|a l IH]; simpl; intros H; [done|].
  apply orb_false_iff in H as [Ha Hl]. rewrite Ha, (IH Hl). done.
Qed.

Lemma SplitN2_none s c : has_byte c s = false -> SplitN2 s c = (s, None).
Proof.
  induction s as [|a s IH]; simpl; intros H; [done|].
  apply orb_false_iff in H as [Ha Hs]. by rewrite Ha, (IH Hs).
Qed.

Lemma Split_prepend t c s x xs :
  has_byte c t = false -> Split s c = x :: xs -> Split (t +:+ s) c = (t +:+ x) :: xs.
Proof.
  intros Ht Hs. induction t as [|a t IH]; simpl in *; [done|].
  apply orb_false_iff in Ht as [-> Ht]. by rewrite (IH Ht).
Qed.

Lemma Split_app l c r : has_byte c l = false -> Split (l +:+ String c r) c = l :: Split r c.
Proof.
  induction l as [|a l IH]; simpl; intros H.
  - by rewrite bool_decide_eq_true_2.
  - apply orb_false_iff in H as [Ha Hl]. by rewrite Ha, (IH Hl).
Qed.

Lemma Split_Join_app ls c r :
  ls <> [] -> Forall (fun l => has_byte c l = false) ls ->
  Split (Join ls (String c EmptyString) +:+ String c r) c = (ls ++ Split r c)%list.
Proof.
  intros Hne Hall. induction Hall as [|l ls Hl Hall IH]; [done|].
  destruct ls as [|l' ls]; [by apply Split_app|].
  change (Join (l :: l' :: ls) (String c EmptyString))
    with (l +:+ String c EmptyString +:+ Join (l' :: ls) (String c EmptyString)).
  rewrite !sapp_assoc.
  change (String c EmptyString +:+ Join (l' :: ls) (String c EmptyString) +:+ String c r)
    with (String c (Join (l' :: ls) (String c EmptyString) +:+ String c r)).
  rewrite Split_app by done. by rewrite (IH ltac:(done)).
Qed.

Lemma Split_Join s c : Join (Split s c) (String c EmptyString) = s.
Proof.
  induction s as [|a s IH]; simpl; [done|].
  destruct (Split_cons s c) as (x & xs & Hs).
  rewrite Hs in IH |- *. case_bool_decide as Ha.
  - subst a. simpl in *. by f_equal.
  - simpl in *. destruct xs; simpl in *; by f_equal.
Qed.

Lemma HasPrefix_app s t u : HasPrefix (s +:+ t) (s +:+ u) = HasPrefix t u.
Proof.
  induction s as [|a s IH]; simpl; [done|]. rewrite bool_decide_eq_true_2 by done. apply IH.
Qed.

Lemma HasPrefix_refl s : HasPrefix s s = true.
Proof. induction s as [|a s IH]; simpl; [done|]. by rewrite bool_decide_eq_true_2. Qed.

Lemma substring_all s : String.substring 0 (String.length s) s = s.
Proof. induction s as [|a s IH]; simpl; [done|]. by rewrite IH. Qed.

(** Cutting off a prefix. *)
Lemma substring_app s t :
  String.substring (String.length s) (String.length (s +:+ t) - String.length s) (s +:+ t) = t.
Proof.
  replace (String.length (s +:+ t) - String.length s) with (String.length t) by (rewrite sapp_length; lia).
  induction s as [|a s IH]; simpl; [apply substring_all|exact IH].
Qed.

(** Trailing bytes of the cutset. *)
Lemma TrimRight_last s t c :
  t <> EmptyString -> has_byte c t = false -> TrimRight ((s +:+ t) +:+ String c EmptyString) c = s +:+ t.
Proof.
  intros Hne Hb. rewrite sapp_assoc.
  assert (H : TrimRight (t +:+ String c EmptyString) c = t).
  { clear Hne. induction t as [|a t IH]; simpl; [by rewrite bool_decide_eq_true_2|].
    simpl in Hb. apply orb_false_iff in Hb as [Ha Hb]. rewrite (IH Hb).
    destruct t; [by rewrite Ha|done]. }
  induction s as [|a s IH]; simpl; [done|]. rewrite IH.
  destruct s; simpl; [by destruct t|done].
Qed.

(** Decimal numbers. *)
Lemma pretty_N_go_bytes c n s :
  (forall d, pretty_N_char d <> c) -> has_byte c (pretty_N_go n s) = has_byte c s.
Proof.
  intros Hc. revert s. induction (N.lt_wf_0 n) as [n _ IH]. intros s.
  destruct (decide (0 < n)%N) as [Hn|Hn].
  - rewrite pretty_N_go_step by done. rewrite IH by (apply N.div_lt; lia). simpl.
    by rewrite bool_decide_eq_false_2.
  - assert (n = 0%N) as -> by lia. by rewrite pretty_N_go_0.
Qed.

Lemma pretty_bytes c (n : N) :
  (forall d, pretty_N_char d <> c) -> c <> "0"%char -> has_byte c (pretty n) = false.
Proof.
  intros Hc H0. unfold pretty, pretty_N. case_decide.
  - simpl. by rewrite bool_decide_eq_false_2.
  - by rewrite pretty_N_go_bytes.
Qed.

(** Hosts with their ports. *)
Lemma before_last_none s c : has_byte c s = false -> before_last s c = None.
Proof.
  induction s as [|a s IH]; simpl; intros H; [done|].
  apply orb_false_iff in H as [Ha Hs]. by rewrite (IH Hs), Ha.
Qed.

Lemma before_last_app s t c :
  has_byte c t = false -> before_last (s +:+ String c t) c = Some s.
Proof.
  intros Ht. induction s as [|a s IH]; simpl.
  - by rewrite before_last_none, bool_decide_eq_true_2.
  - by rewrite IH.
Qed.

Lemma SplitHostPort_bare host : has_byte ":"%char host = false -> SplitHostPort host = None.
Proof. intros H. unfold SplitHostPort. by rewrite before_last_none. Qed.

Lemma SplitHostPort_port host port :
  has_byte ":"%char host = false -> has_byte "["%char (host +:+ port) = false ->
  has_byte "]"%char (host +:+ port) = false -> has_byte ":"%char port = false ->
  SplitHostPort (host +:+ String ":"%char port) = Some (host, port).
Proof.
  intros Hc Hl Hr Hp. unfold SplitHostPort. rewrite before_last_app, after_last_app by done.
  rewrite has_byte_app in Hl, Hr. apply orb_false_iff in Hl as [Hl Hl']. apply orb_false_iff in Hr as [Hr Hr'].
  assert (Hb : forall c, has_byte c host = false -> has_byte c port = false -> c <> ":"%char ->
    has_byte c (host +:+ String ":"%char port) = false).
  { intros c H1 H2 Hne. rewrite has_byte_app, H1. simpl. by rewrite H2, bool_decide_eq_false_2. }
  rewrite Hc, (Hb "["%char), (Hb "]"%char) by done.
  destruct host as [|a host]; [done|]. simpl. simpl in Hl. apply orb_false_iff in Hl as [Ha _].
  apply bool_decide_eq_false in Ha. by destruct a as [[] [] [] [] [] [] [] []].
Qed.
