(* ===== verification/Html.v ===== *)
(** What packages html/template and net/url do with the strings the program
    puts into pages, links and unit files: escaping, by the context a value
    stands in, and how the reader of a page and the server undo it. *)
From S2P Require Import Prelude GoStrings.
From Stdlib Require Import Ascii.
Local Open Scope string_scope.
Local Open Scope list_scope.

Abbreviation QUOTE := "034"%char.

(** ** Escaping for HTML *)

(** htmlReplacementTable; NUL becomes U+FFFD. *)
Definition escape_char (c : ascii) : string :=
  if bool_decide (c = "&"%char) then "&amp;"
  else if bool_decide (c = "<"%char) then "&lt;"
  else if bool_decide (c = ">"%char) then "&gt;"
  else if bool_decide (c = "'"%char) then "&#39;"
  else if bool_decide (c = "+"%char) then "&#43;"
  else if bool_decide (c = QUOTE) then "&#34;"
  else if bool_decide (c = "000"%char) then String "239" (String "191" (String "189" ""))
  else String c "".

Fixpoint escape (s : string) : string :=
  match s with
  | EmptyString => ""
  | String c r => escape_char c +:+ escape r
  end.

(** The character references that [escape] makes, after the ampersand. *)
Definition entities : list (string * ascii) :=
  [("amp;", "&"%char); ("lt;", "<"%char); ("gt;", ">"%char); ("#39;", "'"%char); ("#43;", "+"%char);
   ("#34;", QUOTE)].

Fixpoint find_entity (l : list (string * ascii)) (s : string) : option (ascii * nat) :=
  match l with
  | [] => None
  | (name, c) :: l => if HasPrefix s name then Some (c, String.length name) else find_entity l s
  end.

(** How a reader of HTML undoes them; [skip] bytes belong to a reference. *)
Fixpoint unescape_from (skip : nat) (s : string) : string :=
  match s with
  | EmptyString => ""
  | String c r =>
      match skip with
      | S k => unescape_from k r
      | O => if bool_decide (c = "&"%char) then
               match find_entity entities r with
               | Some (b, n) => String b (unescape_from n r)
               | None => String c (unescape_from 0 r)
               end
             else String c (unescape_from 0 r)
      end
  end.

Definition unescape : string -> string := unescape_from 0.

(** ** Escaping for URLs *)

Definition unreserved (c : ascii) : bool :=
  let n := N_of_ascii c in
  ((97 <=? n) && (n <=? 122) || (65 <=? n) && (n <=? 90) || (48 <=? n) && (n <=? 57))%N
  || has_byte c "-._~".

Definition reserved (c : ascii) : bool := has_byte c "!#$&*+,/:;=?@[]".

(** The value of a hexadecimal digit. *)
Definition unhex (c : ascii) : option N :=
  let n := N_of_ascii c in
  if ((48 <=? n) && (n <=? 57))%N then Some (n - 48)%N
  else if ((97 <=? n) && (n <=? 102))%N then Some (n - 87)%N
  else if ((65 <=? n) && (n <=? 70))%N then Some (n - 55)%N
  else None.

Definition hex_digit (n : N) : ascii := ascii_of_N (if (n <? 10)%N then 48 + n else 87 + n).

(** fmt's %%%02x of a byte. *)
Definition percent (c : ascii) : string :=
  let n := N_of_ascii c in
  String "%" (String (hex_digit (n / 16)) (String (hex_digit (n mod 16)) "")).

Definition is_escape (s : string) : bool :=
  match s with
  | String h (String l _) => bool_decide (is_Some (unhex h)) && bool_decide (is_Some (unhex l))
  | _ => false
  end.

(** processURLOnto: urlescaper with [norm] false, urlnormalizer with true. *)
Fixpoint processURL (norm : bool) (s : string) : string :=
  match s with
  | EmptyString => ""
  | String c r =>
      (if unreserved c || norm && (reserved c || bool_decide (c = "%"%char) && is_escape r)
       then String c "" else percent c) +:+ processURL norm r
  end.

(** strings.EqualFold of two ASCII texts. *)
Definition lower (c : ascii) : ascii :=
  let n := N_of_ascii c in if ((65 <=? n) && (n <=? 90))%N then ascii_of_N (n + 32) else c.

Fixpoint map_string (f : ascii -> ascii) (s : string) : string :=
  match s with EmptyString => "" | String c r => String (f c) (map_string f r) end.

Definition EqualFold (s t : string) : bool := bool_decide (map_string lower s = map_string lower t).

(** isSafeURL and urlFilter *)
Definition isSafeURL (s : string) : bool :=
  match SplitN2 s ":"%char with
  | (protocol, Some _) =>
      has_byte SLASH protocol || EqualFold protocol "http" || EqualFold protocol "https" ||
      EqualFold protocol "mailto"
  | (_, None) => true
  end.

Definition urlFilter (s : string) : string := if isSafeURL s then s else "#ZgotmplZ".

(** A value at the start of a quoted URL attribute, and in its query. *)
Definition url_start (s : string) : string := escape (processURL true (urlFilter s)).
Definition url_query (s : string) : string := escape (processURL false s).

(** ** Reading URLs *)

(** url.PathUnescape, or url.QueryUnescape if [query]; [None] is an error. *)
Fixpoint url_unescape (query : bool) (s : string) : option string :=
  match s with
  | EmptyString => Some ""
  | String c r =>
      if bool_decide (c = "%"%char) then
        match r with
        | String h (String l r) =>
            match unhex h, unhex l with
            | Some h, Some l => String (ascii_of_N (16 * h + l)) <$> url_unescape query r
            | _, _ => None
            end
        | _ => None
        end
      else String (if query && bool_decide (c = "+"%char) then " "%char else c) <$> url_unescape query r
  end.

(** url.ParseQuery; what has an error is left out.  (Go before 1.17 also splits
    at semicolons.) *)
Definition query_pair (s : string) : option (string * string) :=
  if has_byte ";"%char s || bool_decide (s = "") then None
  else
    let '(k, v) := SplitN2 s "="%char in
    k ← url_unescape true k; v ← url_unescape true (default "" v); Some (k, v).

Definition ParseQuery (q : string) : list (string * string) := omap query_pair (Split q "&"%char).

(** Request.FormValue, for a request without a body. *)
Definition FormValue (q : list (string * string)) (key : string) : string :=
  match list_find (fun kv => kv.1 = key) q with Some (_, kv) => kv.2 | None => "" end.

(** ** Lemmas *)

#[local] Arguments String.append !_ _ / : simpl nomatch.

Lemma unescape_char c t :
  c <> "000"%char -> unescape (escape_char c +:+ t) = String c (unescape t).
Proof.
  intros H0. unfold escape_char.
  repeat case_bool_decide; subst; try (destruct t; by vm_compute); try done.
  unfold unescape. simpl. by rewrite bool_decide_eq_false_2.
Qed.

(** A text without NUL is read as it was before it was escaped, whatever follows. *)
Lemma unescape_escape s t :
  has_byte "000" s = false -> unescape (escape s +:+ t) = s +:+ unescape t.
Proof.
  induction s as [|c s IH]; simpl; [done|]. intros H. apply orb_false_iff in H as [Hc Hs].
  apply bool_decide_eq_false in Hc. by rewrite sapp_assoc, unescape_char, IH.
Qed.

Lemma unescape_escape_all s : has_byte "000" s = false -> unescape (escape s) = s.
Proof.
  intros H. pose proof (unescape_escape s "" H) as E. by rewrite !sapp_nil_r in E.
Qed.

Lemma unescape_plain s t : has_byte "&" s = false -> unescape (s +:+ t) = s +:+ unescape t.
Proof.
  unfold unescape. induction s as [|c s IH]; simpl; [done|]. intros H.
  apply orb_false_iff in H as [-> Hs]. by rewrite IH.
Qed.

(** An escaped text has no markup: neither brackets nor quotes. *)
Definition markup (c : ascii) : bool := has_byte c (String QUOTE "<>'").

Lemma escape_char_markup m c : markup m = true -> has_byte m (escape_char c) = false.
Proof.
  unfold markup. intros Hm. simpl in Hm. rewrite orb_false_r in Hm.
  unfold escape_char.
  assert (m = QUOTE \/ m = "<"%char \/ m = ">"%char \/ m = "'"%char) as Hm'.
  { rewrite !orb_true_iff, !bool_decide_eq_true in Hm. naive_solver. }
  clear Hm. repeat case_bool_decide; subst; try (by destruct Hm' as [->|[->|[->| ->]]]).
  simpl. rewrite orb_false_r. apply bool_decide_eq_false. naive_solver.
Qed.

Lemma escape_markup m s : markup m = true -> has_byte m (escape s) = false.
Proof.
  intros Hm. induction s as [|c s IH]; simpl; [done|].
  by rewrite has_byte_app, escape_char_markup, IH.
Qed.

(** What is left as it is. *)
Definition special (c : ascii) : bool := has_byte c (String "000" (String QUOTE "&<>'+")).

Lemma escape_char_plain c : escape_char c = String c "" <-> special c = false.
Proof.
  unfold escape_char, special. simpl. rewrite orb_false_r, !orb_false_iff, !bool_decide_eq_false.
  repeat case_bool_decide; subst; split; intros H'; try done; naive_solver.
Qed.

Lemma escape_length s : String.length s <= String.length (escape s).
Proof.
  induction s as [|c s IH]; simpl; [done|]. rewrite sapp_length.
  assert (1 <= String.length (escape_char c)); [|lia].
  unfold escape_char. repeat case_bool_decide; simpl; lia.
Qed.

Lemma escape_id s : escape s = s <-> forall c, special c = true -> has_byte c s = false.
Proof.
  induction s as [|c s IH]; simpl; [by split|]. split.
  - intros H.
    assert (Hc : special c = false).
    { apply escape_char_plain. pose proof (escape_length s) as Hl.
      apply (f_equal String.length) in H as HL. rewrite sapp_length in HL. simpl in HL.
      assert (Hl1 : String.length (escape_char c) = 1) by
        (assert (1 <= String.length (escape_char c)) by
           (unfold escape_char; repeat case_bool_decide; simpl; lia); lia).
      destruct (escape_char c) as [|d [|]]; simpl in *; try lia. by simplify_eq. }
    apply escape_char_plain in Hc as Hc'. rewrite Hc' in H. simpl in H. simplify_eq.
    rewrite IH in *. intros d Hd. apply orb_false_iff. split; [|by eauto].
    apply bool_decide_eq_false. intros ->. congruence.
  - intros H. assert (special c = false) as Hc.
    { destruct (special c) eqn:Hc; [|done]. specialize (H c Hc).
      by rewrite bool_decide_eq_true_2 in H. }
    apply escape_char_plain in Hc as ->. simpl. f_equal. apply IH.
    intros d Hd. by apply H, orb_false_iff in Hd as [_ ?].
Qed.

(** Percent escapes are undone. *)
Lemma url_unescape_percent query c t :
  url_unescape query (percent c +:+ t) = String c <$> url_unescape query t.
Proof. by destruct c as [[] [] [] [] [] [] [] []]. Qed.

Lemma unreserved_read query c t :
  unreserved c = true -> url_unescape query (String c t) = String c <$> url_unescape query t.
Proof. by destruct c as [[] [] [] [] [] [] [] []], query. Qed.

Lemma url_unescape_query s t :
  url_unescape true (processURL false s +:+ t) = (String.append s) <$> url_unescape true t.
Proof.
  induction s as [|c s IH]; simpl; [by destruct (url_unescape true t)|].
  rewrite orb_false_r, sapp_assoc. destruct (unreserved c) eqn:Hc.
  - simpl ("" +:+ _). change (String c "" +:+ ?x) with (String c x).
    rewrite unreserved_read, IH by done. by destruct (url_unescape true t).
  - rewrite url_unescape_percent, IH. by destruct (url_unescape true t).
Qed.

Lemma url_unescape_path s t :
  has_byte "%" s = false ->
  url_unescape false (processURL true s +:+ t) = (String.append s) <$> url_unescape false t.
Proof.
  induction s as [|c s IH]; simpl; intros H; [by destruct (url_unescape false t)|].
  apply orb_false_iff in H as [Hc Hs]. rewrite Hc. simpl. rewrite orb_false_r, sapp_assoc.
  destruct (unreserved c || reserved c).
  - change (String c "" +:+ ?x) with (String c x). simpl. rewrite Hc, (IH Hs).
    by destruct (url_unescape false t).
  - rewrite url_unescape_percent, (IH Hs). by destruct (url_unescape false t).
Qed.

Lemma percent_bytes m c : unreserved m = false -> m <> "%"%char -> has_byte m (percent c) = false.
Proof.
  intros Hm Hp. destruct (has_byte m (percent c)) eqn:E; [|done]. exfalso. revert Hm Hp E.
  unfold percent. simpl. rewrite orb_false_r, !orb_true_iff, !bool_decide_eq_true.
  intros Hm Hp [<-|[<-|<-]]; [done| |]; by destruct c as [[] [] [] [] [] [] [] []].
Qed.

(** Which bytes an escaped URL has: the reserved ones are those of the text,
    and only with [norm]. *)
Lemma processURL_bytes m norm s :
  unreserved m = false -> m <> "%"%char ->
  has_byte m (processURL norm s) = norm && reserved m && has_byte m s.
Proof.
  intros Hm Hp. induction s as [|c s IH]; simpl; [by rewrite andb_false_r|].
  rewrite has_byte_app, IH, (andb_orb_distrib_r (norm && reserved m)). f_equal.
  destruct (unreserved c || _) eqn:Hk.
  - simpl. rewrite orb_false_r. destruct (decide (c = m)) as [->|Hne].
    + rewrite Hm, (bool_decide_eq_false_2 (m = "%"%char)) in Hk by done. simpl in Hk.
      rewrite orb_false_r in Hk. by rewrite Hk, bool_decide_eq_true_2.
    + by rewrite bool_decide_eq_false_2, andb_false_r.
  - rewrite percent_bytes by done. destruct (decide (c = m)) as [->|Hne].
    + apply orb_false_iff in Hk as [_ Hk]. destruct norm; [|done]. simpl in *.
      by apply orb_false_iff in Hk as [-> _].
    + by rewrite bool_decide_eq_false_2, andb_false_r.
Qed.

(** The parts of an escaped path are the escaped parts of the path. *)
Lemma Split_processURL s :
  has_byte "%" s = false -> Split (processURL true s) SLASH = processURL true <$> Split s SLASH.
Proof.
  induction s as [|c s IH]; simpl; intros H; [done|].
  apply orb_false_iff in H as [Hc Hs]. specialize (IH Hs). rewrite Hc. simpl. rewrite orb_false_r.
  destruct (Split_cons s SLASH) as (x & xs & Hx). rewrite Hx in IH |- *.
  destruct (decide (c = SLASH)) as [->|Hne].
  - rewrite bool_decide_eq_true_2 by done. simpl. by rewrite IH.
  - rewrite (bool_decide_eq_false_2 (c = _)) by done. simpl. rewrite Hc. simpl. rewrite orb_false_r.
    destruct (unreserved c || reserved c).
    + apply (Split_prepend (String c "")); [|done]. simpl. by rewrite bool_decide_eq_false_2.
    + apply Split_prepend; [by apply percent_bytes|done].
Qed.

Lemma processURL_inj s t :
  has_byte "%" s = false -> has_byte "%" t = false -> processURL true s = processURL true t -> s = t.
Proof.
  intros Hs Ht E. pose proof (url_unescape_path s "" Hs) as Es. pose proof (url_unescape_path t "" Ht) as Et.
  rewrite E, Et in Es. simpl in Es. rewrite !sapp_nil_r in Es. by simplify_eq.
Qed.

Example escaped_url : url_query "https://h:443/?a=b&c" = "https%3a%2f%2fh%3a443%2f%3fa%3db%26c".
Proof. reflexivity. Qed.

Example escaped_start : url_start <$> ["heap"; "a/b c"; "x:y"; "a&b"] = ["heap"; "a/b%20c"; "#ZgotmplZ"; "a&amp;b"].
Proof. reflexivity. Qed.
