(* ===== verification/MachineState.v ===== *)
(** The shared state of a Machine (src/machine.go): the state word, the error,
    the state waiters, the cancelers of the calls in flight and the ring of
    keepalive latencies, with the operations that are run under [m.mu].

    Channels and contexts are heap objects named by numbers: [closed] holds
    the channels that have been closed, [cancelled] the contexts whose cancel
    function ran.  The operations are functions on [world]; Module Threads
    interleaves their atomic parts. *)
From S2P Require Import Prelude Errors GoStrings.
From Stdlib Require Import Ascii.

(** ** Data *)

(** type State *)
Inductive State := Unstarted | Starting | Running | Stopped.

#[export] Instance State_eq_dec : EqDecision State.
Proof. solve_decision. Defined.

(** The numbering iota gives the states: the code compares states by value. *)
Definition State_val (s : State) : Z :=
  match s with
  | Unstarted => 0
  | Starting => 1
  | Running => 2
  | Stopped => 3
  end.

(** State.String: its panicking default case is not reachable from a value
    of the enumeration. *)
Definition State_String (s : State) : string :=
  match s with
  | Unstarted => "UNSTARTED"
  | Starting => "STARTING"
  | Running => "RUNNING"
  | Stopped => "STOPPED"
  end.

Notation "s ≤ₛ t" := (State_val s <= State_val t)%Z (at level 70) : bm_scope.
Notation "s <ₛ t" := (State_val s < State_val t)%Z (at level 70) : bm_scope.
Local Open Scope bm_scope.

Record stateWaiter := mkWaiter { wc : nat; wstate : State }.

#[export] Instance stateWaiter_eq_dec : EqDecision stateWaiter.
Proof. solve_decision. Defined.

Definition numKeepaliveReplyTimes : nat := 10.

(** An event as given to System.Event. *)
Inductive field := FStr (s : string) | FInt (z : Z).
Record event := Event { typ : string; fields : list (string * field) }.

Section data.
Context {EL : ErrorsLib}.

(** The fields of Machine that [m.mu] guards (and [Addr], which events carry). *)
Record Machine := mkMachine {
  Addr : string;
  state : State;
  err : option error;
  waiters : list stateWaiter;
  cancelers : gset nat;
  nextKeepalive : Z;
  numKeepalive : nat;
  keepaliveReplyTimes : list Z
}.

Record world := mkWorld {
  mach : Machine;
  closed : gset nat;
  cancelled : gset nat;
  next_id : nat;
  events : list event
}.

(** ** Field updates *)

Definition set_state (s : State) (m : Machine) : Machine :=
  mkMachine (Addr m) s (err m) (waiters m) (cancelers m)
    (nextKeepalive m) (numKeepalive m) (keepaliveReplyTimes m).
Definition set_err (e : option error) (m : Machine) : Machine :=
  mkMachine (Addr m) (state m) e (waiters m) (cancelers m)
    (nextKeepalive m) (numKeepalive m) (keepaliveReplyTimes m).
Definition set_waiters (ws : list stateWaiter) (m : Machine) : Machine :=
  mkMachine (Addr m) (state m) (err m) ws (cancelers m)
    (nextKeepalive m) (numKeepalive m) (keepaliveReplyTimes m).
Definition set_cancelers (cs : gset nat) (m : Machine) : Machine :=
  mkMachine (Addr m) (state m) (err m) (waiters m) cs
    (nextKeepalive m) (numKeepalive m) (keepaliveReplyTimes m).
Definition set_keepalive (next : Z) (n : nat) (times : list Z) (m : Machine) : Machine :=
  mkMachine (Addr m) (state m) (err m) (waiters m) (cancelers m) next n times.

Definition upd_mach (f : Machine -> Machine) (w : world) : world :=
  mkWorld (f (mach w)) (closed w) (cancelled w) (next_id w) (events w).
Definition add_event (e : event) (w : world) : world :=
  mkWorld (mach w) (closed w) (cancelled w) (next_id w) (events w ++ [e]).
Definition cancel_all (cs : gset nat) (w : world) : world :=
  mkWorld (mach w) (closed w) (cancelled w ∪ cs) (next_id w) (events w).
(** make(chan struct{}) or context.WithCancel: a fresh name. *)
Definition fresh_id (w : world) : nat * world :=
  (next_id w, mkWorld (mach w) (closed w) (cancelled w) (S (next_id w)) (events w)).
(** close(c). Closing a closed channel panics in Go; [Threads.no_double_close]
    shows that it does not happen. *)
Definition close_chan (c : nat) (w : world) : world :=
  mkWorld (mach w) ({[c]} ∪ closed w) (cancelled w) (next_id w) (events w).

(** ** Operations *)

(** Machine.Wait *)
Definition Wait (st : State) (w : world) : nat * world :=
  let '(c, w) := fresh_id w in
  if decide (st ≤ₛ state (mach w)) then (c, close_chan c w)
  else (c, upd_mach (fun m => set_waiters (waiters m ++ [mkWaiter c st]) m) w).

(** The part of Machine.setState that runs under [m.mu]: it returns the
    channels that are to be closed once the lock is released. *)
Definition setState_locked (s : State) (w : world) : list nat * world :=
  let ws := waiters (mach w) in
  let triggered := wc <$> filter (fun x => wstate x ≤ₛ s) ws in
  let w := upd_mach (set_waiters (filter (fun x => ~ (wstate x ≤ₛ s)) ws)) w in
  let w := upd_mach (set_state s) w in
  if decide (Stopped ≤ₛ s) then
    let w := cancel_all (cancelers (mach w)) w in
    let w := upd_mach (set_cancelers ∅) w in
    (triggered, add_event (Event "bigmachine:machineStop" [("addr", FStr (Addr (mach w)))]) w)
  else (triggered, w).

(** Machine.setState *)
Definition setState (s : State) (w : world) : world :=
  let '(triggered, w) := setState_locked s w in
  foldl (fun w c => close_chan c w) w triggered.

(** Machine.setError *)
Definition setError (e : error) (w : world) : world :=
  let w := upd_mach (set_err (Some e)) w in
  let w := setState Stopped w in
  add_event (Event "bigmachine:machineError"
    [("addr", FStr (Addr (mach w))); ("error", FStr (Error e))]) w.

(** Machine.context: the new context and whether its cancel function was
    entered in [m.cancelers]. *)
Definition context (w : world) : nat * world :=
  let '(ctx, w) := fresh_id w in
  if decide (Stopped ≤ₛ state (mach w)) then (ctx, cancel_all {[ctx]} w)
  else (ctx, upd_mach (fun m => set_cancelers ({[ctx]} ∪ cancelers m) m) w).

(** The function Machine.context returns: it drops the canceler.  (The one
    returned for a stopped machine does nothing, as deleting does then.) *)
Definition context_release (ctx : nat) (w : world) : world :=
  upd_mach (fun m => set_cancelers (cancelers m ∖ {[ctx]}) m) w.

(** The critical section of Machine.loop that records a keepalive reply. *)
Definition record_keepalive (elapsed next : Z) (m : Machine) : Machine :=
  set_keepalive next (S (numKeepalive m))
    (<[numKeepalive m mod length (keepaliveReplyTimes m) := elapsed]> (keepaliveReplyTimes m)) m.

(** Machine.KeepaliveReplyTimes *)
Definition KeepaliveReplyTimes (m : Machine) : list Z :=
  let n := length (keepaliveReplyTimes m) in
  let n := if numKeepalive m <? n then numKeepalive m else n in
  (fun i => default 0%Z (keepaliveReplyTimes m !! ((numKeepalive m - i - 1) mod n))) <$> seq 0 n.

(** Machine.State, Machine.Err and Machine.NextKeepalive: one access each. *)
Definition get_State (w : world) : State := state (mach w).
Definition get_Err (w : world) : option error := err (mach w).
Definition NextKeepalive (w : world) : Z := nextKeepalive (mach w).

(** Machine.errorf, with the text that fmt makes. *)
Definition errorf (text : string) (w : world) : world := setError (Errors.New text) w.

(** Machine.Hostname: the host that url.Parse finds in the address, if it can be
    parsed. *)
Definition Hostname (url_Host : string -> option string) (m : Machine) : string :=
  match url_Host (Addr m) with
  | None => "unknown"
  | Some host =>
      match SplitHostPort host with
      | Some (host, _) => host
      | None => host
      end
  end.

(** The zero Machine, and a world with it. *)
Definition newMachine (addr : string) : Machine :=
  mkMachine addr Unstarted None [] ∅ 0 0 (replicate numKeepaliveReplyTimes 0%Z).
Definition newWorld (addr : string) : world := mkWorld (newMachine addr) ∅ ∅ 0 [].

End data.

(** The host of an address, with a port as the machines of the local system have
    it, or without one as on EC2. *)
Lemma Hostname_host {EL : ErrorsLib} url_Host (m : Machine) (host port : string) :
  has_byte ":"%char host = false ->
  (url_Host (Addr m) = Some host -> Hostname url_Host m = host) /\
  (url_Host (Addr m) = Some (host +:+ String ":"%char port) -> has_byte ":"%char port = false ->
   has_byte "["%char (host +:+ port) = false -> has_byte "]"%char (host +:+ port) = false ->
   Hostname url_Host m = host).
Proof.
  intros Hc. unfold Hostname. split.
  - intros ->. by rewrite SplitHostPort_bare.
  - intros -> Hp Hl Hr. by rewrite SplitHostPort_port.
Qed.

Example Hostname_v6 {EL : ErrorsLib} :
  Hostname (fun _ => Some "[::1]:8000") (newMachine "https://[::1]:8000/") = "::1".
Proof. reflexivity. Qed.

(** ** The keepalive ring: a refinement of the history of latencies *)

Section ring.
Context {EL : ErrorsLib}.

(** [ring_rel h m]: the ring of [m] holds the newest entries of the history
    [h] of all reply latencies, newest first. *)
Definition ring_rel (h : list Z) (m : Machine) : Prop :=
  length (keepaliveReplyTimes m) = numKeepaliveReplyTimes /\
  numKeepalive m = length h /\
  forall i x, i < numKeepaliveReplyTimes -> h !! i = Some x ->
    keepaliveReplyTimes m !! ((length h - i - 1) mod numKeepaliveReplyTimes) = Some x.

Lemma ring_rel_new addr : ring_rel [] (newMachine addr).
Proof. split; [done|]. split; [done|]. intros i x _ H. done. Qed.

Lemma mod10_ne a b :
  a < b -> b - a < 10 -> a mod 10 <> b mod 10.
Proof.
  intros Hlt Hd Heq.
  pose proof (Nat.div_mod_eq a 10). pose proof (Nat.div_mod_eq b 10). lia.
Qed.

Lemma ring_rel_record h m x next :
  ring_rel h m -> ring_rel (x :: h) (record_keepalive x next m).
Proof.
  intros (Hlen & Hnum & Hh). unfold ring_rel, record_keepalive; simpl.
  rewrite length_insert, Hlen, Hnum. split; [done|]. split; [done|].
  intros i y Hi Hy. unfold numKeepaliveReplyTimes in *.
  destruct i as [|i]; simpl in Hy.
  - simplify_eq. replace (S (length h) - 0 - 1) with (length h) by lia.
    apply list_lookup_insert_eq. rewrite Hlen. apply Nat.mod_upper_bound. lia.
  - pose proof (lookup_lt_Some _ _ _ Hy) as Hlt.
    rewrite list_lookup_insert_ne.
    + replace (S (length h) - S i - 1) with (length h - i - 1) by lia. apply Hh; [lia|done].
    + intros Heq. apply (mod10_ne (S (length h) - S i - 1) (length h)); [lia..|done].
Qed.

Lemma KeepaliveReplyTimes_ring h m :
  ring_rel h m -> KeepaliveReplyTimes m = take numKeepaliveReplyTimes h.
Proof.
  intros (Hlen & Hnum & Hh). unfold KeepaliveReplyTimes.
  rewrite Hlen, Hnum. unfold numKeepaliveReplyTimes in *.
  set (n := if length h <? 10 then length h else 10).
  assert (Hn : n = length h `min` 10).
  { unfold n. destruct (Nat.ltb_spec (length h) 10); lia. }
  apply list_eq. intros i. rewrite list_lookup_fmap.
  destruct (decide (i < n)) as [Hi|Hi].
  - rewrite lookup_seq_lt by done. simpl.
    rewrite lookup_take_lt by lia.
    destruct (lookup_lt_is_Some_2 h i) as [x Hx]; [lia|].
    rewrite Hx. f_equal.
    replace ((length h - i - 1) mod n) with ((length h - i - 1) mod 10).
    + by rewrite (Hh i x); [|lia|done].
    + unfold n. destruct (Nat.ltb_spec (length h) 10); [|done].
      rewrite !Nat.mod_small by lia. done.
  - rewrite lookup_seq_ge by lia. simpl. symmetry.
    destruct (decide (i < 10)).
    + rewrite lookup_take_lt by done. apply lookup_ge_None. lia.
    + apply lookup_take_ge. lia.
Qed.

(** Machine.KeepaliveReplyTimes, read from the ring buffer after any number
    of keepalives, is the list of the last (at most ten) reply latencies, most
    recent first, as its documentation says. *)
Lemma KeepaliveReplyTimes_newest_first addr (h : list (Z * Z)) :
  KeepaliveReplyTimes
    (foldr (fun r m => record_keepalive r.1 r.2 m) (newMachine addr) h)
  = take numKeepaliveReplyTimes h.*1.
Proof.
  apply KeepaliveReplyTimes_ring. induction h as [|[x next] h IH]; simpl.
  - apply ring_rel_new.
  - by apply ring_rel_record.
Qed.

End ring.
