(* ===== verification/MachineThreads.v ===== *)
(** Interleaved use of a Machine (src/machine.go): any number of goroutines
    call Wait, setState, setError and context on one Machine.  A step is one
    critical section under [m.mu], or one of the channel closings that setState
    does after it has released the lock.  The theorems hold in every reachable
    configuration, whatever the order of the calls, also when the machine's
    state goes down again. *)
From S2P Require Import Prelude Errors MachineState.
Local Open Scope bm_scope.

(** A run of the program over one Machine: any number of goroutines call the
    operations above, and the parts of two calls that are not under [m.mu]
    interleave.  [pending] holds the channels setState calls have triggered
    and not closed yet; the other fields record what callers were given. *)
Module Threads.
Section threads.
Context {EL : ErrorsLib}.

Record cfg := mkCfg {
  w : world;
  pending : list nat;
  handed : list (nat * State);
  reached : list State;
  ctxs : gset nat;
  released : gset nat
}.

Definition init (addr : string) : cfg := mkCfg (newWorld addr) [] [] [Unstarted] ∅ ∅.

Definition do_Wait (st : State) (c : cfg) : cfg :=
  let '(ch, w') := Wait st (w c) in
  mkCfg w' (pending c) ((ch, st) :: handed c) (reached c) (ctxs c) (released c).
Definition do_setState (s : State) (c : cfg) : cfg :=
  let '(triggered, w') := setState_locked s (w c) in
  mkCfg w' (pending c ++ triggered) (handed c) (s :: reached c) (ctxs c) (released c).
Definition do_close (ch : nat) (rest : list nat) (c : cfg) : cfg :=
  mkCfg (close_chan ch (w c)) rest (handed c) (reached c) (ctxs c) (released c).
Definition do_upd (f : Machine -> Machine) (c : cfg) : cfg :=
  mkCfg (upd_mach f (w c)) (pending c) (handed c) (reached c) (ctxs c) (released c).
Definition do_context (c : cfg) : cfg :=
  let '(ctx, w') := context (w c) in
  mkCfg w' (pending c) (handed c) (reached c) ({[ctx]} ∪ ctxs c) (released c).
Definition do_release (ctx : nat) (c : cfg) : cfg :=
  mkCfg (context_release ctx (w c)) (pending c) (handed c) (reached c) (ctxs c)
    ({[ctx]} ∪ released c).

Inductive step : cfg -> cfg -> Prop :=
| step_Wait st c : step c (do_Wait st c)
| step_setState s c : step c (do_setState s c)
| step_close l1 ch l2 c : pending c = l1 ++ ch :: l2 -> step c (do_close ch (l1 ++ l2) c)
| step_setErr e c : step c (do_upd (set_err (Some e)) c)
| step_keepalive elapsed next c : step c (do_upd (record_keepalive elapsed next) c)
| step_context c : step c (do_context c)
| step_release ctx c : ctx ∈ ctxs c -> step c (do_release ctx c).

Definition reachable (addr : string) (c : cfg) : Prop := rtc step (init addr) c.

(** ** Invariants *)

(** Every channel handed out by Wait is closed, about to be closed, or held
    by a waiter for a state above the current one; no channel is in two of
    these places. *)
Record chan_inv (c : cfg) : Prop := {
  ci_nodup : NoDup (pending c ++ (wc <$> waiters (mach (w c))));
  ci_open : forall ch, ch ∈ pending c ++ (wc <$> waiters (mach (w c))) -> ch ∉ closed (w c);
  ci_above : forall x, x ∈ waiters (mach (w c)) -> state (mach (w c)) <ₛ wstate x;
  ci_bound : forall ch, ch ∈ closed (w c) \/ ch ∈ pending c ++ (wc <$> waiters (mach (w c))) ->
               ch < next_id (w c);
  ci_handed : forall ch st, (ch, st) ∈ handed c ->
    mkWaiter ch st ∈ waiters (mach (w c)) \/
    ((ch ∈ pending c \/ ch ∈ closed (w c)) /\ exists s, s ∈ reached c /\ st ≤ₛ s);
  ci_reached : state (mach (w c)) ∈ reached c
}.

(** Every context derived from a stopped machine, or from a machine that has
    stopped since, is cancelled unless its caller released it. *)
Record ctx_inv (c : cfg) : Prop := {
  xi_place : forall ctx, ctx ∈ ctxs c ->
    ctx ∈ cancelled (w c) \/ ctx ∈ released c \/ ctx ∈ cancelers (mach (w c));
  xi_stopped : state (mach (w c)) = Stopped -> cancelers (mach (w c)) = ∅
}.

Lemma waiters_partition (s : State) (ws : list stateWaiter) :
  ws ≡ₚ filter (fun x => wstate x ≤ₛ s) ws ++ filter (fun x => ~ (wstate x ≤ₛ s)) ws.
Proof.
  induction ws as [|x ws IH]; [done|].
  rewrite !filter_cons. destruct (decide (wstate x ≤ₛ s)).
  - rewrite decide_False by tauto. simpl. by apply perm_skip.
  - rewrite decide_True by done. rewrite <- Permutation_middle. by apply perm_skip.
Qed.

Lemma setState_locked_spec s (v : world) :
  let '(tr, v') := setState_locked s v in
  tr = wc <$> filter (fun x => wstate x ≤ₛ s) (waiters (mach v)) /\
  waiters (mach v') = filter (fun x => ~ (wstate x ≤ₛ s)) (waiters (mach v)) /\
  state (mach v') = s /\ err (mach v') = err (mach v) /\
  closed v' = closed v /\ next_id v' = next_id v /\
  (cancelled v' ∪ cancelers (mach v') = cancelled v ∪ cancelers (mach v)) /\
  (s = Stopped -> cancelers (mach v') = ∅).
Proof.
  unfold setState_locked. case_decide; simpl; repeat split; try done; try set_solver.
Qed.

Lemma init_chan_inv addr : chan_inv (init addr).
Proof. split; simpl; try set_solver; try constructor. Qed.

Lemma do_Wait_chan_inv st c : chan_inv c -> chan_inv (do_Wait st c).
Proof.
  intros [Hnd Hop Hab Hbd Hha Hre]. unfold do_Wait, Wait, fresh_id. simpl.
  assert (Hfresh : next_id (w c) ∉ pending c ++ (wc <$> waiters (mach (w c)))).
  { intros Hin. specialize (Hbd (next_id (w c)) (or_intror Hin)). lia. }
  assert (Hfresh' : next_id (w c) ∉ closed (w c)).
  { intros Hin. specialize (Hbd (next_id (w c)) (or_introl Hin)). lia. }
  case_decide; split; simpl; try done.
  - intros ch Hin. specialize (Hbd ch). set_solver.
  - intros ch Hin. assert (ch = next_id (w c) \/ ch < next_id (w c)) by set_solver. lia.
  - intros ch st' [[= -> ->]|Hin]%elem_of_cons; [set_solver|].
    destruct (Hha ch st' Hin); set_solver.
  - rewrite fmap_app, app_assoc. apply NoDup_app. split; [done|]. split; [set_solver|].
    apply NoDup_singleton.
  - rewrite fmap_app, app_assoc. intros ch [Hin| ->%list_elem_of_singleton]%elem_of_app; [by apply Hop|].
    done.
  - intros x [Hin| ->%list_elem_of_singleton]%elem_of_app; [by apply Hab|]. simpl. lia.
  - rewrite fmap_app, app_assoc. intros ch Hin.
    assert (ch = next_id (w c) \/ ch < next_id (w c)) by set_solver. lia.
  - intros ch st' [[= -> ->]|Hin]%elem_of_cons; [set_solver|].
    destruct (Hha ch st' Hin); set_solver.
Qed.

Lemma do_setState_chan_inv s c : chan_inv c -> chan_inv (do_setState s c).
Proof.
  intros [Hnd Hop Hab Hbd Hha Hre]. unfold do_setState.
  pose proof (setState_locked_spec s (w c)) as Hspec.
  destruct (setState_locked s (w c)) as [tr v'].
  destruct Hspec as (-> & Hws & Hst & _ & Hcl & Hid & _ & _).
  set (ws := waiters (mach (w c))) in *.
  assert (Hperm : pending c ++ (wc <$> ws) ≡ₚ
      (pending c ++ (wc <$> filter (fun x => wstate x ≤ₛ s) ws)) ++ (wc <$> waiters (mach v'))).
  { rewrite Hws, <- app_assoc, <- fmap_app. by rewrite <- waiters_partition. }
  split; simpl; rewrite ?Hcl, ?Hid, ?Hst.
  - by rewrite <- Hperm.
  - intros ch. rewrite <- Hperm. apply Hop.
  - rewrite Hws. intros x [Hx _]%list_elem_of_filter. lia.
  - intros ch. rewrite <- Hperm. apply Hbd.
  - intros ch st Hin. destruct (Hha ch st Hin) as [Hx|[Hpl (s' & Hs' & Hle)]].
    + rewrite (waiters_partition s ws), elem_of_app in Hx. rewrite Hws.
      destruct Hx as [Hx|Hx]; [right|by left].
      apply list_elem_of_filter in Hx as [Hle Hx]. split.
      * left. apply elem_of_app. right. apply list_elem_of_fmap.
        exists (mkWaiter ch st). split; [done|]. by apply list_elem_of_filter.
      * exists s. split; [by left|done].
    + right. split; [set_solver|]. exists s'. split; [by right|done].
  - by left.
Qed.

Lemma do_close_chan_inv l1 ch l2 c :
  pending c = l1 ++ ch :: l2 -> chan_inv c -> chan_inv (do_close ch (l1 ++ l2) c).
Proof.
  intros Hp [Hnd Hop Hab Hbd Hha Hre].
  assert (Hperm : pending c ++ (wc <$> waiters (mach (w c))) ≡ₚ
      ch :: (l1 ++ l2) ++ (wc <$> waiters (mach (w c)))).
  { rewrite Hp. by rewrite <- Permutation_middle. }
  rewrite Hperm in Hnd. apply NoDup_cons in Hnd as [Hni Hnd].
  split; simpl; try done.
  - intros x Hx. assert (x ∉ closed (w c)); [|set_solver].
    apply Hop. rewrite Hperm. by right.
  - intros x Hx. apply Hbd. rewrite Hperm. set_solver.
  - intros x st Hin. destruct (Hha x st Hin) as [|[Hpl Hs]]; [by left|right].
    split; [|done]. rewrite Hp in Hpl. set_solver.
Qed.

Lemma step_chan_inv c c' : step c c' -> chan_inv c -> chan_inv c'.
Proof.
  intros Hstep Hinv. destruct Hstep.
  - by apply do_Wait_chan_inv.
  - by apply do_setState_chan_inv.
  - by apply do_close_chan_inv.
  - by destruct Hinv; split.
  - by destruct Hinv; split.
  - destruct Hinv as [Hnd Hop Hab Hbd Hha Hre].
    unfold do_context, context, fresh_id; simpl; case_decide; split; simpl; try done;
      intros ch Hch; specialize (Hbd ch Hch); lia.
  - by destruct Hinv; split.
Qed.

Lemma reachable_chan_inv addr c : reachable addr c -> chan_inv c.
Proof.
  apply rtc_invariant; [|apply init_chan_inv]. intros x y. apply step_chan_inv.
Qed.

Lemma step_ctx_inv c c' : step c c' -> ctx_inv c -> ctx_inv c'.
Proof.
  intros Hstep [Hpl Hst]. destruct Hstep; try (by split).
  - unfold do_Wait, Wait, fresh_id; simpl. case_decide; by split.
  - unfold do_setState. pose proof (setState_locked_spec s (w c)) as Hspec.
    destruct (setState_locked s (w c)) as [tr v'].
    destruct Hspec as (_ & _ & Hs & _ & _ & _ & Hcu & Hcs).
    split; simpl; [|by rewrite Hs]. intros ctx Hctx. specialize (Hpl ctx Hctx). set_solver.
  - unfold do_context, context, fresh_id; simpl.
    case_decide as Hd; split; simpl; try set_solver.
    intros Heq. rewrite Heq in Hd. simpl in Hd. lia.
  - split; simpl; [|intros Heq; specialize (Hst Heq); set_solver].
    intros x Hx. destruct (Hpl x Hx) as [|[|]]; [set_solver..|].
    destruct (decide (x = ctx)); set_solver.
Qed.

Lemma reachable_ctx_inv addr c : reachable addr c -> ctx_inv c.
Proof.
  apply rtc_invariant; [|by split]. intros x y. apply step_ctx_inv.
Qed.

(** ** Properties *)

(** C8. Whatever the interleaving of Wait and setState, a channel that setState
    is about to close has not been closed, is not about to be closed by another
    call, and is no longer held by a waiter: closing never panics. *)
Theorem no_double_close addr c l1 ch l2 :
  reachable addr c -> pending c = l1 ++ ch :: l2 ->
  (ch ∉ closed (w c)) /\ (ch ∉ l1 ++ l2) /\ (ch ∉ wc <$> waiters (mach (w c))).
Proof.
  intros Hr Hp. destruct (reachable_chan_inv _ _ Hr) as [Hnd Hop _ _ _ _].
  rewrite Hp in Hnd, Hop. split; [apply Hop; set_solver|].
  rewrite <- Permutation_middle in Hnd. simpl in Hnd.
  apply NoDup_cons in Hnd as [Hni _]. set_solver.
Qed.

(** C9. Machine.Wait neither loses a wake-up nor wakes early: if the channel of
    Wait(st) is closed then the machine has reached st or more, and once the
    machine is in st or more the channel is closed, or the setState that was
    running is about to close it. *)
Theorem wait_wakes_up addr c ch st :
  reachable addr c -> (ch, st) ∈ handed c ->
  (ch ∈ closed (w c) -> exists s, s ∈ reached c /\ st ≤ₛ s) /\
  (st ≤ₛ state (mach (w c)) -> ch ∈ pending c \/ ch ∈ closed (w c)).
Proof.
  intros Hr Hin. destruct (reachable_chan_inv _ _ Hr) as [_ Hop Hab _ Hha _].
  destruct (Hha ch st Hin) as [Hw|[Hpl Hs]]; [|by split].
  split.
  - intros Hc. exfalso. apply (Hop ch); [|done]. apply elem_of_app. right.
    apply list_elem_of_fmap. by exists (mkWaiter ch st).
  - intros Hle. specialize (Hab _ Hw). simpl in Hab. lia.
Qed.

(** C10. In every configuration in which the machine is Stopped, every context
    that Machine.context handed out and that its call has not released is
    cancelled: no call outlives the machine. *)
Theorem stopped_cancels_contexts addr c ctx :
  reachable addr c -> state (mach (w c)) = Stopped ->
  ctx ∈ ctxs c -> ctx ∉ released c -> ctx ∈ cancelled (w c).
Proof.
  intros Hr Hst Hin Hnr. destruct (reachable_ctx_inv _ _ Hr) as [Hpl Hs].
  specialize (Hs Hst). destruct (Hpl ctx Hin) as [|[|]]; [done|done|set_solver].
Qed.

End threads.

(** ** Evaluated runs *)

Section samples.
#[local] Existing Instance SimpleErrors.

(** One goroutine waits for Running and one starts a call; then the machine
    is stopped, and the waiter's channel is still to be closed. *)
Definition sample : cfg := do_setState Stopped (do_context (do_Wait Running (init "m"))).

Lemma sample_reachable : reachable "m" sample.
Proof.
  eapply rtc_l; [apply (step_Wait Running)|]. eapply rtc_l; [apply step_context|].
  apply rtc_once, (step_setState Stopped).
Qed.

Lemma no_double_close_witness :
  (0 ∉ closed (w sample)) /\ (0 ∉ @nil nat ++ []) /\ (0 ∉ wc <$> waiters (mach (w sample))).
Proof. apply (no_double_close "m" sample [] 0 []); [apply sample_reachable|reflexivity]. Defined.

Lemma wait_wakes_up_witness :
  (0 ∈ closed (w sample) -> exists s, s ∈ reached sample /\ Running ≤ₛ s) /\
  (Running ≤ₛ state (mach (w sample)) -> 0 ∈ pending sample \/ 0 ∈ closed (w sample)).
Proof. apply (wait_wakes_up "m"); [apply sample_reachable|]. by left. Defined.

Lemma stopped_cancels_contexts_witness : 1 ∈ cancelled (w sample).
Proof.
  apply (stopped_cancels_contexts "m"); [apply sample_reachable|reflexivity| |]; simpl; set_solver.
Defined.

End samples.
End Threads.
