(* ===== verification/MachineLoop.v ===== *)
(** The goroutine that maintains a Machine (src/machine.go): bootstrapping by
    ping, exec and service registration, then the keepalive loop; and the
    calls it is made of (retryCall, exec, Call, RetryCall).

    The code is a program over the machine's shared state and a trace of what
    it did.  Everything it does not decide itself (the replies of remote
    calls, the verdicts of retry.Wait, clock readings, files, what other
    goroutines do to the state) comes from [MachineEnv], whose functions may
    depend on the whole trace so far: a theorem for every [MachineEnv] covers
    every behaviour of network, clock and peers.  [for] loops take fuel; a run
    that is cut off is the outcome [Looping] and keeps its trace. *)
From S2P Require Import Prelude Errors MachineState.
Local Open Scope bm_scope.

(** ** Data *)

(** Durations are in nanoseconds, as in package time. *)
Definition Millisecond : Z := 1000000.
Definition Second : Z := 1000000000.
Definition Minute : Z := 60 * Second.

(** Values the loop only passes on (service instances, binaries, fat
    binaries) are opaque handles. *)
Definition handle := nat.

(** The argument of a remote call. *)
Inductive carg :=
| CInt (z : Z)
| CUnit
| CStrings (l : list string)
| CDuration (d : Z)
| CReader (r : handle)
| CService (name : string) (iface : handle)
| CProfile (name : string) (debug : Z) (gc : bool).

#[export] Instance carg_eq_dec : EqDecision carg.
Proof. solve_decision. Defined.

(** The values a reply may carry back (Info, keepaliveReply). *)
Record reply := mkReply {
  r_Goos : string; r_Goarch : string;
  r_Next : Z; r_Healthy : bool
}.

(** The configuration of a Machine that is fixed once it is started. *)
Record config := mkConfig {
  owner : bool;
  NoExec : bool;
  services : gmap string handle;
  environ : list string;
  keepalivePeriod : Z;
  keepaliveTimeout : Z;
  keepaliveRpcTimeout : Z
}.

Section defs.
Context {EL : ErrorsLib}.

(** What the code did, in order. *)
Inductive action :=
| ACall (method : string) (arg : carg) (timeout : option Z) (e : option error)
| ARetryWait (overall : option Z) (retries : nat) (e : option error)
| ANow (t : Z)
| ASet (s : State)
| ASelect (e : option error)
| AReadState (s : State)
| AFile (op path : string) (e : option error)
| AContext
| ARelease
| AGoTail
| ACloseTailDone
| AGoMonitorOOMs
| AAfter (d : Z).

(** The environment. *)
Class MachineEnv := {
  env_call : list action -> string -> carg -> option Z -> result error reply;
  (** Whether a call that has no deadline never returns, as when the peer keeps
      the connection and does not read or answer. *)
  env_hangs : list action -> string -> carg -> bool;
  env_retryWait : list action -> option Z -> nat -> option error;
  env_now : list action -> Z;
  (** The select at the end of a keepalive round: the timer, or ctx.Err(). *)
  env_select : list action -> option error;
  (** Other goroutines' view of the machine: m.State(), m.Err(), the error of
      a call's context, and the select between ctx.Done and m.Wait(Running). *)
  env_state : list action -> State;
  env_err : list action -> option error;
  env_ctxErr : list action -> option error;
  env_waitRunning : list action -> option error;
  (** File operations of saveProfile and saveExpvars. *)
  env_file : list action -> string -> string -> option error;
  (** The file name suffix: host name and time stamp. *)
  env_suffix : list action -> string;
  (** package fatbin: Self, Stat and Open. *)
  env_Self : list action -> result error handle;
  env_Stat : handle -> string -> string -> option Z;
  env_Open : list action -> handle -> string -> string -> result error handle;
  (** os.Args, and Duration.String for messages. *)
  os_Args : list string;
  Duration_String : Z -> string;
  (** The order in which range visits a map. *)
  env_range : list action -> gmap string handle -> list (string * handle);
  env_range_perm : forall tr m, env_range tr m ≡ₚ map_to_list m
}.

Context {env : MachineEnv}.

Record lw := mkLw { shared : world; trace : list action }.

Definition Pr (A : Type) : Type := M lw A.

Definition act (a : action) : Pr unit := mput (fun s => mkLw (shared s) (trace s ++ [a])).
Definition upd (f : world -> world) : Pr unit := mput (fun s => mkLw (f (shared s)) (trace s)).
(** Ask the environment, and log the answer. *)
Definition ask {A : Type} (f : list action -> A) (a : A -> action) : Pr A :=
  r <- mget (fun s => f (trace s)) ;; act (a r) ;;; mret r.

Definition now : Pr Z := ask env_now ANow.
Definition do_setState (st : State) : Pr unit := act (ASet st) ;;; upd (setState st).
Definition do_setError (e : error) : Pr unit := act (ASet Stopped) ;;; upd (setError e).
(** fmt.Errorf's value is an error with the formatted text. *)
Definition errorf (msg : string) : Pr unit := do_setError (New msg).

(** ** Calls *)

(** Machine.call, whose logging has no other effect; [timeout] is the deadline
    its context was given, if any: a call without one may never return. *)
Definition call (method : string) (arg : carg) (timeout : option Z) : Pr (result error reply) :=
  hangs <- mget (fun s => match timeout with
                          | None => env_hangs (trace s) method arg
                          | Some _ => false
                          end) ;;
  if hangs then block
  else ask (fun tr => env_call tr method arg timeout)
           (fun r => ACall method arg timeout (result_err r)).

(** Machine.timeoutCall *)
Definition timeoutCall (timeout : Z) (method : string) (arg : carg) : Pr (result error reply) :=
  call method arg (Some timeout).

(** One round of the loop of Machine.retryCall. *)
Definition retryCall_body (overallTimeout rpcTimeout : Z) (method : string) (arg : carg)
    (retries : nat) : Pr (nat + result error reply) :=
  r <- call method arg (Some rpcTimeout) ;;
  match r with
  | Ok rep => mret (inr (Ok rep))
  | Err e =>
      if Match (E [ASev Fatal]) e
      then mret (inr (Err (E [AMsg "fatal error calling"; AMsg method; AErr e])))
      else
        we <- ask (fun tr => env_retryWait tr (Some overallTimeout) retries)
                  (ARetryWait (Some overallTimeout) retries) ;;
        match we with
        | Some e' => mret (inr (Err (E [ASev Fatal; AErr e'])))
        | None => mret (inl (S retries))
        end
  end.

(** Machine.retryCall *)
Definition retryCall (fuel : nat) (overallTimeout rpcTimeout : Z) (method : string) (arg : carg)
    : Pr (result error reply) :=
  iterate fuel (retryCall_body overallTimeout rpcTimeout method arg) 0.

(** Machine.ping *)
Definition ping (fuel : nat) : Pr (result error reply) :=
  retryCall fuel (9 * Minute) (3 * Minute) "Supervisor.Ping" (CInt 0).

(** The error of a call on a stopped machine. *)
Definition stoppedError (addr : string) (e : option error) : error :=
  let msg := "machine " +:+ addr +:+ " stopped" in
  match e with
  | Some e => E [ASev Fatal; AKind Unavailable; AMsg msg; AErr e]
  | None => E [ASev Fatal; AKind Unavailable; AMsg msg]
  end.

(** The Stopped case of Machine.Call. *)
Definition Call_stopped (addr : string) : Pr (unit + result error reply) :=
  e <- mget (fun s => env_err (trace s)) ;;
  mret (inr (Err (stoppedError addr e))).

(** One round of the loop of Machine.Call: it runs in a goroutine of its own,
    so it sees the machine through the environment.  [deadline] is the deadline of
    the caller's context, if any. *)
Definition Call_body (deadline : option Z) (addr method : string) (arg : carg) : Pr (unit + result error reply) :=
  st <- ask env_state AReadState ;;
  match st with
  | Running =>
      act AContext ;;;
      r <- call method arg deadline ;;
      ce <- mget (fun s => env_ctxErr (trace s)) ;;
      let e := result_err r in
      ret <-
        (if decide (e = None) then mret (inr r)
         else if decide (e <> ce) then mret (inr r)
         else st' <- ask env_state AReadState ;;
              if decide (st' <> Stopped) then mret (inr r) else Call_stopped addr) ;;
      act ARelease ;;; mret ret
  | Stopped => Call_stopped addr
  | _ =>
      we <- ask env_waitRunning ASelect ;;
      match we with
      | Some e => mret (inr (Err e))
      | None => mret (inl tt)
      end
  end.

(** Machine.Call *)
Definition Call (fuel : nat) (deadline : option Z) (addr method : string) (arg : carg) : Pr (result error reply) :=
  iterate fuel (fun _ => Call_body deadline addr method arg) tt.

(** Machine.RetryCall *)
Definition RetryCall (fuel : nat) (deadline : option Z) (addr method : string) (arg : carg) : Pr (result error reply) :=
  iterate fuel (fun retries =>
    r <- Call fuel deadline addr method arg ;;
    match r with
    | Ok rep => mret (inr (Ok rep))
    | Err e =>
        if negb (IsTemporary e) then mret (inr (Err e))
        else
          we <- ask (fun tr => env_retryWait tr None retries) (ARetryWait None retries) ;;
          match we with
          | Some e' => mret (inr (Err (E [ASev Fatal; AErr e'])))
          | None => mret (inl (S retries))
          end
    end) 0.

(** ** Bootstrapping *)

(** The upload floor of exec, in bytes per second. *)
Definition floor : Z := Z.shiftl 100 10.

(** uploadTimeout of Machine.exec: int64 arithmetic, Go's division. *)
Definition uploadTimeout (size : Z) : Z :=
  wrap64 (Z.quot (wrap64 (wrap64 (size + floor) - 1)) floor * Second).

(** Machine.exec: the error it returns, if any. *)
Definition exec (environ : list string) : Pr (option error) :=
  self <- mget (fun s => env_Self (trace s)) ;;
  match self with
  | Err e => mret (Some e)
  | Ok self =>
  let timeout := (10 * Second)%Z in
  info <- timeoutCall timeout "Supervisor.Info" CUnit ;;
  match info with
  | Err e => mret (Some e)
  | Ok info =>
  match env_Stat self (r_Goos info) (r_Goarch info) with
  | None => mret (Some (E [ASev Fatal; AMsg "no image for "; AMsg (r_Goos info);
                           AMsg "/"; AMsg (r_Goarch info)]))
  | Some size =>
  r <- timeoutCall timeout "Supervisor.Setenv" (CStrings environ) ;;
  match r with
  | Err e => mret (Some e)
  | Ok _ =>
  r <- timeoutCall timeout "Supervisor.Setargs" (CStrings os_Args) ;;
  match r with
  | Err e => mret (Some e)
  | Ok _ =>
  (* an error of this call is logged and ignored *)
  timeoutCall timeout "Supervisor.Keepalive" (CDuration (uploadTimeout size)) ;;;
  rc <- mget (fun s => env_Open (trace s) self (r_Goos info) (r_Goarch info)) ;;
  match rc with
  | Err e => mret (Some e)
  | Ok rc =>
  r <- call "Supervisor.Setbinary" (CReader rc) None ;;
  match r with
  | Err e => mret (Some e)
  | Ok _ =>
  r <- timeoutCall timeout "Supervisor.Exec" CUnit ;;
  mret (result_err r)
  end end end end end end end.

(** Registration of the machine's services, in the order range yields them;
    the name and error of the one that failed, if any. *)
Fixpoint register_all (fuel : nat) (svcs : list (string * handle)) : Pr (option (string * error)) :=
  match svcs with
  | [] => mret None
  | (name, iface) :: rest =>
      r <- retryCall fuel (5 * Minute) (25 * Second) "Supervisor.Register" (CService name iface) ;;
      match r with
      | Err e => mret (Some (name, e))
      | Ok _ => register_all fuel rest
      end
  end.

(** Machine.saveProfile: call, create the file, copy, in the time of a minute. *)
Definition saveProfile (fuel : nat) (addr which path : string) : Pr (option error) :=
  r <- Call fuel (Some Minute) addr "Supervisor.Profile" (CProfile which 0 false) ;;
  match r with
  | Err e => mret (Some e)
  | Ok _ =>
      e <- ask (fun tr => env_file tr "create" path) (AFile "create" path) ;;
      match e with
      | Some e => mret (Some e)
      | None => ask (fun tr => env_file tr "copy" path) (AFile "copy" path)
      end
  end.

(** Machine.saveExpvars *)
Definition saveExpvars (fuel : nat) (path : string) : Pr (option error) :=
  r <- retryCall fuel (5 * Minute) (25 * Second) "Supervisor.Expvars" CUnit ;;
  match r with
  | Err e => mret (Some e)
  | Ok _ =>
      e <- ask (fun tr => env_file tr "create" path) (AFile "create" path) ;;
      match e with
      | Some e => mret (Some e)
      | None => ask (fun tr => env_file tr "encode" path) (AFile "encode" path)
      end
  end.

(** ** The loop *)

(** The machineAlive event, with the time since [start] in milliseconds. *)
Definition machineAlive (start : Z) : Pr unit :=
  t <- now ;;
  upd (fun w => add_event (Event "bigmachine:machineAlive"
    [("addr", FStr (Addr (mach w))); ("duration", FInt (Z.quot (t - start) 1000000))]) w).

(** The text of the error a failed ping or keepalive leaves. *)
Definition failedAfter (what : string) (elapsed timeout rpcTimeout : Z) (e : error) : string :=
  what +:+ " failed after " +:+ Duration_String elapsed +:+
  " (timeout=" +:+ Duration_String timeout +:+
  ", rpc timeout=" +:+ Duration_String rpcTimeout +:+ "): " +:+ Error e.

(** One round of the ping loop of a machine that is not owned. *)
Definition ping_body (fuel : nat) (c : config) : Pr (unit + unit) :=
  callStart <- now ;;
  r <- retryCall fuel (keepaliveTimeout c) (keepaliveRpcTimeout c) "Supervisor.Ping" (CInt 0) ;;
  match r with
  | Err e =>
      t <- now ;;
      errorf (failedAfter "ping" (t - callStart) (keepaliveTimeout c) (keepaliveRpcTimeout c) e) ;;;
      mret (inr tt)
  | Ok _ => act (AAfter (Z.quot (keepalivePeriod c) 2)) ;;; mret (inl tt)
  end.

(** What an unhealthy reply triggers: its errors are only logged. *)
Definition saveDumps (fuel : nat) : Pr unit :=
  addr <- mget (fun s => Addr (mach (shared s))) ;;
  suffix <- mget (fun s => env_suffix (trace s)) ;;
  saveProfile fuel addr "heap" ("heap" +:+ suffix) ;;;
  saveExpvars fuel ("vars" +:+ suffix) ;;;
  mret tt.

(** The time after which the next keepalive is sent. *)
Definition keepalive_pause (period next : Z) : Z :=
  let next := if (period <? next)%Z then period else next in Z.quot next 2.

(** One round of the keepalive loop of an owned machine. *)
Definition keepalive_body (fuel : nat) (c : config) (start : Z) : Pr (unit + unit) :=
  callStart <- now ;;
  r <- retryCall fuel (keepaliveTimeout c) (keepaliveRpcTimeout c)
         "Supervisor.Keepalive" (CDuration (5 * Minute)) ;;
  match r with
  | Err e =>
      t <- now ;;
      errorf (failedAfter "keepalive" (t - callStart) (keepaliveTimeout c) (keepaliveRpcTimeout c) e) ;;;
      mret (inr tt)
  | Ok rep =>
      machineAlive start ;;;
      t1 <- now ;;
      t2 <- now ;;
      upd (upd_mach (record_keepalive (t1 - callStart) (t2 + r_Next rep))) ;;;
      act (AAfter (keepalive_pause (keepalivePeriod c) (r_Next rep))) ;;;
      (if negb (r_Healthy rep) then saveDumps fuel else mret tt) ;;;
      e <- ask env_select ASelect ;;
      match e with
      | None => mret (inl tt)
      | Some e => do_setError e ;;; mret (inr tt)
      end
  end.

(** The bootstrap of an owned machine: whether it went well. *)
Definition bootstrap (fuel : nat) (c : config) (has_system : bool) (start : Z) : Pr bool :=
  machineAlive start ;;;
  act (if has_system then AGoTail else ACloseTailDone) ;;;
  if NoExec c then mret true
  else
    r <- ping fuel ;;
    match r with
    | Err e => do_setError e ;;; mret false
    | Ok _ =>
        e <- exec (environ c) ;;
        match e with
        | Some e => if negb (Is Net e) then do_setError e ;;; mret false else mret true
        | None => mret true
        end
    end.

(** Machine.loop *)
Definition loop (fuel : nat) (c : config) (has_system : bool) : Pr unit :=
  start <- now ;;
  do_setState Starting ;;;
  ok <- (if owner c then bootstrap fuel c has_system start else mret true) ;;
  if negb ok then mret tt
  else
    r <- ping fuel ;;
    match r with
    | Err e => do_setError e
    | Ok _ =>
        if negb (owner c) then
          do_setState Running ;;;
          iterate fuel (fun _ => ping_body fuel c) tt
        else
          svcs <- mget (fun s => env_range (trace s) (services c)) ;;
          r <- register_all fuel svcs ;;
          match r with
          | Some (name, e) => do_setError (E [AErr e; AMsg ("Supervisor.Register " +:+ name)])
          | None =>
              (if has_system then act AGoMonitorOOMs else mret tt) ;;;
              do_setState Running ;;;
              iterate fuel (fun _ => keepalive_body fuel c start) tt
          end
    end.

Definition start_lw (addr : string) : lw := mkLw (newWorld addr) [].

End defs.

(** ** What the calls leave alone *)

Section facts.
Context {EL : ErrorsLib} {env : MachineEnv}.

(** The states the trace says were set, oldest first. *)
Definition sets (tr : list action) : list State :=
  omap (fun a => match a with ASet s => Some s | _ => None end) tr.

(** The actions that set no state. *)
Definition calm (a : action) : Prop := match a with ASet _ => False | _ => True end.

(** [quiet]: the trace grows by calm actions, and state and error stay. *)
Definition quiet (s s' : lw) : Prop :=
  state (mach (shared s')) = state (mach (shared s)) /\
  err (mach (shared s')) = err (mach (shared s)) /\
  exists tr, trace s' = trace s ++ tr /\ Forall calm tr.

(** [silent]: the shared state is untouched and the trace grows by calm
    actions. *)
Definition silent (s s' : lw) : Prop :=
  shared s' = shared s /\ exists tr, trace s' = trace s ++ tr /\ Forall calm tr.

#[export] Instance quiet_preorder : PreOrder quiet.
Proof.
  split.
  - intros s. repeat split. exists []. by rewrite app_nil_r.
  - intros s1 s2 s3 (H1 & H2 & tr1 & Ht1 & Hc1) (H3 & H4 & tr2 & Ht2 & Hc2).
    split; [congruence|]. split; [congruence|].
    exists (tr1 ++ tr2). rewrite Ht2, Ht1, app_assoc. split; [done|]. by apply Forall_app.
Qed.

#[export] Instance silent_preorder : PreOrder silent.
Proof.
  split.
  - intros s. split; [done|]. exists []. by rewrite app_nil_r.
  - intros s1 s2 s3 (H1 & tr1 & Ht1 & Hc1) (H3 & tr2 & Ht2 & Hc2).
    split; [congruence|].
    exists (tr1 ++ tr2). rewrite Ht2, Ht1, app_assoc. split; [done|]. by apply Forall_app.
Qed.

Lemma silent_quiet s s' : silent s s' -> quiet s s'.
Proof. intros (Hs & Htr). unfold quiet. by rewrite Hs. Qed.

Lemma act_silent a : calm a -> keeps silent (act a).
Proof. intros Ha s. split; [done|]. exists [a]. split; [done|]. by constructor. Qed.

Lemma ask_silent {A} (f : list action -> A) a : (forall r, calm (a r)) -> keeps silent (ask f a).
Proof.
  intros Ha. unfold ask. keeps_tac. by apply act_silent.
Qed.

Lemma call_silent method arg t : keeps silent (call method arg t).
Proof. unfold call. keeps_tac. by apply ask_silent. Qed.

#[local] Hint Extern 1 (calm _) => exact I : bm.
#[local] Hint Resolve act_silent ask_silent call_silent : bm.

Lemma retryCall_silent fuel ov rpc method arg : keeps silent (retryCall fuel ov rpc method arg).
Proof. unfold retryCall, retryCall_body. keeps_tac. Qed.

Lemma Call_silent fuel d addr method arg : keeps silent (Call fuel d addr method arg).
Proof. unfold Call, Call_body, Call_stopped. keeps_tac. Qed.

Lemma exec_silent envs : keeps silent (exec envs).
Proof. unfold exec, timeoutCall. keeps_tac. Qed.

#[local] Hint Resolve retryCall_silent Call_silent exec_silent : bm.

Lemma register_all_silent fuel svcs : keeps silent (register_all fuel svcs).
Proof. induction svcs as [|[name i] rest IH]; simpl; keeps_tac. Qed.

Lemma saveDumps_silent fuel : keeps silent (saveDumps fuel).
Proof. unfold saveDumps, saveProfile, saveExpvars. keeps_tac. Qed.

(** The traces a retryCall may leave: failed attempts that retry.Wait let
    through, then a success, a fatal error, or the refusal of retry.Wait. *)
Inductive attempts (ov rpc : Z) (method : string) (arg : carg) :
    nat -> list action -> result error reply -> Prop :=
| att_ok i rep :
    attempts ov rpc method arg i [ACall method arg (Some rpc) None] (Ok rep)
| att_fatal i e :
    Match (E [ASev Fatal]) e = true ->
    attempts ov rpc method arg i [ACall method arg (Some rpc) (Some e)]
      (Err (E [AMsg "fatal error calling"; AMsg method; AErr e]))
| att_gave_up i e e' :
    Match (E [ASev Fatal]) e = false ->
    attempts ov rpc method arg i
      [ACall method arg (Some rpc) (Some e); ARetryWait (Some ov) i (Some e')]
      (Err (E [ASev Fatal; AErr e']))
| att_again i e tr r :
    Match (E [ASev Fatal]) e = false ->
    attempts ov rpc method arg (S i) tr r ->
    attempts ov rpc method arg i
      (ACall method arg (Some rpc) (Some e) :: ARetryWait (Some ov) i None :: tr) r.

Lemma retryCall_attempts_from fuel ov rpc method arg i s r s' :
  iterate fuel (retryCall_body ov rpc method arg) i s = Done r s' ->
  exists tr, s' = mkLw (shared s) (trace s ++ tr) /\ attempts ov rpc method arg i tr r.
Proof.
  revert i s. induction fuel as [|fuel IH]; intros i s Hrun; [done|].
  simpl in Hrun. unfold retryCall_body at 1, call, ask, act in Hrun. run_prog.
  destruct (env_call (trace s) method arg (Some rpc)) as [rep|e] eqn:Hcall; simplify_eq/=.
  { eexists. split; [done|]. constructor. }
  destruct (Match _ e) eqn:Hm; simplify_eq/=.
  { eexists. split; [done|]. by constructor. }
  destruct (env_retryWait _ _ _) as [e'|]; simplify_eq/=.
  - rewrite <- app_assoc. eexists. split; [done|]. by constructor.
  - apply IH in Hrun as (tr & -> & Htr). simpl. rewrite <- !app_assoc.
    eexists. split; [done|]. by constructor.
Qed.

Lemma attempts_Ok ov rpc method arg i tr rep :
  attempts ov rpc method arg i tr (Ok rep) -> ACall method arg (Some rpc) None ∈ tr.
Proof.
  intros H. remember (Ok rep) as r eqn:Hr. induction H; simplify_eq; set_solver.
Qed.

(** A finished Machine.retryCall leaves the trace of a retry loop and nothing
    else: attempts that failed with a non-fatal error and that retry.Wait let
    pass, with the retry counter counting up from 0, then one success, or one
    fatal error, or a refusal of retry.Wait, and the result is the one that
    last event prescribes. *)
Lemma retryCall_attempts fuel ov rpc method arg s r s' :
  retryCall fuel ov rpc method arg s = Done r s' ->
  exists tr, s' = mkLw (shared s) (trace s ++ tr) /\ attempts ov rpc method arg 0 tr r.
Proof. apply retryCall_attempts_from. Qed.

(** retryCall returns: if retry.Wait reports the deadline from the n-th retry
    on, then n + 1 rounds of the loop are enough. *)
Lemma retryCall_terminates n fuel ov rpc method arg s :
  (forall tr i, n <= i -> env_retryWait tr (Some ov) i <> None) -> n < fuel ->
  exists r s', retryCall fuel ov rpc method arg s = Done r s'.
Proof.
  intros Hdl Hf.
  destruct (spec_total (fun s => True /\ n - 0 < fuel) (fun _ _ => True)
    (retryCall fuel ov rpc method arg) s) as (r & s' & Hrun & _); [|split; [done|lia]|by eauto].
  apply (spec_iterate_variant (fun _ _ => True) (fun i _ => n - i)).
  intros i v s0 [_ Hv]. unfold retryCall_body, call, ask, act; run_prog.
  destruct (env_call _ _ _ _) as [rep|e]; [done|]. destruct (Match _ e); [done|].
  destruct (env_retryWait _ _ i) eqn:Hw; [done|]. split; [done|].
  destruct (decide (n <= i)) as [Hle|]; [by apply Hdl in Hw|lia].
Qed.

(** ** The life of a machine *)

(** Everything the driver does before it calls a machine running has been
    done: it answered a ping, and took all services if it is ours. *)
Definition ready (c : config) (tr : list action) : Prop :=
  (exists t, ACall "Supervisor.Ping" (CInt 0) t None ∈ tr) /\
  (owner c = true -> forall name iface, services c !! name = Some iface ->
     exists t, ACall "Supervisor.Register" (CService name iface) t None ∈ tr).

(** The machine was ready each time the trace sets it running. *)
Definition ran_ready (c : config) (tr : list action) : Prop :=
  forall tr1 tr2, tr = tr1 ++ ASet Running :: tr2 -> ready c tr1.

(** The three phases of a loop. *)
Record starting (s : lw) : Prop := {
  sg_sets : sets (trace s) = [Starting];
  sg_state : state (mach (shared s)) = Starting;
  sg_err : err (mach (shared s)) = None
}.
Record running (c : config) (s : lw) : Prop := {
  rg_sets : sets (trace s) = [Starting; Running];
  rg_state : state (mach (shared s)) = Running;
  rg_err : err (mach (shared s)) = None;
  rg_ready : ran_ready c (trace s)
}.
Record stopped (c : config) (s : lw) : Prop := {
  sd_sets : sets (trace s) = [Starting; Stopped] \/ sets (trace s) = [Starting; Running; Stopped];
  sd_state : state (mach (shared s)) = Stopped;
  sd_err : is_Some (err (mach (shared s)));
  sd_ready : ran_ready c (trace s)
}.
Definition going (c : config) (s : lw) : Prop := starting s \/ running c s.

Lemma sets_app tr1 tr2 : sets (tr1 ++ tr2) = sets tr1 ++ sets tr2.
Proof. apply omap_app. Qed.

Lemma sets_calm tr : Forall calm tr -> sets tr = [].
Proof. induction 1 as [|a tr Ha _ IH]; [done|]. by destruct a. Qed.

Lemma setState_state st w : state (mach (setState st w)) = st /\ err (mach (setState st w)) = err (mach w).
Proof.
  assert (Hclose : forall l v, mach (foldl (fun w c => close_chan c w) v l) = mach v).
  { induction l as [|x l IH]; intros v; simpl; [done|]. by rewrite IH. }
  unfold setState, setState_locked. case_decide; rewrite Hclose; done.
Qed.

Lemma setError_state e w :
  state (mach (setError e w)) = Stopped /\ err (mach (setError e w)) = Some e.
Proof. unfold setError. simpl. by destruct (setState_state Stopped (upd_mach (set_err (Some e)) w)). Qed.

Lemma ran_ready_other c tr a : a <> ASet Running -> ran_ready c tr -> ran_ready c (tr ++ [a]).
Proof.
  intros Ha Hr tr1 tr2 Heq. destruct tr2 as [|b tr2 _] using rev_ind.
  - apply app_inj_tail in Heq as [_ Heq]. done.
  - rewrite app_comm_cons, app_assoc in Heq. apply app_inj_tail in Heq as [Heq _]. eauto.
Qed.

Lemma ran_ready_calm c tr tr' : Forall calm tr' -> ran_ready c tr -> ran_ready c (tr ++ tr').
Proof.
  induction tr' as [|a tr' IH] using rev_ind; intros Hc Hr.
  - by rewrite app_nil_r.
  - apply Forall_app in Hc as [Hc Ha]. rewrite Forall_singleton in Ha.
    rewrite app_assoc. apply ran_ready_other; [intros ->; exact Ha|auto].
Qed.

Lemma ran_ready_run c tr : ready c tr -> ran_ready c tr -> ran_ready c (tr ++ [ASet Running]).
Proof.
  intros Hready Hr tr1 tr2 Heq. destruct tr2 as [|b tr2 _] using rev_ind.
  - by apply app_inj_tail in Heq as [-> _].
  - rewrite app_comm_cons, app_assoc in Heq. apply app_inj_tail in Heq as [Heq _]. eauto.
Qed.

Lemma ran_ready_not_yet c s : starting s -> ran_ready c (trace s).
Proof.
  intros [Hs _ _] tr1 tr2 Heq. rewrite Heq, sets_app in Hs. simpl in Hs.
  by destruct (sets tr1) as [|? [|]]; simplify_eq/=.
Qed.

Lemma ready_mono c tr tr' : tr ⊆ tr' -> ready c tr -> ready c tr'.
Proof.
  intros Hsub [(t & Ht) Hs]. split; [eauto|].
  intros Ho name iface Hi. destruct (Hs Ho name iface Hi) as [t' Ht']. eauto.
Qed.

Lemma starting_quiet s s' : quiet s s' -> starting s -> starting s'.
Proof.
  intros (Hst & He & tr & Htr & Hc) [H1 H2 H3]. split; try congruence.
  by rewrite Htr, sets_app, (sets_calm tr Hc), app_nil_r.
Qed.

Lemma running_quiet c s s' : quiet s s' -> running c s -> running c s'.
Proof.
  intros (Hst & He & tr & Htr & Hc) [H1 H2 H3 H4]. split; try congruence.
  - by rewrite Htr, sets_app, (sets_calm tr Hc), app_nil_r.
  - rewrite Htr. by apply ran_ready_calm.
Qed.

Lemma going_quiet c s s' : quiet s s' -> going c s -> going c s'.
Proof. intros Hq [H|H]; [left; by eapply starting_quiet|right; by eapply running_quiet]. Qed.

(** Stopping is possible from both phases. *)
Lemma do_setError_spec c e I : spec (going c) (do_setError e) (fun _ => stopped c) I.
Proof.
  intros s Hs. unfold do_setError, act, upd. run_prog.
  destruct (setError_state e (shared s)) as [Hst He].
  assert (Hr : ran_ready c (trace s ++ [ASet Stopped])).
  { apply ran_ready_other; [done|]. destruct Hs as [Hs|[_ _ _ Hs]]; [|done].
    by apply ran_ready_not_yet. }
  split; simpl; rewrite ?He, ?sets_app; try done.
  destruct Hs as [[-> _ _]|[-> _ _ _]]; auto.
Qed.

Lemma do_setRunning_spec c :
  spec (fun s => starting s /\ ready c (trace s)) (do_setState Running) (fun _ => running c) (going c).
Proof.
  intros s [Hs Hready]. unfold do_setState, act, upd. run_prog.
  destruct (setState_state Running (shared s)) as [Hst He].
  pose proof (ran_ready_not_yet c s Hs) as Hr. destruct Hs as [H1 H2 H3].
  split; simpl; try congruence.
  - by rewrite sets_app, H1.
  - by apply ran_ready_run.
Qed.

(** A silent program does not leave a phase. *)
Lemma spec_silent {A} c (P : lw -> Prop) (m : Pr A) :
  keeps silent m -> (forall s s', quiet s s' -> P s -> P s') -> (forall s, P s -> going c s) ->
  spec P m (fun _ => P) (going c).
Proof.
  intros Hm HP Hg s Hs. specialize (Hm s). destruct (m s); eauto using silent_quiet.
Qed.

Lemma silent_trace s s' : silent s s' -> trace s ⊆ trace s'.
Proof. intros (_ & tr & -> & _). set_solver. Qed.

Lemma now_silent : keeps silent now.
Proof. by apply ask_silent. Qed.
#[local] Hint Resolve now_silent register_all_silent saveDumps_silent : bm.

(** Programs that log and change nothing but events and keepalive times. *)
Lemma upd_quiet f :
  (forall w, state (mach (f w)) = state (mach w)) ->
  (forall w, err (mach (f w)) = err (mach w)) -> keeps quiet (upd f).
Proof. intros H1 H2 s. split; [apply H1|]. split; [apply H2|]. exists []. by rewrite app_nil_r. Qed.

Lemma silent_keeps_quiet {A} (m : Pr A) : keeps silent m -> keeps quiet m.
Proof. apply keeps_mono. apply silent_quiet. Qed.

Lemma machineAlive_quiet start : keeps quiet (machineAlive start).
Proof.
  unfold machineAlive. apply keeps_bind; [apply _|apply silent_keeps_quiet; eauto with bm|].
  intros t. by apply upd_quiet.
Qed.

Lemma spec_quiet {A} c (P : lw -> Prop) (m : Pr A) :
  keeps quiet m -> (forall s s', quiet s s' -> P s -> P s') -> (forall s, P s -> going c s) ->
  spec P m (fun _ => P) (going c).
Proof. intros Hm HP Hg s Hs. specialize (Hm s). destruct (m s); eauto. Qed.

(** Calls that return Ok have been answered. *)
Lemma retryCall_spec_ok c fuel ov rpc method arg (P : lw -> Prop) :
  (forall s s', quiet s s' -> P s -> P s') -> (forall s, P s -> going c s) ->
  spec P (retryCall fuel ov rpc method arg)
    (fun r s => P s /\ forall rep, r = Ok rep -> ACall method arg (Some rpc) None ∈ trace s) (going c).
Proof.
  intros HP Hg s Hs.
  pose proof (retryCall_silent fuel ov rpc method arg s) as Hsil.
  destruct (retryCall fuel ov rpc method arg s) as [r s'|s'] eqn:Hrun; [|by eauto using silent_quiet].
  split; [by eauto using silent_quiet|]. intros rep ->.
  apply retryCall_attempts in Hrun as (tr & -> & Htr). simpl.
  apply attempts_Ok in Htr. set_solver.
Qed.

Lemma register_all_spec c fuel svcs :
  spec starting (register_all fuel svcs)
    (fun r s => starting s /\ (r = None -> forall name iface, (name, iface) ∈ svcs ->
       exists t, ACall "Supervisor.Register" (CService name iface) t None ∈ trace s)) (going c).
Proof.
  assert (Hg : forall s, starting s -> going c s) by (intros; by left).
  induction svcs as [|[name iface] rest IH]; simpl.
  - apply spec_ret. intros s Hs. split; [done|]. set_solver.
  - eapply spec_bind; [apply (retryCall_spec_ok c); eauto using starting_quiet|].
    intros [rep|e]; [|apply spec_ret; intros s [Hs _]; by split].
    intros s [Hs Hok]. specialize (Hok rep eq_refl).
    pose proof (register_all_silent fuel rest s) as Hsil. specialize (IH s Hs).
    destruct (register_all fuel rest s) as [r s'|s']; [|done].
    destruct IH as [Hs' Hr]. split; [done|]. intros -> n i [[= -> ->]|Hin]%elem_of_cons; [|by apply Hr].
    eexists. eapply silent_trace; [exact Hsil|exact Hok].
Qed.

Lemma starting_going c s : starting s -> going c s.
Proof. by left. Qed.
Lemma running_going c s : running c s -> going c s.
Proof. by right. Qed.
#[local] Hint Resolve starting_going running_going starting_quiet running_quiet going_quiet : core.

Lemma bootstrap_spec c fuel hs start :
  spec starting (bootstrap fuel c hs start)
    (fun (ok : bool) s => if ok then starting s else stopped c s) (going c).
Proof.
  assert (Hstop : forall e, spec starting (do_setError e ;;; mret false)
      (fun (ok : bool) s => if ok then starting s else stopped c s) (going c)).
  { intros e. eapply spec_bind; [eapply spec_pre; [apply (do_setError_spec c)|auto]|].
    intros []. by apply spec_ret. }
  unfold bootstrap.
  eapply spec_bind; [eapply (spec_quiet c starting); eauto using machineAlive_quiet|intros []].
  eapply spec_bind; [eapply (spec_silent c starting); eauto; apply act_silent; by destruct hs|intros []].
  apply spec_if; intros _; [by apply spec_ret|].
  eapply spec_bind; [eapply (spec_silent c starting); eauto; apply retryCall_silent|].
  intros [rep|e]; [|apply Hstop].
  eapply spec_bind; [eapply (spec_silent c starting); eauto; apply exec_silent|].
  intros [e|]; [|by apply spec_ret].
  apply spec_if; intros _; [apply Hstop|by apply spec_ret].
Qed.

Lemma failed_round_spec c what cs e :
  spec (running c)
    (t <- now ;;
     errorf (failedAfter what (t - cs) (keepaliveTimeout c) (keepaliveRpcTimeout c) e) ;;;
     mret (inr tt))
    (fun (r : unit + unit) s => match r with inl _ => running c s | inr _ => stopped c s end) (going c).
Proof.
  eapply spec_bind; [eapply (spec_silent c (running c)); eauto with bm|intros t].
  eapply spec_bind; [eapply spec_pre; [apply (do_setError_spec c)|auto]|intros []].
  by apply spec_ret.
Qed.

Lemma ping_body_spec c fuel :
  spec (running c) (ping_body fuel c)
    (fun r s => match r with inl _ => running c s | inr _ => stopped c s end) (going c).
Proof.
  unfold ping_body.
  eapply spec_bind; [eapply (spec_silent c (running c)); eauto with bm|intros cs].
  eapply spec_bind; [eapply (spec_silent c (running c)); eauto; apply retryCall_silent|].
  intros [rep|e]; [|apply failed_round_spec].
  eapply spec_bind; [eapply (spec_silent c (running c)); eauto; by apply act_silent|intros []].
  by apply spec_ret.
Qed.

Lemma keepalive_body_spec c fuel start :
  spec (running c) (keepalive_body fuel c start)
    (fun r s => match r with inl _ => running c s | inr _ => stopped c s end) (going c).
Proof.
  unfold keepalive_body.
  eapply spec_bind; [eapply (spec_silent c (running c)); eauto with bm|intros cs].
  eapply spec_bind; [eapply (spec_silent c (running c)); eauto; apply retryCall_silent|].
  intros [rep|e]; [|apply failed_round_spec].
  eapply spec_bind; [eapply (spec_quiet c (running c)); eauto using machineAlive_quiet|intros []].
  eapply spec_bind; [eapply (spec_silent c (running c)); eauto with bm|intros t1].
  eapply spec_bind; [eapply (spec_silent c (running c)); eauto with bm|intros t2].
  eapply spec_bind; [eapply (spec_quiet c (running c)); eauto; by apply upd_quiet|intros []].
  eapply spec_bind; [eapply (spec_silent c (running c)); eauto; by apply act_silent|intros []].
  eapply spec_bind; [eapply (spec_silent c (running c)); eauto|intros []].
  { destruct (negb _); [apply saveDumps_silent|apply keeps_ret, _]. }
  eapply spec_bind; [eapply (spec_silent c (running c)); eauto; by apply ask_silent|].
  intros [e|]; [|by apply spec_ret].
  eapply spec_bind; [eapply spec_pre; [apply (do_setError_spec c)|auto]|intros []].
  by apply spec_ret.
Qed.

(** The last part of the bootstrap of an owned machine, and its keepalive loop. *)
Lemma enter_keepalive_spec c fuel (hs : bool) start :
  spec (fun s => starting s /\ ready c (trace s))
    ((if hs then act AGoMonitorOOMs else mret tt) ;;; do_setState Running ;;;
     iterate fuel (fun _ => keepalive_body fuel c start) tt) (fun _ => stopped c) (going c).
Proof.
  eapply spec_bind with (R := fun _ s => starting s /\ ready c (trace s)).
  { intros s0 [H1 H2]. destruct hs; [|done]. split.
    - eapply starting_quiet; [|exact H1]. apply silent_quiet. by apply act_silent.
    - simpl. eapply ready_mono; [|exact H2]. set_solver. }
  intros []. eapply spec_bind; [apply (do_setRunning_spec c)|]. intros [].
  apply (spec_iterate (fun (_ : unit) s => running c s)); auto. intros []. apply keepalive_body_spec.
Qed.

Lemma loop_spec c fuel hs addr :
  spec (eq (start_lw addr)) (loop fuel c hs) (fun _ => stopped c) (going c).
Proof.
  unfold loop.
  eapply spec_bind with (R := fun _ s => sets (trace s) = [] /\ shared s = newWorld addr).
  { intros s <-. done. }
  intros start.
  eapply spec_bind with (R := fun _ s => starting s).
  { intros s [Hs Hw]. unfold do_setState, act, upd. run_prog.
    destruct (setState_state Starting (shared s)) as [Hst He].
    split; simpl; [by rewrite sets_app, Hs|done|by rewrite He, Hw]. }
  intros [].
  eapply spec_bind with (R := fun (ok : bool) s => if ok then starting s else stopped c s).
  { apply spec_if; intros _; [apply bootstrap_spec|by apply spec_ret]. }
  intros [|]; simpl; [|by apply spec_ret].
  eapply spec_bind; [apply (retryCall_spec_ok c); eauto|].
  intros [rep|e]; [|eapply spec_pre; [apply (do_setError_spec c)|intros s [Hs _]; auto]].
  destruct (owner c) eqn:Ho; simpl.
  - eapply spec_bind with (R := fun svcs s => starting s /\ svcs ≡ₚ map_to_list (services c) /\
      ACall "Supervisor.Ping" (CInt 0) (Some (3 * Minute)%Z) None ∈ trace s).
    { apply spec_get. intros s [Hs Hok]. split; [done|]. split; [apply env_range_perm|by eapply Hok]. }
    intros svcs s (Hs & Hperm & Hping). unfold mbind at 1.
    pose proof (register_all_silent fuel svcs s) as Hsil.
    pose proof (register_all_spec c fuel svcs s Hs) as Hreg.
    destruct (register_all fuel svcs s) as [r s'|s']; [|done]. destruct Hreg as [Hs' Hreg].
    destruct r as [[name e]|].
    { eapply (do_setError_spec c); eauto. }
    assert (Hready : ready c (trace s')).
    { split; [eexists; eapply silent_trace; [exact Hsil|exact Hping]|].
      intros _ name iface Hin. apply Hreg; [done|]. rewrite Hperm. by apply elem_of_map_to_list. }
    by apply enter_keepalive_spec.
  - eapply spec_bind.
    + eapply spec_pre; [apply (do_setRunning_spec c)|].
      intros s [Hs Hok]. split; [done|]. split; [eexists; by eapply Hok|by rewrite Ho].
    + intros []. apply (spec_iterate (fun (_ : unit) s => running c s)); auto.
      intros []. apply ping_body_spec.
Qed.

(** ** Properties *)

(** C1. The life of a machine, for every behaviour of peers, network and clock:
    the loop sets Starting, then at most Running, then Stopped, each once and in
    this order; it returns only with the machine Stopped and its error set, and
    while it has not returned the machine is Starting or Running with no error. *)
Theorem loop_life fuel c hs addr :
  match loop fuel c hs (start_lw addr) with
  | Done _ s =>
      (sets (trace s) = [Starting; Stopped] \/ sets (trace s) = [Starting; Running; Stopped]) /\
      state (mach (shared s)) = Stopped /\ is_Some (err (mach (shared s)))
  | Looping s =>
      (sets (trace s) = [Starting] /\ state (mach (shared s)) = Starting \/
       sets (trace s) = [Starting; Running] /\ state (mach (shared s)) = Running) /\
      err (mach (shared s)) = None
  end.
Proof.
  pose proof (loop_spec c fuel hs addr (start_lw addr) eq_refl) as H.
  destruct (loop fuel c hs (start_lw addr)) as [[] s|s].
  - by destruct H.
  - destruct H as [[]|[]]; auto.
Qed.

(** Whenever the loop sets a machine Running, it is ready. *)
Lemma loop_ran_ready fuel c hs addr : ran_ready c (trace (outcome_state (loop fuel c hs (start_lw addr)))).
Proof.
  pose proof (loop_spec c fuel hs addr (start_lw addr) eq_refl) as H.
  destruct (loop fuel c hs (start_lw addr)) as [[] s|s]; simpl.
  - by destruct H.
  - destruct H as [H|[_ _ _ H]]; [by apply ran_ready_not_yet|done].
Qed.

(** C2. A machine is set Running only after it has answered a ping and, when the
    driver owns it, after Supervisor.Register has succeeded for every one of its
    services: whenever the trace of a loop (returned or not) sets Running, the
    trace before that point contains these successes. *)
Theorem loop_running_ready fuel c hs addr s tr1 tr2 :
  (loop fuel c hs (start_lw addr) = Done tt s \/ loop fuel c hs (start_lw addr) = Looping s) ->
  trace s = tr1 ++ ASet Running :: tr2 -> ready c tr1.
Proof.
  intros Hrun Htr. pose proof (loop_ran_ready fuel c hs addr) as Hr.
  destruct Hrun as [Hrun|Hrun]; rewrite Hrun in Hr; by eapply Hr.
Qed.

(** The remote calls of a trace, and the ones that succeeded. *)
Definition calls (tr : list action) : list (string * carg) :=
  omap (fun a => match a with ACall m x _ _ => Some (m, x) | _ => None end) tr.
Definition succeeded (tr : list action) : list (string * carg) :=
  omap (fun a => match a with ACall m x _ None => Some (m, x) | _ => None end) tr.

(** The calls of a complete exec. *)
Definition exec_calls (envs : list string) (size : Z) (rc : handle) : list (string * carg) :=
  [("Supervisor.Info", CUnit); ("Supervisor.Setenv", CStrings envs);
   ("Supervisor.Setargs", CStrings os_Args);
   ("Supervisor.Keepalive", CDuration (uploadTimeout size));
   ("Supervisor.Setbinary", CReader rc); ("Supervisor.Exec", CUnit)].

(** The branches of exec end alike: the trace is a list of known calls. *)
Ltac exec_absent :=
  intros Hin; exfalso;
  repeat (apply elem_of_cons in Hin as [Hin|Hin]; [by simplify_eq|]); by apply elem_of_nil in Hin.
Ltac exec_done :=
  split; [simpl; rewrite <- ?app_assoc; reflexivity|];
  split; [simpl; repeat apply prefix_cons; apply prefix_nil|];
  split; [simpl; first [exec_absent|set_solver]|try done; simpl; set_solver].

(** Machine.exec returns unless the upload of the binary never does, which is
    the one call without a deadline; the calls it makes are a prefix of Info,
    Setenv (with the machine's environment), Setargs (with os.Args), Keepalive
    (with the upload time), Setbinary, Exec; it calls Supervisor.Exec only after
    Info, Setenv, Setargs and Setbinary have succeeded; and it returns no error
    only if Exec itself succeeded. *)
Lemma exec_order envs s :
  exists tr size rc,
    outcome_state (exec envs s) = mkLw (shared s) (trace s ++ tr) /\
    calls tr `prefix_of` exec_calls envs size rc /\
    (("Supervisor.Exec", CUnit) ∈ calls tr ->
       [("Supervisor.Info", CUnit); ("Supervisor.Setenv", CStrings envs);
        ("Supervisor.Setargs", CStrings os_Args); ("Supervisor.Setbinary", CReader rc)]
         ⊆ succeeded tr) /\
    match exec envs s with
    | Done r _ => r = None -> ("Supervisor.Exec", CUnit) ∈ succeeded tr
    | Looping s' => env_hangs (trace s') "Supervisor.Setbinary" (CReader rc) = true
    end.
Proof.
  unfold exec, timeoutCall, call, ask, act, mbind, mret, mget, mput, block; simpl.
  (* the branches that end before the size or the image is known *)
  destruct (env_Self _) as [self|e]; [|exists [], 0%Z, 0; rewrite app_nil_r; destruct s; exec_done].
  destruct (env_call (trace s) _ _ _) as [info|e]; [|eexists _, 0%Z, 0; exec_done].
  destruct (env_Stat _ _ _) as [size|]; [|eexists _, 0%Z, 0; exec_done].
  do 2 (destruct (env_call _ _ _ _) as [?|?]; [|eexists _, size, 0; exec_done]).
  destruct (env_Open _ _ _ _) as [rc|e]; [|eexists _, size, 0; exec_done].
  destruct (env_call _ "Supervisor.Keepalive" _ _) as [?|?];
  (destruct (env_hangs _ _ (CReader rc)) eqn:Hh; [eexists _, size, rc; exec_done|]);
  (destruct (env_call _ _ (CReader rc) _) as [?|?]; [|eexists _, size, rc; exec_done]);
  destruct (env_call _ "Supervisor.Exec" _ _) as [?|?]; eexists _, size, rc; exec_done.
Qed.

(** ** A peer that answers *)

(** Every remote call returns with an answer, the supervisor calls itself healthy, the
    fat binary has an image, and nobody cancels the machine. *)
Record all_well : Prop := {
  aw_call : forall tr m a t, exists rep, env_call tr m a t = Ok rep /\ r_Healthy rep = true;
  aw_hangs : forall tr m a, env_hangs tr m a = false;
  aw_select : forall tr, env_select tr = None;
  aw_Self : forall tr, exists h, env_Self tr = Ok h;
  aw_Stat : forall h os arch, is_Some (env_Stat h os arch);
  aw_Open : forall tr h os arch, exists rc, env_Open tr h os arch = Ok rc
}.

(** After [k] rounds. *)
Definition rounds (k : nat) (s : lw) : Prop := numKeepalive (mach (shared s)) = k.

Section well.
Hypothesis well : all_well.

Lemma rounds_silent k s s' : shared s' = shared s -> rounds k s -> rounds k s'.
Proof. unfold rounds. by intros ->. Qed.

(** A silent program that always returns, with a value satisfying [Q]. *)
Lemma spec_returns {A} k (m : Pr A) (Q : A -> Prop) I :
  keeps silent m -> (forall s, exists a s', m s = Done a s' /\ Q a) ->
  spec (rounds k) m (fun a s => Q a /\ rounds k s) I.
Proof.
  intros Hm HQ s Hs. specialize (Hm s). destruct (HQ s) as (a & s' & Hrun & Ha).
  rewrite Hrun in *. destruct Hm as [Hsh _]. eauto using rounds_silent.
Qed.

Lemma well_retryCall f ov rpc m a s :
  exists rep, retryCall (S f) ov rpc m a s
    = Done (Ok rep) (mkLw (shared s) (trace s ++ [ACall m a (Some rpc) None])) /\ r_Healthy rep = true.
Proof.
  destruct (aw_call well (trace s) m a (Some rpc)) as (rep & Hrep & Hh). exists rep.
  unfold retryCall; simpl; unfold retryCall_body, call, ask, act. run_prog. by rewrite Hrep.
Qed.

Lemma well_exec envs s : exists s', exec envs s = Done None s'.
Proof.
  unfold exec, timeoutCall, call, ask, act, mbind, mret, mget, mput, block; simpl.
  destruct (aw_Self well (trace s)) as [h ->].
  destruct (aw_call well (trace s) "Supervisor.Info" CUnit (Some (10 * Second)%Z)) as (info & -> & _).
  destruct (aw_Stat well h (r_Goos info) (r_Goarch info)) as [size ->]. simpl.
  repeat match goal with
  | |- context [env_call ?tr ?m ?a ?t] =>
      destruct (aw_call well tr m a t) as (? & -> & _); simpl
  | |- context [env_Open ?tr ?h ?x ?y] => destruct (aw_Open well tr h x y) as [? ->]; simpl
  | |- context [env_hangs ?tr ?m ?a] => rewrite (aw_hangs well tr m a); simpl
  end. eauto.
Qed.

Lemma well_register_all f svcs s : exists s', register_all (S f) svcs s = Done None s'.
Proof.
  revert s. induction svcs as [|[name i] rest IH]; intros s; simpl; [eexists; reflexivity|].
  unfold mbind. destruct (well_retryCall f (5 * Minute) (25 * Second) "Supervisor.Register"
    (CService name i) s) as (rep & -> & _). apply IH.
Qed.

Lemma well_keepalive_body f c start s :
  exists s', keepalive_body (S f) c start s = Done (inl tt) s' /\
    numKeepalive (mach (shared s')) = S (numKeepalive (mach (shared s))) /\
    state (mach (shared s')) = state (mach (shared s)).
Proof.
  unfold keepalive_body, now, machineAlive, ask, act, upd. unfold mbind at 1 2 3 4, mget, mput, mret.
  simpl. match goal with |- context [retryCall _ ?ov ?rpc ?m ?a ?s] =>
    destruct (well_retryCall f ov rpc m a s) as (rep & -> & Hh) end.
  unfold mbind. simpl. rewrite Hh. simpl. rewrite (aw_select well). eauto.
Qed.

Lemma well_keepalive f c start n k :
  spec (fun s => rounds k s /\ state (mach (shared s)) = Running)
    (iterate n (fun _ => keepalive_body (S f) c start) tt) (fun _ _ => False)
    (fun s => rounds (k + n) s /\ state (mach (shared s)) = Running).
Proof.
  revert k. induction n as [|n IH]; intros k s [Hk Hst]; simpl.
  - by rewrite Nat.add_0_r.
  - destruct (well_keepalive_body f c start s) as (s' & Hrun & Hn & Hs).
    unfold mbind. rewrite Hrun. rewrite <- Nat.add_succ_comm. apply IH.
    unfold rounds in *. split; congruence.
Qed.

Lemma setState_rounds st w : numKeepalive (mach (setState st w)) = numKeepalive (mach w).
Proof.
  assert (Hclose : forall l v, mach (foldl (fun w c => close_chan c w) v l) = mach v).
  { induction l as [|x l IH]; intros v; simpl; [done|]. by rewrite IH. }
  unfold setState, setState_locked. case_decide; by rewrite Hclose.
Qed.

Lemma do_setState_rounds st k I :
  spec (rounds k) (do_setState st) (fun _ s => rounds k s /\ state (mach (shared s)) = st) I.
Proof.
  intros s Hs. unfold do_setState, act, upd. run_prog. unfold rounds; simpl.
  rewrite setState_rounds. split; [done|apply setState_state].
Qed.

Lemma well_bootstrap f c hs start I :
  spec (rounds 0) (bootstrap (S f) c hs start) (fun ok s => ok = true /\ rounds 0 s) I.
Proof.
  intros s Hs. unfold bootstrap, machineAlive, now, ask, act, upd. run_prog.
  destruct (NoExec c); simpl; [done|].
  match goal with |- context [ping _ ?s] =>
    destruct (well_retryCall f (9 * Minute) (3 * Minute) "Supervisor.Ping" (CInt 0) s) as (rep & Hrun & _) end.
  unfold ping. rewrite Hrun.
  match goal with |- context [exec ?e ?s] =>
    destruct (well_exec e s) as [s' He]; pose proof (exec_silent e s) as Hsil end.
  rewrite He in *. destruct Hsil as [Hsh _]. split; [done|]. by eapply rounds_silent.
Qed.

End well.

(** C34. When every call is answered, the supervisor says it is healthy and nobody
    cancels the machine, the loop never ends: cut off after any number of
    rounds, the machine is Running and has counted one keepalive per round. *)
Theorem healthy_machine_keeps_running f c hs addr :
  all_well -> owner c = true ->
  exists s, loop (S f) c hs (start_lw addr) = Looping s /\
    state (mach (shared s)) = Running /\ numKeepalive (mach (shared s)) = S f.
Proof.
  intros well Ho.
  enough (H : spec (rounds 0) (loop (S f) c hs) (fun _ _ => False)
    (fun s => rounds (S f) s /\ state (mach (shared s)) = Running)).
  { specialize (H (start_lw addr) eq_refl).
    destruct (loop _ _ _ _) as [?|s]; [done|]. destruct H. by exists s. }
  unfold loop. rewrite Ho. simpl negb.
  eapply spec_bind; [|intros start].
  { apply (spec_returns 0 now (fun _ => True)); [apply now_silent|intros s; by eexists _, _]. }
  eapply spec_bind; [eapply spec_pre; [apply (do_setState_rounds _ 0)|by intros s []]|intros []].
  eapply spec_bind; [eapply spec_pre; [by apply well_bootstrap|by intros s []]|intros ok].
  intros s [-> Hs]. revert s Hs. simpl.
  eapply spec_bind; [apply (spec_returns 0 _ (fun r => exists rep, r = Ok rep)); [apply retryCall_silent|]|].
  { intros s. destruct (well_retryCall well f (9 * Minute) (3 * Minute) "Supervisor.Ping" (CInt 0) s)
      as (rep & Hrun & _). eauto. }
  intros r s [[rep ->] Hs]. revert s Hs.
  eapply spec_bind; [by apply (spec_get _ (fun _ => rounds 0))|intros svcs].
  eapply spec_bind; [apply (spec_returns 0 _ (fun r => r = None)); [apply register_all_silent|]|].
  { intros s. destruct (well_register_all well f svcs s) as [s' Hrun]. eauto. }
  intros r s [-> Hs]. revert s Hs.
  eapply spec_bind with (R := fun _ => rounds 0); [intros s Hs; by destruct hs|intros []].
  eapply spec_bind; [apply (do_setState_rounds _ 0)|intros []].
  apply (well_keepalive well f c start (S f) 0).
Qed.

(** ** Calls from other goroutines *)

(** The traces a Machine.Call may leave, with its result. *)
Inductive call_trace (d : option Z) (addr method : string) (arg : carg) : list action -> result error reply -> Prop :=
| ct_wait st tr r :
    st <> Running -> st <> Stopped -> call_trace d addr method arg tr r ->
    call_trace d addr method arg (AReadState st :: ASelect None :: tr) r
| ct_ctx st e :
    st <> Running -> st <> Stopped ->
    call_trace d addr method arg [AReadState st; ASelect (Some e)] (Err e)
| ct_stopped e :
    call_trace d addr method arg [AReadState Stopped] (Err (stoppedError addr e))
| ct_ok rep :
    call_trace d addr method arg
      [AReadState Running; AContext; ACall method arg d None; ARelease] (Ok rep)
| ct_err e :
    call_trace d addr method arg
      [AReadState Running; AContext; ACall method arg d (Some e); ARelease] (Err e)
| ct_ctx_err e st :
    st <> Stopped ->
    call_trace d addr method arg
      [AReadState Running; AContext; ACall method arg d (Some e); AReadState st; ARelease] (Err e)
| ct_lost e e' :
    call_trace d addr method arg
      [AReadState Running; AContext; ACall method arg d (Some e); AReadState Stopped; ARelease]
      (Err (stoppedError addr e')).

(** A finished Machine.Call has waited while the machine was not yet running,
    then either gave up with the context's error, or found the machine stopped
    and made no remote call, or made exactly one, inside a context tied to the
    machine which it released; the result is the call's, except that a call
    whose own context ended while the machine stopped reports the machine. *)
Lemma Call_traces fuel d addr method arg s r s' :
  Call fuel d addr method arg s = Done r s' ->
  exists tr, s' = mkLw (shared s) (trace s ++ tr) /\ call_trace d addr method arg tr r.
Proof.
  unfold Call. revert s. induction fuel as [|fuel IH]; intros s Hrun; [done|].
  simpl in Hrun. unfold Call_body at 1, Call_stopped, call, ask, act in Hrun. run_prog.
  assert (Hwait : forall st,
    st <> Running -> st <> Stopped ->
    (match env_waitRunning (trace s ++ [AReadState st]) with
     | Some e => Done (Err e) (mkLw (shared s) ((trace s ++ [AReadState st]) ++ [ASelect (Some e)]))
     | None => iterate fuel (fun _ : unit => Call_body d addr method arg) tt
                 (mkLw (shared s) ((trace s ++ [AReadState st]) ++ [ASelect None]))
     end = Done r s') ->
    exists tr, s' = mkLw (shared s) (trace s ++ tr) /\ call_trace d addr method arg tr r).
  { intros st H1 H2 H. destruct (env_waitRunning _) as [e|]; simplify_eq.
    - rewrite <- app_assoc. eexists. split; [done|]. by constructor.
    - apply IH in H as (tr & -> & Htr). simpl. rewrite <- !app_assoc.
      eexists. split; [done|]. by constructor. }
  destruct (env_state (trace s)); simplify_eq/=.
  - apply (Hwait Unstarted); [done..|]. by destruct (env_waitRunning _).
  - apply (Hwait Starting); [done..|]. by destruct (env_waitRunning _).
  - destruct (match d with None => _ | Some _ => _ end); [done|]. simpl in Hrun.
    destruct (env_call _ method arg d) as [rep|e]; simplify_eq/=.
    { rewrite <- !app_assoc. eexists. split; [done|]. constructor. }
    case_decide; simplify_eq/=.
    { rewrite <- !app_assoc. eexists. split; [done|]. constructor. }
    case_decide as Hst; simplify_eq/=; rewrite <- !app_assoc; eexists; (split; [done|]).
    + rewrite <- !app_assoc in Hst. by apply ct_ctx_err.
    + rewrite <- !app_assoc in Hst. simpl in *.
      rewrite Hst. constructor.
  - eexists. split; [done|]. constructor.
Qed.

(** A call on a machine that is Stopped fails fast and for good: RetryCall
    makes no remote call and does not retry, and the error is of kind
    Unavailable and of severity Fatal. *)
Lemma stopped_call_is_final {EL' : ErrorsLaws EL} f d addr method arg s :
  env_state (trace s) = Stopped ->
  exists e,
    RetryCall (S f) d addr method arg s = Done (Err e) (mkLw (shared s) (trace s ++ [AReadState Stopped])) /\
    Is Unavailable e = true /\ Match (E [ASev Fatal]) e = true.
Proof.
  intros Hst. set (s' := mkLw (shared s) (trace s ++ [AReadState Stopped])).
  assert (Hk : forall oe, Is Unavailable (stoppedError addr oe) = true /\
     Match (E [ASev Fatal]) (stoppedError addr oe) = true /\ IsTemporary (stoppedError addr oe) = false).
  { intros [e|]; unfold stoppedError; (split; [|split]);
      first [erewrite Is_E by done|erewrite Match_Fatal_E by done|erewrite IsTemporary_E by done];
      by apply bool_decide_eq_true || by apply bool_decide_eq_false; naive_solver. }
  assert (Hcall : Call (S f) d addr method arg s = Done (Err (stoppedError addr (env_err (trace s')))) s').
  { unfold Call. simpl. unfold Call_body at 1, Call_stopped, ask, act. run_prog. by rewrite Hst. }
  destruct (Hk (env_err (trace s'))) as (H1 & H2 & H3).
  eexists. split; [|by split]. unfold RetryCall. simpl. unfold mbind. rewrite Hcall. by rewrite H3.
Qed.

(** The upload time exec asks the supervisor to stay alive for is a whole
    number of seconds, the least that moves the binary at 100 kB/s; the int64
    arithmetic does not wrap for binaries up to 2^49 bytes. *)
Lemma uploadTimeout_bound size :
  (0 <= size <= 2 ^ 49)%Z ->
  exists t, uploadTimeout size = (t * Second)%Z /\
    (size <= t * floor)%Z /\ ((t - 1) * floor < size)%Z.
Proof.
  intros Hsize. exists ((size + floor - 1) / floor)%Z.
  assert (Hf : floor = 102400%Z) by done.
  assert (Hs : Second = 1000000000%Z) by done.
  unfold uploadTimeout. rewrite Hf, Hs in *.
  rewrite (wrap64_id (size + 102400)) by (unfold in_int64; lia).
  rewrite (wrap64_id (size + 102400 - 1)) by (unfold in_int64; lia).
  rewrite Z.quot_div_nonneg by lia.
  set (t := ((size + 102400 - 1) / 102400)%Z).
  pose proof (Z.div_mod (size + 102400 - 1) 102400). 
  pose proof (Z.mod_pos_bound (size + 102400 - 1) 102400).
  fold t in H. rewrite wrap64_id; [lia|unfold in_int64; lia].
Qed.

End facts.

(** ** Evaluated runs *)

(** Concrete environments, in which the properties' hypotheses hold. *)
Module Samples.

Definition good_reply : reply := mkReply "linux" "amd64" (5 * Minute) true.
Definition sample_file : list (@action SimpleErrors) -> string -> string -> option serror :=
  fun _ _ _ => None.

(** A peer that answers every call, and one that is not there; retry.Wait
    gives up after [patience] retries. *)
#[local] Instance sampleEnv (answer : result serror reply) (patience : nat) (st : State) : MachineEnv := {|
  env_call := fun _ _ _ _ => answer;
  env_hangs := fun _ _ _ => false;
  env_retryWait := fun _ _ i => if i <? patience then None else Some (SCtx true);
  env_now := fun tr => Z.of_nat (length tr);
  env_select := fun _ => None;
  env_state := fun _ => st;
  env_err := fun _ => None;
  env_ctxErr := fun _ => None;
  env_waitRunning := fun _ => None;
  env_file := sample_file;
  env_suffix := fun _ => ".host-20060102T150405";
  env_Self := fun _ => Ok 0;
  env_Stat := fun _ _ _ => Some 1000000%Z;
  env_Open := fun _ _ _ _ => Ok 1;
  os_Args := ["prog"];
  Duration_String := fun _ => "d";
  env_range := fun _ m => map_to_list m;
  env_range_perm := fun _ m => reflexivity (map_to_list m)
|}.

Definition up : MachineEnv := sampleEnv (Ok good_reply) 2 Stopped.
Definition down : MachineEnv := sampleEnv (Err (SOther "refused")) 2 Running.

(** An owned machine with one service, run without exec. *)
Definition conf : config :=
  mkConfig true true {[ "PI" := 7 ]} ["A=b"] Minute (2 * Minute) (10 * Second).

Lemma up_well : all_well (env := up).
Proof. split; intros; first [done | by eexists]. Qed.

Lemma retryCall_attempts_witness :
  exists tr, trace (outcome_state
      (retryCall (env := down) 5 Minute Second "Supervisor.Ping" (CInt 0) (start_lw "m"))) = tr /\
    attempts (EL := SimpleErrors) Minute Second "Supervisor.Ping" (CInt 0) 0 tr
      (Err (@E SimpleErrors [ASev Fatal; AErr (SCtx true)])).
Proof.
  destruct (retryCall_attempts (env := down) 5 Minute Second "Supervisor.Ping" (CInt 0) (start_lw "m")
    (Err (@E SimpleErrors [ASev Fatal; AErr (SCtx true)]))
    (outcome_state (retryCall (env := down) 5 Minute Second "Supervisor.Ping" (CInt 0) (start_lw "m"))))
    as (tr & Heq & Htr); [reflexivity|].
  exists tr. split; [|exact Htr]. by rewrite Heq.
Defined.

Lemma retryCall_terminates_sample :
  exists r s', retryCall (env := down) 3 Minute Second "Supervisor.Ping" (CInt 0) (start_lw "m") = Done r s'.
Proof.
  apply (retryCall_terminates (env := down) 2); [|lia]. intros tr i Hi. simpl.
  destruct (Nat.ltb_spec i 2); [lia|done].
Defined.

Lemma loop_running_ready_witness :
  ready conf (take 7 (trace (outcome_state (loop (env := up) 2 conf true (start_lw "m"))))).
Proof.
  apply (loop_running_ready (env := up) 2 conf true "m"
    (outcome_state (loop (env := up) 2 conf true (start_lw "m"))) _
    (drop 8 (trace (outcome_state (loop (env := up) 2 conf true (start_lw "m")))))).
  - right. vm_compute. reflexivity.
  - vm_compute. reflexivity.
Defined.

Lemma healthy_machine_keeps_running_witness :
  exists s, loop (env := up) 3 conf true (start_lw "m") = Looping s /\
    state (mach (shared s)) = Running /\ numKeepalive (mach (shared s)) = 3.
Proof. apply (healthy_machine_keeps_running (env := up)); [apply up_well|reflexivity]. Defined.

Lemma Call_traces_witness :
  exists tr, call_trace (EL := SimpleErrors) None "m" "PI.Sample" (CInt 3) tr (Err (SOther "refused")) /\
    tr = [AReadState Running; AContext; ACall "PI.Sample" (CInt 3) None (Some (SOther "refused")); ARelease].
Proof.
  destruct (Call_traces (env := down) 1 None "m" "PI.Sample" (CInt 3) (start_lw "m") (Err (SOther "refused"))
    (outcome_state (Call (env := down) 1 None "m" "PI.Sample" (CInt 3) (start_lw "m"))))
    as (tr & Heq & Htr); [reflexivity|].
  exists tr. split; [exact Htr|]. by apply (f_equal trace) in Heq.
Defined.

End Samples.
