(* ===== verification/Detection.v ===== *)
(** The failure detector of Machine.loop (src/machine.go) is complete: once a
    peer has stopped answering pings and keepalives, the goroutine that
    maintains its machine returns and leaves the machine Stopped with an error,
    unless the peer hangs during the upload of the binary (hung_upload).
    (That it is accurate, so that a machine whose calls are all answered stays
    Running, is healthy_machine_keeps_running of MachineLoop.v.)

    The proof is one of total correctness: every program below is shown to
    return, the loops by the variants of [spec_iterate_variant]. *)
From S2P Require Import Prelude Errors MachineState MachineLoop.
Local Open Scope bm_scope.

Section detection.
Context {EL : ErrorsLib} {env : MachineEnv}.

(** ** Probes and their answers *)

(** The methods by which the loop learns that its peer is alive. *)
Definition probes : list string := ["Supervisor.Ping"; "Supervisor.Keepalive"].

(** A probe that was answered. *)
Definition answer (a : action) : bool :=
  match a with ACall m _ _ None => bool_decide (m ∈ probes) | _ => false end.

Definition answered (tr : list action) : nat := length (filter answer tr).

(** The peer answers at most [k] probes: what it did before is arbitrary, and
    other calls may still succeed. *)
Definition dies_after (k : nat) : Prop :=
  forall tr m a t, m ∈ probes -> k <= answered tr -> exists e, env_call tr m a t = Err e.

(** retry.Wait reports the overall deadline from the [n]-th retry on. *)
Definition deadlines (n : nat) : Prop :=
  forall tr ov i, n <= i -> env_retryWait tr (Some ov) i <> None.

(** The upload of the binary, the one call of the loop without a deadline,
    returns: its connection breaks if the peer does not read on. *)
Definition uploads_return : Prop :=
  forall tr rc, env_hangs tr "Supervisor.Setbinary" (CReader rc) = false.

(** A machine the loop has set Running is seen Running or Stopped. *)
Definition states_known : Prop :=
  forall tr, ASet Running ∈ tr -> env_state tr = Running \/ env_state tr = Stopped.

Lemma answered_app tr1 tr2 : answered (tr1 ++ tr2) = answered tr1 + answered tr2.
Proof. unfold answered. by rewrite filter_app, length_app. Qed.

Lemma answered_one m a t tr : m ∈ probes -> ACall m a t None ∈ tr -> 0 < answered tr.
Proof.
  intros Hm [tr1 [tr2 ->]]%list_elem_of_split.
  rewrite answered_app. unfold answered at 2. rewrite filter_cons.
  destruct (decide _) as [_|Hn]; [simpl; lia|]. destruct Hn. simpl. by rewrite bool_decide_eq_true_2.
Qed.

(** ** Programs that only add to the trace *)

Definition grows (s s' : lw) : Prop := exists tr, trace s' = trace s ++ tr.

#[export] Instance grows_preorder : PreOrder grows.
Proof.
  split.
  - intros s. exists []. by rewrite app_nil_r.
  - intros s1 s2 s3 [tr1 H1] [tr2 H2]. exists (tr1 ++ tr2). by rewrite H2, H1, app_assoc.
Qed.

Lemma quiet_grows s s' : quiet s s' -> grows s s'.
Proof. intros (_ & _ & tr & Htr & _). by exists tr. Qed.

(** [P] stays true as the trace grows. *)
Definition stable (P : lw -> Prop) : Prop := forall s s', grows s s' -> P s -> P s'.

(** [returns P m]: started where [P] holds, [m] returns and [P] still holds. *)
Definition returns {A} (P : lw -> Prop) (m : Pr A) : Prop :=
  spec P m (fun _ => P) (fun _ => False).

Lemma returns_run {A} P (m : Pr A) :
  stable P -> keeps quiet m -> (forall s, P s -> exists a s', m s = Done a s') -> returns P m.
Proof.
  intros HP Hm Hrun s Hs. specialize (Hm s). destruct (Hrun s Hs) as (a & s' & Heq).
  rewrite Heq in *. eapply HP; [by apply quiet_grows|done].
Qed.

Lemma returns_bind {A B} P (m : Pr A) (k : A -> Pr B) :
  returns P m -> (forall a, returns P (k a)) -> returns P (mbind m k).
Proof. intros Hm Hk. eapply spec_bind; [exact Hm|exact Hk]. Qed.

Lemma returns_ret {A} P (a : A) : returns P (mret a).
Proof. by apply spec_ret. Qed.

Lemma returns_get {A} P (f : lw -> A) : returns P (mget f).
Proof. by apply spec_get. Qed.

Lemma returns_act P a : stable P -> returns P (act a).
Proof. intros HP s Hs. eapply HP; [|exact Hs]. by exists [a]. Qed.

Lemma returns_upd P f : stable P -> returns P (upd f).
Proof. intros HP s Hs. eapply HP; [|exact Hs]. exists []. simpl. by rewrite app_nil_r. Qed.

Lemma returns_ask {A} P (f : list action -> A) a : stable P -> returns P (ask f a).
Proof. intros HP s Hs. unfold ask, act. run_prog. eapply HP; [|exact Hs]. by eexists [_]. Qed.

#[local] Hint Resolve returns_ret returns_get returns_act returns_upd returns_ask : bm.

(** Along the structure of a program, as [keeps_tac] does for [keeps]. *)
Ltac returns_step :=
  match goal with
  | |- returns _ (mbind _ _) => apply returns_bind; [|intro]
  | |- returns _ (match ?x with _ => _ end) => destruct x
  | |- returns _ (if ?b then _ else _) => destruct b
  end.
Ltac returns_tac := repeat first [solve [eauto with bm] | returns_step].

Lemma returns_setState P st : stable P -> returns P (do_setState st).
Proof. intros HP. unfold do_setState. returns_tac. Qed.

Lemma returns_setError P e : stable P -> returns P (do_setError e).
Proof. intros HP. unfold do_setError. returns_tac. Qed.

Lemma returns_machineAlive P start : stable P -> returns P (machineAlive start).
Proof. intros HP. unfold machineAlive, now. returns_tac. Qed.

Lemma returns_exec P envs : uploads_return -> stable P -> returns P (exec envs).
Proof.
  intros Hup HP. apply returns_run; [done|apply silent_keeps_quiet, exec_silent|].
  intros s _. destruct (exec_order envs s) as (tr & size & rc & _ & _ & _ & Hrun).
  destruct (exec envs s) as [r s'|s']; [eauto|]. by rewrite Hup in Hrun.
Qed.

#[local] Hint Resolve returns_setState returns_setError returns_machineAlive returns_exec : bm.

(** ** Before the machine is running *)

Section timely.
Context {n fuel : nat} (Hdl : deadlines n) (Hf : n < fuel).

Lemma returns_retryCall P ov rpc m a : stable P -> returns P (retryCall fuel ov rpc m a).
Proof using Hdl Hf.
  intros HP. apply returns_run; [done|apply silent_keeps_quiet, retryCall_silent|].
  intros s _. apply (retryCall_terminates n); [|done]. intros tr i. apply Hdl.
Qed.
#[local] Hint Resolve returns_retryCall : bm.

Lemma returns_register_all P svcs : stable P -> returns P (register_all fuel svcs).
Proof using Hdl Hf. intros HP. induction svcs as [|[name i] rest IH]; simpl; returns_tac. Qed.

Lemma returns_bootstrap P c hs start :
  (NoExec c = false -> uploads_return) -> stable P -> returns P (bootstrap fuel c hs start).
Proof using Hdl Hf.
  intros Hup HP. unfold bootstrap, ping. destruct (NoExec c); [|specialize (Hup eq_refl)]; returns_tac.
Qed.

(** ** While it is running *)

Definition ran (s : lw) : Prop := ASet Running ∈ trace s.

Lemma ran_stable : stable ran.
Proof. intros s s' [tr Htr] Hs. unfold ran in *. rewrite Htr. set_solver. Qed.

(** The profile of an unhealthy machine: m.Call does not wait any more. *)
Lemma returns_Call P d addr m a :
  states_known -> stable P -> (forall s, P s -> ran s) -> returns P (Call fuel (Some d) addr m a).
Proof using Hf.
  intros Hst HP Hran. apply returns_run; [done|apply silent_keeps_quiet, Call_silent|].
  intros s Hs. assert (Heq : fuel = S (pred fuel)) by lia. rewrite Heq. unfold Call. simpl.
  unfold Call_body at 1, Call_stopped, call, ask, act. run_prog.
  destruct (Hst _ (Hran s Hs)) as [-> | ->]; simpl; [|by eauto].
  repeat case_decide; simpl; eauto.
Qed.

Lemma returns_saveDumps P :
  states_known -> stable P -> (forall s, P s -> ran s) -> returns P (saveDumps fuel).
Proof using Hdl Hf.
  intros Hst HP Hran. pose proof (returns_Call P) as Hcall.
  unfold saveDumps, saveProfile, saveExpvars. returns_tac.
Qed.

(** A probe the peer does not answer fails, one it answers has been counted. *)
Lemma probe_spec k v ov rpc m a :
  dies_after k -> m ∈ probes ->
  spec (fun s => ran s /\ k - answered (trace s) <= v) (retryCall fuel ov rpc m a)
    (fun r s => match r with
                | Ok _ => ran s /\ k - answered (trace s) < v
                | Err _ => True
                end) (fun _ => False).
Proof using Hdl Hf.
  intros Hdie Hm s [Hran Hv].
  destruct (retryCall_terminates n fuel ov rpc m a s) as (r & s' & Hrun); [intros tr i; apply Hdl|done|].
  rewrite Hrun. destruct r as [rep|e]; [|done].
  destruct (decide (k <= answered (trace s))) as [Hk|Hk].
  - exfalso. revert Hrun. unfold retryCall.
    assert (H : spec (fun s => k <= answered (trace s)) (iterate fuel (retryCall_body ov rpc m a) 0)
      (fun r _ => exists e, r = Err e) (fun _ => True)).
    { apply (spec_iterate (fun _ s => k <= answered (trace s))); [done|]. clear s s' rep Hran Hv Hk.
      intros i s Hk. unfold retryCall_body, call, ask, act; run_prog.
      destruct (Hdie (trace s) m a (Some rpc) Hm Hk) as [e ->]. simpl.
      destruct (Match _ e); [by eauto|]. destruct (env_retryWait _ _ i); simpl; [by eauto|].
      rewrite !answered_app. lia. }
    intros Hrun. specialize (H s Hk). rewrite Hrun in H. destruct H as [e [=]].
  - apply retryCall_attempts in Hrun as (tr & -> & Htr). simpl.
    apply attempts_Ok, answered_one in Htr; [|done]. unfold ran. simpl. rewrite answered_app.
    split; [|lia]. unfold ran in Hran. set_solver.
Qed.

Lemma fewer_stable k v : stable (fun s => ran s /\ k - answered (trace s) < v).
Proof.
  intros s s' Hg [Hr Hv]. split; [by eapply ran_stable|].
  destruct Hg as [tr ->]. rewrite answered_app. lia.
Qed.

(** What a round of either loop promises: it ends the loop, or the peer has
    used up one of its answers. *)
Definition round_spec (k : nat) (body : Pr (unit + unit)) : Prop :=
  forall v, spec (fun s => ran s /\ k - answered (trace s) = v) body
    (fun r s => match r with
                | inl _ => ran s /\ k - answered (trace s) < v
                | inr _ => True
                end) (fun _ => False).

Lemma now_then_probe {A} k v (body : Z -> Pr A) (Q : A -> lw -> Prop) :
  (forall t, spec (fun s => ran s /\ k - answered (trace s) <= v) (body t) Q (fun _ => False)) ->
  spec (fun s => ran s /\ k - answered (trace s) = v) (t <- now ;; body t) Q (fun _ => False).
Proof.
  intros H. eapply spec_bind with (R := fun _ s => ran s /\ k - answered (trace s) < S v).
  - eapply spec_pre; [apply (returns_ask _ env_now ANow), fewer_stable|]. intros s [Hr Hv]. split; [done|lia].
  - intros t. eapply spec_pre; [apply H|]. intros s [Hr Hv]. split; [done|lia].
Qed.

Lemma ping_round k c : dies_after k -> round_spec k (ping_body fuel c).
Proof using Hdl Hf.
  intros Hdie v. unfold ping_body. apply now_then_probe. intros callStart.
  eapply spec_bind; [apply (probe_spec k v); [done|set_solver]|]. intros [rep|e].
  - eapply spec_bind; [apply (returns_act _ _ (fewer_stable k v))|]. intros []. by apply spec_ret.
  - by intros s _.
Qed.

Lemma keepalive_round k c start :
  states_known -> dies_after k -> round_spec k (keepalive_body fuel c start).
Proof using Hdl Hf.
  intros Hst Hdie v. unfold keepalive_body. apply now_then_probe. intros callStart.
  eapply spec_bind; [apply (probe_spec k v); [done|set_solver]|]. intros [rep|e]; [|by intros s _].
  pose proof (fewer_stable k v) as HP.
  assert (Hdumps : returns (fun s => ran s /\ k - answered (trace s) < v) (saveDumps fuel))
    by (apply returns_saveDumps; [done|done|naive_solver]).
  eapply spec_bind; [by apply returns_machineAlive|intros ?].
  do 2 (eapply spec_bind; [by apply (returns_ask _ env_now ANow)|intros ?]).
  eapply spec_bind; [by apply returns_upd|intros ?].
  eapply spec_bind; [by apply returns_act|intros ?].
  eapply spec_bind; [destruct (negb _); [exact Hdumps|apply returns_ret]|intros ?].
  eapply spec_bind; [by apply (returns_ask _ env_select)|]. intros [e|]; [by intros s _|by apply spec_ret].
Qed.

(** Such rounds end. *)
Lemma rounds_end k body :
  round_spec k body -> k < fuel ->
  spec ran (iterate fuel (fun _ => body) tt) (fun _ _ => True) (fun _ => False).
Proof.
  intros Hbody Hk. eapply spec_pre.
  - apply (spec_iterate_variant (fun _ => ran) (fun _ s => k - answered (trace s)) (fun _ _ => True)).
    intros []. apply Hbody.
  - intros s Hs. split; [done|lia].
Qed.

(** ** The loop *)

Lemma setRunning_ran P : spec P (do_setState Running) (fun _ => ran) (fun _ => False).
Proof. intros s _. unfold ran, do_setState, act, upd. run_prog. set_solver. Qed.

(** The loop returns. *)
Lemma loop_returns k c hs :
  (owner c = true -> NoExec c = false -> uploads_return) -> states_known -> dies_after k -> k < fuel ->
  spec (fun _ => True) (loop fuel c hs) (fun _ _ => True) (fun _ => False).
Proof using Hdl Hf.
  intros Hup Hst Hdie Hk. set (T := fun _ : lw => True).
  assert (HT : stable T) by done. unfold loop.
  eapply spec_bind; [by apply (returns_ask T env_now ANow)|intros start].
  eapply spec_bind; [by apply returns_setState|intros ?].
  eapply spec_bind; [apply spec_if; intros Ho; [apply (returns_bootstrap T); auto|apply (returns_ret T)]|].
  intros [|]; [|by apply spec_ret]. simpl negb. cbv iota.
  eapply spec_bind; [by apply (returns_retryCall T)|]. intros [rep|e]; [|by apply (returns_setError T)].
  destruct (owner c); simpl negb; cbv iota.
  - eapply spec_bind; [apply (returns_get T)|intros svcs].
    eapply spec_bind; [by apply (returns_register_all T)|].
    intros [[name e]|]; [by apply (returns_setError T)|].
    eapply spec_bind; [destruct hs; [by apply (returns_act T)|apply (returns_ret T)]|intros ?].
    eapply spec_bind; [apply setRunning_ran|intros ?].
    apply (rounds_end k); [by apply keepalive_round|done].
  - eapply spec_bind; [apply setRunning_ran|intros ?].
    apply (rounds_end k); [by apply ping_round|done].
Qed.

End timely.

(** C3. The failure detector is complete: if retry.Wait enforces its deadlines
    and, after at most [k] answered pings and keepalives, the peer answers none
    any more, then the goroutine that maintains the machine returns, and the
    machine is left Stopped with an error, whatever answers the peer gives to the
    other calls and whatever the clock, the files and the other goroutines do; that
    holds for owned and for other machines, with or without exec.  An owned machine
    that is bootstrapped must not hang in the upload of its binary, the one call of
    the loop without a deadline. *)
Theorem dead_machine_stops n k fuel c hs addr :
  deadlines n -> dies_after k -> states_known ->
  (owner c = true -> NoExec c = false -> uploads_return) -> n < fuel -> k < fuel ->
  exists s, loop fuel c hs (start_lw addr) = Done tt s /\
    state (mach (shared s)) = Stopped /\ is_Some (err (mach (shared s))).
Proof.
  intros Hdl Hdie Hst Hup Hn Hk.
  destruct (spec_total _ _ _ (start_lw addr) (loop_returns Hdl Hn k c hs Hup Hst Hdie Hk) I)
    as ([] & s & Hrun & _).
  exists s. split; [done|]. pose proof (loop_spec c fuel hs addr (start_lw addr) eq_refl) as H.
  rewrite Hrun in H. by destruct H.
Qed.

End detection.

(** ** Evaluated runs *)
Module Samples.
Import MachineLoop.Samples.

(** A peer that answers three probes, says it is unhealthy, and is gone; one that
    also keeps an upload open for ever. *)
#[local] Instance dying_peer (hangs : bool) : MachineEnv := {|
  env_call := fun tr _ _ _ =>
    if answered tr <? 3 then Ok (mkReply "linux" "amd64" (5 * Minute) false)
    else Err (SOther "connection refused");
  env_hangs := fun _ m _ => hangs && bool_decide (m = "Supervisor.Setbinary");
  env_retryWait := fun _ _ i => if i <? 2 then None else Some (SCtx true);
  env_now := fun tr => Z.of_nat (length tr);
  env_select := fun _ => None;
  env_state := fun _ => Running;
  env_err := fun _ => None;
  env_ctxErr := fun _ => None;
  env_waitRunning := fun _ => None;
  env_file := sample_file;
  env_suffix := fun _ => ".host-20060102T150405";
  env_Self := fun _ => Ok 0;
  env_Stat := fun _ _ _ => Some 1000000%Z;
  env_Open := fun _ _ _ _ => Ok 1;
  os_Args := ["prog"];
  Duration_String := fun _ => "d";
  env_range := fun _ m => map_to_list m;
  env_range_perm := fun _ m => reflexivity (map_to_list m)
|}.

Definition dying : MachineEnv := dying_peer false.

(** The owned machine of MachineLoop.v: two keepalives, then Stopped. *)
Example dying_run :
  match loop (env := dying) 4 conf true (start_lw "m") with
  | Done _ s => (numKeepalive (mach (shared s)), sets (trace s)) = (2, [Starting; Running; Stopped])
  | Looping _ => False
  end.
Proof. vm_compute. reflexivity. Qed.

(** The same machine, with exec. *)
Definition conf' : config :=
  mkConfig true false {[ "PI" := 7 ]} ["A=b"] Minute (2 * Minute) (10 * Second).

(** Without a deadline for the upload, the machine is Starting for ever. *)
Example hung_upload f :
  exists s, loop (env := dying_peer true) (S f) conf' true (start_lw "m") = Looping s /\
    state (mach (shared s)) = Starting.
Proof. eexists. split; reflexivity. Qed.

Lemma dead_machine_stops_witness :
  exists s, loop (env := dying) 4 conf' true (start_lw "m") = Done tt s /\
    state (mach (shared s)) = Stopped /\ is_Some (err (mach (shared s))).
Proof.
  apply (dead_machine_stops (env := dying) 2 3 4 conf' true "m").
  - intros tr ov i Hi. simpl. destruct (Nat.ltb_spec i 2); [lia|done].
  - intros tr m a t _ Hk. simpl. destruct (Nat.ltb_spec (answered tr) 3); [lia|by eexists].
  - intros tr _. by left.
  - done.
  - lia.
  - lia.
Defined.

End Samples.
