(* ===== verification/Wire.v ===== *)
(** What travels between the client and the server of package rpc: byte
    streams, HTTP requests, responses and the response writer, Go types as
    reflect shows them, and the interface of the encoder (package
    encoding/gob) with the behaviour the theorems rely on.  [SimpleGob] is a
    concrete encoder used to evaluate the definitions. *)
From S2P Require Import Prelude Errors GoStrings.
From Stdlib Require Import Ascii.
Local Open Scope string_scope.
Local Open Scope Z_scope.

(** ** Streams: io.Reader and io.ReadCloser *)

(** What a reader will deliver: the data of each successful Read, and how the
    stream ends: [None] is io.EOF, [Some e] another error. *)
Record stream {error : Type} := { st_chunks : list string; st_end : option error }.
Arguments stream : clear implicits.

(** All the bytes of a stream. *)
Definition st_bytes {error} (s : stream error) : string :=
  foldr (fun c r => c +:+ r) "" (st_chunks s).

(** A complete in-memory body, for instance a bytes.Buffer. *)
Definition buffer {error} (b : string) : stream error := {| st_chunks := [b]; st_end := None |}.

(** The error value of one Read. *)
Inductive rerr (error : Type) := ENil | EOF | EErr (e : error).
Arguments ENil {error}.
Arguments EOF {error}.
Arguments EErr {error} e.

Definition rerr_of {error} (e : option error) : rerr error :=
  match e with None => EOF | Some e => EErr e end.

(** Read of a plain body. *)
Definition body_Read {error} (s : stream error) : (string * rerr error) * stream error :=
  match st_chunks s with
  | c :: cs => ((c, ENil), {| st_chunks := cs; st_end := st_end s |})
  | [] => (("", rerr_of (st_end s)), s)
  end.

(** io/ioutil.ReadAll: everything up to EOF, or up to the first error. *)
Definition ReadAll {error} (s : stream error) : string * option error :=
  (st_bytes s, st_end s).

(** rpc/sizereader.go: a reader that counts the bytes read through it. *)
Record sizeTrackingReader {error : Type} := { Reader : stream error; str_n : Z }.
Arguments sizeTrackingReader : clear implicits.

Definition sizeTrackingReader_Read {error} (s : sizeTrackingReader error) :
    (string * rerr error) * sizeTrackingReader error :=
  let '((p, err), r') := body_Read (Reader s) in
  ((p, err), {| Reader := r'; str_n := str_n s + Z.of_nat (String.length p) |}).

Definition sizeTrackingReader_Len {error} (s : sizeTrackingReader error) : Z := str_n s.

(** ** HTTP *)

Record request {error : Type} := {
  r_Method : string;
  r_URL_Path : string;
  r_ContentType : string;
  r_Body : stream error
}.
Arguments request : clear implicits.

(** A connection: whether it can flush, and whether it speaks HTTP/1.1 (as that
    of the test system) or HTTP/2 (as those of the others).  The versions of
    net/http2 differ in whether a response ends whose trailer was declared and has
    no value to send ([lost_ends]). *)
Inductive protocol := HTTP1 | HTTP2 (ends : bool).
Record transport := { t_flusher :> bool; t_proto : protocol }.
Definition http1 : transport := {| t_flusher := true; t_proto := HTTP1 |}.
Definition http2 : transport := {| t_flusher := true; t_proto := HTTP2 false |}.

(** What becomes of the value of a trailer on its way.  In HTTP/1.1 a header
    value has no newlines and no white space around it; HTTP/2 leaves out values
    with control bytes. *)
Definition trailer_value (p : protocol) (v : string) : option string :=
  match p with
  | HTTP1 => Some (TrimString (headerNewlineToSpace v))
  | HTTP2 _ => if ValidHeaderFieldValue v then Some v else None
  end.

Definition lost_ends (p : protocol) : bool := match p with HTTP1 => true | HTTP2 ends => ends end.

(** The texts that any connection carries unchanged: one line, without control
    bytes and without white space around it. *)
Definition plain_text (v : string) : bool := ValidHeaderFieldValue v && bool_decide (TrimString v = v).

(** A response as the client sees it; the trailer is what is left of the
    header map once the body has been read.  [resp_ends] tells whether the end of
    the response ever arrives: a read of a body that does not end blocks when all
    of the body was read. *)
Record response {error : Type} := {
  StatusCode : Z;
  Status : string;
  resp_Body : stream error;
  Trailer : gmap string string;
  resp_ends : bool
}.
Arguments response : clear implicits.

(** Header.Get: the empty string for an absent key. *)
Definition header_get (h : gmap string string) (k : string) : string := default "" (h !! k).

(** The state of an http.ResponseWriter: the header map, the status line and
    header once written, the body written so far, the number of flushes, the
    first error the connection will report (after that many bytes), whether the
    connection supports flushing, and its protocol. *)
Record writer {error : Type} := {
  w_header : gmap string string;
  w_sent : option (Z * gmap string string);
  w_body : string;
  w_flushed : list nat;
  w_room : option (nat * error);
  w_flusher : bool;
  w_proto : protocol
}.
Arguments writer : clear implicits.

Definition new_writer {error} (room : option (nat * error)) (t : transport) : writer error :=
  {| w_header := ∅; w_sent := None; w_body := ""; w_flushed := []; w_room := room;
     w_flusher := t; w_proto := t_proto t |}.

Definition header_set {error} (k v : string) (w : writer error) : writer error :=
  {| w_header := <[k := v]> (w_header w); w_sent := w_sent w; w_body := w_body w;
     w_flushed := w_flushed w; w_room := w_room w; w_flusher := w_flusher w; w_proto := w_proto w |}.

(** WriteHeader: only the first call has an effect. *)
Definition WriteHeader {error} (code : Z) (w : writer error) : writer error :=
  match w_sent w with
  | Some _ => w
  | None =>
      {| w_header := w_header w; w_sent := Some (code, w_header w); w_body := w_body w;
         w_flushed := w_flushed w; w_room := w_room w; w_flusher := w_flusher w; w_proto := w_proto w |}
  end.

(** Write: sends the header with status 200 if none was sent, then the data,
    as far as the connection holds. *)
Definition Write {error} (p : string) (w : writer error) : writer error * option error :=
  let w := WriteHeader 200 w in
  let upd b r := {| w_header := w_header w; w_sent := w_sent w; w_body := w_body w +:+ b;
                    w_flushed := w_flushed w; w_room := r; w_flusher := w_flusher w; w_proto := w_proto w |} in
  match w_room w with
  | None => (upd p None, None)
  | Some (n, e) =>
      if decide (String.length p <= n)%nat then
        (upd p (Some ((n - String.length p)%nat, e)), None)
      else (upd (String.substring 0 n p) (Some (0%nat, e)), Some e)
  end.

(** Flush, recorded as the length of the body sent at that time. *)
Definition Flush {error} (w : writer error) : writer error :=
  let w := WriteHeader 200 w in
  {| w_header := w_header w; w_sent := w_sent w; w_body := w_body w;
     w_flushed := w_flushed w ++ [String.length (w_body w)]; w_room := w_room w;
     w_flusher := w_flusher w; w_proto := w_proto w |}.

(** http.Error *)
Definition http_Error {error} (msg : string) (code : Z) (w : writer error) : writer error :=
  let w := header_set "Content-Type" "text/plain; charset=utf-8" w in
  let w := header_set "X-Content-Type-Options" "nosniff" w in
  let w := WriteHeader code w in
  (Write (msg +:+ String NEWLINE "") w).1.

(** The trailer of a response, and whether its end arrives, from the header
    that was sent and the header map when the handler returned.  A key declared
    as a trailer travels if it has a value then that the protocol carries.
    net/http2 marks the end of such a response in the frame of the trailers.  There
    are versions that write no frame when no trailer has a value: the response then
    never ends (the bug that ServeHTTP mentions). *)
Definition send_trailer (p : protocol) (hdr last : gmap string string) : gmap string string * bool :=
  match hdr !! "Trailer" with
  | None => (∅, true)
  | Some k =>
      match last !! k ≫= trailer_value p with
      | Some v => ({[ k := v ]}, true)
      | None => (∅, lost_ends p)
      end
  end.

Arguments send_trailer : simpl never.

(** The response a client receives, over a connection that held, once the
    handler has returned.  A header
    set after the header was sent travels only if it is the one that was
    declared as a trailer. *)
Definition finish {error} (w : writer error) : response error :=
  let '(code, hdr) := default (200, w_header w) (w_sent w) in
  let '(tr, ends) := send_trailer (w_proto w) hdr (w_header w) in
  {| StatusCode := code;
     Status := "";
     resp_Body := {| st_chunks := [w_body w]; st_end := None |};
     Trailer := tr;
     resp_ends := ends |}.

(** ** Go types, as package reflect shows them *)

Inductive GoType :=
| TBasic (name : string)
| TInterface (name : string)
| TStruct (name : string)
| TPtr (elem : GoType)
| TSlice (elem : GoType)
| TMap (key elem : GoType)
| TNamed (name : string) (underlying : GoType).

#[export] Instance GoType_eq_dec : EqDecision GoType.
Proof. solve_decision. Defined.

(** reflect.Kind, as far as the code looks at it. *)
Inductive GoKind := KPtr | KMap | KSlice | KOther.

#[export] Instance GoKind_eq_dec : EqDecision GoKind.
Proof. solve_decision. Defined.

Fixpoint Kind_of (t : GoType) : GoKind :=
  match t with
  | TPtr _ => KPtr
  | TMap _ _ => KMap
  | TSlice _ => KSlice
  | TNamed _ u => Kind_of u
  | _ => KOther
  end.

(** Type.Elem; the types without an element type do not occur. *)
Fixpoint Elem (t : GoType) : GoType :=
  match t with
  | TPtr u | TSlice u | TMap _ u => u
  | TNamed _ u => Elem u
  | _ => t
  end.

Definition typeOfContext : GoType := TInterface "context.Context".
Definition typeOfReader : GoType := TInterface "io.Reader".
Definition typeOfReadCloser : GoType := TInterface "io.ReadCloser".
Definition typeOfError : GoType := TInterface "error".

(** ** The encoder *)

(** What the code hands to Encode: a value, an error recovered with
    errors.Recover, or a pointer to a nil io.ReadCloser. *)
Inductive gsource (gval error : Type) :=
| SVal (v : gval)
| SError (e : error)
| SNilReadCloser.
Arguments SVal {gval error} v.
Arguments SError {gval error} e.
Arguments SNilReadCloser {gval error}.

(** Go values and package encoding/gob. *)
Class Gob {EL : ErrorsLib} := {
  gval : Type;
  (** reflect.New, reflect.MakeMap, reflect.MakeSlice, v.Elem(), v.Elem().Set *)
  NewValue : GoType -> gval;
  MakeMap : GoType -> gval;
  MakeSlice : GoType -> gval;
  Deref : gval -> gval;
  SetElem : gval -> gval -> gval;
  (** gob.NewEncoder(new(bytes.Buffer)).Encode(v) *)
  Encode : gsource gval error -> result error string;
  (** gob.NewDecoder(r).Decode(p): the value [p] points to afterwards, the
      error, and the number of bytes the decoder read from the stream. *)
  Decode : gval -> stream error -> gval * option error * Z;
  (** The same for a fresh errors.Error. *)
  DecodeError : stream error -> result error error
}.

(** Two errors that callers cannot tell apart by kind, severity or message. *)
Definition same_error {EL : ErrorsLib} (e e' : error) : Prop :=
  Error e' = Error e /\ (forall k, Is k e' = Is k e) /\ (forall t, Match t e' = Match t e).

(** The documented behaviour of gob: it flattens pointers ([indirect]), and
    what was encoded is restored by decoding into a zero value of a type the
    value fits ([fits p v]: [p] points to such a zero value). *)
Class GobLaws {EL : ErrorsLib} {G : Gob} := {
  indirect : gval -> gval;
  fits : gval -> gval -> Prop;
  Decode_Encode : forall p v b s,
    Encode (SVal v) = Ok b -> st_bytes s = b -> st_end s = None -> fits p v ->
    exists n, Decode p s = (SetElem p (indirect v), None, n);
  DecodeError_Encode : forall e b s,
    Encode (SError (Recover e)) = Ok b -> st_bytes s = b -> st_end s = None ->
    exists e', DecodeError s = Ok e' /\ same_error (Recover e) e';
  Deref_SetElem : forall p v, Deref (SetElem p v) = v
}.
Arguments GobLaws : clear implicits.
Arguments GobLaws _ _ : assert.

(** ** Lemmas on streams and the response writer *)

Lemma st_bytes_buffer {error} b : st_bytes (buffer (error := error) b) = b.
Proof. unfold st_bytes. simpl. apply sapp_nil_r. Qed.

(** Plain texts travel unchanged. *)
Lemma trailer_value_plain p v : plain_text v = true -> trailer_value p v = Some v.
Proof.
  intros [Hv Ht]%andb_prop. apply bool_decide_eq_true in Ht.
  destruct p; simpl; [by rewrite headerNewlineToSpace_valid, Ht|by rewrite Hv].
Qed.

Lemma trailer_value_empty p : trailer_value p "" = Some "".
Proof. by destruct p. Qed.

(** The error chains of package errors have a line for each error. *)
Example chains_are_not_plain :
  trailer_value HTTP1 ("a:" +:+ String NEWLINE (String "009"%char "b")) = Some ("a: " +:+ String "009"%char "b") /\
  trailer_value (HTTP2 false) ("a:" +:+ String NEWLINE (String "009"%char "b")) = None.
Proof. by vm_compute. Qed.

Section writer_lemmas.
Context {error : Type}.
Implicit Types w : writer error.

Lemma Write_sent p w : w_sent (Write p w).1 = w_sent (WriteHeader 200 w).
Proof. unfold Write. destruct (w_room _) as [[n e]|]; [case_decide|]; done. Qed.

Lemma Write_header p w : w_header (Write p w).1 = w_header (WriteHeader 200 w).
Proof. unfold Write. destruct (w_room _) as [[n e]|]; [case_decide|]; done. Qed.

Lemma WriteHeader_sent code w c :
  w_sent w = Some c -> WriteHeader code w = w.
Proof. intros H. unfold WriteHeader. by rewrite H. Qed.

Lemma WriteHeader_fresh code w :
  w_sent w = None -> w_sent (WriteHeader code w) = Some (code, w_header w).
Proof. intros H. unfold WriteHeader. by rewrite H. Qed.

Lemma WriteHeader_room code w : w_room (WriteHeader code w) = w_room w.
Proof. unfold WriteHeader. by destruct (w_sent w). Qed.

Lemma WriteHeader_body code w : w_body (WriteHeader code w) = w_body w.
Proof. unfold WriteHeader. by destruct (w_sent w). Qed.

(** On a connection that holds, Write appends. *)
Lemma Write_ok p w :
  w_room w = None ->
  (Write p w).2 = None /\ w_body (Write p w).1 = w_body w +:+ p /\ w_room (Write p w).1 = None.
Proof.
  intros H. unfold Write. rewrite WriteHeader_room, H, WriteHeader_body. done.
Qed.

Lemma finish_http_Error msg code w :
  w_sent w = None -> StatusCode (finish (http_Error msg code w)) = code.
Proof.
  intros H. unfold http_Error, finish. rewrite Write_sent.
  erewrite (WriteHeader_sent 200) by by apply WriteHeader_fresh.
  rewrite WriteHeader_fresh by done. simpl. by destruct (send_trailer _ _ _).
Qed.

(** A status that was sent is not changed by http.Error. *)
Lemma finish_http_Error_late msg code w c h :
  w_sent w = Some (c, h) -> StatusCode (finish (http_Error msg code w)) = c.
Proof.
  intros H. unfold http_Error, finish. rewrite Write_sent.
  rewrite !(WriteHeader_sent _ _ (c, h)) by exact H. simpl. rewrite H. simpl. by destruct (send_trailer _ _ _).
Qed.
End writer_lemmas.

(** ** A concrete encoder, for evaluation *)

Inductive sval := SStr (s : string) | SPtr (v : sval) | SChan.

Fixpoint sindirect (v : sval) : sval :=
  match v with SPtr v => sindirect v | _ => v end.

Definition kind_char (k : Kind) : Ascii.ascii :=
  match k with
  | Other => "o" | Net => "n" | Invalid => "i" | Unavailable => "u"
  | OOM => "m" | Remote => "r" | Precondition => "p" | NotSupported => "s"
  end%char.

Definition char_kind (c : Ascii.ascii) : Kind :=
  match c with
  | "n" => Net | "i" => Invalid | "u" => Unavailable | "m" => OOM | "r" => Remote
  | "p" => Precondition | "s" => NotSupported | _ => Other
  end%char.

Definition sev_char (s : Severity) : Ascii.ascii :=
  match s with Unknown => "u" | Retriable => "r" | Temporary => "t" | Fatal => "f" end%char.

Definition char_sev (c : Ascii.ascii) : Severity :=
  match c with "r" => Retriable | "t" => Temporary | "f" => Fatal | _ => Unknown end%char.

Definition simple_Encode (x : gsource sval serror) : result serror string :=
  match x with
  | SVal v => match sindirect v with
              | SStr s => Ok (String "V" s)
              | _ => Err (SOther "gob: type has no exported fields")
              end
  | SError e =>
      Ok (String "E" (String (kind_char (serror_kind e))
            (String (sev_char (serror_sev e)) (serror_Error e))))
  | SNilReadCloser => Err (SOther "gob: cannot encode nil pointer")
  end.

Definition simple_Decode (p : sval) (s : stream serror) : sval * option serror * Z :=
  let n := Z.of_nat (String.length (st_bytes s)) in
  match p, st_bytes s with
  | SPtr _, String "V" v => (SPtr (SStr v), None, n)
  | _, _ => (p, Some (SOther "gob: unknown type id or corrupted data"), n)
  end.

Definition simple_DecodeError (s : stream serror) : result serror serror :=
  match st_bytes s with
  | String "E" (String k (String sv m)) => Ok (SErr (char_kind k) (char_sev sv) m)
  | _ => Err (SOther "gob: unknown type id or corrupted data")
  end.

#[export] Instance SimpleGob : @Gob SimpleErrors := {|
  gval := sval;
  NewValue := fun _ => SPtr (SStr "");
  MakeMap := fun _ => SStr "";
  MakeSlice := fun _ => SStr "";
  Deref := fun v => match v with SPtr v => v | _ => v end;
  SetElem := fun p v => match p with SPtr _ => SPtr v | _ => SPtr v end;
  Encode := simple_Encode;
  Decode := simple_Decode;
  DecodeError := simple_DecodeError
|}.

Lemma char_kind_char k : char_kind (kind_char k) = k.
Proof. by destruct k. Qed.

Lemma char_sev_char s : char_sev (sev_char s) = s.
Proof. by destruct s. Qed.

#[export] Instance SimpleGob_laws : GobLaws SimpleErrors SimpleGob.
Proof.
  refine {| indirect := sindirect; fits := fun p _ => exists v, p = SPtr v |}.
  - intros p v b s HE <- _ [v0 ->]. simpl in *.
    destruct (sindirect v) eqn:Hv; simplify_eq.
    unfold simple_Decode. rewrite <- HE. by eexists.
  - intros e b s HE <- _. simpl in HE. simplify_eq.
    simpl. unfold simple_DecodeError. rewrite <- HE, char_kind_char, char_sev_char.
    eexists. split; [done|]. split; [done|split; intros; done].
  - by intros [].
Defined.
