(* ===== verification/MachineMonitors.v ===== *)
(** The goroutines a Machine starts next to its loop (src/machine.go): the
    monitor of the kernel log (tryMonitorOOMs) and the forwarding of the
    machine's logs (in loop), with the settings of Machine.start; and what the
    monitor's setError does to the life of the machine's state. *)
From S2P Require Import Prelude Errors GoStrings Wire MachineState.
From stdpp Require Import pretty.
From Stdlib Require Import Ascii.
Local Open Scope string_scope.
Local Open Scope list_scope.

(** ** Lines *)

Abbreviation CR := "013"%char.

(** bufio.Scanner's ScanLines: a carriage return at the end is dropped. *)
Fixpoint dropCR (s : string) : string :=
  match s with
  | EmptyString => EmptyString
  | String a EmptyString => if bool_decide (a = CR) then EmptyString else s
  | String a r => String a (dropCR r)
  end.

(** The lines of a text; no empty line after the last newline. *)
Fixpoint drop_last_empty (ls : list string) : list string :=
  match ls with
  | [] => []
  | [l] => if bool_decide (l = "") then [] else [l]
  | l :: ls => l :: drop_last_empty ls
  end.

(** bufio.MaxScanTokenSize: the scanner stops at a longer line. *)
Definition MaxScanTokenSize : nat := Z.to_nat 65536.

Fixpoint take_short (ls : list string) : list string :=
  match ls with
  | [] => []
  | l :: ls => if decide (Z.of_nat (String.length l) < 65536)%Z then l :: take_short ls else []
  end.

Definition ScanLines (text : string) : list string :=
  dropCR <$> take_short (drop_last_empty (Split text NEWLINE)).

(** ** The OOM monitor *)

Section monitor.
Context {EL : ErrorsLib}.

(** The text looked for: fmt.Sprintf's %d of the pid. *)
Definition oom_prefix : string := "Out of memory: Kill process ".
Definition look (pid : N) : string := oom_prefix +:+ pretty pid.

Definition oom_error : error := E [AKind OOM; AMsg "bigmachine process killed by the kernel"].

(** Machine.tryMonitorOOMs: the errors it sets on the machine, given the reply
    to Supervisor.Getpid and the kernel log as system.Read delivers it. *)
Definition tryMonitorOOMs (getpid : result error N) (read : result error (stream error)) : list error :=
  match getpid with
  | Err _ => []
  | Ok pid =>
      match read with
      | Err _ => []
      | Ok r => omap (fun text => if Contains text (look pid) then Some oom_error else None)
                     (ScanLines (st_bytes r))
      end
  end.

(** ** Forwarding logs *)

(** bigmachine.go: logSyncMarker *)
Definition logSyncMarker : string := "========\/\/ Bigmachine Done \/\/========".

(** The scan loop: the lines written to standard error, given how many writes
    succeed, and how it ends: the marker was seen, a write failed, or the
    stream is over. *)
Inductive tail_end := SawMarker | WriteFailed | EndOfLogs.

Fixpoint tail_lines (writes : option nat) (lines : list string) : list string * tail_end :=
  match lines with
  | [] => ([], EndOfLogs)
  | line :: lines =>
      if HasSuffix line logSyncMarker then ([], SawMarker)
      else
        match writes with
        | Some O => ([], WriteFailed)
        | _ => let '(out, e) := tail_lines (pred <$> writes) lines in (line :: out, e)
        end
  end.

(** The goroutine: what it forwards, and that it closes tailDone in the end
    (the deferred close runs on every path). *)
Record tailed := { t_out : list string; t_tailDone : bool }.

Definition tail (writes : option nat) (read : result error (stream error)) : tailed :=
  match read with
  | Err _ => {| t_out := []; t_tailDone := true |}
  | Ok r => {| t_out := (tail_lines writes (ScanLines (st_bytes r))).1; t_tailDone := true |}
  end.

(** ** Machine.start: the keepalive settings *)

(** The machine's own settings if it has them, and otherwise the system's. *)
Definition start_keepalive (own system : Z * Z * Z) : Z * Z * Z :=
  if decide (own.1.1 = 0%Z) then system else own.

End monitor.

(** ** Lemmas on lines *)

#[local] Arguments String.append !_ _ / : simpl nomatch.

(** A text of complete lines. *)
Definition text_of (lines : list string) : string :=
  foldr (fun l r => l +:+ String NEWLINE r) "" lines.

(** Lines a log is made of: no newline, no carriage return, not too long. *)
Definition log_line (l : string) : Prop :=
  has_byte NEWLINE l = false /\ has_byte CR l = false /\ (Z.of_nat (String.length l) < 65536)%Z.

Lemma dropCR_id l : has_byte CR l = false -> dropCR l = l.
Proof.
  induction l as [|a l IH]; [done|]. intros [Ha Hl]%orb_false_iff. simpl.
  destruct l as [|b l]; [by rewrite Ha|]. f_equal. by apply IH.
Qed.

Lemma Split_text lines :
  Forall log_line lines -> Split (text_of lines) NEWLINE = lines ++ [""].
Proof.
  intros H. induction H as [|l lines [Hl _] Hls IH]; [done|]. simpl.
  rewrite Split_app by done. by rewrite IH.
Qed.

Lemma drop_last_empty_snoc ls : drop_last_empty (ls ++ [""]) = ls.
Proof.
  induction ls as [|l ls IH]; [done|]. simpl. rewrite IH.
  destruct ls; simpl; done.
Qed.

Lemma ScanLines_text lines : Forall log_line lines -> ScanLines (text_of lines) = lines.
Proof.
  intros H. unfold ScanLines. rewrite Split_text, drop_last_empty_snoc by done.
  induction H as [|l lines (H1 & H2 & H3) Hls IH]; [done|].
  cbn [take_short]. rewrite decide_True by done. by rewrite fmap_cons, dropCR_id, IH.
Qed.

(** ** Lemmas on the text looked for *)

(** A match can only begin where its first byte occurs. *)
Lemma Contains_skip pre s sub c sub' :
  sub = String c sub' -> has_byte c pre = false -> Contains (pre +:+ s) sub = Contains s sub.
Proof.
  intros -> Hpre. induction pre as [|a pre IH]; [done|].
  apply orb_false_iff in Hpre as [Ha Hpre]. simpl.
  assert (bool_decide (c = a) = false) as ->
    by (apply bool_decide_eq_false in Ha; apply bool_decide_eq_false_2; congruence).
  simpl. apply IH. done.
Qed.

Lemma Contains_none s sub c sub' :
  sub = String c sub' -> has_byte c s = false -> Contains s sub = false.
Proof.
  intros Hs Hc. rewrite <- (sapp_nil_r s). rewrite (Contains_skip s "" sub c sub' Hs Hc).
  by subst.
Qed.

Lemma Contains_head s sub c sub' :
  sub = String c sub' -> has_byte c s = false ->
  Contains (String c s) sub = HasPrefix (String c s) sub.
Proof.
  intros Hs Hc. cbn [Contains]. rewrite (Contains_none s sub c sub' Hs Hc). by rewrite orb_false_r.
Qed.

Lemma HasPrefix_sep c s t p :
  has_byte c p = false -> HasPrefix (s +:+ String c t) p = HasPrefix s p.
Proof.
  revert p. induction s as [|b s IH]; intros [|a p] Hp; simpl; try done.
  - apply orb_false_iff in Hp as [Ha _]. by rewrite Ha.
  - apply orb_false_iff in Hp as [_ Hp]. by rewrite IH.
Qed.

Lemma HasPrefix_weaken s a b : HasPrefix s (a +:+ b) = true -> HasPrefix s a = true.
Proof.
  revert s. induction a as [|x a IH]; intros [|y s]; simpl; try done.
  intros [H1 H2]%andb_true_iff. by rewrite H1, (IH s H2).
Qed.

Lemma Contains_weaken s a b : Contains s (a +:+ b) = true -> Contains s a = true.
Proof.
  induction s as [|x s IH]; cbn [Contains].
  - rewrite !orb_false_r. apply HasPrefix_weaken.
  - intros [H|H]%orb_true_iff; apply orb_true_iff; [left; by eapply HasPrefix_weaken|right; auto].
Qed.

Lemma not_digit_O d : pretty_N_char d <> "O"%char.
Proof. unfold pretty_N_char. by repeat case_match. Qed.

Lemma not_digit_space d : pretty_N_char d <> " "%char.
Proof. unfold pretty_N_char. by repeat case_match. Qed.

Lemma pretty_N_go_app n s : pretty_N_go n s = pretty_N_go n "" +:+ s.
Proof.
  revert s. induction (N.lt_wf_0 n) as [n _ IH]. intros s.
  destruct (decide (0 < n)%N) as [Hn|Hn].
  - rewrite (pretty_N_go_step n s), (pretty_N_go_step n "") by done.
    assert (Hlt : (n `div` 10 < n)%N) by (apply N.div_lt; lia).
    rewrite (IH _ Hlt), (IH _ Hlt (String _ "")). by rewrite sapp_assoc.
  - assert (n = 0%N) as -> by lia. by rewrite !pretty_N_go_0.
Qed.

(** Appending a digit to a number appends it to its text. *)
Lemma pretty_digit n d :
  (0 < n)%N -> (d < 10)%N -> HasPrefix (pretty (10 * n + d)%N) (pretty n) = true.
Proof.
  intros Hn Hd. unfold pretty, pretty_N. rewrite !decide_False by lia.
  rewrite pretty_N_go_step by lia.
  rewrite <- (N.div_unique (10 * n + d) 10 n d) by lia.
  rewrite pretty_N_go_app, <- (sapp_nil_r (pretty_N_go n "")) at 1.
  rewrite sapp_assoc. rewrite <- (sapp_nil_r (pretty_N_go n "")) at 2. by rewrite HasPrefix_app.
Qed.

(** ** What the monitor detects *)

Section detection.
Context {EL : ErrorsLib}.

(** A line of the kernel log: the report of a process killed, or another one. *)
Inductive kline :=
| Report (pre : string) (pid : N) (rest : string)
| Noise (text : string).

Definition ktext (k : kline) : string :=
  match k with
  | Report pre pid rest => pre +:+ oom_prefix +:+ pretty pid +:+ String " " rest
  | Noise t => t
  end.

(** The rest of a report has no capital O, where the text looked for begins
    (time stamps, names and scores as the kernel prints them), and other lines
    do not hold the text. *)
Definition kline_ok (k : kline) : Prop :=
  log_line (ktext k) /\
  match k with
  | Report pre _ rest => has_byte "O" pre = false /\ has_byte "O" rest = false
  | Noise t => Contains t oom_prefix = false
  end.

Lemma Contains_ktext k pid :
  kline_ok k ->
  Contains (ktext k) (look pid) =
    match k with Report _ q _ => HasPrefix (pretty q) (pretty pid) | Noise _ => false end.
Proof.
  intros [_ Hk]. destruct k as [pre q rest|t]; cbn [ktext].
  - destruct Hk as [Hpre Hrest].
    set (tail_ := "ut of memory: Kill process ").
    assert (Hlook : look pid = String "O" (tail_ +:+ pretty pid)) by done.
    assert (HrestO : has_byte "O" (tail_ +:+ pretty q +:+ String " " rest) = false).
    { rewrite !has_byte_app. rewrite pretty_bytes by (apply not_digit_O || done). exact Hrest. }
    rewrite (Contains_skip pre _ (look pid) "O" _ Hlook Hpre).
    set (body := pretty q +:+ String " " rest) in *.
    assert (Hbody : oom_prefix +:+ body = String "O" (tail_ +:+ body)) by done.
    rewrite Hbody, (Contains_head _ (look pid) "O" _ Hlook HrestO), <- Hbody.
    unfold look. rewrite HasPrefix_app. apply HasPrefix_sep.
    apply pretty_bytes; [apply not_digit_space|done].
  - destruct (Contains t (look pid)) eqn:Hc; [|done]. unfold look in Hc.
    apply Contains_weaken in Hc. congruence.
Qed.

(** The reports the monitor takes for its own. *)
Definition names_us (pid : N) (k : kline) : bool :=
  match k with Report _ q _ => HasPrefix (pretty q) (pretty pid) | Noise _ => false end.

(** What the OOM monitor reports.  On a kernel log of reports of killed
    processes and other lines, the machine is failed (as OOM, once per report)
    exactly for the reports of processes whose number begins with the digits of
    the supervised one's: its own kill is always detected, an unrelated line
    never counts, but the kill of process 1234 also fails the machine whose
    process is 123. *)
Lemma oom_monitor_reports (HL : ErrorsLaws EL) pid klines s :
  Forall kline_ok klines -> st_bytes s = text_of (ktext <$> klines) ->
  tryMonitorOOMs (Ok pid) (Ok s) =
    replicate (length (filter (fun k => names_us pid k = true) klines)) oom_error /\
  Is OOM oom_error = true /\
  (forall pre rest, names_us pid (Report pre pid rest) = true) /\
  (forall pre rest d, (0 < pid)%N -> (d < 10)%N -> names_us pid (Report pre (10 * pid + d) rest) = true).
Proof.
  intros Hok Hs.
  split; [|split; [unfold oom_error; by rewrite (Is_E _ OOM)|split]].
  - unfold tryMonitorOOMs. rewrite Hs, ScanLines_text.
    + clear Hs. induction Hok as [|k klines Hk Hks IH]; [done|]. rewrite fmap_cons. cbn [omap list_omap].
      rewrite Contains_ktext by done. fold (names_us pid k). rewrite filter_cons.
      destruct (names_us pid k); simpl; by rewrite IH.
    + apply Forall_fmap. eapply Forall_impl; [exact Hok|]. by intros k [H _].
  - intros pre rest. apply HasPrefix_refl.
  - intros pre rest d. apply pretty_digit.
Qed.
End detection.

(** ** The monitor and the machine's state *)

Section regression.
Context {EL : ErrorsLib}.

(** The end of the bootstrap in Machine.loop, next to the monitor it starts:
    the loop's goroutine first starts the monitor, then sets Running; the
    monitor, once started, may set the OOM error at any time. *)
Inductive pc := ServicesRegistered | MonitorStarted | RunningSet.

Inductive boot_step (oom : error) : pc * world -> pc * world -> Prop :=
| boot_go w : boot_step oom (ServicesRegistered, w) (MonitorStarted, w)
| boot_running w : boot_step oom (MonitorStarted, w) (RunningSet, setState Running w)
| boot_oom p w : p <> ServicesRegistered -> boot_step oom (p, w) (p, setError oom w).

Lemma close_all_state l w : state (mach (foldl (fun w c => close_chan c w) w l)) = state (mach w).
Proof. revert w. induction l as [|c l IH]; intros w; [done|]. simpl. by rewrite IH. Qed.

Lemma close_all_err l w : err (mach (foldl (fun w c => close_chan c w) w l)) = err (mach w).
Proof. revert w. induction l as [|c l IH]; intros w; [done|]. simpl. by rewrite IH. Qed.

Lemma monitor_setState_state s w : state (mach (setState s w)) = s.
Proof. unfold setState, setState_locked. by case_decide; rewrite close_all_state. Qed.

Lemma setState_err s w : err (mach (setState s w)) = err (mach w).
Proof. unfold setState, setState_locked. by case_decide; rewrite close_all_err. Qed.

Lemma monitor_setError_state e w : state (mach (setError e w)) = Stopped.
Proof. unfold setError. simpl. apply monitor_setState_state. Qed.

Lemma setError_err e w : err (mach (setError e w)) = Some e.
Proof. unfold setError. simpl. by rewrite setState_err. Qed.

(** C35. The state is not monotonic.  From every world with the services
    registered there is an interleaving in which the machine is Stopped by the
    OOM monitor and Running afterwards, with the error still set; and the state
    goes down in no other way: a step that lowers it is the loop setting
    Running after the monitor stopped the machine. *)
Theorem oom_monitor_undone oom w :
  (exists w1 w2, rtc (boot_step oom) (ServicesRegistered, w) (MonitorStarted, w1) /\
     boot_step oom (MonitorStarted, w1) (RunningSet, w2) /\
     state (mach w1) = Stopped /\ state (mach w2) = Running /\ err (mach w2) = Some oom) /\
  (forall p1 w1 p2 w2, boot_step oom (p1, w1) (p2, w2) ->
     (State_val (state (mach w2)) < State_val (state (mach w1)))%Z ->
     p1 = MonitorStarted /\ p2 = RunningSet /\ state (mach w1) = Stopped).
Proof.
  split.
  - exists (setError oom w), (setState Running (setError oom w)). split.
    { eapply rtc_l; [apply boot_go|]. eapply rtc_l; [by apply boot_oom|]. apply rtc_refl. }
    split; [apply boot_running|].
    by rewrite !monitor_setState_state, monitor_setError_state, setState_err, setError_err.
  - intros p1 w1 p2 w2 Hs Hlt. inversion Hs; subst; [lia| |].
    + rewrite monitor_setState_state in Hlt. by destruct (state (mach w1)).
    + rewrite monitor_setError_state in Hlt. by destruct (state (mach w1)).
Qed.

End regression.

(** ** Forwarding logs *)

Section tailing.
Context {EL : ErrorsLib}.

(** Lines are forwarded in order, up to the first that ends in the marker. *)
Lemma tail_until_marker before line after :
  Forall log_line (before ++ line :: after) ->
  Forall (fun l => HasSuffix l logSyncMarker = false) before -> HasSuffix line logSyncMarker = true ->
  forall s, st_bytes s = text_of (before ++ line :: after) ->
  tail None (Ok s) = {| t_out := before; t_tailDone := true |}.
Proof.
  intros Hl Hb Hm s Hs. unfold tail. rewrite Hs, ScanLines_text by done. f_equal. clear Hl Hs.
  induction Hb as [|l before Hl Hb IH]; simpl; [by rewrite Hm|]. rewrite Hl. simpl.
  destruct (tail_lines None (before ++ line :: after)) as [out e]. simpl in *. by subst.
Qed.
End tailing.

Module Samples.

Definition kmsg : list kline :=
  [Report "[ 12.5] " 1234 "(bigslice) score 912 or sacrifice child"; Noise "[ 12.6] eth0: link up"].

Lemma oom_monitor_reports_sample :
  length (tryMonitorOOMs (EL := SimpleErrors) (Ok 123%N)
    (Ok (buffer (text_of (ktext <$> kmsg))))) = 1.
Proof.
  refine (eq_trans (f_equal length (proj1 (oom_monitor_reports SimpleErrors_laws 123 kmsg _ _ _))) eq_refl).
  - repeat constructor.
  - apply st_bytes_buffer.
Defined.

End Samples.
