(* ===== verification/RpcStats.v ===== *)
(** rpc/stats.go: the tree of counters kept for the calls of a process, and
    the proof that after any sequence of calls each counter is what its name
    says. *)
From S2P Require Import Prelude.
Local Open Scope string_scope.
Local Open Scope list_scope.
Local Open Scope Z_scope.

(** ** The tree *)

(** treestats: a node is named by its path from the root, and a child is never
    removed, so the path stands for the pointer.  [ts_trees] holds the inner
    nodes, [ts_ints] the expvar.Int leaves. *)
Record treestats := {
  ts_trees : gset (list string);
  ts_ints : gmap (list string) Z
}.

(** The zero treestats: the root alone. *)
Definition new_treestats : treestats := {| ts_trees := {[ [] ]}; ts_ints := ∅ |}.

(** treestats.Child: the child with the name, created if there is none;
    Map.Set replaces whatever leaf had the name. *)
Definition Child (path : list string) (name : string) (t : treestats) : treestats :=
  let c := path ++ [name] in
  if decide (c ∈ ts_trees t) then t
  else {| ts_trees := {[ c ]} ∪ ts_trees t; ts_ints := delete c (ts_ints t) |}.

(** treestats.Path: the node below [path] with the given names. *)
Fixpoint Path_from (path names : list string) (t : treestats) : list string * treestats :=
  match names with
  | [] => (path, t)
  | name :: names => Path_from (path ++ [name]) names (Child path name t)
  end.

Definition Path (names : list string) (t : treestats) : list string * treestats :=
  Path_from [] names t.

(** expvar.Map.Add on the node at [path]: an absent key starts at zero, a key
    that holds another type of variable is left alone. *)
Definition Add (path : list string) (key : string) (delta : Z) (t : treestats) : treestats :=
  let k := path ++ [key] in
  if decide (k ∈ ts_trees t) then t
  else {| ts_trees := ts_trees t;
          ts_ints := <[k := wrap64 (default 0 (ts_ints t !! k) + delta)]> (ts_ints t) |}.

(** r.Path(names...).Add(key, delta) *)
Definition path_Add (names : list string) (key : string) (delta : Z) (t : treestats) : treestats :=
  let '(p, t) := Path names t in Add p key delta t.

(** rpcstats.max *)
Definition max (val : Z) (names : list string) (name : string) (t : treestats) : treestats :=
  let t := path_Add names name 0 t in
  let '(p, t) := Path names t in
  match ts_ints t !! (p ++ [name]) with
  | Some v =>
      if decide (v < val) then
        {| ts_trees := ts_trees t; ts_ints := <[p ++ [name] := val]> (ts_ints t) |}
      else t
  | None => t
  end.

(** rpcstats.Start, up to the call of time.Now. *)
Definition Start (addr method : string) (t : treestats) : treestats :=
  let t := path_Add ["method"; method] "count" 1 t in
  if decide (addr <> "") then path_Add ["machine"; addr; "method"; method] "count" 1 t
  else t.

(** The three conditional parts of the function Start returns: the size of a
    payload, if it is known, the error, and the counters of the machine. *)
Definition done_bytes (method key maxkey : string) (bytes : Z) (t : treestats) : treestats :=
  if decide (bytes > 0) then
    max bytes ["method"; method] maxkey (path_Add ["method"; method] key bytes t)
  else t.

Definition done_err (method : string) (err : bool) (t : treestats) : treestats :=
  if err then path_Add ["method"; method] "errors" 1 t else t.

Definition done_machine (addr method : string) (elapsed : Z) (t : treestats) : treestats :=
  if decide (addr <> "") then
    max elapsed ["machine"; addr; "method"; method] "maxtime"
      (path_Add ["machine"; addr; "method"; method] "time" elapsed t)
  else t.

(** The function Start returns, [nanoseconds] after it was made; [err] tells
    whether the error is non-nil. *)
Definition done (addr method : string) (nanoseconds requestBytes replyBytes : Z) (err : bool)
    (t : treestats) : treestats :=
  let elapsed := Z.quot nanoseconds 1000000 in
  let t := path_Add ["method"; method] "time" elapsed t in
  let t := done_bytes method "requestbytes" "maxrequestbytes" requestBytes t in
  let t := done_bytes method "replybytes" "maxreplybytes" replyBytes t in
  let t := done_err method err t in
  let t := max elapsed ["method"; method] "maxtime" t in
  done_machine addr method elapsed t.

(** What happens to the counters: calls begin and end. *)
Inductive stat_event :=
| EStart (addr method : string)
| EDone (addr method : string) (nanoseconds requestBytes replyBytes : Z) (err : bool).

Definition apply_event (t : treestats) (e : stat_event) : treestats :=
  match e with
  | EStart a m => Start a m t
  | EDone a m ns req rep err => done a m ns req rep err t
  end.

Definition run_events (es : list stat_event) : treestats :=
  foldl apply_event new_treestats es.

(** The counter with a name, zero if it was never touched. *)
Definition counter (t : treestats) (path : list string) : Z := default 0 (ts_ints t !! path).

(** The calls of a method that began, and the calls that ended: elapsed
    milliseconds, size of the request and the reply, and failure. *)
Record call_stat := { cs_elapsed : Z; cs_req : Z; cs_rep : Z; cs_err : bool }.

Definition starts_of (sel : string -> string -> bool) (es : list stat_event) : list unit :=
  omap (fun e => match e with
                 | EStart a m => if sel a m then Some tt else None
                 | _ => None
                 end) es.

Definition dones_of (sel : string -> string -> bool) (es : list stat_event) : list call_stat :=
  omap (fun e => match e with
                 | EDone a m ns req rep err =>
                     if sel a m then
                       Some {| cs_elapsed := Z.quot ns 1000000; cs_req := req; cs_rep := rep; cs_err := err |}
                     else None
                 | _ => None
                 end) es.

Definition on_method (m : string) (_ m' : string) : bool := bool_decide (m' = m).
Definition on_machine (a m : string) (a' m' : string) : bool :=
  bool_decide (a' = a /\ m' = m).

Definition sum (l : list Z) : Z := foldr Z.add 0 l.
Definition maximum (l : list Z) : Z := foldr Z.max 0 l.
Definition positive (l : list Z) : list Z := filter (fun z => z > 0) l.

(** The arguments of an event are int64. *)
Definition event_ok (e : stat_event) : Prop :=
  match e with
  | EStart _ _ => True
  | EDone _ _ ns req rep _ => in_int64 ns /\ in_int64 req /\ in_int64 rep
  end.

(** ** Lemmas *)

(** The shape of the tree that calls build: inner nodes are prefixes of
    method/M and machine/A/method/M, so no counter has the name of a node. *)
Definition inner (p : list string) : Prop :=
  match p with
  | [] | [_] | [_; _] => True
  | [x; _; _] => x = "machine"
  | [x; _; y; _] => x = "machine" /\ y = "method"
  | _ => False
  end.

Definition good (t : treestats) : Prop :=
  [] ∈ ts_trees t /\ forall p, p ∈ ts_trees t -> inner p.

(** A path of a counter. *)
Definition leaf (p : list string) : Prop :=
  (exists m k, p = ["method"; m; k]) \/
  (exists a m k, p = ["machine"; a; "method"; m; k]).

Lemma leaf_not_inner p : leaf p -> ~ inner p.
Proof. intros [(m & k & ->)|(a & m & k & ->)]; simpl; [by intros ?|by intros ?]. Qed.

Lemma leaf_not_tree t p : good t -> leaf p -> p ∉ ts_trees t.
Proof. intros [_ Hg] Hl Hp. by apply (leaf_not_inner p), Hg. Qed.

(** The nodes below which the code keeps counters. *)
Definition node (names : list string) : Prop :=
  (exists m, names = ["method"; m]) \/ (exists a m, names = ["machine"; a; "method"; m]).

Lemma node_leaf names k : node names -> leaf (names ++ [k]).
Proof. intros [(m & ->)|(a & m & ->)]; [left|right]; by repeat eexists. Qed.

Lemma Child_good path name t :
  good t -> inner (path ++ [name]) -> good (Child path name t).
Proof.
  intros [H0 Hg] Hi. unfold Child. case_decide; [done|].
  split; simpl; [set_solver|]. intros p Hp. set_unfold. naive_solver.
Qed.

Lemma Child_leaf path name t c :
  inner (path ++ [name]) -> leaf c -> ts_ints (Child path name t) !! c = ts_ints t !! c.
Proof.
  intros Hi Hl. unfold Child. case_decide; [done|]. simpl.
  rewrite lookup_delete_ne; [done|]. intros <-. by apply (leaf_not_inner _ Hl).
Qed.

Lemma Path_node names t :
  node names -> good t ->
  exists t', Path names t = (names, t') /\ good t' /\
    forall c, leaf c -> ts_ints t' !! c = ts_ints t !! c.
Proof.
  intros Hn Hg. unfold Path.
  destruct Hn as [(m & ->)|(a & m & ->)]; simpl; eexists; (split; [reflexivity|]);
    (split; [repeat (apply Child_good; [|by simpl]); done|]);
    intros c Hc; by rewrite ?Child_leaf.
Qed.

Lemma path_Add_spec names key delta t :
  node names -> good t ->
  good (path_Add names key delta t) /\
  forall c, leaf c ->
    ts_ints (path_Add names key delta t) !! c =
      if decide (c = names ++ [key]) then Some (wrap64 (counter t c + delta)) else ts_ints t !! c.
Proof.
  intros Hn Hg. unfold path_Add. destruct (Path_node names t Hn Hg) as (t' & -> & Hg' & Hl).
  pose proof (node_leaf names key Hn) as Hk.
  unfold Add. rewrite decide_False by by apply leaf_not_tree. split; [done|].
  intros c Hc. simpl. unfold counter. case_decide as Heq.
  - subst c. by rewrite lookup_insert, decide_True, Hl.
  - rewrite lookup_insert_ne by done. by apply Hl.
Qed.

Lemma max_spec v names key t :
  node names -> good t ->
  good (max v names key t) /\
  forall c, leaf c ->
    ts_ints (max v names key t) !! c =
      if decide (c = names ++ [key]) then Some (Z.max (wrap64 (counter t c)) v) else ts_ints t !! c.
Proof.
  intros Hn Hg. unfold max.
  destruct (path_Add_spec names key 0 t Hn Hg) as [Hg1 Hl1].
  destruct (Path_node names _ Hn Hg1) as (t' & -> & Hg' & Hl).
  pose proof (node_leaf names key Hn) as Hk.
  rewrite (Hl _ Hk), (Hl1 _ Hk), decide_True, Z.add_0_r by done.
  case_decide as Hv; simpl; (split; [done|]); intros c Hc.
  - case_decide as Heq; subst.
    + rewrite lookup_insert, decide_True by done. f_equal. lia.
    + rewrite lookup_insert_ne, Hl, Hl1, decide_False by done. done.
  - rewrite Hl, Hl1, Z.add_0_r by done. case_decide as Heq; [subst|done]. f_equal. lia.
Qed.

Lemma counter_path_Add names key delta t c :
  node names -> good t -> leaf c ->
  counter (path_Add names key delta t) c =
    if decide (c = names ++ [key]) then wrap64 (counter t c + delta) else counter t c.
Proof.
  intros Hn Hg Hc. unfold counter at 1 3. rewrite (proj2 (path_Add_spec names key delta t Hn Hg) c Hc).
  by case_decide.
Qed.

Lemma counter_max v names key t c :
  node names -> good t -> leaf c ->
  counter (max v names key t) c =
    if decide (c = names ++ [key]) then Z.max (wrap64 (counter t c)) v else counter t c.
Proof.
  intros Hn Hg Hc. unfold counter at 1 3. rewrite (proj2 (max_spec v names key t Hn Hg) c Hc).
  by case_decide.
Qed.

Lemma path_Add_good names key delta t :
  node names -> good t -> good (path_Add names key delta t).
Proof. intros Hn Hg. by apply path_Add_spec. Qed.

Lemma max_good v names key t : node names -> good t -> good (max v names key t).
Proof. intros Hn Hg. by apply max_spec. Qed.

Lemma node_method m : node ["method"; m].
Proof. left. by eexists. Qed.

Lemma node_machine a m : node ["machine"; a; "method"; m].
Proof. right. by eexists _, _. Qed.

#[local] Hint Resolve path_Add_good max_good node_method node_machine : core.

Ltac good_tac := repeat case_decide; eauto 12.

Lemma Start_good a m t : good t -> good (Start a m t).
Proof. intros Hg. unfold Start. good_tac. Qed.

Lemma done_good a m ns req rep err t : good t -> good (done a m ns req rep err t).
Proof.
  intros Hg. unfold done, done_bytes, done_err, done_machine. destruct err; good_tac.
Qed.

Lemma good_new : good new_treestats.
Proof. split; simpl; [set_solver|]. intros p Hp. set_unfold. by subst. Qed.

Lemma run_events_good es : good (run_events es).
Proof.
  induction es as [|e es IH] using rev_ind; [apply good_new|].
  unfold run_events in *. rewrite foldl_snoc.
  destruct e; [by apply Start_good|by apply done_good].
Qed.

(** What the end of a call adds to the counters of a method. *)
Definition done_effect (k : string) (cs : call_stat) (v : Z) : Z :=
  if decide (k = "time") then wrap64 (v + cs_elapsed cs)
  else if decide (k = "requestbytes") then
    if decide (cs_req cs > 0) then wrap64 (v + cs_req cs) else v
  else if decide (k = "maxrequestbytes") then
    if decide (cs_req cs > 0) then Z.max (wrap64 v) (cs_req cs) else v
  else if decide (k = "replybytes") then
    if decide (cs_rep cs > 0) then wrap64 (v + cs_rep cs) else v
  else if decide (k = "maxreplybytes") then
    if decide (cs_rep cs > 0) then Z.max (wrap64 v) (cs_rep cs) else v
  else if decide (k = "errors") then if cs_err cs then wrap64 (v + 1) else v
  else if decide (k = "maxtime") then Z.max (wrap64 v) (cs_elapsed cs)
  else v.

Lemma leaf_method m k : leaf ["method"; m; k].
Proof. left. by eexists _, _. Qed.

Lemma leaf_machine a m k : leaf ["machine"; a; "method"; m; k].
Proof. right. by eexists _, _, _. Qed.

#[local] Hint Resolve leaf_method leaf_machine : core.


(** The operations on the two nodes of a call, seen by the counters of each. *)
Section steps.
Variables (t : treestats) (Hg : good t).

Lemma method_Add_method m m' k k' d :
  counter (path_Add ["method"; m'] k' d t) ["method"; m; k] =
    if decide (m' = m) then
      if decide (k = k') then wrap64 (counter t ["method"; m; k] + d) else counter t ["method"; m; k]
    else counter t ["method"; m; k].
Proof. rewrite counter_path_Add by done. simpl. repeat case_decide; naive_solver. Qed.

Lemma machine_Add_method a m m' k k' d :
  counter (path_Add ["machine"; a; "method"; m'] k' d t) ["method"; m; k] =
    counter t ["method"; m; k].
Proof. rewrite counter_path_Add by done. by rewrite decide_False. Qed.

Lemma method_max_method m m' k k' v :
  counter (max v ["method"; m'] k' t) ["method"; m; k] =
    if decide (m' = m) then
      if decide (k = k') then Z.max (wrap64 (counter t ["method"; m; k])) v
      else counter t ["method"; m; k]
    else counter t ["method"; m; k].
Proof. rewrite counter_max by done. simpl. repeat case_decide; naive_solver. Qed.

Lemma machine_max_method a m m' k k' v :
  counter (max v ["machine"; a; "method"; m'] k' t) ["method"; m; k] =
    counter t ["method"; m; k].
Proof. rewrite counter_max by done. by rewrite decide_False. Qed.

Lemma method_Add_machine a m m' k k' d :
  counter (path_Add ["method"; m'] k' d t) ["machine"; a; "method"; m; k] =
    counter t ["machine"; a; "method"; m; k].
Proof. rewrite counter_path_Add by done. by rewrite decide_False. Qed.

Lemma method_max_machine a m m' k k' v :
  counter (max v ["method"; m'] k' t) ["machine"; a; "method"; m; k] =
    counter t ["machine"; a; "method"; m; k].
Proof. rewrite counter_max by done. by rewrite decide_False. Qed.

Lemma machine_Add_machine a a' m m' k k' d :
  counter (path_Add ["machine"; a'; "method"; m'] k' d t) ["machine"; a; "method"; m; k] =
    if decide (a' = a /\ m' = m) then
      if decide (k = k') then wrap64 (counter t ["machine"; a; "method"; m; k] + d)
      else counter t ["machine"; a; "method"; m; k]
    else counter t ["machine"; a; "method"; m; k].
Proof. rewrite counter_path_Add by done. simpl. repeat case_decide; naive_solver. Qed.

Lemma machine_max_machine a a' m m' k k' v :
  counter (max v ["machine"; a'; "method"; m'] k' t) ["machine"; a; "method"; m; k] =
    if decide (a' = a /\ m' = m) then
      if decide (k = k') then Z.max (wrap64 (counter t ["machine"; a; "method"; m; k])) v
      else counter t ["machine"; a; "method"; m; k]
    else counter t ["machine"; a; "method"; m; k].
Proof. rewrite counter_max by done. simpl. repeat case_decide; naive_solver. Qed.
End steps.

Lemma done_bytes_good m key maxkey bytes t : good t -> good (done_bytes m key maxkey bytes t).
Proof. intros Hg. unfold done_bytes. good_tac. Qed.

Lemma done_err_good m err t : good t -> good (done_err m err t).
Proof. intros Hg. unfold done_err. destruct err; good_tac. Qed.

#[local] Hint Resolve done_bytes_good done_err_good : core.

(** Decide between the names of the counters. *)
Ltac key_tac k :=
  repeat match goal with
         | |- context [decide (k = ?x)] => destruct (decide (k = x)) as [->|]; [try done|]
         end; try done.

(** The parts of [done], seen by the counters of a method. *)
Lemma done_bytes_method m m' k key maxkey bytes t :
  good t -> key <> maxkey ->
  counter (done_bytes m' key maxkey bytes t) ["method"; m; k] =
    if decide (m' = m) then
      if decide (bytes > 0) then
        if decide (k = key) then wrap64 (counter t ["method"; m; k] + bytes)
        else if decide (k = maxkey) then Z.max (wrap64 (counter t ["method"; m; k])) bytes
        else counter t ["method"; m; k]
      else counter t ["method"; m; k]
    else counter t ["method"; m; k].
Proof.
  intros Hg Hne. unfold done_bytes. destruct (decide (bytes > 0)).
  - rewrite method_max_method, method_Add_method by eauto. repeat case_decide; naive_solver.
  - by case_decide.
Qed.

Lemma done_err_method m m' k err t :
  good t ->
  counter (done_err m' err t) ["method"; m; k] =
    if decide (m' = m) then
      if err then
        if decide (k = "errors") then wrap64 (counter t ["method"; m; k] + 1)
        else counter t ["method"; m; k]
      else counter t ["method"; m; k]
    else counter t ["method"; m; k].
Proof.
  intros Hg. unfold done_err. destruct err.
  - rewrite method_Add_method by eauto. repeat case_decide; naive_solver.
  - by case_decide.
Qed.

Lemma done_machine_method a m m' k elapsed t :
  good t ->
  counter (done_machine a m' elapsed t) ["method"; m; k] = counter t ["method"; m; k].
Proof.
  intros Hg. unfold done_machine. case_decide; [|done].
  by rewrite machine_max_method, machine_Add_method by eauto.
Qed.

Lemma done_on_method a m m' k ns req rep err t :
  good t ->
  counter (done a m' ns req rep err t) ["method"; m; k] =
    if decide (m' = m) then
      done_effect k {| cs_elapsed := Z.quot ns 1000000; cs_req := req; cs_rep := rep; cs_err := err |}
        (counter t ["method"; m; k])
    else counter t ["method"; m; k].
Proof.
  intros Hg. unfold done, done_effect; cbv zeta; cbn [cs_elapsed cs_req cs_rep cs_err].
  rewrite done_machine_method, method_max_method, done_err_method, done_bytes_method,
    done_bytes_method, method_Add_method by (done || eauto 12).
  destruct (decide (m' = m)) as [->|].
  - generalize (counter t ["method"; m; k]) as v. intros v. clear Hg t.
    destruct err; destruct (decide (req > 0)); destruct (decide (rep > 0)); key_tac k.
  - done.
Qed.

Lemma Start_on_method a m m' k t :
  good t ->
  counter (Start a m' t) ["method"; m; k] =
    if decide (m' = m) then
      if decide (k = "count") then wrap64 (counter t ["method"; m; k] + 1)
      else counter t ["method"; m; k]
    else counter t ["method"; m; k].
Proof.
  intros Hg. unfold Start. case_decide.
  - by rewrite machine_Add_method, method_Add_method by eauto.
  - by rewrite method_Add_method by eauto.
Qed.

Lemma Start_on_machine a a' m m' k t :
  good t -> a <> "" ->
  counter (Start a' m' t) ["machine"; a; "method"; m; k] =
    if decide (a' = a /\ m' = m) then
      if decide (k = "count") then wrap64 (counter t ["machine"; a; "method"; m; k] + 1)
      else counter t ["machine"; a; "method"; m; k]
    else counter t ["machine"; a; "method"; m; k].
Proof.
  intros Hg Ha. unfold Start. destruct (decide (a' <> "")) as [Hn|Hn].
  - by rewrite machine_Add_machine, method_Add_machine by eauto.
  - rewrite method_Add_machine by eauto. rewrite (decide_False (P := a' = a /\ m' = m)); [done|].
    intros [-> _]. auto.
Qed.

(** What the end of a call adds to the counters of its machine. *)
Definition done_effect_machine (k : string) (cs : call_stat) (v : Z) : Z :=
  if decide (k = "time") then wrap64 (v + cs_elapsed cs)
  else if decide (k = "maxtime") then Z.max (wrap64 v) (cs_elapsed cs)
  else v.

Lemma done_on_machine a a' m m' k ns req rep err t :
  good t -> a <> "" ->
  counter (done a' m' ns req rep err t) ["machine"; a; "method"; m; k] =
    if decide (a' = a /\ m' = m) then
      done_effect_machine k
        {| cs_elapsed := Z.quot ns 1000000; cs_req := req; cs_rep := rep; cs_err := err |}
        (counter t ["machine"; a; "method"; m; k])
    else counter t ["machine"; a; "method"; m; k].
Proof.
  intros Hg Ha. unfold done, done_effect_machine; cbv zeta; cbn [cs_elapsed].
  set (t5 := max _ _ _ _).
  assert (Hg5 : good t5) by (unfold t5; eauto 15).
  assert (H5 : counter t5 ["machine"; a; "method"; m; k] = counter t ["machine"; a; "method"; m; k]).
  { unfold t5. rewrite method_max_machine by eauto 15. unfold done_err, done_bytes.
    destruct err; repeat case_decide;
      by rewrite ?method_Add_machine, ?method_max_machine, ?method_Add_machine,
        ?method_max_machine, ?method_Add_machine by eauto 15. }
  unfold done_machine. destruct (decide (a' <> "")) as [Hn|Hn].
  - rewrite machine_max_machine, machine_Add_machine, H5 by eauto.
    destruct (decide (a' = a /\ m' = m)); [|done]. key_tac k.
  - rewrite H5, decide_False; [done|]. intros [-> _]. auto.
Qed.

(** The fold of the effects over a list of events. *)
Lemma omap_snoc {A B} (f : A -> option B) l x :
  omap f (l ++ [x]) = omap f l ++ (match f x with Some y => [y] | None => [] end).
Proof. rewrite omap_app. simpl. by destruct (f x). Qed.

Lemma run_events_snoc es e : run_events (es ++ [e]) = apply_event (run_events es) e.
Proof. unfold run_events. by rewrite foldl_snoc. Qed.

Lemma dones_of_ok sel es :
  Forall event_ok es ->
  Forall (fun cs => in_int64 (cs_elapsed cs) /\ in_int64 (cs_req cs) /\ in_int64 (cs_rep cs))
    (dones_of sel es).
Proof.
  intros H. induction H as [|e es He Hes IH]; [constructor|].
  destruct e as [a m|a m ns req rep err]; [done|]. cbn. destruct (sel a m); [|done].
  constructor; [|done]. destruct He as (H1 & H2 & H3). split; [|done]. by apply quot_in_int64.
Qed.

Lemma count_fold m es :
  counter (run_events es) ["method"; m; "count"] =
    wrap64 (Z.of_nat (length (starts_of (on_method m) es))).
Proof.
  induction es as [|e es IH] using rev_ind; [done|].
  pose proof (run_events_good es) as Hg.
  rewrite run_events_snoc. unfold starts_of in *. rewrite omap_snoc, length_app.
  destruct e as [a m'|a m' ns req rep err]; cbn [apply_event].
  - rewrite Start_on_method, IH by done. unfold on_method. case_decide; case_bool_decide; try done.
    + rewrite (decide_True (P := "count" = "count")) by done. rewrite wrap64_add. f_equal. simpl. lia.
    + by rewrite Nat.add_0_r.
  - rewrite done_on_method, IH by done. simpl. rewrite Nat.add_0_r. by case_decide.
Qed.

Lemma done_fold m k es :
  k <> "count" ->
  counter (run_events es) ["method"; m; k] =
    foldl (fun v cs => done_effect k cs v) 0 (dones_of (on_method m) es).
Proof.
  intros Hk. induction es as [|e es IH] using rev_ind; [done|].
  pose proof (run_events_good es) as Hg.
  rewrite run_events_snoc. unfold dones_of in *. rewrite omap_snoc, foldl_app.
  destruct e as [a m'|a m' ns req rep err]; cbn [apply_event].
  - rewrite Start_on_method, IH by done. rewrite (decide_False (P := k = "count")) by done.
    by case_decide.
  - rewrite done_on_method, IH by done. unfold on_method. by case_decide; case_bool_decide.
Qed.

Lemma machine_fold a m k es :
  a <> "" -> k <> "count" ->
  counter (run_events es) ["machine"; a; "method"; m; k] =
    foldl (fun v cs => done_effect_machine k cs v) 0 (dones_of (on_machine a m) es).
Proof.
  intros Ha Hk. induction es as [|e es IH] using rev_ind; [done|].
  pose proof (run_events_good es) as Hg.
  rewrite run_events_snoc. unfold dones_of in *. rewrite omap_snoc, foldl_app.
  destruct e as [a' m'|a' m' ns req rep err]; cbn [apply_event].
  - rewrite Start_on_machine, IH by done. rewrite (decide_False (P := k = "count")) by done.
    by case_decide.
  - rewrite done_on_machine, IH by done. unfold on_machine. by case_decide; case_bool_decide.
Qed.

Lemma machine_count_fold a m es :
  a <> "" ->
  counter (run_events es) ["machine"; a; "method"; m; "count"] =
    wrap64 (Z.of_nat (length (starts_of (on_machine a m) es))).
Proof.
  intros Ha. induction es as [|e es IH] using rev_ind; [done|].
  pose proof (run_events_good es) as Hg.
  rewrite run_events_snoc. unfold starts_of in *. rewrite omap_snoc, length_app.
  destruct e as [a' m'|a' m' ns req rep err]; cbn [apply_event].
  - rewrite Start_on_machine, IH by done. unfold on_machine. case_decide; case_bool_decide; try done.
    + rewrite (decide_True (P := "count" = "count")) by done. rewrite wrap64_add. f_equal. simpl. lia.
    + by rewrite Nat.add_0_r.
  - rewrite done_on_machine, IH by done. simpl. rewrite Nat.add_0_r. by case_decide.
Qed.

Lemma foldl_errors (l : list call_stat) v :
  foldl (fun v cs => if cs_err cs then wrap64 (v + 1) else v) (wrap64 v) l =
    wrap64 (v + Z.of_nat (length (filter (fun cs => cs_err cs = true) l))).
Proof.
  revert v. induction l as [|x l IH]; intros v; simpl; [by rewrite Z.add_0_r|].
  rewrite filter_cons. destruct (cs_err x); simpl.
  - rewrite wrap64_add, IH. f_equal. lia.
  - by rewrite IH.
Qed.

(** Folds of additions and of maxima. *)
Section folds.
Variable f : call_stat -> Z.

Lemma foldl_add (l : list call_stat) v :
  foldl (fun v cs => wrap64 (v + f cs)) (wrap64 v) l = wrap64 (v + sum (f <$> l)).
Proof.
  revert v. induction l as [|x l IH]; intros v; [by rewrite Z.add_0_r|].
  rewrite fmap_cons. cbn [foldl]. rewrite wrap64_add, IH. f_equal. unfold sum. cbn [foldr]. lia.
Qed.

Lemma foldl_max (l : list call_stat) v :
  0 <= v -> in_int64 v -> Forall (fun cs => in_int64 (f cs)) l ->
  foldl (fun v cs => Z.max (wrap64 v) (f cs)) v l = Z.max v (maximum (f <$> l)).
Proof.
  intros H0 Hv Hl. revert v H0 Hv. induction Hl as [|x l Hx Hl IH]; intros v H0 Hv;
    [unfold maximum; simpl; lia|].
  rewrite fmap_cons. cbn [foldl]. rewrite wrap64_id by done.
  rewrite IH; [unfold maximum; cbn [foldr]; lia|lia|]. unfold in_int64 in *. lia.
Qed.

Lemma foldl_positive (g : Z -> call_stat -> Z) (l : list call_stat) v :
  foldl (fun v cs => if decide (f cs > 0) then g v cs else v) v l =
    foldl g v (filter (fun cs => f cs > 0) l).
Proof.
  revert v. induction l as [|x l IH]; intros v; simpl; [done|]. rewrite filter_cons.
  case_decide; simpl; by rewrite IH.
Qed.

Lemma positive_fmap (l : list call_stat) :
  positive (f <$> l) = f <$> filter (fun cs => f cs > 0) l.
Proof.
  unfold positive. induction l as [|x l IH]; [done|].
  rewrite fmap_cons, !filter_cons. case_decide; by rewrite IH.
Qed.
End folds.

(** The folds of [done_effect], one per kind of counter. *)
Section effects.
Variables (D : list call_stat).
Hypothesis HD : Forall (fun cs => in_int64 (cs_elapsed cs) /\ in_int64 (cs_req cs) /\
                                  in_int64 (cs_rep cs)) D.

Lemma in_int64_0 : in_int64 0.
Proof. unfold in_int64. lia. Qed.

Lemma fold_max f :
  (f = cs_elapsed \/ f = cs_req \/ f = cs_rep) ->
  foldl (fun v cs => Z.max (wrap64 v) (f cs)) 0 D = maximum (f <$> D).
Proof.
  intros Hf. rewrite foldl_max; [|lia|apply in_int64_0|].
  - unfold maximum. induction (f <$> D); simpl; lia.
  - eapply Forall_impl; [exact HD|]. naive_solver.
Qed.

Lemma fold_positive_max f :
  (f = cs_elapsed \/ f = cs_req \/ f = cs_rep) ->
  foldl (fun v cs => if decide (f cs > 0) then Z.max (wrap64 v) (f cs) else v) 0 D =
    maximum (positive (f <$> D)).
Proof.
  intros Hf. rewrite (foldl_positive f (fun v cs => Z.max (wrap64 v) (f cs))), positive_fmap.
  rewrite foldl_max; [|lia|apply in_int64_0|].
  - unfold maximum. induction (f <$> _); simpl; lia.
  - apply Forall_forall. intros x [_ Hx]%list_elem_of_filter.
    eapply Forall_forall in HD; [|done]. naive_solver.
Qed.

Lemma fold_positive_add f :
  foldl (fun v cs => if decide (f cs > 0) then wrap64 (v + f cs) else v) 0 D =
    wrap64 (sum (positive (f <$> D))).
Proof.
  rewrite (foldl_positive f (fun v cs => wrap64 (v + f cs))), positive_fmap.
  apply (foldl_add f _ 0).
Qed.
End effects.

(** The counters of a method.  After any sequence of calls that began and
    ended, in whatever order and by whichever callers, "count" is the number
    of calls begun, "errors" the number that ended with an error, "time" the
    milliseconds they took, "requestbytes" and "replybytes" the bytes of the
    payloads whose size was known and positive (all as int64 sums), and
    "maxtime", "maxrequestbytes" and "maxreplybytes" the largest of them; what
    other methods and machines did does not show. *)
Lemma method_counters m es :
  Forall event_ok es ->
  let c k := counter (run_events es) ["method"; m; k] in
  let D := dones_of (on_method m) es in
  c "count" = wrap64 (Z.of_nat (length (starts_of (on_method m) es))) /\
  c "errors" = wrap64 (Z.of_nat (length (filter (fun cs => cs_err cs = true) D))) /\
  c "time" = wrap64 (sum (cs_elapsed <$> D)) /\
  c "maxtime" = maximum (cs_elapsed <$> D) /\
  c "requestbytes" = wrap64 (sum (positive (cs_req <$> D))) /\
  c "maxrequestbytes" = maximum (positive (cs_req <$> D)) /\
  c "replybytes" = wrap64 (sum (positive (cs_rep <$> D))) /\
  c "maxreplybytes" = maximum (positive (cs_rep <$> D)).
Proof.
  intros Hok c D. pose proof (dones_of_ok (on_method m) es Hok) as HD. fold D in HD.
  unfold c. rewrite count_fold, !done_fold by done. fold D.
  split; [done|]. split; [apply (foldl_errors D 0)|].
  split; [apply (foldl_add cs_elapsed D 0)|].
  split; [apply (fold_max D HD cs_elapsed); tauto|].
  split; [apply (fold_positive_add D cs_req)|].
  split; [apply (fold_positive_max D HD cs_req); tauto|].
  split; [apply (fold_positive_add D cs_rep)|].
  apply (fold_positive_max D HD cs_rep); tauto.
Qed.

(** The counters a client keeps per machine. *)
Lemma machine_counters a m es :
  Forall event_ok es -> a <> "" ->
  let c k := counter (run_events es) ["machine"; a; "method"; m; k] in
  let D := dones_of (on_machine a m) es in
  c "count" = wrap64 (Z.of_nat (length (starts_of (on_machine a m) es))) /\
  c "time" = wrap64 (sum (cs_elapsed <$> D)) /\
  c "maxtime" = maximum (cs_elapsed <$> D).
Proof.
  intros Hok Ha c D. pose proof (dones_of_ok (on_machine a m) es Hok) as HD. fold D in HD.
  unfold c. rewrite machine_count_fold, !machine_fold by done. fold D.
  split; [done|]. split; [apply (foldl_add cs_elapsed D 0)|].
  apply (fold_max D HD cs_elapsed); tauto.
Qed.
