(* ===== verification/RpcServer.v ===== *)
(** rpc/server.go: registration of services and the HTTP handler that
    dispatches calls to their methods.

    A registered object is the list of its methods as reflect shows them; the
    objects' state is a world [W] that every method call may change.  Requests
    and replies go through [Gob].  The request's context is not modelled: it is
    handed to the method, which is arbitrary here. *)
From S2P Require Import Prelude Errors GoStrings Wire.
Local Open Scope string_scope.
Local Open Scope list_scope.
Local Open Scope Z_scope.

Definition methodErrorCode : Z := 590.
Definition bigmachineErrorTrailer : string := "x-bigmachine-error".
Definition gobContentType : string := "application/x-gob".

Section server.
Context {EL : ErrorsLib} {G : Gob} {W : Type}.

(** ** Methods and services *)

(** An io.ReadCloser a method replied with; [rc_flush] tells that it was
    wrapped by Flush. *)
Record readcloser := { rc_stream : stream error; rc_flush : bool }.

(** rpc.Flush *)
Definition FlushReply (rc : readcloser) : readcloser :=
  {| rc_stream := rc_stream rc; rc_flush := true |}.

(** What is passed for the argument and for the reply pointer. *)
Inductive margv := ArgBody (body : stream error) | ArgValue (v : gval).
Inductive mreplyv := ReplyValue (p : gval) | ReplyStream (rc : option readcloser).

(** How a method call ends. *)
Inductive returned := Returned (e : option error) | Panicked (msg : string).

(** reflect.Method, with the call of its Func on the registered receiver. *)
Record reflect_Method := {
  m_Name : string;
  m_PkgPath : string;
  m_In : list GoType;
  m_Out : list GoType;
  m_Call : margv -> mreplyv -> W -> returned * mreplyv * W
}.

Record method := { method_ : reflect_Method; arg : GoType; reply : GoType }.

Record service := { name : string; methods : gmap string method }.

(** The body of the loop in service.Init: the guards in their order. *)
Definition eligible (m : reflect_Method) : bool :=
  if bool_decide (m_PkgPath m <> "") then false
  else if bool_decide (length (m_In m) <> 4%nat) then false
  else if bool_decide (m_In m !! 1%nat <> Some typeOfContext) then false
  else if bool_decide (Kind_of <$> m_In m !! 3%nat <> Some KPtr) then false
  else if bool_decide (length (m_Out m) <> 1%nat) then false
  else if bool_decide (m_Out m !! 0%nat <> Some typeOfError) then false
  else true.

Definition new_method (m : reflect_Method) : method :=
  {| method_ := m;
     arg := default typeOfReader (m_In m !! 2%nat);
     reply := default typeOfReader (m_In m !! 3%nat) |}.

(** service.Init: the map of the eligible methods. *)
Definition Init (typ : list reflect_Method) : gmap string method :=
  foldl (fun ms m => if eligible m then <[m_Name m := new_method m]> ms else ms) ∅ typ.

Record Server := { services : gmap string service }.

Definition NewServer : Server := {| services := ∅ |}.

(** Server.Register: a noop if the name is taken. *)
Definition Register (serviceName : string) (iface : list reflect_Method) (s : Server) : Server :=
  match services s !! serviceName with
  | Some _ => s
  | None =>
      {| services := <[serviceName := {| name := serviceName; methods := Init iface |}]>
                       (services s) |}
  end.

(** ** ServeHTTP *)

(** What a call of ServeHTTP leaves behind: the response writer, the world,
    whether the request body and the reply stream were closed, and the
    arguments of the statistics function, if one was started. *)
Record served := {
  sv_writer : writer error;
  sv_world : W;
  sv_body_closed : bool;
  sv_reply_closed : bool;
  sv_stats : option (string * Z * Z * option error)
}.

(** The argument of the call: the body itself, or a value decoded from it.
    [inl] is the error of the decoder.  The second component is requestBytes,
    which is read from the counting reader before the decoder runs. *)
Definition decode_request (m : method) (body : stream error) : (error + margv) * Z :=
  if decide (arg m = typeOfReader) then (inr (ArgBody body), -1)
  else
    let argv := if decide (Kind_of (arg m) = KPtr) then NewValue (Elem (arg m))
                else NewValue (arg m) in
    let sizeReader := {| Reader := body; str_n := 0 |} in
    let requestBytes := sizeTrackingReader_Len sizeReader in
    let '(argv, err, _) := Decode argv body in
    match err with
    | Some e => (inl e, requestBytes)
    | None =>
        (inr (ArgValue (if decide (Kind_of (arg m) = KPtr) then argv else Deref argv)),
         requestBytes)
    end.

(** The reply pointer the method is given. *)
Definition new_reply (m : method) : mreplyv :=
  if decide (Elem (reply m) = typeOfReadCloser) then ReplyStream None
  else
    let replyv := NewValue (Elem (reply m)) in
    ReplyValue
      match Kind_of (Elem (reply m)) with
      | KMap => SetElem replyv (MakeMap (Elem (reply m)))
      | KSlice => SetElem replyv (MakeSlice (Elem (reply m)))
      | _ => replyv
      end.

(** The error of a call, with the deferred recover. *)
Definition method_error (ret : returned) : option error :=
  match ret with
  | Returned e => e
  | Panicked msg => Some (E [ASev Fatal; AErr (New ("panic: " +:+ msg))])
  end.

(** The call of the method. *)
Definition invoke (m : method) (a : margv) (r : mreplyv) (w : W) : option error * mreplyv * W :=
  let '(ret, r, w) := m_Call (method_ m) a r w in (method_error ret, r, w).

(** Write of the writer io.Copy is given: flusher.Write when asked to flush. *)
Definition copy_Write (flush : bool) (p : string) (w : writer error) : writer error * option error :=
  let '(w, err) := Write p w in
  (if flush then Flush w else w, err).

(** io.Copy *)
Fixpoint Copy (flush : bool) (chunks : list string) (end_ : option error) (w : writer error) :
    writer error * option error :=
  match chunks with
  | [] => (w, end_)
  | p :: rest =>
      if decide (p = "") then Copy flush rest end_ w
      else
        let '(w, err) := copy_Write flush p w in
        match err with
        | Some e => (w, Some e)
        | None => Copy flush rest end_ w
        end
  end.

(** The reply of a method that set a ReadCloser. *)
Definition stream_reply (code : Z) (rc : readcloser) (w : writer error) :
    writer error * option error :=
  let w := header_set "Content-Type" "application/octet-stream" w in
  let w := header_set "Trailer" bigmachineErrorTrailer w in
  let w := WriteHeader code w in
  let flush := rc_flush rc && w_flusher w in
  let '(w, err) := Copy flush (st_chunks (rc_stream rc)) (st_end (rc_stream rc)) w in
  let errStr := match err with Some e => Error e | None => "" end in
  (header_set bigmachineErrorTrailer errStr w, err).

(** The reply of any other method, with the size of the encoded reply. *)
Definition value_reply (code : Z) (src : gsource gval error) (w : writer error) :
    writer error * Z * option error :=
  let w := header_set "Content-Type" gobContentType w in
  let w := if decide (code <> 200) then WriteHeader code w else w in
  let '(replyBytes, (w, err)) :=
    match Encode src with
    | Ok b => (Z.of_nat (String.length b), Write b w)
    | Err e => (0, (w, Some e))
    end in
  match err with
  | Some e => (http_Error (Error e) 500 w, replyBytes, err)
  | None => (w, replyBytes, None)
  end.

(** What Encode is given on the value path. *)
Definition reply_source (r : mreplyv) (err : option error) : gsource gval error :=
  match err with
  | Some e => SError (Recover e)
  | None => match r with
            | ReplyValue p => SVal p
            | ReplyStream _ => SNilReadCloser
            end
  end.

(** The handler once the method is found. *)
Definition dispatch (label : string) (m : method) (w : writer error) (r : request error) (st : W) :
    served :=
  let '(argv, requestBytes) := decode_request m (r_Body r) in
  match argv with
  | inl e =>
      {| sv_writer := http_Error ("error decoding request: " +:+ Error e) 400 w;
         sv_world := st; sv_body_closed := true; sv_reply_closed := false;
         sv_stats := Some (label, requestBytes, -1, Some e) |}
  | inr a =>
      let '(err, rv, st) := invoke m a (new_reply m) st in
      let code := match err with Some _ => methodErrorCode | None => 200 end in
      match rv with
      | ReplyStream (Some rc) =>
          let '(w, err) := stream_reply code rc w in
          {| sv_writer := w; sv_world := st; sv_body_closed := true; sv_reply_closed := true;
             sv_stats := Some (label, requestBytes, -1, err) |}
      | _ =>
          let '(w, replyBytes, err) := value_reply code (reply_source rv err) w in
          {| sv_writer := w; sv_world := st; sv_body_closed := true; sv_reply_closed := false;
             sv_stats := Some (label, requestBytes, replyBytes, err) |}
      end
  end.

(** An early return: nothing was read, closed or counted. *)
Definition refuse (msg : string) (code : Z) (w : writer error) (st : W) : served :=
  {| sv_writer := http_Error msg code w; sv_world := st; sv_body_closed := false;
     sv_reply_closed := false; sv_stats := None |}.

(** Server.ServeHTTP *)
Definition ServeHTTP (s : Server) (w : writer error) (r : request error) (st : W) : served :=
  if decide (r_Method r <> "POST") then refuse "method not allowed" 405 w st
  else
    match SplitN2 (Base (r_URL_Path r)) DOT with
    | (_, None) => refuse "bad url" 400 w st
    | (service_, Some method_) =>
        match services s !! service_ with
        | None => refuse "no such service" 404 w st
        | Some svc =>
            match methods svc !! method_ with
            | None => refuse "no such method" 404 w st
            | Some m => dispatch (service_ +:+ "." +:+ method_) m w r st
            end
        end
    end.

End server.
Arguments reflect_Method {EL G} W.
Arguments method {EL G} W.
Arguments service {EL G} W.
Arguments Server {EL G} W.
Arguments served {EL} W.

(** ** Registration *)

Section registration.
Context {EL : ErrorsLib} {G : Gob} {W : Type}.

(** The form of a method that can be called remotely:
    Func(ctx context.Context, arg argType, reply *replyType) error. *)
Definition rpc_signature (m : reflect_Method W) (argT replyT : GoType) : Prop :=
  m_PkgPath m = "" /\ Kind_of replyT = KPtr /\ m_Out m = [typeOfError] /\
  exists recv, m_In m = [recv; typeOfContext; argT; replyT].

Lemma eligible_spec (m : reflect_Method W) :
  eligible m = true <-> exists argT replyT, rpc_signature m argT replyT.
Proof.
  unfold eligible, rpc_signature. split.
  - intros H. repeat case_bool_decide; try done.
    destruct (m_In m) as [|t0 [|t1 [|t2 [|t3 [|]]]]]; simplify_eq/=.
    destruct (m_Out m) as [|o [|]]; simplify_eq/=.
    exists t2, t3. repeat match goal with H : ~ ~ _ |- _ => apply dec_stable in H end.
    simplify_eq. eauto 10.
  - intros (a & r & Hp & Hk & Ho & recv & Hi). rewrite Hp, Ho, Hi. simpl.
    rewrite Hk. repeat case_bool_decide; naive_solver.
Qed.

Lemma new_method_sig (m : reflect_Method W) a r :
  rpc_signature m a r -> new_method m = {| method_ := m; arg := a; reply := r |}.
Proof. intros (_ & _ & _ & recv & Hi). unfold new_method. by rewrite Hi. Qed.

Lemma Init_foldl (typ : list (reflect_Method W)) (ms : gmap string (method W)) n :
  NoDup (m_Name <$> typ) ->
  foldl (fun ms m => if eligible m then <[m_Name m := new_method m]> ms else ms) ms typ !! n =
    match list_find (fun m => m_Name m = n /\ eligible m = true) typ with
    | Some (_, m) => Some (new_method m)
    | None => ms !! n
    end.
Proof.
  revert ms. induction typ as [|m typ IH]; intros ms Hnd; [done|].
  rewrite fmap_cons in Hnd. apply NoDup_cons in Hnd as [Hm Hnd].
  simpl. rewrite IH by done. clear IH.
  destruct (decide (m_Name m = n /\ eligible m = true)) as [[<- He]|Hne].
  - rewrite He. destruct (list_find _ typ) as [[i m']|] eqn:Hf.
    + apply list_find_Some in Hf as (Hi & [Hn _] & _). exfalso. apply Hm. rewrite <- Hn.
      apply list_elem_of_fmap. exists m'. split; [done|]. by eapply list_elem_of_lookup_2.
    + by rewrite lookup_insert, decide_True.
  - assert (Hms : (if eligible m then <[m_Name m := new_method m]> ms else ms) !! n = ms !! n).
    { destruct (eligible m) eqn:He; [|done]. apply lookup_insert_ne. naive_solver. }
    destruct (list_find _ typ) as [[i m']|]; by simpl.
Qed.

(** The methods of a service: Go's method names are distinct. *)
Lemma Init_spec (typ : list (reflect_Method W)) n mm :
  NoDup (m_Name <$> typ) ->
  Init typ !! n = Some mm <->
    exists m a r, m ∈ typ /\ m_Name m = n /\ rpc_signature m a r /\
      mm = {| method_ := m; arg := a; reply := r |}.
Proof.
  intros Hnd. unfold Init. rewrite Init_foldl by done. rewrite lookup_empty. split.
  - destruct (list_find _ typ) as [[i m]|] eqn:Hf; [|done]. intros [= <-].
    apply list_find_Some in Hf as (Hi & [Hn He] & _).
    apply eligible_spec in He as (a & r & Hs). exists m, a, r.
    rewrite (new_method_sig m a r Hs). split; [by eapply list_elem_of_lookup_2|done].
  - intros (m & a & r & Hin & Hn & Hs & ->).
    destruct (list_find _ typ) as [[i m']|] eqn:Hf.
    + apply list_find_Some in Hf as (Hi & [Hn' _] & _).
      assert (m' = m) as ->; [|by rewrite (new_method_sig m a r Hs)].
      apply list_elem_of_lookup in Hin as [j Hj].
      assert (i = j) as ->; [|congruence].
      apply (NoDup_lookup (m_Name <$> typ) i j n); [done| |]; rewrite list_lookup_fmap;
        [rewrite Hi|rewrite Hj]; simpl; congruence.
    + exfalso. eapply list_find_None in Hf. eapply Forall_forall in Hf; [|exact Hin].
      apply Hf. split; [done|]. apply eligible_spec. eauto.
Qed.

(** The server after a sequence of registrations. *)
Definition register_many (regs : list (string * list (reflect_Method W))) : Server W :=
  foldl (fun s '(n, iface) => Register n iface s) NewServer regs.

(** The object that counts is the first one registered under the name. *)
Definition registered (regs : list (string * list (reflect_Method W))) (n : string) :
    option (list (reflect_Method W)) :=
  snd <$> (snd <$> list_find (fun r => r.1 = n) regs).

Lemma register_foldl regs (s : Server W) n :
  services (foldl (fun s '(n, iface) => Register n iface s) s regs) !! n =
    match services s !! n with
    | Some svc => Some svc
    | None => (fun iface => {| name := n; methods := Init iface |}) <$> registered regs n
    end.
Proof.
  revert s. induction regs as [|[n' iface] regs IH]; intros s; simpl.
  - by destruct (services s !! n).
  - rewrite IH. clear IH. unfold registered. simpl. unfold Register.
    destruct (services s !! n') eqn:Hn'; simpl.
    + destruct (decide (n' = n)) as [->|Hne].
      * by rewrite Hn'.
      * destruct (services s !! n); [done|].
        by destruct (list_find _ regs) as [[]|].
    + destruct (decide (n' = n)) as [->|Hne].
      * by rewrite lookup_insert, decide_True, Hn'.
      * rewrite lookup_insert_ne by done. destruct (services s !! n); [done|].
        by destruct (list_find _ regs) as [[]|].
Qed.

Lemma register_many_lookup regs n :
  services (register_many regs) !! n =
    (fun iface => {| name := n; methods := Init iface |}) <$> registered regs n.
Proof. unfold register_many. rewrite register_foldl. simpl. by rewrite lookup_empty. Qed.

End registration.

(** ** The handler *)

Section handler.
Context {EL : ErrorsLib} {G : Gob} {W : Type}.
Implicit Types (w : writer error) (r : request error) (st : W).

(** The status of a response. *)
Definition status (w : writer error) : Z := StatusCode (finish w).

(** The path of the URL of a method. *)
Definition method_path (prefix service_ method_ : string) : string :=
  prefix +:+ String SLASH (service_ +:+ String DOT method_).

Lemma route prefix service_ method_ :
  has_byte SLASH service_ = false -> has_byte DOT service_ = false ->
  has_byte SLASH method_ = false ->
  SplitN2 (Base (method_path prefix service_ method_)) DOT = (service_, Some method_).
Proof.
  intros H1 H2 H3. unfold method_path. rewrite Base_app.
  - by apply SplitN2_app.
  - by destruct service_.
  - rewrite has_byte_app, H1. simpl. by rewrite H3.
Qed.

(** The lengths of the body after each chunk that carries data. *)
Fixpoint flush_points (n : nat) (chunks : list string) : list nat :=
  match chunks with
  | [] => []
  | p :: rest =>
      if decide (p = "") then flush_points n rest
      else (n + String.length p)%nat :: flush_points (n + String.length p) rest
  end.

Lemma Copy_ok flush chunks end_ w c :
  w_room w = None -> w_sent w = Some c ->
  let r := Copy flush chunks end_ w in
  r.2 = end_ /\
  w_body r.1 = w_body w +:+ st_bytes {| st_chunks := chunks; st_end := end_ |} /\
  w_sent r.1 = Some c /\ w_header r.1 = w_header w /\ w_room r.1 = None /\
  w_flushed r.1 = (w_flushed w ++ if flush then flush_points (String.length (w_body w)) chunks else []) /\
  w_proto r.1 = w_proto w.
Proof.
  revert w. induction chunks as [|p rest IH]; intros w Hr Hs.
  - simpl. rewrite sapp_nil_r. destruct flush; by rewrite app_nil_r.
  - simpl. case_decide as Hp; [subst; by apply IH|].
    unfold copy_Write, Write. rewrite (WriteHeader_sent 200 w c Hs), Hr. simpl.
    set (w1 := {| w_header := w_header w |}).
    set (w2 := if flush then Flush w1 else w1).
    assert (H2 : w_room w2 = None /\ w_sent w2 = Some c /\ w_header w2 = w_header w /\
      w_body w2 = w_body w +:+ p /\
      w_flushed w2 = w_flushed w ++
        (if flush then [(String.length (w_body w) + String.length p)%nat] else []) /\
      w_proto w2 = w_proto w).
    { unfold w2. destruct flush.
      - unfold Flush. rewrite (WriteHeader_sent 200 w1 c Hs). simpl.
        by rewrite sapp_length.
      - unfold w1. simpl. by rewrite app_nil_r. }
    destruct H2 as (Hr2 & Hs2 & Hh2 & Hb2 & Hf2 & Hp2).
    destruct (IH w2 Hr2 Hs2) as (He & Hb & Hs' & Hh & Hr' & Hf & Hp').
    repeat split; try done; try congruence.
    + by rewrite Hb, Hb2, sapp_assoc.
    + rewrite Hf, Hf2, Hb2, sapp_length. destruct flush; [by rewrite <- app_assoc|].
      by rewrite !app_nil_r.
Qed.

(** The text that the handler puts in the trailer of a reply stream. *)
Definition end_text (s : stream error) : string :=
  match st_end s with Some e => Error e | None => "" end.

(** How the response to a stream with this text ends: with what the protocol
    makes of it in the trailer, or without a trailer, if at all. *)
Definition ends_with (p : protocol) (text : string) (r : response error) : Prop :=
  match trailer_value p text with
  | Some v => resp_ends r = true /\ header_get (Trailer r) bigmachineErrorTrailer = v
  | None => resp_ends r = lost_ends p /\ header_get (Trailer r) bigmachineErrorTrailer = ""
  end.

(** The three shapes of a reply on a fresh connection that holds. *)
Lemma stream_reply_ok code rc (fl : transport) :
  let r := stream_reply code rc (new_writer None fl) in
  let resp := finish r.1 in
  StatusCode resp = code /\
  st_bytes (resp_Body resp) = st_bytes (rc_stream rc) /\ st_end (resp_Body resp) = None /\
  ends_with (t_proto fl) (end_text (rc_stream rc)) resp /\
  w_flushed r.1 = (if rc_flush rc && fl then flush_points 0 (st_chunks (rc_stream rc)) else []).
Proof.
  unfold stream_reply.
  set (w := WriteHeader code _).
  destruct (Copy_ok (rc_flush rc && fl) (st_chunks (rc_stream rc)) (st_end (rc_stream rc)) w
              (code, w_header w) eq_refl eq_refl) as (He & Hb & Hs & Hh & Hr & Hf & Hp).
  replace (w_flusher w) with (t_flusher fl) by done.
  destruct (Copy _ _ _ w) as [w' err]. simpl in *. subst err.
  fold (end_text (rc_stream rc)). unfold finish. simpl. rewrite Hs, Hp. simpl.
  unfold send_trailer. rewrite !lookup_insert_eq. simpl. unfold ends_with.
  assert (Hb' : st_bytes {| st_chunks := [w_body w']; st_end := @None error |} = st_bytes (rc_stream rc))
    by (rewrite Hb; unfold st_bytes; simpl; by rewrite sapp_nil_r).
  destruct (trailer_value (t_proto fl) (end_text (rc_stream rc))) as [v|] eqn:Hv; simpl.
  - unfold header_get. rewrite lookup_singleton_eq. by rewrite Hf.
  - by rewrite Hf.
Qed.

Lemma value_reply_ok code src fl b :
  Encode src = Ok b ->
  let r := value_reply code src (new_writer None fl) in
  let resp := finish r.1.1 in
  StatusCode resp = code /\ st_bytes (resp_Body resp) = b /\ st_end (resp_Body resp) = None /\
  r.1.2 = Z.of_nat (String.length b) /\ r.2 = None.
Proof.
  intros HE. unfold value_reply. rewrite HE.
  set (w := if decide (code <> 200) then _ else _).
  assert (Hw : w_room w = None /\ w_body w = "" /\
               w_sent (WriteHeader 200 w) = Some (code, {["Content-Type" := gobContentType]})).
  { unfold w. case_decide as Hc; [done|by subst]. }
  destruct Hw as (Hr & Hb & Hs).
  destruct (Write_ok b w Hr) as (H1 & H2 & H3). pose proof (Write_sent b w) as H4.
  destruct (Write b w) as [w' err]. simpl in *. subst err. simpl.
  unfold finish. rewrite H4, Hs. simpl. unfold send_trailer.
  rewrite (lookup_singleton_ne "Content-Type") by done. simpl.
  rewrite H2, Hb. unfold st_bytes. simpl. by rewrite sapp_nil_r.
Qed.

(** If the reply cannot be encoded, the status is 500, unless an error status
    was sent already. *)
Lemma value_reply_fails code src fl e :
  Encode src = Err e ->
  let r := value_reply code src (new_writer None fl) in
  StatusCode (finish r.1.1) = (if decide (code = 200) then 500 else code) /\ r.2 = Some e.
Proof.
  intros HE. unfold value_reply. rewrite HE. simpl. split; [|done].
  destruct (decide (code = 200)) as [->|Hc].
  - by apply finish_http_Error.
  - rewrite decide_True by done. by eapply finish_http_Error_late.
Qed.

(** Dispatch.  After any sequence of registrations, a POST to
    .../Service.Method reaches the method of that name of the FIRST object
    registered as Service, provided the method is exported and of the form
    Func(ctx, arg, *reply) error; for any other name the answer is 404, the
    objects are untouched and nothing is recorded.  A later registration under
    the same name has no effect, and the order in which other names are
    registered does not matter. *)
Lemma ServeHTTP_dispatches regs prefix service_ method_ iface w r st :
  has_byte SLASH service_ = false -> has_byte DOT service_ = false ->
  has_byte SLASH method_ = false ->
  r_Method r = "POST" -> r_URL_Path r = method_path prefix service_ method_ ->
  w_sent w = None ->
  registered regs service_ = Some iface -> NoDup (m_Name <$> iface) ->
  (forall m a rp, m ∈ iface -> m_Name m = method_ -> rpc_signature m a rp ->
     ServeHTTP (W := W) (register_many regs) w r st =
       dispatch (service_ +:+ "." +:+ method_) {| method_ := m; arg := a; reply := rp |} w r st) /\
  ((forall m a rp, m ∈ iface -> m_Name m = method_ -> ~ rpc_signature m a rp) ->
     let d := ServeHTTP (register_many regs) w r st in
     status (sv_writer d) = 404 /\ sv_world d = st /\ sv_stats d = None).
Proof.
  intros H1 H2 H3 HP HU Hw Hreg Hnd.
  assert (HS : ServeHTTP (register_many regs) w r st =
    match Init iface !! method_ with
    | None => refuse "no such method" 404 w st
    | Some m => dispatch (service_ +:+ "." +:+ method_) m w r st
    end).
  { unfold ServeHTTP. rewrite HP, HU, decide_False by (by intros []).
    by rewrite route, register_many_lookup, Hreg. }
  split.
  - intros m a rp Hin Hn Hs. rewrite HS.
    by rewrite (proj2 (Init_spec iface method_ {| method_ := m; arg := a; reply := rp |} Hnd))
      by eauto 10.
  - intros Hnone d. unfold d. rewrite HS.
    destruct (Init iface !! method_) as [mm|] eqn:Hm.
    + apply Init_spec in Hm as (m & a & rp & Hin & Hn & Hs & _); [|done].
      by destruct (Hnone m a rp).
    + split; [|done]. by apply finish_http_Error.
Qed.

(** What a response says about the call. *)
Definition reply_code (err : option error) : Z :=
  match err with Some _ => methodErrorCode | None => 200 end.

Definition reply_meaning (p : protocol) (r : response error) (err : option error) (rv : mreplyv) : Prop :=
  match rv, err with
  | ReplyStream (Some rc), _ =>
      StatusCode r = (reply_code err) /\
      st_bytes (resp_Body r) = st_bytes (rc_stream rc) /\
      ends_with p (end_text (rc_stream rc)) r
  | _, Some e =>
      StatusCode r = methodErrorCode /\
      forall b, Encode (SError (Recover e)) = Ok b -> st_bytes (resp_Body r) = b
  | _, None =>
      match Encode (reply_source rv None) with
      | Ok b => StatusCode r = 200 /\ st_bytes (resp_Body r) = b
      | Err _ => StatusCode r = 500
      end
  end.

Lemma reply_meaning_value err rv (fl : transport) :
  (forall rc, rv <> ReplyStream (Some rc)) ->
  reply_meaning (t_proto fl)
    (finish (value_reply (reply_code err) (reply_source rv err)
               (new_writer None fl)).1.1) err rv.
Proof.
  intros Hrv. set (resp := finish _).
  destruct err as [e|].
  - assert (H : StatusCode resp = methodErrorCode /\
        forall b, Encode (SError (Recover e)) = Ok b -> st_bytes (resp_Body resp) = b).
    { unfold resp. simpl. destruct (Encode (SError (Recover e))) as [b|e'] eqn:HE.
      - destruct (value_reply_ok methodErrorCode _ fl b HE) as (H1 & H2 & _). naive_solver.
      - destruct (value_reply_fails methodErrorCode _ fl e' HE) as (H1 & _). naive_solver. }
    destruct rv as [|[rc|]]; [exact H|by destruct (Hrv rc)|exact H].
  - assert (H : match Encode (reply_source rv None) with
                | Ok b => StatusCode resp = 200 /\ st_bytes (resp_Body resp) = b
                | Err _ => StatusCode resp = 500
                end).
    { unfold resp. cbn [reply_code]. destruct (Encode (reply_source rv None)) as [b|e'] eqn:HE.
      - by destruct (value_reply_ok 200 _ fl b HE) as (H1 & H2 & _).
      - by destruct (value_reply_fails 200 _ fl e' HE) as (H1 & _). }
    destruct rv as [|[rc|]]; [exact H|by destruct (Hrv rc)|exact H].
Qed.

Lemma dispatch_meaning label m (fl : transport) r st :
  let d := dispatch (W := W) label m (new_writer None fl) r st in
  let resp := finish (sv_writer d) in
  sv_body_closed d = true /\
  match (decode_request m (r_Body r)).1 with
  | inl _ => StatusCode resp = 400 /\ sv_world d = st
  | inr a =>
      let '(ret, rv, st') := m_Call (method_ m) a (new_reply m) st in
      sv_world d = st' /\ reply_meaning (t_proto fl) resp (method_error ret) rv /\
      sv_reply_closed d = match rv with ReplyStream (Some _) => true | _ => false end
  end.
Proof.
  intros d resp. unfold resp, d, dispatch. clear resp d.
  destruct (decode_request m (r_Body r)) as [[e|a] n] eqn:Hd; simpl.
  - done.
  - unfold invoke. destruct (m_Call (method_ m) a (new_reply m) st) as [[ret rv] st'].
    set (err := method_error ret). set (code := match err with Some _ => _ | None => _ end).
    assert (Hv : (forall rc, rv <> ReplyStream (Some rc)) ->
      let '(w', n', e') := value_reply code (reply_source rv err) (new_writer None fl) in
      reply_meaning (t_proto fl) (finish w') err rv).
    { intros Hrv. pose proof (reply_meaning_value err rv fl Hrv) as H.
      change code with (reply_code err). by destruct (value_reply _ _ _) as [[w' n'] e']. }
    destruct rv as [v|[rc|]].
    + specialize (Hv ltac:(done)). by destruct (value_reply _ _ _) as [[w' n'] e'].
    + destruct (stream_reply_ok code rc fl) as (H1 & H2 & H3 & H4 & H5).
      destruct (stream_reply _ _ _) as [w' e']. simpl in *. done.
    + specialize (Hv ltac:(done)). by destruct (value_reply _ _ _) as [[w' n'] e'].
Qed.

(** What the status and the body of a reply mean.  Over a connection that
    holds: 400 means the argument did not decode and no method was called;
    otherwise the method was called exactly once.  Status 590 means it returned
    an error (or panicked, which counts as an error that is Fatal), and then
    the body is the encoded error; 200 means it returned nil, and the body is
    the encoded reply or, for a reply stream, its bytes, with the error that
    ended the stream in the trailer; 500 means the reply did not encode.  The
    request body is always closed, the reply stream when there is one. *)
Lemma dispatch_reply label m (fl : transport) r st :
  let d := dispatch (W := W) label m (new_writer None fl) r st in
  let resp := finish (sv_writer d) in
  sv_body_closed d = true /\
  match (decode_request m (r_Body r)).1 with
  | inl _ => StatusCode resp = 400 /\ sv_world d = st
  | inr a =>
      let '(ret, rv, st') := m_Call (method_ m) a (new_reply m) st in
      sv_world d = st' /\ reply_meaning (t_proto fl) resp (method_error ret) rv /\
      sv_reply_closed d = match rv with ReplyStream (Some _) => true | _ => false end
  end.
Proof. apply dispatch_meaning. Qed.

(** Interactive streams.  When a method wraps its reply in Flush and the
    connection can flush, every piece of data is flushed to the client as soon
    as it is written: the flush points are exactly the ends of the non-empty
    chunks.  A reply that was not wrapped is never flushed by the handler. *)
Theorem flushed_streams code rc (fl : transport) :
  w_flushed (stream_reply code (FlushReply rc) (new_writer None fl)).1 =
    (if t_flusher fl then flush_points 0 (st_chunks (rc_stream rc)) else []) /\
  w_flushed (stream_reply code {| rc_stream := rc_stream rc; rc_flush := false |}
               (new_writer None fl)).1 = [].
Proof.
  split.
  - destruct (stream_reply_ok code (FlushReply rc) fl) as (_ & _ & _ & _ & ->). by destruct (t_flusher fl).
  - by destruct (stream_reply_ok code {| rc_stream := rc_stream rc; rc_flush := false |} fl)
      as (_ & _ & _ & _ & ->).
Qed.

(** The server's statistics miss requests and method errors.  The size
    handed to the statistics is read before the decoder runs, so it is 0 or
    unknown for every request; and because the result of writing the reply
    overwrites the result of the method, a call whose method failed is recorded
    as a success whenever its reply was written. *)
Lemma server_statistics_blind label m fl r st :
  let d := dispatch (W := W) label m (new_writer None fl) r st in
  exists req rep err,
    sv_stats d = Some (label, req, rep, err) /\ (req <= 0) /\
    forall a b ret v st',
      (decode_request m (r_Body r)).1 = inr a ->
      m_Call (method_ m) a (new_reply m) st = (ret, ReplyValue v, st') ->
      (forall x, exists b, Encode x = Ok b) -> ret = Returned (Some b) -> err = None.
Proof.
  intros d. unfold d, dispatch.
  assert (Hreq : (decode_request m (r_Body r)).2 <= 0).
  { unfold decode_request. case_decide; simpl; [lia|]. by destruct (Decode _ _) as [[? [?|]] ?]. }
  destruct (decode_request m (r_Body r)) as [[e|a] n] eqn:Hd; simpl in *.
  { eexists _, _, _. split; [done|]. split; [done|]. naive_solver. }
  unfold invoke. destruct (m_Call (method_ m) a (new_reply m) st) as [[ret rv] st'] eqn:Hc.
  destruct ret as [[e|]|msg]; destruct rv as [v|[rc|]];
    try (destruct (value_reply _ _ _) as [[w' n'] e'] eqn:Hv);
    try (destruct (stream_reply _ _ _) as [w' e'] eqn:Hv);
    eexists _, _, _; (split; [done|]); (split; [done|]); intros a' b ret' v' st'' Ha Hcall HE Hret;
    simplify_eq; rewrite Hc in Hcall; simplify_eq.
  simpl in Hv. destruct (HE (SError (Recover b))) as [bs Hb].
  destruct (value_reply_ok methodErrorCode _ fl bs Hb) as (_ & _ & _ & _ & H).
  by rewrite Hv in H.
Qed.
End handler.

(** ** Sample services *)

Module Samples.

(** Methods of a counter object: the world is the number of calls made.  Echo
    returns its argument, Fail a Fatal error, Boom panics, Tail a stream whose
    second half fails, and Both sets a stream and returns an error. *)
Definition sample_method (n : string) (replyT : GoType)
    (f : margv -> mreplyv -> nat -> returned * mreplyv * nat) :
    reflect_Method (EL := SimpleErrors) (G := SimpleGob) nat :=
  {| m_Name := n; m_PkgPath := "";
     m_In := [TStruct "counter"; typeOfContext; TBasic "string"; TPtr replyT];
     m_Out := [typeOfError]; m_Call := f |}.

Definition fatal : serror := SErr Invalid Fatal "no such thing".

Definition half : readcloser (EL := SimpleErrors) :=
  {| rc_stream := {| st_chunks := ["ab"; ""; "cde"]; st_end := Some (SOther "disk gone") |};
     rc_flush := true |}.

Definition Echo := sample_method "Echo" (TBasic "string") (fun a r n =>
  (Returned None, match a, r with
                  | ArgValue v, ReplyValue p => ReplyValue (SPtr v)
                  | _, _ => r
                  end, S n)).
Definition Fail_ := sample_method "Fail" (TBasic "string") (fun a r n => (Returned (Some fatal), r, S n)).
Definition Boom := sample_method "Boom" (TBasic "string") (fun a r n => (Panicked "index", r, S n)).
Definition Tail := sample_method "Tail" typeOfReadCloser (fun a r n =>
  (Returned None, ReplyStream (Some half), S n)).
Definition Both := sample_method "Both" typeOfReadCloser (fun a r n =>
  (Returned (Some fatal), ReplyStream (Some half), S n)).

(** A method that is not of the right form: it does not return an error. *)
Definition Odd : reflect_Method (EL := SimpleErrors) (G := SimpleGob) nat :=
  {| m_Name := "Odd"; m_PkgPath := ""; m_In := m_In Echo; m_Out := []; m_Call := m_Call Echo |}.

Definition counter : list (reflect_Method nat) := [Echo; Fail_; Boom; Tail; Both; Odd].

Definition regs : list (string * list (reflect_Method nat)) :=
  [("Counter", counter); ("Other", []); ("Counter", [])].

Definition post (path body : string) : request serror :=
  {| r_Method := "POST"; r_URL_Path := path; r_ContentType := gobContentType; r_Body := buffer body |}.

Lemma ServeHTTP_dispatches_witness :
  ServeHTTP (register_many regs) (new_writer None http2) (post "/v1/Counter.Echo" "Vx") 0%nat =
    dispatch "Counter.Echo" {| method_ := Echo; arg := TBasic "string"; reply := TPtr (TBasic "string") |}
      (new_writer None http2) (post "/v1/Counter.Echo" "Vx") 0%nat /\
  status (sv_writer (ServeHTTP (register_many regs) (new_writer None http2)
    (post "/v1/Counter.Odd" "Vx") 0%nat)) = 404.
Proof.
  assert (Hnd : NoDup (m_Name <$> counter)) by exact (@bool_decide_unpack (NoDup (m_Name <$> counter)) _ I).
  split.
  - refine (proj1 (ServeHTTP_dispatches regs "/v1" "Counter" "Echo" counter
      (new_writer None http2) (post "/v1/Counter.Echo" "Vx") 0%nat
      eq_refl eq_refl eq_refl eq_refl eq_refl eq_refl eq_refl Hnd) Echo _ _ _ eq_refl _).
    + left.
    + split; [done|]. split; [done|]. split; [done|]. by eexists.
  - refine (proj1 (proj2 (ServeHTTP_dispatches regs "/v1" "Counter" "Odd" counter
      (new_writer None http2) (post "/v1/Counter.Odd" "Vx") 0%nat
      eq_refl eq_refl eq_refl eq_refl eq_refl eq_refl eq_refl Hnd) _)).
    intros m a rp Hin Hn (_ & _ & Ho & _).
    unfold counter in Hin. set_unfold in Hin. destruct_or! Hin; subst; done.
Defined.

End Samples.
