(* ===== verification/StatsThreads.v ===== *)
(** rpc/stats.go under concurrency.  The handlers and callers of a process share
    one tree of counters; each of their accesses - creating a child under the
    lock of its node, Map.Add, reading an Int, setting an Int - is atomic, and
    the accesses of different goroutines interleave freely.  RpcStats.v is the
    specification: one call's update after the other. *)
From S2P Require Import Prelude RpcStats.
Local Open Scope string_scope.
Local Open Scope list_scope.
Local Open Scope Z_scope.

(** ** Definitions *)

(** One access to the tree.  [UCmp] is the test of rpcstats.max: it reads the
    Int, and if the value is larger the goroutine goes on to set it. *)
Inductive access :=
| UChild (path : list string) (name : string)
| UAdd (path : list string) (key : string) (delta : Z)
| UCmp (path : list string) (key : string) (val : Z)
| USet (path : list string) (key : string) (val : Z).

(** What an access does, and the accesses its goroutine has to do because of it. *)
Definition do_access (op : access) (t : treestats) : treestats * list access :=
  match op with
  | UChild path name => (Child path name t, [])
  | UAdd path key delta => (Add path key delta t, [])
  | UCmp path key val =>
      (t, match ts_ints t !! (path ++ [key]) with
          | Some v => if decide (v < val) then [USet path key val] else []
          | None => []
          end)
  | USet path key val =>
      ({| ts_trees := ts_trees t; ts_ints := <[path ++ [key] := val]> (ts_ints t) |}, [])
  end.

(** The accesses of Path, of Add on a path, and of max. *)
Fixpoint Path_from_ops (path names : list string) : list access :=
  match names with
  | [] => []
  | name :: names => UChild path name :: Path_from_ops (path ++ [name]) names
  end.

Definition path_Add_ops (names : list string) (key : string) (delta : Z) : list access :=
  Path_from_ops [] names ++ [UAdd names key delta].

Definition max_ops (val : Z) (names : list string) (name : string) : list access :=
  path_Add_ops names name 0 ++ Path_from_ops [] names ++ [UCmp names name val].

(** The accesses of rpcstats.Start and of the function it returns. *)
Definition Start_ops (addr method : string) : list access :=
  path_Add_ops ["method"; method] "count" 1 ++
  (if decide (addr <> "") then path_Add_ops ["machine"; addr; "method"; method] "count" 1 else []).

Definition bytes_ops (method key maxkey : string) (bytes : Z) : list access :=
  if decide (bytes > 0) then
    path_Add_ops ["method"; method] key bytes ++ max_ops bytes ["method"; method] maxkey
  else [].

Definition done_ops (addr method : string) (nanoseconds requestBytes replyBytes : Z) (err : bool) :
    list access :=
  let elapsed := Z.quot nanoseconds 1000000 in
  path_Add_ops ["method"; method] "time" elapsed ++
  bytes_ops method "requestbytes" "maxrequestbytes" requestBytes ++
  bytes_ops method "replybytes" "maxreplybytes" replyBytes ++
  (if err then path_Add_ops ["method"; method] "errors" 1 else []) ++
  max_ops elapsed ["method"; method] "maxtime" ++
  (if decide (addr <> "") then
     path_Add_ops ["machine"; addr; "method"; method] "time" elapsed ++
     max_ops elapsed ["machine"; addr; "method"; method] "maxtime"
   else []).

Definition event_ops (e : stat_event) : list access :=
  match e with
  | EStart a m => Start_ops a m
  | EDone a m ns req rep err => done_ops a m ns req rep err
  end.

(** A goroutine: what it still has to do. *)
Definition goroutine (es : list stat_event) : list access := es ≫= event_ops.

(** The tree and the goroutines that use it. *)
Definition cfg : Type := treestats * list (list access).

Inductive step : cfg -> cfg -> Prop :=
| step_access t t' l1 op more rest l2 :
    do_access op t = (t', more) ->
    step (t, l1 ++ (op :: rest) :: l2) (t', l1 ++ (more ++ rest) :: l2).

(** A run of all the goroutines to their ends. *)
Definition runs (ess : list (list stat_event)) (t : treestats) : Prop :=
  exists ths, rtc step (new_treestats, goroutine <$> ess) (t, ths) /\ concat ths = [].

(** One goroutine alone. *)
Definition seq_access (t : treestats) (op : access) : treestats :=
  let '(t', more) := do_access op t in foldl (fun t o => (do_access o t).1) t' more.

(** The counters that only Add changes, and those of max. *)
Definition sum_counter (c : list string) : Prop :=
  (exists m k, c = ["method"; m; k] /\ k ∈ ["count"; "time"; "errors"; "requestbytes"; "replybytes"]) \/
  (exists a m k, c = ["machine"; a; "method"; m; k] /\ a <> "" /\ k ∈ ["count"; "time"]).

Definition max_counter (c : list string) : Prop :=
  (exists m k, c = ["method"; m; k] /\ k ∈ ["maxtime"; "maxrequestbytes"; "maxreplybytes"]) \/
  (exists a m, c = ["machine"; a; "method"; m; "maxtime"] /\ a <> "").

(** ** A goroutine that runs alone does what RpcStats.v says *)

Lemma Path_from_ops_alone path names t :
  foldl seq_access t (Path_from_ops path names) = (Path_from path names t).2.
Proof.
  revert path t. induction names as [|n names IH]; intros path t; [done|]. simpl.
  rewrite <- IH. done.
Qed.

Lemma Path_from_path path names t : (Path_from path names t).1 = path ++ names.
Proof.
  revert path t. induction names as [|n names IH]; intros path t; simpl; [by rewrite app_nil_r|].
  by rewrite IH, <- app_assoc.
Qed.

Lemma path_Add_alone names key d t :
  foldl seq_access t (path_Add_ops names key d) = path_Add names key d t.
Proof.
  unfold path_Add_ops, path_Add, Path. rewrite foldl_app, Path_from_ops_alone. simpl.
  pose proof (Path_from_path [] names t) as Hp. destruct (Path_from [] names t) as [p t'].
  simpl in Hp. by subst p.
Qed.

Lemma max_alone v names key t : foldl seq_access t (max_ops v names key) = max v names key t.
Proof.
  unfold max_ops, max, Path. rewrite !foldl_app, path_Add_alone, Path_from_ops_alone.
  pose proof (Path_from_path [] names (path_Add names key 0 t)) as Hp.
  destruct (Path_from [] names (path_Add names key 0 t)) as [p t'].
  simpl in Hp. subst p. cbn [foldl snd]. unfold seq_access. simpl.
  destruct (ts_ints t' !! _) as [z|]; [|done]. by case_decide.
Qed.

#[local] Opaque path_Add_ops max_ops.

Lemma event_alone e t : foldl seq_access t (event_ops e) = apply_event t e.
Proof.
  destruct e as [a m|a m ns req rep err]; simpl.
  - unfold Start_ops, Start. case_decide; by rewrite ?foldl_app, ?path_Add_alone.
  - unfold done_ops, done, bytes_ops, done_bytes, done_err, done_machine.
    destruct err; repeat case_decide;
      by repeat rewrite ?foldl_app, ?path_Add_alone, ?max_alone.
Qed.

#[local] Transparent path_Add_ops max_ops.

Lemma goroutine_alone es : foldl seq_access new_treestats (goroutine es) = run_events es.
Proof.
  unfold run_events, goroutine. generalize new_treestats. induction es as [|e es IH]; intros t; [done|].
  rewrite bind_cons, foldl_app, event_alone. apply IH.
Qed.

(** ** What an access adds to a counter, and what it may set it to *)

Definition adds (c : list string) (op : access) : Z :=
  match op with
  | UAdd path key delta => if decide (path ++ [key] = c) then delta else 0
  | _ => 0
  end.

Definition total (c : list string) (ops : list access) : Z := sum (adds c <$> ops).

Definition maxima (c : list string) (op : access) : list Z :=
  match op with
  | UCmp path key val | USet path key val => if decide (path ++ [key] = c) then [val] else []
  | _ => []
  end.

(** The accesses that calls consist of. *)
Definition op_ok (op : access) : Prop :=
  match op with
  | UChild path name => inner (path ++ [name])
  | UAdd path key delta =>
      leaf (path ++ [key]) /\ (max_counter (path ++ [key]) -> delta = 0)
  | UCmp path key val => leaf (path ++ [key]) /\ max_counter (path ++ [key]) /\ in_int64 val
  | USet path key val =>
      leaf (path ++ [key]) /\ max_counter (path ++ [key]) /\ in_int64 val /\ 0 < val
  end.

Lemma total_app c l1 l2 : total c (l1 ++ l2) = total c l1 + total c l2.
Proof.
  unfold total. rewrite fmap_app. unfold sum. induction (adds c <$> l1) as [|x l IH]; simpl; lia.
Qed.

Lemma Path_from_ops_ok path names :
  (forall n, (n < length names)%nat -> inner (path ++ take (S n) names)) ->
  Forall op_ok (Path_from_ops path names).
Proof.
  revert path. induction names as [|x names IH]; intros path H; [constructor|]. simpl. constructor.
  - simpl. specialize (H 0%nat). simpl in H. apply H. lia.
  - apply IH. intros n Hn. specialize (H (S n)). simpl in H.
    rewrite <- app_assoc. apply H. lia.
Qed.

Lemma node_path_ok names : node names -> Forall op_ok (Path_from_ops [] names).
Proof.
  intros Hn. apply Path_from_ops_ok. intros n. simpl app.
  destruct Hn as [(m & ->)|(a & m & ->)]; simpl length; intros Hl;
    do 4 (destruct n as [|n]; [done|]); lia.
Qed.

Lemma path_Add_ops_ok names key d :
  node names -> (max_counter (names ++ [key]) -> d = 0) -> Forall op_ok (path_Add_ops names key d).
Proof.
  intros Hn Hd. apply Forall_app. split; [by apply node_path_ok|].
  constructor; [|constructor]. split; [by apply node_leaf|done].
Qed.

Lemma max_ops_ok v names key :
  node names -> max_counter (names ++ [key]) -> in_int64 v -> Forall op_ok (max_ops v names key).
Proof.
  intros Hn Hs Hv. apply Forall_app. split; [by apply path_Add_ops_ok|].
  apply Forall_app. split; [by apply node_path_ok|].
  constructor; [|constructor]. split; [by apply node_leaf|done].
Qed.

(** No counter is of both kinds; this decides it for the names of the code. *)
Ltac names_tac :=
  let H := fresh in intros H;
  first [destruct H as [(?&?&?&?)|(?&?&?&?&?&?)] | destruct H as [(?&?&?&?)|(?&?&?&?)]];
  simplify_list_eq; set_solver.

Lemma sum_not_max c : sum_counter c -> max_counter c -> False.
Proof. intros [(m & k & -> & Hk)|(a & m & k & -> & _ & Hk)]; names_tac. Qed.

#[local] Hint Resolve node_method node_machine : core.

#[local] Opaque path_Add_ops max_ops.

Ltac max_tac := unfold max_counter; simpl; solve [left; eexists _, _; split; [reflexivity|set_solver] | right; by eexists _, _].

(** A list of accesses is fine if its parts are. *)
Ltac ops_tac :=
  repeat first [ apply Forall_nil_2 | apply Forall_app_2 | case_decide | case_match
               | apply path_Add_ops_ok; [done|names_tac]
               | apply max_ops_ok; [done|max_tac|done] ].

Lemma bytes_ops_ok m key maxkey bytes :
  sum_counter ["method"; m; key] -> max_counter ["method"; m; maxkey] -> in_int64 bytes ->
  Forall op_ok (bytes_ops m key maxkey bytes).
Proof.
  intros Hs Hm Hb. unfold bytes_ops. case_decide; [|constructor]. apply Forall_app_2.
  - apply path_Add_ops_ok; [done|]. intros H'. by destruct (sum_not_max _ Hs).
  - by apply max_ops_ok.
Qed.

Lemma event_ops_ok e : event_ok e -> Forall op_ok (event_ops e).
Proof.
  destruct e as [a m|a m ns req rep err]; simpl; [intros _; unfold Start_ops; ops_tac|].
  intros (Hns & Hreq & Hrep).
  assert (in_int64 (Z.quot ns 1000000)) by (by apply quot_in_int64).
  unfold done_ops. ops_tac; (apply bytes_ops_ok; [left; by set_solver..|done]).
Qed.

#[local] Transparent path_Add_ops max_ops.

Lemma goroutine_ok es : Forall event_ok es -> Forall op_ok (goroutine es).
Proof.
  intros H. apply Forall_bind, (Forall_impl _ _ _ H), event_ops_ok.
Qed.

(** ** Invariants *)

Lemma max_leaf c : max_counter c -> leaf c.
Proof. intros [(m & k & -> & _)|(a & m & -> & _)]; [left|right]; by repeat eexists. Qed.

Lemma sum_leaf c : sum_counter c -> leaf c.
Proof. intros [(m & k & -> & _)|(a & m & k & -> & _)]; [left|right]; by repeat eexists. Qed.

(** The values a list of accesses may set a counter to. *)
Definition all_maxima (c : list string) (ops : list access) : list Z := ops ≫= maxima c.

(** What holds between any two accesses of a run that starts with [ops0] still
    to be done, [ops] of which are left. *)
Record inv (ops0 : list access) (t : treestats) (ops : list access) : Prop := {
  i_good : good t;
  i_ok : Forall op_ok ops;
  i_sum : forall c, sum_counter c ->
    in_int64 (counter t c) /\ wrap64 (counter t c + total c ops) = wrap64 (total c ops0);
  i_max : forall c, max_counter c ->
    (0 <= counter t c /\ in_int64 (counter t c)) /\
    (counter t c = 0 \/ counter t c ∈ all_maxima c ops0) /\
    (forall v, v ∈ all_maxima c ops -> v ∈ all_maxima c ops0)
}.

Lemma counter_Child path name t c : inner (path ++ [name]) -> leaf c ->
  counter (Child path name t) c = counter t c.
Proof. intros Hi Hl. unfold counter. by rewrite Child_leaf. Qed.

Lemma counter_Add path key d t c :
  good t -> leaf (path ++ [key]) ->
  counter (Add path key d t) c =
    if decide (path ++ [key] = c) then wrap64 (counter t c + d) else counter t c.
Proof.
  intros Hg Hl. unfold Add. rewrite decide_False by by apply leaf_not_tree.
  unfold counter. simpl. case_decide as Hc.
  - subst c. by rewrite lookup_insert, decide_True.
  - by rewrite lookup_insert_ne.
Qed.

Lemma Add_good path key d t : good t -> good (Add path key d t).
Proof. intros Hg. unfold Add. by case_decide. Qed.

Lemma total_cons c op ops : total c (op :: ops) = adds c op + total c ops.
Proof. done. Qed.

Section accesses.
Variables (ops0 : list access) (t : treestats) (rest : list access).

Lemma inv_child path name :
  inv ops0 t (UChild path name :: rest) -> inv ops0 (Child path name t) rest.
Proof.
  intros [Hg Hok Hs Hm]. apply Forall_cons in Hok as [Hi Hok]. simpl in Hi.
  split; [by apply Child_good|done| |]; intros c Hc;
    rewrite counter_Child by first [done|by apply sum_leaf|by apply max_leaf]; [apply (Hs c Hc)|apply (Hm c Hc)].
Qed.

Lemma inv_Add path key d : inv ops0 t (UAdd path key d :: rest) -> inv ops0 (Add path key d t) rest.
Proof.
  intros [Hg Hok Hs Hm]. apply Forall_cons in Hok as [[Hl Hd] Hok].
  split; [by apply Add_good|done| |]; intros c Hc; rewrite counter_Add by done.
  - destruct (Hs c Hc) as [Hin Heq]. rewrite total_cons in Heq. simpl in Heq. case_decide.
    + split; [apply wrap64_range|]. rewrite wrap64_add, <- Heq. f_equal. lia.
    + by rewrite Z.add_0_l in Heq.
  - destruct (Hm c Hc) as ((H0 & Hin) & Hv & Hr). case_decide; [|by split].
    subst c. rewrite (Hd Hc), Z.add_0_r, wrap64_id by done. by split.
Qed.

Lemma inv_set path key v :
  inv ops0 t (USet path key v :: rest) ->
  inv ops0 {| ts_trees := ts_trees t; ts_ints := <[path ++ [key] := v]> (ts_ints t) |} rest.
Proof.
  intros [Hg Hok Hs Hm]. apply Forall_cons in Hok as [(Hl & Hmx & Hin & Hv) Hok].
  split; [done|done| |]; intros c Hc; unfold counter; simpl.
  - rewrite lookup_insert_ne by (intros <-; by apply (sum_not_max _ Hc)). by apply Hs.
  - destruct (Hm c Hc) as (H0 & Hval & Hr). destruct (decide (path ++ [key] = c)) as [<-|Hne].
    + rewrite lookup_insert, decide_True by done. simpl. split; [split; [lia|done]|].
      assert (v ∈ all_maxima (path ++ [key]) ops0).
      { apply Hr. unfold all_maxima. simpl. rewrite decide_True by done. by left. }
      split; [by right|]. intros x Hx. apply Hr. unfold all_maxima. simpl. by apply elem_of_app; right.
    + rewrite lookup_insert_ne by done. split; [done|]. split; [done|].
      intros x Hx. apply Hr. unfold all_maxima. simpl. by apply elem_of_app; right.
Qed.

Lemma inv_cmp path key v more :
  (do_access (UCmp path key v) t).2 = more ->
  inv ops0 t (UCmp path key v :: rest) -> inv ops0 t (more ++ rest).
Proof.
  intros Hdo [Hg Hok Hs Hm]. apply Forall_cons in Hok as [(Hl & Hmx & Hin) Hok].
  assert (Hmore : more = [] \/ (more = [USet path key v] /\ 0 < v)).
  { subst more. simpl. destruct (ts_ints t !! _) as [z|] eqn:Hz; [|by left].
    case_decide; [right|by left]. split; [done|].
    destruct (Hm _ Hmx) as ((H0 & _) & _). unfold counter in H0. rewrite Hz in H0. simpl in H0. lia. }
  split; [done| | |].
  - destruct Hmore as [->|[-> Hv]]; [done|]. by constructor.
  - intros c Hc. specialize (Hs c Hc). rewrite total_cons in Hs. simpl in Hs.
    destruct Hmore as [->|[-> Hv]]; simpl; rewrite ?total_cons; done.
  - intros c Hc. destruct (Hm c Hc) as (H0 & Hval & Hr). split; [done|]. split; [done|].
    intros x Hx. apply Hr. unfold all_maxima in *. simpl in *.
    destruct Hmore as [->|[-> Hv]]; [by apply elem_of_app; right|done].
Qed.
End accesses.

Lemma inv_access ops0 t op t' more rest :
  do_access op t = (t', more) -> inv ops0 t (op :: rest) -> inv ops0 t' (more ++ rest).
Proof.
  intros Hdo Hi. destruct op; simpl in Hdo; simplify_eq; simpl.
  - by apply inv_child.
  - by apply inv_Add.
  - by eapply inv_cmp.
  - by eapply inv_set.
Qed.

(** The order of what is left does not matter. *)
Lemma total_ops_perm c l1 l2 : l1 ≡ₚ l2 -> total c l1 = total c l2.
Proof.
  intros Hp. induction Hp; rewrite ?total_cons; lia.
Qed.

Lemma inv_perm ops0 t l1 l2 : l1 ≡ₚ l2 -> inv ops0 t l1 -> inv ops0 t l2.
Proof.
  intros Hp [Hg Hok Hs Hm]. split; [done|by rewrite <- Hp| |]; intros c Hc.
  - rewrite <- (total_ops_perm c l1 l2 Hp). by apply Hs.
  - destruct (Hm c Hc) as (H0 & Hv & Hr). do 2 (split; [done|]).
    intros v. unfold all_maxima. rewrite <- Hp. apply Hr.
Qed.

Lemma access_step_inv ops0 x y :
  step x y -> inv ops0 x.1 (concat x.2) -> inv ops0 y.1 (concat y.2).
Proof.
  intros [t t' l1 op more rest l2 Hdo] Hi. simpl in *. rewrite !concat_app in *. simpl in *.
  eapply inv_perm; [|eapply (inv_access _ _ op _ more (concat l1 ++ rest ++ concat l2) Hdo)].
  - rewrite <- app_assoc, !(Permutation_app_swap_app (concat l1)). by solve_Permutation.
  - eapply inv_perm; [|exact Hi]. by rewrite <- Permutation_middle.
Qed.

Lemma inv_init ops : Forall op_ok ops -> inv ops new_treestats ops.
Proof.
  intros Hok. split; [apply good_new|done| |]; intros c Hc; unfold counter; simpl; rewrite lookup_empty; simpl.
  - split; [unfold in_int64; lia|done].
  - split; [unfold in_int64; lia|]. split; [by left|done].
Qed.

Lemma runs_inv ess t : Forall (Forall event_ok) ess -> runs ess t -> inv (concat (goroutine <$> ess)) t [].
Proof.
  intros Hok (ths & Hr & Hdone). rewrite <- Hdone.
  assert (Hi : inv (concat (goroutine <$> ess)) new_treestats (concat (goroutine <$> ess))).
  { apply inv_init, Forall_concat, Forall_fmap, (Forall_impl _ _ _ Hok), goroutine_ok. }
  revert Hi. generalize (concat (goroutine <$> ess)) at 1 3 as ops0. intros ops0 Hi.
  refine (rtc_invariant step (fun x => inv ops0 x.1 (concat x.2)) _ (t, ths) _ _ Hr); [|done].
  intros x y. apply access_step_inv.
Qed.

(** One goroutine alone makes a run. *)
Lemma alone_runs ops t ths :
  rtc step (t, ops :: ths) (foldl seq_access t ops, [] :: ths).
Proof.
  revert t. induction ops as [|op ops IH]; intros t; [done|]. simpl.
  etransitivity; [|apply IH]. unfold seq_access.
  destruct (do_access op t) as [t' more] eqn:Hdo.
  eapply rtc_l; [by apply (step_access _ _ [] op _ ops ths Hdo)|]. simpl.
  destruct op; simpl in Hdo; simplify_eq; try done.
  destruct (ts_ints t' !! _) as [z|]; [|done]. case_decide; [|done]. simpl.
  by apply rtc_once, (step_access _ _ [] _ [] ops ths).
Qed.

Lemma run_events_runs es : runs [es] (run_events es).
Proof.
  exists [[]]. split; [|done]. simpl. rewrite <- goroutine_alone. apply alone_runs.
Qed.

(** ** The maxima of one goroutine *)

Lemma maxima_path c path names : all_maxima c (Path_from_ops path names) = [].
Proof. revert path. induction names as [|n names IH]; intros path; [done|apply IH]. Qed.

Lemma all_maxima_app c l1 l2 : all_maxima c (l1 ++ l2) = all_maxima c l1 ++ all_maxima c l2.
Proof. apply bind_app. Qed.

Lemma maxima_Add c names key d : all_maxima c (path_Add_ops names key d) = [].
Proof. unfold path_Add_ops. by rewrite all_maxima_app, maxima_path. Qed.

Lemma maxima_max c v names key :
  all_maxima c (max_ops v names key) = if decide (names ++ [key] = c) then [v] else [].
Proof.
  unfold max_ops. rewrite !all_maxima_app, maxima_Add, maxima_path. simpl. by rewrite app_nil_r.
Qed.

(** A goroutine alone raises a counter of max at least to every value given. *)
Definition raises (c : list string) (ops : list access) : Prop :=
  forall t, good t -> in_int64 (counter t c) ->
  let t' := foldl seq_access t ops in
  good t' /\ in_int64 (counter t' c) /\ counter t c <= counter t' c /\
  Forall (fun v => v <= counter t' c) (all_maxima c ops).

Section raises_section.
Variables (c : list string) (Hc : max_counter c).

Lemma raises_nil : raises c [].
Proof. intros t Hg Hin. simpl. do 2 (split; [done|]). by split; [lia|constructor]. Qed.

Lemma raises_app l1 l2 : raises c l1 -> raises c l2 -> raises c (l1 ++ l2).
Proof.
  intros H1 H2 t Hg Hin. cbn zeta. rewrite foldl_app, all_maxima_app.
  destruct (H1 t Hg Hin) as (Hg1 & Hin1 & Hle1 & Hm1). cbn zeta in *.
  destruct (H2 _ Hg1 Hin1) as (Hg2 & Hin2 & Hle2 & Hm2). cbn zeta in *.
  split; [done|]. split; [done|]. split; [lia|]. apply Forall_app_2; [|done].
  eapply Forall_impl; [exact Hm1|]. simpl. lia.
Qed.

Lemma raises_Add names key d :
  node names -> (max_counter (names ++ [key]) -> d = 0) -> raises c (path_Add_ops names key d).
Proof.
  intros Hn Hd t Hg Hin. cbn zeta. rewrite path_Add_alone, maxima_Add.
  rewrite counter_path_Add by first [done|by apply max_leaf].
  split; [by apply path_Add_good|].
  destruct (decide (c = names ++ [key])) as [->|]; [|by split; [done|split; [lia|constructor]]].
  rewrite (Hd Hc), Z.add_0_r, wrap64_id by done. by split; [done|split; [lia|constructor]].
Qed.

Lemma raises_max v names key : node names -> in_int64 v -> raises c (max_ops v names key).
Proof.
  intros Hn Hv t Hg Hin. cbn zeta. rewrite max_alone, maxima_max.
  rewrite counter_max by first [done|by apply max_leaf].
  split; [by apply max_good|].
  destruct (decide (c = names ++ [key])) as [->|Hne].
  - rewrite decide_True, wrap64_id by done. split; [unfold in_int64 in *; lia|].
    split; [lia|]. constructor; [lia|constructor].
  - rewrite decide_False by done. by split; [done|split; [lia|constructor]].
Qed.

#[local] Opaque path_Add_ops max_ops.

Ltac raises_tac :=
  repeat first [ case_decide | case_match | simple apply raises_nil
               | simple apply raises_Add; [done|names_tac] | simple apply raises_max; [done|done]
               | simple apply raises_app ].

Lemma raises_event e : event_ok e -> raises c (event_ops e).
Proof.
  destruct e as [a m|a m ns req rep err]; cbn [event_ops event_ok]; [intros _; unfold Start_ops; raises_tac|].
  intros (Hns & Hreq & Hrep).
  assert (in_int64 (Z.quot ns 1000000)) by (by apply quot_in_int64).
  unfold done_ops, bytes_ops. raises_tac.
Qed.

#[local] Transparent path_Add_ops max_ops.

Lemma raises_goroutine es : Forall event_ok es -> raises c (goroutine es).
Proof.
  intros H. induction H as [|e es He Hes IH]; [apply raises_nil|].
  unfold goroutine. rewrite bind_cons. apply raises_app; [by apply raises_event|done].
Qed.
End raises_section.

Lemma sequential_maximum c es v :
  max_counter c -> Forall event_ok es -> v ∈ all_maxima c (goroutine es) ->
  v <= counter (run_events es) c.
Proof.
  intros Hc Hok Hv. rewrite <- goroutine_alone.
  destruct (raises_goroutine c Hc es Hok new_treestats) as (_ & _ & _ & Hall);
    [apply good_new|unfold counter; simpl; rewrite lookup_empty; simpl; unfold in_int64; lia|].
  by apply (proj1 (Forall_forall _ _) Hall).
Qed.

Lemma goroutine_concat ess : goroutine (concat ess) = concat (goroutine <$> ess).
Proof.
  unfold goroutine. induction ess as [|es ess IH]; [done|]. simpl. by rewrite bind_app, IH.
Qed.

Lemma final_sum c ops t : inv ops t [] -> sum_counter c -> counter t c = wrap64 (total c ops).
Proof.
  intros Hi Hc. destruct (i_sum _ _ _ Hi c Hc) as [Hin Heq].
  rewrite <- Heq. cbn. by rewrite Z.add_0_r, wrap64_id.
Qed.

(** ** Properties *)

(** C24. The counters of a process that handles calls concurrently refine those
    of one that handles them one after the other.  However the accesses of any
    number of goroutines interleave, in the end every counter that is a sum -
    calls begun, errors, time, bytes - is exactly what the same calls give in
    sequence: no update is lost.  A maximum is the value of one of the calls, or
    zero, and at most the maximum in sequence; it can be less, as
    [maximum_lost] shows. *)
Theorem counters_refine_sequential ess t :
  Forall (Forall event_ok) ess -> runs ess t ->
  (forall c, sum_counter c -> counter t c = counter (run_events (concat ess)) c) /\
  (forall c, max_counter c ->
     (counter t c = 0 \/ counter t c ∈ all_maxima c (goroutine (concat ess))) /\
     0 <= counter t c <= counter (run_events (concat ess)) c).
Proof.
  intros Hok Hr. pose proof (runs_inv ess t Hok Hr) as Hi.
  assert (Hok' : Forall event_ok (concat ess)) by by apply Forall_concat.
  assert (Hseq : inv (concat (goroutine <$> ess)) (run_events (concat ess)) []).
  { rewrite <- goroutine_concat.
    pose proof (runs_inv [concat ess] _ (Forall_cons_2 _ _ _ Hok' (Forall_nil_2 _)) (run_events_runs _)) as H.
    simpl in H. by rewrite app_nil_r in H. }
  split.
  - intros c Hc. by rewrite (final_sum c _ _ Hi Hc), (final_sum c _ _ Hseq Hc).
  - intros c Hc. destruct (i_max _ _ _ Hi c Hc) as ((H0 & _) & Hv & _).
    destruct (i_max _ _ _ Hseq c Hc) as ((H0' & _) & _ & _).
    rewrite goroutine_concat. split; [done|]. split; [done|].
    destruct Hv as [->|Hv]; [done|]. apply sequential_maximum; [done..|]. by rewrite goroutine_concat.
Qed.

(** ** Evaluated runs *)

Module Samples.

(** The run that lets the goroutines with the given numbers take their next access. *)
Definition sched_one (i : nat) (x : cfg) : cfg :=
  match x.2 !! i with
  | Some (op :: rest) =>
      let '(t', more) := do_access op x.1 in (t', <[i := more ++ rest]> x.2)
  | _ => x
  end.

Definition sched (is_ : list nat) (x : cfg) : cfg := foldl (fun x i => sched_one i x) x is_.

Lemma sched_one_step i x : rtc step x (sched_one i x).
Proof.
  unfold sched_one. destruct x as [t ths]; simpl.
  destruct (ths !! i) as [[|op rest]|] eqn:Hi; try done.
  destruct (do_access op t) as [t' more] eqn:Hdo. apply rtc_once.
  rewrite <- (take_drop_middle ths i _ Hi) at 1.
  rewrite insert_take_drop by by eapply lookup_lt_Some. by constructor.
Qed.

Lemma sched_runs is_ x : rtc step x (sched is_ x).
Proof.
  revert x. induction is_ as [|i is_ IH]; intros x; [done|].
  etransitivity; [apply sched_one_step|apply IH].
Qed.

(** Two calls of a method end at once, after 5 and 3 milliseconds. *)
Definition two : list (list stat_event) :=
  [[EDone "" "M" 5000000 0 0 false]; [EDone "" "M" 3000000 0 0 false]].

(** Both goroutines compare before either of them sets. *)
Definition race : list nat := replicate 9 0%nat ++ replicate 9 1%nat ++ [0%nat; 1%nat].

Definition race_end : treestats := (sched race (new_treestats, goroutine <$> two)).1.

Lemma race_runs : runs two race_end.
Proof.
  exists (sched race (new_treestats, goroutine <$> two)).2. split; [|by vm_compute].
  unfold race_end. rewrite <- surjective_pairing. apply sched_runs.
Qed.

Lemma two_ok : Forall (Forall event_ok) two.
Proof. repeat constructor; vm_compute; discriminate. Qed.

(** The race of two updates of a maximum: the larger value is overwritten. *)
Lemma maximum_lost :
  counter race_end ["method"; "M"; "maxtime"] = 3 /\
  counter (run_events (concat two)) ["method"; "M"; "maxtime"] = 5.
Proof. by vm_compute. Qed.

Lemma counters_refine_sequential_witness :
  counter race_end ["method"; "M"; "time"] = counter (run_events (concat two)) ["method"; "M"; "time"].
Proof.
  apply (counters_refine_sequential two race_end two_ok race_runs).
  left. exists "M", "time". split; [done|]. by right; left.
Defined.

End Samples.
