(* ===== verification/RpcTypes.v ===== *)
(** rpc/server.go: the values that ServeHTTP passes to the methods it finds by
    reflection have the types of their parameters, so that reflect.Value.Call
    and Set never panic, whatever was registered and whatever is requested. *)
From S2P Require Import Prelude Errors GoStrings Wire RpcServer.
Local Open Scope string_scope.
Local Open Scope list_scope.
Local Open Scope Z_scope.

(** ** Types of reflect values *)

(** The underlying type, and whether a type has a name of its own. *)
Fixpoint underlying (t : GoType) : GoType :=
  match t with TNamed _ u => underlying u | _ => t end.

Definition named (t : GoType) : bool := match t with TNamed _ _ => true | _ => false end.

(** A value of type [t] can be used where [t'] is wanted (between types that are
    not interfaces). *)
Definition assignable (t t' : GoType) : bool :=
  bool_decide (t = t') || (bool_decide (underlying t = underlying t') && negb (named t && named t')).

(** The types of the values package reflect and package gob make. *)
Class ReflectLaws {EL : ErrorsLib} (G : Gob) := {
  Type_of : gval -> GoType;
  NewValue_type : forall t, Type_of (NewValue t) = TPtr t;
  MakeMap_type : forall t, Kind_of t = KMap -> Type_of (MakeMap t) = t;
  MakeSlice_type : forall t, Kind_of t = KSlice -> Type_of (MakeSlice t) = t;
  Decode_type : forall p s, Type_of (Decode p s).1.1 = Type_of p;
  Deref_type : forall p t, Type_of p = TPtr t -> Type_of (Deref p) = t;
  SetElem_type : forall p v t, Type_of p = TPtr t -> assignable (Type_of v) t = true ->
    Type_of (SetElem p v) = TPtr t
}.

Section types.
Context {EL : ErrorsLib} {G : Gob} {R : ReflectLaws G} {W : Type}.

(** The argument and the reply fit the parameters of a method.  The body of a
    request is an io.ReadCloser, which is an io.Reader. *)
Definition arg_fits_type (a : margv) (t : GoType) : bool :=
  match a with
  | ArgBody _ => bool_decide (t = typeOfReader)
  | ArgValue v => assignable (Type_of v) t
  end.

Definition reply_fits_type (r : mreplyv) (t : GoType) : bool :=
  match r with
  | ReplyStream _ => bool_decide (underlying t = TPtr typeOfReadCloser)
  | ReplyValue p => assignable (Type_of p) t
  end.

(** What reflect.Value.Call checks before it calls a method. *)
Definition call_ok (m : reflect_Method W) (a : margv) (r : mreplyv) : bool :=
  match m_In m with
  | [_; _; argT; replyT] => arg_fits_type a argT && reply_fits_type r replyT
  | _ => false
  end.

(** A method that reflect.Value.Call is made to check: a call with values of the
    wrong types panics instead. *)
Definition checked (m : reflect_Method W) : reflect_Method W :=
  {| m_Name := m_Name m; m_PkgPath := m_PkgPath m; m_In := m_In m; m_Out := m_Out m;
     m_Call := fun a r w => if call_ok m a r then m_Call m a r w
                            else (Panicked "reflect: Call using value of the wrong type", r, w) |}.

Definition checked_method (m : method W) : method W :=
  {| method_ := checked (method_ m); arg := arg m; reply := reply m |}.

Definition checked_service (s : service W) : service W :=
  {| name := name s; methods := checked_method <$> methods s |}.

Definition checked_reg (x : string * list (reflect_Method W)) : string * list (reflect_Method W) :=
  (x.1, checked <$> x.2).

Definition checked_regs (regs : list (string * list (reflect_Method W))) :
    list (string * list (reflect_Method W)) := checked_reg <$> regs.

(** ** Registration keeps the types *)

Lemma underlying_Elem (t : GoType) : Kind_of t = KPtr -> underlying t = TPtr (Elem t).
Proof. induction t; simpl; try done. Qed.

Lemma assignable_Elem (t : GoType) : Kind_of t = KPtr -> assignable (TPtr (Elem t)) t = true.
Proof.
  intros Hk. unfold assignable. rewrite (underlying_Elem t) by done. simpl.
  rewrite (bool_decide_eq_true_2 (TPtr (Elem t) = TPtr (Elem t))) by done. apply orb_true_r.
Qed.

Lemma assignable_refl (t : GoType) : assignable t t = true.
Proof. unfold assignable. by rewrite bool_decide_eq_true_2. Qed.

Lemma Init_checked (typ : list (reflect_Method W)) :
  Init (checked <$> typ) = checked_method <$> Init typ.
Proof.
  unfold Init. rewrite <- (fmap_empty (checked_method)) at 1.
  generalize (∅ : gmap string (method W)). induction typ as [|m typ IH]; intros ms; [done|].
  cbn [foldl fmap list_fmap]. change (list_fmap _ _ checked typ) with (checked <$> typ).
  rewrite <- IH. f_equal. unfold eligible, checked at 1. cbn [m_PkgPath m_In m_Out].
  change (if bool_decide (m_PkgPath m ≠ "") then false else _) with (eligible m).
  destruct (eligible m); [|done]. by rewrite fmap_insert.
Qed.

(** Every method of a service is an eligible one, with its parameter types. *)
Lemma Init_eligible (typ : list (reflect_Method W)) :
  map_Forall (fun _ mm => exists m, eligible m = true /\ mm = new_method m) (Init typ).
Proof.
  unfold Init. assert (H : map_Forall (fun _ mm => exists m, eligible m = true /\ mm = new_method m)
    (∅ : gmap string (method W))) by apply map_Forall_empty.
  revert H. generalize (∅ : gmap string (method W)).
  induction typ as [|m typ IH]; intros ms H; [done|]. simpl. apply IH.
  destruct (eligible m) eqn:E; [|done]. apply map_Forall_insert_2; [|done]. by exists m.
Qed.

Lemma register_checked (regs : list (string * list (reflect_Method W))) (n : string) :
  services (register_many (checked_regs regs)) !! n = checked_service <$> services (register_many regs) !! n.
Proof.
  rewrite !register_many_lookup. unfold registered, checked_regs.
  rewrite list_find_fmap. unfold compose. simpl.
  destruct (list_find (fun r => r.1 = n) regs) as [[i [n' iface]]|]; [|done]. simpl. f_equal.
  unfold checked_service. simpl. by rewrite Init_checked.
Qed.

(** ** Calls *)

Lemma new_reply_fits (t : GoType) (m : method W) :
  reply m = t -> Kind_of t = KPtr -> reply_fits_type (new_reply m) t = true.
Proof.
  intros <- Hk. unfold new_reply. case_decide as Hr; simpl.
  - rewrite bool_decide_eq_true. rewrite (underlying_Elem _ Hk). by rewrite Hr.
  - assert (Hn : Type_of (NewValue (Elem (reply m))) = TPtr (Elem (reply m))) by apply NewValue_type.
    destruct (Kind_of (Elem (reply m))) eqn:Ek.
    + rewrite Hn. by apply assignable_Elem.
    + rewrite (SetElem_type _ _ _ Hn); [by apply assignable_Elem|].
      rewrite MakeMap_type by done. apply assignable_refl.
    + rewrite (SetElem_type _ _ _ Hn); [by apply assignable_Elem|].
      rewrite MakeSlice_type by done. apply assignable_refl.
    + rewrite Hn. by apply assignable_Elem.
Qed.

Lemma decode_request_fits (m : method W) (body : stream error) (a : margv) (n : Z) :
  decode_request m body = (inr a, n) -> arg_fits_type a (arg m) = true.
Proof.
  unfold decode_request. case_decide as Ha; [intros [= <- _]; by apply bool_decide_eq_true|].
  set (argv := if decide _ then _ else _).
  pose proof (Decode_type argv body) as Hd. destruct (Decode argv body) as [[v err] k]. simpl in Hd.
  destruct err; [done|]. intros [= <- _]. unfold argv in *. simpl.
  case_decide as Hk; rewrite NewValue_type in Hd.
  - rewrite Hd. by apply assignable_Elem.
  - rewrite (Deref_type _ _ Hd). apply assignable_refl.
Qed.

Lemma invoke_checked (m : method W) (rm : reflect_Method W) (body : stream error) (a : margv) (n : Z) (st : W) :
  eligible rm = true -> m = new_method rm -> decode_request m body = (inr a, n) ->
  invoke (checked_method m) a (new_reply m) st = invoke m a (new_reply m) st.
Proof.
  intros He -> Hd. apply eligible_spec in He as (argT & replyT & Hs).
  pose proof (new_method_sig _ _ _ Hs) as Hm. destruct Hs as (_ & Hk & _ & recv & Hin).
  apply decode_request_fits in Hd. unfold invoke, checked_method, checked. simpl.
  unfold call_ok. rewrite Hin.
  replace argT with (arg (new_method rm)) by by rewrite Hm. rewrite Hd.
  rewrite (new_reply_fits replyT) by (by rewrite ?Hm). done.
Qed.

(** C23. Calls are well typed.  Whatever objects are registered under whatever
    names and whatever a client requests, the server behaves as if every method
    checked the types of its argument and of its reply pointer and panicked on a
    mismatch: no call that reflection makes is ever given values that do not fit
    the parameters of the method.  (A body that does not decode is answered
    without a call.) *)
Theorem dispatch_well_typed (regs : list (string * list (reflect_Method W))) (w : writer error)
    (r : request error) (st : W) :
  ServeHTTP (register_many (checked_regs regs)) w r st = ServeHTTP (register_many regs) w r st.
Proof.
  unfold ServeHTTP. case_decide; [done|]. destruct (SplitN2 _ _) as [svc [meth|]]; [|done].
  rewrite register_checked. destruct (services (register_many regs) !! svc) as [s|] eqn:Hs; [|done].
  simpl. rewrite lookup_fmap. destruct (methods s !! meth) as [m|] eqn:Hm; [|done]. simpl.
  assert (exists rm, eligible rm = true /\ m = new_method rm) as (rm & He & Hnew).
  { rewrite register_many_lookup in Hs. destruct (registered regs svc) as [iface|]; simplify_eq/=.
    by apply (Init_eligible iface meth). }
  unfold dispatch.
  change (decode_request (checked_method m) (r_Body r)) with (decode_request m (r_Body r)).
  destruct (decode_request m (r_Body r)) as [[e|a] n] eqn:Hd; [done|].
  change (new_reply (checked_method m)) with (new_reply m).
  by rewrite (invoke_checked m rm (r_Body r) a n st He Hnew Hd).
Qed.
End types.

(** ** Values that carry their type *)

Module Samples.

Definition typed_Decode (p : GoType * string) (s : stream serror) : (GoType * string) * option serror * Z :=
  ((p.1, st_bytes s), None, Z.of_nat (String.length (st_bytes s))).

Definition TypedGob : @Gob SimpleErrors := {|
  gval := GoType * string;
  NewValue := fun t => (TPtr t, "");
  MakeMap := fun t => (t, "");
  MakeSlice := fun t => (t, "");
  Deref := fun p => (Elem p.1, p.2);
  SetElem := fun p v => (p.1, v.2);
  Encode := fun x => match x with SVal v => Ok v.2 | _ => Err (SOther "gob") end;
  Decode := typed_Decode;
  DecodeError := fun _ => Err (SOther "gob")
|}.

Definition TypedGob_laws : ReflectLaws TypedGob.
Proof.
  refine {| Type_of := fun v : @gval SimpleErrors TypedGob => v.1 |}; try done.
  by intros p t Hp; simpl; rewrite Hp.
Defined.

(** A method that would panic on a wrong type, called with the body as text. *)
Definition echo : reflect_Method (EL := SimpleErrors) (G := TypedGob) nat :=
  {| m_Name := "Echo"; m_PkgPath := "";
     m_In := [TStruct "S"; typeOfContext; TBasic "string"; TPtr (TBasic "string")];
     m_Out := [typeOfError];
     m_Call := fun (a : margv (EL := SimpleErrors) (G := TypedGob)) (r : mreplyv (EL := SimpleErrors) (G := TypedGob)) st =>
                 (Returned None,
                  match a with
                  | ArgValue v => ReplyValue (G := TypedGob) (TPtr (TBasic "string"), snd (A := GoType) (B := string) v)
                  | _ => r
                  end, S st) |}.

Example checked_echo :
  w_body (sv_writer (ServeHTTP (register_many (checked_regs (R := TypedGob_laws) [("S", [echo])]))
    (new_writer None http1)
    {| r_Method := "POST"; r_URL_Path := "/bigrpc/S.Echo"; r_ContentType := ""; r_Body := buffer "hi" |} 0%nat)) = "hi".
Proof. reflexivity. Qed.
End Samples.
