(* ===== verification/RpcClient.v ===== *)
(** rpc/client.go and rpc/fault_injector.go: the client side of a call, the
    per-address HTTP clients it keeps, and the reader of reply streams.

    The HTTP transport (ctxhttp.Post) is a parameter: what it answers may
    depend on and change a world [W].  A call whose reply is a value or an error
    is modelled for responses whose end arrives; a reader of a stream may block.
    Logging, which does not change what a call does, is not modelled. *)
From S2P Require Import Prelude Errors GoStrings Wire RpcServer.
From Stdlib Require Import QArith Qround.
Local Open Scope string_scope.
Local Open Scope list_scope.
Local Open Scope Z_scope.

(** ** HTTP clients per address *)

(** clientState: the address and, once [once] has run, the http.Client
    (named by a number, the clients the factory made being numbered in order). *)
Record clientState := { addr : string; cached : option nat }.

(** Client: the URL prefix, the map of current states (by index in [states],
    which stands for the heap they are allocated in), the number of clients
    the factory has made, and those whose idle connections were closed. *)
Record Client := {
  prefix : string;
  clients : gmap string nat;
  states : list clientState;
  made : nat;
  idle_closed : list nat
}.

Definition NewClient (p : string) : Client :=
  {| prefix := p; clients := ∅; states := []; made := 0; idle_closed := [] |}.

(** Client.getClient *)
Definition getClient (a : string) (c : Client) : nat * Client :=
  match clients c !! a with
  | Some h => (h, c)
  | None =>
      let h := length (states c) in
      (h, {| prefix := prefix c; clients := <[a := h]> (clients c);
             states := states c ++ [{| addr := a; cached := None |}];
             made := made c; idle_closed := idle_closed c |})
  end.

(** clientState.Client: the factory is called by the first caller only. *)
Definition state_Client (h : nat) (c : Client) : option nat * Client :=
  match states c !! h with
  | None => (None, c)
  | Some s =>
      match cached s with
      | Some hc => (Some hc, c)
      | None =>
          (Some (made c),
           {| prefix := prefix c; clients := clients c;
              states := <[h := {| addr := addr s; cached := Some (made c) |}]> (states c);
              made := S (made c); idle_closed := idle_closed c |})
      end
  end.

(** Client.updateClientState; [failed] tells whether the call's error is
    non-nil. *)
Definition updateClientState (h : nat) (failed : bool) (c : Client) : Client :=
  match states c !! h with
  | None => c
  | Some s =>
      let cl := if decide (failed = true /\ clients c !! addr s = Some h)
                then delete (addr s) (clients c) else clients c in
      {| prefix := prefix c; clients := cl; states := states c; made := made c;
         idle_closed := if decide (cl !! addr s <> Some h)
                        then idle_closed c ++ option_list (cached s) else idle_closed c |}
  end.

(** ** The fault injector *)

Section fault_injector.
Context {EL : ErrorsLib}.

(** rpcFaultInjector: [fi_in] is nil once an error was injected. *)
Record rpcFaultInjector := { label : string; fi_in : option (stream error); fi_err : option error }.

Definition drop_error (l : string) : error :=
  E [AKind Net; ASev Retriable; AMsg (l +:+ ": test-induced message drop")].
Definition truncation_error (l : string) : error :=
  E [AKind Net; ASev Retriable; AMsg (l +:+ ": test-induced message truncation")].

(** rpcFaultInjector.error *)
Definition fi_error (e : error) (r : rpcFaultInjector) : rpcFaultInjector :=
  {| label := label r; fi_in := None; fi_err := Some e |}.

(** rpcFaultInjector.Read, with the two random numbers it may draw. *)
Definition fi_Read (x y : Q) (r : rpcFaultInjector) : (string * rerr error) * rpcFaultInjector :=
  match fi_in r with
  | None => (("", match fi_err r with Some e => EErr e | None => ENil end), r)
  | Some s =>
      if Qlt_le_dec x (5 # 1000) then
        let e := drop_error (label r) in (("", EErr e), fi_error e r)
      else
        let '((p, err), s) := body_Read s in
        let r := {| label := label r; fi_in := Some s; fi_err := fi_err r |} in
        if Qlt_le_dec x (1 # 100) then
          let nn := Z.to_nat (Qfloor (inject_Z (Z.of_nat (String.length p)) * y)) in
          let e := truncation_error (label r) in
          ((String.substring 0 nn p, EErr e), fi_error e r)
        else ((p, err), r)
  end.

(** The stream a reader of the injector sees, one pair of random numbers per
    Read; more Reads than [draws] covers pass through. *)
Fixpoint inject (draws : list (Q * Q)) (r : rpcFaultInjector) : stream error :=
  match draws with
  | [] =>
      match fi_in r with
      | Some s => s
      | None => {| st_chunks := []; st_end := fi_err r |}
      end
  | (x, y) :: draws =>
      let '((p, err), r) := fi_Read x y r in
      match err with
      | ENil => let s := inject draws r in {| st_chunks := p :: st_chunks s; st_end := st_end s |}
      | EOF => {| st_chunks := [p]; st_end := None |}
      | EErr e => {| st_chunks := [p]; st_end := Some e |}
      end
  end.
End fault_injector.

(** ** Calls *)

Section client.
Context {EL : ErrorsLib} {G : Gob} {W : Type}.

(** ctxhttp.Post, with the address of the HTTP client used: the URL, the
    content type and the body, and what it answers. *)
Variable Post : nat -> string -> string -> stream error -> W -> result error (response error) * W.

(** The random numbers of the fault injector, if InjectFailures is set. *)
Variable InjectFailures : option (list (Q * Q)).

(** The arg and reply parameters of Call, by the cases of the type switches. *)
Inductive call_arg :=
| ArgFunc (f : unit -> stream error)
| ArgReader (r : stream error)
| ArgAny (v : gval).
Inductive call_reply := ReplyReadCloser | ReplyAny (p : gval).

(** What a call leaves: the error, the stream stored through the
    *io.ReadCloser, the value the reply pointer points to, and the sizes for
    the statistics. *)
Record called := {
  ca_err : option error;
  ca_stream : option (response error);
  ca_reply : option gval;
  ca_requestBytes : Z;
  ca_replyBytes : Z
}.

Definition failed_call (e : error) (req rep : Z) (p : option gval) : called :=
  {| ca_err := Some e; ca_stream := None; ca_reply := p;
     ca_requestBytes := req; ca_replyBytes := rep |}.

(** The type switch on arg: body, content type and size. *)
Definition encode_arg (a : call_arg) : result error (stream error * string * Z) :=
  match a with
  | ArgFunc f => Ok (f tt, "application/octet-stream", -1)
  | ArgReader r => Ok (r, "application/octet-stream", -1)
  | ArgAny v =>
      match Encode (SVal v) with
      | Err e => Err (E [ASev Fatal; AKind Invalid; AErr e])
      | Ok b => Ok (buffer b, gobContentType, Z.of_nat (String.length b))
      end
  end.

(** decodeError *)
Definition decodeError (serviceMethod : string) (body : stream error) : error :=
  match DecodeError body with
  | Err e =>
      E [AKind Invalid; ASev Temporary;
         AMsg ("error while decoding error for " +:+ serviceMethod); AErr e]
  | Ok e => E [AKind Remote; AErr e]
  end.

(** fmt's %v of an error that may be nil. *)
Definition sprint_err (e : option error) : string :=
  match e with Some e => Error e | None => "<nil>" end.

(** The errors for the other status codes. *)
Definition status_error (url : string) (r : response error) : error :=
  let '(body, err) := ReadAll (resp_Body r) in
  let what := if decide (400 <= StatusCode r /\ StatusCode r < 500)
              then ": client error " else ": bad reply status " in
  E [ASev Fatal; AKind Invalid;
     AMsg (url +:+ what +:+ Status r +:+ ", " +:+ body +:+ ", " +:+ sprint_err err)].

(** The type switch on reply. *)
Definition handle_response (url serviceMethod : string) (rp : call_reply) (req : Z)
    (r : response error) : called :=
  match rp with
  | ReplyReadCloser =>
      if decide (StatusCode r = 200) then
        {| ca_err := None; ca_stream := Some r; ca_reply := None;
           ca_requestBytes := req; ca_replyBytes := -1 |}
      else if decide (StatusCode r = methodErrorCode) then
        failed_call (decodeError serviceMethod (resp_Body r)) req (-1) None
      else failed_call (status_error url r) req (-1) None
  | ReplyAny p =>
      if decide (StatusCode r = methodErrorCode) then
        failed_call (decodeError serviceMethod (resp_Body r)) req (-1) (Some p)
      else if decide (StatusCode r = 200) then
        let '(v, err, n) := Decode p (resp_Body r) in
        match err with
        | Some e =>
            failed_call (E [AKind Invalid; ASev Temporary;
              AMsg ("error while decoding reply for " +:+ serviceMethod); AErr e]) req n (Some v)
        | None =>
            {| ca_err := None; ca_stream := None; ca_reply := Some v;
               ca_requestBytes := req; ca_replyBytes := n |}
        end
      else failed_call (status_error url r) req (-1) (Some p)
  end.

(** The response body behind the fault injector. *)
Definition injected (serviceMethod a : string) (r : response error) : response error :=
  match InjectFailures with
  | None => r
  | Some draws =>
      {| StatusCode := StatusCode r; Status := Status r; Trailer := Trailer r; resp_ends := resp_ends r;
         resp_Body := inject draws
           {| label := serviceMethod +:+ "(" +:+ a +:+ ")"; fi_in := Some (resp_Body r);
              fi_err := None |} |}
  end.

(** What the reply pointer held before the call. *)
Definition reply_before (rp : call_reply) : option gval :=
  match rp with ReplyReadCloser => None | ReplyAny p => Some p end.

(** Client.Call *)
Definition Call (a serviceMethod : string) (arg : call_arg) (rp : call_reply)
    (c : Client) (w : W) : called * Client * W :=
  let url := TrimRight a SLASH +:+ prefix c +:+ serviceMethod in
  match encode_arg arg with
  | Err e => (failed_call e (-1) (-1) (reply_before rp), c, w)
  | Ok (body, contentType, requestBytes) =>
      let '(h, c) := getClient a c in
      let '(hc, c) := state_Client h c in
      let '(resp, w) := Post (default 0%nat hc) url contentType body w in
      let res :=
        match resp with
        | Err e =>
            if decide (e = DeadlineExceeded \/ e = Canceled)
            then failed_call e requestBytes (-1) (reply_before rp)
            else failed_call (E [AKind Net; ASev Temporary; AErr e]) requestBytes (-1) (reply_before rp)
        | Ok r => handle_response url serviceMethod rp requestBytes (injected serviceMethod a r)
        end in
      (res, updateClientState h (bool_decide (ca_err res <> None)) c, w)
  end.

(** streamReader.Read; [None] is a read that blocks: all data was read, and the
    end of the response does not arrive. *)
Definition streamReader_Read (r : response error) : option ((string * rerr error) * response error) :=
  let '((p, err), body) := body_Read (resp_Body r) in
  let r := {| StatusCode := StatusCode r; Status := Status r; resp_Body := body;
              Trailer := Trailer r; resp_ends := resp_ends r |} in
  match err with
  | EOF =>
      if resp_ends r then
        let e := header_get (Trailer r) bigmachineErrorTrailer in
        Some ((p, if decide (e <> "") then EErr (New e) else EOF), r)
      else None
  | _ => Some ((p, err), r)
  end.

(** Reading a stream to its end: the data and the error that ended it; [None]
    when that takes more than [fuel] reads, or a read blocks. *)
Fixpoint read_stream (fuel : nat) (r : response error) : option (string * option error) :=
  match fuel with
  | O => None
  | S f =>
      match streamReader_Read r with
      | None => None
      | Some ((p, err), r) =>
          match err with
          | ENil => prod_map (fun rest => p +:+ rest) id <$> read_stream f r
          | EOF => Some (p, None)
          | EErr e => Some (p, Some e)
          end
      end
  end.
End client.

(** ** Errors of a call *)

Section call_theorems.
Context {EL : ErrorsLib} {G : Gob} {W : Type} {EL_laws : ErrorsLaws EL}.
Variable Post : nat -> string -> string -> stream error -> W -> result error (response error) * W.
Variable InjectFailures : option (list (Q * Q)).

Lemma Is_Net_E args k :
  arg_kind args = Some k -> k <> Other -> k <> Net -> Is Net (E args) = false.
Proof.
  intros Hk H1 H2. rewrite (Is_E args k Net Hk H1). by apply bool_decide_eq_false_2.
Qed.

Lemma decodeError_not_Net sm body : Is Net (decodeError sm body) = false.
Proof. unfold decodeError. by destruct (DecodeError body); eapply Is_Net_E. Qed.

Lemma status_error_not_Net url r : Is Net (status_error url r) = false.
Proof. unfold status_error. destruct (ReadAll _). by eapply Is_Net_E. Qed.

(** No reply of the server is turned into an error of kind Net. *)
Lemma handle_response_not_Net url sm rp req r e :
  ca_err (handle_response url sm rp req r) = Some e -> Is Net e = false.
Proof.
  unfold handle_response. intros H. destruct rp; repeat case_decide;
    try destruct (Decode _ _) as [[v [e'|]] n]; simplify_eq/=;
    auto using decodeError_not_Net, status_error_not_Net.
  by eapply Is_Net_E.
Qed.

(** Errors of kind Net come from the connection, never from the
    application.  Whatever the server answers - also a method error that was
    itself of kind Net, and also under injected faults - the error of a call is
    of kind Net exactly when the HTTP request itself failed for a reason other
    than the caller's context. *)
Lemma Call_net_errors a sm arg rp c w res c' w' e :
  Call Post InjectFailures a sm arg rp c w = (res, c', w') -> ca_err res = Some e ->
  (forall x, Is Net (E [AKind Net; ASev Temporary; AErr x]) = true) /\
  (Is Net e = true <->
     exists hc ct body e0,
       (Post hc (TrimRight a SLASH +:+ prefix c +:+ sm) ct body w).1 = Err e0 /\
       e0 <> DeadlineExceeded /\ e0 <> Canceled /\
       e = E [AKind Net; ASev Temporary; AErr e0]).
Proof.
  intros Hcall He.
  assert (HNet : forall x, Is Net (E [AKind Net; ASev Temporary; AErr x]) = true).
  { intros x. rewrite (Is_E _ Net Net) by done. by apply bool_decide_eq_true_2. }
  split; [done|]. split; [|by intros (hc & ct & body & e0 & _ & _ & _ & ->)].
  intros Hnet. unfold Call in Hcall.
  destruct (encode_arg arg) as [[[body ct] req]|e1] eqn:Harg.
  - destruct (getClient a c) as [h c1] eqn:Hg, (state_Client h c1) as [hc c2].
    assert (Hp : prefix c1 = prefix c)
      by (unfold getClient in Hg; destruct (clients c !! a); by simplify_eq).
    destruct (Post _ _ _ _ w) as [[r|e0] w1] eqn:HP; simplify_eq.
    + by rewrite (handle_response_not_Net _ _ _ _ _ _ He) in Hnet.
    + case_decide as Hctx; simplify_eq/=.
      * destruct Hctx as [->| ->]; by rewrite ?Is_Net_Canceled, ?Is_Net_DeadlineExceeded in Hnet.
      * exists (default 0%nat hc), ct, body, e0. rewrite HP. repeat split; auto; tauto.
  - unfold encode_arg in Harg. destruct arg; simplify_eq.
    destruct (Encode (SVal v)); simplify_eq/=. by rewrite (Is_Net_E _ Invalid) in Hnet.
Qed.
End call_theorems.

(** ** Reply streams *)

Section streams.
Context {EL : ErrorsLib}.

(** How reading a reply stream ends: the error of the connection, if any, and
    otherwise the error in the trailer. *)
Definition stream_end (r : response error) : option error :=
  match st_end (resp_Body r) with
  | Some e => Some e
  | None =>
      let e := header_get (Trailer r) bigmachineErrorTrailer in
      if decide (e <> "") then Some (New e) else None
  end.

Lemma read_stream_cons f code st p chunks en tr ends :
  read_stream (S f) {| StatusCode := code; Status := st; Trailer := tr; resp_ends := ends;
                       resp_Body := {| st_chunks := p :: chunks; st_end := en |} |} =
    prod_map (fun rest => p +:+ rest) id <$>
      read_stream f {| StatusCode := code; Status := st; Trailer := tr; resp_ends := ends;
                       resp_Body := {| st_chunks := chunks; st_end := en |} |}.
Proof. done. Qed.

(** A stream whose end does not arrive: neither the end of the response nor an
    error of the connection. *)
Definition endless (r : response error) : bool :=
  match st_end (resp_Body r) with Some _ => false | None => negb (resp_ends r) end.

Lemma read_stream_spec r :
  read_stream (S (length (st_chunks (resp_Body r)))) r =
    if endless r then None else Some (st_bytes (resp_Body r), stream_end r).
Proof.
  destruct r as [code st [chunks en] tr ends]. cbn [resp_Body st_chunks]. unfold endless. simpl st_end.
  induction chunks as [|p chunks IH].
  - simpl. unfold streamReader_Read, stream_end, body_Read. simpl.
    destruct en; simpl; [done|]. destruct ends; simpl; [by case_decide|done].
  - cbn [length]. rewrite read_stream_cons, IH. by destruct en, ends.
Qed.

(** A stream whose end arrives is read in a bounded number of reads. *)
Lemma read_stream_total r :
  resp_ends r = true ->
  read_stream (S (length (st_chunks (resp_Body r)))) r =
    Some (st_bytes (resp_Body r), stream_end r).
Proof. intros He. rewrite read_stream_spec. unfold endless. rewrite He. by destruct (st_end _). Qed.

(** One whose end does not arrive is never read to its end. *)
Lemma read_stream_never f r : endless r = true -> read_stream f r = None.
Proof.
  destruct r as [code st [chunks en] tr ends]. unfold endless. simpl. destruct en; [done|]. destruct ends; [done|].
  intros _. revert chunks. induction f as [|f IH]; intros chunks; [done|].
  destruct chunks as [|p chunks]; [done|]. by rewrite read_stream_cons, IH.
Qed.

Lemma read_stream_blocks f r :
  resp_ends r = false -> st_end (resp_Body r) = None -> read_stream f r = None.
Proof. intros He Hb. apply read_stream_never. unfold endless. by rewrite Hb, He. Qed.

Lemma substring_prefix n s : exists rest, s = String.substring 0 n s +:+ rest.
Proof.
  revert n. induction s as [|a s IH]; intros [|n]; [by exists ""|by exists ""|by exists (String a s)|].
  destruct (IH n) as [rest IHn]. exists rest. cbn. by rewrite IHn at 1.
Qed.

(** What faults may do to a reply.  However the random numbers fall, the
    reader behind the fault injector sees either the stream as it is, or a
    prefix of its bytes followed by one of the two injected errors; bytes are
    never changed, reordered or invented, and a stream that was cut never ends
    in io.EOF. *)
Theorem inject_prefix draws l s :
  let s' := inject draws {| label := l; fi_in := Some s; fi_err := None |} in
  (st_bytes s' = st_bytes s /\ st_end s' = st_end s) \/
  (exists e rest, st_end s' = Some e /\ (e = drop_error l \/ e = truncation_error l) /\
     st_bytes s = st_bytes s' +:+ rest).
Proof.
  cbn zeta. revert s. induction draws as [|[x y] draws IH]; intros s; [by left|].
  cbn [inject]. unfold fi_Read. cbn [fi_in].
  destruct (Qlt_le_dec x (5 # 1000)) as [Hx|Hx].
  - right. cbn. exists (drop_error l), (st_bytes s). auto.
  - destruct s as [[|p chunks] en]; unfold body_Read; cbn [st_chunks st_end].
    + destruct (Qlt_le_dec x (1 # 100)) as [Hx'|Hx']; cbn.
      * right. exists (truncation_error l), "".
        split; [done|]. split; [by right|]. by destruct (Z.to_nat _).
      * left. by destruct en.
    + destruct (Qlt_le_dec x (1 # 100)) as [Hx'|Hx']; cbn -[String.substring].
      * right. set (nn := Z.to_nat _). destruct (substring_prefix nn p) as [rest Hr].
        exists (truncation_error l), (rest +:+ st_bytes {| st_chunks := chunks; st_end := en |}).
        split; [done|]. split; [by right|]. unfold st_bytes. cbn [st_chunks foldr].
        rewrite sapp_nil_r, <- sapp_assoc, <- Hr. done.
      * destruct (IH {| st_chunks := chunks; st_end := en |}) as [[H1 H2]|(e & rest & H1 & H2 & H3)].
        -- left. cbn. split; [|done]. unfold st_bytes in *. cbn [st_chunks foldr] in *.
           by rewrite H1.
        -- right. exists e, rest. split; [done|]. split; [done|].
           unfold st_bytes in *. cbn [st_chunks foldr] in *. rewrite H3, sapp_assoc. done.
Qed.
End streams.

(** ** Sample transports *)

Module Samples.

(** A connection that is refused. *)
Definition refused (hc : nat) (url ct : string) (body : stream serror) (w : nat) :
    result serror (response serror) * nat :=
  (Err (SOther "connection refused"), S w).

Definition arg_x : call_arg (EL := SimpleErrors) (G := SimpleGob) := ArgAny (SStr "x").
Definition reply_x : call_reply (EL := SimpleErrors) (G := SimpleGob) := ReplyAny (SPtr (SStr "")).

End Samples.
