(* ===== verification/RpcPool.v ===== *)
(** The HTTP clients of an rpc Client under concurrent calls: every call takes
    the state of its address (getClient), asks it for its http.Client and, when
    it ends, reports its error (updateClientState); calls interleave between
    these steps in any order. *)
From S2P Require Import Prelude RpcClient.

(** Where a calling goroutine is. *)
Inductive phase :=
| Idle
| Got (h : nat)
| Ready (h : nat) (hc : nat).

Record cfg := { client : Client; thread : nat -> phase; bad : gset nat }.

Definition start (p : string) : cfg :=
  {| client := NewClient p; thread := fun _ => Idle; bad := ∅ |}.

Definition set_thread (t : nat) (p : phase) (th : nat -> phase) : nat -> phase :=
  fun t' => if decide (t' = t) then p else th t'.

(** One atomic step of one call.  [bad] records the states a call failed on. *)
Inductive step : cfg -> cfg -> Prop :=
| step_get t a c h c' :
    thread c t = Idle -> getClient a (client c) = (h, c') ->
    step c {| client := c'; thread := set_thread t (Got h) (thread c); bad := bad c |}
| step_client t h hc c c' :
    thread c t = Got h -> state_Client h (client c) = (Some hc, c') ->
    step c {| client := c'; thread := set_thread t (Ready h hc) (thread c); bad := bad c |}
| step_update t h hc failed c :
    thread c t = Ready h hc ->
    step c {| client := updateClientState h failed (client c);
              thread := set_thread t Idle (thread c);
              bad := if failed then {[ h ]} ∪ bad c else bad c |}.

(** The http.Client of a state. *)
Definition http_of (c : Client) (h : nat) : option nat := states c !! h ≫= cached.

(** A state is current if the map leads to it. *)
Definition current (c : Client) (h : nat) : Prop := exists a, clients c !! a = Some h.

(** ** The invariant *)

Record inv (c : cfg) : Prop := {
  inv_addr : forall a h, clients (client c) !! a = Some h ->
    exists s, states (client c) !! h = Some s /\ addr s = a;
  inv_thread : forall t,
    match thread c t with
    | Idle => True
    | Got h => is_Some (states (client c) !! h)
    | Ready h hc => http_of (client c) h = Some hc
    end;
  inv_made : forall h hc, http_of (client c) h = Some hc -> hc < made (client c);
  inv_inj : forall h h' hc, http_of (client c) h = Some hc ->
    http_of (client c) h' = Some hc -> h = h';
  inv_closed : forall hc, hc ∈ idle_closed (client c) ->
    exists h, http_of (client c) h = Some hc /\ ~ current (client c) h;
  inv_bad : forall h, h ∈ bad c -> is_Some (states (client c) !! h) /\ ~ current (client c) h
}.

Lemma current_unique c h a s :
  inv c -> states (client c) !! h = Some s -> clients (client c) !! a = Some h -> addr s = a.
Proof.
  intros Hi Hs Ha. destruct (inv_addr c Hi a h Ha) as (s' & Hs' & <-). congruence.
Qed.

Lemma inv_start p : inv (start p).
Proof.
  split; simpl; try done; set_solver.
Qed.

(** ** Steps preserve the invariant *)

Lemma getClient_cases a c h c' :
  getClient a c = (h, c') ->
  (clients c !! a = Some h /\ c' = c) \/
  (clients c !! a = None /\ h = length (states c) /\
   clients c' = <[a := h]> (clients c) /\
   states c' = states c ++ [{| addr := a; cached := None |}] /\
   made c' = made c /\ idle_closed c' = idle_closed c).
Proof.
  unfold getClient. destruct (clients c !! a) eqn:Ha; intros [= <- <-]; [by left|by right].
Qed.

Lemma http_of_new c h a :
  states c !! h ≫= cached = (states c ++ [{| addr := a; cached := None |}]) !! h ≫= cached.
Proof.
  destruct (decide (h < length (states c))).
  - by rewrite lookup_app_l.
  - rewrite lookup_app_r, (lookup_ge_None_2 (states c)) by lia.
    destruct (h - length (states c)) eqn:Hn; simpl; [done|]. by destruct n0.
Qed.

Lemma step_get_inv t a c h c' :
  inv c -> thread c t = Idle -> getClient a (client c) = (h, c') ->
  inv {| client := c'; thread := set_thread t (Got h) (thread c); bad := bad c |}.
Proof.
  intros Hi Ht Hg. destruct (getClient_cases _ _ _ _ Hg) as [[Ha ->]|(Ha & -> & Hc & Hs & Hm & Hic)].
  - destruct Hi as [H1 H2 H3 H4 H5 H6]. split; simpl; try done.
    intros t'. unfold set_thread. case_decide; [|apply H2].
    destruct (H1 a h Ha) as (s & Hs & _). by eexists.
  - assert (Hh : forall h, http_of c' h = http_of (client c) h).
    { intros h. unfold http_of. rewrite Hs. by rewrite <- http_of_new. }
    assert (Hst : forall h s, states (client c) !! h = Some s -> states c' !! h = Some s).
    { intros h s H. rewrite Hs. by apply lookup_app_l_Some. }
    assert (Hcur : forall h, current c' h -> current (client c) h \/ h = length (states (client c))).
    { intros h [b Hb]. rewrite Hc in Hb. apply lookup_insert_Some in Hb as [[_ <-]|[_ Hb]];
        [by right|left; by exists b]. }
    destruct Hi as [H1 H2 H3 H4 H5 H6]. split; cbn [client thread bad].
    + intros b h. rewrite Hc. intros [[<- <-]|[_ Hb]]%lookup_insert_Some.
      * exists {| addr := a; cached := None |}. split; [|done].
        rewrite Hs. by apply list_lookup_middle.
      * destruct (H1 b h Hb) as (s & Hs' & Ha'). eauto.
    + intros t'. unfold set_thread. case_decide.
      * rewrite Hs. eexists. by apply list_lookup_middle.
      * specialize (H2 t'). destruct (thread c t'); [done| |by rewrite Hh].
        destruct H2 as [s Hs']. eauto.
    + intros h hc. rewrite Hh, Hm. eauto.
    + intros h h' hc. rewrite !Hh. eauto.
    + intros hc. rewrite Hic. intros Hin. destruct (H5 hc Hin) as (h & Hh' & Hn).
      exists h. rewrite Hh. split; [done|]. intros [Hcu| ->]%Hcur; [done|].
      unfold http_of in Hh'. by rewrite lookup_ge_None_2 in Hh'.
    + intros h Hb. destruct (H6 h Hb) as [[s Hs'] Hn]. split; [eauto|].
      intros [Hcu| ->]%Hcur; [done|]. by rewrite lookup_ge_None_2 in Hs'.
Qed.

Lemma step_client_inv t h hc c c' :
  inv c -> thread c t = Got h -> state_Client h (client c) = (Some hc, c') ->
  inv {| client := c'; thread := set_thread t (Ready h hc) (thread c); bad := bad c |}.
Proof.
  intros Hi Ht Hg. unfold state_Client in Hg.
  destruct (states (client c) !! h) as [s|] eqn:Hs; [|done].
  destruct (cached s) as [hc0|] eqn:Hcs; injection Hg as <- <-.
  - destruct Hi as [H1 H2 H3 H4 H5 H6]. split; simpl; try done.
    intros t'. unfold set_thread. case_decide; [|apply H2].
    unfold http_of. by rewrite Hs.
  - set (s' := {| addr := addr s; cached := Some (made (client c)) |}).
    assert (Hlt : h < length (states (client c))) by by eapply lookup_lt_Some.
    assert (Hh : forall h' hc', <[h := s']> (states (client c)) !! h' ≫= cached = Some hc' ->
        (h' = h /\ hc' = made (client c)) \/ (h' <> h /\ http_of (client c) h' = Some hc')).
    { intros h' hc' H. destruct (decide (h' = h)) as [->|Hne].
      - left. rewrite list_lookup_insert_eq in H by done. by simplify_eq/=.
      - right. split; [done|]. rewrite list_lookup_insert_ne in H by done. done. }
    assert (Hnew : http_of (client c) h = None) by (unfold http_of; by rewrite Hs).
    assert (Hold : forall h' hc', http_of (client c) h' = Some hc' ->
        <[h := s']> (states (client c)) !! h' ≫= cached = Some hc').
    { intros h' hc' H. rewrite list_lookup_insert_ne; [done|]. intros <-. congruence. }
    destruct Hi as [H1 H2 H3 H4 H5 H6].
    split; unfold http_of, current; cbn [client thread bad clients states made idle_closed].
    + intros b h' Hb. destruct (H1 b h' Hb) as (s0 & Hs0 & Hb0).
      destruct (decide (h' = h)) as [->|Hne].
      * exists s'. rewrite list_lookup_insert_eq by done. split; [done|]. simpl. congruence.
      * exists s0. by rewrite list_lookup_insert_ne by done.
    + intros t'. unfold set_thread. case_decide.
      * by rewrite list_lookup_insert_eq.
      * specialize (H2 t'). destruct (thread c t'); [done| |by apply Hold].
        apply lookup_lt_is_Some. rewrite length_insert. by apply lookup_lt_is_Some.
    + intros h' hc' [[_ ->]|[_ H]]%Hh; [lia|]. apply H3 in H. lia.
    + intros h1 h2 hc' [[-> ->]|[Hn1 E1]]%Hh [[-> E]|[Hn2 E2]]%Hh; [done| | |by eapply H4].
      * apply H3 in E2. lia.
      * subst. apply H3 in E1. lia.
    + intros hc' Hin. destruct (H5 hc' Hin) as (h' & Hh' & Hn). exists h'. split; [by apply Hold|done].
    + intros h' Hb. destruct (H6 h' Hb) as [Hst Hn]. split; [|done].
      apply lookup_lt_is_Some. rewrite length_insert. by apply lookup_lt_is_Some.
Qed.

Lemma updateClientState_cases h failed c s :
  states c !! h = Some s ->
  let c' := updateClientState h failed c in
  states c' = states c /\ made c' = made c /\
  clients c' = (if decide (failed = true /\ clients c !! addr s = Some h)
                then delete (addr s) (clients c) else clients c) /\
  idle_closed c' = (if decide (clients c' !! addr s <> Some h)
                    then idle_closed c ++ option_list (cached s) else idle_closed c).
Proof. intros Hs c'. unfold c', updateClientState. rewrite Hs. auto. Qed.

Lemma step_update_inv t h hc failed c :
  inv c -> thread c t = Ready h hc ->
  inv {| client := updateClientState h failed (client c); thread := set_thread t Idle (thread c);
         bad := if failed then {[ h ]} ∪ bad c else bad c |}.
Proof.
  intros Hi Ht. pose proof (inv_thread c Hi t) as Hh. rewrite Ht in Hh.
  unfold http_of in Hh. destruct (states (client c) !! h) as [s|] eqn:Hs; [|done]. simpl in Hh.
  destruct (updateClientState_cases h failed (client c) s Hs) as (Hst & Hm & Hc & Hic).
  set (c' := updateClientState h failed (client c)) in *.
  assert (Hsub : forall a h', clients c' !! a = Some h' -> clients (client c) !! a = Some h').
  { intros a h'. rewrite Hc. clear Hic Hc. case_decide; [|auto]. by intros [_ Hx]%lookup_delete_Some. }
  assert (Hhttp : forall h', http_of c' h' = http_of (client c) h')
    by (intros h'; unfold http_of; by rewrite Hst).
  assert (Hcur : forall h', current c' h' -> current (client c) h')
    by (intros h' [a Ha]; exists a; by apply Hsub).
  assert (Hgone : clients c' !! addr s <> Some h -> ~ current c' h).
  { intros Hne [a Ha]. apply Hne. rewrite <- (current_unique c h a s Hi Hs) in Ha; auto. }
  assert (Hfail : failed = true -> clients c' !! addr s <> Some h).
  { intros ->. rewrite Hc. clear Hic Hc. case_decide as Hd; [by rewrite lookup_delete_eq|]. naive_solver. }
  destruct Hi as [H1 H2 H3 H4 H5 H6]. split; cbn [client thread bad].
  - intros a h' Ha. rewrite Hst. apply H1, Hsub, Ha.
  - intros t'. unfold set_thread. destruct (decide (t' = t)); [done|]. specialize (H2 t').
    destruct (thread c t'); [done|by rewrite Hst|by rewrite Hhttp].
  - intros h' hc'. rewrite Hhttp, Hm. eauto.
  - intros h' h'' hc'. rewrite !Hhttp. eauto.
  - intros hc' Hin. rewrite Hic in Hin.
    assert (Hcase : (hc' ∈ idle_closed (client c)) \/
              (hc' = hc /\ clients c' !! addr s <> Some h)).
    { clear Hic Hc. case_decide; [|by left]. apply elem_of_app in Hin as [Hin|Hin]; [by left|right].
      rewrite Hh in Hin. simpl in Hin. split; [set_solver|done]. }
    destruct Hcase as [Hin'|[-> Hne]].
    + destruct (H5 hc' Hin') as (h' & Hh' & Hn). exists h'. rewrite Hhttp. eauto.
    + exists h. rewrite Hhttp. split; [by unfold http_of; rewrite Hs|by apply Hgone].
  - intros h' Hb. rewrite Hst.
    assert (Hcase : (h' ∈ bad c) \/ (failed = true /\ h' = h)) by (destruct failed; set_solver).
    destruct Hcase as [Hb'|[Hf ->]].
    + destruct (H6 h' Hb') as [Hsome Hn]. eauto.
    + split; [by eexists|auto].
Qed.

Lemma step_inv c c' : step c c' -> inv c -> inv c'.
Proof.
  intros Hstep Hi. destruct Hstep.
  - by eapply step_get_inv.
  - by eapply step_client_inv.
  - by eapply step_update_inv.
Qed.

Lemma reachable_inv p c : rtc step (start p) c -> inv c.
Proof.
  intros Hr. eapply (rtc_invariant step inv); [|apply inv_start|exact Hr].
  intros x y Hxy Hx. by eapply step_inv.
Qed.

(** The http.Client of a state never changes once it is made. *)
Lemma step_http c c' h hc :
  inv c -> step c c' -> http_of (client c) h = Some hc -> http_of (client c') h = Some hc.
Proof.
  intros Hi Hstep Hh. destruct Hstep as [t a c h' c' Ht Hg|t h' hc' c c' Ht Hg|t h' hc' failed c Ht];
    cbn [client].
  - destruct (getClient_cases _ _ _ _ Hg) as [[_ ->]|(_ & _ & _ & Hs & _)]; [done|].
    unfold http_of in *. rewrite Hs. by rewrite <- http_of_new.
  - unfold state_Client in Hg. destruct (states (client c) !! h') as [s|] eqn:Hs; [|done].
    destruct (cached s) eqn:Hcs; injection Hg as <- <-; [done|]. unfold http_of in *. cbn [states].
    rewrite list_lookup_insert_ne; [done|]. intros ->. by rewrite Hs in Hh; simplify_eq/=.
  - unfold http_of, updateClientState in *. by destruct (states (client c) !! h').
Qed.

(** C14. Resetting connections.  In every interleaving of calls: a state on
    which some call failed is never the current one of its address again, so
    every later call there gets a freshly made http.Client; idle connections
    are closed only on clients that are no longer current, so a connection that
    new calls would use is not torn down; a state stops being current only
    because a call that used this very state failed, not because of a late
    failure of a call on an older one; and the factory's client for a state
    never changes. *)
Theorem reset_discipline p c c' :
  rtc step (start p) c -> step c c' ->
  (forall h, h ∈ bad c' -> ~ current (client c') h) /\
  (forall hc, hc ∈ idle_closed (client c') ->
     exists h, http_of (client c') h = Some hc /\ ~ current (client c') h) /\
  (forall h, current (client c) h -> ~ current (client c') h ->
     exists t hc, thread c t = Ready h hc /\ (h ∈ bad c')) /\
  (forall h hc, http_of (client c) h = Some hc -> http_of (client c') h = Some hc).
Proof.
  intros Hr Hstep. pose proof (reachable_inv p c Hr) as Hi.
  pose proof (step_inv c c' Hstep Hi) as Hi'.
  split; [intros h Hb; by apply (inv_bad c' Hi')|].
  split; [by apply (inv_closed c' Hi')|]. split; [|intros h hc; by apply (step_http c c')].
  intros h [a Ha] Hn.
  destruct Hstep as [t b c h' c' Ht Hg|t h' hc' c c' Ht Hg|t h' hc' failed c Ht]; cbn [client] in *.
  - destruct Hn. exists a. destruct (getClient_cases _ _ _ _ Hg) as [[_ ->]|(Hb & _ & -> & _)]; [done|].
    rewrite lookup_insert_ne; [done|]. congruence.
  - destruct Hn. exists a. unfold state_Client in Hg.
    destruct (states (client c) !! h') as [s|]; [|done].
    destruct (cached s); injection Hg as <- <-; done.
  - pose proof (inv_thread c Hi t) as Hh. rewrite Ht in Hh. unfold http_of in Hh.
    destruct (states (client c) !! h') as [s|] eqn:Hs; [|done].
    destruct (updateClientState_cases h' failed (client c) s Hs) as (_ & _ & Hc & _).
    case_decide as Hd.
    + destruct Hd as [-> Hd]. destruct (decide (a = addr s)) as [->|Hne].
      * rewrite Ha in Hd. injection Hd as ->. exists t, hc'. split; [done|]. set_solver.
      * destruct Hn. exists a. by rewrite Hc, lookup_delete_ne.
    + destruct Hn. exists a. by rewrite Hc.
Qed.

Lemma reset_discipline_witness :
  exists c c', rtc step (start "/") c /\ step c c' /\ (0 ∈ bad c') /\ ~ current (client c') 0.
Proof.
  pose (c1 := {| client := (getClient "h" (NewClient "/")).2;
                 thread := set_thread 0 (Got 0) (fun _ => Idle); bad := ∅ |}).
  pose (c2 := {| client := (state_Client 0 (client c1)).2;
                 thread := set_thread 0 (Ready 0 0) (thread c1); bad := ∅ |}).
  assert (Hr : rtc step (start "/") c2).
  { eapply rtc_l; [apply (step_get 0 "h" (start "/") 0 (client c1)); reflexivity|].
    eapply rtc_l; [apply (step_client 0 0 0 c1 (client c2)); reflexivity|]. apply rtc_refl. }
  pose proof (step_update 0 0 0 true c2 eq_refl) as Hs.
  eexists c2, _. split; [exact Hr|]. split; [exact Hs|].
  destruct (reset_discipline "/" c2 _ Hr Hs) as (H1 & _). split; [|apply H1]; set_solver.
Defined.
