(* ===== verification/RpcRoundtrip.v ===== *)
(** End to end: rpc.Client.Call over a connection that holds, to the handler
    rpc.Server.ServeHTTP of a server with registered services.  What the
    client's caller gets is related to what the method did. *)
From S2P Require Import Prelude Errors GoStrings Wire RpcServer RpcClient.
Local Open Scope string_scope.
Local Open Scope list_scope.
Local Open Scope Z_scope.

Section roundtrip.
Context {EL : ErrorsLib} {G : Gob} {GL : GobLaws EL G} {W : Type}.

(** net/url: the path of a URL. *)
Variable url_path : string -> string.
(** The server, and the connection. *)
Variables (srv : Server W) (flush : transport).

(** A connection that holds: the request reaches the handler as it was sent
    and the response comes back complete. *)
Definition connection (hc : nat) (url contentType : string) (body : stream error) (st : W) :
    result error (response error) * W :=
  let d := ServeHTTP srv (new_writer None flush)
             {| r_Method := "POST"; r_URL_Path := url_path url;
                r_ContentType := contentType; r_Body := body |} st in
  (Ok (finish (sv_writer d)), sv_world d).

(** What the method receives for an argument of the client. *)
Definition received (m : method W) (a : call_arg) : margv :=
  match a with
  | ArgFunc f => ArgBody (f tt)
  | ArgReader r => ArgBody r
  | ArgAny v =>
      ArgValue (if decide (Kind_of (arg m) = KPtr)
                then SetElem (NewValue (Elem (arg m))) (indirect v) else indirect v)
  end.

(** The argument is one the method can receive: a reader for an io.Reader,
    otherwise an encodable value of the method's argument type. *)
Definition arg_fits (m : method W) (a : call_arg) : Prop :=
  match a with
  | ArgFunc _ | ArgReader _ => arg m = typeOfReader
  | ArgAny v =>
      arg m <> typeOfReader /\ (exists b, Encode (SVal v) = Ok b) /\
      fits (if decide (Kind_of (arg m) = KPtr) then NewValue (Elem (arg m))
            else NewValue (arg m)) v
  end.

Lemma decode_received m a :
  arg_fits m a ->
  exists body ct req n,
    encode_arg a = Ok (body, ct, req) /\ decode_request m body = (inr (received m a), n).
Proof.
  intros Hf. destruct a as [f|r|v]; simpl in *.
  - eexists _, _, _, _. split; [done|]. unfold decode_request. by rewrite decide_True.
  - eexists _, _, _, _. split; [done|]. unfold decode_request. by rewrite decide_True.
  - destruct Hf as (Hne & (b & HE) & Hfit). rewrite HE. eexists _, _, _, _. split; [done|].
    unfold decode_request. rewrite decide_False by done.
    edestruct (fun p => Decode_Encode p v b (buffer b) HE) as [n HD]; [|done|exact Hfit|].
    { unfold st_bytes. simpl. by rewrite sapp_nil_r. }
    rewrite HD. case_decide; [done|]. by rewrite Deref_SetElem.
Qed.

(** The service and the method a client names. *)
Record target := { t_service : string; t_method : string }.

Definition serviceMethod (t : target) : string := t_service t +:+ String DOT (t_method t).

(** The client's URL leads to method [m] of the server. *)
Definition leads_to (t : target) (url : string) (m : method W) : Prop :=
  has_byte SLASH (t_service t) = false /\ has_byte DOT (t_service t) = false /\
  has_byte SLASH (t_method t) = false /\
  (exists pre, url_path url = method_path pre (t_service t) (t_method t)) /\
  exists svc, services srv !! t_service t = Some svc /\ methods svc !! t_method t = Some m.

Lemma Call_served t a arg rp c st m :
  leads_to t (TrimRight a SLASH +:+ prefix c +:+ serviceMethod t) m -> arg_fits m arg ->
  exists c' ct req body n lbl,
    decode_request m body = (inr (received m arg), n) /\
    let d := dispatch lbl m (new_writer None flush)
               {| r_Method := "POST";
                  r_URL_Path := url_path (TrimRight a SLASH +:+ prefix c +:+ serviceMethod t);
                  r_ContentType := ct; r_Body := body |} st in
    Call connection None a (serviceMethod t) arg rp c st =
      (handle_response (TrimRight a SLASH +:+ prefix c +:+ serviceMethod t) (serviceMethod t) rp req
         (finish (sv_writer d)), c', sv_world d).
Proof.
  intros (H1 & H2 & H3 & (pre & Hpath) & svc & Hsvc & Hm) Hfit.
  destruct (decode_received m arg Hfit) as (body & ct & req & n & HE & HD).
  unfold Call. rewrite HE.
  destruct (getClient a c) as [h c1] eqn:Hg, (state_Client h c1) as [hc c2].
  eexists _, ct, req, body, n, (t_service t +:+ "." +:+ t_method t). split; [done|]. cbn zeta.
  unfold connection, ServeHTTP. cbn [r_Method r_URL_Path].
  rewrite (decide_False (P := "POST" <> "POST")) by (by intros []).
  rewrite Hpath, route, Hsvc, Hm by done. reflexivity.
Qed.

(** What the method of a call did. *)
Definition method_run (m : method W) (a : call_arg) (st : W) : returned * mreplyv * W :=
  m_Call (method_ m) (received m a) (new_reply m) st.

Lemma Call_meaning t a arg rp c st m ret rv st' :
  leads_to t (TrimRight a SLASH +:+ prefix c +:+ serviceMethod t) m -> arg_fits m arg ->
  method_run m arg st = (ret, rv, st') ->
  exists c' req resp,
    Call connection None a (serviceMethod t) arg rp c st =
      (handle_response (TrimRight a SLASH +:+ prefix c +:+ serviceMethod t) (serviceMethod t) rp req
         resp, c', st') /\
    st_end (resp_Body resp) = None /\
    reply_meaning (t_proto flush) resp (method_error ret) rv.
Proof.
  intros Hl Hf Hrun.
  destruct (Call_served t a arg rp c st m Hl Hf) as (c' & ct & req & body & n & lbl & HD & ->).
  set (r := {| r_Method := "POST" |}).
  pose proof (dispatch_meaning lbl m flush r st) as H. cbn zeta in H.
  replace (decode_request m (r_Body r)) with (inr (received m arg) : error + margv, n) in H by done.
  simpl in H. unfold method_run in Hrun. rewrite Hrun in H. destruct H as (_ & Hw & Hm & _).
  exists c', req, (finish (sv_writer (dispatch lbl m (new_writer None flush) r st))).
  rewrite Hw. split; [done|]. split; [|done].
  unfold finish. destruct (default _ _). by destruct (send_trailer _ _ _).
Qed.

(** The error a caller gets for an error of the method. *)
Definition remote_error (e e2 : error) : Prop :=
  exists e', e2 = E [AKind Remote; AErr e'] /\ same_error (Recover e) e'.

(** What the client makes of a reply, by what the method did. *)
Lemma handle_value url sm p req resp out b :
  reply_meaning (t_proto flush) resp None (ReplyValue out) -> st_end (resp_Body resp) = None ->
  Encode (SVal out) = Ok b -> fits p out ->
  let res := handle_response url sm (ReplyAny p) req resp in
  ca_err res = None /\ ca_reply res = Some (SetElem p (indirect out)).
Proof.
  intros Hm Hend HE Hfit. simpl in Hm. rewrite HE in Hm. destruct Hm as [H200 Hb].
  unfold handle_response. rewrite H200. simpl.
  by destruct (Decode_Encode p out b (resp_Body resp) HE Hb Hend Hfit) as [n ->].
Qed.

Lemma handle_error url sm rp req resp e rv b :
  reply_meaning (t_proto flush) resp (Some e) rv -> st_end (resp_Body resp) = None ->
  (forall rc, rv <> ReplyStream (Some rc)) -> Encode (SError (Recover e)) = Ok b ->
  let res := handle_response url sm rp req resp in
  (exists e2, ca_err res = Some e2 /\ remote_error e e2) /\ ca_stream res = None.
Proof.
  intros Hm Hend Hrv HE.
  assert (Hm' : StatusCode resp = methodErrorCode /\ st_bytes (resp_Body resp) = b)
    by (destruct rv as [v|[rc|]]; [|by destruct (Hrv rc)|]; naive_solver).
  destruct Hm' as [H590 Hb].
  destruct (DecodeError_Encode e b (resp_Body resp) HE Hb Hend) as (e' & HD & Hsame).
  assert (Hdec : decodeError sm (resp_Body resp) = E [AKind Remote; AErr e'])
    by (unfold decodeError; by rewrite HD).
  unfold handle_response. rewrite H590.
  destruct rp; simpl; rewrite Hdec; (split; [|done]); eexists; (split; [done|]); by exists e'.
Qed.

(** What a caller that reads the stream gets: the bytes of the method's reader,
    and then the end of that reader as the trailer carries it.  When the protocol
    does not carry its text, the end never arrives. *)
Definition delivers (rc : readcloser) (r : response error) : Prop :=
  match trailer_value (t_proto flush) (end_text (rc_stream rc)) with
  | Some v =>
      read_stream (S (length (st_chunks (resp_Body r)))) r =
        Some (st_bytes (rc_stream rc), if decide (v <> "") then Some (New v) else None)
  | None =>
      st_bytes (resp_Body r) = st_bytes (rc_stream rc) /\
      if lost_ends (t_proto flush) then
        read_stream (S (length (st_chunks (resp_Body r)))) r = Some (st_bytes (rc_stream rc), None)
      else forall f, read_stream f r = None
  end.

Lemma handle_stream url sm req resp rc :
  reply_meaning (t_proto flush) resp None (ReplyStream (Some rc)) -> st_end (resp_Body resp) = None ->
  let res := handle_response url sm ReplyReadCloser req resp in
  ca_err res = None /\ exists r, ca_stream res = Some r /\ delivers rc r.
Proof.
  intros (H200 & Hb & Ht) Hend. simpl in H200. unfold handle_response.
  rewrite H200, decide_True by done. cbn [ca_err ca_stream].
  split; [done|]. exists resp. split; [done|].
  unfold delivers, ends_with in *. destruct (trailer_value _ _) as [v|].
  - destruct Ht as [He <-]. rewrite read_stream_total, Hb by done. unfold stream_end. by rewrite Hend.
  - destruct Ht as [He Ht]. split; [done|]. destruct (lost_ends _).
    + rewrite read_stream_total, Hb by done. unfold stream_end. by rewrite Ht, Hend.
    + intros f. by apply read_stream_blocks.
Qed.

(** A plain text arrives as it is. *)
Lemma delivers_plain rc r :
  plain_text (end_text (rc_stream rc)) = true -> delivers rc r ->
  read_stream (S (length (st_chunks (resp_Body r)))) r =
    Some (st_bytes (rc_stream rc),
          match st_end (rc_stream rc) with
          | Some e => if decide (Error e <> "") then Some (New (Error e)) else None
          | None => None
          end).
Proof.
  intros Hp. unfold delivers. rewrite trailer_value_plain by done. intros ->. unfold end_text.
  destruct (st_end (rc_stream rc)); [done|]. by rewrite decide_False by (by intros []).
Qed.

(** C4. A successful call.  When the argument is of the method's type, the
    method returns nil with a reply that can be encoded, and the caller's reply
    pointer fits it, the call returns nil with exactly that reply stored, and
    the objects are in the state the method left; the method has run once, on
    exactly the argument the caller passed. *)
Theorem roundtrip_value t a arg p c st m out b st' :
  leads_to t (TrimRight a SLASH +:+ prefix c +:+ serviceMethod t) m -> arg_fits m arg ->
  method_run m arg st = (Returned None, ReplyValue out, st') ->
  Encode (SVal out) = Ok b -> fits p out ->
  let '(res, _, st2) := Call connection None a (serviceMethod t) arg (ReplyAny p) c st in
  ca_err res = None /\ ca_reply res = Some (SetElem p (indirect out)) /\ st2 = st'.
Proof.
  intros Hl Hf Hrun HE Hfit.
  destruct (Call_meaning t a arg (ReplyAny p) c st m _ _ _ Hl Hf Hrun)
    as (c' & req & resp & -> & Hend & Hm).
  destruct (handle_value (TrimRight a SLASH +:+ prefix c +:+ serviceMethod t) (serviceMethod t) p
    req resp out b Hm Hend HE Hfit) as [H1 H2]. done.
Qed.

(** C5. A failing call.  When the method returns an error or panics, without
    setting a reply stream, the caller gets an error of kind Remote around an
    error that has the kind, the severity and the message of the method's
    error (for a panic: a Fatal error with the panic's message), whatever kind
    of reply it asked for, and what the method did to the objects stays. *)
Theorem roundtrip_error t a arg rp c st m ret rv e b st' :
  leads_to t (TrimRight a SLASH +:+ prefix c +:+ serviceMethod t) m -> arg_fits m arg ->
  method_run m arg st = (ret, rv, st') -> method_error ret = Some e ->
  (forall rc, rv <> ReplyStream (Some rc)) ->
  Encode (SError (Recover e)) = Ok b ->
  let '(res, _, st2) := Call connection None a (serviceMethod t) arg rp c st in
  (exists e2, ca_err res = Some e2 /\ remote_error e e2) /\ ca_stream res = None /\ st2 = st'.
Proof.
  intros Hl Hf Hrun Herr Hrv HE.
  destruct (Call_meaning t a arg rp c st m _ _ _ Hl Hf Hrun) as (c' & req & resp & -> & Hend & Hm).
  rewrite Herr in Hm.
  destruct (handle_error (TrimRight a SLASH +:+ prefix c +:+ serviceMethod t) (serviceMethod t) rp
    req resp e rv b Hm Hend Hrv HE) as [H1 H2]. done.
Qed.

(** C6. A reply stream.  When the method returns nil with a ReadCloser, the
    caller gets a stream that delivers exactly the bytes of that reader.  If the
    reader ended with io.EOF, or with an error whose text is plain (one line, no
    control bytes, no white space around it), the stream is read to its end in
    a bounded number of reads and ends likewise: io.EOF, or an error with that
    text.  Another text, as that of a chain of errors, which has several lines,
    does not get through: over HTTP/1.1 the stream ends with an error of one line,
    and over HTTP/2, if there are control bytes, the error is lost: the stream looks
    complete or never ends, by the version of net/http2. *)
Theorem roundtrip_stream t a arg c st m rc st' :
  leads_to t (TrimRight a SLASH +:+ prefix c +:+ serviceMethod t) m -> arg_fits m arg ->
  method_run m arg st = (Returned None, ReplyStream (Some rc), st') ->
  let '(res, _, st2) := Call connection None a (serviceMethod t) arg ReplyReadCloser c st in
  ca_err res = None /\ st2 = st' /\
  exists r, ca_stream res = Some r /\
    (plain_text (end_text (rc_stream rc)) = true ->
     read_stream (S (length (st_chunks (resp_Body r)))) r =
       Some (st_bytes (rc_stream rc),
             match st_end (rc_stream rc) with
             | Some e => if decide (Error e <> "") then Some (New (Error e)) else None
             | None => None
             end)) /\
    match trailer_value (t_proto flush) (end_text (rc_stream rc)) with
    | Some v =>
        read_stream (S (length (st_chunks (resp_Body r)))) r =
          Some (st_bytes (rc_stream rc), if decide (v <> "") then Some (New v) else None)
    | None =>
        st_bytes (resp_Body r) = st_bytes (rc_stream rc) /\
        if lost_ends (t_proto flush) then
          read_stream (S (length (st_chunks (resp_Body r)))) r = Some (st_bytes (rc_stream rc), None)
        else forall f, read_stream f r = None
    end.
Proof.
  intros Hl Hf Hrun.
  destruct (Call_meaning t a arg ReplyReadCloser c st m _ _ _ Hl Hf Hrun)
    as (c' & req & resp & -> & Hend & Hm).
  destruct (handle_stream (TrimRight a SLASH +:+ prefix c +:+ serviceMethod t) (serviceMethod t)
    req resp rc Hm Hend) as [H1 (r & H2 & Hd)].
  split; [done|]. split; [done|]. exists r. split; [done|]. split; [|exact Hd].
  intros Hp. by apply delivers_plain.
Qed.

(** An error next to a reply stream is lost.  When a method sets its
    ReadCloser and also returns an error (as Supervisor.GetBinary does when the
    binary cannot be opened), the server sends status 590 with the bytes of the
    stream, which the client takes for an encoded error: the error the caller
    gets depends only on those bytes, not on the method's error, and when (the end
    of the response arrives and) they
    do not decode it is Invalid and Temporary, even if the method's error was
    Fatal. *)
Lemma error_with_stream_lost t a arg rp c st m e rc st' :
  leads_to t (TrimRight a SLASH +:+ prefix c +:+ serviceMethod t) m -> arg_fits m arg ->
  method_run m arg st = (Returned (Some e), ReplyStream (Some rc), st') ->
  plain_text (end_text (rc_stream rc)) = true ->
  (forall s, st_bytes s = st_bytes (rc_stream rc) -> exists x, DecodeError s = Err x) ->
  ErrorsLaws EL ->
  let '(res, _, _) := Call connection None a (serviceMethod t) arg rp c st in
  exists e2, ca_err res = Some e2 /\ Is Invalid e2 = true /\ Is Remote e2 = false /\
    IsTemporary e2 = true /\ Match (Errors.E [ASev Fatal]) e2 = false.
Proof.
  intros Hl Hf Hrun _ Hbad HL.
  destruct (Call_meaning t a arg rp c st m _ _ _ Hl Hf Hrun) as (c' & req & resp & -> & Hend & Hm).
  destruct Hm as (H590 & Hb & _). simpl in H590.
  destruct (Hbad _ Hb) as [x HD].
  set (e2 := E [AKind Invalid; ASev Temporary;
         AMsg ("error while decoding error for " +:+ serviceMethod t); AErr x]).
  assert (Hdec : decodeError (serviceMethod t) (resp_Body resp) = e2)
    by (unfold decodeError; by rewrite HD).
  assert (He2 : Is Invalid e2 = true /\ Is Remote e2 = false /\ IsTemporary e2 = true /\
                Match (E [ASev Fatal]) e2 = false).
  { unfold e2. rewrite !(Is_E _ Invalid), (IsTemporary_E _ Temporary), (Match_Fatal_E _ Temporary)
      by done. done. }
  unfold handle_response. rewrite H590. destruct rp; simpl; rewrite Hdec; by exists e2.
Qed.

End roundtrip.

(** ** Sample calls *)

Module Samples.

Import RpcServer.Samples RpcClient.Samples.

Definition server : Server nat := register_many regs.

(** The URLs of the samples are host/Service.Method. *)
Definition sample_call (meth : string) (a : call_arg) (rp : call_reply) :=
  Call (G := SimpleGob) (connection (fun u => u) server http2) None "h" ("Counter." +:+ meth) a rp
    (NewClient "/") 0%nat.

Definition target_of (meth : string) : target := {| t_service := "Counter"; t_method := meth |}.

Definition hello : call_arg (EL := SimpleErrors) (G := SimpleGob) := ArgAny (SStr "hello").

Lemma leads meth m :
  has_byte SLASH meth = false -> Init counter !! meth = Some m ->
  leads_to (fun u => u) server (target_of meth)
    (TrimRight "h" SLASH +:+ prefix (NewClient "/") +:+ serviceMethod (target_of meth)) m.
Proof.
  intros Hs Hm. split; [done|]. split; [done|]. split; [done|]. split; [by exists "h"|].
  exists {| name := "Counter"; methods := Init counter |}. split; [|done].
  unfold server. by rewrite register_many_lookup.
Qed.

Lemma hello_fits (m : method nat) : arg m = TBasic "string" -> arg_fits m hello.
Proof.
  intros Hm. unfold arg_fits, hello. rewrite Hm. split; [done|]. split; [by eexists|]. by eexists.
Qed.

Lemma garbage (s : stream serror) :
  st_bytes s = "abcde" -> exists x, simple_DecodeError s = Err x.
Proof. intros Hs. unfold simple_DecodeError. rewrite Hs. by eexists. Qed.

Lemma roundtrip_value_witness :
  ca_err (sample_call "Echo" hello reply_x).1.1 = None /\
  ca_reply (sample_call "Echo" hello reply_x).1.1 = Some (SPtr (SStr "hello")) /\
  (sample_call "Echo" hello reply_x).2 = 1%nat.
Proof.
  exact (roundtrip_value (fun u => u) server http2 (target_of "Echo") "h" hello (SPtr (SStr ""))
    (NewClient "/") 0%nat (new_method Echo) (SPtr (SStr "hello")) "Vhello" 1%nat
    (leads "Echo" (new_method Echo) eq_refl eq_refl) (hello_fits (new_method Echo) eq_refl) eq_refl eq_refl
    (ex_intro _ (SStr "") eq_refl)).
Defined.

Lemma roundtrip_error_witness :
  exists e2, ca_err (sample_call "Boom" hello reply_x).1.1 = Some e2 /\
    remote_error (E [ASev Fatal; AErr (New ("panic: " +:+ "index"))]) e2.
Proof.
  pose proof (roundtrip_error (fun u => u) server http2 (target_of "Boom") "h" hello
    reply_x (NewClient "/") 0%nat (new_method Boom) (Panicked "index")
    (ReplyValue (SPtr (SStr ""))) (E [ASev Fatal; AErr (New ("panic: " +:+ "index"))]) _ 1%nat
    (leads "Boom" (new_method Boom) eq_refl eq_refl) (hello_fits (new_method Boom) eq_refl) eq_refl eq_refl
    ltac:(done) eq_refl) as H.
  exact (proj1 H).
Defined.

Lemma roundtrip_stream_witness :
  exists r, ca_stream (sample_call "Tail" hello ReplyReadCloser).1.1 = Some r /\
    read_stream (S (length (st_chunks (resp_Body r)))) r =
      Some ("abcde", Some (New "disk gone")).
Proof.
  pose proof (roundtrip_stream (fun u => u) server http2 (target_of "Tail") "h" hello
    (NewClient "/") 0%nat (new_method Tail) half 1%nat
    (leads "Tail" (new_method Tail) eq_refl eq_refl) (hello_fits (new_method Tail) eq_refl) eq_refl) as H.
  destruct H as (_ & _ & r & Hr & Hp & _). exists r. split; [exact Hr|]. exact (Hp eq_refl).
Defined.

Lemma error_with_stream_lost_sample :
  exists e2, ca_err (sample_call "Both" hello ReplyReadCloser).1.1 = Some e2 /\
    Is Invalid e2 = true /\ Is Remote e2 = false /\
    IsTemporary e2 = true /\ Match (Errors.E [ASev Fatal]) e2 = false.
Proof.
  exact (error_with_stream_lost (fun u => u) server http2 (target_of "Both") "h" hello
    ReplyReadCloser (NewClient "/") 0%nat (new_method Both) fatal half 1%nat
    (leads "Both" (new_method Both) eq_refl eq_refl) (hello_fits (new_method Both) eq_refl) eq_refl eq_refl
    (fun s Hs => garbage s Hs) SimpleErrors_laws).
Defined.

End Samples.
