(* ===== verification/RpcRefine.v ===== *)
(** What package rpc promises to the programs that use it: a sequence of calls
    of rpc.Client to an rpc.Server, over a network that may lose any request or
    any reply, refines calling the methods of the registered objects directly.
    The specification [spec_run] mentions neither HTTP nor gob nor the clients'
    connections; every call runs its method at most once, in order. *)
From S2P Require Import Prelude Errors GoStrings Wire RpcServer RpcClient RpcRoundtrip.
Local Open Scope string_scope.
Local Open Scope list_scope.
Local Open Scope Z_scope.

Section refine.
Context {EL : ErrorsLib} {G : Gob} {GL : GobLaws EL G} {W : Type}.
Variable url_path : string -> string.
Variables (srv : Server W) (flush : transport).

(** What the network does to a call. *)
Inductive fate :=
| Holds
| LostRequest (e : error)
| LostReply (e : error).

(** Posting over that network: http.Client.Post fails with the network's error
    when the request or the reply is lost. *)
Definition Post_with (f : fate) (hc : nat) (url contentType : string) (body : stream error) (st : W) :
    result error (response error) * W :=
  match f with
  | Holds => connection url_path srv flush hc url contentType body st
  | LostRequest e => (Err e, st)
  | LostReply e => (Err e, (connection url_path srv flush hc url contentType body st).2)
  end.

(** One call of the program: the client's arguments, and the method the
    server has for it. *)
Record job := {
  j_addr : string;
  j_target : target;
  j_arg : call_arg;
  j_reply : call_reply;
  j_fate : fate;
  j_method : method W
}.

(** The implementation: the calls one after the other through one client. *)
Definition run_job (j : job) (c : Client) (st : W) : called * Client * W :=
  Call (Post_with (j_fate j)) None (j_addr j) (serviceMethod (j_target j)) (j_arg j) (j_reply j) c st.

Fixpoint run (js : list job) (c : Client) (st : W) : list called * Client * W :=
  match js with
  | [] => ([], c, st)
  | j :: js =>
      let '(res, c, st) := run_job j c st in
      let '(ress, c, st) := run js c st in (res :: ress, c, st)
  end.

(** The specification: what the caller of an object sees of a method. *)
Inductive outcome :=
| Seen (ret : returned) (rv : mreplyv)
| Unseen (e : error).

Definition spec_job (j : job) (st : W) : outcome * W :=
  match j_fate j with
  | Holds => let '(ret, rv, st') := method_run (j_method j) (j_arg j) st in (Seen ret rv, st')
  | LostRequest e => (Unseen e, st)
  | LostReply e => (Unseen e, (method_run (j_method j) (j_arg j) st).2)
  end.

Fixpoint spec_run (js : list job) (st : W) : list outcome * W :=
  match js with
  | [] => ([], st)
  | j :: js =>
      let '(o, st) := spec_job j st in
      let '(os, st) := spec_run js st in (o :: os, st)
  end.

(** How a result of the client shows an outcome: the value that was returned,
    the error as a remote one, the bytes of the stream and how it ends (delivers);
    or an error of the network, which leaves the reply alone. *)
Definition observes (rp : call_reply) (o : outcome) (res : called) : Prop :=
  match o with
  | Seen ret rv =>
      match method_error ret with
      | Some e => (exists e2, ca_err res = Some e2 /\ remote_error e e2) /\ ca_stream res = None
      | None =>
          ca_err res = None /\
          match rv, rp with
          | ReplyValue out, ReplyAny p => ca_reply res = Some (SetElem p (indirect out))
          | ReplyStream (Some rc), ReplyReadCloser =>
              exists r, ca_stream res = Some r /\ delivers flush rc r
          | _, _ => False
          end
      end
  | Unseen e =>
      ca_err res = Some (if decide (e = DeadlineExceeded \/ e = Canceled) then e
                         else E [AKind Net; ASev Temporary; AErr e]) /\
      ca_stream res = None /\ ca_reply res = reply_before rp
  end.

(** The reply can be sent and stored: a value of the type the caller asked for,
    a stream if it asked for one, and no stream next to an error. *)
Definition answerable (ret : returned) (rv : mreplyv) (rp : call_reply) : Prop :=
  match method_error ret with
  | Some e => (forall rc, rv <> ReplyStream (Some rc)) /\ exists b, Encode (SError (Recover e)) = Ok b
  | None =>
      match rv, rp with
      | ReplyValue out, ReplyAny p => (exists b, Encode (SVal out) = Ok b) /\ fits p out
      | ReplyStream (Some _), ReplyReadCloser => True
      | _, _ => False
      end
  end.

(** The call names the method, passes an argument it takes, and can be answered. *)
Definition job_ok (pfx : string) (j : job) : Prop :=
  leads_to url_path srv (j_target j)
    (TrimRight (j_addr j) SLASH +:+ pfx +:+ serviceMethod (j_target j)) (j_method j) /\
  arg_fits (j_method j) (j_arg j) /\
  forall st, answerable (method_run (j_method j) (j_arg j) st).1.1
               (method_run (j_method j) (j_arg j) st).1.2 (j_reply j).

(** ** Lemmas *)

Lemma getClient_prefix a c : prefix (getClient a c).2 = prefix c.
Proof. unfold getClient. by destruct (clients c !! a). Qed.

Lemma state_Client_prefix h c : prefix (state_Client h c).2 = prefix c.
Proof. unfold state_Client. destruct (states c !! h) as [s|]; [|done]. by destruct (cached s). Qed.

Lemma updateClientState_prefix h failed c : prefix (updateClientState h failed c) = prefix c.
Proof. unfold updateClientState. by destruct (states c !! h). Qed.

(** A client keeps its prefix. *)
Lemma Call_prefix Post inj a sm arg rp c (st : W) : prefix (Call Post inj a sm arg rp c st).1.2 = prefix c.
Proof.
  unfold Call. destruct (encode_arg arg) as [[[body ct] req]|]; [|done].
  pose proof (getClient_prefix a c) as H1. destruct (getClient a c) as [h c1]. simpl in H1.
  pose proof (state_Client_prefix h c1) as H2. destruct (state_Client h c1) as [hc c2]. simpl in H2.
  destruct (Post _ _ _ _ st) as [resp st']. simpl. rewrite updateClientState_prefix. congruence.
Qed.

(** A call whose request or reply is lost. *)
Lemma Call_lost Post a sm arg rp c (st : W) body ct req e :
  encode_arg arg = Ok (body, ct, req) ->
  (forall hc url, (Post hc url ct body st).1 = Err e) ->
  let res := (Call Post None a sm arg rp c st).1.1 in
  ca_err res = Some (if decide (e = DeadlineExceeded \/ e = Canceled) then e
                     else E [AKind Net; ASev Temporary; AErr e]) /\
  ca_stream res = None /\ ca_reply res = reply_before rp.
Proof.
  intros HE HP. unfold Call. rewrite HE.
  destruct (getClient a c) as [h c1], (state_Client h c1) as [hc c2].
  set (url := TrimRight a SLASH +:+ prefix c +:+ sm). specialize (HP (default 0%nat hc) url).
  destruct (Post (default 0%nat hc) url ct body st) as [resp st']. simpl in HP. subst resp.
  by case_decide.
Qed.

(** The objects after a call depend only on whether the request arrived. *)
Lemma Call_state Post Post' a sm arg rp c (st : W) body ct req :
  encode_arg arg = Ok (body, ct, req) ->
  (forall hc url, (Post hc url ct body st).2 = (Post' hc url ct body st).2) ->
  (Call Post None a sm arg rp c st).2 = (Call Post' None a sm arg rp c st).2.
Proof.
  intros HE HP. unfold Call. rewrite HE.
  destruct (getClient a c) as [h c1], (state_Client h c1) as [hc c2].
  set (url := TrimRight a SLASH +:+ prefix c +:+ sm). specialize (HP (default 0%nat hc) url).
  destruct (Post (default 0%nat hc) url ct body st), (Post' (default 0%nat hc) url ct body st). done.
Qed.

(** What is encoded does not depend on the network. *)
Lemma fitting_encodes (m : method W) a :
  arg_fits m a -> exists body ct req, encode_arg a = Ok (body, ct, req).
Proof. intros H. destruct (decode_received m a H) as (body & ct & req & n & HE & _). by eexists _, _, _. Qed.

(** A call that arrives leaves the objects as the method does. *)
Lemma held_state pfx j c st :
  prefix c = pfx -> job_ok pfx j ->
  (Call (connection url_path srv flush) None (j_addr j) (serviceMethod (j_target j)) (j_arg j) (j_reply j)
     c st).2 = (method_run (j_method j) (j_arg j) st).2.
Proof.
  intros <- (Hl & Hf & _).
  destruct (method_run (j_method j) (j_arg j) st) as [[ret rv] st'] eqn:Hrun.
  by destruct (Call_meaning url_path srv flush _ _ _ (j_reply j) c st _ _ _ _ Hl Hf Hrun)
    as (c' & req & resp & -> & _).
Qed.

(** One call refines its specification. *)
Lemma job_refines pfx j c st :
  prefix c = pfx -> job_ok pfx j ->
  let '(res, c', st') := run_job j c st in
  let '(o, st2) := spec_job j st in
  observes (j_reply j) o res /\ prefix c' = pfx /\ st' = st2.
Proof.
  intros Hpfx Hok. pose proof (held_state pfx j c st Hpfx Hok) as Hst. destruct Hok as (Hl & Hf & Hans).
  destruct (fitting_encodes _ _ Hf) as (body & ct & req & HE).
  pose proof (Call_prefix (Post_with (j_fate j)) None (j_addr j) (serviceMethod (j_target j))
    (j_arg j) (j_reply j) c st) as Hc. rewrite Hpfx in Hc.
  unfold run_job, spec_job. destruct (j_fate j) as [|e|e].
  - specialize (Hans st). subst pfx.
    destruct (method_run (j_method j) (j_arg j) st) as [[ret rv] st'] eqn:Hrun. simpl in Hans.
    destruct (Call_meaning url_path srv flush _ _ _ (j_reply j) c st _ _ _ _ Hl Hf Hrun)
      as (c' & rq & resp & Heq & Hend & Hm).
    change (Post_with Holds) with (connection url_path srv flush) in *. rewrite Heq in Hc |- *. simpl in Hc.
    split; [|done]. unfold answerable in Hans. unfold observes.
    destruct (method_error ret) as [e|].
    + destruct Hans as [Hrv [b HEb]]. by eapply handle_error.
    + destruct rv as [out|[rc|]], (j_reply j) as [|p]; try done.
      * destruct Hans as [[b HEb] Hfit]. by eapply handle_value.
      * by apply handle_stream.
  - pose proof (Call_lost (Post_with (LostRequest e)) (j_addr j) (serviceMethod (j_target j)) (j_arg j)
      (j_reply j) c st body ct req e HE (fun _ _ => eq_refl)) as Hlost.
    destruct (Call (Post_with (LostRequest e)) _ _ _ _ _ _ _) as [[res c'] st'] eqn:HC.
    split; [done|]. split; [done|]. unfold Call in HC. rewrite HE in HC.
    destruct (getClient _ _), (state_Client _ _). simpl in HC. by simplify_eq.
  - pose proof (Call_lost (Post_with (LostReply e)) (j_addr j) (serviceMethod (j_target j)) (j_arg j)
      (j_reply j) c st body ct req e HE (fun _ _ => eq_refl)) as Hlost.
    pose proof (Call_state (Post_with (LostReply e)) (connection url_path srv flush) (j_addr j)
      (serviceMethod (j_target j)) (j_arg j) (j_reply j) c st body ct req HE (fun _ _ => eq_refl)) as Hs.
    destruct (Call (Post_with (LostReply e)) _ _ _ _ _ _ _) as [[res c'] st'].
    split; [done|]. split; [done|]. simpl in Hs. by rewrite Hs.
Qed.

(** C7. A program's remote calls refine calls of the objects themselves.  For
    every sequence of calls whose arguments and replies have the methods' types,
    and whatever requests and replies the network loses: the registered objects
    end in the state in which the specification leaves them, which runs the
    methods directly, in order, once for a call that arrived and not at all for
    one whose request was lost; and each result the client returned shows the
    outcome of its call - the value, the method's error as a remote error, the
    bytes of the stream and as much of its error as a trailer carries, or an error
    of kind Net - never that of another. *)
Theorem calls_refine_objects js c st :
  Forall (job_ok (prefix c)) js ->
  let '(ress, _, st') := run js c st in
  let '(os, st2) := spec_run js st in
  st' = st2 /\ Forall2 (fun x res => observes x.1 x.2 res) (zip (j_reply <$> js) os) ress.
Proof.
  intros Hok. remember (prefix c) as pfx eqn:Hpfx. symmetry in Hpfx.
  revert c st Hpfx. induction Hok as [|j js Hj Hjs IH]; intros c st Hpfx; [by split|].
  simpl. pose proof (job_refines pfx j c st Hpfx Hj) as H1.
  destruct (run_job j c st) as [[res c1] st1], (spec_job j st) as [o st1'].
  destruct H1 as (Hobs & Hpfx1 & <-). specialize (IH c1 st1 Hpfx1).
  destruct (run js c1 st1) as [[ress c2] st2], (spec_run js st1) as [os st2'].
  destruct IH as [<- Hall]. split; [done|]. by constructor.
Qed.
End refine.

(** ** Sample calls *)

Module Samples.

Import RpcServer.Samples RpcClient.Samples RpcRoundtrip.Samples.

Definition job_of (meth : string) (m : method nat) (rp : call_reply) (f : fate) : job (EL := SimpleErrors) :=
  {| j_addr := "h"; j_target := target_of meth; j_arg := hello; j_reply := rp; j_fate := f; j_method := m |}.

Definition reset : serror := SOther "connection reset".

(** Of five calls one request and one reply are lost. *)
Definition jobs : list (job (EL := SimpleErrors)) :=
  [job_of "Echo" (new_method Echo) reply_x Holds;
   job_of "Fail" (new_method Fail_) reply_x (LostRequest reset);
   job_of "Boom" (new_method Boom) reply_x Holds;
   job_of "Echo" (new_method Echo) reply_x (LostReply reset);
   job_of "Tail" (new_method Tail) ReplyReadCloser Holds].

Lemma job_of_ok (r : reflect_Method (EL := SimpleErrors) nat) rp f :
  has_byte SLASH (m_Name r) = false -> Init counter !! m_Name r = Some (new_method r) ->
  arg (new_method r) = TBasic "string" ->
  (forall st, answerable (method_run (new_method r) hello st).1.1 (method_run (new_method r) hello st).1.2 rp) ->
  job_ok (fun u => u) server "/" (job_of (m_Name r) (new_method r) rp f).
Proof. intros Hs Hl Ha Hans. split; [by apply leads|]. split; [by apply hello_fits|]. done. Qed.

Lemma jobs_ok : Forall (job_ok (fun u => u) server "/") jobs.
Proof.
  assert (Hecho : forall f, job_ok (fun u => u) server "/" (job_of "Echo" (new_method Echo) reply_x f)).
  { intros f. apply (job_of_ok Echo); [done..|]. intros st. split; [by eexists|]. by eexists. }
  unfold jobs. rewrite !Forall_cons. repeat split_and; try apply Hecho; [..|constructor].
  - apply (job_of_ok Fail_); [done..|]. intros st. split; [done|by eexists].
  - apply (job_of_ok Boom); [done..|]. intros st. split; [done|by eexists].
  - by apply (job_of_ok Tail).
Qed.

(** The counter has counted the four calls that arrived, and the specification
    says what each caller saw. *)
Lemma spec_of_jobs :
  (spec_run (W := nat) jobs 0%nat).2 = 4%nat /\
  exists rc, (spec_run (W := nat) jobs 0%nat).1 =
    [Seen (Returned None) (ReplyValue (SPtr (SStr "hello"))); Unseen reset;
     Seen (Panicked "index") (ReplyValue (SPtr (SStr ""))); Unseen reset;
     Seen (Returned None) (ReplyStream (Some rc))].
Proof. split; [done|]. by eexists. Qed.

Lemma calls_refine_objects_witness :
  (run (fun u => u) server http2 jobs (NewClient "/") 0%nat).2 = 4%nat.
Proof.
  pose proof (calls_refine_objects (fun u => u) server http2 jobs (NewClient "/") 0%nat jobs_ok) as H.
  destruct (run (fun u => u) server http2 jobs (NewClient "/") 0%nat) as [[ress c] st'].
  exact (proj1 H).
Defined.

End Samples.
