(* ===== verification/Commands.v ===== *)
(** cmd/bigpi and the regression programs regress/test1 and regress/teststream:
    programs on top of the library.  The estimate of bigpi is computed with the
    code's floats and machine integers; the regression programs run on the RPC
    client and server of RpcRoundtrip.v. *)
From stdpp Require Import pretty.
From S2P Require Import Prelude Errors GoStrings Wire RpcServer RpcClient RpcRoundtrip.
From Stdlib Require Import SpecFloat Ascii.
Local Open Scope string_scope.
Local Open Scope list_scope.
Local Open Scope Z_scope.

(** How a program ends: it returns from main, it calls log.Fatal with one of the
    errors (which one depends on the order in which goroutines fail), it fails a
    check of its own, or it panics. *)
Inductive ending (error out : Type) :=
| Done (o : out)
| Fatals (es : list error)
| Fatalf (msg : string)
| Panics (msg : string).
Arguments Done {error out} o.
Arguments Fatals {error out} es.
Arguments Fatalf {error out} msg.
Arguments Panics {error out} msg.

(** ** cmd/bigpi *)

Module Bigpi.

(** float64 arithmetic, rounding to nearest even. *)
Definition f64 : Type := spec_float.
Definition fadd : f64 -> f64 -> f64 := SFadd 53 1024.
Definition fsub : f64 -> f64 -> f64 := SFsub 53 1024.
Definition fmul : f64 -> f64 -> f64 := SFmul 53 1024.
Definition half : f64 := S754_finite false 4503599627370496 (-53).
Definition quarter : f64 := S754_finite false 4503599627370496 (-54).

(** The condition of Sample's loop (without fused multiply-add). *)
Definition inside (p : f64 * f64) : bool :=
  let '(x, y) := p in
  SFltb (fadd (fmul (fsub x half) (fsub x half)) (fmul (fsub y half) (fsub y half))) quarter.

(** uint64 *)
Definition u64 (z : Z) : Z := z mod 2 ^ 64.

(** circlePI.Sample, from index [i] with [fuel] iterations left; [r i] is the
    i-th pair drawn from the generator. *)
Fixpoint Sample_from (r : nat -> f64 * f64) (fuel i : nat) (m : Z) : Z :=
  match fuel with
  | O => m
  | S fuel => Sample_from r fuel (S i) (if inside (r i) then u64 (m + 1) else m)
  end.

Definition Sample (r : nat -> f64 * f64) (n : Z) (m : Z) : Z := Sample_from r (Z.to_nat n) 0 m.

Section bigpi.
Context {error : Type}.

(** A machine as main uses it: its processors, its error once it is running (or
    stopped), and the reply to the call of the i-th goroutine started for it. *)
Record machine := {
  Maxprocs : Z;
  Err_ : option error;
  Call_Sample : nat -> Z -> result error Z
}.

(** The calls for one machine: one for each processor. *)
Definition machine_calls (numPerMachine : Z) (m : machine) : list (result error Z) :=
  (fun i => Call_Sample m i (numPerMachine / u64 (Maxprocs m))) <$> seq 0 (Z.to_nat (Maxprocs m)).

Definition oks (l : list (result error Z)) : list Z :=
  omap (fun x => match x with Ok z => Some z | Err _ => None end) l.

Definition errs (l : list (result error Z)) : list error :=
  omap (fun x => match x with Ok _ => None | Err e => Some e end) l.

(** The variable total, to which goroutines add atomically. *)
Definition sum_u64 (l : list Z) : Z := foldl (fun t c => u64 (t + c)) 0 l.

(** main, given what b.Start returned: the numerator and denominator of pi,
    which it prints (see [printed]).
    Conversions and division are those of uint64, and int64 in the end. *)
Definition main (nsamples nmachine : Z) (started : result error (list machine)) : ending error (Z * Z) :=
  match started with
  | Err e => Fatals [e]
  | Ok machines =>
      match omap Err_ machines with
      | e :: _ => Fatals [e]
      | [] =>
          if decide (u64 nmachine = 0) then Panics "integer divide by zero"
          else
            let numPerMachine := u64 nsamples / u64 nmachine in
            let replies := machines ≫= machine_calls numPerMachine in
            match errs replies with
            | _ :: _ => Fatals (errs replies)
            | [] =>
                let total := sum_u64 (oks replies) in
                if decide (nsamples = 0) then Panics "division by zero"
                else Done (wrap64 (u64 (4 * total)), nsamples)
            end
      end
  end.

(** Rat.FloatString: the number rounded to [prec] digits after the point, half
    away from zero. *)
Definition FloatString_digits (num den : Z) (prec : nat) : Z * Z :=
  let q := Z.abs num / Z.abs den in
  let p := 10 ^ Z.of_nat prec in
  let r := (Z.abs num mod Z.abs den) * p in
  let r2 := r mod Z.abs den in
  let r := r / Z.abs den in
  if decide (Z.abs den <= r2 + r2) then
    if decide (p <= r + 1) then (q + 1, r + 1 - p) else (q, r + 1)
  else (q, r).

Fixpoint zeros (n : nat) : string := match n with O => "" | S n => "0" +:+ zeros n end.

Definition FloatString (num den : Z) (prec : nat) : string :=
  let '(q, r) := FloatString_digits num den prec in
  let rs := pretty (Z.to_N r) in
  (if decide (num * den < 0) then "-" else "") +:+ pretty (Z.to_N q) +:+
  (if decide (0 < prec)%nat then "." +:+ zeros (prec - String.length rs) +:+ rs else "").

(** What main prints, for the number of digits that it computes from the
    logarithm of the number of samples. *)
Definition printed (prec : nat) (pi : Z * Z) : string :=
  String "207" (String "128" " = ") +:+ FloatString pi.1 pi.2 prec.

(** ** Lemmas *)

(** The digits printed are those of the number nearest to the fraction: below the
    point there are at most [prec], and a half is rounded up. *)
Lemma FloatString_rounds num den prec :
  0 <= num -> 0 < den ->
  let '(q, r) := FloatString_digits num den prec in
  let p := 10 ^ Z.of_nat prec in
  0 <= r < p /\ q * p + r = (2 * (num * p) + den) / (2 * den).
Proof.
  intros Hn Hd. unfold FloatString_digits. rewrite !Z.abs_eq by lia. set (p := 10 ^ Z.of_nat prec).
  assert (Hp : 0 < p) by (apply Z.pow_pos_nonneg; lia).
  pose proof (Z.div_mod num den) as E1. pose proof (Z.mod_pos_bound num den) as B1.
  set (q := num / den) in *. set (m := num mod den) in *.
  pose proof (Z.div_mod (m * p) den) as E2. pose proof (Z.mod_pos_bound (m * p) den) as B2.
  set (r := m * p / den) in *. set (r2 := (m * p) mod den) in *.
  assert (Hr : 0 <= r < p) by (split; [apply Z.div_pos; nia|apply Z.div_lt_upper_bound; nia]).
  assert (E : num * p = den * (q * p + r) + r2) by nia.
  case_decide; [case_decide|]; (split; [lia|]).
  - apply Z.div_unique with (r := 2 * r2 + den - 2 * den); nia.
  - apply Z.div_unique with (r := 2 * r2 + den - 2 * den); nia.
  - apply Z.div_unique with (r := 2 * r2 + den); nia.
Qed.

Example printed_pi : printed 4 (3137700, 1000000) = String "207" (String "128" " = 3.1377").
Proof. reflexivity. Qed.

Example printed_rounded : FloatString 3999960 1000000 4 = "4.0000".
Proof. reflexivity. Qed.

(** The points of the first n draws that lie in the circle. *)
Definition hits (r : nat -> f64 * f64) (n : nat) : nat :=
  length (filter (fun i => inside (r i) = true) (seq 0 n)).

Lemma Sample_from_hits r fuel i m :
  0 <= m -> m + Z.of_nat fuel < 2 ^ 64 ->
  Sample_from r fuel i m = m + Z.of_nat (length (filter (fun i => inside (r i) = true) (seq i fuel))).
Proof.
  revert i m. induction fuel as [|f IH]; intros i m Hm Hb; [simpl; lia|].
  simpl Sample_from. rewrite IH; cbn [seq]; rewrite ?filter_cons; destruct (inside (r i)) eqn:Hi;
    unfold u64; rewrite ?Z.mod_small by lia; simpl; lia.
Qed.

Lemma hits_le r n : (hits r n <= n)%nat.
Proof. unfold hits. etransitivity; [apply length_filter|]. by rewrite length_seq. Qed.

Lemma Sample_hits r n : 0 <= n < 2 ^ 64 -> Sample r n 0 = Z.of_nat (hits r (Z.to_nat n)).
Proof. intros Hn. unfold Sample, hits. rewrite Sample_from_hits; lia. Qed.

Definition sum (l : list Z) : Z := foldr Z.add 0 l.

Lemma sum_app l1 l2 : sum (l1 ++ l2) = sum l1 + sum l2.
Proof. unfold sum. induction l1 as [|x l IH]; simpl; lia. Qed.

Lemma sum_u64_sum l : Forall (fun c => 0 <= c) l -> sum l < 2 ^ 64 -> sum_u64 l = sum l.
Proof.
  unfold sum_u64. intros Hl Hs.
  assert (H : forall t, 0 <= t -> t + sum l < 2 ^ 64 -> foldl (fun t c => u64 (t + c)) t l = t + sum l).
  { clear Hs. induction Hl as [|c l Hc Hl IH]; intros t Ht Hs; simpl in *; [lia|].
    assert (0 <= sum l) by (clear -Hl; induction Hl; simpl; lia).
    unfold u64 at 2. rewrite Z.mod_small by lia. rewrite IH; lia. }
  rewrite H; lia.
Qed.

(** The sampling of machine [m] when every call succeeds, drawing the points
    [rnd m i] on its i-th processor. *)
Variable rnd : machine -> nat -> nat -> f64 * f64.

Definition per_core (q : Z) (m : machine) : Z := q / Maxprocs m.

Definition machine_hits (q : Z) (m : machine) : list Z :=
  (fun i => Z.of_nat (hits (rnd m i) (Z.to_nat (per_core q m)))) <$> seq 0 (Z.to_nat (Maxprocs m)).

(** The points drawn on all machines for [q] points asked of each. *)
Definition drawn (q : Z) (ms : list machine) : Z :=
  sum ((fun m => Maxprocs m * per_core q m) <$> ms).

Definition samples_ok (m : machine) : Prop :=
  0 <= Maxprocs m < 2 ^ 63 /\ Err_ m = None /\
  forall i n, Call_Sample m i n = Ok (Sample (rnd m i) n 0).

Lemma machine_calls_hits q m :
  0 <= q < 2 ^ 64 -> samples_ok m -> machine_calls q m = Ok <$> machine_hits q m.
Proof.
  intros Hq ((H0 & H1) & _ & Hc). unfold machine_calls, machine_hits. rewrite <- list_fmap_compose.
  apply list_fmap_ext. intros k i Hk. apply lookup_seq in Hk as [_ Hk]. rewrite Hc. simpl. f_equal.
  unfold u64, per_core. rewrite (Z.mod_small (Maxprocs m)) by lia.
  apply Sample_hits. split; [apply Z.div_pos; lia|].
  apply Z.div_lt_upper_bound; nia.
Qed.

Lemma replies_hits q ms :
  0 <= q < 2 ^ 64 -> Forall samples_ok ms ->
  ms ≫= machine_calls q = Ok <$> (ms ≫= machine_hits q).
Proof.
  intros Hq Hms. induction Hms as [|m ms Hm Hms IH]; [done|].
  rewrite !bind_cons, fmap_app, IH. by rewrite machine_calls_hits.
Qed.

Lemma errs_Ok l : errs (Ok <$> l) = [].
Proof. by induction l. Qed.

Lemma oks_Ok l : oks (Ok <$> l) = l.
Proof. unfold oks. induction l as [|z l IH]; [done|]. simpl. by f_equal. Qed.

Lemma sum_bounded l b : Forall (fun z => 0 <= z <= b) l -> 0 <= sum l <= Z.of_nat (length l) * b.
Proof. induction 1 as [|z l Hz Hl IH]; simpl length; simpl sum; unfold sum in *; simpl; lia. Qed.

Lemma machine_hits_bounded q m :
  0 <= q -> 0 <= Maxprocs m ->
  Forall (fun z => 0 <= z <= per_core q m) (machine_hits q m) /\
  length (machine_hits q m) = Z.to_nat (Maxprocs m).
Proof.
  intros Hq Hm. unfold machine_hits. split; [|by rewrite length_fmap, length_seq].
  apply Forall_fmap, Forall_forall. intros i [_ Hi]%elem_of_seq. simpl.
  pose proof (hits_le (rnd m i) (Z.to_nat (per_core q m))).
  assert (0 <= per_core q m) by (apply Z.div_pos; lia). lia.
Qed.

Lemma sum_cons z l : sum (z :: l) = z + sum l.
Proof. done. Qed.

Lemma drawn_cons q m ms : drawn q (m :: ms) = Maxprocs m * per_core q m + drawn q ms.
Proof. done. Qed.

Lemma hits_drawn q ms :
  0 <= q -> Forall samples_ok ms ->
  Forall (fun z => 0 <= z) (ms ≫= machine_hits q) /\
  0 <= sum (ms ≫= machine_hits q) <= drawn q ms /\
  drawn q ms <= Z.of_nat (length ms) * q.
Proof.
  intros Hq Hms. induction Hms as [|m ms ((H0 & H1) & _ & _) Hms (IH1 & IH2 & IH3)]; [by split|].
  destruct (machine_hits_bounded q m Hq H0) as [Hb Hl]. pose proof (sum_bounded _ _ Hb) as Hs.
  rewrite bind_cons, sum_app, drawn_cons. cbn [length]. rewrite Hl, Z2Nat.id in Hs by done.
  assert (Maxprocs m * per_core q m <= q).
  { unfold per_core. destruct (decide (Maxprocs m = 0)) as [->|]; [lia|]. apply Z.mul_div_le. lia. }
  split; [|lia]. apply Forall_app. split; [|done].
  eapply Forall_impl; [exact Hb|]. simpl. lia.
Qed.

(** Rounding loses less than a point per processor. *)
Lemma drawn_rounding q ms :
  0 <= q -> Forall (fun m => 0 < Maxprocs m) ms ->
  Z.of_nat (length ms) * q <= drawn q ms + sum (Maxprocs <$> ms) - Z.of_nat (length ms).
Proof.
  intros Hq Hms. induction Hms as [|m ms Hm Hms IH]; [done|].
  rewrite fmap_cons, sum_cons, drawn_cons. cbn [length].
  pose proof (Z.mod_pos_bound q (Maxprocs m) Hm). pose proof (Z.div_mod q (Maxprocs m)).
  unfold per_core in *. lia.
Qed.

(** C33. What bigpi prints.  When the machines come up and every call succeeds, the
    estimate is four times the number of sampled points inside the circle over
    the number of samples asked for, without overflow; it is between 0 and 4.
    The points actually drawn are at most as many; if all machines were started,
    fewer than one per machine and processor are missing.  (If fewer machines
    were started - B.Start may return fewer - their share is missing and is
    still divided by.) *)
Theorem bigpi_estimate nsamples nmachine ms :
  0 < nsamples < 2 ^ 61 -> 0 < nmachine < 2 ^ 63 -> Z.of_nat (length ms) <= nmachine ->
  Forall samples_ok ms ->
  let q := nsamples / nmachine in
  exists total,
    main nsamples nmachine (Ok ms) = Done (4 * total, nsamples) /\
    total = sum (ms ≫= machine_hits q) /\
    0 <= total <= drawn q ms /\ drawn q ms <= nsamples /\
    (Z.of_nat (length ms) = nmachine -> Forall (fun m => 0 < Maxprocs m) ms ->
     nsamples - drawn q ms < sum (Maxprocs <$> ms)).
Proof.
  intros Hn Hm Hlen Hms q. exists (sum (ms ≫= machine_hits q)).
  assert (Hq : 0 <= q <= nsamples)
    by (split; [apply Z.div_pos; lia|apply Z.div_le_upper_bound; nia]).
  assert (Hqn : nmachine * q <= nsamples) by (apply Z.mul_div_le; lia).
  assert (Hqm : nsamples < nmachine * q + nmachine)
    by (pose proof (Z.mod_pos_bound nsamples nmachine); pose proof (Z.div_mod nsamples nmachine);
        unfold q in *; lia).
  destruct (hits_drawn q ms (proj1 Hq) Hms) as (Hpos & Htot & Hdr).
  assert (Hdn : drawn q ms <= nsamples) by nia.
  split; [|split; [done|split; [done|split; [done|]]]].
  - unfold main. assert (omap Err_ ms = []) as ->.
    { clear -Hms. induction Hms as [|m ms (_ & He & _) Hms IH]; [done|]. simpl. by rewrite He. }
    assert (u64 nmachine <> 0) by (unfold u64; rewrite Z.mod_small; lia).
    rewrite decide_False by done. cbv zeta.
    assert (u64 nsamples / u64 nmachine = q) as -> by (unfold u64, q; by rewrite !Z.mod_small by lia).
    rewrite replies_hits, errs_Ok, oks_Ok, decide_False by first [done|lia].
    rewrite sum_u64_sum by first [done|lia]. unfold u64. rewrite Z.mod_small, wrap64_id by (unfold in_int64; lia).
    done.
  - intros Hl Hp. pose proof (drawn_rounding q ms (proj1 Hq) Hp). nia.
Qed.
End bigpi.
End Bigpi.

(** ** regress/test1 and regress/teststream *)

Module Regress.

(** Strings and ints as Go values, and that gob carries them: a string to the
    argument of a method, an int that was stored through a pointer to a variable
    of type int. *)
Class Basics {EL : ErrorsLib} {G : Gob} := {
  str_val : string -> gval;
  str_of : gval -> string;
  int_val : Z -> gval;
  int_of : gval -> Z;
  (** &n, for a variable n of type int that is zero *)
  int_zero : gval
}.

Class BasicsLaws {EL : ErrorsLib} {G : Gob} {GL : GobLaws EL G} {GB : Basics} := {
  str_encodes : forall s, exists b, Encode (SVal (str_val s)) = Ok b;
  str_fits : forall s, fits (NewValue (TBasic "string")) (str_val s);
  str_carried : forall s, str_of (indirect (str_val s)) = s;
  int_encodes : forall n, exists b, Encode (SVal (int_val n)) = Ok b;
  int_fits : forall n, fits (NewValue (TNamed "time.Duration" (TBasic "int64"))) (int_val n);
  ptr_encodes : forall p n, exists b, Encode (SVal (SetElem p (int_val n))) = Ok b;
  ptr_fits : forall p n, fits int_zero (SetElem p (int_val n));
  ptr_carried : forall p n, int_of (Deref (SetElem int_zero (indirect (SetElem p (int_val n))))) = n
}.

Section regress.
Context {EL : ErrorsLib} {G : Gob} {GL : GobLaws EL G} {GB : Basics} {GBL : BasicsLaws}.

(** service.Strlen of test1 *)
Definition Strlen : reflect_Method unit :=
  {| m_Name := "Strlen"; m_PkgPath := "";
     m_In := [TStruct "service"; typeOfContext; TBasic "string"; TPtr (TBasic "int")];
     m_Out := [typeOfError];
     m_Call := fun a r w =>
       (Returned None,
        match a, r with
        | ArgValue v, ReplyValue p => ReplyValue (SetElem p (int_val (Z.of_nat (String.length (str_of v)))))
        | _, _ => r
        end, w) |}.

(** service.Empty of teststream; the debug server it starts is left out. *)
Definition Empty : reflect_Method unit :=
  {| m_Name := "Empty"; m_PkgPath := "";
     m_In := [TStruct "service"; typeOfContext; TNamed "time.Duration" (TBasic "int64"); TPtr typeOfReadCloser];
     m_Out := [typeOfError];
     m_Call := fun _ _ w =>
       (Returned None,
        ReplyStream (Some {| rc_stream := {| st_chunks := []; st_end := None |}; rc_flush := false |}), w) |}.

(** main of test1, given what b.Start returned (the machines, by address; they
    are running when the call is made) and the call. *)
Definition test1 (started : result error (list string))
    (call : string -> string -> call_arg -> call_reply -> called) : ending error unit :=
  match started with
  | Err e => Fatals [e]
  | Ok [] => Panics "index out of range"
  | Ok (m :: _) =>
      let str := "hello world" in
      let res := call m "Service.Strlen" (ArgAny (str_val str)) (ReplyAny int_zero) in
      match ca_err res with
      | Some e => Fatals [e]
      | None =>
          let n := int_of (Deref (default int_zero (ca_reply res))) in
          if decide (n = Z.of_nat (String.length str)) then Done tt
          else Fatalf "got n, want len(str)"
      end
  end.

(** main of teststream; [reads] is how often the stream can be read in the
    three seconds after which the program gives up. *)
Definition teststream (reads : nat) (started : result error (list string))
    (call : string -> string -> call_arg -> call_reply -> called) : ending error unit :=
  match started with
  | Err e => Fatals [e]
  | Ok [] => Panics "index out of range"
  | Ok (m :: _) =>
      let res := call m "Service.Empty" (ArgAny (int_val 1000000000)) ReplyReadCloser in
      match ca_err res, ca_stream res with
      | Some e, _ => Fatals [e]
      | None, None => Panics "nil pointer dereference"
      | None, Some rc =>
          match read_stream reads rc with
          | None => Fatalf "should be dead by now"
          | Some (_, Some e) => Fatals [e]
          | Some (_, None) => Done tt
          end
      end
  end.

(** ** Lemmas *)

Lemma read_stream_more (r : response error) f f' x :
  (f <= f')%nat -> read_stream f r = Some x -> read_stream f' r = Some x.
Proof.
  revert f' r x. induction f as [|f IH]; intros f' r x Hle; [done|].
  destruct f' as [|f']; [lia|]. cbn [read_stream].
  destruct (streamReader_Read r) as [[[p err] r']|]; [|done]. destruct err; [|done|done].
  intros H. apply fmap_Some in H as (y & Hy & ->). by rewrite (IH f' r' y) by (lia || done).
Qed.

(** A stream that was read to EOF has ended, and without an error. *)
Lemma read_stream_EOF (r : response error) f b :
  read_stream f r = Some (b, None) -> endless r = false /\ stream_end r = None.
Proof.
  intros H. set (n := S (length (st_chunks (resp_Body r)))).
  apply (read_stream_more _ _ (f + n)) in H; [|lia].
  pose proof (read_stream_spec r) as Hs. destruct (endless r) eqn:He.
  - by rewrite read_stream_never in H.
  - apply (read_stream_more _ _ (f + n)) in Hs; [|fold n; lia]. split; [done|congruence].
Qed.

(** What it means that a program passes. *)
Lemma test1_passes started call :
  test1 started call = Done tt ->
  exists m rest, started = Ok (m :: rest) /\
    let res := call m "Service.Strlen" (ArgAny (str_val "hello world")) (ReplyAny int_zero) in
    ca_err res = None /\ int_of (Deref (default int_zero (ca_reply res))) = 11.
Proof.
  destruct started as [[|m rest]|e]; [done| |done]. unfold test1. intros H. exists m, rest. split; [done|].
  cbv zeta in *. destruct (ca_err _); [done|]. split; [done|]. by case_decide.
Qed.

Lemma teststream_passes reads started call :
  teststream reads started call = Done tt ->
  exists m rest r, started = Ok (m :: rest) /\
    let res := call m "Service.Empty" (ArgAny (int_val 1000000000)) ReplyReadCloser in
    ca_err res = None /\ ca_stream res = Some r /\ endless r = false /\ stream_end r = None.
Proof.
  destruct started as [[|m rest]|e]; [done| |done]. unfold teststream. cbv zeta. intros H.
  destruct (ca_err _) eqn:He; [done|]. destruct (ca_stream _) as [r|] eqn:Hs; [|done].
  exists m, rest, r. split; [done|]. rewrite He, Hs. split; [done|]. split; [done|].
  destruct (read_stream reads r) as [[b [e|]]|] eqn:Hr; [done| |done]. by apply read_stream_EOF in Hr.
Qed.

(** The machine serves a service under the name Service, at its address. *)
Variable url_path : string -> string.
Variables (flush : transport) (regs : list (string * list (reflect_Method unit))) (addr : string) (c : Client).

Definition serves (r : reflect_Method unit) : Prop :=
  registered regs "Service" = Some [r] /\
  forall sm, url_path (TrimRight addr SLASH +:+ prefix c +:+ sm) = "/bigrpc/" +:+ sm.

Definition target_ (r : reflect_Method unit) : target := {| t_service := "Service"; t_method := m_Name r |}.

Lemma serves_leads r :
  serves r -> eligible r = true -> has_byte SLASH (m_Name r) = false ->
  leads_to url_path (register_many regs) (target_ r)
    (TrimRight addr SLASH +:+ prefix c +:+ serviceMethod (target_ r)) (new_method r).
Proof.
  intros [Hr Hu] He Hs. split; [done|]. split; [done|]. split; [done|]. split; [by exists "/bigrpc"|].
  exists {| name := "Service"; methods := RpcServer.Init [r] |}.
  split; [rewrite register_many_lookup; cbn [t_service target_]; by rewrite Hr|].
  unfold RpcServer.Init. simpl. by rewrite He, lookup_insert_eq.
Qed.

(** m.Call of a running machine: the client's call over a connection that holds. *)
Definition machine_Call (m sm : string) (arg : call_arg) (rp : call_reply) : called :=
  (Call (connection url_path (register_many regs) flush) None m sm arg rp c tt).1.1.

Lemma test1_ends_well (rest : list string) :
  serves Strlen -> test1 (Ok (addr :: rest)) machine_Call = Done tt.
Proof.
  intros Hs. unfold test1, machine_Call.
  set (a := ArgAny (str_val "hello world")).
  assert (Hf : arg_fits (new_method Strlen) a).
  { split; [done|]. split; [apply str_encodes|]. simpl. apply str_fits. }
  set (p := NewValue (TBasic "int")).
  assert (Hrun : method_run (new_method Strlen) a tt =
                 (Returned None, ReplyValue (SetElem p (int_val 11)), tt)).
  { unfold method_run, received. simpl. by rewrite str_carried. }
  destruct (Call_meaning url_path (register_many regs) flush (target_ Strlen) addr a (ReplyAny int_zero) c tt
    _ _ _ _ (serves_leads _ Hs eq_refl eq_refl) Hf Hrun) as (c' & req & resp & Hcall & Hend & Hm).
  change "Service.Strlen" with (serviceMethod (target_ Strlen)). rewrite Hcall.
  destruct (ptr_encodes p 11) as [b HE].
  destruct (handle_value flush (TrimRight addr SLASH +:+ prefix c +:+ serviceMethod (target_ Strlen))
    (serviceMethod (target_ Strlen)) int_zero req resp _ b Hm Hend HE (ptr_fits p 11)) as [H1 H2].
  cbn [fst]. rewrite H1, H2. simpl. by rewrite ptr_carried.
Qed.

Lemma teststream_ends_well (rest : list string) :
  serves Empty ->
  exists n, forall reads, (n <= reads)%nat -> teststream reads (Ok (addr :: rest)) machine_Call = Done tt.
Proof.
  intros Hs. unfold teststream, machine_Call. set (a := ArgAny (int_val 1000000000)).
  assert (Hf : arg_fits (new_method Empty) a).
  { split; [done|]. split; [apply int_encodes|]. simpl. apply int_fits. }
  destruct (Call_meaning url_path (register_many regs) flush (target_ Empty) addr a ReplyReadCloser c tt
    _ _ _ _ (serves_leads _ Hs eq_refl eq_refl) Hf eq_refl) as (c' & req & resp & Hcall & Hend & Hm).
  change "Service.Empty" with (serviceMethod (target_ Empty)). rewrite Hcall.
  destruct (handle_stream flush (TrimRight addr SLASH +:+ prefix c +:+ serviceMethod (target_ Empty))
    (serviceMethod (target_ Empty)) req resp _ Hm Hend) as [H1 (r & H2 & Hd)].
  exists (S (length (st_chunks (resp_Body r)))). intros reads Hle.
  cbn [fst]. rewrite H1, H2. unfold delivers in Hd. simpl in Hd. rewrite trailer_value_empty in Hd.
  by rewrite (read_stream_more _ _ _ _ Hle Hd).
Qed.

End regress.

(** C32. The regression programs pass.  test1 starts a machine with a service
    that returns the length of a string, calls it and compares; teststream reads
    an empty reply stream to its end.  If b.Start returns a machine, the machine
    serves the program's service at its address, and the connection holds, then
    test1 returns without a failed check, and so does teststream if the stream
    can be read a certain number of times within its three seconds: neither
    argument, reply nor the end of the stream is lost on the way.  That the stream
    ends does not depend on the protocol, nor on the version of net/http2, because
    the trailer that ServeHTTP declares has a value in every case.  And they do not
    pass for nothing: whatever calls return, test1 passes only if its call has no
    error and the right length, and teststream only if the end of the stream arrived
    without an error. *)
Theorem regression_programs_pass `{GBL : BasicsLaws} (url_path : string -> string) (flush : transport)
    (regs1 regs2 : list (string * list (reflect_Method unit))) (addr : string) (rest : list string)
    (c : Client) :
  serves url_path regs1 addr c Strlen -> serves url_path regs2 addr c Empty ->
  test1 (Ok (addr :: rest)) (machine_Call url_path flush regs1 c) = Done tt /\
  (exists n, forall reads, (n <= reads)%nat ->
     teststream reads (Ok (addr :: rest)) (machine_Call url_path flush regs2 c) = Done tt) /\
  (forall started call, test1 started call = Done tt ->
     exists m ms, started = Ok (m :: ms) /\
       let res := call m "Service.Strlen" (ArgAny (str_val "hello world")) (ReplyAny int_zero) in
       ca_err res = None /\ int_of (Deref (default int_zero (ca_reply res))) = 11) /\
  (forall reads started call, teststream reads started call = Done tt ->
     exists m ms r, started = Ok (m :: ms) /\
       let res := call m "Service.Empty" (ArgAny (int_val 1000000000)) ReplyReadCloser in
       ca_err res = None /\ ca_stream res = Some r /\ endless r = false /\ stream_end r = None).
Proof.
  intros H1 H2. split_and!; [by apply test1_ends_well|by apply teststream_ends_well| |].
  - apply test1_passes.
  - apply teststream_passes.
Qed.

(** ** Sample programs *)

Module Samples.

(** Ints as binary strings with a sign. *)
Fixpoint bits (p : positive) : string :=
  match p with
  | xH => ""
  | xO p => String "0"%char (bits p)
  | xI p => String "1"%char (bits p)
  end.

Fixpoint unbits (s : string) : positive :=
  match s with
  | "" => xH
  | String "1"%char s => xI (unbits s)
  | String _ s => xO (unbits s)
  end.

Lemma unbits_bits p : unbits (bits p) = p.
Proof. induction p as [p IH|p IH|]; simpl; by rewrite ?IH. Qed.

Definition show (n : Z) : string :=
  match n with Z0 => "" | Zpos p => String "+"%char (bits p) | Zneg p => String "-"%char (bits p) end.

Definition read (s : string) : Z :=
  match s with
  | "" => 0
  | String "-"%char s => Zneg (unbits s)
  | String _ s => Zpos (unbits s)
  end.

Lemma read_show n : read (show n) = n.
Proof. destruct n; simpl; by rewrite ?unbits_bits. Qed.

#[export] Instance SimpleBasics : @Basics SimpleErrors SimpleGob := {|
  str_val := SStr;
  str_of := fun v => match v with SStr s => s | _ => "" end;
  int_val := fun n => SStr (show n);
  int_of := fun v => match v with SStr s => read s | _ => 0 end;
  int_zero := SPtr (SStr "")
|}.

#[export] Instance SimpleBasics_laws : @BasicsLaws SimpleErrors SimpleGob SimpleGob_laws SimpleBasics.
Proof.
  refine {| str_encodes := _ |}; simpl; try (intros; by eexists); try done.
  - intros p n. destruct p; by eexists.
  - intros p n. destruct p; simpl; apply read_show.
Defined.

Definition regs_of (r : reflect_Method unit) : list (string * list (reflect_Method (EL := SimpleErrors) unit)) :=
  [("Supervisor", []); ("Service", [r])].

(** net/url on the machine's URLs: what follows the host. *)
Definition path_of (u : string) : string :=
  String.substring (String.length "https://localhost:4000")
    (String.length u - String.length "https://localhost:4000")%nat u.

Lemma sample_serves r :
  serves path_of (regs_of r) "https://localhost:4000/" (NewClient "/bigrpc/") r.
Proof.
  split; [done|]. intros sm. unfold path_of.
  change (TrimRight "https://localhost:4000/" SLASH +:+ prefix (NewClient "/bigrpc/") +:+ sm)
    with ("https://localhost:4000" +:+ ("/bigrpc/" +:+ sm)).
  apply substring_app.
Qed.

Lemma regression_programs_pass_witness :
  test1 (Ok ["https://localhost:4000/"])
    (machine_Call path_of http2 (regs_of Strlen) (NewClient "/bigrpc/")) = Done tt /\
  exists n, forall reads, (n <= reads)%nat ->
    teststream reads (Ok ["https://localhost:4000/"])
      (machine_Call path_of http2 (regs_of Empty) (NewClient "/bigrpc/")) = Done tt.
Proof.
  destruct (regression_programs_pass path_of http2 (regs_of Strlen) (regs_of Empty)
    "https://localhost:4000/" [] (NewClient "/bigrpc/")) as (H1 & H2 & _); [apply sample_serves..|].
  split; [exact H1|exact H2].
Defined.

(** A machine with two processors that samples three points on each, one of them
    in a corner. *)
Definition sample_machine : Bigpi.machine (error := serror) :=
  {| Bigpi.Maxprocs := 2; Bigpi.Err_ := None;
     Bigpi.Call_Sample := fun i n => Ok (Bigpi.Sample (fun k =>
       if decide (k = 0%nat) then (S754_zero false, S754_zero false)
       else (Bigpi.half, Bigpi.half)) n 0) |}.

Definition sample_rnd (m : Bigpi.machine (error := serror)) (i k : nat) : Bigpi.f64 * Bigpi.f64 :=
  if decide (k = 0%nat) then (S754_zero false, S754_zero false) else (Bigpi.half, Bigpi.half).

(** Seven samples on one machine with two processors: six are drawn, four hit. *)
Theorem bigpi_estimate_witness :
  Bigpi.main 7 1 (Ok [sample_machine]) = Done (16, 7).
Proof.
  destruct (Bigpi.bigpi_estimate sample_rnd 7 1 [sample_machine]) as (total & H & Ht & _);
    [lia|lia|done|repeat constructor; try done; simpl; lia|].
  rewrite H, Ht. reflexivity.
Defined.

End Samples.
End Regress.
