(* ===== verification/Supervisor.v ===== *)
(** supervisor.go: the system service of every machine.  Replacing the
    process (Setenv, Setargs, Setbinary, GetBinary, Exec), registering
    services, keepalives and the watchdog, profiles, shutdown and expvars.

    The operating system is explicit: the process's arguments, environment and
    files are part of the state, and the answers of the file system are
    arguments.  What the supervisor reports (Info, MemInfo, Profile and
    the like) is in Reports.v, and its goroutines together are in Watchdog.v. *)
From S2P Require Import Prelude Errors GoStrings Wire RpcServer.
From Stdlib Require Import Ascii QArith.
Local Open Scope string_scope.
Local Open Scope list_scope.
Local Open Scope Z_scope.

(** Durations and times are in nanoseconds. *)
Definition second : Z := 1000000000.
Definition minute : Z := 60 * second.

Section supervisor.
Context {EL : ErrorsLib}.

(** ** Replacing the process *)

(** A file: its contents and whether it may be executed. *)
Record file := { f_data : string; f_exec : bool }.

(** The supervisor with what it shares with the operating system. *)
Record sup := {
  binaryPath : string;
  environ : list string;
  os_Args : list string;
  os_Environ : list string;
  os_files : gmap string file
}.

(** Supervisor.Setargs *)
Definition Setargs (args : list string) (s : sup) : sup :=
  {| binaryPath := binaryPath s; environ := environ s; os_Args := args;
     os_Environ := os_Environ s; os_files := os_files s |}.

(** Supervisor.Setenv *)
Definition Setenv (env : list string) (s : sup) : sup :=
  {| binaryPath := binaryPath s; environ := env; os_Args := os_Args s;
     os_Environ := os_Environ s; os_files := os_files s |}.

Definition set_files (fs : gmap string file) (s : sup) : sup :=
  {| binaryPath := binaryPath s; environ := environ s; os_Args := os_Args s;
     os_Environ := os_Environ s; os_files := fs |}.

Definition set_binaryPath (p : string) (s : sup) : sup :=
  {| binaryPath := p; environ := environ s; os_Args := os_Args s;
     os_Environ := os_Environ s; os_files := os_files s |}.

(** What the file system answers during a Setbinary: the name of the new
    temporary file, how many bytes fit before a write fails, and the results
    of Close and Chmod. *)
Record fs_answers := {
  fs_TempFile : result error string;
  fs_write : option (nat * error);
  fs_Close : option error;
  fs_Chmod : option error
}.

(** io.Copy into the file: the data written and the error. *)
Definition copy_to_file (room : option (nat * error)) (binary : stream error) :
    string * option error :=
  match room with
  | Some (n, e) =>
      if decide (n < String.length (st_bytes binary))%nat
      then (String.substring 0 n (st_bytes binary), Some e)
      else (st_bytes binary, st_end binary)
  | None => (st_bytes binary, st_end binary)
  end.

(** Supervisor.Setbinary *)
Definition Setbinary (fs : fs_answers) (binary : stream error) (s : sup) : option error * sup :=
  match fs_TempFile fs with
  | Err e => (Some e, s)
  | Ok path =>
      let '(data, err) := copy_to_file (fs_write fs) binary in
      let s := set_files (<[path := {| f_data := data; f_exec := false |}]> (os_files s)) s in
      match err with
      | Some e => (Some e, s)
      | None =>
          match fs_Close fs with
          | Some e => (Some e, set_files (delete path (os_files s)) s)
          | None =>
              match fs_Chmod fs with
              | Some e => (Some e, set_files (delete path (os_files s)) s)
              | None =>
                  let s := set_files (<[path := {| f_data := data; f_exec := true |}]> (os_files s)) s in
                  (None, set_binaryPath path s)
              end
          end
      end
  end.

(** Supervisor.GetBinary: the reply stream and the error.  When os.Open fails
    the reply still holds a non-nil ReadCloser, a nil *os.File, whose reads
    fail with os.ErrInvalid; [ErrInvalid] and [open_err] are the errors of
    package os. *)
Definition GetBinary (ErrInvalid : error) (open_err : string -> error) (s : sup) :
    option readcloser * option error :=
  if decide (binaryPath s = "") then
    (None, Some (E [AKind Invalid; AMsg "Supervisor.GetBinary: no binary set"]))
  else
    match os_files s !! binaryPath s with
    | Some f => (Some {| rc_stream := buffer (f_data f); rc_flush := false |}, None)
    | None =>
        (Some {| rc_stream := {| st_chunks := []; st_end := Some ErrInvalid |}; rc_flush := false |},
         Some (open_err (binaryPath s)))
    end.

(** How Exec ends: the process is replaced by an image with arguments and
    environment, or Exec returns an error. *)
Inductive exec_outcome :=
| Replaced (image : string) (args env : list string)
| ExecFailed (e : error).

(** What the operating system says to execve: the error for a path without an
    executable file (ENOENT, EACCES), and whether it refuses an executable file with
    these contents (as ENOEXEC does what is not an image for the machine), at this
    path, with these arguments and environment (as E2BIG does). *)
Record kernel := {
  execve_denied : string -> error;
  execve_refuses : string -> string -> list string -> list string -> option error
}.

(** syscall.Exec *)
Definition syscall_Exec (kern : kernel) (s : sup) (path : string)
    (args env : list string) : exec_outcome :=
  match os_files s !! path with
  | Some f =>
      if f_exec f then
        match execve_refuses kern path (f_data f) args env with
        | Some e => ExecFailed e
        | None => Replaced (f_data f) args env
        end
      else ExecFailed (execve_denied kern path)
  | None => ExecFailed (execve_denied kern path)
  end.

(** Supervisor.Exec *)
Definition Exec (kern : kernel) (s : sup) : exec_outcome :=
  let env := os_Environ s ++ environ s in
  let path := binaryPath s in
  if decide (path = "") then
    ExecFailed (E [AKind Invalid; AMsg "Supervisor.Exec: no binary set"])
  else syscall_Exec kern s path (os_Args s) env.

(** os.Getenv in the new process: the Go runtime keeps the first mention of a
    key; strings without an = are passed over. *)
Definition defines (key kv : string) : Prop := exists v, SplitN2 kv "="%char = (key, Some v).

#[global] Instance defines_dec key kv : Decision (defines key kv).
Proof.
  destruct (SplitN2 kv "="%char) as [k [v|]] eqn:E.
  - destruct (decide (k = key)) as [<-|Hne]; [left; by exists v|].
    right. intros [v' Hv]. rewrite E in Hv. by injection Hv.
  - right. intros [v' Hv]. by rewrite E in Hv.
Defined.

Definition Getenv (env : list string) (key : string) : string :=
  match list_find (defines key) env with
  | Some (_, kv) => default "" (SplitN2 kv "="%char).2
  | None => ""
  end.

(** ** Services *)

Section services.
Context {G : Gob} {W : Type}.

(** A service instance as Register receives it: its methods and, if it has the
    method Init( *B) error, what that does. *)
Record instance := {
  i_methods : list (reflect_Method W);
  i_Init : option (W -> option error * W)
}.

(** maybeInit *)
Definition maybeInit (i : instance) (w : W) : option error * W :=
  match i_Init i with
  | None => (None, w)
  | Some init => init w
  end.

(** Supervisor.Register *)
Definition SupRegister (name : string) (i : instance) (srv : Server W) (w : W) :
    option error * Server W * W :=
  let srv := RpcServer.Register name (i_methods i) srv in
  let '(err, w) := maybeInit i w in
  (err, srv, w).
End services.

(** ** Keepalives and the watchdog *)

Definition memProfilePeriod : Z := minute.

(** The watchdog's variables and the supervisor's health flag.  [exits] are the
    times at which system.Exit(1) was called. *)
Record watchdog_state := {
  wd_next : Z;
  lastMemProfile : option Z;
  healthy : bool;
  exits : list Z
}.

(** StartSupervisor and the initialisation of watchdog: two minutes until the
    first keepalive must have come. *)
Definition StartSupervisor (now : Z) : watchdog_state :=
  {| wd_next := now + 2 * minute; lastMemProfile := None; healthy := true; exits := [] |}.

(** What wakes the watchdog up: its ticker, or a keepalive with the time it
    extends the lease to. *)
Inductive wakeup := WTick | WNext (t : Z).

(** One round of the loop of watchdog, at time [now]; [vm] is the answer of
    mem.VirtualMemory (the percentage used), should it be asked. *)
Definition watchdog_round (ev : wakeup) (now : Z) (vm : result error Q) (s : watchdog_state) :
    watchdog_state :=
  let next := match ev with WTick => wd_next s | WNext t => t end in
  let ex := if decide (now - next > 0) then exits s ++ [now] else exits s in
  let due := match lastMemProfile s with
             | None => true
             | Some t => bool_decide (now - t > memProfilePeriod)
             end in
  if due then
    match vm with
    | Err _ => {| wd_next := next; lastMemProfile := lastMemProfile s; healthy := healthy s; exits := ex |}
    | Ok used =>
        {| wd_next := next; lastMemProfile := Some now;
           healthy := Qle_bool used (95 # 1); exits := ex |}
    end
  else {| wd_next := next; lastMemProfile := lastMemProfile s; healthy := healthy s; exits := ex |}.

(** A run of the watchdog. *)
Definition watchdog (l : list (wakeup * Z * result error Q)) (s : watchdog_state) : watchdog_state :=
  foldl (fun s '(ev, now, vm) => watchdog_round ev now vm s) s l.

Record keepaliveReply := { Next : Z; Healthy : bool }.

(** Supervisor.Keepalive called at [now] with the interval [next], where the
    watchdog takes the new lease at [taken]; the reply is made at [replied]. *)
Definition Keepalive_lease (now next : Z) : Z := now + next.
Definition Keepalive_reply (lease replied : Z) (s : watchdog_state) : keepaliveReply :=
  {| Next := lease - replied; Healthy := healthy s |}.

(** ** Profiles, expvars, shutdown *)

(** isContextAliveFor, with the deadline of the context if it has one. *)
Definition isContextAliveFor (deadline : option Z) (now dur : Z) : bool :=
  match deadline with
  | None => true
  | Some d => bool_decide (dur <= d - now)
  end.

(** Supervisor.CPUProfile: the duration profiled, or an error. *)
Definition CPUProfile (deadline : option Z) (now dur : Z) : result error Z :=
  let dur := if decide (dur = 0) then 30 * second else dur in
  if isContextAliveFor deadline now dur then Ok dur
  else Err (New "context is too short for duration").

(** Supervisor.Shutdown: the exit it schedules, as a delay and an exit code. *)
Definition Shutdown (delay : Z) : Z * Z := (delay, 1).

(** Expvars.MarshalJSON before the encoding: later entries win. *)
Definition Expvars_map (e : list (string * string)) : gmap string string :=
  foldl (fun m '(k, v) => <[k := v]> m) ∅ e.

End supervisor.

(** ** Replacing the process *)

Section replacing.
Context {EL : ErrorsLib}.
Implicit Types s : sup.

(** No upload has happened, or its file is there. *)
Definition upload_ok s : Prop := binaryPath s = "" \/ is_Some (os_files s !! binaryPath s).

(** TempFile creates a file that did not exist. *)
Definition fresh_temp (fs : fs_answers) s : Prop :=
  forall path, fs_TempFile fs = Ok path ->
    path <> "" /\ os_files s !! path = None /\ path <> binaryPath s.

Lemma GetBinary_same Einv Eopen s s' :
  binaryPath s' = binaryPath s -> os_files s' !! binaryPath s = os_files s !! binaryPath s ->
  GetBinary Einv Eopen s' = GetBinary Einv Eopen s.
Proof. intros Hp Hf. unfold GetBinary. by rewrite Hp, Hf. Qed.

Lemma Exec_same Ex s s' :
  binaryPath s' = binaryPath s -> os_files s' !! binaryPath s = os_files s !! binaryPath s ->
  os_Args s' = os_Args s -> os_Environ s' = os_Environ s -> environ s' = environ s ->
  Exec Ex s' = Exec Ex s.
Proof. intros Hp Hf Ha He He'. unfold Exec, syscall_Exec. by rewrite Hp, Hf, Ha, He, He'. Qed.

(** What a successful Setbinary did. *)
Lemma Setbinary_Ok fs binary s s' :
  Setbinary fs binary s = (None, s') ->
  st_end binary = None /\ exists path, fs_TempFile fs = Ok path /\
    s' = set_binaryPath path (set_files (<[path := {| f_data := st_bytes binary; f_exec := true |}]>
           (<[path := {| f_data := st_bytes binary; f_exec := false |}]> (os_files s))) s).
Proof.
  unfold Setbinary. destruct (fs_TempFile fs) as [path|e] eqn:Ht; [|done].
  destruct (copy_to_file (fs_write fs) binary) as [data [e|]] eqn:Hcopy; [done|].
  destruct (fs_Close fs); [done|]. destruct (fs_Chmod fs); [done|]. intros [= <-].
  assert (data = st_bytes binary /\ st_end binary = None) as [-> Hend].
  { unfold copy_to_file in Hcopy. destruct (fs_write fs) as [[n e]|]; [case_decide|]; by simplify_eq. }
  split; [done|]. by exists path.
Qed.

(** C15. An upload takes effect entirely or not at all.  If Setbinary returns
    nil, then - whatever the arguments and the environment set before or after
    it - Exec asks the operating system to replace the process by exactly the
    uploaded bytes, with those arguments and with the process environment followed
    by the variables of Setenv: the process is replaced by them, or Exec returns the
    error of the operating system, if it refuses them.  GetBinary streams exactly
    the uploaded bytes, and Setbinary returns nil only if all of the stream was read
    and stored.  If it returns an error, the
    image Exec would run and the one GetBinary streams are the ones of the last
    successful upload. *)
Theorem Setbinary_all_or_nothing Einv Eopen Ex fs binary s args env :
  upload_ok s -> fresh_temp fs s ->
  let '(err, s') := Setbinary fs binary s in
  upload_ok s' /\
  match err with
  | None =>
      st_end binary = None /\
      Exec Ex (Setargs args (Setenv env s')) =
        match execve_refuses Ex (binaryPath s') (st_bytes binary) args (os_Environ s ++ env) with
        | Some e => ExecFailed e
        | None => Replaced (st_bytes binary) args (os_Environ s ++ env)
        end /\
      exists rc, GetBinary Einv Eopen s' = (Some rc, None) /\
        st_bytes (rc_stream rc) = st_bytes binary /\ st_end (rc_stream rc) = None
  | Some _ =>
      Exec Ex s' = Exec Ex s /\ GetBinary Einv Eopen s' = GetBinary Einv Eopen s
  end.
Proof.
  intros Hok Hfresh. unfold Setbinary.
  destruct (fs_TempFile fs) as [path|e] eqn:Ht; [|by split].
  destruct (Hfresh path Ht) as (Hne & Hnew & Hdiff).
  assert (Hsame : forall fs', fs' !! binaryPath s = os_files s !! binaryPath s ->
    upload_ok (set_files fs' s) /\ Exec Ex (set_files fs' s) = Exec Ex s /\
    GetBinary Einv Eopen (set_files fs' s) = GetBinary Einv Eopen s).
  { intros fs' Hf. split; [unfold upload_ok; simpl; by rewrite Hf|].
    split; [by apply Exec_same|by apply GetBinary_same]. }
  destruct (copy_to_file (fs_write fs) binary) as [data err] eqn:Hcopy.
  assert (Hins : forall f, <[path := f]> (os_files s) !! binaryPath s = os_files s !! binaryPath s)
    by (intros f; by apply lookup_insert_ne).
  assert (Hdel : forall f, delete path (<[path := f]> (os_files s)) !! binaryPath s =
                           os_files s !! binaryPath s)
    by (intros f; by rewrite lookup_delete_ne, lookup_insert_ne).
  destruct err as [e|]; [apply (Hsame _ (Hins _))|].
  destruct (fs_Close fs) as [e|]; [apply (Hsame _ (Hdel _))|].
  destruct (fs_Chmod fs) as [e|]; [apply (Hsame _ (Hdel _))|].
  assert (Hdata : data = st_bytes binary /\ st_end binary = None).
  { unfold copy_to_file in Hcopy. destruct (fs_write fs) as [[n e]|]; [case_decide|]; by simplify_eq. }
  destruct Hdata as [-> Hend].
  split; [right; simpl; by rewrite lookup_insert_eq; eexists|]. split; [done|]. split.
  - unfold Exec, syscall_Exec. simpl. rewrite decide_False by done. by rewrite lookup_insert_eq.
  - eexists. unfold GetBinary. simpl. rewrite decide_False by done. rewrite lookup_insert_eq.
    split; [done|]. simpl. unfold st_bytes at 1. simpl. by rewrite sapp_nil_r.
Qed.

Lemma Getenv_old l env key kv :
  kv ∈ l -> defines key kv -> Getenv (l ++ env) key = Getenv l key.
Proof.
  intros Hin Hk. unfold Getenv.
  destruct (list_find (defines key) l) as [[i x]|] eqn:Hf.
  - by rewrite (list_find_app_l _ _ _ _ _ Hf).
  - eapply list_find_None, Forall_forall in Hf; [|exact Hin]. done.
Qed.

Lemma Getenv_new l env key :
  (forall kv, kv ∈ l -> defines key kv -> False) -> Getenv (l ++ env) key = Getenv env key.
Proof.
  intros Hnone. unfold Getenv. rewrite list_find_app_r.
  - by destruct (list_find _ env) as [[i x]|].
  - apply list_find_None, Forall_forall. auto.
Qed.

(** Setenv does not override.  In the process Exec starts, a key that the
    old process environment already defined has its old value, whatever Setenv
    was given; the variables of Setenv take effect only for new keys (and of
    several for one key, the first counts). *)
Lemma Setenv_does_not_override Ex s env image args envp key :
  Exec Ex (Setenv env s) = Replaced image args envp ->
  (forall kv, kv ∈ os_Environ s -> defines key kv -> Getenv envp key = Getenv (os_Environ s) key) /\
  ((forall kv, kv ∈ os_Environ s -> defines key kv -> False) -> Getenv envp key = Getenv env key).
Proof.
  intros HE.
  assert (envp = os_Environ s ++ env) as ->.
  { unfold Exec, syscall_Exec in HE. case_decide; [done|].
    destruct (os_files _ !! _) as [f|]; [|done]. destruct (f_exec f); [|done].
    destruct (execve_refuses _ _ _ _ _); by simplify_eq/=. }
  split; [intros kv; apply Getenv_old|apply Getenv_new].
Qed.
End replacing.

(** ** Registering twice *)

Section registering.
Context {EL : ErrorsLib} {G : Gob} {W : Type}.

(** When Init of a new service fails, the service stays registered, and a
    repeated Register (Machine.loop retries it) initialises the instance it
    brings while the one that is served remains the first, whose Init failed. *)
Lemma retried_registration name (i1 i2 : instance (G := G) (W := W)) srv w e srv1 w1 :
  services srv !! name = None ->
  SupRegister name i1 srv w = (Some e, srv1, w1) ->
  services srv1 !! name = Some {| RpcServer.name := name; methods := RpcServer.Init (i_methods i1) |} /\
  SupRegister name i2 srv1 w1 = ((maybeInit i2 w1).1, srv1, (maybeInit i2 w1).2).
Proof.
  unfold SupRegister, RpcServer.Register. intros Hn. rewrite Hn.
  destruct (maybeInit i1 w) as [err w']. intros [= _ <- _]. cbn [services].
  rewrite lookup_insert_eq. split; [done|]. by destruct (maybeInit i2 w1).
Qed.
End registering.

(** ** The watchdog *)

Section watchdog_theorems.
Context {EL : ErrorsLib}.
Implicit Types l : list (wakeup * Z * result error Q).

(** The lease in force after the wake-ups [l]: the last keepalive's, or the
    initial one. *)
Definition lease_after (t0 : Z) l : Z :=
  default (t0 + 2 * minute)
    (last (omap (fun e => match e.1.1 with WNext t => Some t | WTick => None end) l)).

Lemma watchdog_snoc l e s :
  watchdog (l ++ [e]) s = watchdog_round e.1.1 e.1.2 e.2 (watchdog l s).
Proof. unfold watchdog. rewrite foldl_snoc. by destruct e as [[ev now] vm]. Qed.

Lemma round_next ev now vm s :
  wd_next (watchdog_round ev now vm s) = match ev with WTick => wd_next s | WNext t => t end.
Proof.
  unfold watchdog_round. by destruct (match lastMemProfile s with None => _ | _ => _ end), vm.
Qed.

Lemma round_exits ev now vm s :
  exits (watchdog_round ev now vm s) =
    if decide (now - match ev with WTick => wd_next s | WNext t => t end > 0)
    then exits s ++ [now] else exits s.
Proof.
  unfold watchdog_round. by destruct (match lastMemProfile s with None => _ | _ => _ end), vm.
Qed.

Lemma watchdog_next t0 l : wd_next (watchdog l (StartSupervisor t0)) = lease_after t0 l.
Proof.
  induction l as [|e l IH] using rev_ind; [done|].
  rewrite watchdog_snoc, round_next, IH. unfold lease_after. rewrite omap_app.
  destruct e as [[[|t] now] vm]; simpl; [by rewrite app_nil_r|by rewrite last_snoc].
Qed.

(** The watchdog's verdicts.  At every wake-up the watchdog exits the
    process if and only if the lease has run out: the lease is the time the
    last keepalive extended it to, or two minutes from the start if none has
    come; a keepalive that arrives late, but before the next tick, still saves
    the process. *)
Theorem watchdog_verdict t0 l ev now vm :
  exits (watchdog (l ++ [(ev, now, vm)]) (StartSupervisor t0)) =
    exits (watchdog l (StartSupervisor t0)) ++
      if decide (lease_after t0 (l ++ [(ev, now, vm)]) < now) then [now] else [].
Proof.
  rewrite <- watchdog_next, watchdog_snoc. simpl. rewrite round_exits, round_next.
  set (next := match ev with WTick => _ | WNext t => t end).
  destruct (decide (now - next > 0)); destruct (decide (next < now)); try lia; [done|].
  by rewrite app_nil_r.
Qed.

(** The health flag is fresh.  While memory can be measured, after every
    wake-up the flag is the verdict (at most 95 percent of memory used) of a
    measurement that was made at one of the wake-ups, no more than a minute
    before. *)
Lemma health_is_fresh t0 l ev now vm :
  (forall e, e ∈ l ++ [(ev, now, vm)] -> exists used, e.2 = Ok used) ->
  let s := watchdog (l ++ [(ev, now, vm)]) (StartSupervisor t0) in
  exists ev' t used,
    ((ev', t, Ok used) ∈ l ++ [(ev, now, vm)]) /\
    lastMemProfile s = Some t /\ now - t <= memProfilePeriod /\ healthy s = Qle_bool used (95 # 1).
Proof.
  revert ev now vm. induction l as [|[[ev1 now1] vm1] l IH] using rev_ind; intros ev now vm Hall s;
    unfold s; rewrite watchdog_snoc; cbn [fst snd].
  - destruct (Hall (ev, now, vm)) as [used Hvm]; [set_solver|]. simpl in Hvm. subst vm.
    exists ev, now, used. split; [set_solver|]. unfold watchdog_round. simpl. split; [done|]. split; [unfold memProfilePeriod, minute, second; lia|done].
  - destruct (IH ev1 now1 vm1) as (ev' & t & used & Hin & Hlast & Hfresh & Hh).
    { intros e He. apply Hall. set_solver. }
    set (s1 := watchdog _ _) in *. unfold watchdog_round. rewrite Hlast.
    case_bool_decide as Hdue.
    + destruct (Hall (ev, now, vm)) as [used' Hvm]; [set_solver|]. simpl in Hvm. subst vm.
      exists ev, now, used'. split; [set_solver|]. simpl. split; [done|].
      split; [unfold memProfilePeriod, minute, second; lia|done].
    + exists ev', t, used. split; [set_solver|]. simpl. split; [done|]. split; [lia|done].
Qed.

End watchdog_theorems.

(** ** Sample runs *)

Module Samples.

Definition sample_sup : sup :=
  {| binaryPath := ""; environ := []; os_Args := ["boot"];
     os_Environ := ["HOME=/root"; "MODE=machine"]; os_files := ∅ |}.

Definition good_fs : fs_answers (EL := SimpleErrors) :=
  {| fs_TempFile := Ok "/tmp/1"; fs_write := None; fs_Close := None; fs_Chmod := None |}.

(** An operating system that runs what begins as an ELF file does. *)
Definition linux : kernel (EL := SimpleErrors) := {|
  execve_denied := fun p => SOther ("exec " +:+ p);
  execve_refuses := fun _ data _ _ =>
    if decide (String.substring 0 3 data = "ELF") then None else Some (SOther "exec format error")
|}.

Lemma Setbinary_all_or_nothing_witness :
  Exec linux (Setargs ["prog"] (Setenv ["X=1"] (Setbinary good_fs (buffer "ELF") sample_sup).2)) =
    Replaced "ELF" ["prog"] ["HOME=/root"; "MODE=machine"; "X=1"].
Proof.
  pose proof (Setbinary_all_or_nothing (SOther "invalid") (execve_denied linux) linux good_fs (buffer "ELF")
    sample_sup ["prog"] ["X=1"] (or_introl eq_refl)) as H.
  refine (proj1 (proj2 (proj2 (H _)))). intros path [= <-]. done.
Defined.

(** An upload that is not an image. *)
Example not_an_image :
  Exec linux (Setbinary good_fs (buffer "#") sample_sup).2 = ExecFailed (SOther "exec format error").
Proof. reflexivity. Qed.

End Samples.
