(* ===== verification/Keepalive.v ===== *)
(** The keepalive protocol between the two sides: the owner's loop
    (machine.go, MachineLoop) that sends Supervisor.Keepalive, and the
    watchdog of the supervisor (supervisor.go, Supervisor) that exits the
    process when its lease runs out.  Time is that of one common clock. *)
From S2P Require Import Prelude Errors MachineLoop Supervisor.
From Stdlib Require Import QArith.
Local Open Scope Z_scope.

Section keepalive.
Context {EL : ErrorsLib}.

(** One keepalive of the owner: when the call was sent, when the handler read
    the clock, when the watchdog took the lease, when the reply was computed,
    and when the owner had it. *)
Record beat := {
  b_sent : Z;
  b_handled : Z;
  b_taken : Z;
  b_replied : Z;
  b_back : Z
}.

Definition beat_ok (b : beat) : Prop :=
  b_sent b <= b_handled b <= b_taken b /\ b_taken b <= b_replied b <= b_back b.

(** The lease a beat asks for: five minutes, as machine.go does. *)
Definition b_lease (b : beat) : Z := Keepalive_lease (b_handled b) (5 * Minute).

(** How long the owner pauses after a beat. *)
Definition b_pause (period : Z) (s : watchdog_state) (b : beat) : Z :=
  keepalive_pause period (Supervisor.Next (Keepalive_reply (b_lease b) (b_replied b) s)).

(** The owner's schedule: the next call is sent when the pause is over and the
    dumps of an unhealthy machine (of length [dump]) are written. *)
Fixpoint schedule (period : Z) (s : watchdog_state) (b : beat) (rest : list (Z * beat)) : Prop :=
  match rest with
  | [] => True
  | (dump, b') :: rest =>
      beat_ok b' /\ b_sent b' <= b_back b + Z.max (b_pause period s b) dump /\
      schedule period s b' rest
  end.

(** Calls and dumps are fast enough: dumps fit in half a period, and between
    the clock reading of one beat and the taking of the next, all calls
    together use at most five minutes less half a period. *)
Fixpoint prompt (period : Z) (b : beat) (rest : list (Z * beat)) : Prop :=
  match rest with
  | [] => True
  | (dump, b') :: rest =>
      dump <= Z.quot period 2 /\
      (b_back b - b_handled b) + (b_taken b' - b_sent b') <= 5 * Minute - Z.quot period 2 /\
      b_taken b' - b_handled b' <= 5 * Minute /\
      prompt period b' rest
  end.

(** The leases the watchdog takes, with the times it takes them. *)
Definition deliveries (l : list (wakeup * Z * result error Q)) : list (Z * Z) :=
  omap (fun e => match e.1.1 with WNext t => Some (e.1.2, t) | WTick => None end) l.

Definition delivery (b : beat) : Z * Z := (b_taken b, b_lease b).

(** The end of the last lease. *)
Definition last_lease (b : beat) (rest : list (Z * beat)) : Z :=
  b_lease (default b (snd <$> last rest)).

(** Wake-ups happen in order, none before [t]. *)
Fixpoint ordered (t : Z) (l : list (wakeup * Z * result error Q)) : Prop :=
  match l with
  | [] => True
  | e :: l => t <= e.1.2 /\ ordered e.1.2 l
  end.

(** The time of the last wake-up. *)
Fixpoint last_wakeup (t : Z) (l : list (wakeup * Z * result error Q)) : Z :=
  match l with
  | [] => t
  | e :: l => last_wakeup e.1.2 l
  end.

(** The ticker is running: no two wake-ups are more than 30 seconds apart. *)
Fixpoint ticking (t : Z) (l : list (wakeup * Z * result error Q)) : Prop :=
  match l with
  | [] => True
  | e :: l => e.1.2 <= t + 30 * Second /\ ticking e.1.2 l
  end.

(** ** Lemmas *)

Lemma keepalive_pause_le period next :
  keepalive_pause period next <= Z.quot period 2.
Proof.
  unfold keepalive_pause. destruct (Z.ltb_spec period next); [lia|].
  apply Z.quot_le_mono; lia.
Qed.

(** Every lease is taken before the one before it has run out. *)
Fixpoint chain (cur : Z) (ds : list (Z * Z)) (tend : Z) : Prop :=
  match ds with
  | [] => tend <= cur
  | (tk, ls) :: ds => tk <= cur /\ tk <= ls /\ chain ls ds tend
  end.

Lemma ordered_delivery t l tk ls ds :
  ordered t l -> deliveries l = (tk, ls) :: ds -> t <= tk.
Proof.
  revert t. induction l as [|[[[|x] now] vm] l IH]; intros t; simpl; [done| |].
  - intros [Ht Ho] Hd. specialize (IH now Ho Hd). lia.
  - intros [Ht Ho]. intros [= <- <- _]. done.
Qed.

Lemma chain_no_exit l s tend t :
  ordered t l -> Forall (fun e => e.1.2 <= tend) l ->
  chain (wd_next s) (deliveries l) tend ->
  exits (watchdog l s) = exits s.
Proof.
  revert s t. induction l as [|[[ev now] vm] l IH]; intros s t Ho Hall Hc; [done|].
  destruct Ho as [Ht Ho]. apply Forall_cons in Hall as [Hn Hall]. simpl in Hn, Ho.
  change (watchdog ((ev, now, vm) :: l) s) with (watchdog l (watchdog_round ev now vm s)).
  destruct ev as [|x].
  - change (deliveries _) with (deliveries l) in Hc.
    assert (now <= wd_next s).
    { destruct (deliveries l) as [|[tk ls] ds] eqn:Hd; simpl in Hc; [lia|].
      pose proof (ordered_delivery now l tk ls ds Ho Hd). lia. }
    rewrite (IH _ now Ho Hall) by by rewrite round_next.
    rewrite round_exits. by rewrite decide_False by lia.
  - destruct Hc as (Hle & Hx & Hc). simpl in Hx.
    rewrite (IH _ now Ho Hall) by by rewrite round_next.
    rewrite round_exits. by rewrite decide_False by lia.
Qed.

Lemma schedule_chain period s b rest tend :
  beat_ok b -> schedule period s b rest -> prompt period b rest -> tend <= last_lease b rest ->
  chain (b_lease b) (delivery <$> (snd <$> rest)) tend.
Proof.
  revert b. induction rest as [|[dump b'] rest IH]; intros b Hb Hs Hp Ht; [done|].
  destruct Hs as (Hb' & Hsent & Hs). destruct Hp as (Hdump & Hfast & Htake & Hp).
  pose proof (keepalive_pause_le period
    (Supervisor.Next (Keepalive_reply (b_lease b) (b_replied b) s))) as Hpause.
  fold (b_pause period s b) in Hpause.
  split; [unfold b_lease, Keepalive_lease; simpl; lia|].
  split; [unfold b_lease, Keepalive_lease; simpl; lia|].
  apply IH; [done|done|done|]. unfold last_lease in *. destruct rest as [|x rest]; [done|].
  rewrite last_cons_cons in Ht.
  destruct (last (x :: rest)) eqn:Hl; [exact Ht|by apply last_None in Hl].
Qed.

(** C11. A machine whose owner keeps up is never shut down by its watchdog.
    The owner follows its loop: it sends a keepalive for five minutes, pauses
    for half of the smaller of the time granted and the keepalive period, and
    sends the next.  If calls and dumps together always fit into what is left
    of the lease (five minutes less half a period: 4.5 minutes for the period
    of one minute that every system uses), then at no wake-up up to the end of
    the last lease does the watchdog exit, however its ticks fall. *)
Theorem prompt_owner_keeps_machine_alive period s0 t0 b rest l tend :
  beat_ok b -> b_taken b <= t0 + 2 * minute -> b_taken b <= b_lease b ->
  schedule period s0 b rest -> prompt period b rest ->
  ordered t0 l -> Forall (fun e => e.1.2 <= tend) l -> tend <= last_lease b rest ->
  deliveries l = delivery <$> (b :: (snd <$> rest)) ->
  exits (watchdog l (StartSupervisor t0)) = [].
Proof.
  intros Hb Hfirst Htake Hs Hp Ho Hall Hend Hd.
  rewrite (chain_no_exit l (StartSupervisor t0) tend t0 Ho Hall); [done|].
  rewrite Hd. simpl. split; [done|]. split; [done|]. by eapply schedule_chain.
Qed.

(** What was an exit stays one. *)
Lemma exits_mono l s t : t ∈ exits s -> t ∈ exits (watchdog l s).
Proof.
  revert s. induction l as [|[[ev now] vm] l IH]; intros s Hin; [done|].
  apply IH. rewrite round_exits. case_decide; [|done]. apply elem_of_app. by left.
Qed.

Lemma lease_after_tick t0 l now vm : lease_after t0 (l ++ [(WTick, now, vm)]) = lease_after t0 l.
Proof. unfold lease_after. rewrite omap_app. simpl. by rewrite app_nil_r. Qed.

Lemma last_wakeup_snoc t l e : last_wakeup t (l ++ [e]) = e.1.2.
Proof. revert t. induction l as [|e' l IH]; intros t; [done|]. apply IH. Qed.

(** C12. A machine whose owner is gone exits.  If, from a moment on at which the
    lease still runs, no keepalive is taken any more, and the ticker goes on
    until after the end of the lease, then the watchdog exits the process after
    the lease has run out and at most 30 seconds later: orphaned machines do not
    live on. *)
Theorem orphaned_machine_exits t0 l1 l2 :
  let lease := lease_after t0 l1 in
  last_wakeup t0 l1 <= lease -> deliveries l2 = [] ->
  ticking (last_wakeup t0 l1) l2 -> lease < last_wakeup (last_wakeup t0 l1) l2 ->
  exists t', (t' ∈ exits (watchdog (l1 ++ l2) (StartSupervisor t0))) /\
    lease < t' <= lease + 30 * Second.
Proof.
  simpl. revert l1. induction l2 as [|[[ev now] vm] l2 IH]; intros l1 Hl Hd Htick Hend.
  - simpl in Hend. lia.
  - destruct ev as [|t]; [|done]. simpl in Hd, Htick, Hend. destruct Htick as [Hnow Htick].
    change ((WTick, now, vm) :: l2) with ([(WTick, now, vm)] ++ l2). rewrite app_assoc.
    destruct (decide (now <= lease_after t0 l1)) as [Hle|Hgt].
    + rewrite <- (lease_after_tick t0 l1 now vm). apply IH; rewrite ?last_wakeup_snoc, ?lease_after_tick; done.
    + exists now. split; [|lia]. unfold watchdog. rewrite foldl_app. apply exits_mono.
      fold (watchdog (l1 ++ [(WTick, now, vm)]) (StartSupervisor t0)).
      rewrite watchdog_snoc. cbn [fst snd]. rewrite round_exits, watchdog_next, decide_True by lia.
      apply elem_of_app. right. by apply list_elem_of_singleton.
Qed.
End keepalive.

(** ** Sample runs *)

Module Samples.

Definition b1 : beat := {| b_sent := 0; b_handled := 1; b_taken := 2; b_replied := 3; b_back := 4 |}.
Definition b2 : beat :=
  {| b_sent := 30 * Second + 4; b_handled := 31 * Second; b_taken := 32 * Second;
     b_replied := 33 * Second; b_back := 34 * Second |}.

Definition run_ : list (wakeup * Z * result (@error SimpleErrors) Q) :=
  [(WNext (b_lease b1), 2, Ok 1%Q); (WTick, 30 * Second, Ok 1%Q);
   (WNext (b_lease b2), 32 * Second, Ok 1%Q); (WTick, 5 * Minute, Ok 1%Q)].

Lemma prompt_owner_keeps_machine_alive_witness :
  exits (watchdog run_ (StartSupervisor 0)) = [].
Proof.
  refine (prompt_owner_keeps_machine_alive Minute (StartSupervisor 0) 0 b1 [(0, b2)] run_
    (5 * Minute + 30 * Second) _ _ _ _ _ _ _ _ eq_refl).
  - repeat split; vm_compute; discriminate.
  - vm_compute; discriminate.
  - vm_compute; discriminate.
  - repeat split; vm_compute; discriminate.
  - repeat split; vm_compute; discriminate.
  - repeat split; vm_compute; discriminate.
  - repeat constructor; vm_compute; discriminate.
  - vm_compute; discriminate.
Defined.

Lemma orphaned_machine_exits_witness :
  exists t', (t' ∈ exits (watchdog (EL := SimpleErrors)
    ([(WNext 40, 2, Ok 1%Q)] ++ [(WTick, 30 * Second, Ok 1%Q)]) (StartSupervisor 0))) /\
    40 < t' <= 40 + 30 * Second.
Proof.
  apply (orphaned_machine_exits (EL := SimpleErrors) 0 [(WNext 40, 2, Ok 1%Q)]
    [(WTick, 30 * Second, Ok 1%Q)]).
  - vm_compute. discriminate.
  - reflexivity.
  - repeat split; vm_compute; discriminate.
  - vm_compute. reflexivity.
Defined.

End Samples.
