(* ===== verification/Watchdog.v ===== *)
(** The supervisor's goroutines together (supervisor.go): the watchdog and any
    number of Keepalive handlers, which meet at the unbuffered channel nextc,
    under every interleaving with the clock, the ticker and the contexts of the
    calls.  Supervisor.v has the rounds of the watchdog one after the other; the
    theorems here say that this is what the interleavings amount to, and what
    a reply to a keepalive is worth. *)
From S2P Require Import Prelude Errors Supervisor.
From Stdlib Require Import QArith.
Local Open Scope Z_scope.

Section threads.
Context {EL : ErrorsLib}.

(** ** State and steps *)

(** A call of Supervisor.Keepalive: in its select with the time it sends, past
    the send, returned with a reply at a time, or returned with the error of
    its context. *)
Inductive handler :=
| Sending (t : Z)
| Sent (t : Z)
| Replied (at_ : Z) (rep : keepaliveReply)
| GaveUp (e : error).

(** The watchdog: in its select, in a round, or returned. *)
Inductive wd_pc := Selecting | InRound (ev : wakeup) | Returned.

(** What is shared, and the rounds made so far: what woke the watchdog up, when
    it looked at the clock, and what mem.VirtualMemory answered. *)
Record sys := {
  clock : Z;
  pc : wd_pc;
  wd : watchdog_state;
  rounds : list (wakeup * Z * result error Q);
  handlers : gmap nat handler
}.

Definition start (t0 : Z) : sys :=
  {| clock := t0; pc := Selecting; wd := StartSupervisor t0; rounds := []; handlers := ∅ |}.

Definition set_pc (p : wd_pc) (s : sys) : sys :=
  {| clock := clock s; pc := p; wd := wd s; rounds := rounds s; handlers := handlers s |}.
Definition set_clock (t : Z) (s : sys) : sys :=
  {| clock := t; pc := pc s; wd := wd s; rounds := rounds s; handlers := handlers s |}.
Definition set_handler (k : nat) (h : handler) (s : sys) : sys :=
  {| clock := clock s; pc := pc s; wd := wd s; rounds := rounds s; handlers := <[k := h]> (handlers s) |}.

(** The rest of a round of the watchdog after its select. *)
Definition do_round (ev : wakeup) (vm : result error Q) (s : sys) : sys :=
  {| clock := clock s; pc := Selecting; wd := watchdog_round ev (clock s) vm (wd s);
     rounds := rounds s ++ [(ev, clock s, vm)]; handlers := handlers s |}.

(** The steps.  nextc is not buffered: a send and its receive are one step.  A
    select with several cases ready takes any. *)
Inductive step : sys -> sys -> Prop :=
| st_time t s : clock s <= t -> step s (set_clock t s)
| st_call k next s :
    handlers s !! k = None ->
    step s (set_handler k (Sending (Keepalive_lease (clock s) next)) s)
| st_tick s : pc s = Selecting -> step s (set_pc (InRound WTick) s)
| st_send k t s :
    pc s = Selecting -> handlers s !! k = Some (Sending t) ->
    step s (set_handler k (Sent t) (set_pc (InRound (WNext t)) s))
| st_round ev vm s : pc s = InRound ev -> step s (do_round ev vm s)
| st_reply k t s :
    handlers s !! k = Some (Sent t) ->
    step s (set_handler k (Replied (clock s) (Keepalive_reply t (clock s) (wd s))) s)
| st_ctx k t e s :
    handlers s !! k = Some (Sending t) -> step s (set_handler k (GaveUp e) s)
| st_stop s : pc s = Selecting -> step s (set_pc Returned s).

(** ** What the interleavings amount to *)

(** The leases of a list of rounds. *)
Definition leases (l : list (wakeup * Z * result error Q)) : list Z :=
  omap (fun e => match e.1.1 with WNext t => Some t | WTick => None end) l.

(** The lease the watchdog took and has not yet looked at. *)
Definition pending (p : wd_pc) : list Z := match p with InRound (WNext t) => [t] | _ => [] end.

(** All leases taken, in the order the watchdog took them. *)
Definition taken (s : sys) : list Z := leases (rounds s) ++ pending (pc s).

(** The lease of a call whose send went through. *)
Definition granted (h : handler) : option Z :=
  match h with
  | Sent t => Some t
  | Replied at_ rep => Some (at_ + Next rep)
  | Sending _ | GaveUp _ => None
  end.

Definition grants (m : gmap nat handler) : list Z := omap (fun p => granted p.2) (map_to_list m).

Lemma grants_None m k h :
  m !! k = None -> grants (<[k := h]> m) ≡ₚ option_list (granted h) ++ grants m.
Proof.
  intros Hk. unfold grants. rewrite (map_to_list_insert m k h Hk). simpl. by destruct (granted h).
Qed.

(** A call that changes its state changes its own grant only. *)
Lemma grants_Some m k h h' :
  m !! k = Some h ->
  grants m ≡ₚ option_list (granted h) ++ grants (delete k m) /\
  grants (<[k := h']> m) ≡ₚ option_list (granted h') ++ grants (delete k m).
Proof.
  intros Hk. split.
  - rewrite <- (insert_delete_id m k h Hk) at 1. apply grants_None, lookup_delete_eq.
  - rewrite <- insert_delete_eq. apply grants_None, lookup_delete_eq.
Qed.

Lemma grants_same m k h h' :
  m !! k = Some h -> granted h' = granted h -> grants (<[k := h']> m) ≡ₚ grants m.
Proof. intros Hk Hg. destruct (grants_Some m k h h' Hk) as [-> ->]. by rewrite Hg. Qed.

(** The invariant of the interleavings. *)
Record ok (t0 : Z) (s : sys) : Prop := {
  ok_wd : wd s = watchdog (rounds s) (StartSupervisor t0);
  ok_taken : taken s ≡ₚ grants (handlers s)
}.

Lemma step_ok t0 s s' : step s s' -> ok t0 s -> ok t0 s'.
Proof.
  intros Hstep [Hwd Htk]. unfold taken in Htk.
  destruct Hstep as [t s Ht|k next s Hk|s Hp|k t s Hp Hk|ev vm s Hp|k t s Hk|k t e s Hk|s Hp];
    split; simpl; unfold taken; simpl; rewrite ?Hp in Htk; simpl in Htk; try done.
  - by rewrite (grants_None _ _ _ Hk).
  - destruct (grants_Some _ _ _ (Sent t) Hk) as [H1 H2]. rewrite H2. rewrite H1, app_nil_r in Htk.
    simpl in *. by rewrite Htk, Permutation_app_comm.
  - by rewrite watchdog_snoc, Hwd.
  - unfold leases in *. rewrite omap_app, app_nil_r. rewrite <- Htk. by destruct ev.
  - rewrite Htk, (grants_same _ _ _ _ Hk); [done|]. simpl. f_equal. lia.
  - by rewrite Htk, (grants_same _ _ _ _ Hk).
Qed.

Lemma reachable_ok t0 s : rtc step (start t0) s -> ok t0 s.
Proof. apply rtc_invariant; [by intros; eapply step_ok|by split]. Qed.

(** Rounds under leases that end at [t] or later exit only after [t]. *)
Lemma exits_after l s t :
  t <= wd_next s -> Forall (Z.le t) (leases l) ->
  exists xs, exits (watchdog l s) = exits s ++ xs /\ Forall (Z.lt t) xs.
Proof.
  revert s. induction l as [|[[ev now] vm] l IH]; intros s Hs Hl.
  - exists []. by rewrite app_nil_r.
  - assert (Hn : t <= wd_next (watchdog_round ev now vm s) /\ Forall (Z.le t) (leases l)).
    { rewrite round_next. destruct ev as [|t']; [done|]. by apply Forall_cons in Hl. }
    destruct Hn as [Hn Hl']. destruct (IH _ Hn Hl') as (xs & Heq & Hxs).
    change (watchdog ((ev, now, vm) :: l) s) with (watchdog l (watchdog_round ev now vm s)).
    rewrite Heq, round_exits. rewrite round_next in Hn.
    destruct (decide _) as [Hx|]; [|by eauto].
    exists (now :: xs). rewrite <- app_assoc. split; [done|]. constructor; [lia|done].
Qed.

(** C13. Keepalives and the watchdog under every interleaving, with any number of
    calls at once.  The watchdog behaves as its rounds one after the other do
    (Supervisor.v).  The leases it takes are those of the calls that were told
    so, each once: a call that gave up extends nothing, and a reply says how
    long the lease that was taken still runs.  And a lease is a promise: from
    the round that takes it the process is not exited at any time up to its
    end, whatever other calls, ticks and measurements there are, unless the
    watchdog takes a lease that ends earlier. *)
Theorem keepalives_interleave t0 s :
  rtc step (start t0) s ->
  wd s = watchdog (rounds s) (StartSupervisor t0) /\
  taken s ≡ₚ grants (handlers s) /\
  (forall k at_ rep, handlers s !! k = Some (Replied at_ rep) -> at_ + Next rep ∈ taken s) /\
  forall l1 t now vm l2,
    rounds s = l1 ++ (WNext t, now, vm) :: l2 -> Forall (Z.le t) (leases l2) ->
    exists xs, exits (wd s) = exits (watchdog l1 (StartSupervisor t0)) ++ xs /\ Forall (Z.lt t) xs.
Proof.
  intros Hr. apply reachable_ok in Hr as [Hwd Htk]. split; [done|]. split; [done|]. split.
  - intros k at_ rep Hk. rewrite Htk. unfold grants. apply list_elem_of_omap.
    exists (k, Replied at_ rep). split; [by apply elem_of_map_to_list|done].
  - intros l1 t now vm l2 Hl Hle. rewrite Hwd, Hl. unfold watchdog. rewrite foldl_app.
    set (s1 := foldl _ _ l1). change (foldl _ s1 ?l) with (watchdog l s1).
    set (s2 := {| wd_next := t; lastMemProfile := lastMemProfile s1; healthy := healthy s1; exits := exits s1 |}).
    assert (Heq : watchdog ((WNext t, now, vm) :: l2) s1 = watchdog ((WNext t, now, vm) :: l2) s2) by done.
    rewrite Heq. apply (exits_after _ s2); [reflexivity|]. by constructor.
Qed.

(** While the watchdog runs, a keepalive that waits can be answered at any
    moment, with the lease it asked for: nothing but the end of the round the
    watchdog is in stands in its way. *)
Lemma keepalive_progress (k : nat) (t : Z) (s : sys) :
  pc s <> Returned -> handlers s !! k = Some (Sending t) ->
  exists s' rep, rtc step s s' /\ wd_next (wd s') = t /\
    handlers s' !! k = Some (Replied (clock s) rep) /\ clock s + Next rep = t.
Proof.
  set (vm := Err (New "no statistics") : result error Q).
  assert (Hsel : forall s, pc s = Selecting -> handlers s !! k = Some (Sending t) ->
    exists s' rep, rtc step s s' /\ wd_next (wd s') = t /\
      handlers s' !! k = Some (Replied (clock s) rep) /\ clock s + Next rep = t).
  { clear s. intros s Hp Hk. do 2 eexists. split; [|split; [|split]].
    - eapply rtc_l; [by apply (st_send k t)|].
      eapply rtc_l; [by apply (st_round (WNext t) vm)|].
      apply rtc_once. apply (st_reply k t). simpl. apply lookup_insert_eq.
    - simpl. by rewrite round_next.
    - simpl. apply lookup_insert_eq.
    - simpl. lia. }
  intros Hp Hk. destruct (pc s) as [|ev|] eqn:Hpc; [by apply Hsel| |done].
  destruct (Hsel (do_round ev vm s)) as (s' & rep & Hr & H); [done|done|].
  exists s', rep. split; [|exact H]. eapply rtc_l; [by apply st_round|exact Hr].
Qed.

(** Once the watchdog has returned, as it does when the supervisor's context
    ends, a keepalive that waits is never answered: it waits until its own
    context ends. *)
Lemma keepalive_after_stop k t s s' :
  pc s = Returned -> handlers s !! k = Some (Sending t) -> rtc step s s' ->
  handlers s' !! k = Some (Sending t) \/ exists e, handlers s' !! k = Some (GaveUp e).
Proof.
  intros Hp Hk Hr.
  enough (H : pc s' = Returned /\ (handlers s' !! k = Some (Sending t) \/
    exists e, handlers s' !! k = Some (GaveUp e))) by apply H.
  revert Hr. apply (rtc_invariant step (fun s' => pc s' = Returned /\
    (handlers s' !! k = Some (Sending t) \/ exists e, handlers s' !! k = Some (GaveUp e))));
    [clear s s' Hp Hk|by auto].
  intros s s' Hstep [Hp Hk].
  destruct Hstep as [| j next s Hj | s Hp'| j t' s Hp' _| ev vm s Hp'| j t' s Hj| j t' e s Hj| s Hp'];
    simplify_eq/=; try congruence; (split; [done|]); try done;
    (destruct (decide (j = k)) as [->|Hne]; [|by rewrite lookup_insert_ne]).
  - destruct Hk as [Hk|[e Hk]]; congruence.
  - destruct Hk as [Hk|[e Hk]]; congruence.
  - right. rewrite lookup_insert_eq. eauto.
Qed.

End threads.

(** ** Sample runs *)

Module Samples.
#[local] Existing Instance SimpleErrors.

(** One percent of the memory is used. *)
Definition used : result serror Q := Ok 1%Q.

(** A keepalive read the clock and was held up; a second one, ten seconds
    later, overtook it and was answered; then the first went through, with its
    older lease, and a third gave up. *)
Definition overtaken : sys :=
  set_handler 2 (GaveUp (SCtx true))
    (do_round (WNext (5 * minute)) used
      (set_handler 0 (Sent (5 * minute)) (set_pc (InRound (WNext (5 * minute)))
        (set_handler 2 (Sending (20 * second + 5 * minute))
          (set_handler 1 (Replied (20 * second)
              {| Next := 10 * second + 5 * minute - 20 * second; Healthy := true |})
            (set_clock (20 * second)
              (do_round (WNext (10 * second + 5 * minute)) used
                (set_handler 1 (Sent (10 * second + 5 * minute))
                  (set_pc (InRound (WNext (10 * second + 5 * minute)))
                    (set_handler 1 (Sending (10 * second + 5 * minute))
                      (set_clock (10 * second)
                        (set_handler 0 (Sending (5 * minute)) (start 0))))))))))))).

Lemma overtaken_reachable : rtc step (start 0) overtaken.
Proof.
  unfold overtaken. eapply rtc_r; [|by eapply (st_ctx 2)].
  eapply rtc_r; [|by apply st_round]. eapply rtc_r; [|by apply (st_send 0)].
  eapply rtc_r; [|by apply (st_call 2 (5 * minute))]. eapply rtc_r; [|by eapply (st_reply 1)].
  eapply rtc_r; [|by apply st_time]. eapply rtc_r; [|by apply st_round].
  eapply rtc_r; [|by apply (st_send 1)]. eapply rtc_r; [|by apply (st_call 1 (5 * minute))].
  eapply rtc_r; [|by apply st_time]. eapply rtc_r; [|by apply (st_call 0 (5 * minute))].
  reflexivity.
Qed.

(** The owner was told that it has until 5:10, and the process exits at a tick
    at 5:05. *)
Example overtaken_exits :
  exits (wd (do_round WTick used (set_clock (5 * minute + 5 * second) overtaken)))
    = [5 * minute + 5 * second] /\
  handlers overtaken !! 1%nat = Some (Replied (20 * second)
    {| Next := 4 * minute + 50 * second; Healthy := true |}).
Proof. split; [vm_compute; reflexivity|]. vm_compute. reflexivity. Qed.

Lemma keepalives_interleave_witness :
  taken overtaken ≡ₚ grants (handlers overtaken) /\
  exists xs, exits (wd overtaken) = [] ++ xs /\ Forall (Z.lt (5 * minute)) xs.
Proof.
  destruct (keepalives_interleave 0 overtaken overtaken_reachable) as (_ & H & _ & Hp).
  split; [exact H|].
  exact (Hp [(WNext (10 * second + 5 * minute), 10 * second, used)] (5 * minute) (20 * second) used []
    eq_refl (Forall_nil_2 _)).
Defined.

End Samples.
