(* ===== verification/Bootstrap.v ===== *)
(** The owner and the supervisor together: what becomes of a machine's process
    when the owner runs Machine.exec (machine.go, MachineLoop) against the
    Supervisor service of the machine (supervisor.go, Supervisor), over a
    network that may lose any request or any reply and cut any upload.

    The answers to the owner's calls are given here by [call_result]; Stack.v
    shows that this is what package rpc makes of the supervisor's methods. *)
From S2P Require Import Prelude Errors Wire MachineState MachineLoop Supervisor.
Local Open Scope string_scope.
Local Open Scope list_scope.
Local Open Scope bm_scope.

Section bootstrap.
Context {EL : ErrorsLib} {env : MachineEnv} {O : Type}.

(** The process of a machine: how often it was replaced, the image it runs, its
    supervisor with what that shares with the operating system, the services
    that were registered in this order - by name, the handle of the instance
    that was sent, and how many were decoded before - and the state of the
    service objects. *)
Record process := {
  p_gen : nat;
  p_image : string;
  p_sup : sup;
  p_regs : list (string * (handle * nat));
  p_made : nat;
  p_objs : O
}.

Definition with_sup (s : sup) (P : process) : process :=
  {| p_gen := p_gen P; p_image := p_image P; p_sup := s;
     p_regs := p_regs P; p_made := p_made P; p_objs := p_objs P |}.

(** The objects of a process that has no services yet. *)
Variable no_objs : O.

(** The process that syscall.Exec starts in place of [P].  The image is a
    bigmachine program again, whose supervisor starts from nothing. *)
Definition replace (image : string) (args environ : list string) (P : process) : process :=
  {| p_gen := S (p_gen P); p_image := image;
     p_sup := {| binaryPath := ""; Supervisor.environ := []; Supervisor.os_Args := args;
                 os_Environ := environ; os_files := os_files (p_sup P) |};
     p_regs := []; p_made := p_made P; p_objs := no_objs |}.

(** Supervisor.Register: the instance that the call brought, which is a new
    object each time, is registered, and then initialised ([init] is maybeInit).
    For a name that is taken Server.Register keeps the first instance (see server
    of Stack.v). *)
Variable init : handle -> nat -> O -> option error * O.

Definition register (name : string) (h : handle) (P : process) : option error * process :=
  let '(err, objs) := init h (p_made P) (p_objs P) in
  (err, {| p_gen := p_gen P; p_image := p_image P; p_sup := p_sup P;
           p_regs := p_regs P ++ [(name, (h, p_made P))]; p_made := S (p_made P); p_objs := objs |}).

(** The calls of the supervisor that the owner makes until the machine runs
    its binary and has its services. *)
Inductive sup_call :=
| CallPing (seq : Z)
| CallInfo
| CallSetenv (l : list string)
| CallSetargs (l : list string)
| CallKeepalive (d : Z)
| CallSetbinary (h : handle)
| CallExec
| CallRegister (name : string) (h : handle).

Definition sup_call_of (method : string) (arg : carg) : option sup_call :=
  match arg with
  | CInt z => if decide (method = "Supervisor.Ping") then Some (CallPing z) else None
  | CUnit =>
      if decide (method = "Supervisor.Info") then Some CallInfo
      else if decide (method = "Supervisor.Exec") then Some CallExec else None
  | CStrings l =>
      if decide (method = "Supervisor.Setenv") then Some (CallSetenv l)
      else if decide (method = "Supervisor.Setargs") then Some (CallSetargs l) else None
  | CDuration d => if decide (method = "Supervisor.Keepalive") then Some (CallKeepalive d) else None
  | CReader h => if decide (method = "Supervisor.Setbinary") then Some (CallSetbinary h) else None
  | CService n h => if decide (method = "Supervisor.Register") then Some (CallRegister n h) else None
  | _ => None
  end.

(** What happens to one remote call.  Of an upload, the supervisor may get a
    part only, and an error of its connection in place of the end. *)
Inductive delivery :=
| Delivered
| LostRequest (e : error)
| LostReply (e : error)
| Cut (n : nat) (seen e : error).

(** The fate of each call, what the machine's file system answers during it and
    what Supervisor.Keepalive replies, as functions of what the owner did before;
    the bytes behind the handle of an opened image; the operating system and
    architecture of the machine; what its operating system says to execve; how the caller
    sees the error of a handler; and the error the caller sees when the process
    it calls is replaced and the connection breaks. *)
Variable net : list action -> delivery.
Variable disk : list action -> fs_answers.
Variable lease : list action -> Z * bool.
Variable data : handle -> stream error.
Variables Goos Goarch : string.
Variable kern : kernel.
Variable remote_err : string -> error -> error.
Variable gone : error.

(** What is stored through the caller's reply pointer; the owner passes nil to
    most calls. *)
Definition info : reply := mkReply Goos Goarch 0 true.
Definition answer (tr : list action) (c : sup_call) : reply :=
  match c with
  | CallInfo => info
  | CallKeepalive _ => mkReply "" "" (lease tr).1 (lease tr).2
  | _ => mkReply "" "" 0 true
  end.

(** How a handler ends, for its caller. *)
Definition replied (tr : list action) (c : sup_call) (method : string) (e : option error) :
    result error reply :=
  match e with
  | None => Ok (answer tr c)
  | Some e => Err (remote_err method e)
  end.

(** The bytes of an upload that arrive. *)
Definition cut_at (n : nat) (e : error) (s : stream error) : stream error :=
  {| st_chunks := [String.substring 0 n (st_bytes s)]; st_end := Some e |}.

Definition uploaded (tr : list action) (h : handle) : stream error :=
  match net tr with Cut n seen _ => cut_at n seen (data h) | _ => data h end.

(** The supervisor's handlers.  Exec does not return when it succeeds. *)
Definition handle_call (tr : list action) (method : string) (c : sup_call) (P : process) :
    result error reply * process :=
  match c with
  | CallPing _ | CallInfo | CallKeepalive _ => (replied tr c method None, P)
  | CallSetenv l => (replied tr c method None, with_sup (Setenv l (p_sup P)) P)
  | CallSetargs l => (replied tr c method None, with_sup (Setargs l (p_sup P)) P)
  | CallSetbinary h =>
      let '(err, s) := Setbinary (disk tr) (uploaded tr h) (p_sup P) in
      (replied tr c method err, with_sup s P)
  | CallExec =>
      match Exec kern (p_sup P) with
      | Replaced image args environ => (Err gone, replace image args environ P)
      | ExecFailed e => (Err (remote_err method e), P)
      end
  | CallRegister n h =>
      let '(err, P) := register n h P in (replied tr c method err, P)
  end.

(** A call over the network: what the owner sees and what it does.  When the
    process is replaced, the connection breaks first. *)
Definition call_result (tr : list action) (method : string) (c : sup_call) (P : process) :
    result error reply :=
  let '(r, P') := handle_call tr method c P in
  match net tr with
  | LostRequest e => Err e
  | Delivered => r
  | LostReply e | Cut _ _ e => if decide (p_gen P' = p_gen P) then Err e else Err gone
  end.

Definition call_effect (tr : list action) (method : string) (c : sup_call) (P : process) : process :=
  match net tr with
  | LostRequest _ => P
  | _ => (handle_call tr method c P).2
  end.

Definition action_effect (tr : list action) (a : action) (P : process) : process :=
  match a with
  | ACall method arg _ _ =>
      match sup_call_of method arg with Some c => call_effect tr method c P | None => P end
  | _ => P
  end.

(** The process after everything the owner did. *)
Fixpoint replay (past todo : list action) (P : process) : process :=
  match todo with
  | [] => P
  | a :: todo => replay (past ++ [a]) todo (action_effect past a P)
  end.

Variable P0 : process.

Definition process_at (tr : list action) : process := replay [] tr P0.

(** The owner's calls are answered by this process, those that return. *)
Definition served : Prop :=
  forall tr method arg timeout c, sup_call_of method arg = Some c ->
    env_call tr method arg timeout = call_result tr method c (process_at tr).

(** ** States of the process *)

(** Still the process [P]: neither replaced nor with another environment.  Its
    files, and what is set for the next process, may differ. *)
Definition still (P P' : process) : Prop :=
  p_gen P' = p_gen P /\ p_image P' = p_image P /\ os_Environ (p_sup P') = os_Environ (p_sup P).

Definition with_env (envs : list string) (P P' : process) : Prop :=
  still P P' /\ Supervisor.environ (p_sup P') = envs.

Definition with_args (envs : list string) (P P' : process) : Prop :=
  with_env envs P P' /\ Supervisor.os_Args (p_sup P') = MachineLoop.os_Args.

(** An executable file holds the image, and Exec would run it. *)
Definition with_binary (envs : list string) (image : string) (P P' : process) : Prop :=
  with_args envs P P' /\ binaryPath (p_sup P') <> "" /\
  os_files (p_sup P') !! binaryPath (p_sup P') = Some {| f_data := image; f_exec := true |}.

(** The next process, with an image, the owner's arguments, and the environment
    that [P] had with the owner's variables after it. *)
Definition replaced (envs : list string) (image : string) (P P' : process) : Prop :=
  p_gen P' = S (p_gen P) /\ p_image P' = image /\
  Supervisor.os_Args (p_sup P') = MachineLoop.os_Args /\
  os_Environ (p_sup P') = os_Environ (p_sup P) ++ envs /\
  binaryPath (p_sup P') = "" /\ Supervisor.environ (p_sup P') = [].

(** Everything the owner needs for the upload is there: no message is lost or
    kept, there is an image, the disk has room, and the operating system runs the
    image. *)
Record provisioned (rc : handle) : Prop := {
  pr_net : forall tr, net tr = Delivered;
  pr_image : forall tr, exists self size,
    env_Self tr = Ok self /\ env_Stat self Goos Goarch = Some size /\
    forall tr, env_Open tr self Goos Goarch = Ok rc;
  pr_returns : forall tr, env_hangs tr "Supervisor.Setbinary" (CReader rc) = false;
  pr_data : st_end (data rc) = None;
  pr_execve : forall path environ, execve_refuses kern path (st_bytes (data rc)) MachineLoop.os_Args environ = None;
  pr_disk : forall tr, exists path, path <> "" /\
    disk tr = {| fs_TempFile := Ok path; fs_write := None; fs_Close := None; fs_Chmod := None |}
}.

(** TempFile makes up a name. *)
Definition names_files : Prop := forall tr path, fs_TempFile (disk tr) = Ok path -> path <> "".

(** ** Lemmas *)

Lemma replay_snoc past todo a P :
  replay past (todo ++ [a]) P = action_effect (past ++ todo) a (replay past todo P).
Proof.
  revert past P. induction todo as [|b todo IH]; intros past P; simpl.
  - by rewrite app_nil_r.
  - by rewrite IH, <- app_assoc.
Qed.

Lemma process_at_snoc tr a : process_at (tr ++ [a]) = action_effect tr a (process_at tr).
Proof. unfold process_at. by rewrite replay_snoc. Qed.

Lemma still_refl P : still P P.
Proof. done. Qed.

(** No handler but Exec replaces the process. *)
Lemma handle_still tr method c P P' :
  c <> CallExec -> still P P' -> still P (handle_call tr method c P').2.
Proof.
  intros Hc (H1 & H2 & H3). destruct c as [| | | | |h| |n h]; try done; simpl.
  - destruct (Setbinary _ _ _) as [err s] eqn:E. unfold still. simpl. split; [done|]. split; [done|].
    rewrite <- H3. unfold Setbinary in E. repeat case_match; by simplify_eq/=.
  - unfold register. by destruct (init _ _ _).
Qed.

Lemma effect_still tr method c P P' :
  c <> CallExec -> still P P' -> still P (call_effect tr method c P').
Proof. intros Hc Hs. unfold call_effect. destruct (net tr); by try apply handle_still. Qed.

(** A call of anything but Exec that succeeds has been delivered. *)
Lemma result_Ok tr method c P r :
  call_result tr method c P = Ok r ->
  net tr = Delivered /\ (handle_call tr method c P).1 = Ok r /\
  call_effect tr method c P = (handle_call tr method c P).2.
Proof.
  unfold call_result, call_effect. destruct (handle_call tr method c P) as [r' P'].
  destruct (net tr); try done; by case_decide.
Qed.

(** When the owner is provisioned, only Exec and Register can fail. *)
Lemma provisioned_Ok rc tr method c P :
  provisioned rc -> c <> CallExec -> (forall n h, c <> CallRegister n h) ->
  (forall h, c = CallSetbinary h -> h = rc) ->
  call_result tr method c P = Ok (answer tr c).
Proof.
  intros Hp Hc Hnr Hrc. unfold call_result, handle_call. rewrite (pr_net rc Hp).
  destruct c as [| | | | |h| |n h]; try done; [|by destruct (Hnr n h)]. rewrite (Hrc h eq_refl).
  destruct (pr_disk rc Hp tr) as (path & _ & ->). unfold uploaded, Setbinary. rewrite (pr_net rc Hp). simpl.
  by rewrite (pr_data rc Hp).
Qed.

(** ** exec *)

Section exec.
Context (Hserved : served) (Hfiles : names_files) (w : world) (envs : list string) (P : process).

Definition at_process (A : process -> Prop) (s : lw) : Prop := shared s = w /\ A (process_at (trace s)).

(** A call on the process: what it returns and leaves, if it returns. *)
Lemma spec_sup_call (A : process -> Prop) (B : result error reply -> process -> Prop) method arg c timeout I :
  sup_call_of method arg = Some c ->
  (forall s, at_process A s -> timeout = None -> env_hangs (trace s) method arg = true -> I s) ->
  (forall tr P', A P' -> B (call_result tr method c P') (call_effect tr method c P')) ->
  spec (at_process A) (call method arg timeout) (fun r => at_process (B r)) I.
Proof.
  intros Hc HI HB s [Hw HA]. unfold call, ask, act, block, mbind, mget, mput, mret; simpl.
  destruct (match timeout with None => _ | Some _ => _ end) eqn:Hh.
  { destruct timeout; [done|]. by apply HI. }
  split; [done|]. simpl. rewrite process_at_snoc. cbn [action_effect]. rewrite Hc, (Hserved _ _ _ _ c Hc).
  by apply HB.
Qed.

(** What is left when a call before Exec fails. *)
Definition not_yet (P' : process) : Prop := still P P' /\ forall rc, ~ provisioned rc.

(** The calls before Setbinary: they succeed if the owner is provisioned. *)
Lemma early_call (A B : process -> Prop) method arg c t I :
  sup_call_of method arg = Some c -> c <> CallExec -> (forall h, c <> CallSetbinary h) ->
  (forall n h, c <> CallRegister n h) ->
  (forall P', A P' -> still P P') ->
  (forall tr P', A P' -> B (handle_call tr method c P').2) ->
  spec (at_process A) (call method arg (Some t))
    (fun r => at_process (fun P' => match r with
                                    | Ok x => (exists tr, x = answer tr c) /\ B P'
                                    | Err _ => not_yet P'
                                    end)) I.
Proof.
  intros Hc Hne Hnb Hnr Hstill HB. eapply spec_sup_call; [done|done|]. intros tr P' HA.
  destruct (call_result tr method c P') as [x|e] eqn:Hr.
  - destruct (result_Ok _ _ _ _ _ Hr) as (Hn & Hh & ->). split; [|by apply HB].
    exists tr. unfold handle_call in Hh.
    destruct c as [| | | | |h| |n h]; try (by simplify_eq/=); [by destruct (Hnb h)|by destruct (Hnr n h)].
  - split; [apply effect_still; auto|]. intros rc Hp.
    rewrite (provisioned_Ok rc) in Hr; [done..|]. intros h ->. by destruct (Hnb h).
Qed.

Lemma setbinary_call rc timeout :
  (forall rc', provisioned rc' -> rc' = rc) ->
  spec (at_process (with_args envs P)) (call "Supervisor.Setbinary" (CReader rc) timeout)
    (fun r => at_process (fun P' => match r with
                                    | Ok _ => st_end (data rc) = None /\ with_binary envs (st_bytes (data rc)) P P'
                                    | Err _ => not_yet P'
                                    end)) (at_process not_yet).
Proof.
  intros Huniq. eapply (spec_sup_call _ _ _ _ (CallSetbinary rc)); [done| |].
  { intros s [Hw [[Hs _] _]] _ Hh. split; [done|]. split; [done|]. intros rc' Hp.
    rewrite <- (Huniq rc' Hp) in Hh. by rewrite (pr_returns rc' Hp) in Hh. }
  intros tr P' HA.
  destruct (call_result _ _ _ P') as [x|e] eqn:Hr.
  - destruct (result_Ok _ _ _ _ _ Hr) as (Hn & Hh & ->). simpl in Hh |- *. unfold uploaded in *. rewrite Hn in *.
    destruct (Setbinary (disk tr) (data rc) (p_sup P')) as [[e|] s] eqn:E; [done|].
    apply Setbinary_Ok in E as (Hend & path & Hp & ->). split; [done|].
    destruct HA as [[Hs He] Ha]. split; [done|]. simpl. split; [by eapply Hfiles|].
    by rewrite lookup_insert_eq.
  - destruct HA as [[Hs He] Ha]. split; [by apply effect_still|]. intros rc' Hp.
    rewrite (provisioned_Ok rc') in Hr; [done..|]. intros h [= <-]. symmetry. by apply Huniq.
Qed.

(** What a run of exec makes of the process. *)
Definition exec_end (r : option error) (P' : process) : Prop :=
  (still P P' \/
   exists rc tr self, env_Open tr self Goos Goarch = Ok rc /\ st_end (data rc) = None /\
     replaced envs (st_bytes (data rc)) P P') /\
  (forall rc, provisioned rc -> r = Some gone /\ replaced envs (st_bytes (data rc)) P P').

Lemma not_yet_end r P' : not_yet P' -> exec_end r P'.
Proof. intros [Hs Hn]. split; [by left|]. intros rc Hp. by destruct (Hn rc). Qed.

Lemma exec_replaced P' :
  forall image, with_binary envs image P P' ->
  exists P'', Exec kern (p_sup P') =
      match execve_refuses kern (binaryPath (p_sup P')) image MachineLoop.os_Args (os_Environ (p_sup P) ++ envs) with
      | Some e => ExecFailed e
      | None => Replaced image MachineLoop.os_Args (os_Environ (p_sup P) ++ envs)
      end /\
    replace image MachineLoop.os_Args (os_Environ (p_sup P) ++ envs) P' = P'' /\ replaced envs image P P''.
Proof.
  intros image ([[(H1 & H2 & H3) He] Ha] & Hp & Hf). eexists. split; [|split; [done|]].
  - unfold Exec, syscall_Exec. rewrite decide_False by done. rewrite Hf. simpl. by rewrite H3, He, Ha.
  - unfold replaced. simpl. rewrite H1. done.
Qed.

Lemma exec_call rc tr self t I :
  env_Open tr self Goos Goarch = Ok rc -> (forall rc', provisioned rc' -> rc' = rc) ->
  spec (at_process (fun P' => st_end (data rc) = None /\ with_binary envs (st_bytes (data rc)) P P'))
    (call "Supervisor.Exec" CUnit (Some t))
    (fun r => at_process (exec_end (result_err r))) I.
Proof.
  intros Ho Huniq. eapply (spec_sup_call _ (fun r => exec_end (result_err r)) _ _ CallExec); [done|done|].
  intros tr' P' [Hend Hb]. destruct (exec_replaced P' _ Hb) as (P'' & Hx & Hrep & HP'').
  destruct (execve_refuses _ _ _ _ _) as [e|] eqn:Href.
  { assert (Hh : handle_call tr' "Supervisor.Exec" CallExec P' = (Err (remote_err "Supervisor.Exec" e), P'))
      by (unfold handle_call; by rewrite Hx).
    unfold call_result, call_effect. rewrite Hh. split.
    - left. destruct Hb as ([[Hs _] _] & _). by destruct (net tr').
    - intros rc' Hp. rewrite <- (Huniq rc' Hp), (pr_execve rc' Hp) in Href. done. }
  assert (Hh : handle_call tr' "Supervisor.Exec" CallExec P' = (Err gone, P''))
    by (unfold handle_call; by rewrite Hx, Hrep).
  assert (Hgen : p_gen P'' <> p_gen P').
  { destruct HP'' as (-> & _). destruct Hb as ([[(-> & _) _] _] & _). lia. }
  unfold call_result, call_effect. rewrite Hh. split.
  - destruct (net tr') eqn:Hn; simpl; [right; by exists rc, tr, self| |right; by exists rc, tr, self..].
    left. by destruct Hb as ([[Hs _] _] & _).
  - intros rc' Hp. rewrite (pr_net rc' Hp). by rewrite (Huniq rc' Hp).
Qed.

Lemma keepalive_call (A : process -> Prop) d t I :
  spec (at_process A) (call "Supervisor.Keepalive" (CDuration d) (Some t)) (fun _ => at_process A) I.
Proof.
  eapply (spec_sup_call A (fun _ => A) _ _ (CallKeepalive d)); [done|done|]. intros tr P' HA.
  unfold call_effect. by destruct (net tr).
Qed.

(** Reading the environment, with what is known of the answer. *)
Lemma spec_read {A B} (PP : lw -> Prop) (f : lw -> A) (k : A -> Pr B) Q I :
  (forall x, spec (fun s => PP s /\ x = f s) (k x) Q I) -> spec PP (mbind (mget f) k) Q I.
Proof. intros H s Hs. unfold mbind, mget. by apply (H (f s)). Qed.

Lemma spec_fact {A} (PP : lw -> Prop) (phi : lw -> Prop) (F : Prop) (m : Pr A) Q I :
  (forall s, phi s -> F) -> (F -> spec PP m Q I) -> spec (fun s => PP s /\ phi s) m Q I.
Proof. intros HF H s [Hs Hp]. apply H; [by eapply HF|done]. Qed.

Lemma spec_at_fact {A} (F : Prop) (B : process -> Prop) (m : Pr A) Q I :
  (F -> spec (at_process B) m Q I) -> spec (at_process (fun P' => F /\ B P')) m Q I.
Proof. intros H s (Hw & HF & HB). by apply H. Qed.

(** The rest of exec once the image is opened. *)
Definition upload_and_exec (rc : handle) : Pr (option error) :=
  r <- call "Supervisor.Setbinary" (CReader rc) None ;;
  match r with
  | Err e => mret (Some e)
  | Ok _ => r <- timeoutCall (10 * Second)%Z "Supervisor.Exec" CUnit ;; mret (result_err r)
  end.

Lemma end_not_yet e I : spec (at_process not_yet) (mret (Some e)) (fun r => at_process (exec_end r)) I.
Proof. apply spec_ret. intros s [Hw Hn]. split; [done|]. by apply not_yet_end. Qed.

Lemma upload_and_exec_spec rc tr self :
  env_Open tr self Goos Goarch = Ok rc -> (forall rc', provisioned rc' -> rc' = rc) ->
  spec (at_process (with_args envs P)) (upload_and_exec rc) (fun r => at_process (exec_end r))
    (at_process not_yet).
Proof.
  intros Ho Hu. eapply spec_bind; [by apply setbinary_call|]. intros [x|e]; [|apply end_not_yet].
  eapply spec_bind; [by eapply exec_call|]. intros r. by apply spec_ret.
Qed.

(** A failure before the upload: the owner was not provisioned. *)
Lemma end_unprovisioned (A : process -> Prop) e I :
  (forall P', A P' -> still P P') -> (forall rc, ~ provisioned rc) ->
  spec (at_process A) (mret (Some e)) (fun r => at_process (exec_end r)) I.
Proof.
  intros HA Hn. apply spec_ret. intros s [Hw Ha]. split; [done|]. apply not_yet_end. by split; [apply HA|].
Qed.

Lemma with_args_still P' : with_args envs P P' -> still P P'.
Proof. by intros [[H _] _]. Qed.

Lemma exec_spec :
  spec (at_process (eq P)) (exec envs) (fun r => at_process (exec_end r)) (at_process not_yet).
Proof.
  unfold exec, timeoutCall. apply spec_read. intros [self|e];
    (eapply spec_fact; [intros s Hs; exact (ex_intro (fun tr => _ = env_Self tr) (trace s) Hs)|intros [tr Hself]]).
  2: { apply end_unprovisioned; [by intros ? <-|]. intros rc Hp.
       destruct (pr_image rc Hp tr) as (? & ? & ? & _). congruence. }
  assert (Himg : forall rc, provisioned rc ->
    (exists size, env_Stat self Goos Goarch = Some size) /\ forall tr, env_Open tr self Goos Goarch = Ok rc).
  { intros rc Hp. destruct (pr_image rc Hp tr) as (self' & size & Hs' & ? & ?).
    assert (self' = self) as -> by congruence. eauto. }
  eapply spec_bind; [by apply (early_call (eq P) (eq P) _ _ CallInfo); [..|by intros ? <-|by intros ? ? <-]|].
  intros [x|e]; [|apply end_not_yet].
  apply spec_at_fact. intros [tr' ->]. change (answer tr' CallInfo) with info. cbn [r_Goos r_Goarch info].
  destruct (env_Stat self Goos Goarch) as [size|] eqn:Hstat.
  2: { apply end_unprovisioned; [by intros ? <-|]. intros rc Hp. by destruct (Himg rc Hp) as [[? ?] _]. }
  eapply spec_bind; [apply (early_call (eq P) (with_env envs P) _ _ (CallSetenv envs)); 
    [done..|by intros ? <-|by intros ? ? <-]|].
  intros [x|e]; [apply spec_at_fact; intros _|apply end_not_yet].
  eapply spec_bind; [apply (early_call (with_env envs P) (with_args envs P) _ _ (CallSetargs MachineLoop.os_Args)); 
    [done..|by intros ? [? _]|by intros ? ? [? ?]]|].
  intros [x'|e]; [apply spec_at_fact; intros _|apply end_not_yet].
  eapply spec_bind; [apply (keepalive_call (with_args envs P))|]. intros ka. apply spec_read. intros [rc|e];
    (eapply spec_fact; [intros s Hs; exact (ex_intro (fun tr => _ = env_Open tr self Goos Goarch) (trace s) Hs)|
                        intros [tr2 Hopen]]).
  - apply (upload_and_exec_spec rc tr2 self); [done|]. intros rc' Hp.
    destruct (Himg rc' Hp) as [_ Ho]. specialize (Ho tr2). congruence.
  - apply end_unprovisioned; [apply with_args_still|]. intros rc Hp.
    destruct (Himg rc Hp) as [_ Ho]. specialize (Ho tr2). congruence.
Qed.

(** What the owner's exec makes of a machine.  Whatever the network does to
    the requests and replies, and whatever was done to the supervisor before:
    once exec has returned, or while it hangs in the upload, the machine either
    still runs the process it ran, or it runs a new one, whose image is exactly the bytes of the image the owner
    opened for its architecture, completely received, with the owner's arguments
    and with the environment of the old process followed by the machine's - so
    that no variable of the boot process, such as the mode and the system of the
    worker, is changed by it.  If the owner is provisioned, exec returns, the
    machine runs the new one, and the owner sees the broken connection. *)
Lemma exec_on_process s :
  shared s = w -> process_at (trace s) = P ->
  exists tr, outcome_state (exec envs s) = mkLw w (trace s ++ tr) /\
    match exec envs s with
    | Done r _ => exec_end r (process_at (trace s ++ tr))
    | Looping _ => not_yet (process_at (trace s ++ tr)) /\
        exists rc, env_hangs (trace s ++ tr) "Supervisor.Setbinary" (CReader rc) = true
    end.
Proof.
  intros Hw HP. pose proof (exec_spec s (conj Hw (eq_sym HP))) as H.
  destruct (exec_order envs s) as (tr & size & rc & Hrun & _ & _ & Hend). rewrite <- Hw.
  exists tr. split; [done|]. destruct (exec envs s) as [r s'|s']; simpl in Hrun; subst s'; destruct H as [_ H]; [done|].
  split; [done|]. by exists rc.
Qed.
End exec.
End bootstrap.
Arguments process : clear implicits.
