(* ===== verification/Stack.v ===== *)
(** The whole path of a remote call of the owner: Machine.exec (machine.go)
    makes calls of rpc.Client (rpc/client.go), which post to the rpc.Server
    (rpc/server.go) of a machine, whose "Supervisor" service is the methods of
    supervisor.go.  Over a network that loses requests and replies and cuts
    uploads, what the owner gets and what becomes of the machine's process is
    what Bootstrap.v says, where none of the layers between is mentioned. *)
From S2P Require Import Prelude Errors GoStrings Wire RpcServer RpcClient RpcRoundtrip RpcRefine MachineState MachineLoop Supervisor Bootstrap.
From Stdlib Require Import Ascii.
Local Open Scope string_scope.
Local Open Scope list_scope.

(** ** Values of Go types *)

(** Values of a Rocq type stand for the values of a Go type that are sent:
    [enc x] is encoded by gob, and [dec] reads what was decoded. *)
Class Codable {EL : ErrorsLib} {G : Gob} {GL : GobLaws EL G} (A : Type) := {
  go_type : GoType;
  enc : A -> gval;
  dec : gval -> option A;
  go_type_plain : Kind_of go_type <> KPtr /\ go_type <> typeOfReader /\ go_type <> typeOfReadCloser;
  dec_enc : forall x, dec (indirect (enc x)) = Some x;
  enc_ok : forall x, exists b, Encode (SVal (enc x)) = Ok b;
  enc_fits : forall x, fits (NewValue go_type) (enc x)
}.
Arguments go_type {EL G GL} A {_}.

Definition typeOfEmpty : GoType := TStruct "struct {}".

(** The documented behaviour of gob on pointers, errors and the nil target:
    "pointers are flattened", "if e is nil, the value will be discarded", and an
    *errors.Error is made of strings and integers. *)
Class GobPointers {EL : ErrorsLib} {G : Gob} {GL : GobLaws EL G} := {
  nil_target : gval;
  fits_nil : forall v, fits nil_target v;
  Encode_SetElem : forall p v, Encode (SVal (SetElem p v)) = Encode (SVal v);
  indirect_SetElem : forall p v, indirect (SetElem p v) = indirect v;
  fits_SetElem : forall p q v, fits q v -> fits q (SetElem p v);
  Encode_empty : exists b, Encode (SVal (NewValue typeOfEmpty)) = Ok b;
  Encode_Recover : forall e, exists b, Encode (SError (Recover e)) = Ok b
}.

Section stack.
Context {EL : ErrorsLib} {G : Gob} {GL : GobLaws EL G} {GP : GobPointers}.
Context `{!Codable Z, !Codable unit, !Codable (list string), !Codable (string * string),
          !Codable (Z * bool), !Codable (string * handle)}.
Context {env : MachineEnv} {O : Type}.
#[local] Abbreviation process := (Bootstrap.process O).

(** ** The service "Supervisor" *)

(** How a handler ends: with an error, without touching its reply, or having
    stored a reply. *)
Inductive handled := HFail (e : error) | HDone | HReply (v : gval).

(** A method func(ctx, argT, *replyT) error, from what it does with its argument. *)
Definition sup_method (n : string) (argT replyT : GoType) (f : margv -> process -> handled * process) :
    reflect_Method process :=
  {| m_Name := n; m_PkgPath := "";
     m_In := [TPtr (TStruct "Supervisor"); typeOfContext; argT; TPtr replyT];
     m_Out := [typeOfError];
     m_Call := fun a rv P =>
       let '(h, P) := f a P in
       match h, rv with
       | HFail e, _ => (Returned (Some e), rv, P)
       | HReply v, ReplyValue p => (Returned None, ReplyValue (SetElem p v), P)
       | _, _ => (Returned None, rv, P)
       end |}.

(** A handler of a typed argument; reflection passes no other. *)
Definition typed {A} `{!Codable A} (f : A -> process -> handled * process) (a : margv) (P : process) :
    handled * process :=
  match a with
  | ArgValue v => match dec v with Some x => f x P | None => (HDone, P) end
  | ArgBody _ => (HDone, P)
  end.

(** A handler of an io.Reader. *)
Definition reading (f : stream error -> process -> handled * process) (a : margv) (P : process) :
    handled * process :=
  match a with ArgBody body => f body P | ArgValue _ => (HDone, P) end.

(** The machine: its answers during a call, its architecture, what its operating
    system says to execve, and the supervisor's other methods. *)
Variable disk : list action -> fs_answers.
Variable lease : list action -> Z * bool.
Variables Goos Goarch : string.
Variable kern : kernel.
Variable others : list (reflect_Method process).

(** The objects of a new process, and the service instances: the n-th that is
    decoded from the instance behind a handle. *)
Variable no_objs : O.
Variable inst : handle -> nat -> instance (G := G) (W := O).
Definition init (h : handle) (k : nat) (o : O) : option error * O := maybeInit (inst h k) o.

Definition with_objs (o : O) (P : process) : process :=
  {| p_gen := p_gen P; p_image := p_image P; p_sup := p_sup P; p_regs := p_regs P;
     p_made := p_made P; p_objs := o |}.

Definition Ping := sup_method "Ping" (go_type Z) (go_type Z)
  (typed (fun (seq : Z) P => (HReply (enc seq), P))).
(** The digest of the binary, which the owner does not look at, is left out. *)
Definition Info := sup_method "Info" (go_type unit) (go_type (string * string))
  (typed (fun (_ : unit) P => (HReply (enc (Goos, Goarch)), P))).
Definition Setargs_ := sup_method "Setargs" (go_type (list string)) typeOfEmpty
  (typed (fun (args : list string) P => (HDone, with_sup (Setargs args (p_sup P)) P))).
Definition Setenv_ := sup_method "Setenv" (go_type (list string)) typeOfEmpty
  (typed (fun (l : list string) P => (HDone, with_sup (Setenv l (p_sup P)) P))).
Definition Keepalive_ (tr : list action) := sup_method "Keepalive" (go_type Z) (go_type (Z * bool))
  (typed (fun (d : Z) P => (HReply (enc (lease tr)), P))).
Definition Setbinary_ (tr : list action) := sup_method "Setbinary" typeOfReader typeOfEmpty
  (reading (fun body P =>
     let '(err, s) := Setbinary (disk tr) body (p_sup P) in
     (match err with Some e => HFail e | None => HDone end, with_sup s P))).
(** A successful Exec does not return; what it returns here is not sent. *)
Definition Exec_ := sup_method "Exec" (go_type unit) typeOfEmpty
  (typed (fun (_ : unit) P =>
     match Exec kern (p_sup P) with
     | Replaced image args environ => (HDone, replace no_objs image args environ P)
     | ExecFailed e => (HFail e, P)
     end)).

Definition Register_ := sup_method "Register" (go_type (string * handle)) typeOfEmpty
  (typed (fun (svc : string * handle) P =>
     let '(err, P) := register init svc.1 svc.2 P in
     (match err with Some e => HFail e | None => HDone end, P))).

Definition Supervisor_methods (tr : list action) : list (reflect_Method process) :=
  [Ping; Info; Setargs_; Setenv_; Keepalive_ tr; Setbinary_ tr; Exec_; Register_] ++ others.

(** The methods of a service object, on the objects of the process. *)
Definition lift (m : reflect_Method O) : reflect_Method process :=
  {| m_Name := m_Name m; m_PkgPath := m_PkgPath m; m_In := m_In m; m_Out := m_Out m;
     m_Call := fun a rv P =>
       let '(ret, rv, o) := m_Call m a rv (p_objs P) in (ret, rv, with_objs o P) |}.

Definition registrations (P : process) : list (string * list (reflect_Method process)) :=
  (fun r => (r.1, lift <$> i_methods (inst r.2.1 r.2.2))) <$> p_regs P.

(** The server of the machine: B.run registers the supervisor, and each call of
    Supervisor.Register a service. *)
Definition server (tr : list action) (P : process) : Server process :=
  register_many (("Supervisor", Supervisor_methods tr) :: registrations P).

(** ** The network *)

Variable url_path : string -> string.
Variable flush : transport.
(** What happens to the HTTP request of each call, as delivery of Bootstrap.v;
    and the error of a request whose server was replaced while it handled it. *)
Variable wire : list action -> delivery.
Variable broken : error.

Definition Post_at (tr : list action) (hc : nat) (url ct : string) (body : stream error) (P : process) :
    result error (response error) * process :=
  match wire tr with
  | LostRequest e => (Err e, P)
  | f =>
      let body := match f with
                  | Cut n seen _ => if decide (ct = gobContentType) then body else cut_at n seen body
                  | _ => body
                  end in
      let '(r, P') := connection url_path (server tr P) flush hc url ct body P in
      if decide (p_gen P' = p_gen P) then
        match f with
        | LostReply e | Cut _ _ e => (Err e, P')
        | _ => (r, P')
        end
      else (Err broken, P')
  end.

(** ** The owner's calls *)

Variable data : handle -> stream error.
Variable addr : string.

Definition method_of (c : sup_call) : string :=
  match c with
  | CallPing _ => "Ping" | CallInfo => "Info" | CallSetenv _ => "Setenv" | CallSetargs _ => "Setargs"
  | CallKeepalive _ => "Keepalive" | CallSetbinary _ => "Setbinary" | CallExec => "Exec"
  | CallRegister _ _ => "Register"
  end.

Definition arg_of (c : sup_call) : call_arg :=
  match c with
  | CallPing z => ArgAny (enc z)
  | CallKeepalive d => ArgAny (enc d)
  | CallInfo | CallExec => ArgAny (enc tt)
  | CallSetenv l | CallSetargs l => ArgAny (enc l)
  | CallSetbinary h => ArgReader (data h)
  | CallRegister n h => ArgAny (enc (n, h))
  end.

(** &info, &reply or nil. *)
Definition reply_of (c : sup_call) : gval :=
  match c with
  | CallInfo => NewValue (go_type (string * string))
  | CallKeepalive _ => NewValue (go_type (Z * bool))
  | _ => nil_target
  end.

(** What the caller finds in its variable. *)
Definition read_reply (c : sup_call) (v : option gval) : MachineLoop.reply :=
  let x := Deref (default nil_target v) in
  match c with
  | CallInfo => let '(os, arch) := default ("", "") (dec x) in mkReply os arch 0 true
  | CallKeepalive _ => let '(next, healthy) := default (0%Z, false) (dec x) in mkReply "" "" next healthy
  | _ => mkReply "" "" 0 true
  end.

(** Machine.call: client.Call(ctx, m.Addr, serviceMethod, arg, reply). *)
Definition stack_call (tr : list action) (c : sup_call) (st : Client * process) :
    result error MachineLoop.reply * (Client * process) :=
  let '(res, cl, P) := RpcClient.Call (Post_at tr) None addr ("Supervisor." +:+ method_of c) (arg_of c)
                         (ReplyAny (reply_of c)) st.1 st.2 in
  (match ca_err res with Some e => Err e | None => Ok (read_reply c (ca_reply res)) end, (cl, P)).

Variables (cl0 : Client) (P0 : process).

Definition stack_effect (tr : list action) (a : action) (st : Client * process) : Client * process :=
  match a with
  | ACall method arg _ _ =>
      match sup_call_of method arg with Some c => (stack_call tr c st).2 | None => st end
  | _ => st
  end.

Fixpoint stack_replay (past todo : list action) (st : Client * process) : Client * process :=
  match todo with
  | [] => st
  | a :: todo => stack_replay (past ++ [a]) todo (stack_effect past a st)
  end.

(** The client and the process after what the owner did. *)
Definition stack_at (tr : list action) : Client * process := stack_replay [] tr (cl0, P0).

(** The owner whose calls of the supervisor, those that return, go down this stack. *)
Definition stacked : Prop :=
  forall tr method arg timeout c, sup_call_of method arg = Some c ->
    env_call tr method arg timeout = (stack_call tr c (stack_at tr)).1.

(** ** What the stack amounts to *)

(** How Client.Call returns an error of the request. *)
Definition as_called (e : error) : error :=
  if decide (e = DeadlineExceeded \/ e = Canceled) then e else E [AKind Net; ASev Temporary; AErr e].

Definition net (tr : list action) : delivery :=
  match wire tr with
  | Delivered => Delivered
  | LostRequest e => LostRequest (as_called e)
  | LostReply e => LostReply (as_called e)
  | Cut n seen e => Cut n seen (as_called e)
  end.

(** How it returns the error of a method. *)
Definition remote_err (method : string) (e : error) : error :=
  match Encode (SError (Recover e)) with
  | Ok b => decodeError method (buffer b)
  | Err e' => e'
  end.

(** ** The methods, as the server finds them *)

Hypothesis distinct : forall tr, NoDup (m_Name <$> Supervisor_methods tr).
(** net/url: the path of a URL made from this address. *)
Hypothesis routes : forall m, exists pre,
  url_path (TrimRight addr SLASH +:+ prefix cl0 +:+ "Supervisor." +:+ m) = method_path pre "Supervisor" m.

Definition supervisor_method (tr : list action) (c : sup_call) : reflect_Method process :=
  match c with
  | CallPing _ => Ping | CallInfo => Info | CallSetenv _ => Setenv_ | CallSetargs _ => Setargs_
  | CallKeepalive _ => Keepalive_ tr | CallSetbinary _ => Setbinary_ tr | CallExec => Exec_
  | CallRegister _ _ => Register_
  end.

Definition server_method (tr : list action) (c : sup_call) : method process :=
  new_method (supervisor_method tr c).

Lemma server_has tr c P :
  leads_to url_path (server tr P) {| t_service := "Supervisor"; t_method := method_of c |}
    (TrimRight addr SLASH +:+ prefix cl0 +:+ serviceMethod {| t_service := "Supervisor"; t_method := method_of c |})
    (server_method tr c).
Proof.
  split; [done|]. split; [done|]. split; [by destruct c|]. split; [apply routes|].
  exists {| name := "Supervisor"; methods := Init (Supervisor_methods tr) |}. split.
  - unfold server. by rewrite register_many_lookup.
  - simpl. apply Init_spec; [apply distinct|].
    exists (supervisor_method tr c), (arg (server_method tr c)), (RpcServer.reply (server_method tr c)).
    split; [unfold Supervisor_methods; destruct c; set_solver|]. split; [by destruct c|].
    split; [|by destruct c]. by destruct c; (repeat split); eexists.
Qed.

(** ** One call *)

(** The argument a method is called with. *)
Definition argument (tr : list action) (c : sup_call) : margv :=
  match c with
  | CallPing z => ArgValue (indirect (enc z))
  | CallKeepalive d => ArgValue (indirect (enc d))
  | CallInfo | CallExec => ArgValue (indirect (enc tt))
  | CallSetenv l | CallSetargs l => ArgValue (indirect (enc l))
  | CallSetbinary h => ArgBody (uploaded wire data tr h)
  | CallRegister n h => ArgValue (indirect (enc (n, h)))
  end.

(** The request of a call: what the client sends, and what of it the method gets. *)
Lemma request_of tr c : exists body ct req,
  encode_arg (arg_of c) = Ok (body, ct, req) /\
  let body' := match wire tr with
               | Cut n seen _ => if decide (ct = gobContentType) then body else cut_at n seen body
               | _ => body
               end in
  exists n, decode_request (server_method tr c) body' = (inr (argument tr c), n).
Proof.
  assert (HV : forall A `{!Codable A} (x : A) (m : method process), arg m = go_type A ->
    exists body ct req, encode_arg (ArgAny (enc x)) = Ok (body, ct, req) /\ ct = gobContentType /\
      exists n, decode_request m body = (inr (ArgValue (indirect (enc x))), n)).
  { intros A HA x m Hm. destruct (go_type_plain (A := A)) as (Hp & Hr & _).
    destruct (decode_received m (ArgAny (enc x))) as (body & ct & req & n & HE & HD).
    - simpl. rewrite Hm. split; [done|]. split; [apply enc_ok|]. rewrite decide_False by done. apply enc_fits.
    - exists body, ct, req. split; [done|]. split.
      + simpl in HE. destruct (Encode _); by simplify_eq/=.
      + exists n. rewrite HD. unfold received. by rewrite Hm, decide_False by done. }
  destruct c as [z| |l|l|d|h| |n h].
  6: { do 3 eexists. split; [reflexivity|]. cbn zeta. eexists. unfold decode_request, argument, uploaded.
       rewrite decide_True by done. destruct (wire tr); reflexivity. }
  1: edestruct (HV Z _ z (server_method tr (CallPing z)) eq_refl) as (body & ct & req & HE & -> & HD).
  2: edestruct (HV unit _ tt (server_method tr CallInfo) eq_refl) as (body & ct & req & HE & -> & HD).
  3: edestruct (HV (list string) _ l (server_method tr (CallSetenv l)) eq_refl) as (body & ct & req & HE & -> & HD).
  4: edestruct (HV (list string) _ l (server_method tr (CallSetargs l)) eq_refl) as (body & ct & req & HE & -> & HD).
  5: edestruct (HV Z _ d (server_method tr (CallKeepalive d)) eq_refl) as (body & ct & req & HE & -> & HD).
  6: edestruct (HV unit _ tt (server_method tr CallExec) eq_refl) as (body & ct & req & HE & -> & HD).
  7: edestruct (HV (string * handle)%type _ (n, h) (server_method tr (CallRegister n h)) eq_refl) as (body & ct & req & HE & -> & HD).
  all: exists body, gobContentType, req; split; [exact HE|]; destruct (wire tr); exact HD.
Qed.

(** The handlers of Bootstrap.v, over the fates of this network. *)
Definition gone : error := as_called broken.
Definition handle_at (tr : list action) (c : sup_call) (P : process) : result error MachineLoop.reply * process :=
  handle_call no_objs init net disk lease data Goos Goarch kern remote_err gone tr ("Supervisor." +:+ method_of c) c P.

Lemma uploaded_net tr h : uploaded net data tr h = uploaded wire data tr h.
Proof. unfold uploaded, net. by destruct (wire tr). Qed.

(** The reply of a method can be sent and is read by the caller as it should. *)
Definition answers (tr : list action) (c : sup_call) (rv : mreplyv) : Prop :=
  exists out, rv = ReplyValue out /\ (exists b, Encode (SVal out) = Ok b) /\ fits (reply_of c) out /\
    read_reply c (Some (SetElem (reply_of c) (indirect out))) = answer lease Goos Goarch tr c.

Lemma new_reply_value tr c : exists p, new_reply (server_method tr c) = ReplyValue p.
Proof.
  unfold new_reply. rewrite decide_False; [eauto|].
  destruct c; simpl; try discriminate; apply go_type_plain.
Qed.

Lemma answers_stored {A} `{!Codable A} tr c p (y : A) :
  read_reply c (Some (SetElem (reply_of c) (indirect (enc y)))) = answer lease Goos Goarch tr c ->
  fits (reply_of c) (enc y) -> answers tr c (ReplyValue (SetElem p (enc y))).
Proof.
  intros Hr Hf. exists (SetElem p (enc y)). split; [done|]. rewrite Encode_SetElem.
  split; [apply enc_ok|]. split; [by apply fits_SetElem|]. by rewrite indirect_SetElem.
Qed.

Lemma answers_nothing tr c :
  reply_of c = nil_target -> read_reply c = (fun _ => mkReply "" "" 0 true) ->
  new_reply (server_method tr c) = ReplyValue (NewValue typeOfEmpty) ->
  answer lease Goos Goarch tr c = mkReply "" "" 0 true ->
  answers tr c (new_reply (server_method tr c)).
Proof.
  intros Hn Hr -> Ha. exists (NewValue typeOfEmpty). split; [done|]. split; [apply Encode_empty|].
  rewrite Hn, Hr, Ha. split; [apply fits_nil|done].
Qed.

(** Every method does what its handler in Bootstrap.v does. *)
Lemma method_outcome tr c P :
  let '(ret, rv, P') := m_Call (method_ (server_method tr c)) (argument tr c) (new_reply (server_method tr c)) P in
  P' = (handle_at tr c P).2 /\
  (p_gen P' = p_gen P ->
     match method_error ret with
     | Some e => (handle_at tr c P).1 = Err (remote_err ("Supervisor." +:+ method_of c) e) /\
                 (forall rc, rv <> ReplyStream (Some rc))
     | None => (handle_at tr c P).1 = Ok (answer lease Goos Goarch tr c) /\ answers tr c rv
     end).
Proof.
  destruct (new_reply_value tr c) as [p Hp].
  destruct c as [z| |l|l|d|h| |n h]; simpl; rewrite ?dec_enc.
  - rewrite Hp. simpl. split; [done|]. intros _. split; [done|].
    apply answers_stored; [done|apply fits_nil].
  - rewrite Hp. simpl. split; [done|]. intros _. split; [done|].
    apply answers_stored; [|apply enc_fits]. simpl. by rewrite Deref_SetElem, dec_enc.
  - split; [done|]. intros _. split; [done|]. by apply answers_nothing.
  - split; [done|]. intros _. split; [done|]. by apply answers_nothing.
  - rewrite Hp. simpl. split; [done|]. intros _. split; [done|].
    apply answers_stored; [|apply enc_fits]. simpl. rewrite Deref_SetElem, dec_enc. simpl. by destruct (lease tr).
  - unfold handle_at, handle_call. rewrite uploaded_net.
    destruct (Setbinary _ _ _) as [[e|] s]; simpl.
    + split; [done|]. intros _. split; [done|]. intros rc. unfold new_reply. by rewrite decide_False.
    + split; [done|]. intros _. split; [done|]. by apply answers_nothing.
  - unfold handle_at, handle_call. destruct (Exec kern (p_sup P)); simpl.
    + split; [done|]. intros Hg. lia.
    + split; [done|]. intros _. split; [done|]. intros rc. unfold new_reply. by rewrite decide_False.
  - unfold handle_at, handle_call. simpl. destruct (register init n h P) as [[e|] P']; simpl.
    + split; [done|]. intros _. split; [done|]. intros rc. unfold new_reply. by rewrite decide_False.
    + split; [done|]. intros _. split; [done|]. by apply answers_nothing.
Qed.

(** What the connection makes of a request that arrives. *)
Lemma connection_outcome tr c hc ct body n P :
  decode_request (server_method tr c) body = (inr (argument tr c), n) ->
  let '(ret, rv, P') := m_Call (method_ (server_method tr c)) (argument tr c) (new_reply (server_method tr c)) P in
  exists resp,
    connection url_path (server tr P) flush hc
      (TrimRight addr SLASH +:+ prefix cl0 +:+ "Supervisor." +:+ method_of c) ct body P = (Ok resp, P') /\
    resp_Body resp = buffer (st_bytes (resp_Body resp)) /\ reply_meaning (t_proto flush) resp (method_error ret) rv.
Proof.
  intros HD. destruct (server_has tr c P) as (H1 & H2 & H3 & (pre & Hpath) & svc & Hsvc & Hm).
  unfold connection, ServeHTTP. cbn [r_Method r_URL_Path].
  rewrite (decide_False (P := "POST" <> "POST")) by (by intros []).
  change ("Supervisor." +:+ method_of c)
    with (serviceMethod {| t_service := "Supervisor"; t_method := method_of c |}).
  rewrite Hpath, route by done. rewrite Hsvc, Hm.
  match goal with |- context [dispatch ?l ?m _ ?r P] =>
    pose proof (dispatch_meaning l m flush r P) as H;
    set (d := dispatch l m (new_writer None flush) r P) in *;
    replace (decode_request m (Wire.r_Body r)) with (inr (argument tr c) : error + margv, n) in H by done end.
  cbn [fst] in H.
  destruct (m_Call _ _ _ P) as [[ret rv] P']. destruct H as (_ & Hw & Hmean & _).
  exists (finish (sv_writer d)). split; [by rewrite <- Hw|]. split; [|exact Hmean].
  unfold finish. destruct (default _ _) as [code hdr], (send_trailer _ _ _). simpl. unfold buffer, st_bytes. simpl. by rewrite sapp_nil_r.
Qed.

(** What the client makes of a response that arrives. *)
Lemma response_read tr c url req resp ret rv r :
  resp_Body resp = buffer (st_bytes (resp_Body resp)) -> reply_meaning (t_proto flush) resp (method_error ret) rv ->
  match method_error ret with
  | Some e => r = Err (remote_err ("Supervisor." +:+ method_of c) e) /\
              (forall rc, rv <> ReplyStream (Some rc))
  | None => r = Ok (answer lease Goos Goarch tr c) /\ answers tr c rv
  end ->
  let res := handle_response url ("Supervisor." +:+ method_of c) (ReplyAny (reply_of c)) req resp in
  match ca_err res with Some e => Err e | None => Ok (read_reply c (ca_reply res)) end = r.
Proof.
  intros Hbody Hmean Hr. destruct (method_error ret) as [e|].
  - destruct Hr as [-> Hrv].
    assert (Hm' : StatusCode resp = methodErrorCode /\
                  forall b, Encode (SError (Recover e)) = Ok b -> st_bytes (resp_Body resp) = b)
      by (destruct rv as [v|[rc|]]; [done|by destruct (Hrv rc)|done]).
    destruct Hm' as [Hs Hb]. destruct (Encode_Recover e) as [b HE]. specialize (Hb b HE).
    unfold handle_response, remote_err. rewrite Hs, HE. simpl. by rewrite Hbody, Hb.
  - destruct Hr as [-> (out & -> & [b HE] & Hfit & Hread)].
    assert (Hend : st_end (resp_Body resp) = None) by (by rewrite Hbody).
    destruct (handle_value flush url ("Supervisor." +:+ method_of c) (reply_of c) req resp out b) as [H1 H2]; try done.
    cbn zeta. rewrite H1, H2. by rewrite Hread.
Qed.

Lemma handle_gone tr c P : p_gen (handle_at tr c P).2 <> p_gen P -> (handle_at tr c P).1 = Err gone.
Proof.
  unfold handle_at, handle_call. destruct c; simpl; try done.
  - by destruct (Setbinary _ _ _).
  - by destruct (Exec _ _).
  - unfold register. by destruct (init _ _ _).
Qed.

(** One call goes as Bootstrap.v says, whatever the client's connections are. *)
Lemma stack_call_ok tr c cl P :
  prefix cl = prefix cl0 ->
  exists cl', prefix cl' = prefix cl0 /\
    stack_call tr c (cl, P) =
      (call_result no_objs init net disk lease data Goos Goarch kern remote_err gone tr ("Supervisor." +:+ method_of c) c P,
       (cl', call_effect no_objs init net disk lease data Goos Goarch kern remote_err gone tr ("Supervisor." +:+ method_of c) c P)).
Proof.
  intros Hpfx. unfold stack_call. cbn [fst snd].
  pose proof (Call_prefix (Post_at tr) None addr ("Supervisor." +:+ method_of c) (arg_of c) (ReplyAny (reply_of c)) cl P) as Hkeep.
  destruct (RpcClient.Call (Post_at tr) None addr ("Supervisor." +:+ method_of c) (arg_of c) (ReplyAny (reply_of c)) cl P)
    as [[res cl'] P'] eqn:Hcall. simpl in Hkeep. exists cl'. split; [congruence|].
  destruct (request_of tr c) as (body & ct & req & HE & n & HD).
  unfold RpcClient.Call in Hcall. rewrite HE in Hcall.
  destruct (getClient addr cl) as [h c1], (state_Client h c1) as [hc c2].
  rewrite Hpfx in Hcall. unfold Post_at in Hcall.
  pose proof (connection_outcome tr c (default 0 hc) ct _ n P HD) as Hconn.
  pose proof (method_outcome tr c P) as Hout.
  destruct (m_Call _ _ _ P) as [[ret rv] P1]. destruct Hconn as (resp & Hc & Hb & Hm).
  destruct Hout as [HP1 Hr].
  assert (Hnet : net tr = match wire tr with
    | Delivered => Delivered | LostRequest e => LostRequest (as_called e)
    | LostReply e => LostReply (as_called e) | Cut n seen e => Cut n seen (as_called e) end) by done.
  unfold call_result, call_effect. fold (handle_at tr c P).
  pose proof (handle_gone tr c P) as Hgone.
  destruct (handle_at tr c P) as [r P2]. simpl in HP1, Hr, Hgone. subst P2. rewrite Hnet.
  destruct (wire tr) as [|e|e|n' seen e] eqn:Hwire; cbn zeta in *.
  2: { injection Hcall as <- <- <-. unfold as_called. by case_decide. }
  all: rewrite Hc in Hcall; destruct (decide (p_gen P1 = p_gen P)) as [Hg|Hg]; injection Hcall as <- <- <-.
  1: f_equal; by eapply response_read; [..|apply Hr].
  1: rewrite (Hgone Hg).
  all: unfold gone, as_called; by repeat case_decide.
Qed.

(** ** The owner over the stack *)

Lemma stack_replay_snoc past todo a st :
  stack_replay past (todo ++ [a]) st = stack_effect (past ++ todo) a (stack_replay past todo st).
Proof.
  revert past st. induction todo as [|b todo IH]; intros past st; simpl.
  - by rewrite app_nil_r.
  - by rewrite IH, <- app_assoc.
Qed.

Lemma sup_call_method method arg c : sup_call_of method arg = Some c -> method = "Supervisor." +:+ method_of c.
Proof. unfold sup_call_of. intros H. destruct arg; repeat case_decide; by simplify_eq/=. Qed.

(** The process at the bottom of the stack is the one of Bootstrap.v. *)
Lemma stack_process tr :
  prefix (stack_at tr).1 = prefix cl0 /\
  (stack_at tr).2 = process_at no_objs init net disk lease data Goos Goarch kern remote_err gone P0 tr.
Proof.
  induction tr as [|a tr [IH1 IH2]] using rev_ind; [done|].
  unfold stack_at in *. rewrite stack_replay_snoc, process_at_snoc, <- IH2. simpl.
  destruct (stack_replay [] tr (cl0, P0)) as [cl P]. simpl in IH1. destruct a as [method a t e| | | | | | | | | | | |]; try done.
  simpl. destruct (sup_call_of method a) as [c|] eqn:Hc; [|done].
  destruct (stack_call_ok tr c cl P IH1) as (cl' & Hcl' & ->).
  by rewrite (sup_call_method _ _ _ Hc).
Qed.

(** The calls of a stacked owner are served as in Bootstrap.v. *)
Lemma stacked_served :
  stacked -> served no_objs init net disk lease data Goos Goarch kern remote_err gone P0.
Proof.
  intros Hs tr method arg timeout c Hc. rewrite (Hs tr method arg timeout c Hc).
  destruct (stack_process tr) as [H1 H2]. rewrite <- H2.
  destruct (stack_at tr) as [cl P]. destruct (stack_call_ok tr c cl P H1) as (cl' & _ & ->).
  by rewrite (sup_call_method _ _ _ Hc).
Qed.

(** C17. What the owner's exec makes of a machine, through the RPC client, the
    HTTP handler and the supervisor's methods.  Whatever the network does to the
    requests, uploads and replies, whatever the operating system says to execve, and
    whatever was done to the supervisor before: once exec has returned, or while it
    waits for the upload, which has no deadline, the machine either still runs the
    process it ran, or a new one, whose image is exactly the bytes of the image the owner opened for
    its architecture, completely received, with the owner's arguments and with
    the environment of the old process followed by the machine's - so that no
    variable of the boot process, such as the mode and the system of the worker,
    is changed by it.  exec returns if uploads do.  If moreover no message is lost,
    the disk has room and execve accepts the image, the machine runs the new
    process, and the owner sees the broken connection. *)
Theorem exec_replaces envs s :
  stacked -> (forall tr path, fs_TempFile (disk tr) = Ok path -> path <> "") ->
  exists tr, outcome_state (exec envs s) = mkLw (shared s) (trace s ++ tr) /\
    let P := (stack_at (trace s)).2 in
    let P' := (stack_at (trace s ++ tr)).2 in
    (still P P' \/
     exists rc tr' self, env_Open tr' self Goos Goarch = Ok rc /\ st_end (data rc) = None /\
       replaced envs (st_bytes (data rc)) P P' /\
       forall key kv, kv ∈ os_Environ (p_sup P) -> defines key kv ->
         Getenv (os_Environ (p_sup P')) key = Getenv (os_Environ (p_sup P)) key) /\
    ((forall tr rc, env_hangs tr "Supervisor.Setbinary" (CReader rc) = false) ->
       exists r, exec envs s = Done r (mkLw (shared s) (trace s ++ tr))) /\
    (forall rc, provisioned net disk data Goos Goarch kern rc ->
       exec envs s = Done (Some gone) (mkLw (shared s) (trace s ++ tr)) /\
       replaced envs (st_bytes (data rc)) P P').
Proof.
  intros Hs Hf. destruct (stack_process (trace s)) as [_ HP].
  destruct (exec_on_process no_objs init net disk lease data Goos Goarch kern remote_err gone P0
    (stacked_served Hs) Hf (shared s) envs (stack_at (trace s)).2 s eq_refl (eq_sym HP)) as (tr & Hrun & He).
  exists tr. split; [done|]. destruct (stack_process (trace s ++ tr)) as [_ HP'].
  cbv zeta. rewrite HP'. destruct (exec envs s) as [r s'|s']; simpl in Hrun; subst s'.
  2: { destruct He as [[Hst Hno] [rc Hh]]. split; [by left|]. split; [intros Hup; by rewrite Hup in Hh|].
       intros rc' Hp. by destruct (Hno rc'). }
  destruct He as [He Hlive]. split; [|split; [by exists r|intros rc Hp; by destruct (Hlive rc Hp) as [-> ?]]].
  destruct He as [Hst|(rc & tr' & self & Ho & Hend & Hrep)]; [by left|].
  - right. exists rc, tr', self. split; [done|]. split; [done|]. split; [done|].
    destruct Hrep as (_ & _ & _ & -> & _). intros key kv. apply Getenv_old.
Qed.
End stack.

(** ** A concrete encoder for these types *)

Module Samples.

(** What is sent, and pointers to it. *)
Definition payload : Type := list string + Z + unit + (string * string) + (Z * bool) + (string * nat) + string.
Inductive wval := WVal (p : payload) | WPtr (v : wval) | WNil.

Fixpoint windirect (v : wval) : wval := match v with WPtr v => windirect v | _ => v end.

(** Payloads as bits. *)
Fixpoint bits (p : positive) : string :=
  match p with
  | xH => ""
  | xO p => String "0"%char (bits p)
  | xI p => String "1"%char (bits p)
  end.
Fixpoint unbits (s : string) : positive :=
  match s with
  | "" => xH
  | String c s => if Ascii.eqb c "0"%char then xO (unbits s) else xI (unbits s)
  end.

Lemma unbits_of_bits p : unbits (bits p) = p.
Proof. induction p as [p IH|p IH|]; simpl; by rewrite ?IH. Qed.

Definition wEncode (x : gsource wval serror) : result serror string :=
  match x with
  | SVal v => match windirect v with
              | WVal p => Ok (String "V"%char (bits (encode p)))
              | _ => Err (SOther "gob: cannot encode nil pointer")
              end
  | SError e => simple_Encode (SError e)
  | SNilReadCloser => simple_Encode SNilReadCloser
  end.

Definition wDecode (p : wval) (s : stream serror) : wval * option serror * Z :=
  let n := Z.of_nat (String.length (st_bytes s)) in
  match st_bytes s with
  | String "V"%char b => match decode (unbits b) with
                    | Some x => (WPtr (WVal x), None, n)
                    | None => (p, Some (SOther "gob: corrupted data"), n)
                    end
  | _ => (p, Some (SOther "gob: corrupted data"), n)
  end.

#[export] Instance WGob : @Gob SimpleErrors := {|
  gval := wval;
  NewValue := fun _ => WPtr (WVal (inl (inl (inl (inl (inr tt))))));
  MakeMap := fun _ => WNil;
  MakeSlice := fun _ => WNil;
  Deref := fun v => match v with WPtr v => v | _ => v end;
  SetElem := fun _ v => WPtr v;
  Encode := wEncode;
  Decode := wDecode;
  DecodeError := simple_DecodeError
|}.

(** This encoder does not check types. *)
#[export] Instance WGob_laws : GobLaws SimpleErrors WGob.
Proof.
  refine {| indirect := windirect : gval -> gval; fits := fun _ _ : gval => True |}.
  - intros p v b s HE Hs _ _. simpl in *. unfold wEncode in HE.
    destruct (windirect v) as [x| |] eqn:Hv; try done. injection HE as <-. eexists.
    unfold wDecode. rewrite Hs, unbits_of_bits, decode_encode. reflexivity.
  - intros e b s HE Hs Hend. exact (DecodeError_Encode (G := SimpleGob) e b s HE Hs Hend).
  - done.
Defined.

Definition W_Codable {A} (t : GoType) (inj : A -> payload) (proj : payload -> option A)
    (Ht : Kind_of t <> KPtr /\ t <> typeOfReader /\ t <> typeOfReadCloser)
    (Hp : forall x, proj (inj x) = Some x) : Codable (GL := WGob_laws) A.
Proof.
  refine {| go_type := t; enc := fun x => WVal (inj x) : gval (Gob := WGob);
            dec := fun v : gval (Gob := WGob) => match v with WVal p => proj p | _ => None end |}.
  - exact Ht.
  - exact Hp.
  - intros x. by eexists.
  - done.
Defined.

#[export] Instance cod_strings : Codable (list string).
Proof.
  refine (W_Codable (TSlice (TBasic "string")) (fun l => inl (inl (inl (inl (inl (inl l))))))
    (fun p => match p with inl (inl (inl (inl (inl (inl l))))) => Some l | _ => None end) _ _); done.
Defined.
#[export] Instance cod_int : Codable Z.
Proof.
  refine (W_Codable (TBasic "int") (fun z => inl (inl (inl (inl (inl (inr z))))))
    (fun p => match p with inl (inl (inl (inl (inl (inr z))))) => Some z | _ => None end) _ _); done.
Defined.
#[export] Instance cod_unit : Codable unit.
Proof.
  refine (W_Codable typeOfEmpty (fun u => inl (inl (inl (inl (inr u)))))
    (fun p => match p with inl (inl (inl (inl (inr u)))) => Some u | _ => None end) _ _); done.
Defined.
#[export] Instance cod_info : Codable (string * string).
Proof.
  refine (W_Codable (TStruct "Info") (fun i => inl (inl (inl (inr i))))
    (fun p => match p with inl (inl (inl (inr i))) => Some i | _ => None end) _ _); done.
Defined.
#[export] Instance cod_lease : Codable (Z * bool).
Proof.
  refine (W_Codable (TStruct "keepaliveReply") (fun l => inl (inl (inr l)))
    (fun p => match p with inl (inl (inr l)) => Some l | _ => None end) _ _); done.
Defined.

#[export] Instance cod_service : Codable (string * handle).
Proof.
  refine (W_Codable (TStruct "service") (fun s => inl (inr s))
    (fun p => match p with inl (inr s) => Some s | _ => None end) _ _); done.
Defined.
#[export] Instance cod_string : Codable string.
Proof.
  refine (W_Codable (TBasic "string") (fun s => inr s)
    (fun p => match p with inr s => Some s | _ => None end) _ _); done.
Defined.

#[export] Instance WGob_pointers : GobPointers.
Proof.
  refine {| nil_target := WNil : gval (Gob := WGob) |}; try done.
  - by eexists.
  - intros e. by eexists.
Defined.

(** ** A sample owner and its machine *)

Definition booted : process nat :=
  {| p_gen := 0; p_image := "ec2boot";
     p_sup := {| binaryPath := ""; Supervisor.environ := []; Supervisor.os_Args := ["ec2boot"];
                 os_Environ := ["BIGMACHINE_MODE=machine"]; os_files := ∅ |};
     p_regs := []; p_made := 0; p_objs := 0 |}.

(** A service whose objects count the calls of its only method, which returns
    its argument. *)
Definition Echo : reflect_Method (G := WGob) nat :=
  {| m_Name := "Echo"; m_PkgPath := "";
     m_In := [TStruct "worker"; typeOfContext; TBasic "string"; TPtr (TBasic "string")];
     m_Out := [typeOfError];
     m_Call := fun a rv n =>
       (Returned None, match a, rv with ArgValue v, ReplyValue p => ReplyValue (SetElem p v) | _, _ => rv end, S n) |}.
Definition worker : handle -> nat -> instance (G := WGob) (W := nat) :=
  fun _ _ => {| i_methods := [Echo]; i_Init := Some (fun n => (None, n)) |}.

Definition image (h : handle) : stream serror := buffer "ELF".
Definition one_file : list (@action SimpleErrors) -> fs_answers (EL := SimpleErrors) :=
  fun _ => {| fs_TempFile := Ok "/tmp/1"; fs_write := None; fs_Close := None; fs_Chmod := None |}.
Definition one_lease : list (@action SimpleErrors) -> Z * bool := fun _ => ((5 * Minute)%Z, true).
Definition linux : kernel (EL := SimpleErrors) := Supervisor.Samples.linux.

(** The fates of the requests, as a function of how many actions came before. *)
Definition network (f : nat -> delivery (EL := SimpleErrors)) : list (@action SimpleErrors) -> delivery (EL := SimpleErrors) :=
  fun tr => f (length tr).

Section owner.
Variable wire : list (@action SimpleErrors) -> delivery (EL := SimpleErrors).

Definition sample_call := stack_call one_file one_lease "linux" "amd64" linux [] 0 worker (fun u => u) http2
  wire (SOther "EOF") image "h".
Definition sample_at := stack_at one_file one_lease "linux" "amd64" linux [] 0 worker (fun u => u) http2
  wire (SOther "EOF") image "h" (NewClient "/") booted.

(** Calls the supervisor does not know of are answered. *)
Definition owner_env : MachineEnv (EL := SimpleErrors) := {|
  env_call := fun tr m a _ => match sup_call_of m a with
                              | Some c => (sample_call tr c (sample_at tr)).1
                              | None => Ok (mkReply "" "" (5 * Minute)%Z true)
                              end;
  env_hangs := fun _ _ _ => false;
  env_retryWait := fun _ _ _ => None;
  env_now := fun tr => Z.of_nat (length tr);
  env_select := fun _ => None;
  env_state := fun _ => Starting;
  env_err := fun _ => None;
  env_ctxErr := fun _ => None;
  env_waitRunning := fun _ => None;
  env_file := fun _ _ _ => None;
  env_suffix := fun _ => "";
  env_Self := fun _ => Ok 0;
  env_Stat := fun _ _ _ => Some 1000000%Z;
  env_Open := fun _ _ _ _ => Ok 1;
  MachineLoop.os_Args := ["prog"];
  Duration_String := fun _ => "d";
  env_range := fun _ m => map_to_list m;
  env_range_perm := fun _ m => reflexivity (map_to_list m)
|}.
End owner.

Definition holds : list (@action SimpleErrors) -> delivery (EL := SimpleErrors) := fun _ => Delivered.

Lemma exec_replaces_witness :
  exists r tr, exec (env := owner_env holds) ["BIGMACHINE_MODE=driver"] (start_lw "h") = Done r (mkLw (newWorld "h") tr) /\
    p_image (sample_at holds tr).2 = "ELF" /\ p_gen (sample_at holds tr).2 = 1 /\
    Supervisor.os_Args (p_sup (sample_at holds tr).2) = ["prog"] /\
    os_Environ (p_sup (sample_at holds tr).2) = ["BIGMACHINE_MODE=machine"; "BIGMACHINE_MODE=driver"].
Proof.
  destruct (exec_replaces (env := owner_env holds) one_file one_lease "linux" "amd64" linux [] 0 worker (fun u => u) http2
    holds (SOther "EOF") image "h" (NewClient "/") booted) with (envs := ["BIGMACHINE_MODE=driver"]) (s := start_lw (EL := SimpleErrors) "h")
    as (tr & Hrun & _ & _ & Hlive).
  - intros tr. refine (bool_decide_unpack _ _). vm_compute. exact I.
  - intros m. by exists "h".
  - intros tr m a t c Hc. simpl. rewrite Hc. reflexivity.
  - intros tr path [= <-]. discriminate.
  - destruct (Hlive 1) as (Hdone & H1 & H2 & H3 & H4 & _).
    + split.
      * intros tr'. reflexivity.
      * intros tr'. exists 0, 1000000%Z. split; [exact eq_refl|]. split; [exact eq_refl|]. intros tr2. exact eq_refl.
      * intros tr'. reflexivity.
      * exact eq_refl.
      * intros path environ. reflexivity.
      * intros tr'. exists "/tmp/1". split; [discriminate|exact eq_refl].
    + eexists _, tr. split; [exact Hdone|]. split; [exact H2|]. split; [exact H1|]. split; [exact H3|exact H4].
Defined.

(** The request of Setenv is lost: its error is of kind Net, as that of a
    successful Exec, and Machine.loop goes on.  The machine becomes Running with
    the process it was started with, which has neither the owner's binary nor its
    environment. *)
Definition lost_setenv : list (@action SimpleErrors) -> delivery (EL := SimpleErrors) :=
  network (fun n => if decide (n = 7) then LostRequest (SOther "connection reset") else Delivered).

Definition owned : config := mkConfig true false {[ "Worker" := 7 ]} ["A=b"] Minute (2 * Minute) (10 * Second).

Lemma lost_upload_accepted :
  let s := outcome_state (loop (env := owner_env lost_setenv) 1 owned false (start_lw "h")) in
  state (mach (shared s)) = Running /\ p_image (sample_at lost_setenv (trace s)).2 = "ec2boot".
Proof. vm_compute. by split. Qed.

End Samples.
