(* ===== verification/Services.v ===== *)
(** What a machine is for: once Machine.loop (machine.go) has set an owned machine
    Running, the services of its owner are served by it, and calls of their
    methods run the methods of the instances that Supervisor.Register received.
    Here the loop of MachineLoop.v runs on the stack of Stack.v: its calls go
    through the RPC client and the RPC server to the supervisor's methods, which
    change what that server serves. *)
From S2P Require Import Prelude Errors GoStrings Wire RpcServer RpcClient RpcRoundtrip RpcRefine MachineState MachineLoop Supervisor Bootstrap Stack.
Local Open Scope string_scope.
Local Open Scope list_scope.
Local Open Scope bm_scope.

(** ** What a program of the loop logs *)

Section logs.
Context {EL : ErrorsLib} {env : MachineEnv}.

(** Every action of [tr], which comes after [p], is as [ok] says of it and of what
    came before it. *)
Fixpoint follows (ok : list action -> action -> Prop) (p tr : list action) : Prop :=
  match tr with
  | [] => True
  | a :: tr => ok p a /\ follows ok (p ++ [a]) tr
  end.

Definition does (ok : list action -> action -> Prop) (s s' : lw) : Prop :=
  exists tr, trace s' = trace s ++ tr /\ follows ok (trace s) tr.

Lemma follows_app ok p tr1 tr2 :
  follows ok p (tr1 ++ tr2) <-> follows ok p tr1 /\ follows ok (p ++ tr1) tr2.
Proof.
  revert p. induction tr1 as [|a tr1 IH]; intros p; simpl.
  - rewrite app_nil_r. naive_solver.
  - rewrite IH, <- app_assoc. simpl. naive_solver.
Qed.

#[export] Instance does_preorder ok : PreOrder (does ok).
Proof.
  split.
  - intros s. exists []. by rewrite app_nil_r.
  - intros s1 s2 s3 (tr1 & H1 & F1) (tr2 & H2 & F2). exists (tr1 ++ tr2).
    rewrite H2, H1, app_assoc. split; [done|]. apply follows_app. by rewrite <- H1.
Qed.

(** The error that a call logs is the one it got. *)
Definition honest (p : list action) (a : action) : Prop :=
  match a with ACall m arg t e => e = result_err (env_call p m arg t) | _ => True end.

(** The actions of the bootstrap, and of what follows it. *)
Definition boots (p : list action) (a : action) : Prop :=
  match a with ACall m _ _ _ => m <> "Supervisor.Register" | _ => True end.
Definition serves (c : config) (p : list action) (a : action) : Prop :=
  honest p a /\
  match a with
  | ACall m arg _ _ =>
      m <> "Supervisor.Exec" /\ forall n h, arg = CService n h -> services c !! n = Some h
  | _ => True
  end.

Section rules.
Context (ok : list action -> action -> Prop).

Lemma act_does a : (forall p, ok p a) -> keeps (does ok) (act a).
Proof. intros H s. exists [a]. by repeat split. Qed.

Lemma upd_does f : keeps (does ok) (upd f).
Proof. intros s. exists []. by rewrite app_nil_r. Qed.

Lemma ask_does {A} (f : list action -> A) a : (forall p, ok p (a (f p))) -> keeps (does ok) (ask f a).
Proof. intros H s. unfold ask, act. run_prog. exists [a (f (trace s))]. by repeat split. Qed.

Lemma call_does m arg t :
  (forall p, ok p (ACall m arg t (result_err (env_call p m arg t)))) -> keeps (does ok) (call m arg t).
Proof.
  intros H. unfold call. apply keeps_bind; [apply _|apply keeps_get; apply _|].
  intros hangs. destruct hangs; [apply keeps_block; apply _|by apply ask_does].
Qed.

(** The other actions are always in order. *)
Hypothesis others_ok : forall p a, (forall m arg t e, a <> ACall m arg t e) -> ok p a.

#[local] Hint Extern 1 (forall _ _ _ _, _ <> ACall _ _ _ _) => discriminate : bm.
#[local] Hint Extern 2 (keeps (does _) (ask _ _)) => apply ask_does; intros; apply others_ok : bm.
#[local] Hint Extern 2 (keeps (does _) (act _)) => apply act_does; intros; apply others_ok : bm.
#[local] Hint Resolve upd_does : bm.

Definition calls_ok (m : string) (arg : carg) : Prop :=
  forall p t, ok p (ACall m arg t (result_err (env_call p m arg t))).

#[local] Hint Extern 2 (keeps (does _) (call _ _ _)) => apply call_does; intros; auto : bm.

Lemma retryCall_does fuel ov rpc m arg : calls_ok m arg -> keeps (does ok) (retryCall fuel ov rpc m arg).
Proof. intros H. unfold retryCall, retryCall_body, calls_ok in *. keeps_tac. Qed.

Lemma Call_does fuel d addr m arg : calls_ok m arg -> keeps (does ok) (Call fuel d addr m arg).
Proof. intros H. unfold Call, Call_body, Call_stopped, calls_ok in *. keeps_tac. Qed.

Lemma machineAlive_does start : keeps (does ok) (machineAlive start).
Proof. unfold machineAlive, now. keeps_tac. Qed.

Lemma do_setState_does st : keeps (does ok) (do_setState st).
Proof. unfold do_setState. keeps_tac. Qed.

Lemma do_setError_does e : keeps (does ok) (do_setError e).
Proof. unfold do_setError. keeps_tac. Qed.

Lemma now_does : keeps (does ok) now.
Proof. unfold now. keeps_tac. Qed.

#[local] Hint Resolve machineAlive_does do_setState_does do_setError_does now_does : bm.

Lemma bootstrap_does fuel c hs start :
  (forall m arg, m <> "Supervisor.Register" -> calls_ok m arg) ->
  keeps (does ok) (bootstrap fuel c hs start).
Proof.
  intros H. unfold bootstrap, ping, exec, timeoutCall.
  assert (Hcall : forall m arg t, m <> "Supervisor.Register" -> keeps (does ok) (call m arg t))
    by (intros m arg t Hm; apply call_does; intros p; by apply H).
  assert (Hping : keeps (does ok) (retryCall fuel (9 * Minute) (3 * Minute) "Supervisor.Ping" (CInt 0)))
    by (apply retryCall_does; by apply H).
  destruct hs; repeat first [apply Hcall; discriminate | exact Hping | progress keeps_tac].
Qed.

Lemma saveDumps_does fuel :
  (forall m arg, m <> "Supervisor.Exec" -> (forall n h, arg <> CService n h) -> calls_ok m arg) ->
  keeps (does ok) (saveDumps fuel).
Proof.
  intros H. unfold saveDumps, saveProfile, saveExpvars.
  assert (H1 : forall addr w, keeps (does ok) (Call fuel (Some Minute) addr "Supervisor.Profile" (CProfile w 0 false)))
    by (intros; apply Call_does; by apply H).
  assert (H2 : keeps (does ok) (retryCall fuel (5 * Minute) (25 * Second) "Supervisor.Expvars" CUnit))
    by (apply retryCall_does; by apply H).
  keeps_tac.
Qed.

Section after.
Context (fuel : nat) (c : config).
Hypothesis later_ok : forall m arg,
  m <> "Supervisor.Exec" -> (forall n h, arg = CService n h -> services c !! n = Some h) -> calls_ok m arg.

Lemma saveDumps_later : keeps (does ok) (saveDumps fuel).
Proof. apply saveDumps_does. intros m arg Hm Ha. apply later_ok; [done|]. intros n h ->. by destruct (Ha n h). Qed.

Lemma register_all_does svcs :
  (forall n h, (n, h) ∈ svcs -> services c !! n = Some h) -> keeps (does ok) (register_all fuel svcs).
Proof.
  induction svcs as [|[n h] rest IH]; intros Hs; simpl; [keeps_tac|].
  apply keeps_bind; [apply _| |].
  - apply retryCall_does, later_ok; [done|]. intros n' h' [= <- <-]. apply Hs. by left.
  - intros [x|e]; [|keeps_tac]. apply IH. intros n' h' Hin. apply Hs. by right.
Qed.

Lemma ping_body_does : keeps (does ok) (ping_body fuel c).
Proof.
  unfold ping_body, errorf.
  assert (H : keeps (does ok) (retryCall fuel (keepaliveTimeout c) (keepaliveRpcTimeout c) "Supervisor.Ping" (CInt 0)))
    by (by apply retryCall_does, later_ok).
  keeps_tac.
Qed.

Lemma keepalive_body_does start : keeps (does ok) (keepalive_body fuel c start).
Proof.
  unfold keepalive_body, errorf. pose proof saveDumps_later.
  assert (H1 : keeps (does ok) (retryCall fuel (keepaliveTimeout c) (keepaliveRpcTimeout c)
                                  "Supervisor.Keepalive" (CDuration (5 * Minute))))
    by (by apply retryCall_does, later_ok).
  keeps_tac.
Qed.

Lemma range_services s n h : (n, h) ∈ env_range (trace s) (services c) -> services c !! n = Some h.
Proof. rewrite env_range_perm. apply elem_of_map_to_list. Qed.
End after.
End rules.

(** A run of the loop: a bootstrap, which registers nothing, and the rest, which
    replaces nothing. *)
Definition split_run (c : config) (tr : list action) : Prop :=
  exists t1 t2, tr = t1 ++ t2 /\ follows boots [] t1 /\ follows (serves c) t1 t2.

Lemma split_more c s s' : does (serves c) s s' -> split_run c (trace s) -> split_run c (trace s').
Proof.
  intros (tr & Htr & Hf) (t1 & t2 & Heq & H1 & H2). exists t1, (t2 ++ tr).
  rewrite Htr, Heq, app_assoc. split; [done|]. split; [done|]. apply follows_app. by rewrite <- Heq.
Qed.

Lemma split_boots c s : follows boots [] (trace s) -> split_run c (trace s).
Proof. intros H. exists (trace s), []. by rewrite app_nil_r. Qed.

Lemma boots_more s s' : does boots s s' -> follows boots [] (trace s) -> follows boots [] (trace s').
Proof. intros (tr & -> & Hf) H. by apply follows_app. Qed.

Lemma loop_split fuel c hs addr :
  split_run c (trace (outcome_state (loop fuel c hs (start_lw addr)))).
Proof.
  assert (Hb : forall p a, (forall m arg t e, a <> ACall m arg t e) -> boots p a)
    by (intros p [] H; try done; by destruct (H method arg timeout e)).
  assert (Hs : forall p a, (forall m arg t e, a <> ACall m arg t e) -> serves c p a)
    by (intros p [] H; try done; by destruct (H method arg timeout e)).
  assert (Hbc : forall m arg, m <> "Supervisor.Register" -> calls_ok boots m arg) by (by intros m arg H p t).
  assert (Hsc : forall m arg, m <> "Supervisor.Exec" ->
    (forall n h, arg = CService n h -> services c !! n = Some h) -> calls_ok (serves c) m arg)
    by (by intros m arg H1 H2 p t).
  set (I := fun s => split_run c (trace s)).
  assert (Hspec : spec (eq (start_lw addr)) (loop fuel c hs) (fun _ => I) I).
  { unfold loop.
    eapply spec_bind with (R := fun _ s => follows boots [] (trace s)).
    { intros s <-. done. }
    intros start. eapply spec_bind with (R := fun _ s => follows boots [] (trace s)).
    { intros s Hf. eapply boots_more; [|exact Hf]. by apply (do_setState_does boots). }
    intros []. eapply spec_bind with (R := fun _ => I).
    { intros s Hf. destruct (owner c).
      - pose proof (bootstrap_does boots Hb fuel c hs start Hbc s) as H.
        destruct (bootstrap _ _ _ _ s) as [b s'|s']; apply split_boots; by eapply boots_more.
      - by apply split_boots. }
    intros ok. apply (spec_keeps (does (serves c))); [|intros; by eapply split_more].
    destruct ok; simpl; [|apply keeps_ret, _].
    apply keeps_bind; [apply _|by apply retryCall_does, Hsc|]. intros [x|e]; [|by apply do_setError_does].
    destruct (owner c); simpl.
    - intros s. unfold mbind at 1, mget. apply keeps_bind; [apply _| |].
      + apply register_all_does with (c := c); [done..|]. intros n h. apply range_services.
      + intros [[n e]|]; [by apply do_setError_does|].
        apply keeps_bind; [apply _| |intros _].
        { destruct hs; [by apply act_does|apply keeps_ret, _]. }
        apply keeps_bind; [apply _|by apply do_setState_does|intros _].
        apply keeps_iterate; [apply _|]. intros _. by apply keepalive_body_does.
    - apply keeps_bind; [apply _|by apply do_setState_does|intros _].
      apply keeps_iterate; [apply _|]. intros _. by apply ping_body_does. }
  specialize (Hspec (start_lw addr) eq_refl). by destruct (loop _ _ _ _).
Qed.
End logs.

(** ** The services of the process *)

Section registered.
Context {EL : ErrorsLib} {env : MachineEnv} {O : Type}.
Variables (no_objs : O) (init : handle -> nat -> O -> option error * O).
Variable net : list action -> delivery.
Variable disk : list action -> fs_answers.
Variable lease : list action -> Z * bool.
Variable data : handle -> stream error.
Variables Goos Goarch : string.
Variable kern : kernel.
Variable remote_err : string -> error -> error.
Variable gone : error.
Variable P0 : process O.

#[local] Abbreviation effect := (action_effect no_objs init net disk lease data Goos Goarch kern remote_err gone).
#[local] Abbreviation at_ := (process_at no_objs init net disk lease data Goos Goarch kern remote_err gone P0).
#[local] Abbreviation handle_ := (handle_call no_objs init net disk lease data Goos Goarch kern remote_err gone).

(** The registrations are of the owner's services. *)
Definition known (c : config) (P : process O) : Prop :=
  Forall (fun r => services c !! r.1 = Some r.2.1) (p_regs P).

(** What a handler does to the registrations. *)
Lemma handle_regs tr m x P :
  p_regs (handle_ tr m x P).2 =
    match x with
    | CallRegister n h => p_regs P ++ [(n, (h, p_made P))]
    | CallExec => match Exec kern (p_sup P) with Replaced _ _ _ => [] | ExecFailed _ => p_regs P end
    | _ => p_regs P
    end.
Proof.
  destruct x as [| | | | |h| |n h]; simpl; try done.
  - by destruct (Setbinary _ _ _).
  - by destruct (Exec _ _).
  - unfold register. by destruct (init _ _ _).
Qed.

Lemma effect_boots p a P : boots p a -> p_regs P = [] -> p_regs (effect p a P) = [].
Proof.
  intros Hb HP. destruct a; try done. simpl in *.
  destruct (sup_call_of method arg) as [x|] eqn:Hx; [|done]. unfold call_effect.
  assert (H : p_regs (handle_ p method x P).2 = []).
  { rewrite handle_regs. destruct x; try done; [by destruct (Exec _ _)|].
    unfold sup_call_of in Hx. destruct arg; repeat case_decide; simplify_eq/=. }
  by destruct (net p).
Qed.

Lemma effect_serves c p a P :
  serves c p a -> known c P ->
  known c (effect p a P) /\ p_regs P `prefix_of` p_regs (effect p a P).
Proof.
  intros [_ Hs] HP. destruct a; try done. simpl in *. destruct Hs as [Hm Harg].
  destruct (sup_call_of method arg) as [x|] eqn:Hx; [|done]. unfold call_effect.
  assert (H : known c (handle_ p method x P).2 /\ p_regs P `prefix_of` p_regs (handle_ p method x P).2).
  { unfold known. rewrite handle_regs. unfold sup_call_of in Hx.
    destruct arg as [| | | | |n h|]; repeat case_decide; simplify_eq/=; try done.
    split; [|by apply prefix_app_r]. apply Forall_app. split; [done|]. constructor; [by apply Harg|constructor]. }
  by destruct (net p).
Qed.

Lemma at_boots tr : p_regs P0 = [] -> follows boots [] tr -> p_regs (at_ tr) = [].
Proof.
  intros H0. induction tr as [|a tr IH] using rev_ind; intros Hf; [done|].
  apply follows_app in Hf as [Hf [Ha _]]. rewrite process_at_snoc. apply effect_boots; [done|]. by apply IH.
Qed.

Lemma at_serves c p tr :
  known c (at_ p) -> follows (serves c) p tr ->
  known c (at_ (p ++ tr)) /\ p_regs (at_ p) `prefix_of` p_regs (at_ (p ++ tr)).
Proof.
  intros Hk. induction tr as [|a tr IH] using rev_ind; intros Hf; [by rewrite app_nil_r|].
  apply follows_app in Hf as [Hf [Ha _]]. destruct (IH Hf) as [Hk' Hp].
  rewrite app_assoc, process_at_snoc. destruct (effect_serves c (p ++ tr) a _ Ha Hk') as [H1 H2].
  split; [done|]. by etrans.
Qed.

(** What the process serves after a run of the loop. *)
Lemma split_known c tr : p_regs P0 = [] -> split_run c tr -> known c (at_ tr).
Proof.
  intros H0 (t1 & t2 & -> & H1 & H2). apply (at_serves c t1 t2); [|done].
  unfold known. by rewrite (at_boots t1).
Qed.

Context (Hserved : served no_objs init net disk lease data Goos Goarch kern remote_err gone P0).

Lemma registered_now p n h t :
  honest p (ACall "Supervisor.Register" (CService n h) t None) ->
  exists k, (n, (h, k)) ∈ p_regs (at_ (p ++ [ACall "Supervisor.Register" (CService n h) t None])).
Proof.
  intros Hh. simpl in Hh. rewrite (Hserved p "Supervisor.Register" (CService n h) t (CallRegister n h) eq_refl) in Hh.
  destruct (call_result _ _ _ _ _ _ _ _ _ _ _ p _ _ _) as [r|e] eqn:Hr; [|done].
  destruct (result_Ok _ _ _ _ _ _ _ _ _ _ _ _ _ _ _ _ Hr) as (_ & _ & He).
  rewrite process_at_snoc. cbn [action_effect sup_call_of]. rewrite decide_True by done.
  rewrite He, handle_regs. exists (p_made (at_ p)). apply elem_of_app. right. by left.
Qed.

Lemma ready_registered c tr n h t :
  p_regs P0 = [] -> split_run c tr -> ACall "Supervisor.Register" (CService n h) t None ∈ tr ->
  exists k, (n, (h, k)) ∈ p_regs (at_ tr).
Proof.
  intros H0 (t1 & t2 & -> & H1 & H2) Hin.
  assert (Hk1 : known c (at_ t1)) by (unfold known; by rewrite (at_boots t1)).
  apply elem_of_app in Hin as [Hin|Hin].
  - exfalso. apply list_elem_of_split in Hin as (l1 & l2 & ->).
    apply follows_app in H1 as [_ [H1 _]]. by apply H1.
  - apply list_elem_of_split in Hin as (l1 & l2 & ->).
    apply follows_app in H2 as [Hl1 [[Hh Hs] Hl2]].
    destruct (registered_now (t1 ++ l1) n h t Hh) as [k Hk]. exists k.
    assert (Hkn : known c (at_ (t1 ++ l1))) by (by apply at_serves).
    destruct (at_serves c (t1 ++ l1) [ACall "Supervisor.Register" (CService n h) t None] Hkn) as [Hkn' _].
    { split; [|done]. by split. }
    destruct (at_serves c _ l2 Hkn' Hl2) as [_ [rest Hrest]].
    replace (t1 ++ l1 ++ _ :: l2) with (((t1 ++ l1) ++ [ACall "Supervisor.Register" (CService n h) t None]) ++ l2)
      by (by rewrite <- !app_assoc).
    rewrite Hrest. apply elem_of_app. by left.
Qed.

(** The instance that is served under a name. *)
Lemma first_registered c P n h k :
  known c P -> (n, (h, k)) ∈ p_regs P ->
  exists k', snd <$> (snd <$> list_find (fun r => r.1 = n) (p_regs P)) = Some (h, k').
Proof.
  intros Hk Hin. destruct (list_find_elem_of (fun r => r.1 = n) (p_regs P) (n, (h, k)) Hin eq_refl) as [[i [n' [h' k']]] Hf].
  pose proof Hf as Hf'. apply list_find_Some in Hf' as (Hi & Hn & _). simpl in Hn. subst n'.
  assert (H1 : services c !! n = Some h) by (by eapply (proj1 (Forall_forall _ _) Hk (n, (h, k)))).
  assert (H2 : services c !! n = Some h')
    by (eapply (proj1 (Forall_forall _ _) Hk (n, (h', k'))); by eapply list_elem_of_lookup_2).
  exists k'. rewrite Hf. simpl. by simplify_eq.
Qed.
End registered.

(** ** A running machine *)

Section serving.
Context {EL : ErrorsLib} {G : Gob} {GL : GobLaws EL G} {GP : GobPointers}.
Context `{!Codable Z, !Codable unit, !Codable (list string), !Codable (string * string),
          !Codable (Z * bool), !Codable (string * handle)}.
Context {env : MachineEnv} {O : Type}.
(** The machine, the network and the owner, as in Stack.v. *)
Variable disk : list action -> fs_answers.
Variable lease : list action -> Z * bool.
Variables Goos Goarch : string.
Variable kern : kernel.
Variable others : list (reflect_Method (process O)).
Variable no_objs : O.
Variable inst : handle -> nat -> instance (G := G) (W := O).
Variable url_path : string -> string.
Variable flush : transport.
Variable wire : list action -> delivery.
Variable broken : error.
Variable data : handle -> stream error.
Variable addr : string.
Variables (cl0 : Client) (P0 : process O).

#[local] Abbreviation methods_at := (Supervisor_methods disk lease Goos Goarch kern others no_objs inst).
#[local] Abbreviation server_at := (server disk lease Goos Goarch kern others no_objs inst).
#[local] Abbreviation machine_at :=
  (stack_at disk lease Goos Goarch kern others no_objs inst url_path flush wire broken data addr cl0 P0).

Hypothesis distinct : forall tr, NoDup (m_Name <$> methods_at tr).
Hypothesis routes : forall m, exists pre,
  url_path (TrimRight addr SLASH +:+ prefix cl0 +:+ "Supervisor." +:+ m) = method_path pre "Supervisor" m.
Hypothesis owned_stack :
  stacked disk lease Goos Goarch kern others no_objs inst url_path flush wire broken data addr cl0 P0.

(** A method of an instance, as the server finds it. *)
Definition served_method (m : reflect_Method O) : method (process O) := new_method (lift m).

Lemma lift_names (ms : list (reflect_Method O)) : m_Name <$> (lift <$> ms) = m_Name <$> ms.
Proof. rewrite <- list_fmap_compose. apply list_fmap_ext. done. Qed.

Lemma served_lookup c P n h k :
  known c P -> (n, (h, k)) ∈ p_regs P -> n <> "Supervisor" ->
  exists k', forall tr, RpcServer.services (server_at tr P) !! n =
    Some {| name := n; methods := Init (lift <$> i_methods (inst h k')) |}.
Proof.
  intros Hk Hin Hn. destruct (first_registered c P n h k Hk Hin) as [k' Hf]. exists k'. intros tr.
  unfold server. rewrite register_many_lookup. unfold registered.
  cbn [list_find fst]. rewrite decide_False by done. unfold registrations. rewrite list_find_fmap.
  destruct (list_find (fun r => r.1 = n) (p_regs P)) as [[i [n' [h' k'']]]|] eqn:E; simpl in Hf; [|done].
  unfold compose. cbn [fst]. rewrite E. simpl. by simplify_eq.
Qed.

(** A call of a method of the service [n] of this machine: the job names the
    service and the method, its URL leads to this machine, the argument and the
    reply are of the method's types, and the names have no slash or dot. *)
Record service_call (n : string) (ms : list (reflect_Method O)) (m : reflect_Method O)
    (cl : Client) (j : job (W := process O)) : Prop := {
  sc_method : m ∈ ms;
  sc_names : NoDup (m_Name <$> ms);
  sc_signature : exists argT replyT, rpc_signature m argT replyT;
  sc_target : j_target j = {| t_service := n; t_method := m_Name m |};
  sc_job : j_method j = served_method m;
  sc_clean : has_byte SLASH n = false /\ has_byte DOT n = false /\ has_byte SLASH (m_Name m) = false;
  sc_url : exists pre,
    url_path (TrimRight (j_addr j) SLASH +:+ prefix cl +:+ serviceMethod (j_target j)) = method_path pre n (m_Name m);
  sc_arg : arg_fits (served_method m) (j_arg j);
  sc_reply : forall P, answerable (method_run (served_method m) (j_arg j) P).1.1
                        (method_run (served_method m) (j_arg j) P).1.2 (j_reply j)
}.

Lemma service_call_ok n ms m cl j srv :
  RpcServer.services srv !! n = Some {| name := n; methods := Init (lift <$> ms) |} ->
  service_call n ms m cl j -> job_ok url_path srv (prefix cl) j.
Proof.
  intros Hsrv [Hm Hnd (a & r & Hsig) Ht Hj (H1 & H2 & H3) Hurl Harg Hrep]. split; [|split; [by rewrite Hj|by rewrite Hj]].
  rewrite Ht, Hj in *. split; [done|]. split; [done|]. split; [done|]. split; [done|].
  eexists. split; [exact Hsrv|]. simpl. apply Init_spec; [by rewrite lift_names|].
  exists (lift m), a, r. split; [by apply list_elem_of_fmap_2|]. split; [done|]. split; [exact Hsig|].
  unfold served_method. by apply new_method_sig.
Qed.

(** C16. A running machine serves its services.  Whatever the network does to the
    calls of the loop, and however often they are repeated: from the moment the
    loop sets an owned machine Running, also when it has returned, the server of
    the machine has every service of the owner under its name, with the methods
    of an instance that the owner sent for it; and a call of such a method
    through the RPC client and this server does what calling the method on the
    objects of the process does - the value, the error or the stream it
    returns reach the caller (of the error at the end of a stream, what a trailer
    carries), the method runs once if its request arrives, and
    not at all if it is lost. *)
Theorem running_machine_serves fuel c hs s n h :
  p_regs P0 = [] -> owner c = true ->
  (loop fuel c hs (start_lw addr) = Done tt s \/ loop fuel c hs (start_lw addr) = Looping s) ->
  ASet Running ∈ trace s -> services c !! n = Some h -> n <> "Supervisor" ->
  let P := (machine_at (trace s)).2 in
  exists k,
    RpcServer.services (server_at (trace s) P) !! n =
      Some {| name := n; methods := Init (lift <$> i_methods (inst h k)) |} /\
    forall m j cl, service_call n (i_methods (inst h k)) m cl j ->
      let '(res, _, P') := run_job url_path (server_at (trace s) P) flush j cl P in
      let '(o, P2) := spec_job j P in
      observes flush (j_reply j) o res /\ P' = P2.
Proof.
  intros H0 Ho Hrun Hset Hn Hne P.
  destruct (stack_process disk lease Goos Goarch kern others no_objs inst url_path flush wire broken data addr
    cl0 P0 distinct routes (trace s)) as [_ HP].
  pose proof (stacked_served disk lease Goos Goarch kern others no_objs inst url_path flush wire broken data addr
    cl0 P0 distinct routes owned_stack) as Hserved.
  assert (Htr : split_run c (trace s) /\ ran_ready c (trace s)).
  { pose proof (loop_split fuel c hs addr) as H1. pose proof (loop_ran_ready fuel c hs addr) as H2.
    by destruct Hrun as [Hrun|Hrun]; rewrite Hrun in H1, H2. }
  destruct Htr as [Hsplit Hready]. apply list_elem_of_split in Hset as (tr1 & tr2 & Htr).
  destruct (Hready tr1 tr2 Htr) as [_ Hregs]. destruct (Hregs Ho n h Hn) as [t Hin].
  assert (Hin' : ACall "Supervisor.Register" (CService n h) t None ∈ trace s) by (rewrite Htr; set_solver).
  destruct (ready_registered no_objs (init inst) (net wire) disk lease data Goos Goarch kern remote_err
    (gone broken) P0 Hserved c (trace s) n h t H0 Hsplit Hin') as [k Hk].
  pose proof (split_known no_objs (init inst) (net wire) disk lease data Goos Goarch kern remote_err
    (gone broken) P0 c (trace s) H0 Hsplit) as Hkn.
  rewrite <- HP in Hk, Hkn.
  destruct (served_lookup c P n h k Hkn Hk Hne) as [k' Hsrv]. exists k'. split; [apply Hsrv|].
  intros m j cl Hc. pose proof (job_refines url_path (server_at (trace s) P) flush (prefix cl) j cl P eq_refl
    (service_call_ok n _ m cl j _ (Hsrv (trace s)) Hc)) as H.
  destruct (run_job _ _ _ _ _ _) as [[res cl'] P'], (spec_job _ _) as [o P2]. by destruct H as (H & _ & ->).
Qed.
End serving.

(** ** The sample machine *)

Module Samples.
Import Stack.Samples.

Definition running_at : lw := outcome_state (loop (env := owner_env holds) 1 owned false (start_lw "h")).

(** A call of Worker.Echo. *)
Definition echo : job (G := WGob) (W := process nat) :=
  {| j_addr := "h"; j_target := {| t_service := "Worker"; t_method := "Echo" |};
     j_arg := ArgAny (enc "hi"); j_reply := ReplyAny (NewValue (TBasic "string"));
     j_fate := Holds; j_method := served_method Echo |}.

Definition echo_call := run_job (fun u => u)
  (server one_file one_lease "linux" "amd64" linux [] 0 worker (trace running_at)
     (sample_at holds (trace running_at)).2) http2 echo (NewClient "/") (sample_at holds (trace running_at)).2.

Lemma echo_service_call k : service_call (fun u => u) "Worker" (i_methods (worker 7 k)) Echo (NewClient "/") echo.
Proof.
  split.
  - left.
  - apply (bool_decide_unpack _). exact I.
  - exists (TBasic "string"), (TPtr (TBasic "string")). repeat split. by eexists.
  - done.
  - done.
  - done.
  - by exists "h".
  - split; [done|]. split; [|exact I]. by eexists.
  - intros P. split; [|exact I]. by eexists.
Qed.

Lemma echo_spec (P : process nat) :
  spec_job echo P = (Seen (Returned None) (ReplyValue (WPtr (WVal (inr "hi")) : gval (Gob := WGob))), with_objs (S (p_objs P)) P).
Proof. reflexivity. Qed.

Lemma running_machine_serves_witness :
  ca_err echo_call.1.1 = None /\ ca_reply echo_call.1.1 = Some (WPtr (WVal (inr "hi"))) /\
  p_objs echo_call.2 = S (p_objs (sample_at holds (trace running_at)).2).
Proof.
  destruct (running_machine_serves (env := owner_env holds) one_file one_lease "linux" "amd64" linux [] 0 worker
    (fun u => u) http2 holds (SOther "EOF") image "h" (NewClient "/") booted) with (fuel := 1) (c := owned) (hs := false)
    (s := running_at) (n := "Worker") (h := 7) as (k & _ & Hcall).
  - intros tr. refine (bool_decide_unpack _ _). vm_compute. exact I.
  - intros m. by exists "h".
  - intros tr m a t c Hc. simpl. rewrite Hc. reflexivity.
  - exact eq_refl.
  - exact eq_refl.
  - right. vm_compute. reflexivity.
  - assert (H : find (fun a => match a with ASet Running => true | _ => false end) (trace running_at) = Some (ASet Running))
      by (vm_compute; reflexivity).
    apply find_some in H as [H _]. by apply list_elem_of_In.
  - exact eq_refl.
  - discriminate.
  - specialize (Hcall Echo echo (NewClient "/") (echo_service_call k)).
    change (run_job _ _ _ echo _ _) with echo_call in Hcall.
    destruct echo_call as [[res cl] P']. cbn [fst snd].
    rewrite echo_spec in Hcall. destruct Hcall as [[H1 H2] ->]. split; [exact H1|]. split; [exact H2|reflexivity].
Defined.
End Samples.
