(* ===== verification/Authority.v ===== *)
(** internal/authority/authority.go: the certificate authority a driver shares
    with its machines - made and cached in a file, read back, and used to issue
    the certificates of the TLS configurations of both sides.

    Keys, certificates and their encodings (packages rsa, x509 and pem) are the
    class [X509], with their documented behaviour as the laws [X509Laws]. *)
From S2P Require Import Prelude Errors GoStrings.
From Stdlib Require Import Ascii.
Local Open Scope string_scope.
Local Open Scope list_scope.
Local Open Scope Z_scope.

(** ** Certificates *)

(** Times and durations are in nanoseconds, times since 1970. *)
Definition DriftMargin : Z := 60 * 1000000000.
Definition certDuration : Z := 7 * 24 * 3600 * 1000000000.

(** 2060-01-01. *)
Definition caNotAfter : Z := 2840140800 * 1000000000.

(** What a key may be used for, and what a certificate is for. *)
Inductive KeyUsage_ := KeyUsageKeyEncipherment | KeyUsageDigitalSignature | KeyUsageCertSign.
Inductive ExtKeyUsage_ := ExtKeyUsageServerAuth | ExtKeyUsageClientAuth.

#[export] Instance KeyUsage_eq_dec : EqDecision KeyUsage_.
Proof. solve_decision. Defined.
#[export] Instance ExtKeyUsage_eq_dec : EqDecision ExtKeyUsage_.
Proof. solve_decision. Defined.

(** The fields of x509.Certificate that the code sets; the bits of KeyUsage as a
    list. *)
Record template := {
  SerialNumber : Z;
  CommonName : string;
  NotBefore : Z;
  NotAfter : Z;
  KeyUsage : list KeyUsage_;
  ExtKeyUsage : list ExtKeyUsage_;
  BasicConstraintsValid : bool;
  IsCA : bool;
  IPAddresses : list string;
  DNSNames : list string
}.

(** A certificate stores its times in seconds. *)
Definition whole_seconds (z : Z) : Z := z / 1000000000 * 1000000000.

Definition encoded (t : template) : template :=
  {| SerialNumber := SerialNumber t; CommonName := CommonName t;
     NotBefore := whole_seconds (NotBefore t); NotAfter := whole_seconds (NotAfter t);
     KeyUsage := KeyUsage t; ExtKeyUsage := ExtKeyUsage t; BasicConstraintsValid := BasicConstraintsValid t;
     IsCA := IsCA t; IPAddresses := IPAddresses t; DNSNames := DNSNames t |}.

Definition CERTIFICATE : string := "CERTIFICATE".
Definition RSA_PRIVATE_KEY : string := "RSA PRIVATE KEY".

Class X509 {EL : ErrorsLib} := {
  key : Type;
  pubkey : Type;
  #[global] pubkey_eq_dec :: EqDecision pubkey;
  Public : key -> pubkey;
  (** A parsed certificate: its fields, its subject's key, and the public half of
      the key that signed it. *)
  certificate : Type;
  c_template : certificate -> template;
  c_pub : certificate -> pubkey;
  c_signer : certificate -> pubkey;
  (** The parent is a template, or a parsed certificate with its key. *)
  CreateCertificate : template -> template * option pubkey -> pubkey -> key -> result error string;
  ParseCertificate : string -> result error certificate;
  MarshalPKCS1PrivateKey : key -> string;
  ParsePKCS1PrivateKey : string -> result error key;
  (** package pem: a block is its type and its bytes. *)
  pem_Encode : string * string -> result error string;
  pem_Decode : string -> option (string * string) * string
}.

Class X509Laws {EL : ErrorsLib} (X : X509) : Prop := {
  Parse_Create : forall t parent pub priv der,
    CreateCertificate t parent pub priv = Ok der ->
    exists c, ParseCertificate der = Ok c /\ c_template c = encoded t /\ c_pub c = pub /\ c_signer c = Public priv;
  Parse_Marshal : forall k, ParsePKCS1PrivateKey (MarshalPKCS1PrivateKey k) = Ok k;
  Decode_Encode : forall b s rest, b.1 = CERTIFICATE \/ b.1 = RSA_PRIVATE_KEY ->
    pem_Encode b = Ok s -> pem_Decode (s +:+ rest) = (Some b, rest);
  Decode_nil : pem_Decode "" = (None, "");
  Decode_shorter : forall s b rest, pem_Decode s = (Some b, rest) -> (String.length rest < String.length s)%nat
}.

Section authority.
Context {EL : ErrorsLib} {X : X509}.

(** ** New *)

(** The authority. *)
Record T := {
  T_key : key;
  T_cert : certificate;
  certPEM : string;
  keyPEM : string
}.

(** What the operating system answers: the key rsa.GenerateKey makes, the time,
    an error of reading the file other than that it does not exist, and an error
    of writing it (with what was written, if the file could be opened). *)
Record answers := {
  a_key : result error key;
  a_now : Z;
  a_ReadFile : option error;
  a_WriteFile : option (option nat * error)
}.

(** The template of the authority's own certificate. *)
Definition ca_template (now : Z) : template :=
  {| SerialNumber := 1; CommonName := "bigmachine"; NotBefore := now - DriftMargin; NotAfter := caNotAfter;
     KeyUsage := [KeyUsageKeyEncipherment; KeyUsageDigitalSignature; KeyUsageCertSign];
     ExtKeyUsage := [ExtKeyUsageClientAuth; ExtKeyUsageServerAuth]; BasicConstraintsValid := true;
     IsCA := true; IPAddresses := []; DNSNames := [] |}.

(** The function literal in New that makes a new authority's file. *)
Definition generate (a : answers) : result error string :=
  match a_key a with
  | Err e => Err e
  | Ok k =>
      let t := ca_template (a_now a) in
      match CreateCertificate t (t, None) (Public k) k with
      | Err e => Err e
      | Ok der =>
          match pem_Encode (CERTIFICATE, der) with
          | Err e => Err e
          | Ok c =>
              match pem_Encode (RSA_PRIVATE_KEY, MarshalPKCS1PrivateKey k) with
              | Err e => Err e
              | Ok s => Ok (c +:+ s)
              end
          end
      end
  end.

(** The files of the host. *)
#[local] Abbreviation files := (gmap string string).

(** cached: an error of ReadFile is returned as nil, with what was read.  That is
    nothing here: an error in the middle of a file is taken for one at its start. *)
Definition cached (filename : string) (gen : result error string) (a : answers) (fs : files) :
    result error string * files :=
  if decide (filename = "") then (gen, fs)
  else
    match a_ReadFile a with
    | Some _ => (Ok "", fs)
    | None =>
        match fs !! filename with
        | Some p => (Ok p, fs)
        | None =>
            match gen with
            | Err e => (Err e, fs)
            | Ok p =>
                match a_WriteFile a with
                | None => (Ok p, <[filename := p]> fs)
                | Some (None, e) => (Err e, fs)
                | Some (Some n, e) => (Err e, <[filename := String.substring 0 n p]> fs)
                end
            end
        end
    end.

(** The loop over the blocks of the file; [None] if the fuel is used up. *)
Fixpoint blocks (fuel : nat) (pemBlock : string) (certBlock keyBlock : option string) :
    option (option string * option string) :=
  match fuel with
  | O => None
  | S fuel =>
      match pem_Decode pemBlock with
      | (None, _) => Some (certBlock, keyBlock)
      | (Some (typ, bytes), rest) =>
          if decide (typ = CERTIFICATE) then blocks fuel rest (Some bytes) keyBlock
          else if decide (typ = RSA_PRIVATE_KEY) then blocks fuel rest certBlock (Some bytes)
          else blocks fuel rest certBlock keyBlock
      end
  end.

(** New after the file is read: what it holds. *)
Definition load (pemBlock : string) : option (result error T) :=
  match blocks (S (String.length pemBlock)) pemBlock None None with
  | None => None
  | Some (Some certBlock, Some keyBlock) =>
      Some (match ParseCertificate certBlock with
            | Err e => Err e
            | Ok cert =>
                match ParsePKCS1PrivateKey keyBlock with
                | Err e => Err e
                | Ok k =>
                    match pem_Encode (CERTIFICATE, certBlock) with
                    | Err e => Err e
                    | Ok cp =>
                        match pem_Encode (RSA_PRIVATE_KEY, MarshalPKCS1PrivateKey k) with
                        | Err e => Err e
                        | Ok kp => Ok {| T_key := k; T_cert := cert; certPEM := cp; keyPEM := kp |}
                        end
                    end
                end
            end)
  | Some _ => Some (Err (New "httpsca: incomplete certificate"))
  end.

(** authority.New *)
Definition NewAuthority (a : answers) (filename : string) (fs : files) : option (result error T) * files :=
  let '(r, fs) := cached filename (generate a) a fs in
  match r with
  | Err e => (Some (Err (New ("could not build CA: " +:+ Error e))), fs)
  | Ok pemBlock => (load pemBlock, fs)
  end.

(** T.Contents *)
Definition Contents (c : T) : string := certPEM c +:+ keyPEM c.

(** ** Issuing certificates *)

(** The template of an issued certificate; the two lists that the code appends to
    are empty before. *)
Definition leaf_template (serial now : Z) (cn : string) (ttl : Z) (ips dnss : list string) : template :=
  {| SerialNumber := serial; CommonName := cn; NotBefore := now; NotAfter := now + (DriftMargin + ttl);
     KeyUsage := [KeyUsageKeyEncipherment; KeyUsageDigitalSignature];
     ExtKeyUsage := [ExtKeyUsageServerAuth; ExtKeyUsageClientAuth]; BasicConstraintsValid := true;
     IsCA := false; IPAddresses := ips; DNSNames := dnss |}.

(** T.Issue, with the random serial number, the time and the generated key. *)
Definition Issue (serial : result error Z) (now : Z) (rk : result error key) (c : T)
    (cn : string) (ttl : Z) (ips dnss : list string) : result error (string * key) :=
  match serial with
  | Err e => Err e
  | Ok serial =>
      let now := now - DriftMargin in
      let t := leaf_template serial now cn ttl ips dnss in
      match rk with
      | Err e => Err e
      | Ok k =>
          match CreateCertificate t (c_template (T_cert c), Some (c_pub (T_cert c))) (Public k) (T_key c) with
          | Err e => Err e
          | Ok der => Ok (der, k)
          end
      end
  end.

(** tls.Config, as far as it is set: whom a side trusts, whether it asks, its own
    certificate with its key, and the application protocols it offers. *)
Record tls_Config := {
  RootCAs : list certificate;
  ClientCAs : list certificate;
  InsecureSkipVerify : bool;
  RequireAndVerifyClientCert : bool;
  Certificates : list (certificate * key);
  NextProtos : list string
}.

(** tls.X509KeyPair *)
Definition X509KeyPair (cp kp : string) : result error (certificate * key) :=
  match pem_Decode cp, pem_Decode kp with
  | (Some (tc, der), _), (Some (tk, kb), _) =>
      if decide (tc = CERTIFICATE /\ tk = RSA_PRIVATE_KEY) then
        match ParseCertificate der with
        | Err e => Err e
        | Ok cert =>
            match ParsePKCS1PrivateKey kb with
            | Err e => Err e
            | Ok k => if decide (c_pub cert = Public k) then Ok (cert, k)
                      else Err (New "tls: private key does not match public key")
            end
        end
      else Err (New "tls: failed to find PEM data")
  | _, _ => Err (New "tls: failed to find PEM data")
  end.

(** CertPool.AppendCertsFromPEM, for an input of one block. *)
Definition AppendCertsFromPEM (p : string) : list certificate :=
  match pem_Decode p with
  | (Some (typ, der), _) =>
      if decide (typ = CERTIFICATE) then match ParseCertificate der with Ok c => [c] | Err _ => [] end else []
  | (None, _) => []
  end.

(** T.HTTPSConfig: the configurations of a client and of a server. *)
Definition HTTPSConfig (serial : result error Z) (now : Z) (rk : result error key) (c : T) :
    result error (tls_Config * tls_Config) :=
  match Issue serial now rk c "bigmachine" certDuration [] [] with
  | Err e => Err e
  | Ok (der, k) =>
      let pool := AppendCertsFromPEM (certPEM c) in
      match pem_Encode (CERTIFICATE, der) with
      | Err e => Err e
      | Ok cp =>
          match pem_Encode (RSA_PRIVATE_KEY, MarshalPKCS1PrivateKey k) with
          | Err e => Err e
          | Ok kp =>
              match X509KeyPair cp kp with
              | Err e => Err e
              | Ok tlscert =>
                  Ok ({| RootCAs := pool; ClientCAs := []; InsecureSkipVerify := true;
                         RequireAndVerifyClientCert := false; Certificates := [tlscert]; NextProtos := [] |},
                      {| RootCAs := []; ClientCAs := pool; InsecureSkipVerify := false;
                         RequireAndVerifyClientCert := false; Certificates := [tlscert]; NextProtos := [] |})
              end
          end
      end
  end.

(** The servers of the systems set ClientAuth before they listen. *)
Definition require_client_cert (c : tls_Config) : tls_Config :=
  {| RootCAs := RootCAs c; ClientCAs := ClientCAs c; InsecureSkipVerify := InsecureSkipVerify c;
     RequireAndVerifyClientCert := true; Certificates := Certificates c; NextProtos := NextProtos c |}.

Definition with_certificates (certs : list (certificate * key)) (c : tls_Config) : tls_Config :=
  {| RootCAs := RootCAs c; ClientCAs := ClientCAs c; InsecureSkipVerify := InsecureSkipVerify c;
     RequireAndVerifyClientCert := RequireAndVerifyClientCert c; Certificates := certs;
     NextProtos := NextProtos c |}.

Definition with_protos (protos : list string) (c : tls_Config) : tls_Config :=
  {| RootCAs := RootCAs c; ClientCAs := ClientCAs c; InsecureSkipVerify := InsecureSkipVerify c;
     RequireAndVerifyClientCert := RequireAndVerifyClientCert c; Certificates := Certificates c;
     NextProtos := protos |}.

(** ** Handshakes *)

Definition valid_at (now : Z) (t : template) : bool := bool_decide (NotBefore t <= now <= NotAfter t).

(** A certificate without extended usages may be used for everything; a parent
    must be an authority whose key may sign certificates. *)
Definition allows (u : ExtKeyUsage_) (t : template) : bool :=
  bool_decide (ExtKeyUsage t = []) || bool_decide (u ∈ ExtKeyUsage t).
Definition signs (t : template) : bool :=
  BasicConstraintsValid t && IsCA t && (bool_decide (KeyUsage t = []) || bool_decide (KeyUsageCertSign ∈ KeyUsage t)).

(** x509.Certificate.Verify for a usage, against a pool of authorities. *)
Definition verify (now : Z) (u : ExtKeyUsage_) (pool : list certificate) (cert : certificate) : bool :=
  valid_at now (c_template cert) && allows u (c_template cert) &&
  existsb (fun ca => bool_decide (c_signer cert = c_pub ca) && signs (c_template ca) && allows u (c_template ca) &&
                     valid_at now (c_template ca)) pool.

(** A TLS handshake at [now], as far as the configurations decide it: the server
    must have a certificate to show, whether or not the client looks at it. *)
Definition handshake (now : Z) (client server : tls_Config) : bool :=
  match Certificates server with [] => false | _ :: _ => true end &&
  (InsecureSkipVerify client ||
   existsb (fun x => verify now ExtKeyUsageServerAuth (RootCAs client) x.1) (Certificates server)) &&
  (negb (RequireAndVerifyClientCert server) ||
   existsb (fun x => verify now ExtKeyUsageClientAuth (ClientCAs server) x.1) (Certificates client)).

(** ** Reading a file *)

Context {XL : X509Laws X}.

Lemma blocks_mono (fuel fuel' : nat) (p : string) (cb kb : option string) r :
  blocks fuel p cb kb = Some r -> (fuel <= fuel')%nat -> blocks fuel' p cb kb = Some r.
Proof.
  revert fuel' p cb kb. induction fuel as [|fuel IH]; intros fuel' p cb kb H Hle; [done|].
  destruct fuel' as [|fuel']; [lia|]. simpl in *.
  destruct (pem_Decode p) as [[[typ b]|] rest]; [|done].
  repeat case_decide; apply IH; (done || lia).
Qed.

Lemma blocks_total (fuel : nat) (p : string) (cb kb : option string) :
  (String.length p < fuel)%nat -> is_Some (blocks fuel p cb kb).
Proof.
  revert p cb kb. induction fuel as [|fuel IH]; intros p cb kb H; [lia|]. simpl.
  destruct (pem_Decode p) as [[[typ b]|] rest] eqn:E; [|done].
  apply Decode_shorter in E. repeat case_decide; apply IH; lia.
Qed.

Lemma blocks_load (fuel : nat) (p : string) r :
  blocks fuel p None None = Some r -> blocks (S (String.length p)) p None None = Some r.
Proof.
  intros H. destruct (blocks_total (S (String.length p)) p None None) as [r' Hr]; [lia|].
  rewrite Hr.
  pose proof (blocks_mono _ (fuel + S (String.length p)) _ _ _ _ H ltac:(lia)).
  pose proof (blocks_mono _ (fuel + S (String.length p)) _ _ _ _ Hr ltac:(lia)). congruence.
Qed.

Lemma load_total (p : string) : is_Some (load p).
Proof.
  unfold load. destruct (blocks_total (S (String.length p)) p None None) as [r ->]; [lia|].
  destruct r as [[?|] [?|]]; done.
Qed.

(** What an authority that was read consists of. *)
Lemma load_Ok (p : string) (c : T) :
  load p = Some (Ok c) ->
  exists der, ParseCertificate der = Ok (T_cert c) /\
    pem_Encode (CERTIFICATE, der) = Ok (certPEM c) /\
    pem_Encode (RSA_PRIVATE_KEY, MarshalPKCS1PrivateKey (T_key c)) = Ok (keyPEM c).
Proof.
  unfold load. intros H.
  repeat (case_match; simplify_eq/=); eauto.
Qed.

Lemma Decode_certPEM (s der rest : string) :
  pem_Encode (CERTIFICATE, der) = Ok s -> pem_Decode (s +:+ rest) = (Some (CERTIFICATE, der), rest).
Proof. intros H. apply Decode_Encode; [by left|done]. Qed.

Lemma Decode_keyPEM (s der rest : string) :
  pem_Encode (RSA_PRIVATE_KEY, der) = Ok s -> pem_Decode (s +:+ rest) = (Some (RSA_PRIVATE_KEY, der), rest).
Proof. intros H. apply Decode_Encode; [by right|done]. Qed.

(** A file of one certificate and one key. *)
Lemma load_pair (cder kb cp kp : string) cert k :
  pem_Encode (CERTIFICATE, cder) = Ok cp -> pem_Encode (RSA_PRIVATE_KEY, kb) = Ok kp ->
  ParseCertificate cder = Ok cert -> ParsePKCS1PrivateKey kb = Ok k -> MarshalPKCS1PrivateKey k = kb ->
  load (cp +:+ kp) = Some (Ok {| T_key := k; T_cert := cert; certPEM := cp; keyPEM := kp |}).
Proof.
  intros Hcp Hkp Hc Hk Hm. unfold load.
  rewrite (blocks_load 3 _ (Some cder, Some kb)).
  - rewrite Hc, Hk, Hcp, Hm, Hkp. done.
  - simpl. rewrite (Decode_certPEM cp cder kp) by done. simpl.
    rewrite <- (sapp_nil_r kp), (Decode_keyPEM kp kb "") by done. simpl.
    by rewrite Decode_nil.
Qed.

Lemma load_Contents (p : string) (c : T) :
  load p = Some (Ok c) -> load (Contents c) = Some (Ok c).
Proof.
  intros (der & Hd & Hc & Hk)%load_Ok. unfold Contents.
  rewrite (load_pair der (MarshalPKCS1PrivateKey (T_key c)) _ _ (T_cert c) (T_key c)); eauto using Parse_Marshal.
  by destruct c.
Qed.

(** The pool made of an authority's certificate holds just that certificate. *)
Lemma pool_certPEM (p : string) (c : T) :
  load p = Some (Ok c) -> AppendCertsFromPEM (certPEM c) = [T_cert c].
Proof.
  intros (der & Hd & Hc & _)%load_Ok. unfold AppendCertsFromPEM.
  rewrite <- (sapp_nil_r (certPEM c)), (Decode_certPEM _ der "") by done. simpl. by rewrite Hd.
Qed.

(** The authority a new file holds. *)
Lemma generate_load (a : answers) (p : string) :
  generate a = Ok p ->
  exists k cert cp kp, a_key a = Ok k /\ p = cp +:+ kp /\
    c_template cert = encoded (ca_template (a_now a)) /\ c_pub cert = Public k /\
    load p = Some (Ok {| T_key := k; T_cert := cert; certPEM := cp; keyPEM := kp |}).
Proof.
  unfold generate. destruct (a_key a) as [k|] eqn:Ek; [|done].
  destruct (CreateCertificate _ _ _ _) as [der|] eqn:Ec; [|done].
  destruct (pem_Encode (CERTIFICATE, der)) as [cp|] eqn:Hcp; [|done].
  destruct (pem_Encode (RSA_PRIVATE_KEY, _)) as [kp|] eqn:Hkp; [|done].
  intros [= <-]. apply Parse_Create in Ec as (cert & Hp & Ht & Hpub & _).
  exists k, cert, cp, kp. split_and!; try done.
  eapply load_pair; eauto using Parse_Marshal.
Qed.

(** What cached returns, and what it leaves in the file. *)
Lemma cached_Ok (filename : string) gen (a : answers) (fs fs' : files) (p : string) :
  cached filename gen a fs = (Ok p, fs') ->
  (filename = "" /\ gen = Ok p /\ fs' = fs) \/
  (filename <> "" /\ is_Some (a_ReadFile a) /\ p = "" /\ fs' = fs) \/
  (filename <> "" /\ a_ReadFile a = None /\ fs !! filename = Some p /\ fs' = fs) \/
  (filename <> "" /\ a_ReadFile a = None /\ fs !! filename = None /\ gen = Ok p /\
   fs' = <[filename := p]> fs).
Proof.
  unfold cached. intros H. repeat (case_match; simplify_eq/=); case_decide; simplify_eq/=; naive_solver.
Qed.

Lemma load_nil : load "" = Some (Err (New "httpsca: incomplete certificate")).
Proof. unfold load. simpl. by rewrite Decode_nil. Qed.

(** Reading an existing file. *)
Lemma NewAuthority_reads (a : answers) (filename p : string) (fs : files) :
  filename <> "" -> a_ReadFile a = None -> fs !! filename = Some p ->
  NewAuthority a filename fs = (load p, fs).
Proof.
  intros Hf Ha Hp. unfold NewAuthority, cached. rewrite decide_False by done. by rewrite Ha, Hp.
Qed.

(** Where the authority New returns comes from. *)
Lemma NewAuthority_Ok (a : answers) (filename : string) (fs fs' : files) (c : T) :
  NewAuthority a filename fs = (Some (Ok c), fs') ->
  exists p, load p = Some (Ok c) /\
    (filename <> "" -> fs' !! filename = Some p) /\
    (forall f, f <> filename -> fs' !! f = fs !! f) /\
    (generate a = Ok p \/ fs !! filename = Some p).
Proof.
  unfold NewAuthority. destruct (cached filename (generate a) a fs) as [[p|e] fs0] eqn:E; [|done].
  intros [= Hl ->]. exists p.
  apply cached_Ok in E as [(-> & Hg & ->)|[(Hf & _ & -> & ->)|[(Hf & _ & Hp & ->)|(Hf & _ & Hn & Hg & ->)]]].
  - by split_and!; [..|left].
  - by rewrite load_nil in Hl.
  - by split_and!; [..|right].
  - split_and!; [done| |by intros; rewrite lookup_insert_ne|by left].
    intros _. apply lookup_insert_eq.
Qed.

(** C18. The authority survives its way from the driver to the machines.  New
    always returns.  If it returns an authority c, then reading back what
    Contents gives - on the machine, from the file that the cloud configuration
    writes - returns c itself, and so does every later New on the same file;
    no other file is changed, and an authority without a file leaves nothing
    behind.  In particular the certificates of all processes are signed and
    verified with the same key. *)
Theorem authority_roundtrip (a : answers) (filename : string) (fs : files) :
  exists r fs', NewAuthority a filename fs = (Some r, fs') /\
  forall c, r = Ok c ->
    (forall a' f fs2, f <> "" -> a_ReadFile a' = None -> fs2 !! f = Some (Contents c) ->
       NewAuthority a' f fs2 = (Some (Ok c), fs2)) /\
    (forall a', filename <> "" -> a_ReadFile a' = None ->
       NewAuthority a' filename fs' = (Some (Ok c), fs')) /\
    (forall f, f <> filename -> fs' !! f = fs !! f) /\
    (filename = "" -> fs' = fs).
Proof.
  destruct (NewAuthority a filename fs) as [[r|] fs'] eqn:E.
  2: { unfold NewAuthority in E. destruct (cached _ _ _ _) as [[p|e] fs0]; [|done].
       simplify_eq. by destruct (load_total p) as [? Hp]; rewrite Hp in *. }
  exists r, fs'. split; [done|]. intros c ->.
  pose proof E as (p & Hl & Hf & Hother & _)%NewAuthority_Ok. split_and!; [..|done|].
  - intros a' f fs2 Hne Ha Hp. rewrite (NewAuthority_reads _ _ (Contents c)) by done.
    by rewrite (load_Contents p).
  - intros a' Hne Ha. rewrite (NewAuthority_reads _ _ p) by auto. by rewrite Hl.
  - intros ->. unfold NewAuthority, cached in E. rewrite decide_True in E by done.
    destruct (generate a); by simplify_eq.
Qed.

(** ** Handshakes *)

(** The certificate that HTTPSConfig puts in both configurations. *)
Lemma HTTPSConfig_Ok serial now rk (c : T) (client server : tls_Config) :
  HTTPSConfig serial now rk c = Ok (client, server) ->
  exists sn k cert, serial = Ok sn /\ rk = Ok k /\
    c_template cert = encoded (leaf_template sn (now - DriftMargin) "bigmachine" certDuration [] []) /\
    c_signer cert = Public (T_key c) /\
    client = {| RootCAs := AppendCertsFromPEM (certPEM c); ClientCAs := []; InsecureSkipVerify := true;
                RequireAndVerifyClientCert := false; Certificates := [(cert, k)]; NextProtos := [] |} /\
    server = {| RootCAs := []; ClientCAs := AppendCertsFromPEM (certPEM c); InsecureSkipVerify := false;
                RequireAndVerifyClientCert := false; Certificates := [(cert, k)]; NextProtos := [] |}.
Proof.
  unfold HTTPSConfig, Issue.
  destruct serial as [sn|]; [|done]. destruct rk as [k|]; [|done].
  destruct (CreateCertificate _ _ _ _) as [der|] eqn:Ec; [|done].
  destruct (pem_Encode (CERTIFICATE, der)) as [cp|] eqn:Hcp; [|done].
  destruct (pem_Encode (RSA_PRIVATE_KEY, _)) as [kp|] eqn:Hkp; [|done].
  apply Parse_Create in Ec as (cert & Hp & Ht & Hpub & Hs).
  unfold X509KeyPair.
  rewrite <- (sapp_nil_r cp), (Decode_certPEM _ der ""), <- (sapp_nil_r kp), (Decode_keyPEM _ (MarshalPKCS1PrivateKey k) "") by done.
  rewrite decide_True, Hp, Parse_Marshal, decide_True by done.
  intros [= <- <-]. by exists sn, k, cert.
Qed.

Lemma valid_at_encoded (now : Z) (t : template) :
  valid_at now (encoded t) = true <-> whole_seconds (NotBefore t) <= now <= whole_seconds (NotAfter t).
Proof. unfold valid_at. by rewrite bool_decide_eq_true. Qed.

(** The handshake of a client of authority [c] and a server of authority [c']. *)
Lemma handshake_iff serial serial' t1 t2 rk rk' p' (c c' : T) client client' server server' now :
  load p' = Some (Ok c') ->
  HTTPSConfig serial t1 rk c = Ok (client, client') -> HTTPSConfig serial' t2 rk' c' = Ok (server', server) ->
  handshake now client (require_client_cert server) = true <->
  (whole_seconds (t1 - DriftMargin) <= now <= whole_seconds (t1 + certDuration) /\
   Public (T_key c) = c_pub (T_cert c') /\ signs (c_template (T_cert c')) = true /\
   allows ExtKeyUsageClientAuth (c_template (T_cert c')) = true /\
   valid_at now (c_template (T_cert c')) = true).
Proof.
  intros Hl (sn & k & cert & _ & _ & Ht & Hs & -> & _)%HTTPSConfig_Ok (? & ? & ? & _ & _ & _ & _ & _ & ->)%HTTPSConfig_Ok.
  unfold handshake, require_client_cert, verify. simpl. rewrite (pool_certPEM p') by done. simpl.
  rewrite !orb_false_r, !andb_true_iff, bool_decide_eq_true, Ht, Hs, valid_at_encoded.
  cbn -[DriftMargin certDuration whole_seconds signs allows].
  replace (t1 - DriftMargin + (DriftMargin + certDuration)) with (t1 + certDuration) by lia.
  assert (Ha : allows ExtKeyUsageClientAuth (encoded (leaf_template sn (t1 - DriftMargin) "bigmachine" certDuration [] [])) = true)
    by done. rewrite Ha. tauto.
Qed.
(** Client and server of an authority that was generated. *)
Lemma handshake_generated (a : answers) p (c : T) serial serial' rk rk' t1 t2 now client client' server server' :
  generate a = Ok p -> load p = Some (Ok c) ->
  HTTPSConfig serial t1 rk c = Ok (client, client') -> HTTPSConfig serial' t2 rk' c = Ok (server', server) ->
  handshake now client (require_client_cert server) = true <->
  (whole_seconds (t1 - DriftMargin) <= now <= whole_seconds (t1 + certDuration) /\
   whole_seconds (a_now a - DriftMargin) <= now <= caNotAfter).
Proof.
  intros Hg Hl Hc Hs. rewrite (handshake_iff _ _ _ _ _ _ p _ _ _ _ _ _ now Hl Hc Hs).
  apply generate_load in Hg as (k & cert & cp & kp & _ & _ & Ht & Hk & Hl').
  rewrite Hl in Hl'. injection Hl' as ->. simpl.
  rewrite Ht, valid_at_encoded, Hk. unfold encoded, ca_template.
  cbn -[DriftMargin certDuration whole_seconds caNotAfter]. tauto.
Qed.

(** C19. Who gets through to a machine.  Let c be an authority that New made at
    t0.  A client with a configuration that c issued at t1, and a server on
    another host that read c from a file with its Contents, which requires
    client certificates, shake hands at a time now exactly if the client's
    certificate is between its start (a minute before t1) and its end (seven
    days after t1), and the authority's own is (a minute before t0 until 2060):
    the clocks may differ by at most a minute, and a client that keeps its
    configuration for a week gets no new connection.  A client of an authority
    with another key never gets through.  The server's certificate on the other
    hand is not looked at by the client: any certificate does as well as another,
    but there must be one. *)
Theorem mutual_tls (a a' : answers) (filename f : string) (fs fs2 fs' fs2' : files) (c c' : T)
    serial serial' rk rk' (t1 t2 now : Z) client client' server server' :
  NewAuthority a filename fs = (Some (Ok c), fs') -> fs !! filename = None ->
  f <> "" -> fs2 !! f = Some (Contents c) ->
  NewAuthority a' f fs2 = (Some (Ok c'), fs2') ->
  HTTPSConfig serial t1 rk c = Ok (client, client') -> HTTPSConfig serial' t2 rk' c' = Ok (server', server) ->
  (handshake now client (require_client_cert server) = true <->
     whole_seconds (t1 - DriftMargin) <= now <= whole_seconds (t1 + certDuration) /\
     whole_seconds (a_now a - DriftMargin) <= now <= caNotAfter) /\
  (forall c2 serial2 t3 rk2 client2 client2',
     Public (T_key c2) <> Public (T_key c) -> HTTPSConfig serial2 t3 rk2 c2 = Ok (client2, client2') ->
     handshake now client2 (require_client_cert server) = false) /\
  (forall s certs, certs <> [] -> Certificates s <> [] ->
     handshake now client (with_certificates certs s) = handshake now client s) /\
  (forall s, handshake now client (with_certificates [] s) = false).
Proof.
  intros HN Hf Hne Hp HN' Hc Hs.
  apply NewAuthority_Ok in HN as (p & Hl & _ & _ & Hg).
  destruct Hg as [Hg|Hg]; [|congruence].
  assert (c' = c) as ->.
  { unfold NewAuthority, cached in HN'. rewrite decide_False, Hp in HN' by done.
    destruct (a_ReadFile a'); injection HN' as HN' _; [by rewrite load_nil in HN'|].
    rewrite (load_Contents p) in HN' by done. congruence. }
  split_and!.
  - by eapply handshake_generated.
  - intros c2 serial2 t3 rk2 client2 client2' Hd Hc2. apply not_true_iff_false.
    rewrite (handshake_iff _ _ _ _ _ _ p _ _ _ _ _ _ now Hl Hc2 Hs).
    destruct (generate_load a p Hg) as (k & cert & cp & kp & _ & _ & _ & Hk & Hl').
    rewrite Hl in Hl'. injection Hl' as ->. simpl in *. intros (_ & Hk2 & _). congruence.
  - intros s certs Hne1 Hne2. apply HTTPSConfig_Ok in Hc as (? & ? & ? & _ & _ & _ & _ & -> & _).
    unfold handshake. simpl. by destruct certs, (Certificates s).
  - done.
Qed.

End authority.

(** ** Keys and certificates one can compute with *)

Module Samples.

(** Binary digits, least significant first. *)
Fixpoint digits (p : positive) : string :=
  match p with
  | xH => "1"
  | xO p => String "0"%char (digits p)
  | xI p => String "i"%char (digits p)
  end.

Fixpoint undigits (s : string) : option positive :=
  match s with
  | String "0"%char s => xO <$> undigits s
  | String "i"%char s => xI <$> undigits s
  | String "1"%char EmptyString => Some xH
  | _ => None
  end.

Lemma undigits_digits (p : positive) : undigits (digits p) = Some p.
Proof. induction p as [p IH|p IH|]; simpl; [by rewrite IH..|done]. Qed.

Lemma digits_dotless (p : positive) : has_byte DOT (digits p) = false.
Proof. induction p as [p IH|p IH|]; simpl; [by rewrite IH..|done]. Qed.

Definition to_der {A} `{Countable A} (x : A) : string := digits (encode x).
Definition of_der {A} `{Countable A} (s : string) : result SimpleErrors.(error) A :=
  match undigits s ≫= decode with
  | Some x => Ok x
  | None => Err (New (ErrorsLib := SimpleErrors) "asn1: structure error")
  end.

Lemma of_der_to_der {A} `{Countable A} (x : A) : of_der (to_der x) = Ok x.
Proof. unfold of_der, to_der. rewrite undigits_digits. simpl. by rewrite decode_encode. Qed.

#[export] Instance KeyUsage_countable : Countable KeyUsage_.
Proof.
  refine (inj_countable' (fun u => match u with KeyUsageKeyEncipherment => 0 | KeyUsageDigitalSignature => 1
                                   | KeyUsageCertSign => 2 end)%nat
    (fun n => match n with O => KeyUsageKeyEncipherment | 1 => KeyUsageDigitalSignature
              | _ => KeyUsageCertSign end)%nat _).
  by intros [].
Defined.
#[export] Instance ExtKeyUsage_countable : Countable ExtKeyUsage_.
Proof.
  refine (inj_countable' (fun u => match u with ExtKeyUsageServerAuth => true | _ => false end)
    (fun b => if b : bool then ExtKeyUsageServerAuth else ExtKeyUsageClientAuth) _).
  by intros [].
Defined.

#[export] Instance template_eq_dec : EqDecision template.
Proof. solve_decision. Defined.

#[export] Instance template_countable : Countable template.
Proof.
  refine (inj_countable
    (fun t => [encode (SerialNumber t); encode (CommonName t); encode (NotBefore t); encode (NotAfter t);
               encode (KeyUsage t); encode (ExtKeyUsage t); encode (BasicConstraintsValid t, IsCA t);
               encode (IPAddresses t, DNSNames t)] : list positive)
    (fun l => match l with
              | [a; b; c; d; e; f; g; h] =>
                  a ← decode a; b ← decode b; c ← decode c; d ← decode d; e ← decode e; f ← decode f;
                  g ← decode g; h ← decode h; Some (Build_template a b c d e f g.1 g.2 h.1 h.2)
              | _ => None
              end) _).
  intros []. by rewrite !decode_encode.
Defined.

(** A key is a number, and its own public half; a block is a letter for its
    type, its bytes and a dot. *)
#[export] Instance SimpleX509 : X509 (EL := SimpleErrors) := {|
  key := Z; pubkey := Z; Public := fun k => k;
  certificate := template * Z * Z;
  c_template := fun c => c.1.1; c_pub := fun c => c.1.2; c_signer := snd;
  CreateCertificate := fun t _ pub priv => Ok (to_der (encoded t, pub, priv));
  ParseCertificate := of_der;
  MarshalPKCS1PrivateKey := to_der;
  ParsePKCS1PrivateKey := of_der;
  pem_Encode := fun b =>
    if has_byte DOT b.2 then Err (New (ErrorsLib := SimpleErrors) "pem: dots") else
    Ok (String (if decide (b.1 = CERTIFICATE) then "C"%char else "K"%char) (b.2 +:+ String DOT ""));
  pem_Decode := fun s =>
    match s with
    | String c s' =>
        match SplitN2 s' DOT with
        | (b, Some rest) => (Some (if bool_decide (c = "C"%char) then CERTIFICATE else RSA_PRIVATE_KEY, b), rest)
        | _ => (None, s)
        end
    | _ => (None, s)
    end
|}.

Lemma SplitN2_shorter (s b rest : string) (c : ascii) :
  SplitN2 s c = (b, Some rest) -> (String.length rest < String.length s)%nat.
Proof.
  revert b. induction s as [|a s IH]; intros b H; simpl in *; [done|].
  repeat case_match; simplify_eq; [lia|]. specialize (IH _ eq_refl). lia.
Qed.

#[export] Instance SimpleX509_laws : X509Laws SimpleX509.
Proof.
  split.
  - intros t parent pub priv der [= <-]. exists (encoded t, pub, priv). by split; [apply of_der_to_der|].
  - intros k. apply of_der_to_der.
  - intros [typ b] s rest Ht. unfold pem_Encode, pem_Decode, SimpleX509. simpl snd. simpl fst.
    destruct (has_byte DOT b) eqn:Hb; [done|]. intros [= <-].
    assert (SplitN2 ((b +:+ String DOT "") +:+ rest) DOT = (b, Some rest)) as E.
    { rewrite sapp_assoc. by apply (SplitN2_app b rest). }
    destruct Ht as [Ht|Ht]; simpl in Ht; subst typ; simpl; by rewrite E.
  - done.
  - intros [|c s] b rest H; [done|].
    unfold pem_Decode, SimpleX509 in H. destruct (SplitN2 s DOT) as [b' [r|]] eqn:E; [|done].
    injection H as _ ->. apply SplitN2_shorter in E. simpl. lia.
Qed.

(** An authority made at time 100 s with key 7, in a file; the machine has it in
    another file, and both configurations are issued at time 200 s. *)
Definition sample_answers : answers := {| a_key := Ok 7; a_now := 100000000000; a_ReadFile := None; a_WriteFile := None |}.
Definition driver_authority := NewAuthority sample_answers "ca.pem" ∅.
Definition sample_contents : string :=
  match driver_authority.1 with Some (Ok c) => Contents c | _ => "" end.
Definition machine_files : gmap string string := {["/tmp/authority" := sample_contents]}.
Definition sample_config (now k : Z) (r : option (result error T)) :=
  match r with Some (Ok c) => HTTPSConfig (Ok 5) now (Ok k) c | _ => Err (New "no authority") end.

Example sample_expires :
  match sample_config 200000000000 8 driver_authority.1,
        sample_config 200000000000 9 (NewAuthority sample_answers "/tmp/authority" machine_files).1 with
  | Ok (client, _), Ok (_, server) =>
      (fun now => handshake now client (require_client_cert server)) <$>
      [140000000000; 139000000000; 605000000000000; 605001000000000]
  | _, _ => []
  end = [true; false; true; false].
Proof. vm_compute. reflexivity. Qed.

Definition sample_T : T :=
  match driver_authority.1 with
  | Some (Ok c) => c
  | _ => {| T_key := 0; T_cert := (ca_template 0, 0, 0); certPEM := ""; keyPEM := "" |}
  end.

Definition sample_tls : tls_Config * tls_Config :=
  match sample_config 200000000000 8 (Some (Ok sample_T)) with
  | Ok x => x
  | Err _ => ({| RootCAs := []; ClientCAs := []; InsecureSkipVerify := false;
                 RequireAndVerifyClientCert := false; Certificates := []; NextProtos := [] |},
              {| RootCAs := []; ClientCAs := []; InsecureSkipVerify := false;
                 RequireAndVerifyClientCert := false; Certificates := []; NextProtos := [] |})
  end.

Lemma mutual_tls_witness :
  handshake 300000000000 sample_tls.1 (require_client_cert sample_tls.2) = true <->
  whole_seconds (200000000000 - DriftMargin) <= 300000000000 <= whole_seconds (200000000000 + certDuration) /\
  whole_seconds (a_now sample_answers - DriftMargin) <= 300000000000 <= caNotAfter.
Proof.
  assert (authority : NewAuthority sample_answers "ca.pem" ∅ = (Some (Ok sample_T), driver_authority.2))
    by vm_cast_no_check (eq_refl (Some (Ok (E := error) sample_T), driver_authority.2)).
  assert (copied : machine_files !! "/tmp/authority" = Some (Contents sample_T))
    by vm_cast_no_check (eq_refl (Some (Contents sample_T))).
  assert (loaded : NewAuthority sample_answers "/tmp/authority" machine_files = (Some (Ok sample_T), machine_files))
    by vm_cast_no_check (eq_refl (Some (Ok (E := error) sample_T), machine_files)).
  assert (config : HTTPSConfig (Ok 5) 200000000000 (Ok 8) sample_T = Ok (sample_tls.1, sample_tls.2))
    by vm_cast_no_check (eq_refl (Ok (E := error) (sample_tls.1, sample_tls.2))).
  refine (proj1 (mutual_tls (EL := SimpleErrors) (X := SimpleX509) (XL := SimpleX509_laws) _ _ _ _ _ _ _ _ _ _ _ _ _ _ _ _ 300000000000 _ _ _ _
    authority _ _ copied loaded config config)); [reflexivity|discriminate].
Defined.

Lemma authority_roundtrip_witness :
  exists r fs', NewAuthority sample_answers "ca.pem" ∅ = (Some r, fs') /\
    forall c, r = Ok c -> NewAuthority sample_answers "ca.pem" fs' = (Some (Ok c), fs').
Proof.
  destruct (authority_roundtrip sample_answers "ca.pem" ∅) as (r & fs' & H & Hc).
  exists r, fs'. split; [exact H|]. intros c Hr.
  refine (proj1 (proj2 (Hc c Hr)) sample_answers _ _); [discriminate|reflexivity].
Defined.
End Samples.
