(* ===== verification/Ioutil.v ===== *)
(** internal/ioutil/ioutil.go: a reader that closes its source at its end, and
    the Read methods of the systems that use it (local.go, testsystem.go). *)
From S2P Require Import Prelude Errors.
Local Open Scope list_scope.

(** What one call of Read returns: bytes, and no error, EOF or another error. *)
Inductive read_end (E : Type) := RNone | REOF | RErr (e : E).
Arguments RNone {E}.
Arguments REOF {E}.
Arguments RErr {E} e.

Section closing.
Context {E : Type}.

(** The ReadCloser: what its reads answer (EOF once the list is used up), how
    often it was closed, and whether it was read after that. *)
Record source := {
  reads : list (list Z * read_end E);
  closes : nat;
  read_closed : bool
}.

Definition src_Read (s : source) : (list Z * read_end E) * source :=
  let late := read_closed s || (0 <? closes s)%nat in
  match reads s with
  | [] => (([], REOF), {| reads := []; closes := closes s; read_closed := late |})
  | r :: rs => (r, {| reads := rs; closes := closes s; read_closed := late |})
  end.

Definition src_Close (s : source) : source :=
  {| reads := reads s; closes := S (closes s); read_closed := read_closed s |}.

(** closingReader *)
Record closingReader := { rc : source; closed : bool }.

Definition NewClosingReader (s : source) : closingReader := {| rc := s; closed := false |}.

(** closingReader.Read *)
Definition Read (c : closingReader) : (list Z * read_end E) * closingReader :=
  if closed c then (([], REOF), c)
  else
    let '(r, s) := src_Read (rc c) in
    match r.2 with
    | REOF => (r, {| rc := src_Close s; closed := true |})
    | _ => (r, {| rc := s; closed := closed c |})
    end.

(** k reads in a row. *)
Fixpoint read_n (k : nat) (c : closingReader) : list (list Z * read_end E) * closingReader :=
  match k with
  | O => ([], c)
  | S k => let '(r, c) := Read c in let '(rs, c) := read_n k c in (r :: rs, c)
  end.

(** The same reads without the closing. *)
Fixpoint plain_n (k : nat) (l : list (list Z * read_end E)) : list (list Z * read_end E) :=
  match k with
  | O => []
  | S k =>
      match l with
      | (b, REOF) :: _ => (b, REOF) :: replicate k ([], REOF)
      | r :: rs => r :: plain_n k rs
      | [] => replicate (S k) ([], REOF)
      end
  end.

Definition is_eof (r : list Z * read_end E) : bool := match r.2 with REOF => true | _ => false end.

Lemma read_n_closed (k : nat) (c : closingReader) :
  closed c = true -> read_n k c = (replicate k ([], REOF), c).
Proof.
  intros Hc. induction k as [|k IH]; [done|]. simpl. unfold Read. rewrite Hc, IH. done.
Qed.

Lemma read_n_eof (b : list Z) (rest : list (list Z * read_end E)) (k : nat) c :
  reads (rc c) = (b, REOF) :: rest \/ reads (rc c) = [] /\ b = [] ->
  closed c = false -> closes (rc c) = 0 -> read_closed (rc c) = false ->
  exists c', read_n (S k) c = ((b, REOF) :: replicate k ([], REOF), c') /\
    closes (rc c') = 1 /\ read_closed (rc c') = false /\ closed c' = true.
Proof.
  intros Hr Hc Hn Hl. cbn [read_n]. unfold Read. rewrite Hc. unfold src_Read.
  destruct Hr as [->|[-> ->]]; cbn [fst snd]; (rewrite read_n_closed by done);
    eexists; (split; [done|]); simpl; rewrite Hn, Hl; done.
Qed.

(** A closing reader gives the bytes and errors of its source, and after the
    first EOF nothing but EOF.  The source is closed exactly once, namely when
    an EOF has been read, and is never read afterwards; a reader that is left
    before its end, or after another error, leaves it open. *)
Lemma closing_reader (l : list (list Z * read_end E)) (k : nat) :
  let '(out, c) := read_n k (NewClosingReader {| reads := l; closes := 0; read_closed := false |}) in
  out = plain_n k l /\ read_closed (rc c) = false /\
  closes (rc c) = (if existsb is_eof out then 1 else 0) /\
  closed c = existsb is_eof out.
Proof.
  unfold NewClosingReader. revert l. induction k as [|k IH]; intros l; [done|].
  destruct l as [|[b [| |e]] l].
  - destruct (read_n_eof [] [] k {| rc := {| reads := []; closes := 0; read_closed := false |}; closed := false |})
      as (c' & -> & Hn & Hl & Hc); [by right|done..|]. by rewrite Hn, Hl, Hc.
  - cbn [read_n]. unfold Read. cbn [closed rc src_Read reads closes read_closed orb Nat.ltb Nat.leb fst snd].
    specialize (IH l). destruct (read_n k _) as [out c]. destruct IH as (-> & Hl & Hn & Hc).
    split_and!; done.
  - destruct (read_n_eof b l k {| rc := {| reads := (b, REOF) :: l; closes := 0; read_closed := false |}; closed := false |})
      as (c' & -> & Hn & Hl & Hc); [by left|done..|]. by rewrite Hn, Hl, Hc.
  - cbn [read_n]. unfold Read. cbn [closed rc src_Read reads closes read_closed orb Nat.ltb Nat.leb fst snd].
    specialize (IH l). destruct (read_n k _) as [out c]. destruct IH as (-> & Hl & Hn & Hc).
    split_and!; done.
Qed.
End closing.

(** localSystem.Read and testsystem's System.Read, with the result of os.Open. *)
Definition Read_file {E : Type} (open : result E (@source E)) : result E (@closingReader E) :=
  match open with
  | Err e => Err e
  | Ok f => Ok (NewClosingReader f)
  end.
