(* ===== verification/Cluster.v ===== *)
(** bigmachine.go and system.go: a bigmachine instance B - the machines it
    knows, starting and dialing machines, their parameters, shutdown, the
    entry points run and Init, and the merged profile index.

    Machines are named by their index in a heap, as pointers in the code; the
    system that launches them is a parameter. *)
From S2P Require Import Prelude Errors GoStrings.
Local Open Scope string_scope.
Local Open Scope list_scope.

Definition RpcPrefix : string := "/bigrpc/".

(** Service instances are opaque handles. *)
Definition iface := nat.

(** The fields of a Machine this file reads and writes; [tailDone] is [None]
    for a nil channel, and otherwise the channel's name. *)
Record Machine := {
  Addr : string;
  owner : bool;
  services : gmap string iface;
  environ : list string;
  tailDone : option nat;
  started : bool
}.

(** Machine parameters. *)
Inductive Param :=
| Services (s : gmap string iface)
| Environ (e : list string).

(** Param.applyParam *)
Definition applyParam (p : Param) (m : Machine) : Machine :=
  match p with
  | Services s =>
      {| Addr := Addr m; owner := owner m; services := s ∪ services m; environ := environ m;
         tailDone := tailDone m; started := started m |}
  | Environ e =>
      {| Addr := Addr m; owner := owner m; services := services m; environ := environ m ++ e;
         tailDone := tailDone m; started := started m |}
  end.

(** B, with the heap of machines and the goroutines of Dial that still wait
    for their machine to stop. *)
Record B := {
  heap : list Machine;
  machines : gmap string nat;
  reapers : gset nat;
  next_chan : nat
}.

Definition new_B : B := {| heap := []; machines := ∅; reapers := ∅; next_chan := 0 |}.

Section cluster.
Context {EL : ErrorsLib}.

(** B.Dial: the critical section. *)
Definition Dial (addr : string) (b : B) : nat * B :=
  match machines b !! addr with
  | Some m => (m, b)
  | None =>
      let m := length (heap b) in
      (m, {| heap := heap b ++ [{| Addr := addr; owner := false; services := ∅; environ := [];
                                   tailDone := None; started := true |}];
             machines := <[addr := m]> (machines b);
             reapers := {[ m ]} ∪ reapers b;
             next_chan := next_chan b |})
  end.

(** The end of the goroutine Dial starts, once machine [m] has stopped. *)
Definition reap (m : nat) (b : B) : B :=
  match heap b !! m with
  | None => b
  | Some mach =>
      {| heap := heap b; machines := delete (Addr mach) (machines b);
         reapers := reapers b ∖ {[ m ]}; next_chan := next_chan b |}
  end.

(** What Start does to one machine of the system, with its channel. *)
Definition own (params : list Param) (chan : nat) (m : Machine) : Machine :=
  let m := foldl (fun m p => applyParam p m) m params in
  {| Addr := Addr m; owner := true; services := services m; environ := environ m;
     tailDone := Some chan; started := true |}.

(** The loop of B.Start over the machines the system returned: it stops with
    an error at the first machine without services. *)
Fixpoint start_machines (params : list Param) (ms : list Machine) (b : B) :
    result error (list nat) * B :=
  match ms with
  | [] => (Ok [], b)
  | m :: ms =>
      let m' := foldl (fun m p => applyParam p m) m params in
      if decide (services m' = ∅) then (Err (E [AKind Invalid; AMsg "no services provided"]), b)
      else
        let i := length (heap b) in
        let b := {| heap := heap b ++ [own params (next_chan b) m];
                    machines := <[Addr m := i]> (machines b);
                    reapers := reapers b; next_chan := S (next_chan b) |} in
        let '(r, b) := start_machines params ms b in
        (match r with Ok l => Ok (i :: l) | Err e => Err e end, b)
  end.

(** B.Start, given what system.Start returned. *)
Definition Start (launched : result error (list Machine)) (params : list Param) (b : B) :
    result error (list nat) * B :=
  match launched with
  | Err e => (Err e, b)
  | Ok [] => (Err (E [AKind Unavailable; AMsg "no machines started"]), b)
  | Ok ms => start_machines params ms b
  end.

(** B.Machines: a snapshot, in the order of the map. *)
Definition Machines (b : B) : list nat := (map_to_list (machines b)).*2.

(** ** Shutdown *)

(** What shutdownAllMachines does: a best-effort Shutdown call to every
    machine, and then for each machine a goroutine that waits for its logs to
    be drained ([drained c]: when the channel is closed, if ever) or for the
    timeout.  The result is the calls made and the time waited. *)
Definition wait_for_logs (drained : nat -> option Z) (duration : Z) (m : Machine) : Z :=
  match tailDone m with
  | None => duration
  | Some c => match drained c with
              | Some t => Z.min t duration
              | None => duration
              end
  end.

Definition shutdownAllMachines (drained : nat -> option Z) (duration : Z) (ms : list Machine) :
    list string * Z :=
  (Addr <$> ms, foldr Z.max 0%Z (wait_for_logs drained duration <$> ms)).

(** B.Shutdown: 20 seconds, over the machines known; then the system shuts
    down. *)
Definition Shutdown {S : Type} (system_Shutdown : S -> S) (drained : nat -> option Z) (b : B) (s : S) :
    list string * Z * S :=
  let r := shutdownAllMachines drained (20 * 1000000000) (omap (fun i => heap b !! i) (Machines b)) in
  (r.1, r.2, system_Shutdown s).

(** ** Entry points *)

(** B.run: what it does in order, and how it ends.  The answers are the mode,
    and the results of system.Init, of the registration and of maybeInit. *)
Inductive run_action :=
| RInit | RNewClient | RRunning | RNewServer | RStartSupervisor | RRegister | RSupInit | RHandle
| RListen | RMain.
Inductive run_end := Returned (driver : bool) | Fatal (msg : string).

Definition run (mode : string) (init register supinit main : option error) : list run_action * run_end :=
  if decide (mode <> "" /\ mode <> "machine") then
    ([], Fatal ("invalid bigmachine mode " +:+ mode))
  else
    match init with
    | Some e => ([RInit], Fatal (Error e))
    | None =>
        let done := [RInit; RNewClient; RRunning] in
        if decide (mode = "") then (done, Returned true)
        else
          let done := done ++ [RNewServer; RStartSupervisor; RRegister] in
          match register with
          | Some e => (done, Fatal (Error e))
          | None =>
              match supinit with
              | Some e => (done ++ [RSupInit], Fatal (Error e))
              | None =>
                  (done ++ [RSupInit; RHandle; RListen; RMain],
                   Fatal (match main with Some e => Error e | None => "<nil>" end))
              end
          end
    end.

(** system.go: the registry of systems; must.Nil panics on a duplicate. *)
Definition RegisterSystem {S : Type} (name : string) (s : S) (systems : gmap string S) :
    option (gmap string S) :=
  match systems !! name with
  | Some _ => None
  | None => Some (<[name := s]> systems)
  end.

(** Init: nothing in a process that is not a worker, otherwise the system to
    start; must.True panics if it is not registered. *)
Inductive init_outcome (S : Type) := NotAWorker | StartsSystem (s : S) | InitPanics.
Arguments NotAWorker {S}.
Arguments StartsSystem {S} s.
Arguments InitPanics {S}.

Definition Init {S : Type} (name : string) (systems : gmap string S) : init_outcome S :=
  if decide (name = "") then NotAWorker
  else match systems !! name with
       | Some s => StartsSystem s
       | None => InitPanics
       end.

(** ** The merged profile index *)

(** pprofIndex: the counts of all machines added up by profile, by name, as ints. *)
Definition aggregate (stats : list (string * list (string * Z))) : gmap string Z :=
  foldl (fun m p => <[p.1 := wrap64 (default 0%Z (m !! p.1) + p.2)]> m) ∅ (stats ≫= snd).

End cluster.

(** ** The machines a B knows *)

Section known.
Context {EL : ErrorsLib}.

(** What happens to a B: machines are dialed and started, and the goroutines
    of dialed machines that have stopped remove them. *)
Inductive step : B -> B -> Prop :=
| step_dial addr b : step b (Dial addr b).2
| step_start launched params b : step b (Start launched params b).2
| step_reap m b : m ∈ reapers b -> step b (reap m b).

(** Machine [i] is the only one that ever had its address. *)
Definition sole (b : B) (i : nat) (m : Machine) : Prop :=
  heap b !! i = Some m /\ forall j m', heap b !! j = Some m' -> Addr m' = Addr m -> j = i.

Record inv (b : B) : Prop := {
  inv_map : forall a i, machines b !! a = Some i -> exists m, heap b !! i = Some m /\ Addr m = a;
  inv_reapers : forall i, i ∈ reapers b -> exists m, heap b !! i = Some m /\ owner m = false;
  inv_owned : forall i m, sole b i m -> owner m = true -> machines b !! Addr m = Some i
}.

Lemma inv_new : inv new_B.
Proof. split; simpl; try done. intros i m [H _]. done. Qed.

(** Adding a machine to the heap and the map. *)
Lemma inv_add (b : B) (m : Machine) rs n :
  inv b ->
  (forall i, i ∈ rs -> i ∈ reapers b \/ (i = length (heap b) /\ owner m = false)) ->
  inv {| heap := heap b ++ [m]; machines := <[Addr m := length (heap b)]> (machines b);
         reapers := rs; next_chan := n |}.
Proof.
  intros [H1 H2 H3] Hrs. split; cbn [heap machines reapers].
  - intros a i [[<- <-]|[_ Ha]]%lookup_insert_Some.
    + exists m. split; [by apply list_lookup_middle|done].
    + destruct (H1 a i Ha) as (m' & Hm' & Ha'). exists m'. split; [by apply lookup_app_l_Some|done].
  - intros i Hi. destruct (Hrs i Hi) as [Hi'|[-> Ho]].
    + destruct (H2 i Hi') as (m' & Hm' & Ho). exists m'. split; [by apply lookup_app_l_Some|done].
    + exists m. split; [by apply list_lookup_middle|done].
  - intros i m' [Hi Hsole] Ho. simpl in Hi, Hsole.
    apply lookup_app_Some in Hi as [Hi|[Hge Hi]].
    + rewrite lookup_insert_ne.
      * apply H3; [|done]. split; [done|]. intros j m'' Hj. apply Hsole. by apply lookup_app_l_Some.
      * intros Heq. assert (length (heap b) = i) as <-.
        { apply (Hsole _ m); [by apply list_lookup_middle|done]. }
        apply lookup_lt_Some in Hi. lia.
    + assert (i = length (heap b)) as ->.
      { apply lookup_lt_Some in Hi. simpl in Hi. lia. }
      rewrite Nat.sub_diag in Hi. injection Hi as <-. apply lookup_insert_eq.
Qed.

Lemma applyParam_Addr ps m : Addr (foldl (fun m p => applyParam p m) m ps) = Addr m.
Proof. revert m. induction ps as [|p ps IH]; intros m; [done|]. simpl. rewrite IH. by destruct p. Qed.

Lemma start_machines_inv params ms b : inv b -> inv (start_machines params ms b).2.
Proof.
  revert b. induction ms as [|m ms IH]; intros b Hi; [done|]. cbn [start_machines].
  case_decide; [done|].
  specialize (IH _ (inv_add b (own params (next_chan b) m) (reapers b) (S (next_chan b)) Hi
    ltac:(auto))).
  replace (Addr (own params (next_chan b) m)) with (Addr m) in IH
    by by unfold own; simpl; rewrite applyParam_Addr.
  destruct (start_machines _ _ _) as [r b']. exact IH.
Qed.

Lemma B_step_inv b b' : step b b' -> inv b -> inv b'.
Proof.
  intros Hs Hi. destruct Hs as [addr b|launched params b|m b Hm].
  - unfold Dial. destruct (machines b !! addr) eqn:Ha; [done|]. cbn [snd].
    set (m := {| Addr := addr |}).
    apply (inv_add b m _ _ Hi). intros i Hin. apply elem_of_union in Hin as [Hin|Hin]; [|by left].
    right. by apply elem_of_singleton in Hin.
  - destruct launched as [[|m ms]|e]; [done|by apply (start_machines_inv params (m :: ms))|done].
  - unfold reap. destruct (heap b !! m) as [mach|] eqn:Hh; [|done].
    destruct Hi as [H1 H2 H3]. split; cbn [heap machines reapers].
    + intros a i [_ Ha]%lookup_delete_Some. by apply H1.
    + intros i Hin. apply H2. set_solver.
    + intros i m' Hs Ho. rewrite lookup_delete_ne; [by apply H3|]. intros Heq.
      destruct Hs as [Hi' Hsole]. simpl in Hi', Hsole. rewrite (Hsole m mach Hh Heq) in Hm.
      destruct (H2 i Hm) as (m'' & Hi'' & Ho'). simplify_eq. congruence.
Qed.

Lemma B_reachable_inv b : rtc step new_B b -> inv b.
Proof.
  intros Hr. eapply (rtc_invariant step inv); [|apply inv_new|exact Hr].
  intros x y Hxy Hx. by eapply B_step_inv.
Qed.

(** C30. The machines a B knows.  Every entry of the map is a machine with that
    address; dialing an address that is known returns the machine that is
    known, and dialing it again changes nothing; and a started machine stays in
    the map - so that Shutdown reaches it - as long as no other machine of this
    B ever had its address.  Without that condition it does not: a machine that
    was dialed at an address removes the entry when it stops, even if the entry
    is by then that of a started machine, which no Shutdown will reach. *)
Theorem known_machines b :
  rtc step new_B b ->
  (forall a i, machines b !! a = Some i -> exists m, heap b !! i = Some m /\ Addr m = a) /\
  (forall a, let '(i, b1) := Dial a b in
     machines b1 !! a = Some i /\ Dial a b1 = (i, b1) /\
     (forall j, machines b !! a = Some j -> i = j /\ b1 = b)) /\
  (forall i m, sole b i m -> owner m = true -> i ∈ Machines b) /\
  (exists b' i m, rtc step new_B b' /\ heap b' !! i = Some m /\ owner m = true /\
     started m = true /\ (i ∉ Machines b')).
Proof.
  intros Hr. pose proof (B_reachable_inv b Hr) as Hi.
  split; [apply (inv_map b Hi)|]. split; [|split].
  - intros a. unfold Dial at 1. destruct (machines b !! a) as [j|] eqn:Ha.
    + split; [done|]. split; [unfold Dial; by rewrite Ha|]. intros j' Hj. by simplify_eq.
    + cbn [machines]. rewrite lookup_insert_eq. split; [done|]. split; [|done].
      unfold Dial. cbn [machines]. by rewrite lookup_insert_eq.
  - intros i m Hs Ho. apply list_elem_of_fmap. exists (Addr m, i). split; [done|].
    apply elem_of_map_to_list. by apply (inv_owned b Hi).
  - pose (m0 := {| Addr := "h"; owner := false; services := {["S" := 0]}; environ := [];
                   tailDone := None; started := false |}).
    exists (reap 0 (Start (Ok [m0]) [] (Dial "h" new_B).2).2), 1, (own [] 0 m0).
    split; [|split; [reflexivity|]; split; [reflexivity|]; split; [reflexivity|];
      replace (Machines _) with (@nil nat) by reflexivity; apply not_elem_of_nil].
    eapply rtc_l; [apply (step_dial "h")|]. eapply rtc_l; [apply (step_start (Ok [m0]) [])|].
    eapply rtc_l; [by apply (step_reap 0); vm_compute|]. apply rtc_refl.
Qed.

(** Shutdown.  Every known machine is asked to shut down exactly once, even
    when other calls fail; the wait for their logs ends after at most the
    timeout, and as soon as the logs of all started machines are drained -
    unless one machine was dialed: its channel is nil, and the wait always
    takes the whole timeout. *)
Lemma shutdown_waits drained duration ms T :
  (0 <= duration)%Z -> (0 <= T)%Z ->
  (shutdownAllMachines drained duration ms).1 = Addr <$> ms /\
  ((shutdownAllMachines drained duration ms).2 <= duration)%Z /\
  (Forall (fun m => exists c t, tailDone m = Some c /\ drained c = Some t /\ (t <= T)%Z) ms ->
     ((shutdownAllMachines drained duration ms).2 <= T)%Z) /\
  (Exists (fun m => tailDone m = None) ms -> (shutdownAllMachines drained duration ms).2 = duration).
Proof.
  intros Hd HT. split; [done|]. unfold shutdownAllMachines. cbn [snd].
  assert (Hle : forall m, (wait_for_logs drained duration m <= duration)%Z).
  { intros m. unfold wait_for_logs. repeat case_match; lia. }
  assert (Hub : (foldr Z.max 0 (wait_for_logs drained duration <$> ms) <= duration)%Z).
  { induction ms as [|m ms IH]; [done|]. rewrite fmap_cons. cbn [foldr]. specialize (Hle m). lia. }
  split; [done|]. split.
  - intros Hall. clear Hub. induction Hall as [|m ms (c & t & Hc & Ht & HtT) Hall IH]; [done|].
    rewrite fmap_cons. cbn [foldr]. unfold wait_for_logs at 1. rewrite Hc, Ht. lia.
  - intros Hex. induction Hex as [m ms Hn|m ms Hex IH].
    + assert (Hm : wait_for_logs drained duration m = duration)
        by (unfold wait_for_logs; by rewrite Hn).
      rewrite fmap_cons in *. cbn [foldr] in *. rewrite Hm in *. lia.
    + rewrite fmap_cons in *. cbn [foldr] in *. specialize (Hle m).
      rewrite IH; [lia|]. lia.
Qed.

End known.

Module Samples.

Definition dialed : Machine :=
  {| Addr := "h"; owner := false; services := ∅; environ := []; tailDone := None; started := true |}.

Lemma known_machines_witness :
  exists b' i m, rtc (step (EL := SimpleErrors)) new_B b' /\ heap b' !! i = Some m /\ owner m = true /\
     started m = true /\ (i ∉ Machines b').
Proof.
  exact (proj2 (proj2 (proj2 (known_machines (EL := SimpleErrors) new_B (rtc_refl _ _))))).
Defined.

End Samples.
