(* ===== verification/System.v ===== *)
(** system.go: the interface between a B and the system that launches its
    machines, and B.Start (bigmachine.go) for every system that keeps it.

    The class [System] has one field per method of the Go interface that the
    driver's side calls to launch machines; the instances are in TestSystem.v,
    LocalSystem.v and Ec2System.v. *)
From S2P Require Import Prelude Errors Cluster.
Local Open Scope string_scope.
Local Open Scope list_scope.

(** ** The interface *)

(** The fields of a machine that a system sets: everything else is zero. *)
Record Launched := {
  l_Addr : string;
  l_Maxprocs : Z;
  l_NoExec : bool
}.

Definition launched_machine (l : Launched) : Machine :=
  {| Addr := l_Addr l; owner := false; services := ∅; environ := []; tailDone := None; started := false |}.

(** How System.Start ends, if it does. *)
Inductive launch_outcome (E : Type) :=
| LReturns (r : result E (list Launched))
| LPanics
| LRunning.
Arguments LReturns {E} r.
Arguments LPanics {E}.
Arguments LRunning {E}.

(** [launch_env] is what the environment answers to one Start. *)
Class System {EL : ErrorsLib} := {
  sys : Type;
  launch_env : Type;
  sys_Name : string;
  sys_Start : launch_env -> nat -> sys -> launch_outcome error * sys;
  sys_Maxprocs : sys -> Z;
  sys_KeepaliveConfig : sys -> Z * Z * Z
}.

(** What a system promises: [sys_ok] is the invariant of its state, and
    [launch_ok] what the environment of a launch of n machines must satisfy. *)
Class SystemLaws {EL : ErrorsLib} (S : System) := {
  sys_ok : sys -> Prop;
  launch_ok : launch_env -> nat -> Prop;
  Start_ok : forall env n s, sys_ok s -> sys_ok (sys_Start env n s).2;
  Start_at_most : forall env n s ls s', sys_ok s -> launch_ok env n ->
    sys_Start env n s = (LReturns (Ok ls), s') -> length ls <= n;
  Start_Maxprocs : forall env n s ls s', sys_ok s ->
    sys_Start env n s = (LReturns (Ok ls), s') -> Forall (fun l => l_Maxprocs l = sys_Maxprocs s) ls;
  KeepaliveConfig_sane : forall s, sys_ok s -> let '(period, timeout, rpcTimeout) := sys_KeepaliveConfig s in
    (0 < period /\ 2 * period <= timeout /\ 0 < rpcTimeout <= timeout)%Z
}.

(** ** B.Start *)

(** What the parameters ask for: later services replace earlier ones of the
    same name, environments are appended. *)
Definition services_of (params : list Param) : gmap string iface :=
  foldl (fun m p => match p with Services s => s ∪ m | Environ _ => m end) ∅ params.

Definition environ_of (params : list Param) : list string :=
  params ≫= fun p => match p with Services _ => [] | Environ e => e end.

Section client.
Context {EL : ErrorsLib} {S : System}.

(** B.Start with the call of system.Start; [None] if that panics or has not
    returned. *)
Definition B_Start (env : launch_env) (n : nat) (params : list Param) (b : B) (s : sys) :
    option (result error (list nat) * B) * sys :=
  let '(o, s) := sys_Start env n s in
  (match o with
   | LReturns r =>
       Some (Cluster.Start (match r with Ok ls => Ok (launched_machine <$> ls) | Err e => Err e end) params b)
   | _ => None
   end, s).

Lemma foldl_applyParam (params : list Param) (m : Machine) :
  foldl (fun m p => applyParam p m) m params =
  {| Addr := Addr m; owner := owner m;
     services := foldl (fun m p => match p with Services s => s ∪ m | Environ _ => m end) (services m) params;
     environ := environ m ++ environ_of params; tailDone := tailDone m; started := started m |}.
Proof.
  revert m. induction params as [|p params IH]; intros m; simpl.
  - rewrite app_nil_r. by destruct m.
  - rewrite IH. destruct p; simpl; [done|]. by rewrite <- app_assoc.
Qed.

(** The machine B.Start makes of a launched one. *)
Definition owned (params : list Param) (chan : nat) (l : Launched) : Machine :=
  {| Addr := l_Addr l; owner := true; services := services_of params; environ := environ_of params;
     tailDone := Some chan; started := true |}.

Lemma own_launched (params : list Param) (chan : nat) (l : Launched) :
  own params chan (launched_machine l) = owned params chan l.
Proof. unfold own. by rewrite foldl_applyParam. Qed.

(** The loop of B.Start over launched machines. *)
Lemma start_machines_launched (params : list Param) (ls : list Launched) (b : B) :
  ls <> [] ->
  start_machines params (launched_machine <$> ls) b =
    if decide (services_of params = ∅) then (Err (E [AKind Invalid; AMsg "no services provided"]), b)
    else (Ok (seq (length (heap b)) (length ls)),
          {| heap := heap b ++ imap (fun k l => owned params (next_chan b + k) l) ls;
             machines := foldl (fun m x => <[x.2 := x.1]> m) (machines b)
                           (zip (seq (length (heap b)) (length ls)) (l_Addr <$> ls));
             reapers := reapers b; next_chan := next_chan b + length ls |}).
Proof.
  intros Hne. destruct (decide (services_of params = ∅)) as [Hs|Hs].
  { destruct ls as [|l ls]; [done|]. cbn [fmap list_fmap start_machines].
    rewrite foldl_applyParam. cbn [services launched_machine]. by rewrite decide_True. }
  clear Hne. revert b. induction ls as [|l ls IH]; intros b; cbn [fmap list_fmap start_machines].
  - rewrite app_nil_r. destruct b; simpl. by rewrite Nat.add_0_r.
  - rewrite foldl_applyParam. cbn [services launched_machine]. rewrite decide_False by done.
    rewrite own_launched, IH. cbn [heap machines reapers next_chan length seq imap zip zip_with foldl].
    rewrite length_app, Nat.add_1_r, Nat.add_0_r. cbn [fst snd]. do 2 f_equal.
    + rewrite <- app_assoc. do 2 f_equal. apply imap_ext. intros k x _. simpl. f_equal. lia.
    + lia.
Qed.

(** The map of machines after the loop: a launched address leads to the last
    machine with that address, other entries are kept. *)
Lemma foldl_known_lookup (xs : list (nat * string)) (m : gmap string nat) (a : string) :
  foldl (fun m x => <[x.2 := x.1]> m) m xs !! a =
  match last (filter (fun x => x.2 = a) xs) with Some x => Some x.1 | None => m !! a end.
Proof.
  induction xs as [|x xs IH] using rev_ind; [done|].
  rewrite foldl_app, filter_app. cbn [foldl]. destruct (decide (x.2 = a)) as [<-|Hx].
  - rewrite lookup_insert_eq, filter_cons_True by done. rewrite filter_nil, last_snoc. done.
  - rewrite lookup_insert_ne, filter_cons_False, filter_nil, app_nil_r by done. exact IH.
Qed.

(** Each address leads to a machine with that address. *)
Lemma known_address (params : list Param) (ls : list Launched) (b : B) (l : Launched) :
  l ∈ ls ->
  exists i m, i ∈ seq (length (heap b)) (length ls) /\
    foldl (fun m x => <[x.2 := x.1]> m) (machines b)
      (zip (seq (length (heap b)) (length ls)) (l_Addr <$> ls)) !! l_Addr l = Some i /\
    (heap b ++ imap (fun k l => owned params (next_chan b + k) l) ls) !! i = Some m /\
    Addr m = l_Addr l /\ owner m = true.
Proof.
  intros Hl. rewrite foldl_known_lookup.
  destruct (last _) as [x|] eqn:Hx.
  - apply last_Some_elem_of, list_elem_of_filter in Hx as [Ha Hx].
    apply list_elem_of_lookup in Hx as [k Hk].
    apply lookup_zip_with_Some in Hk as (i & a & -> & Hi & Hk). simpl in *. subst a.
    apply list_lookup_fmap_Some in Hk as (l' & Hl' & Hk).
    apply lookup_seq in Hi as [-> Hlt].
    exists (length (heap b) + k), (owned params (next_chan b + k) l'). split_and!; try done.
    + apply elem_of_seq. lia.
    + rewrite lookup_app_r by lia. rewrite Nat.add_sub_swap, Nat.sub_diag by lia. simpl.
      by rewrite list_lookup_imap, Hk.
  - exfalso. apply last_None in Hx. apply list_elem_of_lookup in Hl as [k Hk].
    assert (Hin : (length (heap b) + k, l_Addr l) ∈
      filter (fun x => x.2 = l_Addr l) (zip (seq (length (heap b)) (length ls)) (l_Addr <$> ls))).
    { apply list_elem_of_filter. split; [done|]. apply list_elem_of_lookup. exists k.
      apply lookup_zip_with_Some. eexists _, _. split_and!; [done| |].
      - apply lookup_seq. split; [done|]. by eapply lookup_lt_Some.
      - by rewrite list_lookup_fmap, Hk. }
    rewrite Hx in Hin. by apply not_elem_of_nil in Hin.
Qed.

(** The B after a Start that returns the launched machines [ls]. *)
Definition with_started (params : list Param) (ls : list Launched) (b : B) : B :=
  {| heap := heap b ++ imap (fun k l => owned params (next_chan b + k) l) ls;
     machines := foldl (fun m x => <[x.2 := x.1]> m) (machines b)
                   (zip (seq (length (heap b)) (length ls)) (l_Addr <$> ls));
     reapers := reapers b; next_chan := next_chan b + length ls |}.

(** The three ways to fail, and the one to succeed. *)
Lemma B_Start_cases (env : launch_env) (n : nat) (params : list Param) (b b' : B) (s s' : sys) r :
  B_Start env n params b s = (Some (r, b'), s') ->
  (exists e, sys_Start env n s = (LReturns (Err e), s') /\ r = Err e /\ b' = b) \/
  (sys_Start env n s = (LReturns (Ok []), s') /\
     r = Err (E [AKind Unavailable; AMsg "no machines started"]) /\ b' = b) \/
  exists ls, sys_Start env n s = (LReturns (Ok ls), s') /\ ls <> [] /\
    ((services_of params = ∅ /\ r = Err (E [AKind Invalid; AMsg "no services provided"]) /\ b' = b) \/
     (services_of params <> ∅ /\ r = Ok (seq (length (heap b)) (length ls)) /\ b' = with_started params ls b)).
Proof.
  unfold B_Start. destruct (sys_Start env n s) as [o s0].
  destruct o as [[ls|e]| |]; [| |done..]; intros H; apply pair_eq in H as [H ->]; apply (inj Some) in H.
  2: { injection H as <- <-. left. by exists e. }
  destruct (decide (ls = [])) as [->|Hne]; [injection H as <- <-; by right; left|].
  right; right. exists ls. split; [done|]. split; [done|].
  assert (Cluster.Start (Ok (launched_machine <$> ls)) params b =
          start_machines params (launched_machine <$> ls) b) as HS by by destruct ls.
  rewrite HS, start_machines_launched in H by done.
  case_decide; injection H as <- <-; [by left|by right].
Qed.

(** Machine.start (machine.go): the keepalive settings of a machine, which has
    its own only in tests. *)
Definition start_config (own : Z * Z * Z) (s : sys) : Z * Z * Z :=
  if decide (own.1.1 = 0%Z) then sys_KeepaliveConfig s else own.

Context {SL : SystemLaws S}.

(** Every machine of a system that keeps its promises has room for a second
    keepalive within the timeout of the first. *)
Lemma start_config_sane (s : sys) :
  sys_ok s ->
  let '(period, timeout, rpcTimeout) := start_config (0, 0, 0)%Z s in
  (0 < period /\ 2 * period <= timeout /\ 0 < rpcTimeout <= timeout)%Z.
Proof. intros Hs. unfold start_config. simpl. by apply KeepaliveConfig_sane. Qed.

(** C20. B.Start over any system that keeps its promises.  If it returns
    machines, they are at least one and at most the number asked for, and are
    those the system launched, in its order; each has its launched address, is
    owned and started, has the services of all parameters (the later of one
    name wins) and there is at least one, the concatenation of the environments,
    and a log channel of its own; and B knows a machine by each of the addresses.
    If it fails, B is as before, so none of the machines is known to it or kept
    alive, although in one case they have been launched: when the parameters
    provide no service. *)
Theorem started_machines (env : launch_env) (n : nat) (params : list Param) (b b' : B) (s s' : sys)
    (r : result error (list nat)) :
  sys_ok s -> launch_ok env n -> B_Start env n params b s = (Some (r, b'), s') ->
  sys_ok s' /\
  match r with
  | Ok ms =>
      exists ls, sys_Start env n s = (LReturns (Ok ls), s') /\ 0 < length ms <= n /\
        heap b' = heap b ++ imap (fun k l => owned params (next_chan b + k) l) ls /\
        ms = seq (length (heap b)) (length ls) /\ services_of params <> ∅ /\
        (forall l, l ∈ ls -> l_Maxprocs l = sys_Maxprocs s /\
           exists i m, i ∈ ms /\ machines b' !! l_Addr l = Some i /\ heap b' !! i = Some m /\
             Addr m = l_Addr l /\ owner m = true) /\
        (forall a, a ∉ l_Addr <$> ls -> machines b' !! a = machines b !! a)
  | Err e =>
      b' = b /\
      (sys_Start env n s = (LReturns (Err e), s') \/
       sys_Start env n s = (LReturns (Ok []), s') /\ e = E [AKind Unavailable; AMsg "no machines started"] \/
       exists ls, sys_Start env n s = (LReturns (Ok ls), s') /\ ls <> [] /\
         services_of params = ∅ /\ e = E [AKind Invalid; AMsg "no services provided"])
  end.
Proof.
  intros Hok Henv H.
  assert (Hok' : forall o, sys_Start env n s = (o, s') -> sys_ok s').
  { intros o Hs. pose proof (Start_ok env n s Hok) as Hk. by rewrite Hs in Hk. }
  apply B_Start_cases in H as [(e & Hs & -> & ->)|[(Hs & -> & ->)|(ls & Hs & Hne & [(Hsv & -> & ->)|(Hsv & -> & ->)])]];
    (split; [by eapply Hok'|]).
  - split; [done|by left].
  - split; [done|right; by left].
  - split; [done|right; right; by exists ls].
  - exists ls. cbn [heap machines with_started]. rewrite length_seq. split_and!; try done.
    + by destruct ls; simpl; [done|lia].
    + by eapply Start_at_most.
    + intros l Hl. pose proof (Start_Maxprocs env n s ls s' Hok Hs) as Hm.
      rewrite Forall_forall in Hm. split; [by apply Hm|]. by apply known_address.
    + intros a Ha. rewrite foldl_known_lookup.
      destruct (last _) as [x|] eqn:Hl; [|done]. exfalso. apply Ha.
      apply last_Some_elem_of, list_elem_of_filter in Hl as [<- Hx].
      destruct x. by apply elem_of_zip_r in Hx.
Qed.
End client.
