(* ===== verification/TestSystem.v ===== *)
(** testsystem/testsystem.go: the system that runs its machines inside the test
    process - starting and killing them, waiting for them, its settings.

    A machine is named by its index in the list of all machines ever made, as a
    pointer in the code.  A started machine comes with a supervisor, whose
    context Kill cancels, and with an HTTP server, which Kill closes. *)
From S2P Require Import Prelude Errors GoStrings Ioutil Cluster System.
Local Open Scope string_scope.
Local Open Scope list_scope.

(** ** State *)

(** machine: the *bigmachine.Machine, its context and its server. *)
Record machine := {
  tm_Addr : string;
  tm_Maxprocs : Z;
  tm_NoExec : bool;
  tm_cancelled : bool;
  tm_serving : bool
}.

(** System: [all] holds every machine made, [live] is the field machines. *)
Record Sys := {
  Machineprocs : Z;
  KeepalivePeriod : Z;
  KeepaliveTimeout : Z;
  KeepaliveRpcTimeout : Z;
  done_closed : bool;
  exited : bool;
  all : list machine;
  live : list nat
}.

Definition with_machines (a : list machine) (l : list nat) (s : Sys) : Sys :=
  {| Machineprocs := Machineprocs s; KeepalivePeriod := KeepalivePeriod s; KeepaliveTimeout := KeepaliveTimeout s;
     KeepaliveRpcTimeout := KeepaliveRpcTimeout s; done_closed := done_closed s; exited := exited s;
     all := a; live := l |}.

(** ** Operations *)

(** testsystem.New *)
Definition NewSystem : Sys :=
  {| Machineprocs := 1; KeepalivePeriod := 0; KeepaliveTimeout := 0; KeepaliveRpcTimeout := 0;
     done_closed := false; exited := false; all := []; live := [] |}.

(** machine.Kill *)
Definition kill_machine (m : machine) : machine :=
  {| tm_Addr := tm_Addr m; tm_Maxprocs := tm_Maxprocs m; tm_NoExec := tm_NoExec m;
     tm_cancelled := true; tm_serving := false |}.

(** System.N *)
Definition N (s : Sys) : nat := length (live s).

(** System.Index: out of range it panics. *)
Definition Index (i : nat) (s : Sys) : option nat := live s !! i.

(** System.Kill, with the number rand.Intn draws. *)
Definition Kill (m : option nat) (r : nat) (s : Sys) : bool * Sys :=
  if decide (live s = []) then (false, s)
  else
    let m := match m with Some m => m | None => default 0 (live s !! (r mod length (live s))) end in
    match list_find (fun sm => sm = m) (live s) with
    | Some (i, _) => (true, with_machines (alter kill_machine m (all s)) (delete i (live s)) s)
    | None => (false, s)
    end.

Section start.
Context {EL : ErrorsLib}.

(** The answers to one round of Start: the result of registering the
    supervisor, and the URL of the new HTTP server. *)
Definition start_answer : Type := option error * string.

(** The machine a round of Start makes. *)
Definition new_machine (url : string) (s : Sys) : machine :=
  {| tm_Addr := url; tm_Maxprocs := Machineprocs s; tm_NoExec := true; tm_cancelled := false; tm_serving := true |}.

(** The loop of System.Start; it panics if the supervisor is refused. *)
Fixpoint start_loop (answers : list start_answer) (s : Sys) : option (list nat) * Sys :=
  match answers with
  | [] => (Some [], s)
  | (Some _, _) :: _ => (None, s)
  | (None, url) :: answers =>
      let i := length (all s) in
      let '(r, s) := start_loop answers (with_machines (all s ++ [new_machine url s]) (live s ++ [i]) s) in
      (match r with Some l => Some (i :: l) | None => None end, s)
  end.

(** System.Start *)
Definition Start (answers : nat -> start_answer) (count : nat) (s : Sys) : option (list nat) * Sys :=
  start_loop (answers <$> seq 0 count) s.
End start.

(** System.Exit and System.Exited *)
Definition Exit (code : Z) (s : Sys) : Sys :=
  {| Machineprocs := Machineprocs s; KeepalivePeriod := KeepalivePeriod s; KeepaliveTimeout := KeepaliveTimeout s;
     KeepaliveRpcTimeout := KeepaliveRpcTimeout s; done_closed := done_closed s; exited := true;
     all := all s; live := live s |}.
Definition Exited (s : Sys) : bool := exited s.

(** System.Shutdown: closing a closed channel panics.  It does not kill. *)
Definition Shutdown (s : Sys) : option Sys :=
  if done_closed s then None
  else Some {| Machineprocs := Machineprocs s; KeepalivePeriod := KeepalivePeriod s;
               KeepaliveTimeout := KeepaliveTimeout s; KeepaliveRpcTimeout := KeepaliveRpcTimeout s;
               done_closed := true; exited := exited s; all := all s; live := live s |}.

Definition Maxprocs (s : Sys) : Z := Machineprocs s.

Definition or_default (d z : Z) : Z := if decide (z = 0%Z) then d else z.

(** System.KeepaliveConfig, in nanoseconds. *)
Definition KeepaliveConfig (s : Sys) : Z * Z * Z :=
  (or_default (60 * 1000000000) (KeepalivePeriod s), or_default (120 * 1000000000) (KeepaliveTimeout s),
   or_default (10 * 1000000000) (KeepaliveRpcTimeout s)).

(** System.Tail, and System.Read with the result of os.Open. *)
Definition Tail {EL : ErrorsLib} : result error (list Z) := Err (E [AKind NotSupported]).
Definition Read {EL : ErrorsLib} (open : result error (@source error)) : result error (@closingReader error) :=
  Ioutil.Read_file open.

(** The error is of kind NotSupported and of no other. *)
Lemma Tail_unsupported {EL : ErrorsLib} {LW : ErrorsLaws EL} :
  exists e, Tail = Err e /\ forall k, Is k e = bool_decide (k = NotSupported).
Proof. eexists. split; [done|]. intros k. by apply Is_E. Qed.

(** ** Waiting *)

(** The system and the goroutines in Wait: those asleep on the condition
    variable, and those that were woken and have yet to take the lock. *)
Record waiting := {
  w_sys : Sys;
  asleep : list (nat * nat);
  woken : list (nat * nat);
  (** Each return: the goroutine, the value, and the number of live machines. *)
  returned : list (nat * nat * nat)
}.

(** The loop of Wait, with the lock held, up to its return or its sleep. *)
Definition wait_check (t n : nat) (w : waiting) : waiting :=
  if decide (length (live (w_sys w)) < n)
  then {| w_sys := w_sys w; asleep := (t, n) :: asleep w; woken := woken w; returned := returned w |}
  else {| w_sys := w_sys w; asleep := asleep w; woken := woken w;
          returned := (t, n, length (live (w_sys w))) :: returned w |}.

(** What happens to the system: Wait is called by goroutine t, a woken one goes
    on; Start, which broadcasts unless it panics; Kill; and Exit. *)
Inductive step {EL : ErrorsLib} : waiting -> waiting -> Prop :=
| step_Wait t n w : step w (wait_check t n w)
| step_woken t n l1 l2 w :
    woken w = l1 ++ (t, n) :: l2 ->
    step w (wait_check t n {| w_sys := w_sys w; asleep := asleep w; woken := l1 ++ l2; returned := returned w |})
| step_Start answers count ms s w :
    Start answers count (w_sys w) = (Some ms, s) ->
    step w {| w_sys := s; asleep := []; woken := woken w ++ asleep w; returned := returned w |}
| step_Kill m r w :
    step w {| w_sys := (Kill m r (w_sys w)).2; asleep := asleep w; woken := woken w; returned := returned w |}
| step_Exit code w :
    step w {| w_sys := Exit code (w_sys w); asleep := asleep w; woken := woken w; returned := returned w |}.

Definition initial : waiting := {| w_sys := NewSystem; asleep := []; woken := []; returned := [] |}.

(** ** What is true of every reachable system *)

(** The machines of the list are those that are neither cancelled nor closed. *)
Record consistent (s : Sys) : Prop := {
  live_NoDup : NoDup (live s);
  live_iff : forall i, i ∈ live s <-> exists m, all s !! i = Some m /\ tm_cancelled m = false;
  all_ok : forall i m, all s !! i = Some m -> tm_NoExec m = true /\ tm_serving m = negb (tm_cancelled m)
}.

Lemma consistent_new : consistent NewSystem.
Proof.
  split; simpl; [by constructor| |done].
  intros i. split; [by intros ?%not_elem_of_nil|by intros (m & [=] & _)].
Qed.

Lemma consistent_add (url : string) (s : Sys) :
  consistent s ->
  consistent (with_machines (all s ++ [new_machine url s]) (live s ++ [length (all s)]) s).
Proof.
  intros [H1 H2 H3]. split; simpl.
  - apply NoDup_app. split_and!; [done| |apply NoDup_singleton].
    intros i (m & Hm & _)%H2 ->%list_elem_of_singleton. by apply lookup_lt_Some, Nat.lt_irrefl in Hm.
  - intros i. rewrite elem_of_app, H2, list_elem_of_singleton. split.
    + intros [(m & Hm & Hc)| ->].
      * exists m. split; [by apply lookup_app_l_Some|done].
      * exists (new_machine url s). split; [by apply list_lookup_middle|done].
    + intros (m & [Hm|[Hge Hm]]%lookup_app_Some & Hc); [left; by exists m|right].
      apply list_lookup_singleton_Some in Hm as [? _]. lia.
  - intros i m [Hm|[_ Hm]]%lookup_app_Some; [by eapply H3|].
    apply list_lookup_singleton_Some in Hm as [_ <-]. done.
Qed.

Section theorems.
Context {EL : ErrorsLib}.

(** What a loop of Start does if it does not panic. *)
Lemma test_start_loop_spec (answers : list start_answer) (s s' : Sys) r :
  start_loop answers s = (r, s') -> consistent s ->
  consistent s' /\ Machineprocs s' = Machineprocs s /\ KeepaliveConfig s' = KeepaliveConfig s /\
  forall ms, r = Some ms ->
    ms = seq (length (all s)) (length answers) /\
    all s' = all s ++ ((fun a => new_machine a.2 s) <$> answers) /\ live s' = live s ++ ms.
Proof.
  revert s s' r. induction answers as [|[[e|] url] answers IH]; intros s s' r H Hc; simpl in H; simplify_eq.
  - split_and!; try done. intros ms [= <-]. by rewrite !app_nil_r.
  - done.
  - destruct (start_loop answers _) as [r0 s0] eqn:E. simplify_eq.
    destruct (IH _ _ _ E (consistent_add url s Hc)) as (Hc' & Hp & Hk & Hr).
    split_and!; try done. intros ms Hms. destruct r0 as [ms0|]; simplify_eq.
    destruct (Hr ms0 eq_refl) as (-> & Ha & Hl). simpl in *. rewrite length_app in *. simpl in *.
    rewrite Nat.add_1_r in *. split_and!; [done| |].
    + rewrite Ha, <- app_assoc. done.
    + by rewrite Hl, <- app_assoc.
Qed.

Lemma Start_spec answers count (s s' : Sys) r :
  Start answers count s = (r, s') -> consistent s ->
  consistent s' /\ Machineprocs s' = Machineprocs s /\ KeepaliveConfig s' = KeepaliveConfig s /\
  forall ms, r = Some ms ->
    ms = seq (length (all s)) count /\
    all s' = all s ++ ((fun i => new_machine (answers i).2 s) <$> seq 0 count) /\ live s' = live s ++ ms.
Proof.
  intros H Hc. destruct (test_start_loop_spec _ _ _ _ H Hc) as (? & ? & ? & Hr).
  split_and!; try done. intros ms Hms. destruct (Hr ms Hms) as (Hm & Ha & Hl).
  rewrite length_fmap, length_seq in Hm. by rewrite <- list_fmap_compose in Ha.
Qed.

(** Kill: whom it kills. *)
Lemma Kill_spec (k : option nat) (r : nat) (s : Sys) :
  (exists m l1 l2, Kill k r s = (true, with_machines (alter kill_machine m (all s)) (l1 ++ l2) s) /\
     live s = l1 ++ m :: l2 /\ (k = Some m \/ k = None)) \/
  (Kill k r s = (false, s) /\ match k with Some m => m ∉ live s | None => live s = [] end).
Proof.
  unfold Kill. case_decide as Hl.
  { right. split; [done|]. rewrite Hl. destruct k; [apply not_elem_of_nil|done]. }
  set (m := match k with Some m => m | None => default 0 (live s !! (r mod length (live s))) end).
  assert (Hk : k = Some m \/ k = None) by (destruct k; auto).
  destruct (list_find (fun sm => sm = m) (live s)) as [[i x]|] eqn:E.
  - apply list_find_Some in E as (Hi & -> & _). left.
    exists m, (take i (live s)), (drop (S i) (live s)). split_and!; [|by rewrite take_drop_middle|done].
    by rewrite delete_take_drop.
  - right. split; [done|]. apply list_find_None in E. rewrite Forall_forall in E.
    destruct k as [m'|]; [by intros Hm; apply (E m')|]. exfalso.
    destruct (live s !! (r mod length (live s))) as [x|] eqn:Hx.
    + apply (E x); [by eapply list_elem_of_lookup_2|done].
    + apply lookup_ge_None in Hx.
      assert (length (live s) <> 0) by (by destruct (live s)).
      pose proof (Nat.mod_upper_bound r (length (live s)) ltac:(done)). lia.
Qed.

Lemma consistent_kill (m : nat) (l1 l2 : list nat) (s : Sys) :
  consistent s -> live s = l1 ++ m :: l2 ->
  consistent (with_machines (alter kill_machine m (all s)) (l1 ++ l2) s).
Proof.
  intros [H1 H2 H3] Hl. rewrite Hl in H1.
  assert (Hm : m ∉ l1 ++ l2).
  { apply NoDup_app in H1 as (_ & Hd & [Hn _]%NoDup_cons). rewrite elem_of_app. intros [Hin|Hin]; [|done].
    by apply (Hd m Hin), elem_of_cons; left. }
  assert (H1' : NoDup (l1 ++ l2)).
  { apply NoDup_app in H1 as (? & Hd & [_ ?]%NoDup_cons). apply NoDup_app. split_and!; try done.
    intros x Hx Hx2. apply (Hd x Hx), elem_of_cons. by right. }
  split; simpl; [done| |].
  - intros i. destruct (decide (i = m)) as [->|Hne].
    + split; [done|]. intros (x & Hx & Hc). rewrite list_lookup_alter_eq in Hx.
      destruct (all s !! m); simplify_eq/=.
    + rewrite list_lookup_alter_ne, <- H2, Hl by done. rewrite !elem_of_app, elem_of_cons. naive_solver.
  - intros i x Hx. destruct (decide (i = m)) as [->|Hne].
    + rewrite list_lookup_alter_eq in Hx. destruct (all s !! m) as [y|] eqn:Hy; simplify_eq/=.
      split; [by eapply H3|done].
    + rewrite list_lookup_alter_ne in Hx by done. by eapply H3.
Qed.

(** Every goroutine asleep in Wait wants more machines than there are. *)
Definition no_lost_wakeup (w : waiting) : Prop :=
  Forall (fun x => length (live (w_sys w)) < x.2) (asleep w).

Definition honest_returns (w : waiting) : Prop :=
  Forall (fun x => x.1.2 <= x.2) (returned w).

Definition winv (w : waiting) : Prop :=
  consistent (w_sys w) /\ no_lost_wakeup w /\ honest_returns w.

Lemma wait_check_inv (t n : nat) (w : waiting) : winv w -> winv (wait_check t n w).
Proof.
  intros (Hc & Hn & Hr). unfold wait_check. case_decide; split_and!; try done; simpl.
  - by constructor.
  - constructor; [simpl; lia|done].
Qed.

Lemma winv_step (w w' : waiting) : step w w' -> winv w -> winv w'.
Proof.
  intros [t n x|t n l1 l2 x Hw|answers count ms s x Hs|m r x|code x] Hi.
  - by apply wait_check_inv.
  - apply wait_check_inv. exact Hi.
  - destruct Hi as (Hc & Hn & Hr). destruct (Start_spec _ _ _ _ _ Hs Hc) as (Hc' & _).
    split_and!; [done|constructor|done].
  - destruct Hi as (Hc & Hn & Hr).
    destruct (Kill_spec m r (w_sys x)) as [(i & l1 & l2 & -> & Hl & _)|[-> _]]; [|by split_and!].
    split_and!; [by apply consistent_kill| |done]. simpl.
    unfold no_lost_wakeup in *. simpl. rewrite Hl in Hn. eapply Forall_impl; [exact Hn|].
    simpl. intros y. rewrite !length_app. simpl. lia.
  - destruct Hi as ([H1 H2 H3] & Hn & Hr). split_and!; [by split|done|done].
Qed.

Lemma winv_reachable (w : waiting) : rtc step initial w -> winv w.
Proof.
  intros H. eapply (rtc_invariant step winv); [by intros; eapply winv_step| |exact H].
  split_and!; [apply consistent_new|constructor|constructor].
Qed.

(** C22. The machines of the test system, in every state that goroutines calling
    Start, Kill, Wait and Exit can bring about.  The machines listed are
    distinct and exactly those whose context is not cancelled, and these are the
    ones that serve.  A Start that returns adds as many as asked, at the end;
    Kill of a machine succeeds exactly if it is listed, Kill of any machine if
    there is one, and one that succeeds removes and kills just that machine.  No
    goroutine sleeps in Wait while there are enough machines, and when Wait
    returns, there are at least as many as it was asked for - which is also the
    number it returns, although there may be more. *)
Theorem live_machines (w : waiting) :
  rtc step initial w ->
  let s := w_sys w in
  NoDup (live s) /\
  (forall i, i ∈ live s <-> exists m, all s !! i = Some m /\ tm_cancelled m = false /\ tm_serving m = true) /\
  (forall answers count ms s', Start answers count s = (Some ms, s') ->
     N s' = N s + count /\ live s' = live s ++ ms /\ length ms = count /\ (forall m, m ∈ ms -> m ∉ live s)) /\
  (forall k r, let '(ok, s') := Kill k r s in
     (ok = true <-> match k with Some m => m ∈ live s | None => live s <> [] end) /\
     (ok = false -> s' = s) /\
     (ok = true -> exists m, (k = Some m \/ k = None) /\ live s ≡ₚ m :: live s' /\ N s = S (N s') /\
        (forall i, i <> m -> all s' !! i = all s !! i) /\
        (forall x, all s' !! m = Some x -> tm_cancelled x = true /\ tm_serving x = false))) /\
  (forall t n, (t, n) ∈ asleep w -> N s < n) /\
  (forall t v n, (t, v, n) ∈ returned w -> v <= n).
Proof.
  intros Hr s. destruct (winv_reachable w Hr) as (Hc & Hn & Hh). fold s in Hc.
  pose proof Hc as [H1 H2 H3]. split_and!; [done| | | | |].
  - intros i. rewrite H2. split; intros (m & Hm & Hcc); exists m; [|naive_solver].
    split_and!; try done. destruct (H3 i m Hm) as [_ ->]. by rewrite Hcc.
  - intros answers count ms s' Hs. destruct (Start_spec _ _ _ _ _ Hs Hc) as (Hc' & _ & _ & Hms).
    destruct (Hms ms eq_refl) as (Hseq & _ & Hl). unfold N. rewrite Hl, length_app, Hseq, length_seq.
    split_and!; try done. intros m Hm Hin. apply H2 in Hin as (x & Hx & _).
    apply lookup_lt_Some in Hx. apply elem_of_seq in Hm. lia.
  - intros k r. destruct (Kill_spec k r s) as [(m & l1 & l2 & -> & Hl & Hk)|[-> Hk]].
    + split_and!; [|done|].
      * split; [|done]. intros _. destruct Hk as [->| ->]; rewrite Hl; [set_solver|by destruct l1].
      * intros _. exists m. unfold N. simpl. rewrite Hl, !length_app. simpl. split_and!.
        -- done.
        -- by rewrite Permutation_middle.
        -- lia.
        -- intros i Hi. by rewrite list_lookup_alter_ne.
        -- intros x. rewrite list_lookup_alter_eq. destruct (all s !! m); naive_solver.
    + split_and!; [|done|done]. split; [done|]. destruct k; done.
  - intros t n Hin. unfold no_lost_wakeup in Hn. rewrite Forall_forall in Hn. by apply (Hn (t, n)).
  - intros t v n Hin. unfold honest_returns in Hh. rewrite Forall_forall in Hh. by apply (Hh (t, v, n)).
Qed.

(** ** The system as its clients see it *)

#[export] Instance TestSystem : System := {|
  sys := Sys;
  launch_env := nat -> start_answer;
  sys_Name := "testsystem";
  sys_Start := fun answers n s =>
    let '(r, s') := Start answers n s in
    (match r with
     | Some ms => LReturns (Ok ((fun m => {| l_Addr := tm_Addr m; l_Maxprocs := tm_Maxprocs m;
                                             l_NoExec := tm_NoExec m |}) <$> omap (fun i => all s' !! i) ms))
     | None => LPanics
     end, s');
  sys_Maxprocs := Maxprocs;
  sys_KeepaliveConfig := KeepaliveConfig
|}.

Definition settings_sane (s : Sys) : Prop :=
  let '(period, timeout, rpcTimeout) := KeepaliveConfig s in
  (0 < period /\ 2 * period <= timeout /\ 0 < rpcTimeout <= timeout)%Z.

Lemma omap_lookup_seq {A} (l1 l2 : list A) :
  omap (fun i => (l1 ++ l2) !! i) (seq (length l1) (length l2)) = l2.
Proof.
  revert l1. induction l2 as [|x l2 IH]; intros l1; [done|]. simpl.
  rewrite list_lookup_middle by done. f_equal. specialize (IH (l1 ++ [x])).
  rewrite <- app_assoc, length_app, Nat.add_1_r in IH. exact IH.
Qed.

Lemma TestSystem_Start_spec answers n (s s' : Sys) ls :
  consistent s -> sys_Start (System := TestSystem) answers n s = (LReturns (Ok ls), s') ->
  ls = (fun i => {| l_Addr := (answers i).2; l_Maxprocs := Maxprocs s; l_NoExec := true |}) <$> seq 0 n.
Proof.
  intros Hc. simpl. destruct (Start answers n s) as [[ms|] s0] eqn:E; [|done]. intros [= <- ->].
  destruct (Start_spec _ _ _ _ _ E Hc) as (_ & _ & _ & Hms).
  destruct (Hms ms eq_refl) as (-> & Ha & _). rewrite Ha.
  pose proof (omap_lookup_seq (all s) ((fun i => new_machine (answers i).2 s) <$> seq 0 n)) as Ho.
  rewrite length_fmap, length_seq in Ho. rewrite Ho, <- list_fmap_compose. done.
Qed.

#[export] Instance TestSystem_laws : SystemLaws TestSystem.
Proof.
  refine {| sys_ok := fun s : sys => consistent s /\ settings_sane s;
            launch_ok := fun (env : launch_env) (n : nat) => True |}.
  - intros answers n s [Hc Hs]. cbn [sys_Start TestSystem]. destruct (Start answers n s) as [r s'] eqn:E.
    destruct (Start_spec _ _ _ _ _ E Hc) as (Hc' & _ & Hk & _). split; [done|].
    cbn [snd]. unfold settings_sane in *. by rewrite Hk.
  - intros answers n s ls s' [Hc _] _ H. rewrite (TestSystem_Start_spec _ _ _ _ _ Hc H).
    by rewrite length_fmap, length_seq.
  - intros answers n s ls s' [Hc _] H. rewrite (TestSystem_Start_spec _ _ _ _ _ Hc H).
    by apply Forall_fmap, Forall_true.
  - intros s [_ H]. exact H.
Defined.
End theorems.

(** ** Sample runs *)

Module Samples.

Definition sample_answers (i : nat) : option (@error SimpleErrors) * string :=
  (None, match i with 0 => "http://127.0.0.1:1" | _ => "http://127.0.0.1:2" end).

(** Three machines are started, the second is killed. *)
Definition sample_Sys : Sys := (Kill (Some 1) 0 (Start sample_answers 3 NewSystem).2).2.

Example sample_live : (N sample_Sys, Index 1 sample_Sys, tm_serving <$> all sample_Sys) =
  (2, Some 2, [true; false; true]).
Proof. reflexivity. Qed.

Definition sample_state : waiting :=
  {| w_sys := sample_Sys; asleep := []; woken := []; returned := [(7, 1, 3)] |}.

Lemma sample_state_reachable : rtc (step (EL := SimpleErrors)) initial sample_state.
Proof.
  eapply rtc_l; [by apply (step_Start sample_answers 3 [0; 1; 2] (Start sample_answers 3 NewSystem).2)|].
  eapply rtc_l; [apply (step_Wait 7 1)|]. eapply rtc_l; [apply (step_Kill (Some 1) 0)|]. apply rtc_refl.
Qed.

Lemma live_machines_witness :
  (forall i, i ∈ live sample_Sys <->
     exists m, all sample_Sys !! i = Some m /\ tm_cancelled m = false /\ tm_serving m = true) /\
  (forall t v n, (t, v, n) ∈ returned sample_state -> v <= n).
Proof.
  destruct (live_machines (EL := SimpleErrors) sample_state sample_state_reachable) as (_ & H1 & _ & _ & _ & H2).
  split; [exact H1|exact H2].
Defined.
End Samples.
