(* ===== verification/LocalSystem.v ===== *)
(** local.go: the system whose machines are processes of the driver's host -
    what a process is started with, where it listens and with which authority,
    and what the driver's calls connect to.

    The operating system's answers (free ports, the result of starting a process,
    temporary files) are arguments; a process that was started is recorded with
    its arguments and its environment. *)
From S2P Require Import Prelude Errors GoStrings Supervisor Cluster System Authority.
From stdpp Require Import pretty.
From Stdlib Require Import Ascii.
Local Open Scope string_scope.
Local Open Scope list_scope.

(** ** Environments of processes *)

Definition env_key (kv : string) : option string :=
  match SplitN2 kv "="%char with
  | (k, Some _) => Some k
  | _ => None
  end.

(** What package os/exec makes of Cmd.Env: of several values for one key, only
    the last is used. *)
Fixpoint dedupEnv (env : list string) : list string :=
  match env with
  | [] => []
  | kv :: r =>
      if bool_decide (is_Some (env_key kv)) && existsb (fun kv' => bool_decide (env_key kv' = env_key kv)) r
      then dedupEnv r else kv :: dedupEnv r
  end.

Lemma defines_env_key (key kv : string) : defines key kv <-> env_key kv = Some key.
Proof.
  unfold defines, env_key. destruct (SplitN2 kv "="%char) as [k [v|]]; naive_solver.
Qed.

(** The last value is the one the process sees. *)
Lemma Getenv_dedupEnv (l r : list string) (kv key : string) :
  defines key kv -> Forall (fun x => ~ defines key x) r ->
  Getenv (dedupEnv (l ++ kv :: r)) key = default "" (SplitN2 kv "="%char).2.
Proof.
  intros Hkv Hr. unfold Getenv.
  assert (exists i, list_find (defines key) (dedupEnv (l ++ kv :: r)) = Some (i, kv)) as [i ->]; [|done].
  induction l as [|x l [i IH]]; simpl.
  - apply defines_env_key in Hkv as Hk. rewrite Hk.
    replace (existsb _ r) with false.
    { rewrite andb_false_r. exists 0. simpl. by rewrite decide_True. }
    symmetry. apply not_true_iff_false. intros (y & Hy & Hyk)%existsb_exists.
    apply bool_decide_eq_true in Hyk. rewrite Forall_forall in Hr.
    apply (Hr y); [by apply list_elem_of_In|]. by apply defines_env_key.
  - destruct (bool_decide (is_Some (env_key x)) && _) eqn:Hdup; [by exists i|].
    exists (S i). simpl. rewrite decide_False.
    { by rewrite IH. }
    intros Hx. apply defines_env_key in Hx as Hxk. apply defines_env_key in Hkv as Hk.
    apply andb_false_iff in Hdup as [Hdup|Hdup].
    + apply bool_decide_eq_false in Hdup. apply Hdup. by rewrite Hxk.
    + apply not_true_iff_false in Hdup. apply Hdup, existsb_exists. exists kv.
      split; [apply in_or_app; right; by left|]. apply bool_decide_eq_true. congruence.
Qed.

(** ** State *)

Section local.
Context {EL : ErrorsLib} {X : X509}.

(** localSystem; machines and tee writers are named by numbers.  A nil
    authority is [None]. *)
Record localSystem := {
  authorityFilename : string;
  authority : option T;
  muxers : gmap nat nat;
  (** The next machine, and the processes that were started, in order. *)
  next_machine : nat;
  processes : list (list string * list string)
}.

Definition Local : localSystem :=
  {| authorityFilename := ""; authority := None; muxers := ∅; next_machine := 0; processes := [] |}.

Definition with_authority (f : string) (a : option T) (s : localSystem) : localSystem :=
  {| authorityFilename := f; authority := a; muxers := muxers s; next_machine := next_machine s;
     processes := processes s |}.

(** localSystem.Init, with the name ioutil.TempFile finds and the result of
    removing the file. *)
Definition Init (temp : result error string) (remove : option error) (a : answers)
    (fs : gmap string string) (s : localSystem) : option (option error) * localSystem * gmap string string :=
  match temp with
  | Err e => (Some (Some e), s, fs)
  | Ok name =>
      let s := with_authority name (authority s) s in
      let fs := <[name := ""]> fs in
      match remove with
      | Some e => (Some (Some e), s, fs)
      | None =>
          let fs := delete name fs in
          let '(r, fs) := NewAuthority a name fs in
          match r with
          | None => (None, s, fs)
          | Some r =>
              let s := {| authorityFilename := name; authority := match r with Ok c => Some c | Err _ => None end;
                          muxers := ∅; next_machine := next_machine s; processes := processes s |} in
              (Some (result_err r), s, fs)
          end
      end
  end.

(** ** Starting machines *)

(** getFreeTCPPort: the answers of resolving and of listening. *)
Definition getFreeTCPPort (resolve : option error) (listen : result error N) : result error N :=
  match resolve with
  | Some e => Err e
  | None => listen
  end.

(** The answers to one round of Start: the port, and the result of cmd.Start. *)
Definition start_answer : Type := (option error * result error N) * option error.

(** cmd.Env *)
Definition child_Env (Environ : list string) (port : N) (authorityFilename : string) : list string :=
  Environ ++ ["BIGMACHINE_MODE=machine"; "BIGMACHINE_SYSTEM=local";
              "BIGMACHINE_ADDR=localhost:" +:+ pretty port;
              "BIGMACHINE_AUTHORITY=" +:+ authorityFilename].

Definition local_machine (port : N) : Launched :=
  {| l_Addr := "https://localhost:" +:+ pretty port +:+ "/"; l_Maxprocs := 1; l_NoExec := false |}.

(** The loop of Start, in a process with these arguments and environment. *)
Fixpoint start_loop (Args Environ : list string) (answers : list start_answer) (s : localSystem) :
    result error (list Launched) * localSystem :=
  match answers with
  | [] => (Ok [], s)
  | (a, start) :: answers =>
      match getFreeTCPPort a.1 a.2 with
      | Err e => (Err e, s)
      | Ok port =>
          let m := next_machine s in
          let s := {| authorityFilename := authorityFilename s; authority := authority s;
                      muxers := <[m := m]> (muxers s); next_machine := S m; processes := processes s |} in
          match start with
          | Some e => (Err e, s)
          | None =>
              let s := {| authorityFilename := authorityFilename s; authority := authority s;
                          muxers := muxers s; next_machine := next_machine s;
                          processes := processes s ++
                            [(Args, dedupEnv (child_Env Environ port (authorityFilename s)))] |} in
              let '(r, s) := start_loop Args Environ answers s in
              (match r with Ok l => Ok (local_machine port :: l) | Err e => Err e end, s)
          end
      end
  end.

(** localSystem.Start *)
Definition Start (Args Environ : list string) (answers : nat -> start_answer) (count : nat)
    (s : localSystem) : result error (list Launched) * localSystem :=
  start_loop Args Environ (answers <$> seq 0 count) s.

(** ** Serving and calling *)

(** How ListenAndServe ends, or what it serves. *)
Inductive serving :=
| Serves (addr : string) (config : tls_Config)
| ServeFails (e : error)
| ServePanics
| ServeRunning.

(** localSystem.ListenAndServe in a process with environment [env], up to where
    it serves; HTTPSConfig of a nil authority panics. *)
Definition ListenAndServe (addr : string) (env : list string) (a : answers) (serial : result error Z)
    (rk : result error key) (configure : option error) (fs : gmap string string) (s : localSystem) :
    serving * localSystem * gmap string string :=
  let addr := if decide (addr = "") then Getenv env "BIGMACHINE_ADDR" else addr in
  if decide (addr = "") then (ServeFails (New "no address defined"), s, fs)
  else
    let filename := Getenv env "BIGMACHINE_AUTHORITY" in
    let '(r, s, fs) :=
      if decide (filename = "") then (Some None, s, fs)
      else let '(r, fs) := NewAuthority a filename fs in
           (match r with None => None | Some r => Some (result_err r) end,
            with_authority filename (match r with Some (Ok c) => Some c | _ => None end) s, fs) in
    match r with
    | None => (ServeRunning, s, fs)
    | Some (Some e) => (ServeFails e, s, fs)
    | Some None =>
        (match authority s with
         | None => ServePanics
         | Some c =>
             match HTTPSConfig serial (a_now a) rk c with
             | Err e => ServeFails e
             | Ok (_, config) =>
                 let config := require_client_cert config in
                 match configure with
                 | Some e => ServeFails (New ("error configuring server: " +:+ Error e))
                 | None => Serves addr config
                 end
             end
         end, s, fs)
    end.

(** localSystem.HTTPClient: the client's configuration, or log.Fatalf. *)
Inductive http_client := Client (config : tls_Config) | ClientFatal (msg : string) | ClientPanics.

Definition HTTPClient (serial : result error Z) (now : Z) (rk : result error key) (configure : option error)
    (s : localSystem) : http_client :=
  match authority s with
  | None => ClientPanics
  | Some c =>
      match HTTPSConfig serial now rk c with
      | Err e => ClientFatal ("error build TLS configuration: " +:+ Error e)
      | Ok (config, _) =>
          match configure with
          | Some e => ClientFatal ("error configuring transport: " +:+ Error e)
          | None => Client config
          end
      end
  end.

(** ** The other methods *)

Definition Maxprocs (s : localSystem) : Z := 1.

(** localSystem.KeepaliveConfig, in nanoseconds. *)
Definition KeepaliveConfig : Z * Z * Z := (60 * 1000000000, 120 * 1000000000, 10 * 1000000000)%Z.

(** localSystem.Tail: the writer whose output the reader follows. *)
Definition Tail (m : nat) (s : localSystem) : result error nat :=
  match muxers s !! m with
  | None => Err (New "machine not under management")
  | Some w => Ok w
  end.

(** localSystem.Event: the text logged; a pair is a name, if it is a string, and
    a printed value.  It panics on a name that is none, and if the last value is
    missing ([odd]). *)
Fixpoint event_fields (pairs : list (option string * string)) : option (list string) :=
  match pairs with
  | [] => Some []
  | (None, _) :: _ => None
  | (Some name, value) :: pairs =>
      match event_fields pairs with
      | None => None
      | Some l => Some ((name +:+ ":" +:+ value) :: l)
      end
  end.

Definition Event (typ : string) (pairs : list (option string * string)) (odd : bool) : option string :=
  match event_fields pairs with
  | None => None
  | Some l => if odd then None else Some (GoStrings.Join (("eventType:" +:+ typ) :: l) ", ")
  end.

(** ** What Start leaves *)

(** The processes of a run of Start, one per port. *)
Definition new_processes (Args Environ : list string) (f : string) (ports : list N) :
    list (list string * list string) :=
  (fun port => (Args, dedupEnv (child_Env Environ port f))) <$> ports.

(** What the answers granted: the ports of the processes that were started. *)
Definition granted (answers : nat -> start_answer) (k : nat) (port : N) : Prop :=
  getFreeTCPPort (answers k).1.1 (answers k).1.2 = Ok port /\ (answers k).2 = None.

Lemma local_start_loop_spec Args Environ answers (i n : nat) (s s' : localSystem) r :
  start_loop Args Environ (answers <$> seq i n) s = (r, s') ->
  exists ports, processes s' = processes s ++ new_processes Args Environ (authorityFilename s) ports /\
    authorityFilename s' = authorityFilename s /\ authority s' = authority s /\
    (forall k port, ports !! k = Some port -> granted answers (i + k) port) /\
    match r with
    | Ok ls => length ports = n /\ ls = local_machine <$> ports
    | Err e => length ports < n /\
        (getFreeTCPPort (answers (i + length ports)).1.1 (answers (i + length ports)).1.2 = Err e \/
         (answers (i + length ports)).2 = Some e)
    end.
Proof.
  revert i s s' r. induction n as [|n IH]; intros i s s' r H; simpl in H.
  { simplify_eq. exists []. rewrite app_nil_r. by split_and!. }
  destruct (answers i) as [a start] eqn:Ea. simpl in H.
  destruct (getFreeTCPPort a.1 a.2) as [port|e] eqn:Ep.
  2: { simplify_eq. exists []. rewrite app_nil_r, Nat.add_0_r, Ea. split_and!; try done; [simpl; lia|by left]. }
  destruct start as [e|].
  { simplify_eq. exists []. rewrite app_nil_r, Nat.add_0_r, Ea. split_and!; try done; [simpl; lia|by right]. }
  destruct (start_loop _ _ (list_fmap _ _ answers _) _) as [r0 s0] eqn:E. simplify_eq.
  destruct (IH _ _ _ _ E) as (ports & Hp & Hf & Ha & Hg & Hr). simpl in *.
  exists (port :: ports). split_and!; try done.
  - rewrite Hp, <- app_assoc. done.
  - intros [|k] q Hq; simplify_eq/=.
    + rewrite Nat.add_0_r. unfold granted. by rewrite Ea.
    + replace (i + S k) with (S i + k) by lia. by apply Hg.
  - destruct r0 as [ls|e].
    + destruct Hr as [<- ->]. done.
    + destruct Hr as [Hlt Hr]. simpl. replace (i + S (length ports)) with (S i + length ports) by lia.
      split; [lia|done].
Qed.

Lemma started_processes_aux Args Environ answers n (s s' : localSystem) ls :
  Start Args Environ answers n s = (Ok ls, s') ->
  exists ports, processes s' = processes s ++ new_processes Args Environ (authorityFilename s) ports /\
    authorityFilename s' = authorityFilename s /\ authority s' = authority s /\ ls = local_machine <$> ports.
Proof.
  intros H. apply (local_start_loop_spec Args Environ answers 0 n) in H as (ports & ? & ? & ? & _ & _ & ?).
  by exists ports.
Qed.

(** What Start of the local system leaves behind.  If it returns machines,
    they are as many as asked, one per process it started, each with the address
    of the port that process is given.  If it fails, the processes started
    before the failing round run on, although no machine is returned for them.
    The authority is never touched. *)
Lemma started_processes Args Environ answers n (s s' : localSystem) r :
  Start Args Environ answers n s = (r, s') ->
  exists ports, processes s' = processes s ++ new_processes Args Environ (authorityFilename s) ports /\
    authorityFilename s' = authorityFilename s /\ authority s' = authority s /\
    (forall k port, ports !! k = Some port -> granted answers k port) /\
    match r with
    | Ok ls => length ports = n /\ ls = local_machine <$> ports
    | Err e => length ports < n /\
        (getFreeTCPPort (answers (length ports)).1.1 (answers (length ports)).1.2 = Err e \/
         (answers (length ports)).2 = Some e)
    end.
Proof. apply (local_start_loop_spec Args Environ answers 0 n). Qed.

(** ** What a process sees *)

Lemma defines_assignment (key v : string) :
  has_byte "="%char key = false -> SplitN2 (key +:+ String "="%char v) "="%char = (key, Some v).
Proof. apply SplitN2_app. Qed.

Lemma defines_other (key key' v : string) :
  has_byte "="%char key' = false -> key <> key' -> ~ defines key (key' +:+ String "="%char v).
Proof.
  intros Hb Hne [w Hw]. rewrite defines_assignment in Hw by done. by injection Hw.
Qed.

(** The four variables, whatever the parent's environment is. *)
Lemma child_Getenv (Environ : list string) (port : N) (f : string) :
  let env := dedupEnv (child_Env Environ port f) in
  Getenv env "BIGMACHINE_MODE" = "machine" /\ Getenv env "BIGMACHINE_SYSTEM" = "local" /\
  Getenv env "BIGMACHINE_ADDR" = "localhost:" +:+ pretty port /\ Getenv env "BIGMACHINE_AUTHORITY" = f.
Proof.
  intros env. unfold env, child_Env.
  change ["BIGMACHINE_MODE=machine"; "BIGMACHINE_SYSTEM=local"; "BIGMACHINE_ADDR=localhost:" +:+ pretty port;
          "BIGMACHINE_AUTHORITY=" +:+ f] with
    ["BIGMACHINE_MODE" +:+ String "="%char "machine"; "BIGMACHINE_SYSTEM" +:+ String "="%char "local";
     "BIGMACHINE_ADDR" +:+ String "="%char ("localhost:" +:+ pretty port);
     "BIGMACHINE_AUTHORITY" +:+ String "="%char f].
  assert (Hlast : forall l key v r, has_byte "="%char key = false ->
    Forall (fun kv => ~ defines key kv) r ->
    Getenv (dedupEnv (Environ ++ l ++ (key +:+ String "="%char v) :: r)) key = v).
  { intros l key v r Hb Hr. rewrite app_assoc, Getenv_dedupEnv; [by rewrite defines_assignment| |done].
    exists v. by apply defines_assignment. }
  split_and!;
    [apply (Hlast []) | apply (Hlast [_]) | apply (Hlast [_; _]) | apply (Hlast [_; _; _])];
    try done; repeat constructor; apply defines_other; (done || discriminate).
Qed.

(** ** From the driver to the machine *)

Context {XL : X509Laws X}.

(** An Init that succeeds has made a new authority, which is in the file. *)
Lemma Init_Ok temp remove (a : answers) (fs fs' : gmap string string) (s s' : localSystem) :
  Init temp remove a fs s = (Some None, s', fs') ->
  exists name c p, temp = Ok name /\ authorityFilename s' = name /\ authority s' = Some c /\
    generate a = Ok p /\ load p = Some (Ok c) /\ (name <> "" -> fs' !! name = Some p) /\
    (forall f, f <> name -> fs' !! f = fs !! f).
Proof.
  unfold Init. destruct temp as [name|e]; [|done]. destruct remove as [e|]; [done|].
  destruct (NewAuthority a name _) as [[[c|e]|] fs0] eqn:E; [|done..]. intros [= <- <-].
  apply NewAuthority_Ok in E as (p & Hl & Hf & Ho & Hg). exists name, c, p. split_and!; try done.
  - destruct Hg as [Hg|Hg]; [done|]. by rewrite lookup_delete_eq in Hg.
  - intros f Hne. rewrite Ho by done. by rewrite lookup_delete_ne, lookup_insert_ne.
Qed.

(** The machine's own Init, with another temporary file, and then its server. *)
Lemma child_serves (a2 a3 : answers) (env : list string) (name2 f p : string) (port : N) (c : T)
    serial rk (fs2 fs3 : gmap string string) (s3 : localSystem) :
  Getenv env "BIGMACHINE_ADDR" = "localhost:" +:+ pretty port -> Getenv env "BIGMACHINE_AUTHORITY" = f ->
  f <> "" -> load p = Some (Ok c) -> fs2 !! f = Some p -> name2 <> f ->
  Init (Ok name2) None a2 fs2 Local = (Some None, s3, fs3) -> a_ReadFile a3 = None ->
  (ListenAndServe "" env a3 serial rk None fs3 s3).1.1 =
    match HTTPSConfig serial (a_now a3) rk c with
    | Err e => ServeFails e
    | Ok (_, config) => Serves ("localhost:" +:+ pretty port) (require_client_cert config)
    end.
Proof.
  intros Haddr Hauth Hf Hl Hp Hne Hi Ha.
  apply Init_Ok in Hi as (n & c2 & p2 & [= <-] & _ & _ & _ & _ & _ & Ho).
  assert (Hp3 : fs3 !! f = Some p) by (rewrite Ho; [done|congruence]).
  unfold ListenAndServe. cbv zeta. rewrite (decide_True (P := "" = "")) by done. rewrite Haddr, Hauth.
  rewrite (decide_False (P := "localhost:" +:+ pretty port = "")) by discriminate.
  rewrite (decide_False (P := f = "")) by done.
  rewrite (NewAuthority_reads _ _ p) by done.
  rewrite Hl. cbn [result_err with_authority authority].
  by destruct (HTTPSConfig serial (a_now a3) rk c) as [[? ?]|].
Qed.

(** C21. A process that the local system starts becomes the machine that the
    driver talks to.  Let the driver's Init succeed, with the authority in file
    f, and let Start return machines.  Then each has a process, and in it,
    whatever the driver's own environment says, Init of package bigmachine
    starts system "local", run goes on to serve, and - as long as the file is
    there - the server listens at the address that the machine's URL names,
    with a configuration issued by the driver's authority.  A handshake of the
    driver's HTTP client with it succeeds exactly in the time of the client's
    certificate and of the authority. *)
Theorem child_serves_driver (a a2 a3 : answers) (f name2 : string) (fs fs1 fs2 fs3 : gmap string string)
    (Args Environ : list string) answers n (d d' s0 s3 : localSystem) (ls : list Launched) (k : nat) m proc :
  Init (Ok f) None a fs s0 = (Some None, d, fs1) -> f <> "" ->
  Start Args Environ answers n d = (Ok ls, d') -> ls !! k = Some m ->
  processes d' !! (length (processes d) + k) = Some proc ->
  fs2 !! f = fs1 !! f -> name2 <> f -> Init (Ok name2) None a2 fs2 Local = (Some None, s3, fs3) ->
  a_ReadFile a3 = None ->
  exists addr c, l_Addr m = "https://" +:+ addr +:+ "/" /\ proc.1 = Args /\ authority d' = Some c /\
    (forall Sy (systems : gmap string Sy) sy, systems !! "local" = Some sy ->
       Cluster.Init (Getenv proc.2 "BIGMACHINE_SYSTEM") systems = StartsSystem _ sy) /\
    (forall main, RListen ∈ (Cluster.run (Getenv proc.2 "BIGMACHINE_MODE") None None None main).1) /\
    forall serial serial' rk rk' t1 now client,
      HTTPClient serial t1 rk None d' = Client client ->
      (exists e, (ListenAndServe "" proc.2 a3 serial' rk' None fs3 s3).1.1 = ServeFails e /\
         HTTPSConfig serial' (a_now a3) rk' c = Err e) \/
      exists config, (ListenAndServe "" proc.2 a3 serial' rk' None fs3 s3).1.1 = Serves addr config /\
        (handshake now client config = true <->
           (whole_seconds (t1 - DriftMargin) <= now <= whole_seconds (t1 + certDuration) /\
            whole_seconds (a_now a - DriftMargin) <= now <= caNotAfter)%Z).
Proof.
  intros Hi Hf Hs Hm Hproc Hfs2 Hne Hi2 Ha3.
  apply Init_Ok in Hi as (name & c & p & [= <-] & Hname & Hauth & Hg & Hl & Hfile & _).
  apply started_processes_aux in Hs as (ports & Hps & Hfn & Hau & Hls).
  subst ls. apply list_lookup_fmap_Some in Hm as (port & -> & Hport).
  rewrite Hps, lookup_app_r, Nat.add_comm, Nat.add_sub in Hproc by lia.
  unfold new_processes in Hproc. rewrite list_lookup_fmap, Hport in Hproc. injection Hproc as <-.
  rewrite Hname in *. destruct (child_Getenv Environ port f) as (H1 & H2 & H3 & H4).
  exists ("localhost:" +:+ pretty port), c. cbn [fst snd]. split_and!; try done.
  - by rewrite Hau.
  - intros Sy systems sy Hsy. unfold Cluster.Init. rewrite H2. simpl. by rewrite Hsy.
  - intros main. rewrite H1. vm_compute. set_solver.
  - intros serial serial' rk rk' t1 now client Hc.
    rewrite (child_serves a2 a3 _ name2 f p port c serial' rk' fs2 fs3 s3); try done; [|by rewrite Hfs2, Hfile].
    unfold HTTPClient in Hc. rewrite Hau, Hauth in Hc.
    destruct (HTTPSConfig serial t1 rk c) as [[cl ?]|] eqn:Ecl; [|done]. injection Hc as ->.
    destruct (HTTPSConfig serial' (a_now a3) rk' c) as [[? config]|e] eqn:Ecs; [right|left; by exists e].
    exists (require_client_cert config). split; [done|]. by eapply handshake_generated.
Qed.
End local.

(** ** The system as its clients see it *)

Section instance.
Context {EL : ErrorsLib} {X : X509}.

#[export] Instance LocalSystem : System := {|
  sys := localSystem;
  launch_env := list string * list string * (nat -> start_answer);
  sys_Name := "local";
  sys_Start := fun env n s => let '(r, s) := Start env.1.1 env.1.2 env.2 n s in (LReturns r, s);
  sys_Maxprocs := Maxprocs;
  sys_KeepaliveConfig := fun _ => KeepaliveConfig
|}.

#[export] Instance LocalSystem_laws : SystemLaws LocalSystem.
Proof.
  refine {| sys_ok := fun s : sys => True; launch_ok := fun (env : launch_env) (n : nat) => True |}.
  - done.
  - intros [[Args Environ] answers] n s ls s' _ _ H. simpl in H.
    destruct (Start Args Environ answers n s) as [r s0] eqn:E. simplify_eq.
    apply (local_start_loop_spec Args Environ answers 0 n) in E as (ports & _ & _ & _ & _ & <- & ->).
    by rewrite length_fmap.
  - intros [[Args Environ] answers] n s ls s' _ H. simpl in H.
    destruct (Start Args Environ answers n s) as [r s0] eqn:E. simplify_eq.
    apply started_processes_aux in E as (ports & _ & _ & _ & ->). by apply Forall_fmap, Forall_true.
  - intros s _. simpl. lia.
Defined.
End instance.

(** ** Sample runs *)

Module Samples.
Import Authority.Samples.

(** A driver with authority file "/tmp/ca", started by a machine of another
    system, whose environment already has the variables. *)
Definition sample_Environ : list string :=
  ["BIGMACHINE_MODE=driver"; "HOME=/root"; "BIGMACHINE_ADDR=:443"].

Definition sample_starts (k : nat) : start_answer :=
  ((None, Ok (8000 + N.of_nat k)%N), if decide (k < 2) then None else Some (New (ErrorsLib := SimpleErrors) "no memory")).

Definition fd : gmap string string := ∅.
Definition driver_Init := Init (EL := SimpleErrors) (Ok "/tmp/ca") None sample_answers fd Local.
Definition driver : localSystem := driver_Init.1.2.
Definition driver_files : gmap string string := driver_Init.2.
Definition launched := Start ["prog"] sample_Environ sample_starts 2 driver.

Definition started_ok : list Launched := match launched.1 with Ok ls => ls | Err _ => [] end.

Example sample_addresses :
  l_Addr <$> started_ok = ["https://localhost:8000/"; "https://localhost:8001/"].
Proof. vm_compute. reflexivity. Qed.

Example sample_env :
  snd <$> processes launched.2 =
    (fun a => ["HOME=/root"; "BIGMACHINE_MODE=machine"; "BIGMACHINE_SYSTEM=local"; "BIGMACHINE_ADDR=" +:+ a;
               "BIGMACHINE_AUTHORITY=/tmp/ca"]) <$> ["localhost:8000"; "localhost:8001"].
Proof. vm_compute. reflexivity. Qed.

(** A third process cannot be started: two keep running, none is returned. *)
Lemma started_processes_sample :
  exists ports, processes (Start ["prog"] sample_Environ sample_starts 3 driver).2 =
    processes driver ++ new_processes ["prog"] sample_Environ (authorityFilename driver) ports /\
    length ports < 3.
Proof.
  destruct (started_processes ["prog"] sample_Environ sample_starts 3 driver
    (Start ["prog"] sample_Environ sample_starts 3 driver).2 (Err (New "no memory"))) as (ports & H & _ & _ & _ & Hl & _).
  { vm_cast_no_check (eq_refl (Err (A := list Launched) (New (ErrorsLib := SimpleErrors) "no memory"),
      (Start ["prog"] sample_Environ sample_starts 3 driver).2)). }
  exists ports. split; [exact H|exact Hl].
Defined.

Definition child_Init := Init (EL := SimpleErrors) (Ok "/tmp/ca2") None sample_answers driver_files Local.
Definition sample_process : list string * list string :=
  default ([], []) (processes launched.2 !! (length (processes driver) + 1)).

Lemma child_serves_driver_witness :
  exists addr c, "https://localhost:8001/" = "https://" +:+ addr +:+ "/" /\ sample_process.1 = ["prog"] /\
    authority launched.2 = Some c.
Proof.
  destruct (child_serves_driver (EL := SimpleErrors) (X := SimpleX509) (XL := SimpleX509_laws)
    sample_answers sample_answers sample_answers "/tmp/ca" "/tmp/ca2" fd driver_files driver_files child_Init.2
    ["prog"] sample_Environ sample_starts 2 driver launched.2 Local child_Init.1.2 started_ok 1
    (local_machine 8001) sample_process) as (addr & c & H1 & H2 & H3 & _).
  - vm_cast_no_check (eq_refl driver_Init).
  - discriminate.
  - vm_cast_no_check (eq_refl launched).
  - vm_cast_no_check (eq_refl (Some (local_machine 8001))).
  - vm_cast_no_check (eq_refl (Some sample_process)).
  - reflexivity.
  - discriminate.
  - vm_cast_no_check (eq_refl child_Init).
  - reflexivity.
  - exists addr, c. split; [|split; [exact H2|exact H3]].
    rewrite <- H1. vm_cast_no_check (eq_refl "https://localhost:8001/").
Defined.

(** B.Start over the local system. *)
Definition sample_params : list Param := [Services {["Counter" := 0]}; Environ ["A=1"]].
Definition sample_B_Start :=
  B_Start (S := LocalSystem) (["prog"], sample_Environ, sample_starts) 2 sample_params new_B driver.
Definition sample_B : B := match sample_B_Start.1 with Some (_, b) => b | None => new_B end.

Lemma started_machines_witness :
  exists ls, sys_Start (System := LocalSystem) (["prog"], sample_Environ, sample_starts) 2 driver =
      (LReturns (Ok ls), sample_B_Start.2) /\
    heap sample_B = imap (fun k l => owned sample_params k l) ls.
Proof.
  destruct (started_machines (S := LocalSystem) (SL := LocalSystem_laws) (["prog"], sample_Environ, sample_starts) 2
    sample_params new_B sample_B driver sample_B_Start.2 (Ok [0; 1]) I I) as (_ & ls & H1 & _ & H2 & _).
  - vm_cast_no_check (eq_refl sample_B_Start).
  - exists ls. split; [exact H1|exact H2].
Defined.
End Samples.
