(* ===== verification/Filebuf.v ===== *)
(** internal/filebuf/filebuf.go: a buffer in a temporary file, with the file
    and the open descriptor it holds while it lives.  os.Remove, whose error the code
    drops, is taken to succeed. *)
From S2P Require Import Prelude Errors GoStrings Wire Supervisor.
Local Open Scope string_scope.
Local Open Scope list_scope.

(** ** Definitions *)

(** The temporary files that exist and the ones this process has open. *)
Record tempfs := { tmp : gset string; fds : gset string }.

(** A FileBuf: the name of its file ([None] once closed), and what the file
    holds, which is read from the start. *)
Record FileBuf := { fb_file : option string; fb_content : string }.

Section filebuf.
Context {EL : ErrorsLib}.

(** What the file system answers during New. *)
Record new_answers := {
  na_TempFile : result error string;
  na_write : option (nat * error);
  na_Seek : option error
}.

(** New, on a reader that is an io.Closer: the deferred Close of the reader runs
    on every path.  On an error after the file was made the file is removed; its
    descriptor is not closed. *)
Definition New (a : new_answers) (r : stream error) (s : tempfs) : result error FileBuf * tempfs :=
  match na_TempFile a with
  | Err e => (Err (E [AMsg "error opening temp file for filebuf"; AErr e]), s)
  | Ok f =>
      let opened := {| tmp := {[ f ]} ∪ tmp s; fds := {[ f ]} ∪ fds s |} in
      let removed := {| tmp := tmp opened ∖ {[ f ]}; fds := fds opened |} in
      let '(data, err) := copy_to_file (na_write a) r in
      match err with
      | Some e => (Err (E [AMsg "error reading into filebuf"; AErr e]), removed)
      | None =>
          match na_Seek a with
          | Some e => (Err (E [AMsg "error seeking in filebuf"; AErr e]), removed)
          | None => (Ok {| fb_file := Some f; fb_content := data |}, opened)
          end
      end
  end.

(** FileBuf.Close, with the result of closing the file. *)
Definition Close (close_err : option error) (b : FileBuf) (s : tempfs) :
    option error * FileBuf * tempfs :=
  match fb_file b with
  | None => (None, b, s)
  | Some f => (close_err, {| fb_file := None; fb_content := fb_content b |},
               {| tmp := tmp s ∖ {[ f ]}; fds := fds s ∖ {[ f ]} |})
  end.

(** FileBuf.Read, into [n] bytes: what it reads, and the position of the
    descriptor afterwards, which New leaves at the start.  The file of a closed
    buffer is nil. *)
Definition Read (n : nat) (b : FileBuf) (off : nat) : (string * rerr error) * nat :=
  match fb_file b with
  | None => (("", EErr (Errors.New "invalid argument")), off)
  | Some _ =>
      if decide (n = 0) then (("", ENil), off)
      else
        let p := String.substring off n (fb_content b) in
        if decide (p = "") then (("", EOF), off) else ((p, ENil), off + String.length p)
  end.

(** A reader's loop, with the sizes of its buffers: the data and how it ended, if
    it did. *)
Fixpoint read_with (sizes : list nat) (b : FileBuf) (off : nat) : string * option (rerr error) :=
  match sizes with
  | [] => ("", None)
  | n :: sizes =>
      let '((p, err), off) := Read n b off in
      match err with
      | ENil => let '(rest, e) := read_with sizes b off in (p +:+ rest, e)
      | _ => (p, Some err)
      end
  end.

(** ** Lemmas *)

(** A new buffer holds the whole stream. *)
Lemma New_Ok a r s b s' :
  New a r s = (Ok b, s') ->
  exists f, na_TempFile a = Ok f /\ b = {| fb_file := Some f; fb_content := st_bytes r |} /\
    st_end r = None /\ s' = {| tmp := {[ f ]} ∪ tmp s; fds := {[ f ]} ∪ fds s |}.
Proof.
  unfold New. destruct (na_TempFile a) as [f|e]; [|done].
  destruct (copy_to_file (na_write a) r) as [data err] eqn:Hc.
  destruct err as [e|]; [done|]. destruct (na_Seek a); [done|]. intros [= <- <-].
  exists f. unfold copy_to_file in Hc.
  destruct (na_write a) as [[n e]|]; [case_decide|]; by simplify_eq.
Qed.

(** A failed New leaves no file, but a descriptor if the file was made. *)
Lemma New_Err a r s e s' :
  (forall f, na_TempFile a = Ok f -> f ∉ tmp s) -> New a r s = (Err e, s') ->
  tmp s' = tmp s /\
  fds s' = match na_TempFile a with Ok f => {[ f ]} ∪ fds s | Err _ => fds s end.
Proof.
  unfold New. intros Hf. destruct (na_TempFile a) as [f|e0]; [|by intros [= _ <-]].
  specialize (Hf f eq_refl).
  assert (({[f]} ∪ tmp s) ∖ {[f]} = tmp s) as Heq by set_solver.
  destruct (copy_to_file _ _) as [data [e1|]]; [|destruct (na_Seek a)]; intros [= _ <-]; by simpl.
Qed.

(** Closing twice is closing once. *)
Lemma Close_twice c1 c2 b s :
  let '(_, b', s') := Close c1 b s in Close c2 b' s' = (None, b', s').
Proof. unfold Close. destruct (fb_file b) eqn:Hb; simpl; [done|]. by rewrite Hb. Qed.

Lemma substring_skip pre rest n : String.substring (String.length pre) n (pre +:+ rest) = String.substring 0 n rest.
Proof. induction pre as [|a pre IH]; simpl; [done|]. by destruct rest; apply IH. Qed.

Lemma substring_take n rest :
  exists rest', rest = String.substring 0 n rest +:+ rest' /\
    (0 < n -> rest <> "" -> String.length rest' < String.length rest).
Proof.
  revert n. induction rest as [|a rest IH]; intros n; [exists ""; by destruct n|].
  destruct n as [|n]; [exists (String a rest); split; [done|lia]|].
  destruct (IH n) as (rest' & Heq & Hl). exists rest'. split.
  - change (String a rest = String a (String.substring 0 n rest +:+ rest')). by f_equal.
  - intros _ _. apply (f_equal String.length) in Heq. rewrite sapp_length in Heq. simpl. lia.
Qed.

(** Read in pieces, whatever the sizes, a buffer gives the stream it was made of,
    and then io.EOF. *)
Lemma read_pieces f pre rest sizes :
  Forall (fun n => 0 < n) sizes -> String.length rest < length sizes ->
  read_with sizes {| fb_file := Some f; fb_content := pre +:+ rest |} (String.length pre) = (rest, Some EOF).
Proof.
  intros Hs. revert pre rest. induction Hs as [|n sizes Hn Hs IH]; intros pre rest Hl; [simpl in Hl; lia|].
  cbn [read_with]. unfold Read. cbn [fb_file fb_content]. rewrite (decide_False (P := n = 0)) by lia.
  rewrite substring_skip. destruct (substring_take n rest) as (rest' & Heq & Hlt).
  destruct (decide (String.substring 0 n rest = "")) as [Hp|Hp].
  - assert (rest = ""); [|by subst]. destruct n as [|n]; [lia|]. by destruct rest.
  - assert (rest <> "") by (intros ->; by destruct n).
    set (p := String.substring 0 n rest) in *. specialize (Hlt Hn ltac:(done)).
    rewrite Heq, <- sapp_assoc, <- sapp_length, IH; [done|]. simpl in Hl. lia.
Qed.

Lemma New_read a r s b s' sizes :
  New a r s = (Ok b, s') -> Forall (fun n => 0 < n) sizes ->
  String.length (st_bytes r) < length sizes ->
  read_with sizes b 0 = (st_bytes r, Some EOF).
Proof. intros H Hs Hl. apply New_Ok in H as (f & _ & -> & _). by apply (read_pieces f "" (st_bytes r)). Qed.
End filebuf.
