(* ===== verification/Profile.v ===== *)
(** profile.go: collecting a profile from one machine or from all machines of a
    B and writing it, as text one after the other or merged by package pprof,
    which is a parameter. *)
From S2P Require Import Prelude Errors GoStrings Wire MachineState Supervisor Filebuf.
From stdpp Require Import sorting.
From Stdlib Require Import Ascii.
Local Open Scope string_scope.
Local Open Scope list_scope.

#[local] Arguments String.append !_ _ / : simpl nomatch.

(** ** Definitions *)

(** The fields of profiler, without the B. *)
Record profiler := {
  which : string;
  addr : string;
  sec : Z;
  debug : Z;
  gc : bool
}.

(** profiler.ContentType *)
Definition ContentType (p : profiler) : string :=
  if decide (0 < debug p /\ which p <> "profile")%Z then "text/plain; charset=utf-8"
  else "application/octet-stream".

(** getProfile: the call it makes. *)
Inductive profile_call :=
| CallCPUProfile (dur : Z)
| CallProfile (name : string) (debug : Z) (gc : bool).

Definition getProfile (p : profiler) : profile_call :=
  if decide (which p = "profile") then CallCPUProfile (wrap64 (sec p * second))
  else CallProfile (which p) (debug p) (gc p).

Section profiles.
Context {EL : ErrorsLib}.

(** errNoProfiles is a type of its own, which the HTTP handler recognises. *)
Inductive perr := errNoProfiles (msg : string) | OtherErr (e : error).

(** profileHandler: the status of the reply to a failed Marshal. *)
Definition status_of (e : perr) : Z := match e with errNoProfiles _ => 404 | OtherErr _ => 500 end.

Definition failed (what : string) (e : error) : perr := OtherErr (Errors.New (what +:+ ": " +:+ Error e)).

(** A machine as the profiler sees it: its address, its state, the reply to the
    call of getProfile, and what the file system answers while it is buffered. *)
Record pmachine := {
  pm_Addr : string;
  pm_State : State;
  pm_fetch : profile_call -> result error (stream error);
  pm_buf : new_answers
}.

(** The variable profiles: a machine's entry is set to nil once it is closed. *)
Abbreviation profiles := (gmap nat (option FileBuf)).

(** The goroutine of one machine.  Each has its own entry of the map, so their
    order does not matter. *)
Definition collect_one (c : profile_call) (i : nat) (m : pmachine) (ps : profiles) (s : tempfs) :
    profiles * tempfs :=
  if decide (pm_State m <> Running) then (ps, s)
  else
    match pm_fetch m c with
    | Err _ => (ps, s)
    | Ok rc =>
        match Filebuf.New (pm_buf m) rc s with
        | (Err _, s) => (ps, s)
        | (Ok b, s) => (<[i := Some b]> ps, s)
        end
    end.

Fixpoint collect (c : profile_call) (i : nat) (ms : list pmachine) (ps : profiles) (s : tempfs) :
    profiles * tempfs :=
  match ms with
  | [] => (ps, s)
  | m :: ms => let '(ps, s) := collect_one c i m ps s in collect c (S i) ms ps s
  end.

(** Close a buffer and set its entry to nil; the error of Close is dropped. *)
Definition done_with (i : nat) (b : FileBuf) (ps : profiles) (s : tempfs) : profiles * tempfs :=
  (<[i := None]> ps, (Close None b s).2).

(** The text branch, over the machines in order; [room] says when writing the
    profile of a machine fails.  (The errors of the two Fprint calls are
    dropped by the code; here they do not fail.) *)
Fixpoint write_text (room : nat -> option (nat * error)) (ms : list (nat * string))
    (ps : profiles) (s : tempfs) (out : string) : option perr * profiles * tempfs * string :=
  match ms with
  | [] => (None, ps, s, out)
  | (i, a) :: ms =>
      match ps !! i with
      | Some (Some b) =>
          let '(data, err) := copy_to_file (room i) (buffer (fb_content b)) in
          let '(ps, s) := done_with i b ps s in
          let out := out +:+ a +:+ ":" +:+ String NEWLINE data in
          match err with
          | Some e => (Some (failed ("failed to append profile from " +:+ a) e), ps, s, out)
          | None => write_text room ms ps s (out +:+ String NEWLINE "")
          end
      | _ => write_text room ms ps s out
      end
  end.

(** Package pprof: profile.Parse, profile.Merge and Profile.Write. *)
Context {prof : Type}.
Variable Parse : string -> result error prof.
Variable Merge : list prof -> result error prof.
Variable Write : prof -> result error string.

(** The loop that parses, over the keys of the map in the order Go takes them. *)
Fixpoint parse_all (name : nat -> string) (order : list nat) (ps : profiles) (s : tempfs)
    (parsed : list prof) : result perr (list prof) * profiles * tempfs :=
  match order with
  | [] => (Ok parsed, ps, s)
  | i :: order =>
      match ps !! i with
      | Some (Some b) =>
          let '(ps, s) := done_with i b ps s in
          match Parse (fb_content b) with
          | Err e => (Err (failed ("failed to parse profile from " +:+ name i) e), ps, s)
          | Ok x => parse_all name order ps s (parsed ++ [x])
          end
      | _ => parse_all name order ps s parsed
      end
  end.

(** The deferred loop: what is still open is closed. *)
Definition cleanup (ps : profiles) (s : tempfs) : tempfs :=
  foldl (fun s x => match x.2 with Some b => (Close None b s).2 | None => s end) s (map_to_list ps).

(** sort.Slice by address. *)
Definition by_addr (x y : nat * string) : Prop := String.le x.2 y.2.

#[global] Instance by_addr_dec x y : Decision (by_addr x y).
Proof. unfold by_addr. apply _. Defined.

Definition sorted_machines (ms : list pmachine) : list (nat * string) :=
  merge_sort by_addr (imap (fun i m => (i, pm_Addr m)) ms).

(** Marshal for all machines: the error, the output, and the files left.  (What
    Profile.Write had written before it failed is not told.) *)
Definition Marshal_all (p : profiler) (ms : list pmachine) (room : nat -> option (nat * error))
    (order : list nat -> list nat) (s : tempfs) :
    option perr * string * tempfs :=
  let '(ps, s) := collect (getProfile p) 0 ms ∅ s in
  if decide (ps = ∅) then (Some (errNoProfiles "no profiles are available at this time"), "", cleanup ps s)
  else if decide (0 < debug p /\ which p <> "profiles")%Z then
    let '(err, ps, s, out) := write_text room (sorted_machines ms) ps s "" in
    (err, out, cleanup ps s)
  else
    let name i := default "" (pm_Addr <$> ms !! i) in
    match parse_all name (order (map_to_list ps).*1) ps s [] with
    | (Err e, ps, s) => (Some e, "", cleanup ps s)
    | (Ok parsed, ps, s) =>
        match Merge parsed with
        | Err e => (Some (failed "profile merge error" e), "", cleanup ps s)
        | Ok x =>
            match Write x with
            | Err e => (Some (failed "failed to write profile" e), "", cleanup ps s)
            | Ok out => (None, out, cleanup ps s)
            end
        end
    end.

(** Marshal for the machine at [addr]: its reply and the result of closing it. *)
Definition Marshal_one (p : profiler) (fetch : profile_call -> result error (stream error * option error))
    (room : option (nat * error)) : option perr * string :=
  match fetch (getProfile p) with
  | Err e => (Some (failed ("failed to collect " +:+ which p +:+ " profile") e), "")
  | Ok (rc, cerr) =>
      let '(data, err) := copy_to_file room rc in
      match err with
      | Some e => (Some (failed ("failed to write " +:+ which p +:+ " profile") e), data)
      | None => (OtherErr <$> cerr, data)
      end
  end.
End profiles.

(** ** The buffers *)

Section buffers.
Context {EL : ErrorsLib}.
Implicit Types ps : gmap nat (option FileBuf).

(** The file [f] belongs to a buffer that is still to be closed. *)
Definition owned ps (f : string) : Prop :=
  exists i b, ps !! i = Some (Some b) /\ fb_file b = Some f.

(** The files in use are those of the open buffers, apart from what there was
    before and the descriptors [L] left by failed calls of New. *)
Record inv (s0 : tempfs) (L : gset string) ps (s : tempfs) : Prop := {
  inv_tmp : forall f, f ∈ tmp s <-> f ∈ tmp s0 \/ owned ps f;
  inv_fds : forall f, f ∈ fds s <-> f ∈ fds s0 \/ f ∈ L \/ owned ps f;
  inv_new : forall f, owned ps f -> (f ∉ tmp s0) /\ (f ∉ fds s0) /\ (f ∉ L);
  inv_inj : forall i j b b' f, ps !! i = Some (Some b) -> ps !! j = Some (Some b') ->
    fb_file b = Some f -> fb_file b' = Some f -> i = j;
  inv_open : forall i b, ps !! i = Some (Some b) -> is_Some (fb_file b)
}.

Lemma owned_None i ps f b g :
  ps !! i = Some (Some b) -> fb_file b = Some g ->
  (forall j b', ps !! j = Some (Some b') -> fb_file b' = Some g -> j = i) ->
  owned (<[i := None]> ps) f <-> owned ps f /\ f <> g.
Proof.
  intros Hi Hg Hinj. split.
  - intros (j & b' & Hj & Hf). apply lookup_insert_Some in Hj as [[_ ?]|[Hne Hj]]; [done|].
    split; [by exists j, b'|]. intros ->. destruct Hne. symmetry. by eapply Hinj.
  - intros [(j & b' & Hj & Hf) Hne]. exists j, b'. split; [|done].
    rewrite lookup_insert_ne; [done|]. intros ->. congruence.
Qed.

Lemma inv_done_with s0 L i b ps s :
  inv s0 L ps s -> ps !! i = Some (Some b) ->
  let '(ps', s') := done_with i b ps s in inv s0 L ps' s'.
Proof.
  intros [H1 H2 H3 H4 H5] Hi. destruct (H5 i b Hi) as [g Hg].
  assert (Hown : forall f, owned (<[i := None]> ps) f <-> owned ps f /\ f <> g).
  { intros f. apply (owned_None i ps f b g Hi Hg). intros j b1 Hj Hf. by apply (H4 j i b1 b g). }
  assert (Hog : owned ps g) by (by exists i, b). destruct (H3 g Hog) as (G1 & G2 & G3).
  unfold done_with, Close. rewrite Hg. split; cbn [tmp fds snd fst].
  - intros f. rewrite Hown, elem_of_difference, elem_of_singleton, H1.
    destruct (decide (f = g)) as [->|]; naive_solver.
  - intros f. rewrite Hown, elem_of_difference, elem_of_singleton, H2.
    destruct (decide (f = g)) as [->|]; naive_solver.
  - intros f [Hf _]%Hown. auto.
  - intros j k b1 b2 f [[_ ?]|[_ Hj]]%lookup_insert_Some [[_ ?]|[_ Hk]]%lookup_insert_Some; try done.
    exact (H4 j k b1 b2 f Hj Hk).
  - intros j b1 [[_ ?]|[_ Hj]]%lookup_insert_Some; [done|]. eauto.
Qed.

(** Adding a buffer whose file is new. *)
Lemma buffer_insert_inv s0 L i f c ps s :
  inv s0 L ps s -> ps !! i = None -> f ∉ tmp s -> f ∉ fds s ->
  inv s0 L (<[i := Some {| fb_file := Some f; fb_content := c |}]> ps)
    {| tmp := {[ f ]} ∪ tmp s; fds := {[ f ]} ∪ fds s |}.
Proof.
  intros [H1 H2 H3 H4 H5] Hi Ht Hd. set (b := {| fb_file := Some f; fb_content := c |}).
  assert (Hown : forall g, owned (<[i := Some b]> ps) g <-> owned ps g \/ g = f).
  { intros g. split.
    - intros (j & b' & [[<- [= <-]]|[Hne Hj]]%lookup_insert_Some & Hg); [right; by injection Hg|].
      left. by exists j, b'.
    - intros [(j & b' & Hj & Hg)| ->]; [|exists i, b; by rewrite lookup_insert_eq].
      exists j, b'. split; [|done]. rewrite lookup_insert_ne; [done|]. intros ->. congruence. }
  assert (Hno : forall j b', ps !! j = Some (Some b') -> fb_file b' <> Some f).
  { intros j b' Hj Hf. apply Ht, H1. right. by exists j, b'. }
  split; cbn [tmp fds].
  - intros g. rewrite Hown, elem_of_union, elem_of_singleton, H1. naive_solver.
  - intros g. rewrite Hown, elem_of_union, elem_of_singleton, H2. naive_solver.
  - intros g [Hg| ->]%Hown; [auto|]. rewrite H1 in Ht. rewrite H2 in Hd. naive_solver.
  - intros j k b1 b2 g [[<- [= <-]]|[_ Hj]]%lookup_insert_Some [[<- [= <-]]|[_ Hk]]%lookup_insert_Some Hg1 Hg2;
      [done| | |by apply H4 with b1 b2 g].
    + simpl in Hg1. injection Hg1 as <-. by destruct (Hno k b2 Hk).
    + simpl in Hg2. injection Hg2 as <-. by destruct (Hno j b1 Hj).
  - intros j b1 [[_ [= <-]]|[_ Hj]]%lookup_insert_Some; [by eexists|eauto].
Qed.

(** The deferred loop closes everything that is left. *)
Lemma cleanup_list s0 L l ps s :
  inv s0 L ps s -> NoDup l.*1 -> (forall x, x ∈ l -> ps !! x.1 = Some x.2) ->
  (forall i b, ps !! i = Some (Some b) -> (i, Some b) ∈ l) ->
  let s' := foldl (fun s x => match x.2 with Some b => (Close None b s).2 | None => s end) s l in
  tmp s' = tmp s0 /\ fds s' = L ∪ fds s0.
Proof.
  revert ps s. induction l as [|[i [b|]] l IH]; intros ps s Hinv Hnd Hl Hall; cbn [foldl snd].
  - assert (Hno : forall f, ~ owned ps f).
    { intros f (i & b & Hi & _). by apply Hall, elem_of_nil in Hi. }
    destruct Hinv as [H1 H2 _ _ _]. split; apply set_eq; intros f.
    + rewrite H1. naive_solver.
    + rewrite elem_of_union, H2. naive_solver.
  - rewrite fmap_cons in Hnd. apply NoDup_cons in Hnd as [Hni Hnd].
    assert (Hi : ps !! i = Some (Some b)) by (apply (Hl (i, Some b)); by left).
    pose proof (inv_done_with s0 L i b ps s Hinv Hi) as Hinv'. unfold done_with in Hinv'.
    apply (IH (<[i := None]> ps)); [done|done| |].
    + intros x Hx. rewrite lookup_insert_ne; [apply Hl; by right|].
      intros ->. apply Hni. apply list_elem_of_fmap. by exists x.
    + intros j b' [[_ ?]|[Hne Hj]]%lookup_insert_Some; [done|].
      apply Hall, elem_of_cons in Hj as [[= -> _]|Hj]; done.
  - rewrite fmap_cons in Hnd. apply NoDup_cons in Hnd as [_ Hnd]. apply (IH ps); [done|done| |].
    + intros x Hx. apply Hl. by right.
    + intros j b' Hj. apply Hall, elem_of_cons in Hj as [?|Hj]; done.
Qed.

Lemma cleanup_leaves s0 L ps s :
  inv s0 L ps s -> tmp (cleanup ps s) = tmp s0 /\ fds (cleanup ps s) = L ∪ fds s0.
Proof.
  intros Hinv. apply (cleanup_list s0 L (map_to_list ps) ps s Hinv).
  - apply NoDup_fst_map_to_list.
  - intros [i x] Hx. by apply elem_of_map_to_list in Hx.
  - intros i b Hi. by apply elem_of_map_to_list.
Qed.
(** ** What is collected *)

(** The temporary file a machine's goroutine makes, if it comes that far. *)
Definition tempname (c : profile_call) (m : pmachine) : option string :=
  if decide (pm_State m <> Running) then None
  else match pm_fetch m c with
       | Err _ => None
       | Ok _ => match na_TempFile (pm_buf m) with Ok f => Some f | Err _ => None end
       end.

(** The profile it delivers. *)
Definition delivered (c : profile_call) (m : pmachine) : option string :=
  if decide (pm_State m <> Running) then None
  else match pm_fetch m c with
       | Err _ => None
       | Ok rc => match (Filebuf.New (pm_buf m) rc {| tmp := ∅; fds := ∅ |}).1 with
                  | Ok _ => Some (st_bytes rc)
                  | Err _ => None
                  end
       end.

(** The files made for profiles that are not delivered. *)
Definition leaked (c : profile_call) (ms : list pmachine) : gset string :=
  list_to_set (omap (fun m => match delivered c m with Some _ => None | None => tempname c m end) ms).

Lemma leaked_cons c m ms :
  leaked c (m :: ms) =
    match delivered c m with
    | Some _ => ∅
    | None => match tempname c m with Some f => {[ f ]} | None => ∅ end
    end ∪ leaked c ms.
Proof.
  unfold leaked. simpl. destruct (delivered c m); [by rewrite union_empty_l_L|].
  destruct (tempname c m); [done|by rewrite union_empty_l_L].
Qed.

Lemma New_result a r s1 s2 : (Filebuf.New a r s1).1 = (Filebuf.New a r s2).1.
Proof.
  unfold Filebuf.New. destruct (na_TempFile a); [|done].
  destruct (copy_to_file _ _) as [d [e|]]; [done|]. by destruct (na_Seek a).
Qed.

Definition got ps (k : nat) : option string := fb_content <$> mjoin (ps !! k).

(** One machine: what it adds to the map, and to the descriptors left. *)
Lemma collect_one_inv s0 L c i m ps s :
  inv s0 L ps s -> ps !! i = None -> (forall f, tempname c m = Some f -> (f ∉ tmp s) /\ (f ∉ fds s)) ->
  let '(ps', s') := collect_one c i m ps s in
  inv s0 (leaked c [m] ∪ L) ps' s' /\ got ps' i = delivered c m /\
  (forall k, k <> i -> ps' !! k = ps !! k) /\ ps' !! i <> Some None /\
  (forall f, f ∈ tmp s' \/ f ∈ fds s' -> f ∈ tmp s \/ f ∈ fds s \/ tempname c m = Some f).
Proof.
  intros Hinv Hi Hf. rewrite leaked_cons. replace (leaked c []) with (∅ : gset string) by done.
  rewrite union_empty_r_L. unfold collect_one, delivered, tempname, got in *.
  case_decide as Hrun; [rewrite Hi, union_empty_l_L; naive_solver|].
  destruct (pm_fetch m c) as [rc|e]; [|rewrite Hi, union_empty_l_L; naive_solver].
  rewrite (New_result _ _ _ s). destruct (Filebuf.New (pm_buf m) rc s) as [[b|e] s'] eqn:HN; cbn [fst].
  - apply New_Ok in HN as (f & HT & -> & _ & ->). rewrite HT in *. destruct (Hf f eq_refl) as [Ht Hd].
    rewrite lookup_insert_eq. cbn [tmp fds]. split_and!; try done.
    + rewrite union_empty_l_L. by apply buffer_insert_inv.
    + intros k Hk. by rewrite lookup_insert_ne.
    + set_solver.
  - apply New_Err in HN as [Htmp Hfds].
    2: { intros f HT. rewrite HT in Hf. by apply Hf. }
    rewrite Hi. split_and!; try done.
    + destruct Hinv as [H1 H2 H3 H4 H5]. destruct (na_TempFile (pm_buf m)) as [f|e'].
      * destruct (Hf f eq_refl) as [Ht Hd]. split; rewrite ?Htmp, ?Hfds; try done.
        -- intros g. rewrite elem_of_union, elem_of_singleton, H2. set_solver.
        -- intros g Hg. destruct (H3 g Hg) as (G1 & G2 & G3). split_and!; [done|done|].
           assert (g ∈ tmp s) by (apply H1; by right). set_solver.
      * split; rewrite ?Htmp, ?Hfds; try done; rewrite union_empty_l_L; done.
    + intros f Hff. rewrite Htmp, Hfds in Hff. destruct (na_TempFile (pm_buf m)); set_solver.
Qed.

Lemma collect_inv s0 c ms i L ps s :
  inv s0 L ps s -> (forall k, i <= k -> ps !! k = None) -> NoDup (omap (tempname c) ms) ->
  (forall f, f ∈ omap (tempname c) ms -> (f ∉ tmp s) /\ (f ∉ fds s)) ->
  let '(ps', s') := collect c i ms ps s in
  inv s0 (leaked c ms ∪ L) ps' s' /\
  (forall k, k < i -> ps' !! k = ps !! k) /\
  (forall k, got ps' (i + k) = ms !! k ≫= delivered c) /\
  (forall k, i <= k -> ps' !! k <> Some None).
Proof.
  revert i L ps s. induction ms as [|m ms IH]; intros i L ps s Hinv Hnone Hnd Hfresh; cbn [collect].
  - replace (leaked c []) with (∅ : gset string) by done. rewrite union_empty_l_L. split_and!; try done.
    + intros k. unfold got. by rewrite Hnone by lia.
    + intros k Hk. by rewrite Hnone.
  - pose proof (collect_one_inv s0 L c i m ps s Hinv (Hnone i (le_n i))) as H1.
    destruct (collect_one c i m ps s) as [ps1 s1].
    destruct H1 as (Hinv1 & Hgot & Hother & Hne & Hsub).
    { intros f Hf. apply Hfresh. apply list_elem_of_omap. exists m. split; [by left|done]. }
    assert (Hnd' : NoDup (omap (tempname c) ms) /\
      forall f, tempname c m = Some f -> f ∉ omap (tempname c) ms).
    { cbn in Hnd. destruct (tempname c m) as [g|]; [|done]. apply NoDup_cons in Hnd as [Hn Hnd].
      split; [done|]. by intros f [= <-]. }
    destruct Hnd' as [Hnd' Hnotin].
    specialize (IH (S i) (leaked c [m] ∪ L) ps1 s1 Hinv1).
    destruct (collect c (S i) ms ps1 s1) as [ps' s']. destruct IH as (Hi' & Hlow & Hhigh & Hopen).
    + intros k Hk. rewrite Hother by lia. apply Hnone. lia.
    + done.
    + intros f Hf. assert (Hf' : f ∈ omap (tempname c) (m :: ms)).
      { apply list_elem_of_omap. apply list_elem_of_omap in Hf as (x & Hx & Hxf).
        exists x. split; [by right|done]. }
      destruct (Hfresh f Hf') as [Ht Hd].
      assert (tempname c m <> Some f) by (intros Hm; by apply (Hnotin f Hm)).
      split; intros Hin; destruct (Hsub f); naive_solver.
    + split_and!.
      * replace (leaked c (m :: ms) ∪ L) with (leaked c ms ∪ (leaked c [m] ∪ L)); [done|].
        rewrite !(leaked_cons c m). replace (leaked c []) with (∅ : gset string) by done.
        destruct (delivered c m); [|destruct (tempname c m)]; set_solver.
      * intros k Hk. rewrite Hlow by lia. apply Hother. lia.
      * intros [|k]; cbn [lookup list_lookup].
        -- rewrite Nat.add_0_r. unfold got. rewrite Hlow by lia. exact Hgot.
        -- replace (i + S k) with (S i + k) by lia. apply Hhigh.
      * intros k Hk. destruct (decide (k = i)) as [->|]; [|apply Hopen; lia].
        rewrite Hlow by lia. done.
Qed.
(** ** What is written *)

Lemma write_text_inv s0 L room l ps s out :
  inv s0 L ps s ->
  let '(_, ps', s', _) := write_text room l ps s out in inv s0 L ps' s'.
Proof.
  revert ps s out. induction l as [|[i a] l IH]; intros ps s out Hinv; cbn [write_text]; [done|].
  destruct (ps !! i) as [[b|]|] eqn:Hi; [|by apply IH|by apply IH].
  pose proof (inv_done_with s0 L i b ps s Hinv Hi) as H.
  destruct (copy_to_file _ _) as [d [e|]]; [done|]. by apply IH.
Qed.

Lemma parse_all_inv s0 L {prof} (Parse : string -> result error prof) name l ps s parsed :
  inv s0 L ps s ->
  let '(_, ps', s') := parse_all Parse name l ps s parsed in inv s0 L ps' s'.
Proof.
  revert ps s parsed. induction l as [|i l IH]; intros ps s parsed Hinv; cbn [parse_all]; [done|].
  destruct (ps !! i) as [[b|]|] eqn:Hi; [|by apply IH|by apply IH].
  pose proof (inv_done_with s0 L i b ps s Hinv Hi) as H.
  destruct (Parse (fb_content b)); [by apply IH|done].
Qed.

(** Only Marshal itself reports that there are no profiles. *)
Lemma write_text_err room l ps s out msg ps' s' out' :
  write_text room l ps s out <> (Some (errNoProfiles msg), ps', s', out').
Proof.
  revert ps s out. induction l as [|[i a] l IH]; intros ps s out; cbn [write_text]; [done|].
  destruct (ps !! i) as [[b|]|]; [|by apply IH|by apply IH].
  destruct (copy_to_file _ _) as [d [e|]]; [done|]. apply IH.
Qed.

Lemma parse_all_err {prof} (Parse : string -> result error prof) name l ps s parsed msg ps' s' :
  parse_all Parse name l ps s parsed <> (Err (errNoProfiles msg), ps', s').
Proof.
  revert ps s parsed. induction l as [|i l IH]; intros ps s parsed; cbn [parse_all]; [done|].
  destruct (ps !! i) as [[b|]|]; [|by apply IH|by apply IH].
  simpl. destruct (Parse (fb_content b)); [apply IH|done].
Qed.

(** The section of a machine in a text. *)
Definition text_section (a d : string) : string :=
  a +:+ ":" +:+ String NEWLINE (d +:+ String NEWLINE "").

Definition text_of (g : nat -> option string) (l : list (nat * string)) : string :=
  foldr (fun x r => match g x.1 with Some d => text_section x.2 d +:+ r | None => r end) "" l.

Lemma text_of_ext g g' l : (forall x, x ∈ l -> g x.1 = g' x.1) -> text_of g l = text_of g' l.
Proof.
  induction l as [|x l IH]; intros H; [done|]. simpl. rewrite (H x) by left.
  rewrite IH; [done|]. intros y Hy. apply H. by right.
Qed.

Lemma write_text_out room l ps s out :
  (forall i, room i = None) -> NoDup l.*1 ->
  let '(err, _, _, out') := write_text room l ps s out in
  err = None /\ out' = out +:+ text_of (got ps) l.
Proof.
  intros Hroom. revert ps s out. induction l as [|[i a] l IH]; intros ps s out Hnd; cbn [write_text].
  { split; [done|]. by rewrite sapp_nil_r. }
  rewrite fmap_cons in Hnd. apply NoDup_cons in Hnd as [Hni Hnd].
  unfold text_of. cbn [foldr fst snd]. unfold got at 1. fold (text_of (got ps) l).
  destruct (ps !! i) as [[b|]|] eqn:Hi; [|by apply IH|by apply IH]. cbn.
  rewrite Hroom. cbn [copy_to_file done_with]. rewrite st_bytes_buffer. cbn [st_end buffer].
  specialize (IH (<[i := None]> ps) (Close None b s).2
    ((out +:+ a +:+ ":" +:+ String NEWLINE (fb_content b)) +:+ String NEWLINE "") Hnd).
  destruct (write_text _ _ _ _ _) as [[[err ps'] s'] out']. destruct IH as [-> ->]. split; [done|].
  rewrite (text_of_ext _ (got ps) l).
  - unfold text_section. rewrite !sapp_assoc. do 3 f_equal. simpl. by rewrite !sapp_assoc.
  - intros x Hx. unfold got. rewrite lookup_insert_ne; [done|]. intros ->.
    apply Hni, list_elem_of_fmap. by exists x.
Qed.

Lemma sorted_machines_keys ms x :
  x ∈ sorted_machines ms <-> exists m, ms !! x.1 = Some m /\ x.2 = pm_Addr m.
Proof.
  unfold sorted_machines. rewrite (merge_sort_Permutation by_addr), elem_of_lookup_imap.
  split.
  - by intros (i & m & -> & Hm); exists m.
  - intros (m & Hm & Ha). exists x.1, m. split; [|done]. destruct x. simpl in *. by subst.
Qed.

Lemma sorted_machines_NoDup ms : NoDup (sorted_machines ms).*1.
Proof.
  unfold sorted_machines. rewrite (merge_sort_Permutation by_addr), fmap_imap.
  apply NoDup_alt. intros i j k Hi Hj.
  rewrite list_lookup_imap in Hi, Hj.
  destruct (ms !! i), (ms !! j); simpl in *; congruence.
Qed.

#[local] Instance by_addr_trans : Transitive by_addr.
Proof. intros x y z. unfold by_addr. by transitivity y.2. Qed.
#[local] Instance by_addr_total : Total by_addr.
Proof. intros x y. unfold by_addr. apply (total String.le). Qed.

Lemma omap_nil {A B} (f : A -> option B) (l : list A) :
  omap f l = [] <-> forall k, l !! k ≫= f = None.
Proof.
  induction l as [|x l IH]; [done|]. simpl. split.
  - destruct (f x) eqn:Hf; [done|]. intros H [|k]; [done|]. by apply IH.
  - intros H. pose proof (H 0) as H0. simpl in H0. rewrite H0. apply IH. intros k. apply (H (S k)).
Qed.

Lemma no_buffers_inv s : inv s ∅ ∅ s.
Proof.
  assert (Hno : forall f, ~ owned ∅ f) by (by intros f (i & b & Hi & _)).
  split; try done; set_solver.
Qed.

Lemma profiles_empty c ms ps :
  (forall k, got ps k = ms !! k ≫= delivered c) -> (forall k, ps !! k <> Some None) ->
  ps = ∅ <-> omap (delivered c) ms = [].
Proof.
  intros Hgot Hopen. rewrite omap_nil. split.
  - intros -> k. by rewrite <- Hgot.
  - intros H. apply map_eq. intros k. specialize (H k). rewrite <- Hgot in H. unfold got in H.
    destruct (ps !! k) as [[b|]|] eqn:Hk; [done|by destruct (Hopen k)|done].
Qed.

(** C39. Writing the profiles of a cluster.  Whatever fails on the way - a call,
    a full disk, the writer, the parser - and in whatever order the map is
    ranged over, when Marshal returns every temporary file it made is removed
    and every descriptor is closed, but for those of buffers that could not be
    filled, which stay open.  It reports that there are no profiles exactly if
    no running machine delivered one.  As text, and while the writer accepts
    it, the output is the profiles delivered, whole, under the addresses of
    their machines and in the order of the addresses. *)
Theorem profiles_written {prof} (Parse : string -> result error prof) Merge Write p ms room order s :
  let c := getProfile p in
  NoDup (omap (tempname c) ms) ->
  (forall f, f ∈ omap (tempname c) ms -> (f ∉ tmp s) /\ (f ∉ fds s)) ->
  let '(err, out, s') := Marshal_all Parse Merge Write p ms room order s in
  tmp s' = tmp s /\ fds s' = leaked c ms ∪ fds s /\
  ((exists msg, err = Some (errNoProfiles msg)) <-> omap (delivered c) ms = []) /\
  ((0 < debug p)%Z -> which p <> "profiles" -> (forall i, room i = None) ->
   omap (delivered c) ms <> [] ->
   err = None /\ StronglySorted by_addr (sorted_machines ms) /\
   out = text_of (fun i => ms !! i ≫= delivered c) (sorted_machines ms)).
Proof.
  intros c Hnd Hfresh.
  pose proof (collect_inv s c ms 0 ∅ ∅ s (no_buffers_inv s) (fun _ _ => eq_refl) Hnd Hfresh) as H.
  unfold Marshal_all. fold c. destruct (collect c 0 ms ∅ s) as [ps s1].
  destruct H as (Hinv & _ & Hgot & Hopen). rewrite union_empty_r_L in Hinv. simpl in Hgot.
  pose proof (profiles_empty c ms ps Hgot (fun k => Hopen k (Nat.le_0_l k))) as Hemp.
  destruct (decide (ps = ∅)) as [Hps|Hps].
  { destruct (cleanup_leaves _ _ _ _ Hinv) as [Ht Hf]. split_and!; [done|done|naive_solver|naive_solver]. }
  assert (Hne : omap (delivered c) ms <> []) by naive_solver.
  destruct (decide _) as [Htext|Hpprof].
  - pose proof (write_text_inv _ _ room (sorted_machines ms) _ _ "" Hinv) as Hw.
    pose proof (write_text_out room (sorted_machines ms) ps s1 "") as Hout.
    destruct (write_text _ _ _ _ _) as [[[err ps'] s'] out] eqn:Hwt.
    destruct (cleanup_leaves _ _ _ _ Hw) as [Ht Hf]. split_and!; [done|done| |].
    + split; [|done]. intros [msg ->]. by eapply write_text_err in Hwt.
    + intros _ _ Hroom _. destruct (Hout Hroom (sorted_machines_NoDup ms)) as [-> ->].
      split; [done|]. split; [apply (StronglySorted_merge_sort by_addr)|].
      simpl. apply text_of_ext. intros x _. apply Hgot.
  - set (name := fun i => _). set (o := order _).
    pose proof (parse_all_inv _ _ Parse name o _ _ [] Hinv) as Hw.
    destruct (parse_all _ _ _ _ _ _) as [[r ps'] s'] eqn:Hpa.
    destruct (cleanup_leaves _ _ _ _ Hw) as [Ht Hf].
    destruct r as [parsed|e].
    + destruct (Merge parsed) as [x|e]; [destruct (Write x) as [out|e]|]; split_and!; try done; naive_solver.
    + split_and!; [done|done| |naive_solver]. split; [|done].
      intros [msg [= ->]]. by eapply parse_all_err in Hpa.
Qed.
End buffers.

(** ** A sample cluster *)

Module Samples.

Definition machine (a : string) (st : State) (f : string) (full : option (nat * serror)) (d : string) :
    pmachine (EL := SimpleErrors) :=
  {| pm_Addr := a; pm_State := st; pm_fetch := fun _ => Ok (buffer d);
     pm_buf := {| na_TempFile := Ok f; na_write := full; na_Seek := None |} |}.

(** One machine is stopped, and the disk is full for another. *)
Definition cluster : list (pmachine (EL := SimpleErrors)) :=
  [machine "b" Running "f1" None "B"; machine "c" Stopped "f2" None "C";
   machine "a" Running "f3" None "A"; machine "d" Running "f4" (Some (0, SOther "disk full")) "D"].

Definition heap_text : profiler := {| which := "heap"; addr := ""; sec := 0; debug := 1; gc := false |}.

Definition marshal : option perr * string * tempfs :=
  Marshal_all (EL := SimpleErrors) (fun _ => Ok tt) (fun _ => Ok tt) (fun _ => Ok "") heap_text cluster
    (fun _ => None) id {| tmp := ∅; fds := ∅ |}.

Lemma profiles_written_witness :
  let '(err, out, s') := marshal in
  err = None /\ tmp s' = ∅ /\ fds s' = leaked (getProfile heap_text) cluster ∪ ∅ /\
  out = text_of (fun i => cluster !! i ≫= delivered (getProfile heap_text)) (sorted_machines cluster).
Proof.
  pose proof (profiles_written (EL := SimpleErrors) (fun _ => Ok tt) (fun _ => Ok tt) (fun _ => Ok "")
    heap_text cluster (fun _ => None) id {| tmp := ∅; fds := ∅ |}) as H.
  unfold marshal. destruct (Marshal_all _ _ _ _ _ _ _ _) as [[err out] s'].
  destruct H as (Ht & Hf & _ & Hout).
  - refine (bool_decide_unpack (NoDup (omap (tempname (getProfile heap_text)) cluster)) _).
    vm_compute. exact I.
  - intros f _. split; apply not_elem_of_empty.
  - destruct Hout as (-> & _ & ->); [reflexivity|discriminate|reflexivity|vm_compute; discriminate|].
    split_and!; [reflexivity|exact Ht|exact Hf|reflexivity].
Defined.

Example sample_text :
  marshal.1 = (None, "a:" +:+ String NEWLINE ("A" +:+ String NEWLINE ("b:" +:+ String NEWLINE
    ("B" +:+ String NEWLINE "")))).
Proof. vm_compute. reflexivity. Qed.

End Samples.
