(* ===== verification/Reports.v ===== *)
(** supervisor.go: what a machine reports about itself - its build and resources,
    its CPU and other profiles as streams, its exported variables - and the calls
    of machine.go that ask for it.

    The operating system's and the runtime's measurements are arguments. *)
From S2P Require Import Prelude Errors GoStrings Wire Supervisor.
From stdpp Require Import pretty.
Local Open Scope string_scope.
Local Open Scope list_scope.
Local Open Scope Z_scope.

Section reports.
Context {EL : ErrorsLib}.

(** Supervisor.Ping, Supervisor.Getpid *)
Definition Ping (seq : Z) : Z := seq.
Definition Getpid (pid : Z) : Z := pid.

(** ** Info *)

(** The digest of the running binary, zero ([""]) if it could not be read. *)
Record Info := { Goos : string; Goarch : string; Digest : string }.

(** binary: the running executable, opened. *)
Definition binary (Executable : result error string) (Open : string -> result error (stream error)) :
    result error (stream error) :=
  match Executable with
  | Err e => Err e
  | Ok path => Open path
  end.

(** LocalInfo, with digestOnce: the digest is computed by the first call, and
    what that call finds, even nothing, stays. *)
Definition digest_of (open : result error (stream error)) (digest : string -> string) : string :=
  match open with
  | Err _ => ""
  | Ok r => match st_end r with
            | Some _ => ""
            | None => digest (st_bytes r)
            end
  end.

Definition LocalInfo (goos goarch : string) (open : result error (stream error)) (digest : string -> string)
    (once : option string) : Info * option string :=
  let d := match once with Some d => d | None => digest_of open digest end in
  ({| Goos := goos; Goarch := goarch; Digest := d |}, Some d).

(** ** Resources *)

(** Supervisor.MemInfo: the runtime's statistics are read only if asked for. *)
Definition MemInfo {Vm Rt : Type} (readMemStats : bool) (runtime : Rt) (vm : result error Vm)
    (info : option Vm * option Rt) : result error (option Vm * option Rt) :=
  let info := if readMemStats then (info.1, Some runtime) else info in
  match vm with
  | Err e => Err e
  | Ok v => Ok (Some v, info.2)
  end.

(** Supervisor.DiskInfo, Supervisor.LoadInfo *)
Definition DiskInfo {A : Type} (usage : result error A) : result error A := usage.
Definition LoadInfo {A : Type} (avg : result error A) : result error A := avg.

(** ** Profiles *)

(** The goroutine of Supervisor.CPUProfile, which writes to the pipe: whether
    profiling could be started, the profile of [dur], and when the context ends,
    if it does, with what error and with what profile up to then. *)
Definition cpu_goroutine (start : option error) (dur : Z) (done : option (Z * error)) (profile : Z -> string) :
    stream error :=
  match start with
  | Some e => {| st_chunks := []; st_end := Some e |}
  | None =>
      match done with
      | Some (t, e) =>
          if decide (t < dur) then {| st_chunks := [profile t]; st_end := Some e |}
          else {| st_chunks := [profile dur]; st_end := None |}
      | None => {| st_chunks := [profile dur]; st_end := None |}
      end
  end.

(** Supervisor.CPUProfile: the error, or the stream that is the reply; a negative
    duration is over at once. *)
Definition CPUProfile_stream (deadline : option Z) (now dur : Z) (start : option error)
    (done : option (Z * error)) (profile : Z -> string) : result error (stream error) :=
  match CPUProfile deadline now dur with
  | Err e => Err e
  | Ok dur => Ok (cpu_goroutine start (Z.max 0 dur) done profile)
  end.

Record profileRequest := { pq_Name : string; pq_Debug : Z; pq_GC : bool }.

(** Supervisor.Profile: whether a collection runs first, and the stream of the
    profile's text, which [WriteTo] makes. *)
Definition Profile (req : profileRequest) (lookup : option (Z -> string * option error)) :
    bool * result error (stream error) :=
  (bool_decide (pq_Name req = "heap") && pq_GC req,
   match lookup with
   | None => Err (New ("no such profile " +:+ pq_Name req))
   | Some WriteTo =>
       let '(text, err) := WriteTo (pq_Debug req) in Ok {| st_chunks := [text]; st_end := err |}
   end).

(** Supervisor.Profiles and Supervisor.Expvars append to the reply they are given. *)
Definition Profiles (all profiles : list (string * Z)) : list (string * Z) := profiles ++ all.
Definition Expvars (published vars : list (string * string)) : list (string * string) := vars ++ published.

(** ** Lemmas *)

(** The digest is decided by the first call. *)
Lemma LocalInfo_once goos goarch open open' digest once :
  let '(i, once') := LocalInfo goos goarch open digest once in
  (LocalInfo goos goarch open' digest once').1 = i.
Proof. unfold LocalInfo. by destruct once. Qed.

(** A remote caller of CPUProfile: the context of a request has no deadline, so
    the check of the duration never fails; a duration of zero is 30 seconds. *)
Lemma CPUProfile_remote (now dur : Z) (start : option error) done profile :
  exists s, CPUProfile_stream None now dur start done profile = Ok s /\
    (start = None -> done = None ->
     st_bytes s = profile (if decide (dur = 0) then 30 * second else Z.max 0 dur) /\ st_end s = None) /\
    (forall e, start = Some e -> st_bytes s = "" /\ st_end s = Some e) /\
    (forall t e, start = None -> done = Some (t, e) -> 0 <= t ->
     t < (if decide (dur = 0) then 30 * second else dur) -> st_end s = Some e).
Proof.
  unfold CPUProfile_stream, CPUProfile, isContextAliveFor.
  eexists. split; [done|]. unfold cpu_goroutine, second. split_and!.
  - intros -> ->. unfold st_bytes. simpl. rewrite sapp_nil_r. case_decide; [|done]. by rewrite Z.max_r by lia.
  - by intros e ->.
  - intros t e -> -> Ht Hlt. rewrite decide_True; [done|]. case_decide; lia.
Qed.
End reports.
