(* ===== verification/Debug.v ===== *)
(** status.go, expvar.go, the profile index of bigmachine.go, the form read by
    profile.go, rpc/log.go and driver.go: the debug pages of a driver, what they
    show of which machines, and how a driver is set up.

    What the machines answer, in which order, and the order in which Go ranges
    over a map are arguments; the pages do not depend on the orders. *)
From S2P Require Import Prelude Errors GoStrings MachineState Supervisor Cluster Profile Reports.
From stdpp Require Import sorting pretty.
From Stdlib Require Import Ascii.
Local Open Scope string_scope.
Local Open Scope list_scope.

(** ** Sorting by name *)

(** sort.Slice on the names; names that are sorted are distinct. *)
Definition by_name {A : Type} (x y : string * A) : Prop := String.le x.1 y.1.

#[export] Instance by_name_dec {A : Type} (x y : string * A) : Decision (by_name x y).
Proof. unfold by_name. apply _. Defined.
#[export] Instance by_name_trans {A : Type} : Transitive (by_name (A := A)).
Proof. intros x y z. unfold by_name. by transitivity y.1. Qed.
#[export] Instance by_name_total {A : Type} : Total (by_name (A := A)).
Proof. intros x y. unfold by_name. apply (total String.le). Qed.

Definition sort_by_name {A : Type} (l : list (string * A)) : list (string * A) := merge_sort by_name l.

Lemma sort_by_name_sorted {A : Type} (l : list (string * A)) : StronglySorted by_name (sort_by_name l).
Proof. apply (StronglySorted_merge_sort by_name). Qed.

Lemma sort_by_name_perm {A : Type} (l : list (string * A)) : sort_by_name l ≡ₚ l.
Proof. apply (merge_sort_Permutation by_name). Qed.

(** Two entries of a list with distinct names are equal if their names are. *)
Lemma NoDup_names {A : Type} (l : list (string * A)) (x y : string * A) :
  NoDup l.*1 -> x ∈ l -> y ∈ l -> x.1 = y.1 -> x = y.
Proof.
  intros Hnd [i Hi]%list_elem_of_lookup [j Hj]%list_elem_of_lookup Hn.
  assert (i = j) as ->; [|congruence].
  eapply NoDup_lookup; [exact Hnd| |]; rewrite list_lookup_fmap; [by rewrite Hi|by rewrite Hj, Hn].
Qed.

(** Sorting forgets the order. *)
Lemma sort_by_name_unique {A : Type} (l1 l2 : list (string * A)) :
  NoDup l1.*1 -> l1 ≡ₚ l2 -> sort_by_name l1 = sort_by_name l2.
Proof.
  intros Hnd Hp. apply (StronglySorted_unique_strong by_name).
  - intros x1 x2 H1 H2 H12 H21.
    rewrite sort_by_name_perm in H1. rewrite sort_by_name_perm, <- Hp in H2.
    apply (NoDup_names l1); try done. by apply (anti_symm String.le).
  - apply sort_by_name_sorted.
  - apply sort_by_name_sorted.
  - by rewrite !sort_by_name_perm.
Qed.

Section pages.
Context {EL : ErrorsLib}.

(** ** The profile index *)

(** pprofIndex on the page itself: the counts that came in, by machine in the
    order the map is ranged over; [order] is that of the map aggregate. *)
Definition index_All (stats : list (string * list (string * Z)))
    (order : list (string * Z) -> list (string * Z)) : list (string * Z) :=
  sort_by_name (order (map_to_list (aggregate stats))).

(** The replies that came in. *)
Definition index_stats (replies : list (string * result error (list (string * Z)))) :
    list (string * list (string * Z)) :=
  omap (fun x => match x.2 with Ok l => Some (x.1, l) | Err _ => None end) replies.

(** pprofIndex: what the path selects - the index, or a profile. *)
Inductive index_page := ShowsIndex | ShowsProfile (which : string).

Definition TrimPrefix (s prefix : string) : string :=
  if HasPrefix s prefix
  then String.substring (String.length prefix) (String.length s - String.length prefix) s else s.

Definition pprofIndex (path : string) : index_page :=
  let which := TrimPrefix path "/debug/bigmachine/pprof/" in
  if decide (which <> "") then ShowsProfile which else ShowsIndex.

(** HandleDebugPrefix: the two patterns. *)
Definition HandleDebugPrefix (prefix : string) : list string := [prefix +:+ "pprof/"; prefix +:+ "status"].
Definition HandleDebug : list string := HandleDebugPrefix "/debug/bigmachine/".

(** ** The handler of profiles: the form of the request *)

Definition digit (c : ascii) : option Z :=
  let n := Z.of_nat (nat_of_ascii c) in
  if decide (48 <= n <= 57)%Z then Some (n - 48)%Z else None.

Fixpoint digits (s : string) (acc : Z) : option Z :=
  match s with
  | EmptyString => Some acc
  | String c s => match digit c with
                  | Some d => digits s (10 * acc + d)
                  | None => None
                  end
  end.

(** The value of strconv.ParseInt(s, 10, 64) and strconv.Atoi, whose error is
    dropped: 0 for a text that is no number, the nearest one out of range. *)
Definition ParseInt (s : string) : Z :=
  let '(neg, t) := match s with
                   | String "-"%char t => (true, t)
                   | String "+"%char t => (false, t)
                   | _ => (false, s)
                   end in
  if decide (t = "") then 0%Z
  else match digits t 0 with
       | None => 0%Z
       | Some n => if neg then Z.max (- 2 ^ 63) (- n) else Z.min (2 ^ 63 - 1) n
       end.

(** profileHandler.ServeHTTP: the profiler that the form asks for. *)
Definition profile_form (which : string) (form : string -> string) : profiler :=
  {| Profile.which := which; addr := form "machine"; sec := ParseInt (form "seconds");
     debug := ParseInt (form "debug"); gc := bool_decide (0 < ParseInt (form "gc"))%Z |}.

(** makeProfileDumpFunc *)
Definition makeProfileDumpFunc (which : string) (debug : Z) : profiler :=
  {| Profile.which := which; addr := ""; sec := 30; Profile.debug := debug; gc := false |}.

(** ** The status page *)

Context {Mem Disk Load : Type} `{!Inhabited Mem, !Inhabited Disk, !Inhabited Load}.

Inductive info_call := CallMem | CallDisk | CallLoad.

(** What the three calls of allInfo return, the order in which they end, and
    what the machine knows of its keepalives. *)
Record info_answers := {
  ia_order : list info_call;
  ia_mem : result error Mem;
  ia_disk : result error Disk;
  ia_load : result error Load;
  ia_replyTimes : list Z;
  ia_nextKeepalive : Z
}.

Record machineInfo := {
  mi_err : option error;
  mi_MemInfo : Mem;
  mi_DiskInfo : Disk;
  mi_LoadInfo : Load;
  mi_KeepaliveReplyTimes : list Z;
  mi_NextKeepalive : Z
}.

Definition call_err (a : info_answers) (c : info_call) : option error :=
  match c with
  | CallMem => result_err (ia_mem a)
  | CallDisk => result_err (ia_disk a)
  | CallLoad => result_err (ia_load a)
  end.

Definition or_zero {A : Type} `{!Inhabited A} (r : result error A) : A :=
  match r with Ok x => x | Err _ => inhabitant end.

(** allInfo: errgroup keeps the first error. *)
Definition allInfo (a : info_answers) : machineInfo :=
  {| mi_err := head (omap (call_err a) (ia_order a));
     mi_MemInfo := or_zero (ia_mem a); mi_DiskInfo := or_zero (ia_disk a); mi_LoadInfo := or_zero (ia_load a);
     mi_KeepaliveReplyTimes := ia_replyTimes a; mi_NextKeepalive := ia_nextKeepalive a |}.

(** A machine as the pages see it. *)
Record page_machine := {
  pg_owner : bool;
  pg_State : State;
  pg_info : info_answers;
  pg_Expvars : result error (list (string * string))
}.

(** The entry of a machine: the text of an error, or what the template is given. *)
Definition status_entry (m : page_machine) : string + (bool * machineInfo) :=
  if decide (pg_State m <> Running) then inl ("machine state " +:+ State_String (pg_State m))
  else
    let i := allInfo (pg_info m) in
    match mi_err i with
    | Some e => inl (Error e)
    | None => inr (pg_owner m, i)
    end.

(** writeStatus, on the machines by address in the order of B.Machines. *)
Definition writeStatus (ms : list (string * page_machine)) : list (string * (string + (bool * machineInfo))) :=
  (fun x => (x.1, status_entry x.2)) <$> sort_by_name ms.

(** The function roundjoindur of the template truncates to milliseconds. *)
Definition roundjoindur (ds : list Z) : list Z := (fun d => d - Z.rem d 1000000)%Z <$> ds.

(** The index of the last pause in the ring of 256, from a uint32. *)
Definition lastpause_index (NumGC : Z) : Z := (((NumGC + 255) mod 2 ^ 32) mod 256)%Z.

(** ** Exported variables *)

(** machineVars.String: the object that is marshalled, by address and by key, or
    [None] for the text "error"; [valid] is json.Valid, on the text of a
    variable. *)
Definition machineVars (ms : list (string * page_machine)) : gmap string (list (string * string)) :=
  foldl (fun vars x => if pg_owner x.2 then
                         match pg_Expvars x.2 with Ok v => <[x.1 := v]> vars | Err _ => vars end
                       else vars) ∅ ms.

Definition machineVars_String (valid : string -> bool) (ms : list (string * page_machine)) :
    option (list (string * list (string * string))) :=
  let vars := machineVars ms in
  if forallb (fun x => forallb (fun kv => valid kv.2) (map_to_list (Expvars_map x.2))) (map_to_list vars)
  then Some (sort_by_name ((fun x => (x.1, sort_by_name (map_to_list (Expvars_map x.2)))) <$> map_to_list vars))
  else None.
End pages.

(** ** Setting up *)

(** Start (bigmachine.go): the names of the dumps that a B registers. *)
Definition pad2 (n : N) : string := if decide (n < 10)%N then "0" +:+ pretty n else pretty n.

Definition dump_names (index : N) (name system : string) : list string :=
  if decide (system <> "testsystem") then
    let pfx := "bigmachine-" +:+ pad2 index +:+ "-" in
    let pfx := if decide (name <> "") then pfx +:+ name +:+ "-" else pfx in
    (fun s => pfx +:+ s) <$> ["status"; "pprof-goroutine"; "pprof-heap"; "pprof-mutex"; "pprof-profile"]
  else [].

(** Start publishes the machines of the first B of a process only. *)
Definition publishes (system : string) (published : bool) : bool :=
  bool_decide (system <> "testsystem") && negb published.

(** An Option, and Name: what it does to the name of a B. *)
Definition Option_ : Type := string -> string.
Definition Name (name : string) : Option_ := fun _ => name.

(** The functions that are registered with the dumps, in the order of dump_names. *)
Inductive dump_func := DumpStatus | DumpProfile (p : profiler).
Definition dump_funcs : list dump_func :=
  DumpStatus :: ((fun x => DumpProfile (makeProfileDumpFunc x.1 x.2)) <$>
    [("goroutine", 2); ("heap", 0); ("mutex", 1); ("profile", 0)]%Z).

(** What a process keeps over all its Bs: nextBIndex, whether the variable
    "machines" is published and for which B, and the dumps. *)
Record bs := {
  nextBIndex : N;
  bs_published : option N;
  bs_dumps : list (string * (N * dump_func))
}.

Definition no_bs : bs := {| nextBIndex := 0; bs_published := None; bs_dumps := [] |}.

(** Start: the index and the name of the new B, and whether it is the driver's
    (IsDriver); [None] if B.run does not return.  [run] is how it ends. *)
Definition Start (system : string) (opts : list Option_) (run : run_end) (s : bs) :
    option (N * string * bool) * bs :=
  let index := nextBIndex s in
  let name := foldl (fun n opt => opt n) "" opts in
  let s := {| nextBIndex := index + 1; bs_published := bs_published s; bs_dumps := bs_dumps s |} in
  match run with
  | Fatal _ => (None, s)
  | Returned driver =>
      (Some (index, name, driver),
       {| nextBIndex := nextBIndex s;
          bs_published := if publishes system (bool_decide (is_Some (bs_published s))) then Some index
                          else bs_published s;
          bs_dumps := bs_dumps s ++ zip (dump_names index name system) ((fun d => (index, d)) <$> dump_funcs) |})
  end.

(** driver.Start: the system the flags select, or log.Fatalf. *)
Inductive driver_system :=
| DriverLocal
| DriverEC2 (instanceType : string) (onDemand : bool)
| DriverFatal (msg : string).

Definition driver_Start (system instanceType : string) (ondemand : bool) : driver_system :=
  if decide (system = "ec2") then DriverEC2 instanceType ondemand
  else if decide (system = "local") then DriverLocal
  else DriverFatal ("unrecognized system " +:+ system).

(** rateLimitingOutputter.Output (rpc/log.go): the messages that get through,
    given the verdicts of the limiter. *)
Definition rateLimited {A : Type} (allow : list bool) (msgs : list A) : list A :=
  omap (fun x : bool * A => if x.1 then Some x.2 else None) (zip allow msgs).

(** Client.getLogger (rpc/client.go): one logger per address; [fresh] is a new one. *)
Definition getLogger (addr : string) (fresh : nat) (loggers : gmap string nat) : nat * gmap string nat :=
  match loggers !! addr with
  | Some l => (l, loggers)
  | None => (fresh, <[addr := fresh]> loggers)
  end.

(** ** The totals of the index *)

Section totals.
Context {EL : ErrorsLib}.

(** All counts of a name, added up. *)
Definition total (n : string) (stats : list (string * list (string * Z))) : Z :=
  foldr Z.add 0%Z (snd <$> filter (fun p => p.1 = n) (stats ≫= snd)).

Definition occurs (n : string) (stats : list (string * list (string * Z))) : Prop := n ∈ (stats ≫= snd).*1.

#[local] Instance occurs_dec n stats : Decision (occurs n stats).
Proof. unfold occurs. apply _. Defined.

Lemma foldl_counts (l : list (string * Z)) (m : gmap string Z) (n : string) :
  foldl (fun m p => <[p.1 := wrap64 (default 0%Z (m !! p.1) + p.2)]> m) m l !! n =
    if decide (n ∈ l.*1)
    then Some (wrap64 (default 0%Z (m !! n) + foldr Z.add 0%Z (snd <$> filter (fun p => p.1 = n) l)))
    else m !! n.
Proof.
  revert m. induction l as [|[k c] l IH]; intros m.
  { rewrite decide_False by apply not_elem_of_nil. done. }
  cbn [foldl fst snd]. rewrite IH, fmap_cons. cbn [fst]. destruct (decide (k = n)) as [->|Hne].
  - rewrite lookup_insert_eq, filter_cons_True by done. cbn [fmap list_fmap foldr snd default].
    rewrite (decide_True (P := n ∈ n :: l.*1)) by by apply elem_of_cons; left.
    case_decide as Hin; unfold id; apply (f_equal Some);
      [rewrite wrap64_add; f_equal; lia|].
    replace (filter (fun p => p.1 = n) l) with (@nil (string * Z)); [simpl; f_equal; lia|].
    symmetry. apply elem_of_nil_inv. intros x [Hn Hx]%list_elem_of_filter. apply Hin, list_elem_of_fmap.
    by exists x.
  - rewrite lookup_insert_ne, filter_cons_False by done.
    destruct (decide (n ∈ l.*1)) as [Hin|Hin].
    + by rewrite decide_True by (apply elem_of_cons; by right).
    + rewrite decide_False; [done|]. intros [?|?]%elem_of_cons; [congruence|done].
Qed.

Lemma aggregate_lookup (stats : list (string * list (string * Z))) (n : string) :
  aggregate stats !! n = if decide (occurs n stats) then Some (wrap64 (total n stats)) else None.
Proof.
  unfold aggregate. rewrite foldl_counts. unfold occurs, total. by rewrite lookup_empty.
Qed.

Lemma total_perm (n : string) (stats stats' : list (string * list (string * Z))) :
  stats ≡ₚ stats' -> total n stats = total n stats'.
Proof.
  intros H. unfold total. assert (Hb : stats ≫= snd ≡ₚ stats' ≫= snd) by by rewrite H.
  apply (foldr_permutation_proper (=) Z.add 0%Z); [intros a1 a2 b; lia|by rewrite Hb].
Qed.

Lemma occurs_perm (n : string) (stats stats' : list (string * list (string * Z))) :
  stats ≡ₚ stats' -> occurs n stats <-> occurs n stats'.
Proof. intros H. unfold occurs. by rewrite H. Qed.

(** C25. The merged index of profiles is the table of totals.  It lists exactly
    the names that some machine reported, each once, in the order of the names,
    and with each the sum of all counts reported under it, as an int64 (the counts
    are ints, and their sum may wrap around).  Neither the order in
    which the machines' replies are ranged over nor that of the merged map
    matters. *)
Theorem index_totals (stats stats' : list (string * list (string * Z)))
    (order order' : list (string * Z) -> list (string * Z)) :
  (forall l, order l ≡ₚ l) -> (forall l, order' l ≡ₚ l) -> stats ≡ₚ stats' ->
  index_All stats order = index_All stats' order' /\
  (forall n c, (n, c) ∈ index_All stats order <-> occurs n stats /\ c = wrap64 (total n stats)) /\
  NoDup (index_All stats order).*1 /\ StronglySorted by_name (index_All stats order).
Proof.
  intros Ho Ho' Hp.
  assert (Hm : aggregate stats' = aggregate stats).
  { apply map_eq. intros n. rewrite !aggregate_lookup, (total_perm n _ _ Hp).
    destruct (decide (occurs n stats)) as [Hn|Hn]; [rewrite decide_True|rewrite decide_False];
      rewrite <- ?(occurs_perm n _ _ Hp); done. }
  assert (Hnd : NoDup (order (map_to_list (aggregate stats))).*1).
  { rewrite Ho. apply NoDup_fst_map_to_list. }
  unfold index_All. split_and!.
  - rewrite Hm. apply sort_by_name_unique; [done|]. by rewrite Ho, Ho'.
  - intros n c. rewrite sort_by_name_perm, Ho, elem_of_map_to_list, aggregate_lookup.
    case_decide; naive_solver.
  - by rewrite sort_by_name_perm.
  - apply sort_by_name_sorted.
Qed.
End totals.

(** ** What the pages show *)

Section pages_theorems.
Context {EL : ErrorsLib} {Mem Disk Load : Type} `{!Inhabited Mem, !Inhabited Disk, !Inhabited Load}.
Implicit Types ms : list (string * page_machine (Mem := Mem) (Disk := Disk) (Load := Load)).

Lemma machineVars_lookup ms (a : string) :
  NoDup ms.*1 ->
  machineVars ms !! a =
    match list_find (fun x => x.1 = a) ms with
    | Some (_, x) => if pg_owner x.2 then match pg_Expvars x.2 with Ok v => Some v | Err _ => None end else None
    | None => None
    end.
Proof.
  unfold machineVars. intros Hnd.
  assert (Hg : forall (m : gmap string (list (string * string))),
    foldl (fun vars x => if pg_owner x.2 then
                           match pg_Expvars x.2 with Ok v => <[x.1 := v]> vars | Err _ => vars end
                         else vars) m ms !! a =
    match list_find (fun x => x.1 = a) ms with
    | Some (_, x) => if pg_owner x.2 then match pg_Expvars x.2 with Ok v => Some v | Err _ => m !! a end else m !! a
    | None => m !! a
    end); [|by rewrite Hg, lookup_empty].
  induction ms as [|[b p] ms IH]; intros m; [done|]. rewrite fmap_cons in Hnd.
  apply NoDup_cons in Hnd as [Hb Hnd]. cbn [foldl list_find fst snd].
  rewrite (IH Hnd). case_decide as Hba; simpl in Hba; [subst b|].
  - assert (Hnone : list_find (fun x : string * page_machine => x.1 = a) ms = None).
    { apply list_find_None, Forall_forall. intros x Hx Ha. apply Hb, list_elem_of_fmap. exists x. simpl in *. by split; [congruence|]. }
    rewrite Hnone. simpl. destruct (pg_owner p); [|done]. destruct (pg_Expvars p); [|done]. apply lookup_insert_eq.
  - assert (Hm : (if pg_owner p then match pg_Expvars p with Ok v => <[b := v]> m | Err _ => m end else m) !! a = m !! a).
    { destruct (pg_owner p); [|done]. destruct (pg_Expvars p); [|done]. by apply lookup_insert_ne. }
    simpl. rewrite Hm. by destruct (list_find _ ms) as [[i x]|].
Qed.

Lemma machineVars_spec ms (a : string) (v : list (string * string)) :
  NoDup ms.*1 ->
  machineVars ms !! a = Some v <-> exists m, (a, m) ∈ ms /\ pg_owner m = true /\ pg_Expvars m = Ok v.
Proof.
  intros Hnd. rewrite machineVars_lookup by done. split.
  - destruct (list_find _ ms) as [[i [b m]]|] eqn:Hf; [|done]. simpl.
    apply list_find_Some in Hf as (Hi & Hb & _). simpl in Hb. subst b.
    destruct (pg_owner m) eqn:Ho; [|done]. destruct (pg_Expvars m) as [w|] eqn:Hw; [|done].
    intros [= <-]. exists m. split; [by eapply list_elem_of_lookup_2|done].
  - intros (m & Hin & Ho & Hv).
    destruct (list_find (fun x => x.1 = a) ms) as [[i x]|] eqn:Hf.
    + apply list_find_Some in Hf as (Hi & Ha & _).
      assert (x = (a, m)) as ->; [|simpl; by rewrite Ho, Hv].
      apply (NoDup_names ms); try done. by eapply list_elem_of_lookup_2.
    + exfalso. eapply list_find_None, Forall_forall in Hf; [|exact Hin]. done.
Qed.

(** The entry of a machine that runs, and the error allInfo keeps. *)
Lemma status_entry_running (m : page_machine (Mem := Mem) (Disk := Disk) (Load := Load)) :
  pg_State m = Running ->
  status_entry m = match mi_err (allInfo (pg_info m)) with
                   | Some e => inl (Error e)
                   | None => inr (pg_owner m, allInfo (pg_info m))
                   end.
Proof. intros Hs. unfold status_entry. by rewrite decide_False by (by intros []). Qed.

Lemma first_error_None (a : info_answers (Mem := Mem) (Disk := Disk) (Load := Load)) :
  (forall c, call_err a c = None) -> mi_err (allInfo a) = None.
Proof.
  intros H. unfold allInfo. simpl. induction (ia_order a) as [|c l IH]; [done|]. simpl. by rewrite H.
Qed.

Lemma first_error_Some (a : info_answers (Mem := Mem) (Disk := Disk) (Load := Load)) c rest don er :
  ia_order a = don ++ c :: rest -> Forall (fun c => call_err a c = None) don -> call_err a c = Some er ->
  mi_err (allInfo a) = Some er.
Proof.
  intros Ho Hd Hc. unfold allInfo. simpl. rewrite Ho. clear Ho.
  induction Hd as [|d don Hdn Hd IH]; simpl; [by rewrite Hc|by rewrite Hdn].
Qed.

(** The debug pages of a driver.  The status page has one entry per machine,
    by address, and does not depend on the order of B.Machines: a machine that
    is not running is shown with its state and is not called, a machine of
    which all three calls succeed with their values, and otherwise with the
    error of the call that failed first.  The exported variables have an object
    for exactly the machines that this B owns and that answered - never for a
    machine that was only dialed, so that two processes that dialed one another
    do not ask each other for ever. *)
Lemma debug_pages ms ms' :
  NoDup ms.*1 -> ms ≡ₚ ms' ->
  writeStatus ms = writeStatus ms' /\ machineVars ms = machineVars ms' /\
  StronglySorted by_name (writeStatus ms) /\ (writeStatus ms).*1 ≡ₚ ms.*1 /\
  (forall a m, (a, m) ∈ ms -> exists e, (a, e) ∈ writeStatus ms /\
     (pg_State m <> Running -> e = inl ("machine state " +:+ State_String (pg_State m))) /\
     (forall x y z, pg_State m = Running -> ia_mem (pg_info m) = Ok x -> ia_disk (pg_info m) = Ok y ->
        ia_load (pg_info m) = Ok z -> exists i, e = inr (pg_owner m, i) /\ mi_MemInfo i = x /\
          mi_DiskInfo i = y /\ mi_LoadInfo i = z) /\
     (forall c rest done er, pg_State m = Running -> ia_order (pg_info m) = done ++ c :: rest ->
        Forall (fun c => call_err (pg_info m) c = None) done -> call_err (pg_info m) c = Some er ->
        e = inl (Error er))) /\
  (forall a v, machineVars ms !! a = Some v <-> exists m, (a, m) ∈ ms /\ pg_owner m = true /\ pg_Expvars m = Ok v).
Proof.
  intros Hnd Hp.
  assert (Hnd' : NoDup ms'.*1) by by rewrite <- Hp.
  split_and!.
  - unfold writeStatus. by rewrite (sort_by_name_unique ms ms').
  - apply map_eq. intros a. apply option_eq. intros v. rewrite !machineVars_spec by done.
    by setoid_rewrite Hp.
  - unfold writeStatus. eapply (StronglySorted_fmap _ by_name); [by intros|]. apply sort_by_name_sorted.
  - unfold writeStatus. rewrite <- list_fmap_compose. change (fst ∘ _) with (@fst string (page_machine (Mem := Mem) (Disk := Disk) (Load := Load))).
    by rewrite sort_by_name_perm.
  - intros a m Hin. exists (status_entry m). split_and!.
    + apply list_elem_of_fmap. exists (a, m). split; [done|]. by rewrite sort_by_name_perm.
    + intros Hs. unfold status_entry. by rewrite decide_True.
    + intros x y z Hs Hx Hy Hz. exists (allInfo (pg_info m)).
      rewrite status_entry_running by done. rewrite (first_error_None (pg_info m)).
      * unfold allInfo. simpl. rewrite Hx, Hy, Hz. done.
      * intros []; simpl; by rewrite ?Hx, ?Hy, ?Hz.
    + intros c rest don er Hs Ho Hd Hc. rewrite status_entry_running by done.
      by rewrite (first_error_Some (pg_info m) c rest don er).
  - intros a v. by apply machineVars_spec.
Qed.
End pages_theorems.

(** ** Small lemmas *)

(** The last pause of the collector is the one before its count. *)
Lemma lastpause_index_spec (n : Z) :
  (0 < n < 2 ^ 32)%Z -> lastpause_index n = ((n - 1) mod 256)%Z /\ (0 <= lastpause_index n < 256)%Z.
Proof.
  intros Hn. unfold lastpause_index. split; [|apply Z.mod_pos_bound; lia].
  rewrite Z.mod_mod_divide by (by exists (2 ^ 24)%Z).
  replace (n + 255)%Z with (n - 1 + 1 * 256)%Z by lia. by rewrite Z.mod_add.
Qed.

(** Under a prefix of its own, the index is not found: the whole path is taken
    for the name of a profile. *)
Lemma index_elsewhere : pprofIndex "/other/pprof/" = ShowsProfile "/other/pprof/".
Proof. reflexivity. Qed.

(** ** The dumps of a process *)

(** Decimal numbers are read back. *)
Lemma digits_pretty_go (n : N) (s : string) : digits (pretty_N_go n s) 0 = digits s (Z.of_N n).
Proof.
  revert s. induction (N.lt_wf_0 n) as [n _ IH]. intros s. destruct (decide (0 < n)%N) as [Hn|Hn].
  - rewrite pretty_N_go_step by done. rewrite IH by (apply N.div_lt; lia). cbn [digits].
    assert (Hd : digit (pretty_N_char (n `mod` 10)) = Some (Z.of_N (n `mod` 10))).
    { pose proof (N.mod_lt n 10 ltac:(done)) as Hlt. set (d := (n `mod` 10)%N) in *. clearbody d.
      assert (Hin : In d [0; 1; 2; 3; 4; 5; 6; 7; 8; 9]%N) by (simpl; lia).
      by repeat (destruct Hin as [<-|Hin]; [done|]). }
    rewrite Hd. f_equal. pose proof (N.div_mod n 10). lia.
  - assert (n = 0%N) as -> by lia. by rewrite pretty_N_go_0.
Qed.

Lemma digits_pretty (n : N) : digits (pretty n) 0 = Some (Z.of_N n).
Proof. unfold pretty, pretty_N. case_decide; [by subst|]. by rewrite digits_pretty_go. Qed.

Lemma pad2_inj (i j : N) : pad2 i = pad2 j -> i = j.
Proof.
  assert (H : forall n, digits (pad2 n) 0 = Some (Z.of_N n)).
  { intros n. unfold pad2. case_decide; [|apply digits_pretty]. simpl. apply digits_pretty. }
  intros Hp. pose proof (H i) as Hi. rewrite Hp, H in Hi. injection Hi. lia.
Qed.

Lemma pad2_no_dash (n : N) : has_byte "-" (pad2 n) = false.
Proof.
  assert (H : has_byte "-" (pretty n) = false).
  { apply pretty_bytes; [|done]. intros d. unfold pretty_N_char. by repeat case_match. }
  unfold pad2. case_decide; [|done]. exact H.
Qed.

(** The index of a B can be read off the name of its dump. *)
Lemma dump_names_index (i : N) (name system x : string) :
  x ∈ dump_names i name system -> exists rest, x = "bigmachine-" +:+ (pad2 i +:+ String "-" rest).
Proof.
  unfold dump_names. case_decide; [|set_solver]. cbv zeta. intros (f & -> & _)%list_elem_of_fmap.
  case_decide.
  - exists (name +:+ "-" +:+ f). by rewrite !sapp_assoc.
  - exists f. by rewrite !sapp_assoc.
Qed.

Lemma dump_names_disjoint (i j : N) (n m sys sys' x : string) :
  x ∈ dump_names i n sys -> x ∈ dump_names j m sys' -> i = j.
Proof.
  intros (r & ->)%dump_names_index (r' & Hr)%dump_names_index. injection Hr as Hr.
  change (pad2 i +:+ String "-" r = pad2 j +:+ String "-" r') in Hr.
  apply (f_equal (fun s => (SplitN2 s "-"%char).1)) in Hr. rewrite !SplitN2_app in Hr by apply pad2_no_dash.
  by apply pad2_inj.
Qed.

Lemma dump_names_NoDup (i : N) (name system : string) : NoDup (dump_names i name system).
Proof.
  unfold dump_names. case_decide; [|constructor]. cbv zeta.
  apply (NoDup_fmap_2 (String.app _)). refine (bool_decide_unpack _ _). vm_compute. exact I.
Qed.

(** Any Bs that a process starts, in the order in which they take their indexes. *)
Definition starts (l : list (string * list Option_ * run_end)) : bs :=
  foldl (fun s x => (Start x.1.1 x.1.2 x.2 s).2) no_bs l.

Record bs_inv (s : bs) : Prop := {
  bi_names : NoDup (bs_dumps s).*1;
  bi_index : forall x i d, (x, (i, d)) ∈ bs_dumps s ->
    (i < nextBIndex s)%N /\ exists name system, x ∈ dump_names i name system
}.

Lemma zip_dumps (l : list string) (i : N) (ds : list dump_func) x j d :
  (x, (j, d)) ∈ zip l ((fun d => (i, d)) <$> ds) -> x ∈ l /\ j = i.
Proof.
  intros H. split; [by apply elem_of_zip_l in H|].
  apply elem_of_zip_r in H. by apply list_elem_of_fmap in H as (? & [= -> ->] & _).
Qed.

Lemma Start_inv system opts run s : bs_inv s -> bs_inv (Start system opts run s).2.
Proof.
  intros [Hn Hi]. unfold Start. cbv zeta. set (name := foldl _ _ _).
  destruct run as [driver|msg]; cbn [snd].
  - split; cbn [bs_dumps nextBIndex].
    + rewrite fmap_app. apply NoDup_app. split; [done|]. split.
      * intros x (e & -> & He)%list_elem_of_fmap (e' & Hx & He')%list_elem_of_fmap.
        destruct e as [x [i d]], e' as [x' [j d']]. simpl in Hx. subst x'.
        apply zip_dumps in He' as [He' ->]. apply Hi in He as (Hlt & n & sy & He).
        pose proof (dump_names_disjoint _ _ _ _ _ _ _ He He'). lia.
      * rewrite fst_zip; [apply dump_names_NoDup|].
        unfold dump_names. rewrite length_fmap. case_decide; simpl; lia.
    + intros x i d [H|H]%elem_of_app.
      * destruct (Hi _ _ _ H) as [Hlt He]. split; [lia|done].
      * apply zip_dumps in H as [H ->]. split; [lia|by exists name, system].
  - split; [done|]. intros x i d H. destruct (Hi _ _ _ H) as [Hlt He]. cbn [nextBIndex]. split; [lia|done].
Qed.

Lemma starts_inv (l : list (string * list Option_ * run_end)) : bs_inv (starts l).
Proof.
  unfold starts. assert (H : bs_inv no_bs) by (split; [constructor|set_solver]).
  revert H. generalize no_bs. induction l as [|x l IH]; intros s H; [done|]. apply IH. by apply Start_inv.
Qed.

(** However many Bs a process starts, no dump takes the name of another, and the
    variable "machines" stays with the first B that published it. *)
Lemma dumps_of_process (l l' : list (string * list Option_ * run_end)) :
  NoDup (bs_dumps (starts l)).*1 /\
  forall i, bs_published (starts l) = Some i -> bs_published (starts (l ++ l')) = Some i.
Proof.
  split; [apply starts_inv|]. intros i. unfold starts. rewrite foldl_app.
  generalize (foldl (fun s x => (Start x.1.1 x.1.2 x.2 s).2) no_bs l). clear l.
  induction l' as [|x l' IH]; intros s Hs; [done|]. simpl. apply IH.
  unfold Start. cbv zeta. destruct x.2 as [driver|msg]; cbn [snd bs_published]; [|done].
  unfold publishes. rewrite Hs. rewrite (bool_decide_eq_true_2 (is_Some (Some i))) by done. by rewrite andb_false_r.
Qed.

(** ** Sample pages *)

Module Samples.

Definition sample_stats : list (string * list (string * Z)) :=
  [("m1", [("heap", 3); ("goroutine", 7)]%Z); ("m2", [("heap", 4)]%Z)].

Example sample_index : index_All sample_stats id = [("goroutine", 7); ("heap", 7)]%Z.
Proof. vm_compute. reflexivity. Qed.

Lemma index_totals_witness :
  index_All sample_stats id = index_All (reverse sample_stats) reverse /\ NoDup (index_All sample_stats id).*1.
Proof.
  destruct (index_totals sample_stats (reverse sample_stats) id reverse) as (H1 & _ & H2 & _).
  - intros l. reflexivity.
  - intros l. apply reverse_Permutation.
  - symmetry. apply reverse_Permutation.
  - split; [exact H1|exact H2].
Defined.

(** The values of a form. *)
Example sample_form :
  ParseInt <$> ["30"; "-5"; "1x"; ""; "99999999999999999999"] = [30; -5; 0; 0; 2 ^ 63 - 1]%Z.
Proof. vm_compute. reflexivity. Qed.

Example sample_dumps : dump_names 7 "eval" "local" = (fun s => "bigmachine-07-eval-" +:+ s) <$>
  ["status"; "pprof-goroutine"; "pprof-heap"; "pprof-mutex"; "pprof-profile"].
Proof. vm_compute. reflexivity. Qed.

Definition answered : info_answers (EL := SimpleErrors) (Mem := nat) (Disk := nat) (Load := nat) :=
  {| ia_order := [CallLoad; CallMem; CallDisk]; ia_mem := Ok 1; ia_disk := Ok 2; ia_load := Ok 3;
     ia_replyTimes := []; ia_nextKeepalive := 0 |}.

Definition sample_machines : list (string * page_machine (Mem := nat) (Disk := nat) (Load := nat)) :=
  [("m2", {| pg_owner := false; pg_State := Running; pg_info := answered; pg_Expvars := Ok [("k", "1")] |});
   ("m1", {| pg_owner := true; pg_State := Stopped; pg_info := answered; pg_Expvars := Ok [("k", "2")] |})].

Lemma debug_pages_sample :
  writeStatus sample_machines = writeStatus (reverse sample_machines) /\
  machineVars sample_machines = machineVars (reverse sample_machines).
Proof.
  destruct (debug_pages sample_machines (reverse sample_machines)) as (H1 & H2 & _).
  - apply NoDup_cons. split; [by intros ?%list_elem_of_singleton|apply NoDup_singleton].
  - symmetry. apply reverse_Permutation.
  - split; [exact H1|exact H2].
Defined.
End Samples.
