(* ===== verification/Status.v ===== *)
(** status.go: the text of the status page - the functions of its template, the
    template itself, and how Go prints durations.

    How package data prints a size, time a point in time and tabwriter aligns
    the columns are parameters. *)
From S2P Require Import Prelude Errors GoStrings MachineState Supervisor Cluster Profile Reports Debug.
From stdpp Require Import pretty.
From Stdlib Require Import Ascii QArith Qround Qabs.
Local Open Scope string_scope.
Local Open Scope list_scope.

(** ** Durations *)

Definition digit_char (n : N) : ascii := ascii_of_N (48 + n mod 10).

(** time.fmtFrac: up to [prec] digits after the point, without the zeros at the
    end, before the text [acc]; and what is before the point. *)
Fixpoint fmtFrac (prec : nat) (v : N) (print : bool) (acc : string) : string * N :=
  match prec with
  | O => (if print then String "."%char acc else acc, v)
  | S prec =>
      let print := print || negb (v mod 10 =? 0)%N in
      fmtFrac prec (v / 10)%N print (if print then String (digit_char v) acc else acc)
  end.

(** time.Duration.String *)
Definition Duration_String (d : Z) : string :=
  let u := Z.to_N (Z.abs d) in
  let sign := if decide (d < 0)%Z then "-" else "" in
  let small prec unit_ := let '(s, u) := fmtFrac prec u false unit_ in pretty u +:+ s in
  if decide (u = 0)%N then "0s"
  else sign +:+
    if decide (u < 1000)%N then small 0%nat "ns"
    else if decide (u < 1000000)%N then small 3%nat (String "194"%char (String "181"%char "s"))
    else if decide (u < 1000000000)%N then small 6%nat "ms"
    else
      let '(s, u) := fmtFrac 9%nat u false "s" in
      let secs := pretty (u mod 60)%N +:+ s in
      let u := (u / 60)%N in
      if decide (u = 0)%N then secs
      else
        let mins := pretty (u mod 60)%N +:+ "m" +:+ secs in
        let u := (u / 60)%N in
        if decide (u = 0)%N then mins else pretty u +:+ "h" +:+ mins.

Example durations :
  Duration_String <$> [0; 999; 1500; 2000000; 1500000000; 60000000000; -5400000000000; 3661001000000]%Z =
  ["0s"; "999ns"; "1.5" +:+ String "194"%char (String "181"%char "s"); "2ms"; "1.5s"; "1m0s"; "-1h30m0s"; "1h1m1.001s"].
Proof. vm_compute. reflexivity. Qed.

(** fmt's %.1f of a finite number: the nearest tenth, the even one of two. *)
Definition round_half_even (q : Q) : Z :=
  let f := Qfloor q in
  match Qcompare (q - inject_Z f) (1 # 2) with
  | Lt => f
  | Gt => f + 1
  | Eq => if Z.even f then f else f + 1
  end%Z.

Definition fmt1 (q : Q) : string :=
  let n := Z.to_N (Z.abs (round_half_even (Qabs q * 10))) in
  (if Qlt_le_dec q 0 then "-" else "") +:+ pretty (n / 10)%N +:+ "." +:+ pretty (n mod 10)%N.

Example tenths : fmt1 <$> [1 # 1; 99949 # 1000; 1 # 4; 3 # 4; - (5 # 4)]%Q = ["1.0"; "99.9"; "0.2"; "0.8"; "-1.2"].
Proof. vm_compute. reflexivity. Qed.

(** ** What the template shows *)

(** mem.VirtualMemoryStat, runtime.MemStats, disk.UsageStat and load.AvgStat, as
    far as they are shown; sizes and counts are uint64. *)
Record VmStat := { Total : Z; Used : Z; UsedPercent : Q; Available : Z }.
Record MemStats := { Sys : Z; Alloc : Z; PauseTotalNs : Z; PauseNs : Z -> Z; NumGC : Z }.
Record UsageStat := { d_Total : Z; d_Free : Z; d_Used : Z; d_UsedPercent : Q }.
Record AvgStat := { Load1 : Q; Load5 : Q; Load15 : Q }.

(** The zero values. *)
#[export] Instance VmStat_inhabited : Inhabited VmStat :=
  populate {| Total := 0; Used := 0; UsedPercent := 0; Available := 0 |}.
#[export] Instance MemStats_inhabited : Inhabited MemStats :=
  populate {| Sys := 0; Alloc := 0; PauseTotalNs := 0; PauseNs := fun _ => 0%Z; NumGC := 0 |}.
#[export] Instance UsageStat_inhabited : Inhabited UsageStat :=
  populate {| d_Total := 0; d_Free := 0; d_Used := 0; d_UsedPercent := 0 |}.
#[export] Instance AvgStat_inhabited : Inhabited AvgStat := populate {| Load1 := 0; Load5 := 0; Load15 := 0 |}.

Section page.
Context {EL : ErrorsLib}.
Variable Size_String : Z -> string.
Variable Time_String : Z -> string.
Variable tabwriter : string -> string.

Abbreviation info := (machineInfo (Mem := VmStat * MemStats) (Disk := UsageStat) (Load := AvgStat)).
Abbreviation TAB := (String "009"%char "").

(** The functions of the template, on a uint64. *)
Definition human (v : Z) : string := Size_String (wrap64 v).
Definition ns (v : Z) : string := Duration_String (wrap64 v).
Definition roundjoindur_text (ds : list Z) : string := GoStrings.Join (Duration_String <$> roundjoindur ds) " ".

(** A line of the template: tabs, a label, a tab and a value. *)
Definition row (label value : string) : string := TAB +:+ TAB +:+ label +:+ TAB +:+ value.

(** statusTemplate, at the time [now] of a process that started at [start]. *)
Definition statusTemplate (now start : Z) (addr : string) (owned : bool) (i : info) : list string :=
  let '(vm, rt) := mi_MemInfo i in
  let disk := mi_DiskInfo i in
  let load := mi_LoadInfo i in
  [addr] ++
  (if owned then
     [TAB +:+ "keepalive:";
      row "next:" (Time_String (mi_NextKeepalive i) +:+ " (in " +:+
                   Duration_String (mi_NextKeepalive i - now) +:+ ")");
      row "reply times:" (roundjoindur_text (mi_KeepaliveReplyTimes i))]
   else []) ++
  [TAB +:+ "memory:";
   row "total:" (human (Total vm));
   row "used:" (human (Used vm));
   row "(percent):" (fmt1 (UsedPercent vm) +:+ "%");
   row "available:" (human (Available vm));
   row "runtime:" (human (Sys rt));
   row "(alloc):" (human (Alloc rt));
   TAB +:+ "runtime:";
   row "uptime:" (Duration_String (now - start));
   row "pausetime:" (ns (PauseTotalNs rt));
   row "(last):" (ns (PauseNs rt (lastpause_index (NumGC rt))));
   TAB +:+ "disk:";
   row "total:" (human (d_Total disk));
   row "available:" (human (d_Free disk));
   row "used:" (human (d_Used disk));
   row "(percent):" (fmt1 (d_UsedPercent disk) +:+ "%");
   TAB +:+ "load: " +:+ fmt1 (Load1 load) +:+ " " +:+ fmt1 (Load5 load) +:+ " " +:+ fmt1 (Load15 load)].

(** What writeStatus prints for an entry: Fprintln of the error, or the template. *)
Definition entry_lines (now start : Z) (x : string * (string + (bool * info))) : list string :=
  match x.2 with
  | inl e => [x.1 +:+ " : " +:+ e]
  | inr (owned, i) => statusTemplate now start x.1 owned i
  end.

Definition unlines (ls : list string) : string := GoStrings.Join ((fun l => l +:+ String NEWLINE "") <$> ls) "".

Definition status_text (now start : Z) (ms : list (string * page_machine)) : string :=
  tabwriter (unlines (writeStatus ms ≫= entry_lines now start)).

(** ** Lemmas *)

(** Every machine has its own lines, which start with its address; the lines of
    its keepalives are there exactly if this driver owns it. *)
Lemma entry_lines_head now start x :
  exists rest, entry_lines now start x = (match x.2 with inl e => x.1 +:+ " : " +:+ e | inr _ => x.1 end) :: rest /\
    length rest = match x.2 with inl _ => 0 | inr (true, _) => 20 | inr (false, _) => 17 end%nat.
Proof.
  destruct x as [a [e|[[] i]]]; unfold entry_lines, statusTemplate; cbn [fst snd];
    try destruct (mi_MemInfo i); by eexists.
Qed.

(** The page is the texts of the machines, in the order of their addresses. *)
Lemma status_text_entries now start (ms ms' : list (string * page_machine)) :
  NoDup ms.*1 -> ms ≡ₚ ms' -> status_text now start ms = status_text now start ms'.
Proof.
  intros Hnd Hp. unfold status_text, writeStatus. by rewrite (sort_by_name_unique ms ms').
Qed.

(** Sizes below 2^63 are shown as they are, and so is a pause. *)
Lemma human_small (v : Z) : (0 <= v < 2 ^ 63)%Z -> human v = Size_String v /\ ns v = Duration_String v.
Proof. intros Hv. unfold human, ns. by rewrite wrap64_id by (unfold in_int64; lia). Qed.
End page.

(** ** A sample page *)

Module Samples.

Definition bytes (n : Z) : string := pretty n +:+ "B".

Definition sample_info : machineInfo (EL := SimpleErrors) (Mem := VmStat * MemStats) (Disk := UsageStat) (Load := AvgStat) :=
  {| mi_err := None;
     mi_MemInfo := ({| Total := 100; Used := 80; UsedPercent := 80; Available := 15 |},
                    {| Sys := 9; Alloc := 4; PauseTotalNs := 2500; PauseNs := fun i => i; NumGC := 3 |});
     mi_DiskInfo := {| d_Total := 500; d_Free := 400; d_Used := 100; d_UsedPercent := 20 |};
     mi_LoadInfo := {| Load1 := 1 # 2; Load5 := 1 # 4; Load15 := 0 |};
     mi_KeepaliveReplyTimes := [3999999; 1000000]%Z; mi_NextKeepalive := 90000000000 |}.

Example sample_lines :
  take 4 (entry_lines bytes (fun t => "T") 30000000000 0 ("https://m1/", inr (true, sample_info))) =
    let t := String "009"%char "" in
    ["https://m1/"; t +:+ "keepalive:"; t +:+ t +:+ "next:" +:+ t +:+ "T (in 1m0s)";
     t +:+ t +:+ "reply times:" +:+ t +:+ "3ms 1ms"].
Proof. vm_compute. reflexivity. Qed.

End Samples.
