(* ===== verification/Oom.v ===== *)
(** cmd/bigoom, which tests what happens when a machine runs out of memory, and
    cmd/ec2boot: programs on top of Machine.RetryCall (MachineLoop.v), the OOM
    monitor (MachineMonitors.v) and Start (Debug.v).

    oom.Try takes memory until the kernel kills the process, so the call of the
    service never comes to an end of its own. *)
From S2P Require Import Prelude Errors GoStrings Wire MachineState MachineLoop MachineMonitors Cluster Debug.
Local Open Scope string_scope.
Local Open Scope list_scope.
Local Open Scope bm_scope.

(** ** cmd/ec2boot *)

(** main, given how B.run ends: the text of log.Fatal.  On an instance B.run does
    not return. *)
Definition ec2boot (run : run_end) (s : bs) : string :=
  match run, Debug.Start "ec2" [] run s with
  | Fatal msg, _ => msg
  | Returned _, _ => "bigmachine.Start returned"
  end.

(** ** cmd/bigoom *)

Section bigoom.
Context {EL : ErrorsLib} {env : MachineEnv}.

(** How bigoom ends: it panics, it calls log.Fatal, or it prints the state of the
    machine that came up, and in the end the error of the call and that of the
    machine. *)
Inductive bigoom_end :=
| OPanics (msg : string)
| OFatal (e : error)
| OPrints (st : State) (call_error machine_error : option error).

(** <-m.Wait(Running): until the state is at least Running. *)
Definition wait_running (fuel : nat) : Pr unit :=
  iterate fuel (fun _ : unit =>
    st <- ask env_state AReadState ;;
    if decide (State_val Running <= State_val st)%Z then mret (inr tt) else mret (inl tt)) tt.

(** main, given what b.Start returned: the addresses of the machines. *)
Definition bigoom (fuel : nat) (started : result error (list string)) : Pr bigoom_end :=
  match started with
  | Err e => mret (OFatal e)
  | Ok [] => mret (OPanics "index out of range")
  | Ok (addr :: _) =>
      wait_running fuel ;;;
      st <- ask env_state AReadState ;;
      e <- mget (fun s => env_err (trace s)) ;;
      match e with
      | Some e => mret (OFatal e)
      | None =>
          r <- RetryCall fuel None addr "OOM.Try" CUnit ;;
          e <- mget (fun s => env_err (trace s)) ;;
          mret (OPrints st (result_err r) e)
      end
  end.

(** ** What it prints *)

(** The calls made so far. *)
Definition is_try (a : action) : bool :=
  match a with ACall m _ _ _ => bool_decide (m = "OOM.Try") | _ => false end.

Definition attempted (tr : list action) : nat := length (filter (fun a => is_try a = true) tr).

(** The machine is killed during the k-th call: until then it is running, and
    then it is stopped with the error of its monitor.  The calls fail for the
    time being, as those over a connection that breaks do, and the driver's
    context never ends. *)
Record killed_in (k : nat) (oom : error) : Prop := {
  k_state : forall tr, env_state tr = if decide (attempted tr < k) then Running else Stopped;
  k_err : forall tr, env_err tr = if decide (attempted tr < k) then None else Some oom;
  k_call : forall tr, exists e, env_call tr "OOM.Try" CUnit None = Err e /\ IsTemporary e = true;
  k_returns : forall tr, env_hangs tr "OOM.Try" CUnit = false;
  k_wait : forall tr i, env_retryWait tr None i = None
}.

Lemma attempted_app tr tr' : attempted (tr ++ tr') = attempted tr + attempted tr'.
Proof. unfold attempted. by rewrite filter_app, length_app. Qed.

Lemma attempted_snoc tr a : attempted (tr ++ [a]) = (if is_try a then S else id) (attempted tr).
Proof.
  rewrite attempted_app. unfold attempted at 2. rewrite filter_cons, filter_nil.
  destruct (is_try a); simpl; lia.
Qed.

(** All errors that the monitor sets are the same. *)
Lemma monitor_error getpid read e : e ∈ tryMonitorOOMs getpid read -> e = oom_error.
Proof.
  unfold tryMonitorOOMs. destruct getpid; [|set_solver]. destruct read; [|set_solver].
  intros (t & _ & Ht)%list_elem_of_omap. simpl in Ht. by destruct (Contains _ _); simplify_eq.
Qed.

#[local] Arguments stoppedError : simpl never.

Section killed.
Context {LW : ErrorsLaws EL} (k : nat) (oom : error) (Hk : killed_in k oom).

Lemma stoppedError_final addr e : IsTemporary (stoppedError addr e) = false.
Proof using LW.
  destruct e; unfold stoppedError; erewrite IsTemporary_E by done; apply bool_decide_eq_false; naive_solver.
Qed.

(** A call before the end was made and fails, for the time being or because the
    machine has stopped meanwhile; one after it is not made. *)
Lemma Call_killed fuel addr s :
  match Call (S fuel) None addr "OOM.Try" CUnit s with
  | Looping _ => False
  | Done (Ok _) _ => False
  | Done (Err e) s' =>
      if decide (attempted (trace s) < k) then
        attempted (trace s') = S (attempted (trace s)) /\
        (IsTemporary e = true \/ e = stoppedError addr (Some oom) /\ k <= attempted (trace s'))
      else e = stoppedError addr (Some oom) /\ attempted (trace s') = attempted (trace s)
  end.
Proof using Hk.
  destruct Hk as [Hs He Hc Hh _]. destruct (Call _ _ _ _ _ s) as [r s'|s'] eqn:Hrun;
    unfold Call in Hrun; simpl in Hrun; unfold Call_body at 1, Call_stopped, call, ask, act in Hrun; run_prog;
    rewrite Hs, ?Hh in Hrun; (destruct (decide (attempted (trace s) < k)) as [Hlt|Hge]; simplify_eq/=);
    try (destruct (Hc ((trace s ++ [AReadState Running]) ++ [AContext])) as (e & Ecall & Htmp);
         rewrite Hh in Hrun; simpl in Hrun; rewrite Ecall, decide_False in Hrun by done).
  - case_decide as Hce; simplify_eq/=; [|case_decide as Hst; simplify_eq/=];
      rewrite !attempted_snoc; cbn; (split; [done|]); [by left|by left|].
    right. rewrite Hs, !attempted_snoc in Hst. cbn in Hst.
    rewrite He, !attempted_snoc. cbn. case_decide; [done|]. split; [done|lia].
  - rewrite He, !attempted_snoc. cbn. by rewrite decide_False.
  - case_decide; simplify_eq/=. case_decide; simplify_eq/=.
Qed.

Lemma RetryCall_killed f addr n i s :
  k <= attempted (trace s) + n ->
  exists s',
    iterate (S n) (fun retries =>
      r <- Call (S f) None addr "OOM.Try" CUnit ;;
      match r with
      | Ok rep => mret (inr (Ok rep))
      | Err e =>
          if negb (IsTemporary e) then mret (inr (Err e))
          else
            we <- ask (fun tr => env_retryWait tr None retries) (ARetryWait None retries) ;;
            match we with
            | Some e' => mret (inr (Err (E [ASev Errors.Fatal; AErr e'])))
            | None => mret (inl (S retries))
            end
      end) i s = Done (Err (stoppedError addr (Some oom)) : result error reply) s' /\
    k <= attempted (trace s').
Proof using Hk LW.
  revert i s. induction n as [|n IH]; intros i s Hn; pose proof (Call_killed f addr s) as Hc;
    simpl; unfold ask, act; run_prog;
    destruct (Call _ _ _ _ _ s) as [[rep|e] s'|s']; try done.
  - rewrite decide_False in Hc by lia. destruct Hc as [-> Ha]. rewrite stoppedError_final. simpl.
    eexists. split; [done|lia].
  - destruct (IsTemporary e) eqn:Ht; simpl.
    + rewrite (k_wait k oom Hk). case_decide.
      * destruct Hc as [Ha _]. apply IH. simpl. rewrite attempted_snoc. cbn. lia.
      * destruct Hc as [-> _]. by rewrite stoppedError_final in Ht.
    + assert (He : e = stoppedError addr (Some oom) /\ k <= attempted (trace s')).
      { case_decide; destruct Hc as [Ha Hc]; [|split; [done|lia]].
        destruct Hc as [Hc|Hc]; [congruence|done]. }
      destruct He as [-> Ha]. eexists. split; [done|lia].
Qed.

(** bigoom ends and prints what happened to its machine: whatever the number of
    calls that fail before the monitor stops the machine, the error of the call
    is the final one that names the machine as stopped, and that of the machine
    is the monitor's.  (If the machine is stopped before main looks at it, main
    ends with the monitor's error at once.) *)
Lemma bigoom_reports fuel addr rest s :
  k < fuel -> attempted (trace s) = 0 ->
  exists s', bigoom fuel (Ok (addr :: rest)) s =
    Done (if decide (k = 0) then OFatal oom
          else OPrints Running (Some (stoppedError addr (Some oom))) (Some oom)) s'.
Proof using Hk LW.
  intros Hf Ha. destruct fuel as [|f]; [lia|].
  assert (Hw : wait_running (S f) s = Done tt (mkLw (shared s) (trace s ++ [AReadState (env_state (trace s))]))).
  { unfold wait_running, ask, act. simpl. run_prog. rewrite (k_state k oom Hk).
    destruct (decide (attempted (trace s) < k)); by rewrite decide_True by (simpl; lia). }
  unfold bigoom, ask, act. unfold mbind at 1. rewrite Hw. unfold mbind at 1, mbind at 1, mbind at 1.
  unfold mret at 1, mget at 1, mput at 1. cbv beta iota. cbn [trace shared].
  set (st := env_state (trace s ++ _)). set (s1 := mkLw _ _).
  assert (Ha1 : attempted (trace s1) = 0) by (unfold s1; cbn [trace]; by rewrite !attempted_snoc).
  unfold mbind at 1, mget at 1. rewrite (k_err k oom Hk), Ha1. destruct (decide (k = 0)) as [->|Hne].
  - rewrite decide_False by lia. by eexists.
  - rewrite decide_True by lia. destruct (RetryCall_killed f addr f 0 s1) as (s' & Hr & Hk'); [lia|].
    unfold mbind at 1, RetryCall. rewrite Hr. unfold mbind, mget, mret. rewrite (k_err k oom Hk).
    rewrite decide_False by lia. exists s'. unfold st.
    rewrite (k_state k oom Hk), attempted_snoc. cbn. by rewrite Ha, decide_True by lia.
Qed.
End killed.

(** With the monitor: when the machine is stopped by an error that the monitor of
    the kernel log sets, the machine's error that bigoom prints is of kind OOM,
    and the error of the call is Unavailable and Fatal, so nobody retries it. *)
Lemma bigoom_oom {LW : ErrorsLaws EL} k oom getpid read fuel addr rest s :
  oom ∈ tryMonitorOOMs getpid read -> killed_in k oom ->
  0 < k < fuel -> attempted (trace s) = 0 ->
  exists ce s', bigoom fuel (Ok (addr :: rest)) s = Done (OPrints Running (Some ce) (Some oom)) s' /\
    Is OOM oom = true /\ Is Unavailable ce = true /\ Match (E [ASev Errors.Fatal]) ce = true.
Proof.
  intros Hin Hk [Hk0 Hf] Ha. destruct (bigoom_reports k oom Hk fuel addr rest s) as (s' & Hr); [done..|].
  rewrite decide_False in Hr by lia. eexists _, s'. split; [exact Hr|].
  rewrite (monitor_error _ _ _ Hin). unfold oom_error, stoppedError. split_and!.
  - erewrite Is_E by done. by apply bool_decide_eq_true.
  - erewrite Is_E by done. by apply bool_decide_eq_true.
  - erewrite Match_Fatal_E by done. by apply bool_decide_eq_true.
Qed.
End bigoom.

(** On an instance bigmachine.Start does not return while all goes well; when it
    does, ec2boot exits with an error in any case. *)
Example ec2boot_driver : ec2boot (Returned true) no_bs = "bigmachine.Start returned".
Proof. reflexivity. Qed.

(** ** A run *)

Module Samples.

Definition lost : error (ErrorsLib := SimpleErrors) := E [AKind Net; ASev Temporary; AMsg "connection reset"].

(** A machine that is killed during the second call. *)
#[local] Instance killed : MachineEnv (EL := SimpleErrors) := {|
  env_call := fun _ _ _ _ => Err lost;
  env_hangs := fun _ _ _ => false;
  env_retryWait := fun _ _ _ => None;
  env_now := fun _ => 0%Z;
  env_select := fun _ => None;
  env_state := fun tr => if decide (attempted tr < 2) then Running else Stopped;
  env_err := fun tr => if decide (attempted tr < 2) then None else Some oom_error;
  env_ctxErr := fun tr => if decide (attempted tr < 2) then None else Some Canceled;
  env_waitRunning := fun _ => None;
  env_file := fun _ _ _ => None;
  env_suffix := fun _ => "";
  env_Self := fun _ => Ok 0;
  env_Stat := fun _ _ _ => None;
  env_Open := fun _ _ _ _ => Ok 0;
  os_Args := [];
  Duration_String := fun _ => "";
  env_range := fun _ m => map_to_list m;
  env_range_perm := fun _ m => reflexivity (map_to_list m)
|}.

Example killed_run :
  killed_in 2 oom_error /\
  exists ce s', bigoom 3 (Ok ["https://m/"]) (start_lw "https://m/") =
    Done (OPrints Running (Some ce) (Some oom_error)) s' /\ Is OOM oom_error = true /\
    Is Unavailable ce = true /\ Match (E [ASev Errors.Fatal]) ce = true.
Proof.
  assert (Hk : killed_in 2 oom_error) by (split; [done|done|by eexists|done|done]).
  split; [done|].
  apply (bigoom_oom 2 oom_error (Ok 1234%N)
    (Ok (buffer (text_of (ktext <$> MachineMonitors.Samples.kmsg))))); [|done|lia|done].
  vm_compute. by left.
Qed.

End Samples.
