(* ===== verification/Observe.v ===== *)
(** How a driver observes its machines: the reports of the supervisor
    (supervisor.go, Reports.v) as methods of the rpc.Server of a machine, the
    calls of the driver that ask for them (machine.go, status.go, expvar.go,
    profile.go and the index of bigmachine.go) through the RPC client, and what
    the debug pages of Debug.v and Profile.v are made of then.

    A call finds its machine Running and its client in any state; the network may
    lose each request and each reply, and cut each profile. *)
From S2P Require Import Prelude Errors GoStrings Wire RpcServer RpcClient RpcRoundtrip RpcRefine MachineState Supervisor Bootstrap Stack Filebuf Profile Reports Debug.
From Stdlib Require Import Ascii.
Local Open Scope string_scope.
Local Open Scope list_scope.
Local Open Scope Z_scope.

Section observe.
Context {EL : ErrorsLib} {G : Gob} {GL : GobLaws EL G} {GP : GobPointers} {W : Type}.

(** Statistics of the memory and of the Go runtime, of the disk and of the load. *)
Context {Vm Rt Du La : Type} `{!Inhabited Du, !Inhabited La}.
Context `{!Codable Z, !Codable bool, !Codable unit, !Codable profileRequest, !Codable Du, !Codable La,
          !Codable (option Vm * option Rt), !Codable (list (string * Z)), !Codable (list (string * string))}.

(** ** The machine *)

(** What the operating system and the runtime answer to the supervisor: the
    statistics, the profiles with their counts, pprof.Lookup with what WriteTo
    writes, whether a CPU profile can be started, when the request ends before
    it is done, and what was profiled; and the exported variables. *)
Record readings := {
  rd_runtime : Rt;
  rd_vm : result error Vm;
  rd_disk : result error Du;
  rd_load : result error La;
  rd_profiles : list (string * Z);
  rd_lookup : string -> option (Z -> string * option error);
  rd_cpu_start : option error;
  rd_cpu_done : option (Z * error);
  rd_cpu : Z -> string;
  rd_now : Z;
  rd_expvars : list (string * string)
}.
Variable read : W -> readings.

(** How such a method ends: with an error, with a value stored through its
    reply, or with a stream stored there. *)
Inductive report :=
| RFail (e : error)
| RValue (v : gval)
| RStream (s : stream error)
| RNothing.

(** A method of the supervisor that leaves the process as it is. *)
Definition reporter (n : string) (argT replyT : GoType) (f : margv -> W -> report) : reflect_Method W :=
  {| m_Name := n; m_PkgPath := "";
     m_In := [TPtr (TStruct "Supervisor"); typeOfContext; argT; TPtr replyT];
     m_Out := [typeOfError];
     m_Call := fun a rv w =>
       match f a w, rv with
       | RFail e, _ => (Returned (Some e), rv, w)
       | RValue v, ReplyValue p => (Returned None, ReplyValue (SetElem p v), w)
       | RStream s, ReplyStream _ => (Returned None, ReplyStream (Some {| rc_stream := s; rc_flush := false |}), w)
       | _, _ => (Returned None, rv, w)
       end |}.

(** On its typed argument; reflection passes no other. *)
Definition asking {A} `{!Codable A} (f : A -> W -> report) (a : margv) (w : W) : report :=
  match a with
  | ArgValue v => match dec v with Some x => f x w | None => RNothing end
  | ArgBody _ => RNothing
  end.

Definition of_result {A} `{!Codable A} (r : result error A) : report :=
  match r with Ok x => RValue (enc x) | Err e => RFail e end.
Definition of_stream (r : result error (stream error)) : report :=
  match r with Ok s => RStream s | Err e => RFail e end.

(** What the reporting methods of Reports.v make of the readings.  The context
    of a request has no deadline. *)
Definition mem_reading (readMemStats : bool) (w : W) : result error (option Vm * option Rt) :=
  Reports.MemInfo readMemStats (rd_runtime (read w)) (rd_vm (read w)) (None, None).
Definition profile_reading (c : profile_call) (w : W) : result error (stream error) :=
  match c with
  | CallCPUProfile dur =>
      CPUProfile_stream None (rd_now (read w)) dur (rd_cpu_start (read w)) (rd_cpu_done (read w)) (rd_cpu (read w))
  | CallProfile n d g =>
      (Reports.Profile {| pq_Name := n; pq_Debug := d; pq_GC := g |} (rd_lookup (read w) n)).2
  end.

Definition MemInfo_ := reporter "MemInfo" (go_type bool) (go_type (option Vm * option Rt))
  (asking (fun (b : bool) w => of_result (mem_reading b w))).
Definition DiskInfo_ := reporter "DiskInfo" (go_type unit) (go_type Du)
  (asking (fun (_ : unit) w => of_result (Reports.DiskInfo (rd_disk (read w))))).
Definition LoadInfo_ := reporter "LoadInfo" (go_type unit) (go_type La)
  (asking (fun (_ : unit) w => of_result (Reports.LoadInfo (rd_load (read w))))).
Definition Profiles_ := reporter "Profiles" (go_type unit) (go_type (list (string * Z)))
  (asking (fun (_ : unit) w => of_result (Ok (Reports.Profiles (rd_profiles (read w)) [])))).
Definition Expvars_ := reporter "Expvars" (go_type unit) (go_type (list (string * string)))
  (asking (fun (_ : unit) w => of_result (Ok (Reports.Expvars (rd_expvars (read w)) [])))).
Definition Profile_ := reporter "Profile" (go_type profileRequest) typeOfReadCloser
  (asking (fun req w => of_stream (profile_reading (CallProfile (pq_Name req) (pq_Debug req) (pq_GC req)) w))).
Definition CPUProfile_ := reporter "CPUProfile" (go_type Z) typeOfReadCloser
  (asking (fun (dur : Z) w => of_stream (profile_reading (CallCPUProfile dur) w))).

Definition reporters : list (reflect_Method W) :=
  [MemInfo_; DiskInfo_; LoadInfo_; Profiles_; Expvars_; Profile_; CPUProfile_].

(** A server whose supervisor has these methods. *)
Definition offers (srv : Server W) : Prop :=
  exists ms, RpcServer.services srv !! "Supervisor" = Some {| name := "Supervisor"; methods := RpcServer.Init ms |} /\
    NoDup (m_Name <$> ms) /\ reporters ⊆ ms.

(** ** The driver's calls *)

Variable url_path : string -> string.
Variable flush : transport.

(** The error with which a driver gives up a read that blocks: that of its
    context, when that ends. *)
Variable hung : error.

(** A machine as its driver reaches it: its process and its server; what the
    network does to the call of each method, the client as it then is, which
    other calls change at the same time, and where a profile is cut; the order in
    which the calls of the status page end; what the driver knows of the machine,
    and the temporary file for its profile. *)
Record node := {
  n_owner : bool;
  n_State : State;
  n_world : W;
  n_srv : Server W;
  n_fate : string -> fate;
  n_client : string -> Client;
  n_cut : option (nat * error);
  n_order : list info_call;
  n_times : list Z;
  n_next : Z;
  n_buf : new_answers
}.

Definition ask_job (a : string) (nd : node) (m : reflect_Method W) (arg : call_arg) (rp : call_reply) : job :=
  {| j_addr := a; j_target := {| t_service := "Supervisor"; t_method := m_Name m |};
     j_arg := arg; j_reply := rp; j_fate := n_fate nd (m_Name m); j_method := new_method m |}.

(** Machine.Call of the method [m]. *)
Definition ask_node (a : string) (nd : node) (m : reflect_Method W) (arg : call_arg) (rp : call_reply) : called :=
  (run_job url_path (n_srv nd) flush (ask_job a nd m arg rp) (n_client nd (m_Name m)) (n_world nd)).1.1.

(** The value that the caller finds in its variable. *)
Definition fetch {A B} `{!Codable A, !Codable B, !Inhabited B} (a : string) (nd : node) (m : reflect_Method W)
    (x : A) : result error B :=
  let res := ask_node a nd m (ArgAny (enc x)) (ReplyAny (NewValue (go_type B))) in
  match ca_err res with
  | Some e => Err e
  | None => Ok (default inhabitant (dec (Deref (default nil_target (ca_reply res)))))
  end.

(** Machine.MemInfo, Machine.DiskInfo and Machine.LoadInfo; the calls of
    pprofIndex and of machineVars. *)
Definition MemInfo (a : string) (nd : node) (readMemStats : bool) : result error (option Vm * option Rt) :=
  fetch a nd MemInfo_ readMemStats.
Definition DiskInfo (a : string) (nd : node) : result error Du := fetch a nd DiskInfo_ tt.
Definition LoadInfo (a : string) (nd : node) : result error La := fetch a nd LoadInfo_ tt.
Definition fetch_Profiles (a : string) (nd : node) : result error (list (string * Z)) := fetch a nd Profiles_ tt.
Definition fetch_Expvars (a : string) (nd : node) : result error (list (string * string)) := fetch a nd Expvars_ tt.

(** getProfile: the stream that the caller reads. *)
Definition response_stream (r : response error) : stream error :=
  {| st_chunks := st_chunks (resp_Body r); st_end := if endless r then Some hung else stream_end r |}.

Definition profile_method (c : profile_call) : reflect_Method W :=
  match c with CallCPUProfile _ => CPUProfile_ | CallProfile _ _ _ => Profile_ end.
Definition profile_arg (c : profile_call) : call_arg :=
  match c with
  | CallCPUProfile dur => ArgAny (enc dur)
  | CallProfile n d g => ArgAny (enc {| pq_Name := n; pq_Debug := d; pq_GC := g |})
  end.

Definition fetch_profile (a : string) (nd : node) (c : profile_call) : result error (stream error) :=
  let res := ask_node a nd (profile_method c) (profile_arg c) ReplyReadCloser in
  match ca_err res with
  | Some e => Err e
  | None =>
      let s := from_option response_stream (buffer "") (ca_stream res) in
      Ok (match n_cut nd with Some (n, e) => cut_at n e s | None => s end)
  end.

(** ** The pages *)

(** A machine as the pages of Debug.v and Profile.v see it. *)
Definition page_of (x : string * node) : page_machine (Mem := option Vm * option Rt) (Disk := Du) (Load := La) :=
  let '(a, nd) := x in
  {| pg_owner := n_owner nd; pg_State := n_State nd;
     pg_info := {| ia_order := n_order nd; ia_mem := MemInfo a nd true; ia_disk := DiskInfo a nd;
                   ia_load := LoadInfo a nd; ia_replyTimes := n_times nd; ia_nextKeepalive := n_next nd |};
     pg_Expvars := fetch_Expvars a nd |}.

Definition pages (ms : list (string * node)) := (fun x => (x.1, page_of x)) <$> ms.

Definition index_replies (ms : list (string * node)) : list (string * result error (list (string * Z))) :=
  (fun x => (x.1, fetch_Profiles x.1 x.2)) <$> ms.

Definition profiled (x : string * node) : pmachine :=
  {| pm_Addr := x.1; pm_State := n_State x.2; pm_fetch := fetch_profile x.1 x.2; pm_buf := n_buf x.2 |}.

(** ** One call *)

(** What a driver gets for a reading [r] of a machine, over a network that does
    [f] to the call: the value itself; its error as a remote one; or an error of
    the connection. *)
Definition shows {A : Type} (f : fate) (r got : result error A) : Prop :=
  match got with
  | Ok x => f = Holds /\ r = Ok x
  | Err e2 =>
      match f with
      | Holds => exists e, r = Err e /\ remote_error e e2
      | RpcRefine.LostRequest e | RpcRefine.LostReply e => e2 = as_called e
      end
  end.

(** net/url: the paths of the URLs made from the address of a machine. *)
Definition routed (a : string) (nd : node) : Prop :=
  forall m, exists pre,
    url_path (TrimRight a SLASH +:+ prefix (n_client nd m) +:+ "Supervisor." +:+ m) = method_path pre "Supervisor" m.

Definition observable (x : string * node) : Prop := offers (n_srv x.2) /\ routed x.1 x.2.

Lemma reporter_new n argT replyT f :
  new_method (reporter n argT replyT f) =
    {| method_ := reporter n argT replyT f; arg := argT; RpcServer.reply := TPtr replyT |}.
Proof. done. Qed.

Lemma node_leads a nd n argT replyT f :
  offers (n_srv nd) -> routed a nd -> reporter n argT replyT f ∈ reporters -> has_byte SLASH n = false ->
  leads_to url_path (n_srv nd) {| t_service := "Supervisor"; t_method := n |}
    (TrimRight a SLASH +:+ prefix (n_client nd n) +:+ serviceMethod {| t_service := "Supervisor"; t_method := n |})
    (new_method (reporter n argT replyT f)).
Proof.
  intros (ms & Hsvc & Hnd & Hsub) Hr Hin Hn.
  split; [done|]. split; [done|]. split; [done|]. split; [apply Hr|].
  eexists. split; [exact Hsvc|]. simpl. apply Init_spec; [done|].
  eexists _, argT, (TPtr replyT). split; [by apply Hsub|]. split; [done|]. split; [|done].
  split; [done|]. split; [done|]. split; [done|]. by eexists.
Qed.

(** A value that is asked for with an argument of type A. *)
Lemma asked {A} `{!Codable A} (m : method W) (x : A) :
  arg m = go_type A -> arg_fits m (ArgAny (enc x)) /\ received m (ArgAny (enc x)) = ArgValue (indirect (enc x)).
Proof.
  intros Hm. destruct (go_type_plain (A := A)) as (Hp & Hr & _). simpl. rewrite Hm.
  rewrite !decide_False by done. split; [|done]. split; [done|]. split; [apply enc_ok|apply enc_fits].
Qed.

Lemma asking_enc {A} `{!Codable A} (f : A -> W -> report) x w : asking f (ArgValue (indirect (enc x))) w = f x w.
Proof. unfold asking. by rewrite dec_enc. Qed.

Lemma reply_value {B} `{!Codable B} n argT f :
  exists p, new_reply (new_method (reporter n argT (go_type B) f)) = ReplyValue p.
Proof.
  destruct (go_type_plain (A := B)) as (_ & _ & Hc). unfold new_reply. rewrite reporter_new.
  cbn [RpcServer.reply Elem]. rewrite decide_False by done. by eexists.
Qed.

(** A reporter of values, called with an argument of its type. *)
Section values.
Context {A B : Type} `{!Codable A, !Codable B, !Inhabited B}.
Variables (n : string) (f : A -> W -> result error B).
#[local] Abbreviation m := (reporter n (go_type A) (go_type B) (asking (fun y w => of_result (f y w)))).

Lemma value_run (x : A) w :
  exists rv, method_run (new_method m) (ArgAny (enc x)) w =
    (match f x w with Ok _ => Returned None | Err e => Returned (Some e) end, rv, w) /\
    (forall rc, rv <> ReplyStream (Some rc)) /\
    forall y, f x w = Ok y -> exists p, rv = ReplyValue (SetElem p (enc y)).
Proof.
  destruct (reply_value (B := B) n (go_type A) (asking (fun y w => of_result (f y w)))) as [p Hp].
  unfold method_run. rewrite Hp. destruct (asked (new_method m) x eq_refl) as [_ ->].
  rewrite reporter_new. cbn [method_ m_Call reporter]. rewrite asking_enc.
  unfold of_result. destruct (f x w) as [y|e]; eexists; (split; [done|]); split; try done.
  intros ? [= <-]. by eexists.
Qed.

Lemma value_job_ok a nd (x : A) :
  offers (n_srv nd) -> routed a nd -> m ∈ reporters -> has_byte SLASH n = false ->
  job_ok url_path (n_srv nd) (prefix (n_client nd n))
    (ask_job a nd m (ArgAny (enc x)) (ReplyAny (NewValue (go_type B)))).
Proof.
  intros Ho Hr Hin Hn. split; [by apply node_leads|]. split; [exact (proj1 (asked (new_method m) x eq_refl))|].
  intros w. cbn [ask_job j_method j_arg j_reply].
  destruct (value_run x w) as (rv & -> & Hs & Hv). cbn [fst snd]. unfold answerable.
  destruct (f x w) as [y|e]; cbn [method_error].
  - destruct (Hv y eq_refl) as [p ->]. rewrite Encode_SetElem. split; [apply enc_ok|].
    apply fits_SetElem, enc_fits.
  - split; [done|]. apply Encode_Recover.
Qed.

Lemma fetch_shows a nd (x : A) :
  offers (n_srv nd) -> routed a nd -> m ∈ reporters -> has_byte SLASH n = false ->
  shows (n_fate nd n) (f x (n_world nd)) (fetch (A := A) (B := B) a nd m x).
Proof.
  intros Ho Hr Hin Hn. pose proof (value_job_ok a nd x Ho Hr Hin Hn) as Hok.
  pose proof (job_refines url_path (n_srv nd) flush _ _ (n_client nd n) (n_world nd) eq_refl Hok) as H.
  unfold fetch, ask_node. cbn [m_Name reporter].
  destruct (run_job _ _ _ _ _ _) as [[res c'] st']. cbn [fst snd].
  unfold spec_job in H. cbn [ask_job j_fate j_method j_arg j_reply m_Name reporter] in H.
  unfold shows. destruct (n_fate nd n) as [|e|e].
  - destruct (value_run x (n_world nd)) as (rv & Hrun & Hs & Hv). rewrite Hrun in H. destruct H as (Hobs & _).
    simpl in Hobs. destruct (f x (n_world nd)) as [y|e].
    + destruct (Hv y eq_refl) as [p ->]. destruct Hobs as [-> ->]. simpl.
      by rewrite Deref_SetElem, indirect_SetElem, dec_enc.
    + destruct Hobs as [(e2 & -> & He) _]. by exists e.
  - destruct H as ((-> & _) & _). done.
  - destruct (method_run _ _ _) as [[? ?] ?]. destruct H as ((-> & _) & _). done.
Qed.
End values.

(** A reporter of streams. *)
Section streams.
Context {A : Type} `{!Codable A}.
Variables (n : string) (f : A -> W -> result error (stream error)).
#[local] Abbreviation m := (reporter n (go_type A) typeOfReadCloser (asking (fun y w => of_stream (f y w)))).

Lemma stream_run (x : A) w :
  method_run (new_method m) (ArgAny (enc x)) w =
    match f x w with
    | Ok s => (Returned None, ReplyStream (Some {| rc_stream := s; rc_flush := false |}), w)
    | Err e => (Returned (Some e), ReplyStream None, w)
    end.
Proof.
  unfold method_run. destruct (asked (new_method m) x eq_refl) as [_ ->].
  unfold new_reply. rewrite reporter_new. cbn [RpcServer.reply Elem method_ m_Call reporter].
  rewrite decide_True by done. rewrite asking_enc. by destruct (f x w).
Qed.

Lemma stream_job_ok a nd (x : A) :
  offers (n_srv nd) -> routed a nd -> m ∈ reporters -> has_byte SLASH n = false ->
  job_ok url_path (n_srv nd) (prefix (n_client nd n)) (ask_job a nd m (ArgAny (enc x)) ReplyReadCloser).
Proof.
  intros Ho Hr Hin Hn. split; [by apply node_leads|]. split; [exact (proj1 (asked (new_method m) x eq_refl))|].
  intros w. cbn [ask_job j_method j_arg j_reply]. rewrite stream_run.
  destruct (f x w) as [s|e]; [done|]. split; [done|]. apply Encode_Recover.
Qed.

Lemma stream_shows a nd (x : A) :
  offers (n_srv nd) -> routed a nd -> m ∈ reporters -> has_byte SLASH n = false ->
  let res := ask_node a nd m (ArgAny (enc x)) ReplyReadCloser in
  match ca_err res with
  | None => exists s r, n_fate nd n = Holds /\ f x (n_world nd) = Ok s /\ ca_stream res = Some r /\
              delivers flush {| rc_stream := s; rc_flush := false |} r
  | Some e => shows (n_fate nd n) (f x (n_world nd)) (Err e)
  end.
Proof.
  intros Ho Hr Hin Hn. pose proof (stream_job_ok a nd x Ho Hr Hin Hn) as Hok.
  pose proof (job_refines url_path (n_srv nd) flush _ _ (n_client nd n) (n_world nd) eq_refl Hok) as H.
  unfold ask_node. cbn [m_Name reporter].
  destruct (run_job _ _ _ _ _ _) as [[res c'] st']. cbn [fst snd].
  unfold spec_job in H. cbn [ask_job j_fate j_method j_arg j_reply m_Name reporter] in H.
  rewrite stream_run in H. unfold shows. destruct (n_fate nd n) as [|e|e].
  - destruct (f x (n_world nd)) as [s|e]; destruct H as (Hobs & _); simpl in Hobs.
    + destruct Hobs as (-> & r & Hr' & Hd). exists s, r. by rewrite Hr'.
    + destruct Hobs as [(e2 & -> & He) _]. by exists e.
  - destruct H as ((-> & _) & _). done.
  - destruct (f x (n_world nd)); destruct H as ((-> & _) & _); done.
Qed.
End streams.

(** ** What a driver gets for each of its calls *)

Section one_node.
Context (a : string) (nd : node) (Hnode : observable (a, nd)).

Lemma MemInfo_shows b : shows (n_fate nd "MemInfo") (mem_reading b (n_world nd)) (MemInfo a nd b).
Proof using Hnode GP. destruct Hnode. unfold MemInfo. apply (fetch_shows "MemInfo" mem_reading); try done. set_solver. Qed.

Lemma DiskInfo_shows : shows (n_fate nd "DiskInfo") (rd_disk (read (n_world nd))) (DiskInfo a nd).
Proof using Hnode GP.
  destruct Hnode. apply (fetch_shows "DiskInfo" (fun (_ : unit) w => rd_disk (read w))); try done. set_solver.
Qed.

Lemma LoadInfo_shows : shows (n_fate nd "LoadInfo") (rd_load (read (n_world nd))) (LoadInfo a nd).
Proof using Hnode GP.
  destruct Hnode. apply (fetch_shows "LoadInfo" (fun (_ : unit) w => rd_load (read w))); try done. set_solver.
Qed.

Lemma Profiles_shows :
  shows (n_fate nd "Profiles") (Ok (rd_profiles (read (n_world nd)))) (fetch_Profiles a nd).
Proof using Hnode GP.
  destruct Hnode. apply (fetch_shows "Profiles" (fun (_ : unit) w => Ok (rd_profiles (read w)))); try done. set_solver.
Qed.

Lemma Expvars_shows :
  shows (n_fate nd "Expvars") (Ok (rd_expvars (read (n_world nd)))) (fetch_Expvars a nd).
Proof using Hnode GP.
  destruct Hnode. apply (fetch_shows "Expvars" (fun (_ : unit) w => Ok (rd_expvars (read w)))); try done. set_solver.
Qed.

(** A stream as a client reads it: its end is an error made of what arrived of
    the text of the error it ended with; if nothing could, the end of the stream
    or that of the client's patience. *)
Definition read_as (s s' : stream error) : Prop :=
  st_bytes s' = st_bytes s /\
  st_end s' = match trailer_value (t_proto flush) (end_text s) with
              | Some v => if decide (v <> "") then Some (Errors.New v) else None
              | None => if lost_ends (t_proto flush) then None else Some hung
              end.

Definition profile_fate (c : profile_call) : fate := n_fate nd (m_Name (profile_method c)).

Lemma response_read_as rc r : delivers flush rc r -> read_as (rc_stream rc) (response_stream r).
Proof.
  unfold delivers, read_as. rewrite read_stream_spec. unfold response_stream, st_bytes. cbn [st_chunks st_end].
  destruct (trailer_value _ _) as [v|].
  - destruct (endless r); [done|]. by intros [= -> ->].
  - destruct (lost_ends _).
    + intros [Hb H]. destruct (endless r); [done|]. by injection H as _ ->.
    + intros [Hb H]. specialize (H (S (length (st_chunks (resp_Body r))))). rewrite read_stream_spec in H.
      by destruct (endless r).
Qed.

Lemma profile_shows c :
  match fetch_profile a nd c with
  | Ok s' => profile_fate c = Holds /\ exists s s0, profile_reading c (n_world nd) = Ok s /\ read_as s s0 /\
               s' = match n_cut nd with Some (k, e) => cut_at k e s0 | None => s0 end
  | Err e => shows (profile_fate c) (profile_reading c (n_world nd)) (Err e)
  end.
Proof using Hnode GP.
  destruct Hnode as [Ho Hr].
  assert (H : let res := ask_node a nd (profile_method c) (profile_arg c) ReplyReadCloser in
    match ca_err res with
    | None => exists s r, profile_fate c = Holds /\ profile_reading c (n_world nd) = Ok s /\ ca_stream res = Some r /\
                delivers flush {| rc_stream := s; rc_flush := false |} r
    | Some e => shows (profile_fate c) (profile_reading c (n_world nd)) (Err e)
    end).
  { destruct c as [dur|pn d g].
    - apply (stream_shows "CPUProfile" (fun (x : Z) => profile_reading (CallCPUProfile x))); try done. set_solver.
    - apply (stream_shows "Profile" (fun req => profile_reading (CallProfile (pq_Name req) (pq_Debug req) (pq_GC req))));
        try done. set_solver. }
  unfold fetch_profile. cbv zeta in *. destruct (ca_err _) as [e|]; [exact H|].
  destruct H as (s & r & Hf & Hs & -> & Hd). split; [exact Hf|].
  exists s, (response_stream r). split; [exact Hs|]. split; [by apply response_read_as in Hd|done].
Qed.

(** The profile that reaches the temporary file. *)
Lemma delivered_shows c p :
  delivered c (profiled (a, nd)) = Some p ->
  n_State nd = Running /\ profile_fate c = Holds /\ n_cut nd = None /\
  exists s, profile_reading c (n_world nd) = Ok s /\ p = st_bytes s /\ default "" (trailer_value (t_proto flush) (end_text s)) = "".
Proof using Hnode GP.
  unfold delivered, profiled. cbn [pm_State pm_fetch pm_buf fst snd].
  destruct (decide (n_State nd <> Running)) as [|HR]; [done|].
  pose proof (profile_shows c) as H. destruct (fetch_profile a nd c) as [s'|e]; [|done].
  destruct (Filebuf.New _ _ _) as [[b|e] fs] eqn:HN; [|done]. cbn [fst]. intros [= <-].
  apply New_Ok in HN as (_ & _ & _ & Hend & _). destruct H as (Hf & s & s0 & Hs & [Hb He] & ->).
  destruct (n_cut nd) as [[k e]|]; [done|]. split; [by apply dec_stable|]. split; [done|]. split; [done|].
  exists s. split; [done|]. split; [by rewrite Hb|]. rewrite He in Hend.
  destruct (trailer_value _ _) as [v|]; [|done]. simpl. case_decide as Hd; [done|].
  destruct (decide (v = "")) as [Hz|Hz]; [exact Hz|by destruct Hd].
Qed.

Lemma delivered_whole c s f :
  n_State nd = Running -> profile_fate c = Holds -> n_cut nd = None ->
  profile_reading c (n_world nd) = Ok s -> st_end s = None ->
  n_buf nd = {| na_TempFile := Ok f; na_write := None; na_Seek := None |} ->
  delivered c (profiled (a, nd)) = Some (st_bytes s).
Proof using Hnode GP.
  intros HR Hf Hc Hs Hend Hb. unfold delivered, profiled. cbn [pm_State pm_fetch pm_buf fst snd].
  rewrite decide_False by (by intros []). pose proof (profile_shows c) as H.
  destruct (fetch_profile a nd c) as [s'|e].
  - destruct H as (_ & s1 & s0 & Hs1 & [Hb0 He0] & ->). rewrite Hs in Hs1. injection Hs1 as <-.
    rewrite Hc, Hb. unfold end_text in He0. rewrite Hend, trailer_value_empty, decide_False in He0 by (by intros []). unfold Filebuf.New. cbn [na_TempFile na_write na_Seek copy_to_file].
    rewrite He0. cbn. by rewrite Hb0.
  - unfold shows in H. rewrite Hf, Hs in H. by destruct H as (? & ? & _).
Qed.

End one_node.

(** ** The pages *)

(** What a call of the status page asks for, and the error it gives instead. *)
Definition call_fails (nd : node) (c : info_call) (e : error) : Prop :=
  match c with
  | CallMem => shows (n_fate nd "MemInfo") (mem_reading true (n_world nd)) (Err e)
  | CallDisk => shows (n_fate nd "DiskInfo") (rd_disk (read (n_world nd))) (Err e)
  | CallLoad => shows (n_fate nd "LoadInfo") (rd_load (read (n_world nd))) (Err e)
  end.

(** The entry of a machine on the status page, from its own readings. *)
Definition entry_shows (nd : node) (x : string + (bool * machineInfo)) : Prop :=
  match x with
  | inr (o, i) => o = n_owner nd /\ n_State nd = Running /\
      shows (n_fate nd "MemInfo") (mem_reading true (n_world nd)) (Ok (mi_MemInfo i)) /\
      shows (n_fate nd "DiskInfo") (rd_disk (read (n_world nd))) (Ok (mi_DiskInfo i)) /\
      shows (n_fate nd "LoadInfo") (rd_load (read (n_world nd))) (Ok (mi_LoadInfo i)) /\
      mi_KeepaliveReplyTimes i = n_times nd /\ mi_NextKeepalive i = n_next nd
  | inl t =>
      (n_State nd <> Running /\ t = "machine state " +:+ State_String (n_State nd)) \/
      (n_State nd = Running /\ exists c e, c ∈ n_order nd /\ call_fails nd c e /\ t = Error e)
  end.

Lemma head_omap_Some {A B} (f : A -> option B) (l : list A) y :
  head (omap f l) = Some y -> exists x, x ∈ l /\ f x = Some y.
Proof.
  intros H. assert (Hy : y ∈ omap f l) by (destruct (omap f l); simplify_eq/=; left).
  by apply list_elem_of_omap in Hy.
Qed.

Lemma head_omap_None {A B} (f : A -> option B) (l : list A) x :
  head (omap f l) = None -> x ∈ l -> f x = None.
Proof.
  intros H Hx. destruct (f x) as [y|] eqn:Hf; [|done].
  assert (Hy : y ∈ omap f l) by (apply list_elem_of_omap; by exists x). destruct (omap f l); [by inv Hy|done].
Qed.

Lemma status_shows a nd :
  observable (a, nd) -> n_order nd ≡ₚ [CallMem; CallDisk; CallLoad] ->
  entry_shows nd (status_entry (page_of (a, nd))).
Proof.
  intros Hn Ho. unfold status_entry, page_of. cbn [pg_State pg_info pg_owner].
  destruct (decide (n_State nd <> Running)) as [HR|HR]; [by left|apply dec_stable in HR].
  pose proof (MemInfo_shows a nd Hn true) as HM. pose proof (DiskInfo_shows a nd Hn) as HD.
  pose proof (LoadInfo_shows a nd Hn) as HL.
  destruct (mi_err _) as [e|] eqn:He; cbn [allInfo mi_err ia_order] in He.
  - right. split; [done|]. apply head_omap_Some in He as (c & Hc & He). exists c, e.
    split; [done|]. split; [|done]. destruct c; cbn [call_err ia_mem ia_disk ia_load] in He; unfold call_fails.
    + by destruct (MemInfo a nd true); simplify_eq/=.
    + by destruct (DiskInfo a nd); simplify_eq/=.
    + by destruct (LoadInfo a nd); simplify_eq/=.
  - assert (Hall : forall c, c ∈ n_order nd -> call_err (Mem := option Vm * option Rt) (Disk := Du) (Load := La)
      (pg_info (page_of (a, nd))) c = None) by (intros c; by apply head_omap_None).
    setoid_rewrite Ho in Hall. split; [done|]. split; [done|]. cbn [allInfo mi_MemInfo mi_DiskInfo mi_LoadInfo
      mi_KeepaliveReplyTimes mi_NextKeepalive ia_mem ia_disk ia_load ia_replyTimes ia_nextKeepalive].
    pose proof (Hall CallMem ltac:(set_solver)) as H1. pose proof (Hall CallDisk ltac:(set_solver)) as H2.
    pose proof (Hall CallLoad ltac:(set_solver)) as H3.
    cbn [page_of pg_info call_err ia_mem ia_disk ia_load] in H1, H2, H3.
    destruct (MemInfo a nd true); [|done]. destruct (DiskInfo a nd); [|done]. by destruct (LoadInfo a nd).
Qed.

(** The counts that come in are those of the machines whose reply was not lost. *)
Lemma index_shows ms :
  Forall observable ms ->
  index_stats (index_replies ms) =
    omap (fun x => match n_fate x.2 "Profiles" with
                   | Holds => Some (x.1, rd_profiles (read (n_world x.2)))
                   | _ => None
                   end) ms.
Proof.
  induction 1 as [|[a nd] ms Hn _ IH]; [done|]. pose proof (Profiles_shows a nd Hn) as HP.
  unfold index_stats, index_replies in *. cbn [fmap list_fmap]. cbn [omap list_omap fst snd]. rewrite IH.
  destruct (fetch_Profiles a nd) as [l|e]; simpl in HP.
  - destruct HP as [-> HP]. by injection HP as ->.
  - destruct (n_fate nd "Profiles"); [|done|done]. by destruct HP as (? & ? & _).
Qed.

Lemma pages_names ms : (pages ms).*1 = ms.*1.
Proof. unfold pages. rewrite <- list_fmap_compose. by apply list_fmap_ext. Qed.

Lemma vars_shows ms a v :
  Forall observable ms -> NoDup ms.*1 ->
  machineVars (pages ms) !! a = Some v <->
  exists nd, (a, nd) ∈ ms /\ n_owner nd = true /\ n_fate nd "Expvars" = Holds /\ v = rd_expvars (read (n_world nd)).
Proof.
  intros Hn Hnd. rewrite machineVars_spec by (by rewrite pages_names). split.
  - intros (m & Hm & Ho & Hv). apply list_elem_of_fmap in Hm as ([a' nd] & [= -> ->] & Hx).
    pose proof (Expvars_shows a' nd (proj1 (Forall_forall _ _) Hn _ Hx)) as HE. cbn in Ho, Hv.
    rewrite Hv in HE. destruct HE as [HE [= <-]]. by exists nd.
  - intros (nd & Hx & Ho & Hf & ->). exists (page_of (a, nd)). split; [apply list_elem_of_fmap; by exists (a, nd)|].
    split; [done|]. pose proof (Expvars_shows a nd (proj1 (Forall_forall _ _) Hn _ Hx)) as HE. cbn.
    destruct (fetch_Expvars a nd); unfold shows in HE; rewrite ?Hf in HE; [by destruct HE as [_ [= <-]]|].
    by destruct HE as (? & ? & _).
Qed.


End observe.

(** ** The supervisor of Stack.v *)

Section on_stack.
Context {EL : ErrorsLib} {G : Gob} {GL : GobLaws EL G} {GP : GobPointers} {O : Type}.
Context {Vm Rt Du La : Type}.
Context `{!Codable Z, !Codable bool, !Codable unit, !Codable profileRequest, !Codable Du, !Codable La,
          !Codable (option Vm * option Rt), !Codable (list (string * Z)), !Codable (list (string * string))}.
Context `{!Codable (list string), !Codable (string * string), !Codable (Z * bool), !Codable (string * MachineLoop.handle)}.
Variable read : process O -> readings (Vm := Vm) (Rt := Rt) (Du := Du) (La := La).

(** A machine whose supervisor has, next to the methods of Stack.v, those of this
    file can be observed, also while its owner sets it up. *)
Lemma stack_offers disk lease Goos Goarch kern (others : list (reflect_Method (G := G) (process O))) (no_objs : O)
    (inst : MachineLoop.handle -> nat -> instance (G := G) (W := O)) tr P :
  NoDup (m_Name <$> Supervisor_methods disk lease Goos Goarch kern others no_objs inst tr) ->
  reporters read ⊆ others ->
  offers read (server disk lease Goos Goarch kern others no_objs inst tr P).
Proof.
  intros Hnd Hsub. eexists. split; [|split; [exact Hnd|]].
  - unfold server. by rewrite register_many_lookup.
  - intros m Hm. unfold Supervisor_methods. apply elem_of_app. right. by apply Hsub.
Qed.
End on_stack.

(** ** A sample cluster *)

Module Samples.
Import Stack.Samples.

(** Any type that can be numbered is sent as its number. *)
Definition countable_Codable {A} `{Countable A} (t : GoType)
    (Ht : Kind_of t <> KPtr /\ t <> typeOfReader /\ t <> typeOfReadCloser) : Codable (GL := WGob_laws) A.
Proof.
  refine (W_Codable t (fun x => inl (inl (inl (inl (inl (inr (Zpos (encode x))))))))
    (fun p => match p with inl (inl (inl (inl (inl (inr (Zpos n)))))) => decode n | _ => None end) Ht _).
  intros x. apply decode_encode.
Defined.

#[export] Instance profileRequest_eq_dec : EqDecision profileRequest.
Proof. solve_decision. Defined.
#[export] Instance profileRequest_countable : Countable profileRequest.
Proof.
  refine (inj_countable' (fun r => (pq_Name r, pq_Debug r, pq_GC r))
    (fun x => {| pq_Name := x.1.1; pq_Debug := x.1.2; pq_GC := x.2 |}) _).
  by intros [].
Defined.

#[export] Instance cod_bool : Codable bool.
Proof. refine (countable_Codable (TBasic "bool") _). done. Defined.
#[export] Instance cod_request : Codable profileRequest.
Proof. refine (countable_Codable (TStruct "profileRequest") _). done. Defined.
#[export] Instance cod_nat : Codable nat.
Proof. refine (countable_Codable (TStruct "Info") _). done. Defined.
#[export] Instance cod_mem : Codable (option nat * option nat).
Proof. refine (countable_Codable (TStruct "MemInfo") _). done. Defined.
#[export] Instance cod_counts : Codable (list (string * Z)).
Proof. refine (countable_Codable (TSlice (TStruct "profileStat")) _). done. Defined.
#[export] Instance cod_vars : Codable (list (string * string)).
Proof. refine (countable_Codable (TSlice (TStruct "Expvar")) _). done. Defined.

(** A process is the number of its goroutines here; its heap profile fails in the
    middle when there are none. *)
Definition sample_read (w : nat) : readings (EL := SimpleErrors) (Vm := nat) (Rt := nat) (Du := nat) (La := nat) :=
  {| rd_runtime := w; rd_vm := Ok 80%nat; rd_disk := Ok 7%nat;
     rd_load := if decide (w = 0%nat) then Err (SOther "no load") else Ok 1%nat;
     rd_profiles := [("goroutine", Z.of_nat w); ("heap", 3)];
     rd_lookup := fun n => if decide (n = "heap")
                           then Some (fun _ => ("objects", if decide (w = 0%nat) then Some (SOther "oom") else None))
                           else None;
     rd_cpu_start := None; rd_cpu_done := None; rd_cpu := fun _ => "samples"; rd_now := 0;
     rd_expvars := [("cmdline", "[]")] |}.

Definition sample_srv : Server (G := WGob) nat := register_many [("Supervisor", reporters sample_read)].

Definition sample_node (w : nat) (f : string -> fate) : node (EL := SimpleErrors) (G := WGob) :=
  {| n_owner := true; n_State := Running; n_world := w; n_srv := sample_srv; n_fate := f;
     n_client := fun _ => NewClient "/"; n_cut := None; n_order := [CallLoad; CallMem; CallDisk];
     n_times := []; n_next := 0;
     n_buf := {| na_TempFile := Ok "/tmp/p"; na_write := None; na_Seek := None |} |}.

Definition no_index (m : string) : fate (EL := SimpleErrors) :=
  if decide (m = "Profiles") then RpcRefine.LostReply (SOther "reset") else Holds.

Definition sample_nodes := [("m2", sample_node 2 (fun _ => Holds)); ("m1", sample_node 0 no_index)].

Lemma sample_offers : offers sample_read sample_srv.
Proof.
  exists (reporters sample_read). split; [unfold sample_srv; by rewrite register_many_lookup|]. split; [|done].
  refine (bool_decide_unpack _ _). vm_compute. exact I.
Qed.

Lemma sample_observable : Forall (observable sample_read (fun u => u)) sample_nodes.
Proof.
  assert (H : forall a w f, observable sample_read (fun u => u) (a, sample_node w f)).
  { intros a w f. split; [exact sample_offers|]. intros m. by exists (TrimRight a SLASH). }
  apply Forall_cons. split; [apply H|]. rewrite Forall_singleton. apply H.
Qed.


Example sample_status :
  status_entry (page_of sample_read (fun u => u) http2 ("m1", sample_node 0 no_index)) =
    inl (Error (E [AKind Remote; AErr (Recover (SOther "no load"))])).
Proof. vm_compute. reflexivity. Qed.

Example sample_broken :
  delivered (CallProfile "heap" 1 false) (profiled sample_read (fun u => u) http2 (SOther "gave up") ("m1", sample_node 0 no_index)) = None.
Proof. vm_compute. reflexivity. Qed.
End Samples.
