(* ===== verification/Web.v ===== *)
(** The HTTP handlers of the debug pages (profile.go, status.go, bigmachine.go):
    what a browser or the pprof tool gets, over the response writer of Wire.v.

    The texts of the two pages are arguments ([render]): Status.v and Index.v make
    them.  Package fmt is modelled as far as profileErrorf uses it. *)
From S2P Require Import Prelude Errors GoStrings Wire MachineState Supervisor Filebuf Profile Debug.
From Stdlib Require Import Ascii.
Local Open Scope string_scope.
Local Open Scope list_scope.

(** ** fmt.Fprintf without operands *)

Module Fmt.

(** The flags of a directive. *)
Fixpoint skip_flags (s : string) : string :=
  match s with
  | String ("#" | "0" | "+" | "-" | " ")%char r => skip_flags r
  | _ => s
  end.

(** parsenum: whether there was a number, and the rest; a number beyond a
    million swallows everything. *)
Fixpoint parsenum (s : string) (num : Z) (isnum : bool) : bool * string :=
  match s with
  | "" => (isnum, "")
  | String c r =>
      match digit c with
      | Some d => if decide (num > 1000000)%Z then (false, "") else parsenum r (10 * num + d)%Z true
      | None => (isnum, s)
      end
  end.

(** The text up to a closing bracket, and the rest. *)
Fixpoint to_bracket (s : string) : option (string * string) :=
  match s with
  | "" => None
  | String "]" r => Some ("", r)
  | String c r => prod_map (String c) id <$> to_bracket r
  end.

(** argNumber, when there are no operands: an index is never good. *)
Definition argNumber (s : string) (good after : bool) : string * bool * bool :=
  match s with
  | String "[" r =>
      if decide (String.length s < 3) then (r, false, false)
      else match to_bracket r with
           | None => (r, false, false)
           | Some (n, r') => (r', false, match parsenum n 0 false with (true, "") => true | _ => false end)
           end
  | _ => (s, good, false)
  end.

(** A directive, after its percent sign: what is written, and the rest; [None]
    for the rest ends the loop.  (A verb is taken as one byte.) *)
Definition directive (s : string) : string * option string :=
  let '(s, good, after) := argNumber (skip_flags s) true false in
  let '(out1, s, good, after) :=
    match s with
    | String "*" r => ("%!(BADWIDTH)", r, good, false)
    | _ => let '(isnum, r) := parsenum s 0 false in ("", r, good && negb (after && isnum), after)
    end in
  let '(out2, s, good, after) :=
    match s with
    | String "." r =>
        let '(r, good, after) := argNumber r (good && negb after) after in
        match r with
        | String "*" r => ("%!(BADPREC)", r, good, false)
        | _ => ("", (parsenum r 0 false).2, good, after)
        end
    | _ => ("", s, good, after)
    end in
  let '(s, good, _) := if after then (s, good, after) else argNumber s good after in
  match s with
  | "" => (out1 +:+ out2 +:+ "%!(NOVERB)", None)
  | String "%" r => (out1 +:+ out2 +:+ "%", Some r)
  | String c r =>
      (out1 +:+ out2 +:+ "%!" +:+ String c (if good then "(MISSING)" else "(BADINDEX)"), Some r)
  end.

Fixpoint doPrintf (fuel : nat) (s : string) : string :=
  match fuel, s with
  | _, "" => ""
  | O, _ => ""
  | S f, String "%" r =>
      let '(out, rest) := directive r in
      out +:+ match rest with Some r => doPrintf f r | None => "" end
  | S f, String c r => String c (doPrintf f r)
  end.

(** Sprintf(format), every step of which consumes a byte. *)
Definition Sprintf (format : string) : string := doPrintf (String.length format) format.

(** Text without a percent sign is written as it is. *)
Lemma Sprintf_plain s : has_byte "%" s = false -> Sprintf s = s.
Proof.
  unfold Sprintf. induction s as [|c s IH]; intros H; [done|]. simpl in H.
  apply orb_false_iff in H as [Hc Hs]. simpl. rewrite (IH Hs).
  destruct c as [[] [] [] [] [] [] [] []]; done.
Qed.

Example mangled :
  Sprintf <$> ["disk 100% full"; "GET /a%2Fb: refused"; "%%"; "50%"; "%[1]d %*d"] =
    ["disk 100%!f(MISSING)ull"; "GET /a%!F(MISSING)b: refused"; "%"; "50%!(NOVERB)";
     "%!d(BADINDEX) %!(BADWIDTH)%!d(MISSING)"].
Proof. vm_compute. reflexivity. Qed.

End Fmt.

(** ** The handlers *)

Section handlers.
Context {EL : ErrorsLib}.
Implicit Types w : writer error.

(** profileErrorf with no arguments; what is lost on the connection is logged. *)
Definition profileErrorf (code : Z) (message : string) (w : writer error) : writer error :=
  let w := header_set "Content-Type" "text/plain; charset=utf-8" w in
  let w := header_set "X-Go-Pprof" "1" w in
  let w := WriteHeader code w in
  (Write (Fmt.Sprintf message) w).1.

(** The text of an error of Marshal. *)
Definition perr_Error (e : perr) : string :=
  match e with errNoProfiles msg => msg | OtherErr e => Error e end.

(** Marshal, for a machine or for all; it writes to the response what it can.
    (Dial returns no error.) *)
Definition Marshal {prof : Type} (Parse : string -> result error prof) (Merge : list prof -> result error prof)
    (Write_ : prof -> result error string) (fetch : string -> profile_call -> result error (stream error * option error))
    (ms : list pmachine) (order : list nat -> list nat) (s : tempfs) (p : profiler) : option perr * string :=
  if decide (Profile.addr p <> "") then Marshal_one p (fetch (Profile.addr p)) None
  else (Marshal_all Parse Merge Write_ p ms (fun _ => None) order s).1.

(** profileHandler.ServeHTTP, with the result and the output of Marshal. *)
Definition profile_ServeHTTP (which : string) (form : string -> string)
    (marshal : profiler -> option perr * string) (w : writer error) : writer error :=
  let p := profile_form which form in
  let w := header_set "Content-Type" (ContentType p) w in
  let '(err, out) := marshal p in
  let w := if decide (out = "") then w else (Write out w).1 in
  match err with
  | None => w
  | Some e => profileErrorf (status_of e) (perr_Error e) w
  end.

(** statusHandler.ServeHTTP.  No goroutine of writeStatus returns an error, so
    the branch that reports one is never taken. *)
Definition status_ServeHTTP {A : Type} (render : A -> string) (entries : A) (w : writer error) : writer error :=
  let w := header_set "Content-Type" "text/plain; charset=utf-8" w in
  (Write (render entries) w).1.

(** pprofIndex: a profile, or the index with the totals and the counts by
    machine, of the machines that answered within five seconds.  No goroutine
    returns an error here either, and an error of the template is logged. *)
Definition pprofIndex_ServeHTTP (path : string) (form : string -> string)
    (marshal : profiler -> option perr * string)
    (replies : list (string * result error (list (string * Z))))
    (order : list (string * Z) -> list (string * Z))
    (render : list (string * Z) -> list (string * list (string * Z)) -> string) (w : writer error) :
    writer error :=
  match pprofIndex path with
  | ShowsProfile which => profile_ServeHTTP which form marshal w
  | ShowsIndex =>
      let stats := index_stats replies in (Write (render (index_All stats order) stats) w).1
  end.

(** The status line and headers a client gets, and the body. *)
Definition sent (w : writer error) : Z * gmap string string := default (200%Z, w_header w) (w_sent w).

Definition content_type (w : writer error) : string := header_get (sent w).2 "Content-Type".

(** ** Lemmas *)

Lemma Write_first p w :
  w_sent w = None -> w_room w = None ->
  sent (Write p w).1 = (200%Z, w_header w) /\ w_body (Write p w).1 = w_body w +:+ p.
Proof.
  intros Hs Hr. split; [|by apply Write_ok]. unfold sent. by rewrite Write_sent, WriteHeader_fresh.
Qed.

(** A failure before anything was written: the status, the type and the text. *)
Lemma profileErrorf_fresh code msg w :
  w_sent w = None -> w_room w = None ->
  let w' := profileErrorf code msg w in
  (sent w').1 = code /\ content_type w' = "text/plain; charset=utf-8" /\
  w_body w' = w_body w +:+ Fmt.Sprintf msg.
Proof.
  intros Hs Hr. unfold profileErrorf, content_type, sent. cbn zeta.
  set (w1 := header_set "X-Go-Pprof" "1" _).
  assert (Hs1 : w_sent w1 = None) by done. assert (Hr1 : w_room w1 = None) by done.
  rewrite Write_sent. erewrite (WriteHeader_sent 200) by by apply WriteHeader_fresh.
  rewrite WriteHeader_fresh by done. split; [done|]. split.
  { unfold w1, header_get. simpl. by rewrite lookup_insert_ne, lookup_insert_eq. }
  destruct (Write_ok (Fmt.Sprintf msg) (WriteHeader code w1)) as (_ & -> & _); [by rewrite WriteHeader_room|].
  by rewrite WriteHeader_body.
Qed.

(** A failure after something was written changes neither. *)
Lemma profileErrorf_late code msg w s :
  w_sent w = Some s -> w_room w = None ->
  let w' := profileErrorf code msg w in
  sent w' = s /\ w_body w' = w_body w +:+ Fmt.Sprintf msg.
Proof.
  intros Hs Hr. unfold profileErrorf, sent. cbn zeta. set (w1 := header_set "X-Go-Pprof" "1" _).
  assert (Hs1 : w_sent w1 = Some s) by done.
  rewrite !(WriteHeader_sent code w1 s) by done. rewrite Write_sent, (WriteHeader_sent 200 w1 s), Hs1 by done.
  split; [done|]. by destruct (Write_ok (Fmt.Sprintf msg) w1) as (_ & -> & _).
Qed.

(** C31. What the tool that asks for a profile gets.  A profile arrives with
    status 200, the content type of its form, and exactly the bytes Marshal
    wrote.  When Marshal failed before it wrote anything, the status is 404 if
    there were no profiles and 500 otherwise, and the text is the error's - as
    the format of a Fprintf, so intact only if it has no percent sign.  When
    Marshal failed later, as it can when profiles are shown as text, the reply
    looks like a success: status 200 and the content type of a profile, the
    profile cut off, and then the error. *)
Theorem profile_response which form marshal (fl : transport) :
  let p := profile_form which form in
  let w := profile_ServeHTTP which form marshal (new_writer None fl) in
  match marshal p with
  | (None, out) =>
      (sent w).1 = 200%Z /\ content_type w = ContentType p /\ w_body w = out
  | (Some e, "") =>
      (sent w).1 = status_of e /\ content_type w = "text/plain; charset=utf-8" /\
      w_body w = Fmt.Sprintf (perr_Error e) /\
      (has_byte "%" (perr_Error e) = false -> w_body w = perr_Error e)
  | (Some e, out) =>
      (sent w).1 = 200%Z /\ content_type w = ContentType p /\
      w_body w = out +:+ Fmt.Sprintf (perr_Error e)
  end.
Proof.
  cbn zeta. unfold profile_ServeHTTP. set (p := profile_form which form).
  destruct (marshal p) as [err out]. set (w0 := header_set _ _ _).
  assert (Hs0 : w_sent w0 = None) by done. assert (Hr0 : w_room w0 = None) by done.
  assert (Hct : header_get (w_header w0) "Content-Type" = ContentType p).
  { unfold w0, header_get. simpl. by rewrite lookup_insert_eq. }
  destruct err as [e|].
  - destruct out as [|a out].
    + rewrite decide_True by done.
      destruct (profileErrorf_fresh (status_of e) (perr_Error e) w0 Hs0 Hr0) as (H1 & H2 & H3).
      split; [done|]. split; [done|]. split; [done|]. intros Hp. by rewrite H3, Fmt.Sprintf_plain.
    + rewrite decide_False by done. set (out' := String a out).
      destruct (Write_first out' w0 Hs0 Hr0) as [H1 H2].
      destruct (w_sent (Write out' w0).1) as [s|] eqn:Hs;
        [|by rewrite Write_sent, WriteHeader_fresh in Hs].
      destruct (Write_ok out' w0 Hr0) as (_ & _ & Hr).
      destruct (profileErrorf_late (status_of e) (perr_Error e) _ _ Hs Hr) as [H3 H4].
      assert (s = (200%Z, w_header w0)) as -> by (unfold sent in H1; by rewrite Hs in H1).
      unfold content_type. rewrite H3, H4, H2. by split.
  - case_decide as Hout.
    + subst out. by split.
    + destruct (Write_first out w0 Hs0 Hr0) as [H1 H2]. unfold content_type. rewrite H1, H2. by split.
Qed.

(** The status page is text and always a success. *)
Lemma status_response {A} (render : A -> string) (entries : A) (fl : transport) :
  let w := status_ServeHTTP render entries (new_writer None fl) in
  (sent w).1 = 200%Z /\ content_type w = "text/plain; charset=utf-8" /\ w_body w = render entries.
Proof.
  unfold status_ServeHTTP. cbn zeta. set (w0 := header_set _ _ _).
  destruct (Write_first (render entries) w0) as [H1 H2]; [done..|].
  unfold content_type. rewrite H1, H2. by split.
Qed.
End handlers.

(** ** Sample requests *)

Module Samples.

Import Profile.Samples.

(** The form of a request for the profile of one machine. *)
Definition one_machine (key : string) : string :=
  if decide (key = "machine") then "https://m1/" else if decide (key = "debug") then "1" else "".

(** The machine's reply breaks off in the middle. *)
Definition cut (_ : string) (_ : profile_call) : result serror (stream serror * option serror) :=
  Ok ({| st_chunks := ["half of a"]; st_end := Some (SOther "GET /a%2Fb: reset") |}, None).

Definition marshal_one : profiler -> option (perr (EL := SimpleErrors)) * string :=
  Marshal (EL := SimpleErrors) (fun _ => Ok tt) (fun _ => Ok tt) (fun _ => Ok "") cut cluster id
    {| tmp := ∅; fds := ∅ |}.

Example cut_reply :
  let w := profile_ServeHTTP "heap" one_machine marshal_one (new_writer None http2) in
  (sent w).1 = 200%Z /\
  w_body w = "half of afailed to write heap profile: GET /a%!F(MISSING)b: reset".
Proof. vm_compute. done. Qed.

End Samples.
