(* ===== verification/Index.v ===== *)
(** The index page of the profiles (bigmachine.go): the template, as html/template
    executes it, and where the links of the page lead.

    What a reader does is specified here: which links a page has, how the text of
    an attribute is read, and what is requested when a link is followed. *)
From S2P Require Import Prelude Errors GoStrings Html Wire MachineState Supervisor Cluster Filebuf Profile Debug Web.
From stdpp Require Import pretty.
From Stdlib Require Import Ascii.
Local Open Scope string_scope.
Local Open Scope list_scope.

(** ** The template *)

Definition NL : string := String NEWLINE "".
Definition quoted (s : string) : string := String QUOTE (s +:+ String QUOTE "").

(** One element with a link. *)
Definition anchor (href label : string) : string :=
  "<a href=" +:+ quoted href +:+ ">" +:+ label +:+ "</a>".

(** A row of a table: a count and a link to the profile, of one machine in the
    query [machine] or of all. *)
Definition table_row (machine : string) (x : string * Z) : string :=
  NL +:+ "<tr><td align=right>" +:+ pretty x.2 +:+ "<td>" +:+
  anchor (url_start x.1 +:+ "?debug=1" +:+ machine) (escape x.1) +:+ NL.

Definition rows (machine : string) (l : list (string * Z)) : string :=
  "<table>" +:+ NL +:+ GoStrings.Join (table_row machine <$> l) "" +:+ NL +:+ "</table>" +:+ NL.

Definition goroutines (machine : string) : string :=
  "<br>" +:+ NL +:+ anchor ("goroutine?debug=2" +:+ machine) "full goroutine stack dump" +:+ NL +:+
  "<br><br>" +:+ NL.

(** The part of a machine. *)
Definition machine_part (m : string * list (string * Z)) : string :=
  let machine := "&machine=" +:+ url_query m.1 in
  NL +:+ escape m.1 +:+ ":<br>" +:+ NL +:+ rows machine m.2 +:+ goroutines machine.

(** indexTmpl, with the totals and the counts of the machines; a map is ranged
    over in the order of its keys. *)
Definition indexTmpl (All : list (string * Z)) (Machines : list (string * list (string * Z))) : string :=
  "<html>" +:+ NL +:+ "<head>" +:+ NL +:+ "<title>/debug/bigmachine/pprof</title>" +:+ NL +:+
  "</head>" +:+ NL +:+ "<body>" +:+ NL +:+ "/debug/bigmachine/pprof<br>" +:+ NL +:+ "merged:<br>" +:+ NL +:+
  rows "" All +:+ goroutines "" +:+
  GoStrings.Join (machine_part <$> sort_by_name Machines) "" +:+
  NL +:+ NL +:+ "</body>" +:+ NL +:+ "</html>" +:+ NL.

(** ** Reading the page *)

(** Looking for the opening of a link, of which k bytes were seen; in the value of
    the attribute; at the end of the tag; in the label. *)
Inductive scan :=
| Seeking (k : nat)
| InHref (href : string)
| Closing (href : string)
| InLabel (href label : string).

Definition opening : string := "<a href=" +:+ String QUOTE "".

Definition seek (k : nat) (c : ascii) : scan :=
  if bool_decide (String.get k opening = Some c) then
    if decide (S k = String.length opening) then InHref "" else Seeking (S k)
  else Seeking (if bool_decide (c = "<"%char) then 1 else 0).

(** The links of a page: the values of href and the labels. *)
Fixpoint anchors (st : scan) (s : string) : list (string * string) :=
  match s with
  | EmptyString => []
  | String c r =>
      match st with
      | Seeking k => anchors (seek k c) r
      | InHref h => if bool_decide (c = QUOTE) then anchors (Closing h) r
                    else anchors (InHref (h +:+ String c "")) r
      | Closing h => anchors (if bool_decide (c = ">"%char) then InLabel h "" else Closing h) r
      | InLabel h l => if bool_decide (c = "<"%char) then (h, l) :: anchors (seek 0 c) r
                       else anchors (InLabel h (l +:+ String c "")) r
      end
  end.

(** A path below the page that neither the reader nor ServeMux changes. *)
Definition plain_segment (s : string) : bool :=
  bool_decide (s <> "") && bool_decide (s <> ".") && bool_decide (s <> "..").

Definition plain_path (s : string) : bool := forallb plain_segment (Split s SLASH).

(** What is requested when a relative reference is followed from the page at
    [base]: the path and the query.  [None]: the reference leads elsewhere, or
    ServeMux redirects the request, or refuses it. *)
Definition follow (base href : string) : option (string * list (string * string)) :=
  let '(ref, _) := SplitN2 href "#"%char in
  let '(path, query) := SplitN2 ref "?"%char in
  if plain_path path && negb (has_byte ":"%char path) then
    p ← url_unescape false path;
    if plain_path p then Some (base +:+ p, ParseQuery (default "" query)) else None
  else None.

(** Which profile the handlers show at the end of a link. *)
Definition selected (href : string) : option profiler :=
  '(path, q) ← follow "/debug/bigmachine/pprof/" href;
  match pprofIndex path with
  | ShowsProfile which => Some (profile_form which (FormValue q))
  | ShowsIndex => None
  end.

(** A link as its reader sees it: the label and the profile it shows. *)
Definition read_link (x : string * string) : string * option profiler := (unescape x.2, selected (unescape x.1)).

Definition links (page : string) : list (string * option profiler) := read_link <$> anchors (Seeking 0) page.

(** The links the page should have: to every profile of the list, for a machine
    or for all, and to the goroutines. *)
Definition shown (machine : option string) (debug : Z) (which : string) : profiler :=
  {| which := which; addr := default "" machine; sec := 0; Profile.debug := debug; gc := false |}.

Definition profile_links (machine : option string) (l : list (string * Z)) : list (string * option profiler) :=
  ((fun x => (x.1, Some (shown machine 1 x.1))) <$> l) ++
  [("full goroutine stack dump", Some (shown machine 2 "goroutine"))].

(** Names whose links a reader follows as they are: relative paths without
    special characters of URLs, and without NUL. *)
Definition plain_name (s : string) : bool :=
  plain_path s && forallb (fun c => negb (has_byte c s)) ["%"; "?"; "#"; ":"; "000"]%char.

(** ** Scanning *)

#[local] Arguments String.append !_ _ / : simpl nomatch.

(** The state after a text in which no link ends. *)
Fixpoint scan_end (st : scan) (s : string) : option scan :=
  match s with
  | EmptyString => Some st
  | String c r =>
      match st with
      | Seeking k => scan_end (seek k c) r
      | InHref h => if bool_decide (c = QUOTE) then scan_end (Closing h) r
                    else scan_end (InHref (h +:+ String c "")) r
      | Closing h => scan_end (if bool_decide (c = ">"%char) then InLabel h "" else Closing h) r
      | InLabel h l => if bool_decide (c = "<"%char) then None else scan_end (InLabel h (l +:+ String c "")) r
      end
  end.

Lemma anchors_app s st st' r : scan_end st s = Some st' -> anchors st (s +:+ r) = anchors st' r.
Proof.
  revert st. induction s as [|c s IH]; intros st H; simpl in *; [by simplify_eq|].
  destruct st; try case_bool_decide; eauto; done.
Qed.

Lemma scan_text s : has_byte "<" s = false -> scan_end (Seeking 0) s = Some (Seeking 0).
Proof.
  induction s as [|c s IH]; simpl; intros H; [done|]. apply orb_false_iff in H as [Hc Hs].
  unfold seek. rewrite Hc, (bool_decide_eq_false_2 (String.get _ _ = _)); [by apply IH|].
  apply bool_decide_eq_false in Hc. simpl. naive_solver.
Qed.

Lemma scan_href s h : has_byte QUOTE s = false -> scan_end (InHref h) s = Some (InHref (h +:+ s)).
Proof.
  revert h. induction s as [|c s IH]; simpl; intros h H; [by rewrite sapp_nil_r|].
  apply orb_false_iff in H as [-> Hs]. by rewrite IH, sapp_assoc.
Qed.

Lemma scan_label s h l : has_byte "<" s = false -> scan_end (InLabel h l) s = Some (InLabel h (l +:+ s)).
Proof.
  revert l. induction s as [|c s IH]; simpl; intros l H; [by rewrite sapp_nil_r|].
  apply orb_false_iff in H as [-> Hs]. by rewrite IH, sapp_assoc.
Qed.

(** Texts without the opening of a tag are passed over, and so are tags that
    open no link. *)
Lemma anchors_text s r : has_byte "<" s = false -> anchors (Seeking 0) (s +:+ r) = anchors (Seeking 0) r.
Proof. intros H. by apply anchors_app, scan_text. Qed.

Lemma anchors_static s r :
  scan_end (Seeking 0) s = Some (Seeking 0) -> anchors (Seeking 0) (s +:+ r) = anchors (Seeking 0) r.
Proof. apply anchors_app. Qed.

Lemma anchors_anchor href label r :
  has_byte QUOTE href = false -> has_byte "<" label = false ->
  anchors (Seeking 0) (anchor href label +:+ r) = (href, label) :: anchors (Seeking 0) r.
Proof.
  intros Hh Hl. unfold anchor, quoted. rewrite !sapp_assoc.
  change ("<a href=" +:+ String QUOTE (href +:+ String QUOTE "") +:+ ?x) with
    (opening +:+ ((href +:+ String QUOTE "") +:+ x)).
  rewrite (anchors_app opening _ (InHref "")) by reflexivity. rewrite sapp_assoc.
  rewrite (anchors_app href _ (InHref href)) by by apply scan_href.
  rewrite (anchors_app (String QUOTE "") _ (Closing href)) by reflexivity.
  rewrite (anchors_app ">" _ (InLabel href "")) by reflexivity.
  rewrite (anchors_app label _ (InLabel href label)) by by apply scan_label.
  change ("</a>" +:+ r) with (String "<" ("/a>" +:+ r)). by f_equal.
Qed.

(** ** The links of the page *)

Lemma pretty_Z_bytes c (z : Z) :
  (forall d, pretty_N_char d <> c) -> c <> "0"%char -> c <> "-"%char -> has_byte c (pretty z) = false.
Proof.
  intros Hc H0 Hm. destruct z as [|p|p]; simpl; [by rewrite bool_decide_eq_false_2| |].
  - apply (pretty_bytes c (N.pos p)); done.
  - change (has_byte c ("-" +:+ pretty (N.pos p)) = false). rewrite has_byte_app, pretty_bytes by done.
    simpl. by rewrite bool_decide_eq_false_2.
Qed.

(** The values of href and the labels of the rows for a query. *)
Definition row_anchors (machine : string) (l : list (string * Z)) : list (string * string) :=
  (fun x => (url_start x.1 +:+ "?debug=1" +:+ machine, escape x.1)) <$> l.

Lemma anchors_rows machine l r :
  has_byte QUOTE machine = false ->
  anchors (Seeking 0) (rows machine l +:+ r) = row_anchors machine l ++ anchors (Seeking 0) r.
Proof.
  intros Hm. unfold rows. rewrite !sapp_assoc, anchors_static by done. rewrite anchors_static by done.
  assert (E : forall r, anchors (Seeking 0) (GoStrings.Join (table_row machine <$> l) "" +:+ r) =
    row_anchors machine l ++ anchors (Seeking 0) r).
  { clear r. induction l as [|x l IH]; intros r; [done|].
    assert (Hx : forall r, anchors (Seeking 0) (table_row machine x +:+ r) =
      (url_start x.1 +:+ "?debug=1" +:+ machine, escape x.1) :: anchors (Seeking 0) r).
    { clear r IH. intros r. unfold table_row. rewrite !sapp_assoc, !(anchors_static NL) by done.
      rewrite anchors_static by done. rewrite anchors_text.
      2:{ apply pretty_Z_bytes; [|done..]. intros d. unfold pretty_N_char. by repeat case_match. }
      rewrite anchors_static by done. rewrite anchors_anchor.
      - by rewrite anchors_static.
      - rewrite !has_byte_app, Hm. unfold url_start. by rewrite escape_markup.
      - by apply escape_markup. }
    rewrite fmap_cons, Join_cons, sapp_assoc, Hx, IH. done. }
  rewrite E. by f_equal.
Qed.

Lemma anchors_goroutines machine r :
  has_byte QUOTE machine = false ->
  anchors (Seeking 0) (goroutines machine +:+ r) =
    ("goroutine?debug=2" +:+ machine, "full goroutine stack dump") :: anchors (Seeking 0) r.
Proof.
  intros Hm. unfold goroutines. rewrite !sapp_assoc, !anchors_static by done.
  rewrite anchors_anchor by (rewrite ?has_byte_app, ?Hm; done).
  by rewrite !anchors_static.
Qed.

Definition machine_anchors (m : string * list (string * Z)) : list (string * string) :=
  row_anchors ("&machine=" +:+ url_query m.1) m.2 ++
    [("goroutine?debug=2&machine=" +:+ url_query m.1, "full goroutine stack dump")].

Lemma anchors_machine m r :
  anchors (Seeking 0) (machine_part m +:+ r) = machine_anchors m ++ anchors (Seeking 0) r.
Proof.
  unfold machine_part, machine_anchors.
  assert (Hq : has_byte QUOTE ("&machine=" +:+ url_query m.1) = false).
  { rewrite has_byte_app. unfold url_query. by rewrite escape_markup. }
  cbv zeta. rewrite !sapp_assoc, !(anchors_static NL), anchors_text by (done || by apply escape_markup).
  rewrite (anchors_static ":<br>"), (anchors_static NL) by done.
  rewrite anchors_rows, anchors_goroutines by done. by rewrite <- app_assoc.
Qed.

Lemma anchors_machines l r :
  anchors (Seeking 0) (GoStrings.Join (machine_part <$> l) "" +:+ r) =
    (l ≫= machine_anchors) ++ anchors (Seeking 0) r.
Proof.
  induction l as [|m l IH]; [done|].
  by rewrite fmap_cons, Join_cons, bind_cons, sapp_assoc, anchors_machine, IH, app_assoc.
Qed.

Lemma anchors_index All Machines :
  anchors (Seeking 0) (indexTmpl All Machines) =
    row_anchors "" All ++ ("goroutine?debug=2", "full goroutine stack dump") ::
    (sort_by_name Machines ≫= machine_anchors).
Proof.
  unfold indexTmpl. rewrite !anchors_static by done.
  rewrite anchors_rows, anchors_goroutines, anchors_machines by done.
  f_equal. simpl. f_equal. apply app_nil_r.
Qed.

(** ** Following a link *)

Lemma has_byte_Split m c s x : has_byte m s = false -> x ∈ Split s c -> has_byte m x = false.
Proof.
  revert x. induction s as [|a s IH]; simpl; intros x H Hx; [set_solver|].
  apply orb_false_iff in H as [Ha Hs]. destruct (Split_cons s c) as (y & ys & Hy). rewrite Hy in *.
  case_bool_decide.
  - apply elem_of_cons in Hx as [->|Hx]; [done|]. by apply IH.
  - apply elem_of_cons in Hx as [->|Hx].
    + simpl. rewrite Ha. apply IH; [done|by left].
    + apply IH; [done|by right].
Qed.

Lemma plain_segment_processURL s :
  has_byte "%" s = false -> plain_segment s = true -> plain_segment (processURL true s) = true.
Proof.
  intros Hs. unfold plain_segment. rewrite !andb_true_iff, !bool_decide_eq_true.
  intros [[H1 H2] H3]. repeat split; intros E; [apply H1|apply H2|apply H3];
    by apply processURL_inj.
Qed.

Lemma plain_path_processURL s :
  has_byte "%" s = false -> plain_path s = true -> plain_path (processURL true s) = true.
Proof.
  intros Hs. unfold plain_path. rewrite Split_processURL, !forallb_forall by done.
  intros H x Hx. apply list_elem_of_In, list_elem_of_fmap in Hx as (y & -> & Hy).
  apply plain_segment_processURL; [by eapply has_byte_Split|]. by apply H, list_elem_of_In.
Qed.

Lemma follow_name base n q :
  plain_name n = true -> has_byte "#" q = false ->
  follow base (processURL true n +:+ String "?" q) = Some (base +:+ n, ParseQuery q).
Proof.
  unfold plain_name. simpl. rewrite !andb_true_iff, !negb_true_iff. intros (Hp & H1 & H2 & H3 & H4 & _) Hq.
  unfold follow. rewrite SplitN2_none.
  2:{ rewrite has_byte_app, processURL_bytes, H3 by done. simpl. by rewrite Hq. }
  rewrite SplitN2_app by (by rewrite processURL_bytes, H2).
  rewrite plain_path_processURL, processURL_bytes, H4 by done. simpl.
  pose proof (url_unescape_path n "" H1) as E. rewrite !sapp_nil_r in E. rewrite E. simpl.
  by rewrite sapp_nil_r, Hp.
Qed.

(** The queries of the links, as they are read. *)
Definition query (d : ascii) (machine : option string) : string :=
  "debug=" +:+ String d (match machine with Some m => "&machine=" +:+ processURL false m | None => "" end).

Lemma ParseQuery_query d machine :
  d ∈ ["1"; "2"]%char ->
  ParseQuery (query d machine) =
    ("debug", String d "") :: match machine with Some m => [("machine", m)] | None => [] end.
Proof.
  intros Hd. unfold query, ParseQuery.
  assert (Hq : query_pair ("debug=" +:+ String d "") = Some ("debug", String d "")).
  { apply list_elem_of_In in Hd as [<-|[<-|[]]]; by vm_compute. }
  assert (Ha : has_byte "&" ("debug=" +:+ String d "") = false).
  { apply list_elem_of_In in Hd as [<-|[<-|[]]]; by vm_compute. }
  destruct machine as [m|].
  - change ("debug=" +:+ String d ("&machine=" +:+ processURL false m)) with
      (("debug=" +:+ String d "") +:+ String "&" ("machine=" +:+ processURL false m)).
    rewrite Split_app, Split_no_sep by (done || by rewrite has_byte_app, processURL_bytes).
    cbn [omap list_omap]. rewrite Hq. do 2 f_equal.
    unfold query_pair. rewrite has_byte_app, processURL_bytes by done. simpl orb.
    change ("machine=" +:+ processURL false m) with ("machine" +:+ String "=" (processURL false m)).
    rewrite SplitN2_app by done. simpl.
    pose proof (url_unescape_query m "") as E. rewrite !sapp_nil_r in E. rewrite E. simpl.
    by rewrite sapp_nil_r.
  - rewrite Split_no_sep by done. cbn [omap list_omap]. by rewrite Hq.
Qed.

Lemma FormValue_query d machine :
  d ∈ ["1"; "2"]%char ->
  let q := FormValue (ParseQuery (query d machine)) in
  q "machine" = default "" machine /\ q "debug" = String d "" /\ q "seconds" = "" /\ q "gc" = "".
Proof. intros Hd q. unfold q. rewrite ParseQuery_query by done. by destruct machine. Qed.

Lemma pprofIndex_name n : n <> "" -> pprofIndex ("/debug/bigmachine/pprof/" +:+ n) = ShowsProfile n.
Proof.
  intros Hn. unfold pprofIndex, TrimPrefix.
  replace (HasPrefix _ _) with true.
  2:{ symmetry. pose proof (HasPrefix_app "/debug/bigmachine/pprof/" n "") as E.
      rewrite sapp_nil_r in E. rewrite E. by destruct n. }
  rewrite substring_app. by rewrite decide_True.
Qed.

Lemma plain_name_nonempty n : plain_name n = true -> n <> "".
Proof. by intros H ->. Qed.

Lemma selected_link n d machine :
  plain_name n = true -> d ∈ ["1"; "2"]%char ->
  selected (processURL true n +:+ String "?" (query d machine)) =
    Some {| which := n; addr := default "" machine; sec := 0; debug := ParseInt (String d ""); gc := false |}.
Proof.
  intros Hn Hd. unfold selected. rewrite follow_name; [|done|].
  2:{ unfold query. rewrite has_byte_app. simpl. apply orb_false_iff. split.
      - apply list_elem_of_In in Hd as [<-|[<-|[]]]; by vm_compute.
      - destruct machine as [m|]; [|done].
        transitivity (has_byte "#" (processURL false m)); [done|by rewrite processURL_bytes]. }
  cbn [mbind option_bind]. rewrite pprofIndex_name by by apply plain_name_nonempty.
  destruct (FormValue_query d machine Hd) as (H1 & H2 & H3 & H4). cbv zeta in *.
  unfold profile_form. by rewrite H1, H2, H3, H4.
Qed.

(** The value of an href is read as the link it stands for. *)
Definition machine_text (machine : option string) : string :=
  match machine with Some m => "&machine=" +:+ url_query m | None => "" end.

Lemma unescape_machine machine :
  unescape (machine_text machine) =
    match machine with Some m => "&machine=" +:+ processURL false m | None => "" end.
Proof.
  destruct machine as [m|]; [|done]. simpl machine_text. unfold url_query.
  transitivity ("&machine=" +:+ unescape (escape (processURL false m))); [done|].
  by rewrite unescape_escape_all by by rewrite processURL_bytes.
Qed.

Lemma unescape_link n d machine :
  plain_name n = true -> d ∈ ["1"; "2"]%char ->
  unescape (url_start n +:+ "?debug=" +:+ String d (machine_text machine)) =
    processURL true n +:+ String "?" (query d machine).
Proof.
  unfold plain_name. simpl. rewrite !andb_true_iff, !negb_true_iff. intros (Hp & H1 & H2 & H3 & H4 & H5 & _) Hd.
  unfold url_start, urlFilter, isSafeURL. rewrite SplitN2_none by done.
  rewrite unescape_escape by by rewrite processURL_bytes. f_equal.
  transitivity (unescape (("?debug=" +:+ String d "") +:+ machine_text machine)); [done|].
  rewrite unescape_plain by (apply list_elem_of_In in Hd as [<-|[<-|[]]]; by vm_compute).
  by rewrite unescape_machine.
Qed.

Lemma read_rows machine l :
  Forall (fun x => plain_name x.1 = true) l ->
  read_link <$> row_anchors (machine_text machine) l = (fun x => (x.1, Some (shown machine 1 x.1))) <$> l.
Proof.
  intros Hl. unfold row_anchors. rewrite <- list_fmap_compose. apply list_fmap_ext. intros i x Hx.
  eapply Forall_lookup in Hl; [|exact Hx]. unfold read_link, compose. cbn [fst snd]. f_equal.
  - apply unescape_escape_all. unfold plain_name in Hl. simpl in Hl.
    rewrite !andb_true_iff, !negb_true_iff in Hl. naive_solver.
  - change ("?debug=1" +:+ machine_text machine) with ("?debug=" +:+ String "1" (machine_text machine)).
    rewrite unescape_link, selected_link by (done || set_solver). done.
Qed.

Lemma read_goroutines machine :
  read_link ("goroutine?debug=2" +:+ machine_text machine, "full goroutine stack dump") =
    ("full goroutine stack dump", Some (shown machine 2 "goroutine")).
Proof.
  unfold read_link. cbn [fst snd]. f_equal.
  change ("goroutine?debug=2" +:+ machine_text machine) with
    (url_start "goroutine" +:+ "?debug=" +:+ String "2" (machine_text machine)).
  rewrite unescape_link, selected_link by (done || set_solver). done.
Qed.

Lemma read_machine m :
  Forall (fun x => plain_name x.1 = true) m.2 -> read_link <$> machine_anchors m = profile_links (Some m.1) m.2.
Proof.
  intros Hm. unfold machine_anchors, profile_links. rewrite fmap_app.
  change ("&machine=" +:+ url_query m.1) with (machine_text (Some m.1)). rewrite read_rows by done.
  f_equal. cbn [fmap list_fmap]. f_equal. apply (read_goroutines (Some m.1)).
Qed.

Lemma index_All_names stats order x :
  (forall l, order l ≡ₚ l) -> x ∈ index_All stats order -> exists m, m ∈ stats /\ x.1 ∈ m.2.*1.
Proof.
  intros Ho. unfold index_All. rewrite sort_by_name_perm, Ho. destruct x as [n c].
  rewrite elem_of_map_to_list, aggregate_lookup. case_decide as Hn; [|done]. intros _.
  unfold occurs in Hn. apply list_elem_of_fmap in Hn as (y & -> & Hy).
  apply list_elem_of_bind in Hy as (m & Hy & Hm). exists m. split; [done|]. apply list_elem_of_fmap. by exists y.
Qed.

Lemma length_machine_anchors l :
  length (l ≫= machine_anchors) = sum_list_with (fun m => S (length m.2)) l.
Proof.
  induction l as [|m l IH]; [done|]. rewrite bind_cons, length_app, IH. simpl. f_equal.
  unfold machine_anchors, row_anchors. rewrite length_app, length_fmap. simpl. lia.
Qed.

Lemma bind_read l : list_fmap _ _ read_link (l ≫= machine_anchors) = l ≫= fun m => read_link <$> machine_anchors m.
Proof. induction l as [|m l IH]; [done|]. rewrite !bind_cons, <- IH. apply fmap_app. Qed.

(** C26. Where the links of the index page lead.  The page is a success, and
    whatever the names of profiles and machines are, it has a link for every
    profile of every machine and of all together, and for the goroutines of each,
    and no others: no name can close an attribute or open a tag.  If the names of
    the profiles are plain paths (the addresses of the machines are arbitrary),
    then each link, read, followed and parsed by the handlers, shows the profile
    it is labelled with, of the machine it is listed under. *)
Theorem index_links form marshal replies order (fl : transport) :
  (forall l, order l ≡ₚ l) ->
  let stats := index_stats replies in
  let All := index_All stats order in
  let w := pprofIndex_ServeHTTP "/debug/bigmachine/pprof/" form marshal replies order indexTmpl
             (new_writer None fl) in
  (sent w).1 = 200%Z /\
  length (links (w_body w)) = S (length All) + sum_list_with (fun m => S (length m.2)) stats /\
  (Forall (fun m => Forall (fun x => plain_name x.1 = true) m.2) stats ->
   links (w_body w) =
     profile_links None All ++ (sort_by_name stats ≫= fun m => profile_links (Some m.1) m.2)).
Proof.
  intros Ho stats All w.
  assert (Hw : (sent w).1 = 200%Z /\ w_body w = indexTmpl All stats).
  { destruct (Write_first (indexTmpl All stats) (new_writer None fl)) as [H1 H2]; [done..|].
    split; [exact (f_equal fst H1)|exact H2]. }
  destruct Hw as [Hs ->]. split; [done|]. unfold links. rewrite anchors_index. split.
  - rewrite length_fmap, length_app. unfold row_anchors at 1. rewrite length_fmap. cbn [length].
    rewrite <- (sort_by_name_perm stats) at 2. rewrite length_machine_anchors. lia.
  - intros Hn. rewrite fmap_app, (read_rows None). cbn [fmap list_fmap].
    + rewrite (read_goroutines None : read_link ("goroutine?debug=2", "full goroutine stack dump") = _).
      unfold profile_links at 1. rewrite <- app_assoc. do 2 f_equal.
      rewrite bind_read. apply Forall_bind_ext, Forall_forall. intros m Hm. apply read_machine.
      rewrite sort_by_name_perm in Hm. by eapply Forall_forall in Hn.
    + apply Forall_forall. intros x Hx. apply (index_All_names stats order) in Hx as (m & Hm & Hx); [|done].
      apply list_elem_of_fmap in Hx as (y & -> & Hy). eapply Forall_forall in Hn; [|exact Hm].
      by eapply Forall_forall in Hn.
Qed.

Module Samples.

Definition sample_replies : list (string * result (error (ErrorsLib := SimpleErrors)) (list (string * Z))) :=
  [("https://b:1/?x=1&y", Ok [("a/b <c>", 3%Z); ("heap", 2%Z)]); ("https://a/", Ok [("heap", 40%Z)]);
   ("https://c/", Err (Errors.New "down"))].

Lemma index_links_witness :
  links (w_body (pprofIndex_ServeHTTP "/debug/bigmachine/pprof/" (fun _ => "") (fun _ => (None, ""))
                   sample_replies id indexTmpl (new_writer None http2))) =
  [("a/b <c>", Some (shown None 1 "a/b <c>")); ("heap", Some (shown None 1 "heap"));
   ("full goroutine stack dump", Some (shown None 2 "goroutine"));
   ("heap", Some (shown (Some "https://a/") 1 "heap"));
   ("full goroutine stack dump", Some (shown (Some "https://a/") 2 "goroutine"));
   ("a/b <c>", Some (shown (Some "https://b:1/?x=1&y") 1 "a/b <c>"));
   ("heap", Some (shown (Some "https://b:1/?x=1&y") 1 "heap"));
   ("full goroutine stack dump", Some (shown (Some "https://b:1/?x=1&y") 2 "goroutine"))].
Proof.
  destruct (index_links (fun _ => "") (fun _ => (None, "")) sample_replies id http2) as (_ & _ & H).
  - done.
  - etransitivity; [apply H|].
    + repeat (constructor; [by repeat constructor|]). constructor.
    + vm_compute. reflexivity.
Defined.

(** A name with a colon is taken for a scheme, and its link leads nowhere. *)
Example link_lost : links (rows "" [("cache:hits", 1%Z)]) = [("cache:hits", None)].
Proof. vm_compute. reflexivity. Qed.

End Samples.
