(* ===== verification/Tee.v ===== *)
(** internal/tee/writer.go: the asynchronous write multiplexer.

    A forwarded writer (a [sink]) has a channel that holds at most one buffer.
    Write visits the registered sinks; for each it takes the buffer out of the
    channel (or makes a new one), makes room, appends, and puts it back.  A
    goroutine of the sink takes the buffer and copies it to the writer, until
    the sink is cancelled or a copy fails.  [exec] is one step of any of these
    goroutines, labelled with what it does; [run] is any interleaving. *)
From S2P Require Import Prelude.
From Stdlib Require Import Ascii.

(** A byte. *)
Definition byte := ascii.

(** 512 << 10 *)
Definition bufferSize : Z := Z.shiftl 512 10.

(** ** One buffer *)

(** bytes.Buffer.Next: drops up to n bytes from the front. *)
Definition Next (n : nat) (buf : list byte) : list byte := drop n buf.

(** The body of Writer.Write once it has a buffer ([size] is bufferSize). *)
Definition fill (size : Z) (p buf : list byte) : list byte :=
  let n := (Z.of_nat (length buf) + Z.of_nat (length p) - size)%Z in
  (if decide (n > 0)%Z then Next (Z.to_nat n) buf else buf) ++ p.

(** ** The goroutines *)

(** How far the cancelation of a sink is, which once.Do runs once: not begun,
    after the Delete, after close(done). *)
Inductive once_state := Fresh | Deleted | Closed.

#[export] Instance once_state_eq_dec : EqDecision once_state.
Proof. solve_decision. Defined.

(** The goroutine of a sink: in its select, in io.Copy with the bytes it has
    received, in cancel after a failed copy, returned. *)
Inductive reader_pc := Selecting | Copying (buf : list byte) | Failed | Gone.

(** One forwarded writer: its channel, its cancelation, its goroutine, and what
    its io.Writer has accepted. *)
Record sink := {
  chan : option (list byte);
  once : once_state;
  reader : reader_pc;
  out : list byte
}.

Definition new_sink : sink :=
  {| chan := None; once := Fresh; reader := Selecting; out := [] |}.

(** A call of Write: between two keys of the Range, at the key [c] before the
    select, at [c] with a filled buffer that it is about to send.  [must] are
    the keys that were in the map when the Range began and [vis] those it has
    come to: a Range comes to a key at most once, and to every key that is in the
    map all the time. *)
Inductive write_pc :=
| Ranging (p : list byte) (must vis : gset nat)
| Visiting (p : list byte) (must vis : gset nat) (c : nat)
| Holding (p : list byte) (must vis : gset nat) (c : nat) (buf : list byte).

#[export] Instance write_pc_eq_dec : EqDecision write_pc.
Proof. solve_decision. Defined.

(** The sinks ever made and the calls of Write under way, by goroutine. *)
Record state := { sinks : gmap nat sink; writes : gmap nat write_pc }.

Definition init : state := {| sinks := ∅; writes := ∅ |}.

Definition set_sink (c : nat) (k : sink) (s : state) : state :=
  {| sinks := <[c := k]> (sinks s); writes := writes s |}.

Definition set_write (t : nat) (pc : write_pc) (s : state) : state :=
  {| sinks := sinks s; writes := <[t := pc]> (writes s) |}.

(** Is [c] a key of the map? *)
Definition registered (c : nat) (s : state) : Prop :=
  exists k, sinks s !! c = Some k /\ once k = Fresh.

#[export] Instance registered_dec c s : Decision (registered c s).
Proof.
  refine (match sinks s !! c as o return sinks s !! c = o -> _ with
          | Some k => fun E => if decide (once k = Fresh) then left _ else right _
          | None => fun E => right _
          end eq_refl); unfold registered; naive_solver.
Defined.

(** The keys of the map. *)
Definition keys (s : state) : gset nat :=
  dom (filter (fun ck => once ck.2 = Fresh) (sinks s)).

Definition with_chan (o : option (list byte)) (k : sink) : sink :=
  {| chan := o; once := once k; reader := reader k; out := out k |}.
Definition with_once (o : once_state) (k : sink) : sink :=
  {| chan := chan k; once := o; reader := reader k; out := out k |}.
Definition with_reader (r : reader_pc) (k : sink) : sink :=
  {| chan := chan k; once := once k; reader := r; out := out k |}.
Definition with_out (b : list byte) (k : sink) : sink :=
  {| chan := chan k; once := once k; reader := reader k; out := out k ++ b |}.

(** What happens: Tee makes a sink; a goroutine calls Write, its Range comes to
    a sink, it takes the buffer and fills it, sends it, returns; the goroutine of
    a sink receives a buffer, copies it or fails after [n] bytes, and returns;
    cancel deletes the key, and closes done. *)
Inductive label :=
| LTee (c : nat)
| LBegin (t : nat) (p : list byte)
| LVisit (t c : nat)
| LTake (t c : nat) (p : list byte)
| LSend (t c : nat)
| LReturn (t : nat)
| LReceive (c : nat)
| LCopied (c : nat)
| LCopyFails (c n : nat)
| LStop (c : nat)
| LDelete (c : nat)
| LClose (c : nat).

(** A sink whose key the goroutines of the sink change. *)
Definition on_sink (c : nat) (s : state) (f : sink -> option sink) : option state :=
  k ← sinks s !! c; k' ← f k; Some (set_sink c k' s).

(** The steps of the goroutine of a sink and of cancel.  io.Copy of a
    bytes.Buffer is one Write of what the buffer holds, and none if it is empty;
    it fails if that Write fails or is short.  In its select the goroutine may
    take a buffer although done is closed: a select with several ready cases
    takes any. *)
Definition sink_step (l : label) (k : sink) : option sink :=
  match l with
  | LReceive _ =>
    match reader k, chan k with
    | Selecting, Some buf => Some (with_reader (Copying buf) (with_chan None k))
    | _, _ => None
    end
  | LCopied _ =>
    match reader k with
    | Copying buf => Some (with_reader Selecting (with_out buf k))
    | _ => None
    end
  | LCopyFails _ n =>
    match reader k with
    | Copying ((_ :: _) as buf) =>
      if decide (n <= length buf) then Some (with_reader Failed (with_out (take n buf) k)) else None
    | _ => None
    end
  | LStop _ =>
    match reader k, once k with
    | Selecting, Closed | Failed, Closed => Some (with_reader Gone k)
    | _, _ => None
    end
  | LDelete _ => match once k with Fresh => Some (with_once Deleted k) | _ => None end
  | LClose _ => match once k with Deleted => Some (with_once Closed k) | _ => None end
  | _ => None
  end.

(** One step. *)
Definition exec (l : label) (s : state) : option state :=
  match l with
  | LTee c => match sinks s !! c with None => Some (set_sink c new_sink s) | Some _ => None end
  | LBegin t p =>
    match writes s !! t with None => Some (set_write t (Ranging p (keys s) ∅) s) | Some _ => None end
  | LVisit t c =>
    match writes s !! t with
    | Some (Ranging p must vis) =>
      if decide (registered c s /\ c ∉ vis)
      then Some (set_write t (Visiting p must ({[c]} ∪ vis) c) s) else None
    | _ => None
    end
  | LTake t c p =>
    match writes s !! t, sinks s !! c with
    | Some (Visiting p' must vis c'), Some k =>
      if decide (c' = c /\ p' = p)
      then Some (set_write t (Holding p must vis c (fill bufferSize p (default [] (chan k))))
                   (set_sink c (with_chan None k) s))
      else None
    | _, _ => None
    end
  | LSend t c =>
    match writes s !! t, sinks s !! c with
    | Some (Holding p must vis c' buf), Some k =>
      if decide (c' = c /\ chan k = None)
      then Some (set_write t (Ranging p must vis) (set_sink c (with_chan (Some buf) k) s)) else None
    | _, _ => None
    end
  | LReturn t =>
    match writes s !! t with
    | Some (Ranging p must vis) =>
      if decide (must ∩ keys s ⊆ vis)
      then Some {| sinks := sinks s; writes := delete t (writes s) |} else None
    | _ => None
    end
  | LReceive c | LCopied c | LCopyFails c _ | LStop c | LDelete c | LClose c =>
    on_sink c s (sink_step l)
  end.

(** An interleaving. *)
Fixpoint run (ls : list label) (s : state) : option state :=
  match ls with
  | [] => Some s
  | l :: ls => s' ← exec l s; run ls s'
  end.

(** ** What is asked of a sink, and where it is *)

(** The slices that Writes have put into buffers of [c], in this order. *)
Definition asked (c : nat) (ls : list label) : list (list byte) :=
  omap (fun l => match l with
                 | LTake _ c' p => if decide (c' = c) then Some p else None
                 | _ => None
                 end) ls.

(** Several slices, written to one buffer. *)
Definition write_all (size : Z) (ps : list (list byte)) (buf : list byte) : list byte :=
  foldl (fun b p => fill size p b) buf ps.

(** The last n bytes. *)
Definition last_bytes (n : Z) (l : list byte) : list byte :=
  drop (Z.to_nat (Z.of_nat (length l) - n)) l.

(** What the goroutine of a sink is copying. *)
Definition copying (k : sink) : list byte :=
  match reader k with Copying buf => buf | _ => [] end.

(** The filled buffer that a Write holds for [c]. *)
Definition held_by (c : nat) (pc : write_pc) : list byte :=
  match pc with
  | Holding _ _ _ c' buf => if decide (c' = c) then buf else []
  | _ => []
  end.

(** Only goroutine [t] calls Write. *)
Definition only_writer (t : nat) (ls : list label) : Prop :=
  Forall (fun l => match l with LBegin t' _ => t' = t | _ => True end) ls.

(** The steps that the goroutine [t] makes in a Write. *)
Definition by_writer (t : nat) (l : label) : Prop :=
  match l with
  | LVisit t' _ | LTake t' _ _ | LSend t' _ | LReturn t' => t' = t
  | _ => False
  end.

(** The steps of the goroutine of a sink and of cancel. *)
Definition by_sink (l : label) : bool :=
  match l with
  | LReceive _ | LCopied _ | LCopyFails _ _ | LStop _ | LDelete _ | LClose _ => true
  | _ => false
  end.

(** The steps that concern the sink [c]. *)
Definition concerns (c : nat) (l : label) : Prop :=
  match l with
  | LBegin _ _ | LReturn _ | LVisit _ _ => False
  | LTee c' | LTake _ c' _ | LSend _ c' | LReceive c' | LCopied c' | LCopyFails c' _
  | LStop c' | LDelete c' | LClose c' => c' = c
  end.

(** ** The contents of one buffer *)

Lemma fill_length size p buf :
  (Z.of_nat (length buf) <= size -> Z.of_nat (length p) <= size ->
   Z.of_nat (length (fill size p buf)) <= size)%Z.
Proof.
  intros Hb Hp. unfold fill, Next. rewrite length_app.
  case_decide; [rewrite length_drop|]; lia.
Qed.

Lemma fill_last size p all :
  (Z.of_nat (length p) <= size)%Z ->
  fill size p (last_bytes size all) = last_bytes size (all ++ p).
Proof.
  intros Hp. unfold fill, last_bytes, Next.
  rewrite length_drop, length_app, drop_app.
  match goal with |- context [drop (?x - length all) p] => replace (x - length all) with 0 by lia end.
  rewrite drop_0. case_decide; rewrite ?drop_drop; f_equal; f_equal; lia.
Qed.

Lemma fill_large size p buf : (size <= Z.of_nat (length p))%Z -> fill size p buf = p.
Proof.
  intros Hp. unfold fill, Next. case_decide; [by rewrite drop_ge by lia|].
  destruct buf; [done|]. simpl in *. lia.
Qed.

(** Only the oldest bytes are lost. *)
Lemma fill_submseteq size p buf : fill size p buf ⊆+ buf ++ p.
Proof.
  unfold fill, Next. apply submseteq_skips_r. case_decide; [|done].
  apply sublist_submseteq, sublist_drop.
Qed.

(** What a slow reader gets.  Whatever is written between two receptions,
    the buffer then holds exactly the last bufferSize bytes of what was
    written since (all of it if it is less), in order and contiguous: only the
    oldest bytes are discarded.  (A single Write larger than the buffer is kept
    whole and alone.) *)
Lemma buffer_keeps_the_newest size ps :
  (0 <= size)%Z -> Forall (fun p => (Z.of_nat (length p) <= size)%Z) ps ->
  write_all size ps [] = last_bytes size (mjoin ps).
Proof.
  intros H0 H. induction ps as [|q ps IH] using rev_ind; [unfold last_bytes; by destruct (Z.to_nat _)|].
  apply Forall_app in H as [Hps Hq]. apply Forall_cons in Hq as [Hq _].
  unfold write_all in *. rewrite foldl_snoc, (IH Hps), (fill_last size q _ Hq).
  by rewrite join_app; simpl; rewrite app_nil_r.
Qed.

Lemma write_all_snoc size ps p :
  write_all size (ps ++ [p]) [] = fill size p (write_all size ps []).
Proof. unfold write_all. by rewrite foldl_snoc. Qed.

(** ** Runs *)

Lemma run_app ls1 ls2 s : run (ls1 ++ ls2) s = s' ← run ls1 s; run ls2 s'.
Proof.
  revert s. induction ls1 as [|l ls1 IH]; intros s; [done|].
  cbn [app run]. destruct (exec l s); simpl; [apply IH|done].
Qed.

Lemma run_snoc ls l s s' :
  run (ls ++ [l]) s = Some s' <-> exists s1, run ls s = Some s1 /\ exec l s1 = Some s'.
Proof.
  rewrite run_app. destruct (run ls s) as [s1|]; simpl.
  - split; [intros H; exists s1; by destruct (exec l s1)|].
    intros (s2 & [= <-] & ->). done.
  - split; [done|]. by intros (s2 & [=] & _).
Qed.

(** Induction on a run from its start, the last step last. *)
Lemma run_ind (P : list label -> state -> Prop) s0 :
  P [] s0 ->
  (forall ls l s s', run ls s0 = Some s -> P ls s -> exec l s = Some s' -> P (ls ++ [l]) s') ->
  forall ls s, run ls s0 = Some s -> P ls s.
Proof.
  intros H0 HS ls. induction ls as [|l ls IH] using rev_ind; intros s Hr.
  - simpl in Hr. by simplify_eq.
  - apply run_snoc in Hr as (s1 & Hr & He). eauto.
Qed.

Lemma asked_snoc c ls l : asked c (ls ++ [l]) = asked c ls ++ asked c [l].
Proof. unfold asked. by rewrite omap_app. Qed.

(** The successor of a step, by the kind of its label. *)
Ltac exec_inv He :=
  unfold exec, on_sink, sink_step in He; simpl in He;
  repeat (case_match; simplify_option_eq); simplify_option_eq.

(** A step that does not concern a sink leaves it alone: sinks are independent. *)
Lemma exec_other c l s s' :
  exec l s = Some s' -> ~ concerns c l -> sinks s' !! c = sinks s !! c.
Proof.
  intros He Hc. destruct l; exec_inv He; simpl in Hc |- *; try done;
    by rewrite lookup_insert_ne by naive_solver.
Qed.

#[export] Instance concerns_dec c l : Decision (concerns c l).
Proof. destruct l; simpl; apply _. Defined.

(** Who is inside Write, after a step. *)
Lemma exec_writes_other t l s s' :
  exec l s = Some s' ->
  (match l with LBegin t' _ => t' <> t | _ => ~ by_writer t l end) ->
  writes s' !! t = writes s !! t.
Proof.
  intros He Hc. destruct l; exec_inv He; simpl in Hc |- *; try done;
    first [by rewrite lookup_insert_ne by naive_solver | by rewrite lookup_delete_ne by naive_solver].
Qed.

(** The sinks that Writes are at exist. *)
Definition at_sink (pc : write_pc) : option nat :=
  match pc with
  | Ranging _ _ _ => None
  | Visiting _ _ _ c | Holding _ _ _ c _ => Some c
  end.

Definition wf (s : state) : Prop :=
  forall t pc c, writes s !! t = Some pc -> at_sink pc = Some c -> is_Some (sinks s !! c).

Lemma exec_sinks_mono c l s s' :
  exec l s = Some s' -> is_Some (sinks s !! c) -> is_Some (sinks s' !! c).
Proof.
  intros He Hc. destruct l; exec_inv He; simpl; try done;
    rewrite lookup_insert_is_Some'; auto.
Qed.

Lemma exec_wf l s s' : exec l s = Some s' -> wf s -> wf s'.
Proof.
  intros He Hw t pc c Ht Hpc.
  assert (Hm := exec_sinks_mono c l s s' He).
  destruct (decide (writes s !! t = Some pc)) as [E|E]; [by eapply Hm, Hw|].
  apply Hm. unfold wf in Hw. clear Hm.
  destruct l; exec_inv He; simpl in *; try done;
    try (by apply lookup_delete_Some in Ht as [_ ?]);
    apply lookup_insert_Some in Ht as [[? ?]|[? ?]]; simplify_eq; simpl in *; simplify_eq; eauto.
  by match goal with H : registered _ _ /\ _ |- _ => destruct H as [(k & -> & _) _] end.
Qed.


Lemma run_wf ls s : run ls init = Some s -> wf s.
Proof.
  apply (run_ind (fun _ => wf)); [by intros t pc c H|].
  intros. by eapply exec_wf.
Qed.

(** ** One goroutine that writes *)

(** The filled buffer that [t] holds for a sink. *)
Definition holding (t c : nat) (s : state) : option (list byte) :=
  match writes s !! t with
  | Some (Holding _ _ _ c' buf) => if decide (c' = c) then Some buf else None
  | _ => None
  end.

(** The buffer that is under way to a sink: the one that [t] holds, or that the
    channel holds. *)
Definition pending (t c : nat) (s : state) (k : sink) : list byte :=
  default (default [] (chan k)) (holding t c s).

(** Is the goroutine of the sink still copying what it receives? *)
Definition copies (k : sink) : bool :=
  match reader k with Selecting | Copying _ => true | Failed | Gone => false end.

(** What reaches the io.Writer, when the Writes between two receptions are
    [segs]: of each, what the buffer keeps. *)
Definition delivered (segs : list (list (list byte))) (k : sink) : Prop :=
  let all := mjoin ((fun seg => write_all bufferSize seg []) <$> segs) in
  out k ++ copying k `prefix_of` all /\ (copies k = true -> out k ++ copying k = all).

Record solo (t c : nat) (ls : list label) (s : state) : Prop := {
  solo_others : forall t', t' <> t -> writes s !! t' = None;
  solo_chan : forall k buf, sinks s !! c = Some k -> holding t c s = Some buf -> chan k = None;
  solo_segs : forall k, sinks s !! c = Some k -> exists segs ps,
    asked c ls = mjoin segs ++ ps /\ pending t c s k = write_all bufferSize ps [] /\
    delivered segs k;
  solo_none : sinks s !! c = None -> asked c ls = []
}.

Lemma exec_others t l s s' :
  exec l s = Some s' -> only_writer t [l] ->
  (forall t', t' <> t -> writes s !! t' = None) -> forall t', t' <> t -> writes s' !! t' = None.
Proof.
  intros He Ho H t' Ht'. apply Forall_cons in Ho as [Ho _]. specialize (H t' Ht').
  rewrite (exec_writes_other t' l s s' He); [done|].
  destruct l; simpl in *; try tauto; try congruence; intros ->; by rewrite H in He.
Qed.

(** The goroutine of a sink and cancel: what they do to a sink whose content
    and deliveries are known. *)
Lemma sink_step_delivered l k k' segs ps b :
  sink_step l k = Some k' ->
  (match l with LReceive _ => chan k = Some b | _ => True end) ->
  write_all bufferSize ps [] = b -> delivered segs k ->
  match l with
  | LReceive _ => chan k' = None /\ delivered (segs ++ [ps]) k'
  | _ => chan k' = chan k /\ delivered segs k'
  end.
Proof.
  intros He Hb Hp [Hd1 Hd2]. unfold delivered, copies, copying in *.
  destruct l; simpl in He; try done; repeat (case_match; simplify_eq/=); split; try done;
    rewrite ?app_nil_r in *.
  - rewrite fmap_app, join_app, <- Hd2 by done. cbn. by rewrite app_nil_r.
  - done.
  - split; [|done]. etrans; [|exact Hd1]. apply prefix_app.
    match goal with |- take ?n ?y `prefix_of` _ => exists (drop n y) end.
    by rewrite take_drop.
Qed.

(** ** What reaches a writer *)

Lemma holding_other t c l s s' :
  exec l s = Some s' ->
  match l with LTake _ c' _ | LSend _ c' => c' <> c | _ => True end ->
  holding t c s' = holding t c s.
Proof.
  intros He Hl. unfold holding.
  assert (Hw : writes s' !! t = writes s !! t -> holding t c s' = holding t c s)
    by (unfold holding; by intros ->).
  destruct l as [c0|t0 p|t0 c0|t0 c0 p|t0 c0|t0|c0|c0|c0 n|c0|c0|c0];
    try (by apply Hw, (exec_writes_other _ _ _ _ He); simpl; tauto);
    (destruct (decide (t0 = t)) as [->|Hne];
     [|apply Hw, (exec_writes_other _ _ _ _ He); simpl; congruence]);
    clear Hw; exec_inv He; simpl in *; rewrite ?lookup_insert_eq, ?lookup_delete_eq in *; by simplify_eq.
Qed.

Lemma exec_solo_other t c l s s' ls :
  exec l s = Some s' -> only_writer t [l] -> ~ concerns c l -> solo t c ls s ->
  solo t c (ls ++ [l]) s'.
Proof.
  intros He Ho Hc [H1 H2 H3 H4].
  assert (Hs := exec_other c l s s' He Hc).
  assert (Hh : holding t c s' = holding t c s) by (eapply holding_other; [done|]; by destruct l).
  assert (Ha : asked c (ls ++ [l]) = asked c ls).
  { rewrite asked_snoc. destruct l; simpl; rewrite ?app_nil_r; try done.
    unfold asked at 2. simpl. case_decide; [done|by rewrite app_nil_r]. }
  split; [by eapply exec_others|unfold pending in *; rewrite ?Hs, ?Hh, ?Ha; done..].
Qed.

(** A step of the goroutine of a sink, or of cancel. *)
Lemma exec_sink_step c l s s' :
  exec l s = Some s' -> concerns c l ->
  by_sink l = true ->
  exists k k', sinks s !! c = Some k /\ sink_step l k = Some k' /\ s' = set_sink c k' s.
Proof.
  intros He Hc Hl.
  assert (E : on_sink c s (sink_step l) = Some s') by (destruct l; try done; simpl in Hc; by subst).
  unfold on_sink in E. apply bind_Some in E as (k & Hk & E). apply bind_Some in E as (k' & Hst & E).
  exists k, k'. by injection E as <-.
Qed.

Lemma exec_solo_sink t c l s s' ls :
  exec l s = Some s' -> only_writer t [l] -> concerns c l ->
  by_sink l = true ->
  solo t c ls s -> solo t c (ls ++ [l]) s'.
Proof.
  intros He Ho Hc Hl [H1 H2 H3 H4].
  assert (Hh : holding t c s' = holding t c s) by (eapply holding_other; [done|]; by destruct l).
  assert (Ha : asked c (ls ++ [l]) = asked c ls) by (rewrite asked_snoc; destruct l; by rewrite ?app_nil_r).
  assert (H1' := exec_others t l s s' He Ho H1).
  destruct (exec_sink_step c l s s' He Hc Hl) as (k & k' & Hk & Hst & Hs').
  destruct (H3 k Hk) as (segs & ps & Hq & Hp & Hd).
  split; [done| | |]; rewrite Hs'; cbn [set_sink sinks]; rewrite ?lookup_insert_eq, ?Ha, <- ?Hs', ?Hh; [..|done]; intros k0.
  - intros buf [= <-] Hb. specialize (H2 k buf Hk Hb). destruct l; simpl in Hst; try done; 
      repeat (case_match; simplify_eq/=); done.
  - intros [= <-]. unfold pending in *. rewrite Hh.
    destruct (holding t c s) as [buf|] eqn:Hb; simpl in Hp |- *.
    + specialize (H2 k buf Hk eq_refl).
      assert (Hstep := sink_step_delivered l k k' segs ps buf Hst).
      destruct l; try done; try (destruct Hstep as [_ Hd']; [done..|]; by exists segs, ps).
      simpl in Hst. rewrite H2 in Hst. by destruct (reader k).
    + assert (Hstep := sink_step_delivered l k k' segs ps (default [] (chan k)) Hst).
      destruct l; try done;
        try (destruct Hstep as [-> Hd']; [done..|]; by exists segs, ps).
      destruct Hstep as [-> Hd']; [|done..|].
      * simpl in Hst. by destruct (reader k), (chan k).
      * exists (segs ++ [ps]), []. split; [|done]. by rewrite join_app, Hq; cbn; rewrite !app_nil_r.
Qed.

Lemma exec_solo_tee t c s s' ls :
  exec (LTee c) s = Some s' -> wf s -> solo t c ls s -> solo t c (ls ++ [LTee c]) s'.
Proof.
  intros He Hwf Hsolo. assert (H1' := exec_others t _ s s' He ltac:(by repeat constructor) (solo_others _ _ _ _ Hsolo)).
  destruct Hsolo as [H1 H2 H3 H4].
  assert (Hh : holding t c s' = holding t c s) by (by eapply holding_other).
  simpl in He. destruct (sinks s !! c) eqn:Ek; [done|]. simplify_eq.
  assert (Hn : holding t c s = None).
  { unfold holding. destruct (writes s !! t) as [[| |p m v c' buf]|] eqn:E; try done.
    case_decide; [|done]. subst. destruct (Hwf t _ c E eq_refl) as [k Hk]. congruence. }
  split; [done|..]; simpl; rewrite lookup_insert_eq, ?asked_snoc, ?H4, ?app_nil_r by done; [by intros k buf [= <-]| |done].
  intros k [= <-]. exists [], []. unfold pending. by rewrite Hh, Hn.
Qed.

Lemma exec_solo_take t c p s s' ls :
  exec (LTake t c p) s = Some s' -> solo t c ls s -> solo t c (ls ++ [LTake t c p]) s'.
Proof.
  intros He Hsolo. assert (H1' := exec_others t _ s s' He ltac:(by repeat constructor) (solo_others _ _ _ _ Hsolo)).
  destruct Hsolo as [H1 H2 H3 H4].
  simpl in He. destruct (writes s !! t) as [[|p' m v c'|]|] eqn:Ew; try done.
  destruct (sinks s !! c) as [k|] eqn:Ek; [|done]. case_decide as E; [|done]. destruct E as [-> ->]. simplify_eq.
  destruct (H3 k eq_refl) as (segs & ps & Hq & Hp & Hd).
  unfold pending, holding in *. rewrite Ew in *. simpl in Hp.
  split; [done|..]; unfold pending, holding; simpl; rewrite !lookup_insert_eq; [by intros k0 buf [= <-]| |done].
  intros k0 [= <-]. exists segs, (ps ++ [p]). rewrite asked_snoc. unfold asked at 2. simpl.
  rewrite !decide_True by done. cbn. by rewrite Hq, Hp, write_all_snoc, app_assoc.
Qed.

Lemma exec_solo_send t c s s' ls :
  exec (LSend t c) s = Some s' -> solo t c ls s -> solo t c (ls ++ [LSend t c]) s'.
Proof.
  intros He Hsolo. assert (H1' := exec_others t _ s s' He ltac:(by repeat constructor) (solo_others _ _ _ _ Hsolo)).
  destruct Hsolo as [H1 H2 H3 H4].
  simpl in He. destruct (writes s !! t) as [[| |p m v c' buf]|] eqn:Ew; try done.
  destruct (sinks s !! c) as [k|] eqn:Ek; [|done]. case_decide as E; [|done]. destruct E as [-> E]. simplify_eq.
  destruct (H3 k eq_refl) as (segs & ps & Hq & Hp & Hd).
  unfold pending, holding in *. rewrite Ew, decide_True in * by done. simpl in Hp.
  split; [done|..]; unfold pending, holding; simpl; rewrite !lookup_insert_eq; [done| |done].
  intros k0 [= <-]. exists segs, ps. by rewrite asked_snoc, app_nil_r.
Qed.

Lemma exec_solo t c l s s' ls :
  exec l s = Some s' -> only_writer t [l] -> wf s -> solo t c ls s -> solo t c (ls ++ [l]) s'.
Proof.
  intros He Ho Hwf Hsolo.
  destruct (decide (concerns c l)) as [Hc|]; [|by eapply exec_solo_other].
  destruct l as [c0|t0 p|t0 c0|t0 c0 p|t0 c0|t0|c0|c0|c0 n|c0|c0|c0]; try done;
    try (by eapply exec_solo_sink); simpl in Hc; subst c0.
  - by eapply exec_solo_tee.
  - destruct (decide (t0 = t)) as [->|Hne]; [by eapply exec_solo_take|].
    simpl in He. by rewrite (solo_others _ _ _ _ Hsolo t0 Hne) in He.
  - destruct (decide (t0 = t)) as [->|Hne]; [by eapply exec_solo_send|].
    simpl in He. by rewrite (solo_others _ _ _ _ Hsolo t0 Hne) in He.
Qed.

Lemma run_solo t c ls s : run ls init = Some s -> only_writer t ls -> solo t c ls s.
Proof.
  apply (run_ind (fun ls s => only_writer t ls -> solo t c ls s)).
  - intros _. by split.
  - intros ls0 l s0 s' Hr IH He Ho. apply Forall_app in Ho as [Ho Hl].
    apply (exec_solo t c l s0 s' ls0 He Hl); [by eapply run_wf|by apply IH].
Qed.

(** ** Any number of goroutines that write *)

(** What all Writes hold for a sink. *)
Definition held_map (c : nat) (m : gmap nat write_pc) : list byte :=
  mjoin ((fun tp => held_by c tp.2) <$> map_to_list m).

Lemma held_map_insert c t pc m :
  held_map c (<[t := pc]> m) ≡ₚ held_by c pc ++ held_map c (delete t m).
Proof.
  unfold held_map. rewrite <- insert_delete_eq.
  by rewrite map_to_list_insert by apply lookup_delete_eq.
Qed.

Lemma held_map_lookup c t pc m :
  m !! t = Some pc -> held_map c m ≡ₚ held_by c pc ++ held_map c (delete t m).
Proof. intros H. rewrite <- (insert_id m t pc H) at 1. by apply held_map_insert. Qed.

Lemma held_map_none c m : (forall t pc, m !! t = Some pc -> held_by c pc = []) -> held_map c m = [].
Proof.
  intros H. unfold held_map.
  assert (HF : Forall (fun tp : nat * write_pc => held_by c tp.2 = []) (map_to_list m)).
  { apply Forall_forall. intros [t pc] Hin. apply elem_of_map_to_list in Hin. by eapply H. }
  induction HF as [|[t pc] l Hp _ IH]; [done|]. cbn in *. by rewrite Hp.
Qed.

(** All bytes that are under way to a sink or have reached it. *)
Definition total (c : nat) (s : state) (k : sink) : list byte :=
  out k ++ copying k ++ default [] (chan k) ++ held_map c (writes s).

Lemma sink_step_total l k k' :
  sink_step l k = Some k' ->
  out k' ++ copying k' ++ default [] (chan k') ⊆+ out k ++ copying k ++ default [] (chan k).
Proof.
  intros He. unfold copying. destruct l; simpl in He; try done;
    repeat (case_match; simplify_eq/=); rewrite ?app_nil_r, <- ?app_assoc; try done.
  rewrite app_comm_cons. apply submseteq_skips_l, submseteq_skips_r.
  match goal with |- take ?n ?y ⊆+ _ => rewrite <- (take_drop n y) at 2 end.
  by apply submseteq_inserts_r.
Qed.

Lemma held_other c l s s' :
  exec l s = Some s' -> ~ concerns c l -> held_map c (writes s') ≡ₚ held_map c (writes s).
Proof.
  intros He Hc.
  assert (Hset : forall t pc, held_by c pc = [] ->
    (writes s !! t = None \/ exists pc', writes s !! t = Some pc' /\ held_by c pc' = []) ->
    held_map c (<[t := pc]> (writes s)) ≡ₚ held_map c (writes s)).
  { intros t pc Hp [Hn|(pc' & Hs & Hp')]; rewrite held_map_insert, Hp; [by rewrite delete_id|].
    by rewrite (held_map_lookup c t pc' (writes s) Hs), Hp'. }
  destruct l as [c0|t p|t c0|t c0 p|t c0|t|c0|c0|c0 n|c0|c0|c0]; simpl in Hc;
    exec_inv He; simpl; try done;
    try (apply Hset; simpl; simplify_option_eq; naive_solver).
  - apply Hset; [done|]. right. eexists. split; [done|]. simpl. by rewrite decide_False.
  - match goal with H : writes _ !! _ = Some _ |- _ => by rewrite (held_map_lookup c _ _ _ H) end.
Qed.

Lemma exec_total c l s s' k' ls :
  exec l s = Some s' -> wf s ->
  (forall k, sinks s !! c = Some k -> total c s k ⊆+ mjoin (asked c ls)) ->
  sinks s' !! c = Some k' -> total c s' k' ⊆+ mjoin (asked c (ls ++ [l])).
Proof.
  intros He Hwf IH Hk'. rewrite asked_snoc, join_app. unfold total in *.
  destruct (decide (concerns c l)) as [Hc|Hc].
  2: { rewrite (exec_other c l s s' He Hc) in Hk'. rewrite (held_other c l s s' He Hc).
       etrans; [by apply IH|]. by apply submseteq_inserts_r. }
  destruct (by_sink l) eqn:Hl.
  { assert (asked c [l] = []) as -> by (by destruct l).
    destruct (exec_sink_step c l s s' He Hc Hl) as (k & k1 & Hk & Hst & ->). simpl in *.
    rewrite lookup_insert_eq in Hk'. simplify_eq.
    rewrite app_nil_r. etrans; [|by apply IH].
    rewrite !(app_assoc (copying _)), !(app_assoc (out _)).
    apply submseteq_skips_r. rewrite <- !app_assoc. by eapply sink_step_total. }
  destruct l as [c0|t p|t c0|t c0 p|t c0|t|c0|c0|c0 n|c0|c0|c0]; try done; simpl in Hc; subst c0.
  - simpl in He. destruct (sinks s !! c) eqn:Hk; [done|]. simplify_eq. simpl in Hk' |- *.
    rewrite lookup_insert_eq in Hk'. simplify_eq. simpl. rewrite held_map_none; [apply submseteq_nil_l|].
    intros t pc Ht. destruct (at_sink pc) as [c'|] eqn:Ha; [|by destruct pc].
    destruct (Hwf t pc c' Ht Ha) as [k Hk']. destruct pc; simpl in *; try done. case_decide; naive_solver.
  - simpl in He. destruct (writes s !! t) as [[|p' m v c'|]|] eqn:Ew; try done.
    destruct (sinks s !! c) as [k|] eqn:Ek; [|done]. case_decide as E; [|done]. destruct E as [-> ->].
    simplify_eq. simpl in Hk' |- *. rewrite lookup_insert_eq in Hk'. simplify_eq. simpl.
    specialize (IH k eq_refl). rewrite (held_map_lookup c t _ _ Ew) in IH. simpl in IH.
    rewrite held_map_insert. simpl. rewrite decide_True by done.
    rewrite decide_True by done. cbn. rewrite app_nil_r.
    etrans; [|by apply submseteq_skips_r, IH]. rewrite <- !app_assoc.
    apply submseteq_skips_l, submseteq_skips_l.
    etrans; [apply submseteq_skips_r, fill_submseteq|]. rewrite <- app_assoc.
    apply submseteq_skips_l, Permutation_submseteq, Permutation_app_comm.
  - simpl in He. destruct (writes s !! t) as [[| |p m v c' buf]|] eqn:Ew; try done.
    destruct (sinks s !! c) as [k|] eqn:Ek; [|done]. case_decide as E; [|done]. destruct E as [-> E].
    simplify_eq. simpl in Hk' |- *. rewrite lookup_insert_eq in Hk'. simplify_eq. simpl.
    specialize (IH k eq_refl). rewrite (held_map_lookup c t _ _ Ew), E in IH. simpl in IH.
    rewrite decide_True in IH by done. by rewrite held_map_insert, app_nil_r.
Qed.

Lemma run_total c ls s k :
  run ls init = Some s -> sinks s !! c = Some k -> total c s k ⊆+ mjoin (asked c ls).
Proof.
  intros Hr. revert k. revert ls s Hr.
  apply (run_ind (fun ls s => forall k, sinks s !! c = Some k -> total c s k ⊆+ mjoin (asked c ls))); [done|].
  intros ls l s s' Hr IH He k Hk. eapply exec_total; [done|by eapply run_wf|done..].
Qed.

(** C36. What a forwarded writer gets.  However the goroutines interleave, it gets
    no byte that was not written for it, and none twice.  And when one goroutine
    writes, what it gets is exactly this: the Writes split into groups, one
    for each reception of its goroutine, and of each group it gets, in order,
    the last bufferSize bytes (a Write that is larger than the buffer, alone
    in its group, is kept whole); the Writes since are what is under way to it.
    Only a failed copy cuts this short. *)
Theorem what_a_writer_gets ls s c k :
  run ls init = Some s -> sinks s !! c = Some k ->
  out k ⊆+ mjoin (asked c ls) /\
  (forall t, only_writer t ls -> exists segs ps,
     asked c ls = mjoin segs ++ ps /\ pending t c s k = write_all bufferSize ps [] /\
     delivered segs k) /\
  (forall ps, Forall (fun p => (Z.of_nat (length p) <= bufferSize)%Z) ps ->
     write_all bufferSize ps [] = last_bytes bufferSize (mjoin ps)) /\
  (forall ps p, (bufferSize <= Z.of_nat (length p))%Z ->
     write_all bufferSize (ps ++ [p]) [] = p).
Proof.
  intros Hr Hk. repeat split.
  - etrans; [|by eapply run_total]. by apply submseteq_inserts_r.
  - intros t Ho. by eapply (solo_segs t c ls s); [eapply run_solo|].
  - intros ps. by apply buffer_keeps_the_newest.
  - intros ps p Hp. rewrite write_all_snoc. by apply fill_large.
Qed.

(** ** When Write blocks *)

Lemma elem_of_keys c s : c ∈ keys s <-> registered c s.
Proof.
  unfold keys, registered. rewrite elem_of_dom. unfold is_Some. split.
  - intros [k Hk]. apply map_lookup_filter_Some in Hk as [Hk Hf]. by exists k.
  - intros (k & Hk & Hf). exists k. by apply map_lookup_filter_Some.
Qed.

(** A Write that holds a buffer for [c]: once it can send, it goes on. *)
Lemma send_step t c p m v buf s k :
  writes s !! t = Some (Holding p m v c buf) -> sinks s !! c = Some k -> chan k = None ->
  exec (LSend t c) s = Some (set_write t (Ranging p m v) (set_sink c (with_chan (Some buf) k) s)).
Proof. intros Hw Hk Hc. simpl. rewrite Hw, Hk. by rewrite decide_True. Qed.

(** A visit of a sink, undisturbed. *)
Lemma visit_steps t c p m v s :
  writes s !! t = Some (Visiting p m v c) -> is_Some (sinks s !! c) ->
  exists s', run [LTake t c p; LSend t c] s = Some s' /\
    writes s' !! t = Some (Ranging p m v) /\ keys s' = keys s.
Proof.
  intros Hw [k Hk]. eexists. split; [|split].
  - simpl. rewrite Hw, Hk, decide_True by done. simpl. rewrite !lookup_insert_eq.
    rewrite decide_True by done. reflexivity.
  - simpl. by rewrite !lookup_insert_eq.
  - apply leibniz_equiv. intros c'. rewrite !elem_of_keys. unfold registered. simpl.
    destruct (decide (c' = c)) as [->|Hne]; [|by rewrite !lookup_insert_ne by done].
    rewrite lookup_insert_eq, Hk. naive_solver.
Qed.

(** The rest of a Range, undisturbed: three steps for each sink, and the return. *)
Lemma ranging_returns t n : forall p m v s,
  writes s !! t = Some (Ranging p m v) -> size ((m ∩ keys s) ∖ v) = n ->
  exists ls s', run ls s = Some s' /\ Forall (by_writer t) ls /\
    writes s' !! t = None /\ length ls = 3 * n + 1.
Proof.
  induction n as [|n IH]; intros p m v s Hw Hn.
  - exists [LReturn t]. eexists. split; [|split; [by repeat constructor|split]].
    + simpl. rewrite Hw. rewrite decide_True; [reflexivity|].
      apply size_empty_inv in Hn. set_solver.
    + simpl. by rewrite lookup_delete_eq.
    + done.
  - destruct (size_pos_elem_of ((m ∩ keys s) ∖ v)) as [c Hc]; [lia|].
    assert (Hreg : registered c s) by (apply elem_of_keys; set_solver).
    set (s1 := set_write t (Visiting p m ({[c]} ∪ v) c) s).
    assert (H1 : exec (LVisit t c) s = Some s1).
    { simpl. rewrite Hw. rewrite decide_True; [done|]. split; [done|set_solver]. }
    destruct (visit_steps t c p m ({[c]} ∪ v) s1) as (s2 & H2 & Hw2 & Hk2).
    { simpl. by rewrite lookup_insert_eq. }
    { destruct Hreg as (k & Hk & _). by exists k. }
    destruct (IH p m ({[c]} ∪ v) s2 Hw2) as (ls & s' & Hr & Hb & Hout & Hlen).
    { rewrite Hk2. change (keys s1) with (keys s).
      replace ((m ∩ keys s) ∖ ({[c]} ∪ v)) with (((m ∩ keys s) ∖ v) ∖ {[c]}) by set_solver.
      rewrite size_difference by set_solver. rewrite size_singleton. lia. }
    exists (LVisit t c :: [LTake t c p; LSend t c] ++ ls), s'. split; [|split; [|split; [done|simpl; lia]]].
    + cbn [run app]. rewrite H1. cbn [mbind option_bind]. change (run ([LTake t c p; LSend t c] ++ ls) s1 = Some s').
      by rewrite run_app, H2.
    + by repeat (constructor; try done).
Qed.

(** From anywhere inside Write. *)
Lemma write_returns t pc s :
  wf s -> writes s !! t = Some pc ->
  (forall p m v c buf k, pc = Holding p m v c buf -> sinks s !! c = Some k -> chan k = None) ->
  exists ls s', run ls s = Some s' /\ Forall (by_writer t) ls /\
    writes s' !! t = None /\ ls <> [].
Proof.
  intros Hwf Hw Hc.
  assert (Hgo : forall p m v s1, writes s1 !! t = Some (Ranging p m v) ->
    exists ls s', run ls s1 = Some s' /\ Forall (by_writer t) ls /\ writes s' !! t = None).
  { intros p m v s1 Hw1.
    destruct (ranging_returns t _ p m v s1 Hw1 eq_refl) as (ls & s' & ? & ? & ? & ?); eauto. }
  destruct pc as [p m v|p m v c|p m v c buf].
  - destruct (ranging_returns t _ p m v s Hw eq_refl) as (ls & s' & Hr & Hb & Hn & Hl).
    exists ls, s'. by destruct ls; [simpl in Hl; lia|].
  - destruct (visit_steps t c p m v s Hw) as (s1 & H1 & Hw1 & _); [by eapply Hwf|].
    destruct (Hgo p m v s1 Hw1) as (ls & s' & Hr & Hb & Hn).
    exists ([LTake t c p; LSend t c] ++ ls), s'. rewrite run_app, H1. by repeat (constructor; try done).
  - destruct (Hwf t _ c Hw eq_refl) as [k Hk].
    assert (H1 := send_step t c p m v buf s k Hw Hk (Hc p m v c buf k eq_refl Hk)).
    destruct (Hgo p m v (set_write t (Ranging p m v) (set_sink c (with_chan (Some buf) k) s)))
      as (ls & s' & Hr & Hb & Hn); [simpl; by rewrite lookup_insert_eq|].
    exists (LSend t c :: ls), s'. cbn [run]. rewrite H1. by repeat (constructor; try done).
Qed.

(** A cancelled sink gets no new visits. *)
Lemma no_visits t c l s s' :
  exec l s = Some s' ->
  (forall k, sinks s !! c = Some k -> once k <> Fresh) ->
  (forall pc, writes s !! t = Some pc -> at_sink pc <> Some c) ->
  forall pc, writes s' !! t = Some pc -> at_sink pc <> Some c.
Proof.
  intros He Ho H pc Hpc Ha.
  destruct (decide (writes s !! t = Some pc)) as [E|E]; [by apply (H pc E)|].
  destruct l as [c0|t0 p0|t0 c0|t0 c0 p0|t0 c0|t0|c0|c0|c0 n|c0|c0|c0]; exec_inv He; simpl in *; try done;
    try (by apply lookup_delete_Some in Hpc as [_ ?]);
    apply lookup_insert_Some in Hpc as [[? ?]|[? ?]]; simplify_eq; simpl in *; simplify_eq.
  - match goal with H : registered _ _ /\ _ |- _ => destruct H as [(k' & Hk' & ?) _] end. by eapply Ho.
  - destruct_and?; simplify_eq. eapply H; [eassumption|done].
Qed.

(** Once cancelled, a sink stays so. *)
Lemma once_stays c l s s' k :
  exec l s = Some s' -> sinks s !! c = Some k -> once k <> Fresh ->
  exists k', sinks s' !! c = Some k' /\ once k' <> Fresh.
Proof.
  intros He Hk Ho. destruct (decide (concerns c l)) as [Hcl|Hcl].
  2: { exists k. by rewrite (exec_other c l s s' He Hcl). }
  destruct (by_sink l) eqn:Hl.
  - destruct (exec_sink_step c l s s' He Hcl Hl) as (k0 & k' & Hk0 & Hst & ->). simplify_eq.
    exists k'. split; [apply lookup_insert_eq|].
    destruct l; simpl in Hst; try done; repeat (case_match; simplify_eq/=); simpl; congruence.
  - destruct l as [c0|t0 p0|t0 c0|t0 c0 p0|t0 c0|t0|c0|c0|c0 n|c0|c0|c0]; try done; simpl in Hcl; subst c0;
      exec_inv He; simpl; rewrite lookup_insert_eq; eexists; (split; [done|]); naive_solver.
Qed.

(** A Write that waits to send to a cancelled sink whose goroutine has returned,
    and whose channel is full. *)
Record stuck (t c : nat) (s : state) : Prop := {
  stuck_holds : exists p m v buf, writes s !! t = Some (Holding p m v c buf);
  stuck_alone : forall t' pc, t' <> t -> writes s !! t' = Some pc -> at_sink pc <> Some c;
  stuck_sink : exists k b, sinks s !! c = Some k /\ once k <> Fresh /\ reader k = Gone /\ chan k = Some b
}.

Lemma stuck_step t c l s s' : exec l s = Some s' -> stuck t c s -> stuck t c s'.
Proof.
  intros He [(p & m & v & buf & Hw) Hal (k & b & Hk & Ho & Hr & Hc)]. split.
  - exists p, m, v, buf. rewrite <- Hw. apply (exec_writes_other t l s s' He).
    destruct l as [c0|t0 p0|t0 c0|t0 c0 p0|t0 c0|t0|c0|c0|c0 n|c0|c0|c0]; simpl; try tauto;
      intros ->; simpl in He; rewrite Hw in He; try done.
    destruct (sinks s !! c0) eqn:E0; [|done]. case_decide as E; [|done]. naive_solver.
  - intros t' pc Ht'. eapply no_visits; [done|by intros k0 Hk0; simplify_eq|].
    intros pc'. by apply Hal.
  - destruct (decide (concerns c l)) as [Hcl|Hcl].
    2: { exists k, b. by rewrite (exec_other c l s s' He Hcl). }
    destruct (by_sink l) eqn:Hl.
    + destruct (exec_sink_step c l s s' He Hcl Hl) as (k0 & k' & Hk0 & Hst & ->). simplify_eq.
      exists k', b. split; [apply lookup_insert_eq|].
      destruct l; simpl in Hst; rewrite ?Hr in Hst; repeat (case_match; simplify_eq/=); done.
    + exfalso. destruct l as [c0|t0 p0|t0 c0|t0 c0 p0|t0 c0|t0|c0|c0|c0 n|c0|c0|c0]; try done; simpl in Hcl; subst c0;
        exec_inv He; destruct_and?; simplify_eq/=.
      destruct (decide (t0 = t)) as [->|Hne]; [congruence|]. by eapply (Hal t0).
Qed.

Lemma stuck_run t c ls s s' : run ls s = Some s' -> stuck t c s -> stuck t c s'.
Proof.
  revert s. induction ls as [|l ls IH]; intros s Hr Hs; [by injection Hr as <-|].
  simpl in Hr. apply bind_Some in Hr as (s1 & He & Hr). eapply IH; [done|]. by eapply stuck_step.
Qed.

(** Two goroutines write; the sink is cancelled between their sends. *)
Definition blocking_run (p : list byte) : list label :=
  [LTee 0; LBegin 1 p; LVisit 1 0; LTake 1 0 p; LBegin 2 p; LVisit 2 0; LTake 2 0 p;
   LSend 1 0; LReturn 1; LDelete 0; LClose 0; LStop 0].

Lemma blocking_run_stuck : exists s, run (blocking_run [Ascii.zero]) init = Some s /\ stuck 2 0 s.
Proof.
  eexists. split; [vm_compute; reflexivity|]. split.
  - do 4 eexists. vm_compute. reflexivity.
  - intros t' pc Ht' Hpc Ha.
    match type of Hpc with writes ?s !! _ = _ =>
      assert (Hall : map_Forall (fun t pc => t = 2 \/ at_sink pc <> Some 0) (writes s))
        by (apply (bool_decide_unpack _); vm_compute; exact I) end.
    by destruct (Hall t' pc Hpc).
  - do 2 eexists. vm_compute. by repeat split.
Qed.

(** C37. Write returns.  While one goroutine calls Write, it never blocks, whatever
    Tee, the cancelations and the goroutines of the sinks do meanwhile: wherever it is in
    Write, it can go on, and it needs only steps of its own to return.  So does
    a Write that begins while no other is under way.  But two goroutines can
    block for ever: both take a buffer, one sends, the sink is cancelled, and the
    other waits to send on a channel that nobody will ever receive from. *)
Theorem Write_returns :
  (forall t ls s, run ls init = Some s -> only_writer t ls -> is_Some (writes s !! t) ->
     exists l ls' s', run (l :: ls') s = Some s' /\ Forall (by_writer t) (l :: ls') /\
       writes s' !! t = None) /\
  (exists t ls s, run ls init = Some s /\
     forall ls' s', run ls' s = Some s' ->
       is_Some (writes s' !! t) /\ forall l, by_writer t l -> exec l s' = None).
Proof.
  split.
  - intros t ls s Hr Ho [pc Hw].
    destruct (write_returns t pc s) as ([|l ls'] & s' & Hr' & Hb & Hn & Hne); try done; [by eapply run_wf| |].
    + intros p m v c buf k -> Hk. eapply (solo_chan t c ls s); [by apply run_solo|done|].
      unfold holding. by rewrite Hw, decide_True.
    + by exists l, ls', s'.
  - destruct blocking_run_stuck as (s & Hr & Hst). exists 2, (blocking_run [Ascii.zero]), s.
    split; [done|]. intros ls' s' Hr'. destruct (stuck_run _ _ _ _ _ Hr' Hst) as [(p & m & v & buf & Hw) Hal (k & b & Hk & Ho & Hre & Hc)].
    rewrite Hw. split; [by eexists|]. intros l Hl.
    destruct l as [c0|t0 p0|t0 c0|t0 c0 p0|t0 c0|t0|c0|c0|c0 n|c0|c0|c0]; simpl in Hl; try done; subst t0; simpl; rewrite Hw; try done.
    destruct (sinks s' !! c0) eqn:E0; [|done]. case_decide as E; [|done]. naive_solver.
Qed.

(** ** Cancelation *)

(** A sink whose key is deleted, with no Write at it. *)
Definition cancelled (c : nat) (s : state) : Prop :=
  (exists k, sinks s !! c = Some k /\ once k <> Fresh) /\
  forall t pc, writes s !! t = Some pc -> at_sink pc <> Some c.

(** All that the io.Writer of a sink can still have got in the end. *)
Definition forwardable (k : sink) : list byte :=
  out k ++ match reader k with
           | Selecting => default [] (chan k)
           | Copying buf => buf ++ default [] (chan k)
           | Failed | Gone => []
           end.

Lemma sink_step_forwardable l k k' :
  sink_step l k = Some k' -> forwardable k' `prefix_of` forwardable k.
Proof.
  intros He. unfold forwardable. destruct l; simpl in He; try done;
    repeat (case_match; simplify_eq/=); rewrite ?app_nil_r, <- ?app_assoc; try done.
  - apply prefix_app.
    match goal with |- take ?n ?y `prefix_of` _ => exists (drop n y ++ default [] (chan k)) end.
    by rewrite app_assoc, take_drop.
  - by apply prefix_app_r.
Qed.

Lemma cancelled_step c l s s' k :
  exec l s = Some s' -> cancelled c s -> sinks s !! c = Some k ->
  cancelled c s' /\ asked c [l] = [] /\
  exists k', sinks s' !! c = Some k' /\ forwardable k' `prefix_of` forwardable k.
Proof.
  intros He [(k0 & Hk0 & Ho) Hal] Hk. assert (k0 = k) as -> by congruence. clear Hk0.
  assert (Hc' : cancelled c s').
  { split; [by eapply once_stays|]. intros t. eapply no_visits; [done|by intros ? ?; simplify_eq|apply Hal]. }
  split; [done|]. destruct (decide (concerns c l)) as [Hcl|Hcl].
  2: { split; [|exists k; by rewrite (exec_other c l s s' He Hcl)].
       destruct l; try done. unfold asked. simpl. by rewrite decide_False by (simpl in Hcl; naive_solver). }
  destruct (by_sink l) eqn:Hl.
  - destruct (exec_sink_step c l s s' He Hcl Hl) as (k0 & k' & Hk0 & Hst & ->). simplify_eq.
    split; [by destruct l|]. exists k'. split; [apply lookup_insert_eq|]. by eapply sink_step_forwardable.
  - exfalso. destruct l as [c0|t0 p0|t0 c0|t0 c0 p0|t0 c0|t0|c0|c0|c0 n|c0|c0|c0]; try done; simpl in Hcl; subst c0;
      exec_inv He; destruct_and?; simplify_eq/=; by eapply Hal.
Qed.

(** What cancelation promises.  Once the key is deleted and the Writes that were
    at the sink have left it, nothing is written for it any more, and its writer gets
    at most what was already in its goroutine and its channel: two buffers.
    Once cancel has returned, the goroutine can return after at most one copy.  But the
    writer does get bytes after cancel has returned, when the goroutine is in a
    copy or its select prefers the channel. *)
Lemma cancel_stops c ls s s' k :
  run ls s = Some s' -> cancelled c s -> sinks s !! c = Some k ->
  asked c ls = [] /\
  exists k', sinks s' !! c = Some k' /\ out k' `prefix_of` forwardable k /\ 
    (once k' = Closed -> exists ls2 s2 k2, run ls2 s' = Some s2 /\ length ls2 <= 2 /\
       sinks s2 !! c = Some k2 /\ reader k2 = Gone).
Proof.
  revert s k. induction ls as [|l ls IH]; intros s k Hr Hc Hk.
  - injection Hr as <-. split; [done|]. exists k. split; [done|]. split; [by apply prefix_app_r|].
    intros Ho. destruct (reader k) as [|buf| |] eqn:Er.
    + exists [LStop c]. cbn. unfold on_sink. rewrite Hk. cbn. rewrite Er, Ho. cbn.
      do 2 eexists. split; [done|]. split; [lia|]. simpl. by rewrite lookup_insert_eq.
    + exists [LCopied c; LStop c]. cbn. unfold on_sink. rewrite Hk. cbn. rewrite Er. cbn.
      rewrite lookup_insert_eq. cbn. rewrite Ho. cbn.
      do 2 eexists. split; [done|]. split; [lia|]. simpl. by rewrite lookup_insert_eq.
    + exists [LStop c]. cbn. unfold on_sink. rewrite Hk. cbn. rewrite Er, Ho. cbn.
      do 2 eexists. split; [done|]. split; [lia|]. simpl. by rewrite lookup_insert_eq.
    + exists [], s, k. split; [done|]. split; [simpl; lia|done].
  - cbn in Hr. apply bind_Some in Hr as (s1 & He & Hr).
    destruct (cancelled_step c l s s1 k He Hc Hk) as (Hc1 & Ha & k1 & Hk1 & Hp1).
    destruct (IH s1 k1 Hr Hc1 Hk1) as (Ha' & k' & Hk' & Hp' & Hg).
    split; [by change (l :: ls) with ([l] ++ ls); unfold asked in *; rewrite omap_app, Ha, Ha'|].
    exists k'. split; [done|]. split; [by etrans|done].
Qed.

(** One Write of one byte, whose buffer is received after cancel returned. *)
Definition late_run (p : list byte) : list label :=
  [LTee 0; LBegin 1 p; LVisit 1 0; LTake 1 0 p; LSend 1 0; LReturn 1; LDelete 0; LClose 0;
   LReceive 0; LCopied 0; LStop 0].

Lemma forwards_after_cancel :
  let outs n := (fun s => out <$> sinks s !! 0) <$> run (take n (late_run [Ascii.zero])) init in
  outs 8 = Some (Some []) /\ outs 11 = Some (Some [Ascii.zero]).
Proof. vm_compute. by split. Qed.

(** ** Order *)

(** Goroutine 1 writes a, which returns, and then begins to write b; meanwhile
    goroutine 2 writes c. *)
Definition reordering_run (a b c : list byte) : list label :=
  [LTee 0; LBegin 1 a; LVisit 1 0; LTake 1 0 a; LSend 1 0; LReturn 1;
   LBegin 1 b; LVisit 1 0; LTake 1 0 b;
   LBegin 2 c; LVisit 2 0; LTake 2 0 c; LSend 2 0; LReturn 2; LReceive 0; LCopied 0;
   LSend 1 0; LReturn 1; LReceive 0; LCopied 0].

(** With two goroutines, what one wrote first may be forwarded last, even when
    that Write had returned before the other began. *)
Lemma forwarded_out_of_order :
  ((fun s => out <$> sinks s !! 0) <$>
     run (reordering_run ["a"%char] ["b"%char] ["c"%char]) init)
  = Some (Some ["c"; "a"; "b"]%char).
Proof. vm_compute. reflexivity. Qed.

(** ** Witnesses *)

Lemma what_a_writer_gets_witness :
  exists s k, run (late_run [Ascii.zero]) init = Some s /\ sinks s !! 0 = Some k /\
    out k = [Ascii.zero] /\ out k ⊆+ mjoin (asked 0 (late_run [Ascii.zero])).
Proof.
  eexists. eexists. split; [vm_compute; reflexivity|]. split; [vm_compute; reflexivity|].
  split; [reflexivity|].
  refine (proj1 (what_a_writer_gets (late_run [Ascii.zero]) _ 0 _ _ _)); vm_compute; reflexivity.
Defined.

Lemma Write_returns_witness :
  exists s l ls' s', run [LTee 0; LBegin 1 [Ascii.zero]; LVisit 1 0] init = Some s /\
    run (l :: ls') s = Some s' /\ writes s' !! 1 = None.
Proof.
  destruct (proj1 Write_returns 1 [LTee 0; LBegin 1 [Ascii.zero]; LVisit 1 0]
              (default init (run [LTee 0; LBegin 1 [Ascii.zero]; LVisit 1 0] init)))
    as (l & ls' & s' & Hr & _ & Hn).
  - vm_compute. reflexivity.
  - by repeat constructor.
  - vm_compute. by eexists.
  - exists (default init (run [LTee 0; LBegin 1 [Ascii.zero]; LVisit 1 0] init)), l, ls', s'.
    split; [vm_compute; reflexivity|]. by split.
Defined.
