(* ===== verification/Instances.v ===== *)
(** ec2system/instances/instances.go: the table of EC2 instance types, entry by
    entry, and what ec2machine.go relies on about it.  Floating-point values are
    the rationals their decimal literals denote. *)
From S2P Require Import Prelude.
From Stdlib Require Import QArith.
Local Open Scope string_scope.
Local Open Scope list_scope.

(** ** The type of an entry *)

(** instances.Type *)
Record Type_ := mkType {
  Name : string;
  EBSOptimized : bool;
  EBSThroughput : Q;
  VCPU : Z;
  Memory : Q;
  Price : list (string * Q);
  Generation : string;
  Virt : string;
  NVMe : bool;
  CPUFeatures : list (string * bool)
}.

(** The regions. *)
Definition ap_east_1 : string := "ap-east-1".
Definition ap_northeast_1 : string := "ap-northeast-1".
Definition ap_northeast_2 : string := "ap-northeast-2".
Definition ap_northeast_3 : string := "ap-northeast-3".
Definition ap_south_1 : string := "ap-south-1".
Definition ap_southeast_1 : string := "ap-southeast-1".
Definition ap_southeast_2 : string := "ap-southeast-2".
Definition ca_central_1 : string := "ca-central-1".
Definition eu_central_1 : string := "eu-central-1".
Definition eu_north_1 : string := "eu-north-1".
Definition eu_west_1 : string := "eu-west-1".
Definition eu_west_2 : string := "eu-west-2".
Definition eu_west_3 : string := "eu-west-3".
Definition me_south_1 : string := "me-south-1".
Definition sa_east_1 : string := "sa-east-1".
Definition us_east_1 : string := "us-east-1".
Definition us_east_2 : string := "us-east-2".
Definition us_gov_east_1 : string := "us-gov-east-1".
Definition us_gov_west_1 : string := "us-gov-west-1".
Definition us_west_1 : string := "us-west-1".
Definition us_west_2 : string := "us-west-2".

(** The CPU features. *)
Definition intel_avx : string := "intel_avx".
Definition intel_avx2 : string := "intel_avx2".
Definition intel_avx512 : string := "intel_avx512".

(** ** The table *)

Definition c5d_xlarge : Type_ :=
  mkType "c5d.xlarge" true (4375 # 10) 4 (8 # 1)
     [(ap_east_1, 246 # 1000); (ap_northeast_1, 244 # 1000); (ap_northeast_2, 22 # 100);
      (ap_northeast_3, 244 # 1000); (ap_south_1, 198 # 1000); (ap_southeast_1, 224 # 1000);
      (ap_southeast_2, 252 # 1000); (ca_central_1, 212 # 1000); (eu_central_1, 222 # 1000);
      (eu_north_1, 208 # 1000); (eu_west_1, 218 # 1000); (eu_west_2, 23 # 100);
      (eu_west_3, 23 # 100); (me_south_1, 24 # 100); (us_east_1, 192 # 1000);
      (us_east_2, 192 # 1000); (us_gov_east_1, 232 # 1000); (us_gov_west_1, 232 # 1000);
      (us_west_1, 24 # 100); (us_west_2, 192 # 1000)]
     "current" "HVM" true [(intel_avx, true); (intel_avx2, true)].

Definition m5a_2xlarge : Type_ :=
  mkType "m5a.2xlarge" true (265 # 1) 8 (32 # 1)
     [(ap_northeast_1, 448 # 1000); (ap_southeast_1, 432 # 1000); (ap_southeast_2, 432 # 1000);
      (ca_central_1, 384 # 1000); (eu_central_1, 416 # 1000); (eu_west_1, 384 # 1000);
      (eu_west_3, 404 # 1000); (us_east_1, 344 # 1000); (us_east_2, 344 # 1000);
      (us_gov_east_1, 436 # 1000); (us_gov_west_1, 436 # 1000); (us_west_1, 404 # 1000);
      (us_west_2, 344 # 1000)]
     "current" "HVM" true [].

Definition c5_9xlarge : Type_ :=
  mkType "c5.9xlarge" true (875 # 1) 36 (72 # 1)
     [(ap_east_1, 1944 # 1000); (ap_northeast_1, 1926 # 1000); (ap_northeast_2, 1728 # 1000);
      (ap_northeast_3, 1926 # 1000); (ap_south_1, 153 # 100); (ap_southeast_1, 1764 # 1000);
      (ap_southeast_2, 1998 # 1000); (ca_central_1, 1674 # 1000); (eu_central_1, 1746 # 1000);
      (eu_north_1, 1638 # 1000); (eu_west_1, 1728 # 1000); (eu_west_2, 1818 # 1000);
      (eu_west_3, 1818 # 1000); (me_south_1, 1901 # 1000); (sa_east_1, 2358 # 1000);
      (us_east_1, 153 # 100); (us_east_2, 153 # 100); (us_gov_east_1, 1836 # 1000);
      (us_gov_west_1, 1836 # 1000); (us_west_1, 1908 # 1000); (us_west_2, 153 # 100)]
     "current" "HVM" true [(intel_avx, true); (intel_avx2, true); (intel_avx512, true)].

Definition r5ad_xlarge : Type_ :=
  mkType "r5ad.xlarge" true (265 # 1) 4 (32 # 1)
     [(ap_southeast_1, 318 # 1000); (ap_southeast_2, 318 # 1000); (ca_central_1, 288 # 1000);
      (us_east_1, 262 # 1000); (us_east_2, 262 # 1000); (us_gov_west_1, 316 # 1000);
      (us_west_2, 262 # 1000)]
     "current" "HVM" true [].

Definition m5_24xlarge : Type_ :=
  mkType "m5.24xlarge" true (1750 # 1) 96 (384 # 1)
     [(ap_east_1, 6336 # 1000); (ap_northeast_1, 5952 # 1000); (ap_northeast_2, 5664 # 1000);
      (ap_northeast_3, 5952 # 1000); (ap_south_1, 4848 # 1000); (ap_southeast_1, 576 # 100);
      (ap_southeast_2, 576 # 100); (ca_central_1, 5136 # 1000); (eu_central_1, 552 # 100);
      (eu_north_1, 4896 # 1000); (eu_west_1, 5136 # 1000); (eu_west_2, 5328 # 1000);
      (eu_west_3, 5376 # 1000); (me_south_1, 565 # 100); (sa_east_1, 7344 # 1000);
      (us_east_1, 4608 # 1000); (us_east_2, 4608 # 1000); (us_gov_east_1, 5808 # 1000);
      (us_gov_west_1, 5808 # 1000); (us_west_1, 5376 # 1000); (us_west_2, 4608 # 1000)]
     "current" "HVM" true [(intel_avx, true); (intel_avx2, true); (intel_avx512, true)].

Definition i3en_12xlarge : Type_ :=
  mkType "i3en.12xlarge" true (875 # 1) 48 (384 # 1)
     [(ap_northeast_1, 6384 # 1000); (ap_northeast_2, 6384 # 1000);
      (ap_southeast_1, 6504 # 1000); (ap_southeast_2, 6504 # 1000); (eu_central_1, 648 # 100);
      (eu_west_1, 6 # 1); (eu_west_2, 6312 # 1000); (us_east_1, 5424 # 1000);
      (us_east_2, 5424 # 1000); (us_gov_east_1, 6552 # 1000); (us_gov_west_1, 6552 # 1000);
      (us_west_1, 6 # 1); (us_west_2, 5424 # 1000)]
     "current" "HVM" true [].

Definition m5d_12xlarge : Type_ :=
  mkType "m5d.12xlarge" true (875 # 1) 48 (192 # 1)
     [(ap_east_1, 372 # 100); (ap_northeast_1, 3504 # 1000); (ap_northeast_2, 3336 # 1000);
      (ap_northeast_3, 3504 # 1000); (ap_south_1, 2928 # 1000); (ap_southeast_1, 3384 # 1000);
      (ap_southeast_2, 3408 # 1000); (ca_central_1, 3024 # 1000); (eu_central_1, 3264 # 1000);
      (eu_north_1, 288 # 100); (eu_west_1, 3024 # 1000); (eu_west_2, 3144 # 1000);
      (eu_west_3, 3168 # 1000); (me_south_1, 3326 # 1000); (us_east_1, 2712 # 1000);
      (us_east_2, 2712 # 1000); (us_gov_east_1, 3432 # 1000); (us_gov_west_1, 3432 # 1000);
      (us_west_1, 3192 # 1000); (us_west_2, 2712 # 1000)]
     "current" "HVM" true [(intel_avx, true); (intel_avx2, true)].

Definition c5_large : Type_ :=
  mkType "c5.large" true (4375 # 10) 2 (4 # 1)
     [(ap_east_1, 108 # 1000); (ap_northeast_1, 107 # 1000); (ap_northeast_2, 96 # 1000);
      (ap_northeast_3, 107 # 1000); (ap_south_1, 85 # 1000); (ap_southeast_1, 98 # 1000);
      (ap_southeast_2, 111 # 1000); (ca_central_1, 93 # 1000); (eu_central_1, 97 # 1000);
      (eu_north_1, 91 # 1000); (eu_west_1, 96 # 1000); (eu_west_2, 101 # 1000);
      (eu_west_3, 101 # 1000); (me_south_1, 106 # 1000); (sa_east_1, 131 # 1000);
      (us_east_1, 85 # 1000); (us_east_2, 85 # 1000); (us_gov_east_1, 102 # 1000);
      (us_gov_west_1, 102 # 1000); (us_west_1, 106 # 1000); (us_west_2, 85 # 1000)]
     "current" "HVM" true [(intel_avx, true); (intel_avx2, true); (intel_avx512, true)].

Definition c5n_large : Type_ :=
  mkType "c5n.large" true (4375 # 10) 2 (525 # 100)
     [(ap_northeast_1, 136 # 1000); (ap_northeast_2, 122 # 1000); (ap_south_1, 108 # 1000);
      (ap_southeast_1, 124 # 1000); (ap_southeast_2, 141 # 1000); (ca_central_1, 118 # 1000);
      (eu_central_1, 123 # 1000); (eu_west_1, 122 # 1000); (us_east_1, 108 # 1000);
      (us_east_2, 108 # 1000); (us_gov_east_1, 13 # 100); (us_gov_west_1, 13 # 100);
      (us_west_1, 135 # 1000); (us_west_2, 108 # 1000)]
     "current" "HVM" true [(intel_avx, true); (intel_avx2, true)].

Definition c5_24xlarge : Type_ :=
  mkType "c5.24xlarge" true (1750 # 1) 96 (192 # 1)
     [(ap_northeast_1, 5136 # 1000); (ap_south_1, 408 # 100); (ap_southeast_1, 4704 # 1000);
      (ap_southeast_2, 5328 # 1000); (ca_central_1, 4464 # 1000); (eu_central_1, 4656 # 1000);
      (eu_north_1, 4368 # 1000); (eu_west_1, 4608 # 1000); (eu_west_2, 4848 # 1000);
      (eu_west_3, 4848 # 1000); (me_south_1, 5069 # 1000); (us_east_1, 408 # 100);
      (us_east_2, 408 # 100); (us_gov_west_1, 4896 # 1000); (us_west_1, 5088 # 1000);
      (us_west_2, 408 # 100)]
     "current" "HVM" true [(intel_avx, true); (intel_avx2, true); (intel_avx512, true)].

Definition i2_xlarge : Type_ :=
  mkType "i2.xlarge" false (625 # 10) 4 (305 # 10)
     [(ap_northeast_1, 1001 # 1000); (ap_northeast_2, 1001 # 1000); (ap_south_1, 967 # 1000);
      (ap_southeast_1, 1018 # 1000); (ap_southeast_2, 1018 # 1000);
      (eu_central_1, 1013 # 1000); (eu_west_1, 938 # 1000); (us_east_1, 853 # 1000);
      (us_east_2, 853 # 1000); (us_gov_west_1, 1023 # 1000); (us_west_1, 938 # 1000);
      (us_west_2, 853 # 1000)]
     "previous" "HVM" false [(intel_avx, true)].

Definition d2_8xlarge : Type_ :=
  mkType "d2.8xlarge" true (500 # 1) 36 (244 # 1)
     [(ap_east_1, 7656 # 1000); (ap_northeast_1, 6752 # 1000); (ap_northeast_2, 6752 # 1000);
      (ap_northeast_3, 6752 # 1000); (ap_south_1, 6612 # 1000); (ap_southeast_1, 696 # 100);
      (ap_southeast_2, 696 # 100); (ca_central_1, 6072 # 1000); (eu_central_1, 6352 # 1000);
      (eu_north_1, 5584 # 1000); (eu_west_1, 588 # 100); (eu_west_2, 6174 # 1000);
      (eu_west_3, 6176 # 1000); (me_south_1, 6468 # 1000); (us_east_1, 552 # 100);
      (us_east_2, 552 # 100); (us_gov_west_1, 6624 # 1000); (us_west_1, 625 # 100);
      (us_west_2, 552 # 100)]
     "current" "HVM" false [(intel_avx, true); (intel_avx2, true)].

Definition i3en_3xlarge : Type_ :=
  mkType "i3en.3xlarge" true (4375 # 10) 12 (96 # 1)
     [(ap_northeast_1, 1596 # 1000); (ap_northeast_2, 1596 # 1000);
      (ap_southeast_1, 1626 # 1000); (ap_southeast_2, 1626 # 1000); (eu_central_1, 162 # 100);
      (eu_west_1, 15 # 10); (eu_west_2, 1578 # 1000); (us_east_1, 1356 # 1000);
      (us_east_2, 1356 # 1000); (us_gov_east_1, 1638 # 1000); (us_gov_west_1, 1638 # 1000);
      (us_west_1, 15 # 10); (us_west_2, 1356 # 1000)]
     "current" "HVM" true [].

Definition z1d_3xlarge : Type_ :=
  mkType "z1d.3xlarge" true (438 # 1) 12 (96 # 1)
     [(ap_northeast_1, 1362 # 1000); (ap_southeast_1, 1356 # 1000);
      (ap_southeast_2, 1356 # 1000); (eu_central_1, 135 # 100); (eu_west_1, 1248 # 1000);
      (eu_west_2, 1318 # 1000); (us_east_1, 1116 # 1000); (us_west_1, 1266 # 1000);
      (us_west_2, 1116 # 1000)]
     "current" "HVM" true [].

Definition m5_2xlarge : Type_ :=
  mkType "m5.2xlarge" true (4375 # 10) 8 (32 # 1)
     [(ap_east_1, 528 # 1000); (ap_northeast_1, 496 # 1000); (ap_northeast_2, 472 # 1000);
      (ap_northeast_3, 496 # 1000); (ap_south_1, 404 # 1000); (ap_southeast_1, 48 # 100);
      (ap_southeast_2, 48 # 100); (ca_central_1, 428 # 1000); (eu_central_1, 46 # 100);
      (eu_north_1, 408 # 1000); (eu_west_1, 428 # 1000); (eu_west_2, 444 # 1000);
      (eu_west_3, 448 # 1000); (me_south_1, 471 # 1000); (sa_east_1, 612 # 1000);
      (us_east_1, 384 # 1000); (us_east_2, 384 # 1000); (us_gov_east_1, 484 # 1000);
      (us_gov_west_1, 484 # 1000); (us_west_1, 448 # 1000); (us_west_2, 384 # 1000)]
     "current" "HVM" true [(intel_avx, true); (intel_avx2, true); (intel_avx512, true)].

Definition c5_18xlarge : Type_ :=
  mkType "c5.18xlarge" true (1750 # 1) 72 (144 # 1)
     [(ap_east_1, 3888 # 1000); (ap_northeast_1, 3852 # 1000); (ap_northeast_2, 3456 # 1000);
      (ap_northeast_3, 3852 # 1000); (ap_south_1, 306 # 100); (ap_southeast_1, 3528 # 1000);
      (ap_southeast_2, 3996 # 1000); (ca_central_1, 3348 # 1000); (eu_central_1, 3492 # 1000);
      (eu_north_1, 3276 # 1000); (eu_west_1, 3456 # 1000); (eu_west_2, 3636 # 1000);
      (eu_west_3, 3636 # 1000); (me_south_1, 3802 # 1000); (sa_east_1, 4716 # 1000);
      (us_east_1, 306 # 100); (us_east_2, 306 # 100); (us_gov_east_1, 3672 # 1000);
      (us_gov_west_1, 3672 # 1000); (us_west_1, 3816 # 1000); (us_west_2, 306 # 100)]
     "current" "HVM" true [(intel_avx, true); (intel_avx2, true); (intel_avx512, true)].

Definition x1e_16xlarge : Type_ :=
  mkType "x1e.16xlarge" true (875 # 1) 64 (1952 # 1)
     [(ap_northeast_1, 19344 # 1000); (ap_northeast_2, 19344 # 1000);
      (ap_southeast_1, 19344 # 1000); (ap_southeast_2, 19344 # 1000);
      (eu_central_1, 18672 # 1000); (eu_west_1, 16 # 1); (us_east_1, 13344 # 1000);
      (us_east_2, 13344 # 1000); (us_gov_east_1, 16 # 1); (us_gov_west_1, 16 # 1);
      (us_west_2, 13344 # 1000)]
     "current" "HVM" false [(intel_avx, true); (intel_avx2, true)].

Definition i2_8xlarge : Type_ :=
  mkType "i2.8xlarge" false (0 # 1) 32 (244 # 1)
     [(ap_northeast_1, 8004 # 1000); (ap_northeast_2, 8004 # 1000); (ap_south_1, 7733 # 1000);
      (ap_southeast_1, 814 # 100); (ap_southeast_2, 814 # 100); (eu_central_1, 8102 # 1000);
      (eu_west_1, 7502 # 1000); (us_east_1, 682 # 100); (us_east_2, 682 # 100);
      (us_gov_west_1, 8184 # 1000); (us_west_1, 7502 # 1000); (us_west_2, 682 # 100)]
     "previous" "HVM" false [(intel_avx, true)].

Definition r5a_8xlarge : Type_ :=
  mkType "r5a.8xlarge" true (4375 # 10) 32 (256 # 1)
     [(ap_northeast_1, 2192 # 1000); (ap_southeast_1, 2176 # 1000);
      (ap_southeast_2, 2176 # 1000); (ca_central_1, 1984 # 1000); (eu_central_1, 2192 # 1000);
      (eu_west_1, 2032 # 1000); (eu_west_3, 2128 # 1000); (us_east_1, 1808 # 1000);
      (us_east_2, 1808 # 1000); (us_gov_east_1, 2176 # 1000); (us_gov_west_1, 2176 # 1000);
      (us_west_1, 2016 # 1000); (us_west_2, 1808 # 1000)]
     "current" "HVM" true [].

Definition i2_2xlarge : Type_ :=
  mkType "i2.2xlarge" false (125 # 1) 8 (61 # 1)
     [(ap_northeast_1, 2001 # 1000); (ap_northeast_2, 2001 # 1000); (ap_south_1, 1933 # 1000);
      (ap_southeast_1, 2035 # 1000); (ap_southeast_2, 2035 # 1000);
      (eu_central_1, 2026 # 1000); (eu_west_1, 1876 # 1000); (us_east_1, 1705 # 1000);
      (us_east_2, 1705 # 1000); (us_gov_west_1, 2046 # 1000); (us_west_1, 1876 # 1000);
      (us_west_2, 1705 # 1000)]
     "previous" "HVM" false [(intel_avx, true)].

Definition i3en_2xlarge : Type_ :=
  mkType "i3en.2xlarge" true (4375 # 10) 8 (64 # 1)
     [(ap_northeast_1, 1064 # 1000); (ap_northeast_2, 1064 # 1000);
      (ap_southeast_1, 1084 # 1000); (ap_southeast_2, 1084 # 1000); (eu_central_1, 108 # 100);
      (eu_west_1, 1 # 1); (eu_west_2, 1052 # 1000); (us_east_1, 904 # 1000);
      (us_east_2, 904 # 1000); (us_gov_east_1, 1092 # 1000); (us_gov_west_1, 1092 # 1000);
      (us_west_1, 1 # 1); (us_west_2, 904 # 1000)]
     "current" "HVM" true [].

Definition m5a_xlarge : Type_ :=
  mkType "m5a.xlarge" true (265 # 1) 4 (16 # 1)
     [(ap_northeast_1, 224 # 1000); (ap_southeast_1, 216 # 1000); (ap_southeast_2, 216 # 1000);
      (ca_central_1, 192 # 1000); (eu_central_1, 208 # 1000); (eu_west_1, 192 # 1000);
      (eu_west_3, 202 # 1000); (us_east_1, 172 # 1000); (us_east_2, 172 # 1000);
      (us_gov_east_1, 218 # 1000); (us_gov_west_1, 218 # 1000); (us_west_1, 202 # 1000);
      (us_west_2, 172 # 1000)]
     "current" "HVM" true [].

Definition p3_2xlarge : Type_ :=
  mkType "p3.2xlarge" true (218 # 1) 8 (61 # 1)
     [(ap_northeast_1, 4194 # 1000); (ap_northeast_2, 4234 # 1000);
      (ap_southeast_1, 4234 # 1000); (ap_southeast_2, 4234 # 1000);
      (ca_central_1, 3366 # 1000); (eu_central_1, 3823 # 1000); (eu_west_1, 3305 # 1000);
      (eu_west_2, 3589 # 1000); (us_east_1, 306 # 100); (us_east_2, 306 # 100);
      (us_gov_west_1, 3672 # 1000); (us_west_2, 306 # 100)]
     "current" "HVM" false [(intel_avx, true); (intel_avx2, true)].

Definition t2_2xlarge : Type_ :=
  mkType "t2.2xlarge" true (0 # 1) 8 (32 # 1)
     [(ap_northeast_1, 4864 # 10000); (ap_northeast_2, 4608 # 10000);
      (ap_northeast_3, 4864 # 10000); (ap_south_1, 3968 # 10000);
      (ap_southeast_1, 4672 # 10000); (ap_southeast_2, 4672 # 10000);
      (ca_central_1, 4096 # 10000); (eu_central_1, 4288 # 10000); (eu_west_1, 4032 # 10000);
      (eu_west_2, 4224 # 10000); (eu_west_3, 4224 # 10000); (sa_east_1, 5952 # 10000);
      (us_east_1, 3712 # 10000); (us_east_2, 3712 # 10000); (us_gov_west_1, 4352 # 10000);
      (us_west_1, 4416 # 10000); (us_west_2, 3712 # 10000)]
     "current" "HVM" false [(intel_avx, true)].

Definition h1_8xlarge : Type_ :=
  mkType "h1.8xlarge" true (875 # 1) 32 (128 # 1)
     [(eu_west_1, 2076 # 1000); (us_east_1, 1872 # 1000); (us_east_2, 1872 # 1000);
      (us_west_2, 1872 # 1000)]
     "current" "HVM" false [(intel_avx, true); (intel_avx2, true)].

Definition r5d_24xlarge : Type_ :=
  mkType "r5d.24xlarge" true (1750 # 1) 96 (768 # 1)
     [(ap_east_1, 84 # 10); (ap_northeast_1, 8352 # 1000); (ap_northeast_2, 8304 # 1000);
      (ap_northeast_3, 8352 # 1000); (ap_south_1, 7248 # 1000); (ap_southeast_1, 8352 # 1000);
      (ap_southeast_2, 8352 # 1000); (ca_central_1, 7584 # 1000); (eu_central_1, 8304 # 1000);
      (eu_north_1, 7296 # 1000); (eu_west_1, 768 # 100); (eu_west_2, 8112 # 1000);
      (eu_west_3, 8112 # 1000); (me_south_1, 8448 # 1000); (us_east_1, 6912 # 1000);
      (us_east_2, 6912 # 1000); (us_gov_east_1, 8304 # 1000); (us_gov_west_1, 8304 # 1000);
      (us_west_1, 7776 # 1000); (us_west_2, 6912 # 1000)]
     "current" "HVM" true [].

Definition i3en_6xlarge : Type_ :=
  mkType "i3en.6xlarge" true (4375 # 10) 24 (192 # 1)
     [(ap_northeast_1, 3192 # 1000); (ap_northeast_2, 3192 # 1000);
      (ap_southeast_1, 3252 # 1000); (ap_southeast_2, 3252 # 1000); (eu_central_1, 324 # 100);
      (eu_west_1, 3 # 1); (eu_west_2, 3156 # 1000); (us_east_1, 2712 # 1000);
      (us_east_2, 2712 # 1000); (us_gov_east_1, 3276 # 1000); (us_gov_west_1, 3276 # 1000);
      (us_west_1, 3 # 1); (us_west_2, 2712 # 1000)]
     "current" "HVM" true [].

Definition r4_8xlarge : Type_ :=
  mkType "r4.8xlarge" true (875 # 1) 32 (244 # 1)
     [(ap_northeast_1, 256 # 100); (ap_northeast_2, 256 # 100); (ap_northeast_3, 256 # 100);
      (ap_south_1, 2192 # 1000); (ap_southeast_1, 256 # 100); (ap_southeast_2, 25536 # 10000);
      (ca_central_1, 2336 # 1000); (eu_central_1, 25608 # 10000); (eu_west_1, 23712 # 10000);
      (eu_west_2, 2496 # 1000); (eu_west_3, 2496 # 1000); (sa_east_1, 448 # 100);
      (us_east_1, 2128 # 1000); (us_east_2, 2128 # 1000); (us_gov_west_1, 25536 # 10000);
      (us_west_1, 23712 # 10000); (us_west_2, 2128 # 1000)]
     "current" "HVM" false [(intel_avx, true); (intel_avx2, true)].

Definition x1_16xlarge : Type_ :=
  mkType "x1.16xlarge" true (875 # 1) 64 (976 # 1)
     [(ap_east_1, 10638 # 1000); (ap_northeast_1, 9671 # 1000); (ap_northeast_2, 9671 # 1000);
      (ap_south_1, 6881 # 1000); (ap_southeast_1, 9671 # 1000); (ap_southeast_2, 9671 # 1000);
      (ca_central_1, 7336 # 1000); (eu_central_1, 9337 # 1000); (eu_west_1, 8003 # 1000);
      (eu_west_2, 8403 # 1000); (eu_west_3, 8403 # 1000); (sa_east_1, 13005 # 1000);
      (us_east_1, 6669 # 1000); (us_east_2, 6669 # 1000); (us_gov_east_1, 8003 # 1000);
      (us_gov_west_1, 8003 # 1000); (us_west_2, 6669 # 1000)]
     "current" "HVM" false [].

Definition c5d_18xlarge : Type_ :=
  mkType "c5d.18xlarge" true (1750 # 1) 72 (144 # 1)
     [(ap_east_1, 4428 # 1000); (ap_northeast_1, 4392 # 1000); (ap_northeast_2, 396 # 100);
      (ap_northeast_3, 4392 # 1000); (ap_south_1, 3564 # 1000); (ap_southeast_1, 4032 # 1000);
      (ap_southeast_2, 4536 # 1000); (ca_central_1, 3816 # 1000); (eu_central_1, 3996 # 1000);
      (eu_north_1, 3744 # 1000); (eu_west_1, 3924 # 1000); (eu_west_2, 414 # 100);
      (eu_west_3, 414 # 100); (me_south_1, 4316 # 1000); (us_east_1, 3456 # 1000);
      (us_east_2, 3456 # 1000); (us_gov_east_1, 4176 # 1000); (us_gov_west_1, 4176 # 1000);
      (us_west_1, 432 # 100); (us_west_2, 3456 # 1000)]
     "current" "HVM" true [(intel_avx, true); (intel_avx2, true)].

Definition m5a_16xlarge : Type_ :=
  mkType "m5a.16xlarge" true (875 # 1) 64 (256 # 1)
     [(ap_northeast_1, 3584 # 1000); (ap_southeast_1, 3456 # 1000);
      (ap_southeast_2, 3456 # 1000); (ca_central_1, 3072 # 1000); (eu_central_1, 3328 # 1000);
      (eu_west_1, 3072 # 1000); (eu_west_3, 3232 # 1000); (us_east_1, 2752 # 1000);
      (us_east_2, 2752 # 1000); (us_gov_east_1, 3488 # 1000); (us_gov_west_1, 3488 # 1000);
      (us_west_1, 3232 # 1000); (us_west_2, 2752 # 1000)]
     "current" "HVM" true [].

Definition r5a_large : Type_ :=
  mkType "r5a.large" true (265 # 1) 2 (16 # 1)
     [(ap_northeast_1, 137 # 1000); (ap_southeast_1, 136 # 1000); (ap_southeast_2, 136 # 1000);
      (ca_central_1, 124 # 1000); (eu_central_1, 137 # 1000); (eu_west_1, 127 # 1000);
      (eu_west_3, 133 # 1000); (us_east_1, 113 # 1000); (us_east_2, 113 # 1000);
      (us_gov_east_1, 136 # 1000); (us_gov_west_1, 136 # 1000); (us_west_1, 126 # 1000);
      (us_west_2, 113 # 1000)]
     "current" "HVM" true [].

Definition c3_large : Type_ :=
  mkType "c3.large" false (0 # 1) 2 (375 # 100)
     [(ap_northeast_1, 128 # 1000); (ap_northeast_2, 115 # 1000); (ap_southeast_1, 132 # 1000);
      (ap_southeast_2, 132 # 1000); (eu_central_1, 129 # 1000); (eu_west_1, 12 # 100);
      (sa_east_1, 163 # 1000); (us_east_1, 105 # 1000); (us_gov_west_1, 126 # 1000);
      (us_west_1, 12 # 100); (us_west_2, 105 # 1000)]
     "previous" "HVM" false [(intel_avx, true)].

Definition r5a_24xlarge : Type_ :=
  mkType "r5a.24xlarge" true (1250 # 1) 96 (768 # 1)
     [(ap_northeast_1, 6576 # 1000); (ap_southeast_1, 6528 # 1000);
      (ap_southeast_2, 6528 # 1000); (ca_central_1, 5952 # 1000); (eu_central_1, 6576 # 1000);
      (eu_west_1, 6096 # 1000); (eu_west_3, 6384 # 1000); (us_east_1, 5424 # 1000);
      (us_east_2, 5424 # 1000); (us_gov_east_1, 6528 # 1000); (us_gov_west_1, 6528 # 1000);
      (us_west_1, 6048 # 1000); (us_west_2, 5424 # 1000)]
     "current" "HVM" true [].

Definition g3_16xlarge : Type_ :=
  mkType "g3.16xlarge" true (1750 # 1) 64 (488 # 1)
     [(ap_northeast_1, 632 # 100); (ap_northeast_2, 568 # 100); (ap_southeast_1, 668 # 100);
      (ap_southeast_2, 7016 # 1000); (ca_central_1, 5664 # 1000); (eu_central_1, 57 # 10);
      (eu_west_1, 484 # 100); (eu_west_2, 5716 # 1000); (us_east_1, 456 # 100);
      (us_east_2, 456 # 100); (us_gov_west_1, 528 # 100); (us_west_1, 6136 # 1000);
      (us_west_2, 456 # 100)]
     "current" "HVM" false [(intel_avx, true); (intel_avx2, true)].

Definition c4_xlarge : Type_ :=
  mkType "c4.xlarge" true (9375 # 100) 4 (75 # 10)
     [(ap_northeast_1, 252 # 1000); (ap_northeast_2, 227 # 1000); (ap_northeast_3, 252 # 1000);
      (ap_south_1, 2 # 10); (ap_southeast_1, 231 # 1000); (ap_southeast_2, 261 # 1000);
      (ca_central_1, 218 # 1000); (eu_central_1, 227 # 1000); (eu_west_1, 226 # 1000);
      (eu_west_2, 237 # 1000); (sa_east_1, 309 # 1000); (us_east_1, 199 # 1000);
      (us_east_2, 199 # 1000); (us_gov_west_1, 239 # 1000); (us_west_1, 249 # 1000);
      (us_west_2, 199 # 1000)]
     "current" "HVM" false [(intel_avx, true); (intel_avx2, true)].

Definition x1e_4xlarge : Type_ :=
  mkType "x1e.4xlarge" true (21875 # 100) 16 (488 # 1)
     [(ap_northeast_1, 4836 # 1000); (ap_northeast_2, 4836 # 1000);
      (ap_southeast_1, 4836 # 1000); (ap_southeast_2, 4836 # 1000);
      (eu_central_1, 4668 # 1000); (eu_west_1, 4 # 1); (us_east_1, 3336 # 1000);
      (us_east_2, 3336 # 1000); (us_gov_east_1, 4 # 1); (us_gov_west_1, 4 # 1);
      (us_west_2, 3336 # 1000)]
     "current" "HVM" false [(intel_avx, true); (intel_avx2, true)].

Definition m5ad_xlarge : Type_ :=
  mkType "m5ad.xlarge" true (265 # 1) 4 (16 # 1)
     [(ap_southeast_1, 258 # 1000); (ap_southeast_2, 26 # 100); (ca_central_1, 23 # 100);
      (us_east_1, 206 # 1000); (us_east_2, 206 # 1000); (us_gov_west_1, 262 # 1000);
      (us_west_2, 206 # 1000)]
     "current" "HVM" true [].

Definition i3en_24xlarge : Type_ :=
  mkType "i3en.24xlarge" true (1750 # 1) 96 (768 # 1)
     [(ap_northeast_1, 12768 # 1000); (ap_northeast_2, 12768 # 1000);
      (ap_southeast_1, 13008 # 1000); (ap_southeast_2, 13008 # 1000);
      (eu_central_1, 1296 # 100); (eu_west_1, 12 # 1); (eu_west_2, 12624 # 1000);
      (us_east_1, 10848 # 1000); (us_east_2, 10848 # 1000); (us_gov_east_1, 13104 # 1000);
      (us_gov_west_1, 13104 # 1000); (us_west_1, 12 # 1); (us_west_2, 10848 # 1000)]
     "current" "HVM" true [].

Definition c5n_18xlarge : Type_ :=
  mkType "c5n.18xlarge" true (1750 # 1) 72 (192 # 1)
     [(ap_northeast_1, 4896 # 1000); (ap_northeast_2, 4392 # 1000); (ap_south_1, 3888 # 1000);
      (ap_southeast_1, 4464 # 1000); (ap_southeast_2, 5076 # 1000);
      (ca_central_1, 4248 # 1000); (eu_central_1, 4428 # 1000); (eu_west_1, 4392 # 1000);
      (us_east_1, 3888 # 1000); (us_east_2, 3888 # 1000); (us_gov_east_1, 468 # 100);
      (us_gov_west_1, 468 # 100); (us_west_1, 486 # 100); (us_west_2, 3888 # 1000)]
     "current" "HVM" true [(intel_avx, true); (intel_avx2, true)].

Definition m4_large : Type_ :=
  mkType "m4.large" true (5625 # 100) 2 (8 # 1)
     [(ap_northeast_1, 129 # 1000); (ap_northeast_2, 123 # 1000); (ap_northeast_3, 129 # 1000);
      (ap_south_1, 105 # 1000); (ap_southeast_1, 125 # 1000); (ap_southeast_2, 125 # 1000);
      (ca_central_1, 111 # 1000); (eu_central_1, 12 # 100); (eu_west_1, 111 # 1000);
      (eu_west_2, 116 # 1000); (sa_east_1, 159 # 1000); (us_east_1, 1 # 10);
      (us_east_2, 1 # 10); (us_gov_west_1, 126 # 1000); (us_west_1, 117 # 1000);
      (us_west_2, 1 # 10)]
     "current" "HVM" false [(intel_avx, true); (intel_avx2, true)].

Definition h1_4xlarge : Type_ :=
  mkType "h1.4xlarge" true (4375 # 10) 16 (64 # 1)
     [(eu_west_1, 1038 # 1000); (us_east_1, 936 # 1000); (us_east_2, 936 # 1000);
      (us_west_2, 936 # 1000)]
     "current" "HVM" false [(intel_avx, true); (intel_avx2, true)].

Definition x1e_xlarge : Type_ :=
  mkType "x1e.xlarge" true (625 # 10) 4 (122 # 1)
     [(ap_northeast_1, 1209 # 1000); (ap_northeast_2, 1209 # 1000);
      (ap_southeast_1, 1209 # 1000); (ap_southeast_2, 1209 # 1000);
      (eu_central_1, 1167 # 1000); (eu_west_1, 1 # 1); (us_east_1, 834 # 1000);
      (us_east_2, 834 # 1000); (us_gov_east_1, 1 # 1); (us_gov_west_1, 1 # 1);
      (us_west_2, 834 # 1000)]
     "current" "HVM" false [(intel_avx, true); (intel_avx2, true)].

Definition g4dn_8xlarge : Type_ :=
  mkType "g4dn.8xlarge" true (875 # 1) 32 (128 # 1)
     [(ap_northeast_1, 2938 # 1000); (ap_northeast_2, 2677 # 1000); (eu_central_1, 272 # 100);
      (eu_west_1, 2426 # 1000); (eu_west_2, 2546 # 1000); (us_east_1, 2176 # 1000);
      (us_east_2, 2176 # 1000); (us_west_1, 2611 # 1000); (us_west_2, 2176 # 1000)]
     "current" "HVM" true [].

Definition m5_large : Type_ :=
  mkType "m5.large" true (4375 # 10) 2 (8 # 1)
     [(ap_east_1, 132 # 1000); (ap_northeast_1, 124 # 1000); (ap_northeast_2, 118 # 1000);
      (ap_northeast_3, 124 # 1000); (ap_south_1, 101 # 1000); (ap_southeast_1, 12 # 100);
      (ap_southeast_2, 12 # 100); (ca_central_1, 107 # 1000); (eu_central_1, 115 # 1000);
      (eu_north_1, 102 # 1000); (eu_west_1, 107 # 1000); (eu_west_2, 111 # 1000);
      (eu_west_3, 112 # 1000); (me_south_1, 118 # 1000); (sa_east_1, 153 # 1000);
      (us_east_1, 96 # 1000); (us_east_2, 96 # 1000); (us_gov_east_1, 121 # 1000);
      (us_gov_west_1, 121 # 1000); (us_west_1, 112 # 1000); (us_west_2, 96 # 1000)]
     "current" "HVM" true [(intel_avx, true); (intel_avx2, true); (intel_avx512, true)].

Definition c5_4xlarge : Type_ :=
  mkType "c5.4xlarge" true (4375 # 10) 16 (32 # 1)
     [(ap_east_1, 864 # 1000); (ap_northeast_1, 856 # 1000); (ap_northeast_2, 768 # 1000);
      (ap_northeast_3, 856 # 1000); (ap_south_1, 68 # 100); (ap_southeast_1, 784 # 1000);
      (ap_southeast_2, 888 # 1000); (ca_central_1, 744 # 1000); (eu_central_1, 776 # 1000);
      (eu_north_1, 728 # 1000); (eu_west_1, 768 # 1000); (eu_west_2, 808 # 1000);
      (eu_west_3, 808 # 1000); (me_south_1, 845 # 1000); (sa_east_1, 1048 # 1000);
      (us_east_1, 68 # 100); (us_east_2, 68 # 100); (us_gov_east_1, 816 # 1000);
      (us_gov_west_1, 816 # 1000); (us_west_1, 848 # 1000); (us_west_2, 68 # 100)]
     "current" "HVM" true [(intel_avx, true); (intel_avx2, true); (intel_avx512, true)].

Definition m5d_24xlarge : Type_ :=
  mkType "m5d.24xlarge" true (1750 # 1) 96 (384 # 1)
     [(ap_east_1, 744 # 100); (ap_northeast_1, 7008 # 1000); (ap_northeast_2, 6672 # 1000);
      (ap_northeast_3, 7008 # 1000); (ap_south_1, 5856 # 1000); (ap_southeast_1, 6768 # 1000);
      (ap_southeast_2, 6816 # 1000); (ca_central_1, 6048 # 1000); (eu_central_1, 6528 # 1000);
      (eu_north_1, 576 # 100); (eu_west_1, 6048 # 1000); (eu_west_2, 6288 # 1000);
      (eu_west_3, 6336 # 1000); (me_south_1, 6653 # 1000); (us_east_1, 5424 # 1000);
      (us_east_2, 5424 # 1000); (us_gov_east_1, 6864 # 1000); (us_gov_west_1, 6864 # 1000);
      (us_west_1, 6384 # 1000); (us_west_2, 5424 # 1000)]
     "current" "HVM" true [(intel_avx, true); (intel_avx2, true)].

Definition r3_large : Type_ :=
  mkType "r3.large" false (0 # 1) 2 (1525 # 100)
     [(ap_northeast_1, 2 # 10); (ap_northeast_2, 2 # 10); (ap_south_1, 19 # 100);
      (ap_southeast_1, 2 # 10); (ap_southeast_2, 2 # 10); (eu_central_1, 2 # 10);
      (eu_west_1, 185 # 1000); (sa_east_1, 35 # 100); (us_east_1, 166 # 1000);
      (us_east_2, 166 # 1000); (us_gov_west_1, 2 # 10); (us_west_1, 185 # 1000);
      (us_west_2, 166 # 1000)]
     "previous" "HVM" false [(intel_avx, true)].

Definition c4_large : Type_ :=
  mkType "c4.large" true (625 # 10) 2 (375 # 100)
     [(ap_northeast_1, 126 # 1000); (ap_northeast_2, 114 # 1000); (ap_northeast_3, 126 # 1000);
      (ap_south_1, 1 # 10); (ap_southeast_1, 115 # 1000); (ap_southeast_2, 13 # 100);
      (ca_central_1, 11 # 100); (eu_central_1, 114 # 1000); (eu_west_1, 113 # 1000);
      (eu_west_2, 119 # 1000); (sa_east_1, 155 # 1000); (us_east_1, 1 # 10);
      (us_east_2, 1 # 10); (us_gov_west_1, 12 # 100); (us_west_1, 124 # 1000);
      (us_west_2, 1 # 10)]
     "current" "HVM" false [(intel_avx, true); (intel_avx2, true)].

Definition r5d_xlarge : Type_ :=
  mkType "r5d.xlarge" true (4375 # 10) 4 (32 # 1)
     [(ap_east_1, 35 # 100); (ap_northeast_1, 348 # 1000); (ap_northeast_2, 346 # 1000);
      (ap_northeast_3, 348 # 1000); (ap_south_1, 302 # 1000); (ap_southeast_1, 348 # 1000);
      (ap_southeast_2, 348 # 1000); (ca_central_1, 316 # 1000); (eu_central_1, 346 # 1000);
      (eu_north_1, 304 # 1000); (eu_west_1, 32 # 100); (eu_west_2, 338 # 1000);
      (eu_west_3, 338 # 1000); (me_south_1, 352 # 1000); (us_east_1, 288 # 1000);
      (us_east_2, 288 # 1000); (us_gov_east_1, 346 # 1000); (us_gov_west_1, 346 # 1000);
      (us_west_1, 324 # 1000); (us_west_2, 288 # 1000)]
     "current" "HVM" true [].

Definition m5d_large : Type_ :=
  mkType "m5d.large" true (4375 # 10) 2 (8 # 1)
     [(ap_east_1, 155 # 1000); (ap_northeast_1, 146 # 1000); (ap_northeast_2, 139 # 1000);
      (ap_northeast_3, 146 # 1000); (ap_south_1, 122 # 1000); (ap_southeast_1, 141 # 1000);
      (ap_southeast_2, 142 # 1000); (ca_central_1, 126 # 1000); (eu_central_1, 136 # 1000);
      (eu_north_1, 12 # 100); (eu_west_1, 126 # 1000); (eu_west_2, 131 # 1000);
      (eu_west_3, 132 # 1000); (me_south_1, 139 # 1000); (us_east_1, 113 # 1000);
      (us_east_2, 113 # 1000); (us_gov_east_1, 143 # 1000); (us_gov_west_1, 143 # 1000);
      (us_west_1, 133 # 1000); (us_west_2, 113 # 1000)]
     "current" "HVM" true [(intel_avx, true); (intel_avx2, true)].

Definition r5_2xlarge : Type_ :=
  mkType "r5.2xlarge" true (4375 # 10) 8 (64 # 1)
     [(ap_east_1, 668 # 1000); (ap_northeast_1, 608 # 1000); (ap_northeast_2, 608 # 1000);
      (ap_northeast_3, 608 # 1000); (ap_south_1, 52 # 100); (ap_southeast_1, 608 # 1000);
      (ap_southeast_2, 604 # 1000); (ca_central_1, 552 # 1000); (eu_central_1, 608 # 1000);
      (eu_north_1, 536 # 1000); (eu_west_1, 564 # 1000); (eu_west_2, 592 # 1000);
      (eu_west_3, 592 # 1000); (me_south_1, 62 # 100); (us_east_1, 504 # 1000);
      (us_east_2, 504 # 1000); (us_gov_east_1, 604 # 1000); (us_gov_west_1, 604 # 1000);
      (us_west_1, 56 # 100); (us_west_2, 504 # 1000)]
     "current" "HVM" true [].

Definition m3_2xlarge : Type_ :=
  mkType "m3.2xlarge" false (125 # 1) 8 (30 # 1)
     [(ap_northeast_1, 77 # 100); (ap_northeast_2, 732 # 1000); (ap_southeast_1, 784 # 1000);
      (ap_southeast_2, 745 # 1000); (eu_central_1, 632 # 1000); (eu_west_1, 585 # 1000);
      (sa_east_1, 761 # 1000); (us_east_1, 532 # 1000); (us_gov_west_1, 672 # 1000);
      (us_west_1, 616 # 1000); (us_west_2, 532 # 1000)]
     "previous" "HVM" false [(intel_avx, true)].

Definition m5d_2xlarge : Type_ :=
  mkType "m5d.2xlarge" true (4375 # 10) 8 (32 # 1)
     [(ap_east_1, 62 # 100); (ap_northeast_1, 584 # 1000); (ap_northeast_2, 556 # 1000);
      (ap_northeast_3, 584 # 1000); (ap_south_1, 488 # 1000); (ap_southeast_1, 564 # 1000);
      (ap_southeast_2, 568 # 1000); (ca_central_1, 504 # 1000); (eu_central_1, 544 # 1000);
      (eu_north_1, 48 # 100); (eu_west_1, 504 # 1000); (eu_west_2, 524 # 1000);
      (eu_west_3, 528 # 1000); (me_south_1, 554 # 1000); (us_east_1, 452 # 1000);
      (us_east_2, 452 # 1000); (us_gov_east_1, 572 # 1000); (us_gov_west_1, 572 # 1000);
      (us_west_1, 532 # 1000); (us_west_2, 452 # 1000)]
     "current" "HVM" true [(intel_avx, true); (intel_avx2, true)].

Definition m4_10xlarge : Type_ :=
  mkType "m4.10xlarge" true (500 # 1) 40 (160 # 1)
     [(ap_northeast_1, 258 # 100); (ap_northeast_2, 246 # 100); (ap_northeast_3, 258 # 100);
      (ap_south_1, 21 # 10); (ap_southeast_1, 25 # 10); (ap_southeast_2, 25 # 10);
      (ca_central_1, 222 # 100); (eu_central_1, 24 # 10); (eu_west_1, 222 # 100);
      (eu_west_2, 232 # 100); (sa_east_1, 318 # 100); (us_east_1, 2 # 1); (us_east_2, 2 # 1);
      (us_gov_west_1, 252 # 100); (us_west_1, 234 # 100); (us_west_2, 2 # 1)]
     "current" "HVM" false [(intel_avx, true); (intel_avx2, true)].

Definition m5ad_large : Type_ :=
  mkType "m5ad.large" true (265 # 1) 2 (8 # 1)
     [(ap_southeast_1, 129 # 1000); (ap_southeast_2, 13 # 100); (ca_central_1, 115 # 1000);
      (us_east_1, 103 # 1000); (us_east_2, 103 # 1000); (us_gov_west_1, 131 # 1000);
      (us_west_2, 103 # 1000)]
     "current" "HVM" true [].

Definition c5d_large : Type_ :=
  mkType "c5d.large" true (4375 # 10) 2 (4 # 1)
     [(ap_east_1, 123 # 1000); (ap_northeast_1, 122 # 1000); (ap_northeast_2, 11 # 100);
      (ap_northeast_3, 122 # 1000); (ap_south_1, 99 # 1000); (ap_southeast_1, 112 # 1000);
      (ap_southeast_2, 126 # 1000); (ca_central_1, 106 # 1000); (eu_central_1, 111 # 1000);
      (eu_north_1, 104 # 1000); (eu_west_1, 109 # 1000); (eu_west_2, 115 # 1000);
      (eu_west_3, 115 # 1000); (me_south_1, 12 # 100); (us_east_1, 96 # 1000);
      (us_east_2, 96 # 1000); (us_gov_east_1, 116 # 1000); (us_gov_west_1, 116 # 1000);
      (us_west_1, 12 # 100); (us_west_2, 96 # 1000)]
     "current" "HVM" true [(intel_avx, true); (intel_avx2, true)].

Definition x1_32xlarge : Type_ :=
  mkType "x1.32xlarge" true (1750 # 1) 128 (1952 # 1)
     [(ap_east_1, 21276 # 1000); (ap_northeast_1, 19341 # 1000);
      (ap_northeast_2, 19341 # 1000); (ap_south_1, 13762 # 1000);
      (ap_southeast_1, 19341 # 1000); (ap_southeast_2, 19341 # 1000);
      (ca_central_1, 14672 # 1000); (eu_central_1, 18674 # 1000); (eu_west_1, 16006 # 1000);
      (eu_west_2, 16806 # 1000); (eu_west_3, 16806 # 1000); (sa_east_1, 2601 # 100);
      (us_east_1, 13338 # 1000); (us_east_2, 13338 # 1000); (us_gov_east_1, 16006 # 1000);
      (us_gov_west_1, 16006 # 1000); (us_west_2, 13338 # 1000)]
     "current" "HVM" false [].

Definition c5n_2xlarge : Type_ :=
  mkType "c5n.2xlarge" true (4375 # 10) 8 (21 # 1)
     [(ap_northeast_1, 544 # 1000); (ap_northeast_2, 488 # 1000); (ap_south_1, 432 # 1000);
      (ap_southeast_1, 496 # 1000); (ap_southeast_2, 564 # 1000); (ca_central_1, 472 # 1000);
      (eu_central_1, 492 # 1000); (eu_west_1, 488 # 1000); (us_east_1, 432 # 1000);
      (us_east_2, 432 # 1000); (us_gov_east_1, 52 # 100); (us_gov_west_1, 52 # 100);
      (us_west_1, 54 # 100); (us_west_2, 432 # 1000)]
     "current" "HVM" true [(intel_avx, true); (intel_avx2, true)].

Definition m5d_xlarge : Type_ :=
  mkType "m5d.xlarge" true (4375 # 10) 4 (16 # 1)
     [(ap_east_1, 31 # 100); (ap_northeast_1, 292 # 1000); (ap_northeast_2, 278 # 1000);
      (ap_northeast_3, 292 # 1000); (ap_south_1, 244 # 1000); (ap_southeast_1, 282 # 1000);
      (ap_southeast_2, 284 # 1000); (ca_central_1, 252 # 1000); (eu_central_1, 272 # 1000);
      (eu_north_1, 24 # 100); (eu_west_1, 252 # 1000); (eu_west_2, 262 # 1000);
      (eu_west_3, 264 # 1000); (me_south_1, 277 # 1000); (us_east_1, 226 # 1000);
      (us_east_2, 226 # 1000); (us_gov_east_1, 286 # 1000); (us_gov_west_1, 286 # 1000);
      (us_west_1, 266 # 1000); (us_west_2, 226 # 1000)]
     "current" "HVM" true [(intel_avx, true); (intel_avx2, true)].

Definition m5_12xlarge : Type_ :=
  mkType "m5.12xlarge" true (875 # 1) 48 (192 # 1)
     [(ap_east_1, 3168 # 1000); (ap_northeast_1, 2976 # 1000); (ap_northeast_2, 2832 # 1000);
      (ap_northeast_3, 2976 # 1000); (ap_south_1, 2424 # 1000); (ap_southeast_1, 288 # 100);
      (ap_southeast_2, 288 # 100); (ca_central_1, 2568 # 1000); (eu_central_1, 276 # 100);
      (eu_north_1, 2448 # 1000); (eu_west_1, 2568 # 1000); (eu_west_2, 2664 # 1000);
      (eu_west_3, 2688 # 1000); (me_south_1, 2825 # 1000); (sa_east_1, 3672 # 1000);
      (us_east_1, 2304 # 1000); (us_east_2, 2304 # 1000); (us_gov_east_1, 2904 # 1000);
      (us_gov_west_1, 2904 # 1000); (us_west_1, 2688 # 1000); (us_west_2, 2304 # 1000)]
     "current" "HVM" true [(intel_avx, true); (intel_avx2, true); (intel_avx512, true)].

Definition p3_16xlarge : Type_ :=
  mkType "p3.16xlarge" true (1750 # 1) 64 (488 # 1)
     [(ap_northeast_1, 33552 # 1000); (ap_northeast_2, 33872 # 1000);
      (ap_southeast_1, 33872 # 1000); (ap_southeast_2, 33872 # 1000);
      (ca_central_1, 26928 # 1000); (eu_central_1, 30584 # 1000); (eu_west_1, 2644 # 100);
      (eu_west_2, 28712 # 1000); (us_east_1, 2448 # 100); (us_east_2, 2448 # 100);
      (us_gov_west_1, 29376 # 1000); (us_west_2, 2448 # 100)]
     "current" "HVM" false [(intel_avx, true); (intel_avx2, true)].

Definition m3_large : Type_ :=
  mkType "m3.large" false (0 # 1) 2 (75 # 10)
     [(ap_northeast_1, 193 # 1000); (ap_northeast_2, 183 # 1000); (ap_southeast_1, 196 # 1000);
      (ap_southeast_2, 186 # 1000); (eu_central_1, 158 # 1000); (eu_west_1, 146 # 1000);
      (sa_east_1, 19 # 100); (us_east_1, 133 # 1000); (us_gov_west_1, 168 # 1000);
      (us_west_1, 154 # 1000); (us_west_2, 133 # 1000)]
     "previous" "HVM" false [(intel_avx, true)].

Definition c5d_4xlarge : Type_ :=
  mkType "c5d.4xlarge" true (4375 # 10) 16 (32 # 1)
     [(ap_east_1, 984 # 1000); (ap_northeast_1, 976 # 1000); (ap_northeast_2, 88 # 100);
      (ap_northeast_3, 976 # 1000); (ap_south_1, 792 # 1000); (ap_southeast_1, 896 # 1000);
      (ap_southeast_2, 1008 # 1000); (ca_central_1, 848 # 1000); (eu_central_1, 888 # 1000);
      (eu_north_1, 832 # 1000); (eu_west_1, 872 # 1000); (eu_west_2, 92 # 100);
      (eu_west_3, 92 # 100); (me_south_1, 959 # 1000); (us_east_1, 768 # 1000);
      (us_east_2, 768 # 1000); (us_gov_east_1, 928 # 1000); (us_gov_west_1, 928 # 1000);
      (us_west_1, 96 # 100); (us_west_2, 768 # 1000)]
     "current" "HVM" true [(intel_avx, true); (intel_avx2, true)].

Definition r5_24xlarge : Type_ :=
  mkType "r5.24xlarge" true (1750 # 1) 96 (768 # 1)
     [(ap_east_1, 8016 # 1000); (ap_northeast_1, 7296 # 1000); (ap_northeast_2, 7296 # 1000);
      (ap_northeast_3, 7296 # 1000); (ap_south_1, 624 # 100); (ap_southeast_1, 7296 # 1000);
      (ap_southeast_2, 7248 # 1000); (ca_central_1, 6624 # 1000); (eu_central_1, 7296 # 1000);
      (eu_north_1, 6432 # 1000); (eu_west_1, 6768 # 1000); (eu_west_2, 7104 # 1000);
      (eu_west_3, 7104 # 1000); (me_south_1, 7445 # 1000); (us_east_1, 6048 # 1000);
      (us_east_2, 6048 # 1000); (us_gov_east_1, 7248 # 1000); (us_gov_west_1, 7248 # 1000);
      (us_west_1, 672 # 100); (us_west_2, 6048 # 1000)]
     "current" "HVM" true [].

Definition r4_large : Type_ :=
  mkType "r4.large" true (5313 # 100) 2 (1525 # 100)
     [(ap_northeast_1, 16 # 100); (ap_northeast_2, 16 # 100); (ap_northeast_3, 16 # 100);
      (ap_south_1, 137 # 1000); (ap_southeast_1, 16 # 100); (ap_southeast_2, 1596 # 10000);
      (ca_central_1, 146 # 1000); (eu_central_1, 16005 # 100000); (eu_west_1, 1482 # 10000);
      (eu_west_2, 156 # 1000); (eu_west_3, 156 # 1000); (sa_east_1, 28 # 100);
      (us_east_1, 133 # 1000); (us_east_2, 133 # 1000); (us_gov_west_1, 1596 # 10000);
      (us_west_1, 1482 # 10000); (us_west_2, 133 # 1000)]
     "current" "HVM" false [(intel_avx, true); (intel_avx2, true)].

Definition r3_xlarge : Type_ :=
  mkType "r3.xlarge" false (625 # 10) 4 (305 # 10)
     [(ap_northeast_1, 399 # 1000); (ap_northeast_2, 399 # 1000); (ap_south_1, 379 # 1000);
      (ap_southeast_1, 399 # 1000); (ap_southeast_2, 399 # 1000); (eu_central_1, 4 # 10);
      (eu_west_1, 371 # 1000); (sa_east_1, 7 # 10); (us_east_1, 333 # 1000);
      (us_east_2, 332 # 1000); (us_gov_west_1, 399 # 1000); (us_west_1, 371 # 1000);
      (us_west_2, 333 # 1000)]
     "previous" "HVM" false [(intel_avx, true)].

Definition x1e_32xlarge : Type_ :=
  mkType "x1e.32xlarge" true (1750 # 1) 128 (3904 # 1)
     [(ap_northeast_1, 38688 # 1000); (ap_northeast_2, 38688 # 1000);
      (ap_southeast_1, 38688 # 1000); (ap_southeast_2, 38688 # 1000);
      (eu_central_1, 37344 # 1000); (eu_west_1, 32 # 1); (us_east_1, 26688 # 1000);
      (us_east_2, 26688 # 1000); (us_gov_east_1, 32 # 1); (us_gov_west_1, 32 # 1);
      (us_west_2, 26688 # 1000)]
     "current" "HVM" false [(intel_avx, true); (intel_avx2, true)].

Definition c5n_xlarge : Type_ :=
  mkType "c5n.xlarge" true (4375 # 10) 4 (105 # 10)
     [(ap_northeast_1, 272 # 1000); (ap_northeast_2, 244 # 1000); (ap_south_1, 216 # 1000);
      (ap_southeast_1, 248 # 1000); (ap_southeast_2, 282 # 1000); (ca_central_1, 236 # 1000);
      (eu_central_1, 246 # 1000); (eu_west_1, 244 # 1000); (us_east_1, 216 # 1000);
      (us_east_2, 216 # 1000); (us_gov_east_1, 26 # 100); (us_gov_west_1, 26 # 100);
      (us_west_1, 27 # 100); (us_west_2, 216 # 1000)]
     "current" "HVM" true [(intel_avx, true); (intel_avx2, true)].

Definition m5a_4xlarge : Type_ :=
  mkType "m5a.4xlarge" true (265 # 1) 16 (64 # 1)
     [(ap_northeast_1, 896 # 1000); (ap_southeast_1, 864 # 1000); (ap_southeast_2, 864 # 1000);
      (ca_central_1, 768 # 1000); (eu_central_1, 832 # 1000); (eu_west_1, 768 # 1000);
      (eu_west_3, 808 # 1000); (us_east_1, 688 # 1000); (us_east_2, 688 # 1000);
      (us_gov_east_1, 872 # 1000); (us_gov_west_1, 872 # 1000); (us_west_1, 808 # 1000);
      (us_west_2, 688 # 1000)]
     "current" "HVM" true [].

Definition r5ad_2xlarge : Type_ :=
  mkType "r5ad.2xlarge" true (265 # 1) 8 (64 # 1)
     [(ap_southeast_1, 636 # 1000); (ap_southeast_2, 636 # 1000); (ca_central_1, 576 # 1000);
      (us_east_1, 524 # 1000); (us_east_2, 524 # 1000); (us_gov_west_1, 632 # 1000);
      (us_west_2, 524 # 1000)]
     "current" "HVM" true [].

Definition t2_xlarge : Type_ :=
  mkType "t2.xlarge" true (0 # 1) 4 (16 # 1)
     [(ap_northeast_1, 2432 # 10000); (ap_northeast_2, 2304 # 10000);
      (ap_northeast_3, 2432 # 10000); (ap_south_1, 1984 # 10000);
      (ap_southeast_1, 2336 # 10000); (ap_southeast_2, 2336 # 10000);
      (ca_central_1, 2048 # 10000); (eu_central_1, 2144 # 10000); (eu_west_1, 2016 # 10000);
      (eu_west_2, 2112 # 10000); (eu_west_3, 2112 # 10000); (sa_east_1, 2976 # 10000);
      (us_east_1, 1856 # 10000); (us_east_2, 1856 # 10000); (us_gov_west_1, 2176 # 10000);
      (us_west_1, 2208 # 10000); (us_west_2, 1856 # 10000)]
     "current" "HVM" false [(intel_avx, true)].

Definition p3dn_24xlarge : Type_ :=
  mkType "p3dn.24xlarge" true (1750 # 1) 96 (768 # 1)
     [(ap_northeast_1, 42783 # 1000); (eu_west_1, 33711 # 1000); (us_east_1, 31212 # 1000);
      (us_gov_east_1, 37454 # 1000); (us_gov_west_1, 37454 # 1000); (us_west_2, 31212 # 1000)]
     "current" "HVM" false [(intel_avx, true); (intel_avx2, true)].

Definition p2_16xlarge : Type_ :=
  mkType "p2.16xlarge" true (1250 # 1) 64 (768 # 1)
     [(ap_northeast_1, 24672 # 1000); (ap_northeast_2, 2344 # 100); (ap_south_1, 27488 # 1000);
      (ap_southeast_1, 27488 # 1000); (ap_southeast_2, 24672 # 1000);
      (eu_central_1, 21216 # 1000); (eu_west_1, 15552 # 1000); (us_east_1, 144 # 10);
      (us_east_2, 144 # 10); (us_gov_west_1, 1728 # 100); (us_west_2, 144 # 10)]
     "current" "HVM" false [(intel_avx, true); (intel_avx2, true)].

Definition c3_8xlarge : Type_ :=
  mkType "c3.8xlarge" false (0 # 1) 32 (60 # 1)
     [(ap_northeast_1, 2043 # 1000); (ap_northeast_2, 1839 # 1000);
      (ap_southeast_1, 2117 # 1000); (ap_southeast_2, 2117 # 1000);
      (eu_central_1, 2064 # 1000); (eu_west_1, 1912 # 1000); (sa_east_1, 26 # 10);
      (us_east_1, 168 # 100); (us_gov_west_1, 2016 # 1000); (us_west_1, 1912 # 1000);
      (us_west_2, 168 # 100)]
     "previous" "HVM" false [(intel_avx, true)].

Definition m3_medium : Type_ :=
  mkType "m3.medium" false (0 # 1) 1 (375 # 100)
     [(ap_northeast_1, 96 # 1000); (ap_northeast_2, 91 # 1000); (ap_southeast_1, 98 # 1000);
      (ap_southeast_2, 93 # 1000); (eu_central_1, 79 # 1000); (eu_west_1, 73 # 1000);
      (sa_east_1, 95 # 1000); (us_east_1, 67 # 1000); (us_gov_west_1, 84 # 1000);
      (us_west_1, 77 # 1000); (us_west_2, 67 # 1000)]
     "previous" "HVM" false [(intel_avx, true)].

Definition x1e_2xlarge : Type_ :=
  mkType "x1e.2xlarge" true (125 # 1) 8 (244 # 1)
     [(ap_northeast_1, 2418 # 1000); (ap_northeast_2, 2418 # 1000);
      (ap_southeast_1, 2418 # 1000); (ap_southeast_2, 2418 # 1000);
      (eu_central_1, 2334 # 1000); (eu_west_1, 2 # 1); (us_east_1, 1668 # 1000);
      (us_east_2, 1668 # 1000); (us_gov_east_1, 2 # 1); (us_gov_west_1, 2 # 1);
      (us_west_2, 1668 # 1000)]
     "current" "HVM" false [(intel_avx, true); (intel_avx2, true)].

Definition m5a_8xlarge : Type_ :=
  mkType "m5a.8xlarge" true (4375 # 10) 32 (128 # 1)
     [(ap_northeast_1, 1792 # 1000); (ap_southeast_1, 1728 # 1000);
      (ap_southeast_2, 1728 # 1000); (ca_central_1, 1536 # 1000); (eu_central_1, 1664 # 1000);
      (eu_west_1, 1536 # 1000); (eu_west_3, 1616 # 1000); (us_east_1, 1376 # 1000);
      (us_east_2, 1376 # 1000); (us_gov_east_1, 1744 # 1000); (us_gov_west_1, 1744 # 1000);
      (us_west_1, 1616 # 1000); (us_west_2, 1376 # 1000)]
     "current" "HVM" true [].

Definition m5ad_2xlarge : Type_ :=
  mkType "m5ad.2xlarge" true (265 # 1) 8 (32 # 1)
     [(ap_southeast_1, 516 # 1000); (ap_southeast_2, 52 # 100); (ca_central_1, 46 # 100);
      (us_east_1, 412 # 1000); (us_east_2, 412 # 1000); (us_gov_west_1, 524 # 1000);
      (us_west_2, 412 # 1000)]
     "current" "HVM" true [].

Definition r5a_2xlarge : Type_ :=
  mkType "r5a.2xlarge" true (265 # 1) 8 (64 # 1)
     [(ap_northeast_1, 548 # 1000); (ap_southeast_1, 544 # 1000); (ap_southeast_2, 544 # 1000);
      (ca_central_1, 496 # 1000); (eu_central_1, 548 # 1000); (eu_west_1, 508 # 1000);
      (eu_west_3, 532 # 1000); (us_east_1, 452 # 1000); (us_east_2, 452 # 1000);
      (us_gov_east_1, 544 # 1000); (us_gov_west_1, 544 # 1000); (us_west_1, 504 # 1000);
      (us_west_2, 452 # 1000)]
     "current" "HVM" true [].

Definition m5a_12xlarge : Type_ :=
  mkType "m5a.12xlarge" true (625 # 1) 48 (192 # 1)
     [(ap_northeast_1, 2688 # 1000); (ap_southeast_1, 2592 # 1000);
      (ap_southeast_2, 2592 # 1000); (ca_central_1, 2304 # 1000); (eu_central_1, 2496 # 1000);
      (eu_west_1, 2304 # 1000); (eu_west_3, 2424 # 1000); (us_east_1, 2064 # 1000);
      (us_east_2, 2064 # 1000); (us_gov_east_1, 2616 # 1000); (us_gov_west_1, 2616 # 1000);
      (us_west_1, 2424 # 1000); (us_west_2, 2064 # 1000)]
     "current" "HVM" true [].

Definition m5d_16xlarge : Type_ :=
  mkType "m5d.16xlarge" true (1250 # 1) 64 (256 # 1)
     [(ap_east_1, 496 # 100); (ap_northeast_1, 4672 # 1000); (ap_northeast_2, 4448 # 1000);
      (ap_northeast_3, 4672 # 1000); (ap_south_1, 3904 # 1000); (ap_southeast_1, 4512 # 1000);
      (ap_southeast_2, 4544 # 1000); (ca_central_1, 4032 # 1000); (eu_central_1, 4352 # 1000);
      (eu_north_1, 384 # 100); (eu_west_1, 4032 # 1000); (eu_west_2, 4192 # 1000);
      (eu_west_3, 4224 # 1000); (me_south_1, 4435 # 1000); (us_east_1, 3616 # 1000);
      (us_east_2, 3616 # 1000); (us_gov_east_1, 4576 # 1000); (us_gov_west_1, 4576 # 1000);
      (us_west_1, 4256 # 1000); (us_west_2, 3616 # 1000)]
     "current" "HVM" true [(intel_avx, true); (intel_avx2, true)].

Definition d2_xlarge : Type_ :=
  mkType "d2.xlarge" true (9375 # 100) 4 (305 # 10)
     [(ap_east_1, 957 # 1000); (ap_northeast_1, 844 # 1000); (ap_northeast_2, 844 # 1000);
      (ap_northeast_3, 844 # 1000); (ap_south_1, 827 # 1000); (ap_southeast_1, 87 # 100);
      (ap_southeast_2, 87 # 100); (ca_central_1, 759 # 1000); (eu_central_1, 794 # 1000);
      (eu_north_1, 698 # 1000); (eu_west_1, 735 # 1000); (eu_west_2, 772 # 1000);
      (eu_west_3, 772 # 1000); (me_south_1, 809 # 1000); (us_east_1, 69 # 100);
      (us_east_2, 69 # 100); (us_gov_west_1, 828 # 1000); (us_west_1, 781 # 1000);
      (us_west_2, 69 # 100)]
     "current" "HVM" false [(intel_avx, true); (intel_avx2, true)].

Definition c5_2xlarge : Type_ :=
  mkType "c5.2xlarge" true (4375 # 10) 8 (16 # 1)
     [(ap_east_1, 432 # 1000); (ap_northeast_1, 428 # 1000); (ap_northeast_2, 384 # 1000);
      (ap_northeast_3, 428 # 1000); (ap_south_1, 34 # 100); (ap_southeast_1, 392 # 1000);
      (ap_southeast_2, 444 # 1000); (ca_central_1, 372 # 1000); (eu_central_1, 388 # 1000);
      (eu_north_1, 364 # 1000); (eu_west_1, 384 # 1000); (eu_west_2, 404 # 1000);
      (eu_west_3, 404 # 1000); (me_south_1, 422 # 1000); (sa_east_1, 524 # 1000);
      (us_east_1, 34 # 100); (us_east_2, 34 # 100); (us_gov_east_1, 408 # 1000);
      (us_gov_west_1, 408 # 1000); (us_west_1, 424 # 1000); (us_west_2, 34 # 100)]
     "current" "HVM" true [(intel_avx, true); (intel_avx2, true); (intel_avx512, true)].

Definition g4dn_16xlarge : Type_ :=
  mkType "g4dn.16xlarge" true (875 # 1) 64 (256 # 1)
     [(ap_northeast_1, 5875 # 1000); (ap_northeast_2, 5353 # 1000); (eu_central_1, 544 # 100);
      (eu_west_1, 4853 # 1000); (eu_west_2, 5092 # 1000); (us_east_1, 4352 # 1000);
      (us_east_2, 4352 # 1000); (us_west_1, 5222 # 1000); (us_west_2, 4352 # 1000)]
     "current" "HVM" true [].

Definition c5d_2xlarge : Type_ :=
  mkType "c5d.2xlarge" true (4375 # 10) 8 (16 # 1)
     [(ap_east_1, 492 # 1000); (ap_northeast_1, 488 # 1000); (ap_northeast_2, 44 # 100);
      (ap_northeast_3, 488 # 1000); (ap_south_1, 396 # 1000); (ap_southeast_1, 448 # 1000);
      (ap_southeast_2, 504 # 1000); (ca_central_1, 424 # 1000); (eu_central_1, 444 # 1000);
      (eu_north_1, 416 # 1000); (eu_west_1, 436 # 1000); (eu_west_2, 46 # 100);
      (eu_west_3, 46 # 100); (me_south_1, 48 # 100); (us_east_1, 384 # 1000);
      (us_east_2, 384 # 1000); (us_gov_east_1, 464 # 1000); (us_gov_west_1, 464 # 1000);
      (us_west_1, 48 # 100); (us_west_2, 384 # 1000)]
     "current" "HVM" true [(intel_avx, true); (intel_avx2, true)].

Definition m3_xlarge : Type_ :=
  mkType "m3.xlarge" false (625 # 10) 4 (15 # 1)
     [(ap_northeast_1, 385 # 1000); (ap_northeast_2, 366 # 1000); (ap_southeast_1, 392 # 1000);
      (ap_southeast_2, 372 # 1000); (eu_central_1, 315 # 1000); (eu_west_1, 293 # 1000);
      (sa_east_1, 381 # 1000); (us_east_1, 266 # 1000); (us_gov_west_1, 336 # 1000);
      (us_west_1, 308 # 1000); (us_west_2, 266 # 1000)]
     "previous" "HVM" false [(intel_avx, true)].

Definition r4_16xlarge : Type_ :=
  mkType "r4.16xlarge" true (1750 # 1) 64 (488 # 1)
     [(ap_northeast_1, 512 # 100); (ap_northeast_2, 512 # 100); (ap_northeast_3, 512 # 100);
      (ap_south_1, 4384 # 1000); (ap_southeast_1, 512 # 100); (ap_southeast_2, 51072 # 10000);
      (ca_central_1, 4672 # 1000); (eu_central_1, 51216 # 10000); (eu_west_1, 47424 # 10000);
      (eu_west_2, 4992 # 1000); (eu_west_3, 4992 # 1000); (sa_east_1, 896 # 100);
      (us_east_1, 4256 # 1000); (us_east_2, 4256 # 1000); (us_gov_west_1, 51072 # 10000);
      (us_west_1, 47424 # 10000); (us_west_2, 4256 # 1000)]
     "current" "HVM" false [(intel_avx, true); (intel_avx2, true)].

Definition g4dn_4xlarge : Type_ :=
  mkType "g4dn.4xlarge" true (4375 # 10) 16 (64 # 1)
     [(ap_northeast_1, 1625 # 1000); (ap_northeast_2, 1481 # 1000);
      (eu_central_1, 1505 # 1000); (eu_west_1, 1342 # 1000); (eu_west_2, 1409 # 1000);
      (us_east_1, 1204 # 1000); (us_east_2, 1204 # 1000); (us_west_1, 1445 # 1000);
      (us_west_2, 1204 # 1000)]
     "current" "HVM" true [].

Definition i3_xlarge : Type_ :=
  mkType "i3.xlarge" true (10625 # 100) 4 (305 # 10)
     [(ap_east_1, 412 # 1000); (ap_northeast_1, 366 # 1000); (ap_northeast_2, 366 # 1000);
      (ap_northeast_3, 366 # 1000); (ap_south_1, 354 # 1000); (ap_southeast_1, 374 # 1000);
      (ap_southeast_2, 374 # 1000); (ca_central_1, 344 # 1000); (eu_central_1, 372 # 1000);
      (eu_north_1, 326 # 1000); (eu_west_1, 344 # 1000); (eu_west_2, 362 # 1000);
      (eu_west_3, 362 # 1000); (me_south_1, 378 # 1000); (sa_east_1, 572 # 1000);
      (us_east_1, 312 # 1000); (us_east_2, 312 # 1000); (us_gov_east_1, 376 # 1000);
      (us_gov_west_1, 376 # 1000); (us_west_1, 344 # 1000); (us_west_2, 312 # 1000)]
     "current" "HVM" false [(intel_avx, true); (intel_avx2, true)].

Definition z1d_2xlarge : Type_ :=
  mkType "z1d.2xlarge" true (292 # 1) 8 (64 # 1)
     [(ap_northeast_1, 908 # 1000); (ap_southeast_1, 904 # 1000); (ap_southeast_2, 904 # 1000);
      (eu_central_1, 9 # 10); (eu_west_1, 832 # 1000); (eu_west_2, 879 # 1000);
      (us_east_1, 744 # 1000); (us_west_1, 844 # 1000); (us_west_2, 744 # 1000)]
     "current" "HVM" true [].

Definition c3_xlarge : Type_ :=
  mkType "c3.xlarge" false (625 # 10) 4 (75 # 10)
     [(ap_northeast_1, 255 # 1000); (ap_northeast_2, 23 # 100); (ap_southeast_1, 265 # 1000);
      (ap_southeast_2, 265 # 1000); (eu_central_1, 258 # 1000); (eu_west_1, 239 # 1000);
      (sa_east_1, 325 # 1000); (us_east_1, 21 # 100); (us_gov_west_1, 252 # 1000);
      (us_west_1, 239 # 1000); (us_west_2, 21 # 100)]
     "previous" "HVM" false [(intel_avx, true)].

Definition r5_8xlarge : Type_ :=
  mkType "r5.8xlarge" true (625 # 1) 32 (256 # 1)
     [(ap_east_1, 2672 # 1000); (ap_northeast_1, 2432 # 1000); (ap_northeast_2, 2432 # 1000);
      (ap_northeast_3, 2432 # 1000); (ap_south_1, 208 # 100); (ap_southeast_1, 2432 # 1000);
      (ap_southeast_2, 2416 # 1000); (ca_central_1, 2208 # 1000); (eu_central_1, 2432 # 1000);
      (eu_north_1, 2144 # 1000); (eu_west_1, 2256 # 1000); (eu_west_2, 2368 # 1000);
      (eu_west_3, 2368 # 1000); (me_south_1, 2482 # 1000); (us_east_1, 2016 # 1000);
      (us_east_2, 2016 # 1000); (us_gov_east_1, 2416 # 1000); (us_gov_west_1, 2416 # 1000);
      (us_west_1, 224 # 100); (us_west_2, 2016 # 1000)]
     "current" "HVM" true [].

Definition c3_2xlarge : Type_ :=
  mkType "c3.2xlarge" false (125 # 1) 8 (15 # 1)
     [(ap_northeast_1, 511 # 1000); (ap_northeast_2, 46 # 100); (ap_southeast_1, 529 # 1000);
      (ap_southeast_2, 529 # 1000); (eu_central_1, 516 # 1000); (eu_west_1, 478 # 1000);
      (sa_east_1, 65 # 100); (us_east_1, 42 # 100); (us_gov_west_1, 504 # 1000);
      (us_west_1, 478 # 1000); (us_west_2, 42 # 100)]
     "previous" "HVM" false [(intel_avx, true)].

Definition r3_2xlarge : Type_ :=
  mkType "r3.2xlarge" false (125 # 1) 8 (61 # 1)
     [(ap_northeast_1, 798 # 1000); (ap_northeast_2, 798 # 1000); (ap_south_1, 758 # 1000);
      (ap_southeast_1, 798 # 1000); (ap_southeast_2, 798 # 1000); (eu_central_1, 8 # 10);
      (eu_west_1, 741 # 1000); (sa_east_1, 1399 # 1000); (us_east_1, 665 # 1000);
      (us_east_2, 664 # 1000); (us_gov_west_1, 798 # 1000); (us_west_1, 741 # 1000);
      (us_west_2, 665 # 1000)]
     "previous" "HVM" false [(intel_avx, true)].

Definition r4_2xlarge : Type_ :=
  mkType "r4.2xlarge" true (2125 # 10) 8 (61 # 1)
     [(ap_northeast_1, 64 # 100); (ap_northeast_2, 64 # 100); (ap_northeast_3, 64 # 100);
      (ap_south_1, 548 # 1000); (ap_southeast_1, 64 # 100); (ap_southeast_2, 6384 # 10000);
      (ca_central_1, 584 # 1000); (eu_central_1, 6402 # 10000); (eu_west_1, 5928 # 10000);
      (eu_west_2, 624 # 1000); (eu_west_3, 624 # 1000); (sa_east_1, 112 # 100);
      (us_east_1, 532 # 1000); (us_east_2, 532 # 1000); (us_gov_west_1, 6384 # 10000);
      (us_west_1, 5928 # 10000); (us_west_2, 532 # 1000)]
     "current" "HVM" false [(intel_avx, true); (intel_avx2, true)].

Definition p2_8xlarge : Type_ :=
  mkType "p2.8xlarge" true (625 # 1) 32 (488 # 1)
     [(ap_northeast_1, 12336 # 1000); (ap_northeast_2, 1172 # 100); (ap_south_1, 13744 # 1000);
      (ap_southeast_1, 13744 # 1000); (ap_southeast_2, 12336 # 1000);
      (eu_central_1, 10608 # 1000); (eu_west_1, 7776 # 1000); (us_east_1, 72 # 10);
      (us_east_2, 72 # 10); (us_gov_west_1, 864 # 100); (us_west_2, 72 # 10)]
     "current" "HVM" false [(intel_avx, true); (intel_avx2, true)].

Definition m5_xlarge : Type_ :=
  mkType "m5.xlarge" true (4375 # 10) 4 (16 # 1)
     [(ap_east_1, 264 # 1000); (ap_northeast_1, 248 # 1000); (ap_northeast_2, 236 # 1000);
      (ap_northeast_3, 248 # 1000); (ap_south_1, 202 # 1000); (ap_southeast_1, 24 # 100);
      (ap_southeast_2, 24 # 100); (ca_central_1, 214 # 1000); (eu_central_1, 23 # 100);
      (eu_north_1, 204 # 1000); (eu_west_1, 214 # 1000); (eu_west_2, 222 # 1000);
      (eu_west_3, 224 # 1000); (me_south_1, 235 # 1000); (sa_east_1, 306 # 1000);
      (us_east_1, 192 # 1000); (us_east_2, 192 # 1000); (us_gov_east_1, 242 # 1000);
      (us_gov_west_1, 242 # 1000); (us_west_1, 224 # 1000); (us_west_2, 192 # 1000)]
     "current" "HVM" true [(intel_avx, true); (intel_avx2, true); (intel_avx512, true)].

Definition c4_8xlarge : Type_ :=
  mkType "c4.8xlarge" true (500 # 1) 36 (60 # 1)
     [(ap_northeast_1, 2016 # 1000); (ap_northeast_2, 1815 # 1000);
      (ap_northeast_3, 2016 # 1000); (ap_south_1, 16 # 10); (ap_southeast_1, 1848 # 1000);
      (ap_southeast_2, 2085 # 1000); (ca_central_1, 175 # 100); (eu_central_1, 1817 # 1000);
      (eu_west_1, 1811 # 1000); (eu_west_2, 1902 # 1000); (sa_east_1, 247 # 100);
      (us_east_1, 1591 # 1000); (us_east_2, 1591 # 1000); (us_gov_west_1, 1915 # 1000);
      (us_west_1, 1993 # 1000); (us_west_2, 1591 # 1000)]
     "current" "HVM" false [(intel_avx, true); (intel_avx2, true)].

Definition c5n_9xlarge : Type_ :=
  mkType "c5n.9xlarge" true (875 # 1) 36 (96 # 1)
     [(ap_northeast_1, 2448 # 1000); (ap_northeast_2, 2196 # 1000); (ap_south_1, 1944 # 1000);
      (ap_southeast_1, 2232 # 1000); (ap_southeast_2, 2538 # 1000);
      (ca_central_1, 2124 # 1000); (eu_central_1, 2214 # 1000); (eu_west_1, 2196 # 1000);
      (us_east_1, 1944 # 1000); (us_east_2, 1944 # 1000); (us_gov_east_1, 234 # 100);
      (us_gov_west_1, 234 # 100); (us_west_1, 243 # 100); (us_west_2, 1944 # 1000)]
     "current" "HVM" true [(intel_avx, true); (intel_avx2, true)].

Definition d2_2xlarge : Type_ :=
  mkType "d2.2xlarge" true (125 # 1) 8 (61 # 1)
     [(ap_east_1, 1914 # 1000); (ap_northeast_1, 1688 # 1000); (ap_northeast_2, 1688 # 1000);
      (ap_northeast_3, 1688 # 1000); (ap_south_1, 1653 # 1000); (ap_southeast_1, 174 # 100);
      (ap_southeast_2, 174 # 100); (ca_central_1, 1518 # 1000); (eu_central_1, 1588 # 1000);
      (eu_north_1, 1396 # 1000); (eu_west_1, 147 # 100); (eu_west_2, 1544 # 1000);
      (eu_west_3, 1544 # 1000); (me_south_1, 1617 # 1000); (us_east_1, 138 # 100);
      (us_east_2, 138 # 100); (us_gov_west_1, 1656 # 1000); (us_west_1, 1563 # 1000);
      (us_west_2, 138 # 100)]
     "current" "HVM" false [(intel_avx, true); (intel_avx2, true)].

Definition d2_4xlarge : Type_ :=
  mkType "d2.4xlarge" true (250 # 1) 16 (122 # 1)
     [(ap_east_1, 3828 # 1000); (ap_northeast_1, 3376 # 1000); (ap_northeast_2, 3376 # 1000);
      (ap_northeast_3, 3376 # 1000); (ap_south_1, 3306 # 1000); (ap_southeast_1, 348 # 100);
      (ap_southeast_2, 348 # 100); (ca_central_1, 3036 # 1000); (eu_central_1, 3176 # 1000);
      (eu_north_1, 2792 # 1000); (eu_west_1, 294 # 100); (eu_west_2, 3087 # 1000);
      (eu_west_3, 3088 # 1000); (me_south_1, 3234 # 1000); (us_east_1, 276 # 100);
      (us_east_2, 276 # 100); (us_gov_west_1, 3312 # 1000); (us_west_1, 3125 # 1000);
      (us_west_2, 276 # 100)]
     "current" "HVM" false [(intel_avx, true); (intel_avx2, true)].

Definition m5ad_4xlarge : Type_ :=
  mkType "m5ad.4xlarge" true (265 # 1) 16 (64 # 1)
     [(ap_southeast_1, 1032 # 1000); (ap_southeast_2, 104 # 100); (ca_central_1, 92 # 100);
      (us_east_1, 824 # 1000); (us_east_2, 824 # 1000); (us_gov_west_1, 1048 # 1000);
      (us_west_2, 824 # 1000)]
     "current" "HVM" true [].

Definition c5_xlarge : Type_ :=
  mkType "c5.xlarge" true (4375 # 10) 4 (8 # 1)
     [(ap_east_1, 216 # 1000); (ap_northeast_1, 214 # 1000); (ap_northeast_2, 192 # 1000);
      (ap_northeast_3, 214 # 1000); (ap_south_1, 17 # 100); (ap_southeast_1, 196 # 1000);
      (ap_southeast_2, 222 # 1000); (ca_central_1, 186 # 1000); (eu_central_1, 194 # 1000);
      (eu_north_1, 182 # 1000); (eu_west_1, 192 # 1000); (eu_west_2, 202 # 1000);
      (eu_west_3, 202 # 1000); (me_south_1, 211 # 1000); (sa_east_1, 262 # 1000);
      (us_east_1, 17 # 100); (us_east_2, 17 # 100); (us_gov_east_1, 204 # 1000);
      (us_gov_west_1, 204 # 1000); (us_west_1, 212 # 1000); (us_west_2, 17 # 100)]
     "current" "HVM" true [(intel_avx, true); (intel_avx2, true); (intel_avx512, true)].

Definition m5d_4xlarge : Type_ :=
  mkType "m5d.4xlarge" true (4375 # 10) 16 (64 # 1)
     [(ap_east_1, 124 # 100); (ap_northeast_1, 1168 # 1000); (ap_northeast_2, 1112 # 1000);
      (ap_northeast_3, 1168 # 1000); (ap_south_1, 976 # 1000); (ap_southeast_1, 1128 # 1000);
      (ap_southeast_2, 1136 # 1000); (ca_central_1, 1008 # 1000); (eu_central_1, 1088 # 1000);
      (eu_north_1, 96 # 100); (eu_west_1, 1008 # 1000); (eu_west_2, 1048 # 1000);
      (eu_west_3, 1056 # 1000); (me_south_1, 1109 # 1000); (us_east_1, 904 # 1000);
      (us_east_2, 904 # 1000); (us_gov_east_1, 1144 # 1000); (us_gov_west_1, 1144 # 1000);
      (us_west_1, 1064 # 1000); (us_west_2, 904 # 1000)]
     "current" "HVM" true [(intel_avx, true); (intel_avx2, true)].

Definition r5_16xlarge : Type_ :=
  mkType "r5.16xlarge" true (1250 # 1) 64 (512 # 1)
     [(ap_east_1, 5344 # 1000); (ap_northeast_1, 4864 # 1000); (ap_northeast_2, 4864 # 1000);
      (ap_northeast_3, 4864 # 1000); (ap_south_1, 416 # 100); (ap_southeast_1, 4864 # 1000);
      (ap_southeast_2, 4832 # 1000); (ca_central_1, 4416 # 1000); (eu_central_1, 4864 # 1000);
      (eu_north_1, 4288 # 1000); (eu_west_1, 4512 # 1000); (eu_west_2, 4736 # 1000);
      (eu_west_3, 4736 # 1000); (me_south_1, 4963 # 1000); (us_east_1, 4032 # 1000);
      (us_east_2, 4032 # 1000); (us_gov_east_1, 4832 # 1000); (us_gov_west_1, 4832 # 1000);
      (us_west_1, 448 # 100); (us_west_2, 4032 # 1000)]
     "current" "HVM" true [].

Definition m4_xlarge : Type_ :=
  mkType "m4.xlarge" true (9375 # 100) 4 (16 # 1)
     [(ap_northeast_1, 258 # 1000); (ap_northeast_2, 246 # 1000); (ap_northeast_3, 258 # 1000);
      (ap_south_1, 21 # 100); (ap_southeast_1, 25 # 100); (ap_southeast_2, 25 # 100);
      (ca_central_1, 222 # 1000); (eu_central_1, 24 # 100); (eu_west_1, 222 # 1000);
      (eu_west_2, 232 # 1000); (sa_east_1, 318 # 1000); (us_east_1, 2 # 10);
      (us_east_2, 2 # 10); (us_gov_west_1, 252 # 1000); (us_west_1, 234 # 1000);
      (us_west_2, 2 # 10)]
     "current" "HVM" false [(intel_avx, true); (intel_avx2, true)].

Definition r5a_4xlarge : Type_ :=
  mkType "r5a.4xlarge" true (265 # 1) 16 (128 # 1)
     [(ap_northeast_1, 1096 # 1000); (ap_southeast_1, 1088 # 1000);
      (ap_southeast_2, 1088 # 1000); (ca_central_1, 992 # 1000); (eu_central_1, 1096 # 1000);
      (eu_west_1, 1016 # 1000); (eu_west_3, 1064 # 1000); (us_east_1, 904 # 1000);
      (us_east_2, 904 # 1000); (us_gov_east_1, 1088 # 1000); (us_gov_west_1, 1088 # 1000);
      (us_west_1, 1008 # 1000); (us_west_2, 904 # 1000)]
     "current" "HVM" true [].

Definition t3_xlarge : Type_ :=
  mkType "t3.xlarge" true (256 # 1) 4 (16 # 1)
     [(ap_east_1, 2336 # 10000); (ap_northeast_1, 2176 # 10000); (ap_northeast_2, 208 # 1000);
      (ap_northeast_3, 2176 # 10000); (ap_south_1, 1792 # 10000);
      (ap_southeast_1, 2112 # 10000); (ap_southeast_2, 2112 # 10000);
      (ca_central_1, 1856 # 10000); (eu_central_1, 192 # 1000); (eu_north_1, 1728 # 10000);
      (eu_west_1, 1824 # 10000); (eu_west_2, 1888 # 10000); (eu_west_3, 1888 # 10000);
      (me_south_1, 2006 # 10000); (sa_east_1, 2688 # 10000); (us_east_1, 1664 # 10000);
      (us_east_2, 1664 # 10000); (us_gov_east_1, 1952 # 10000); (us_gov_west_1, 1952 # 10000);
      (us_west_1, 1984 # 10000); (us_west_2, 1664 # 10000)]
     "current" "HVM" true [].

Definition z1d_12xlarge : Type_ :=
  mkType "z1d.12xlarge" true (1750 # 1) 48 (384 # 1)
     [(ap_northeast_1, 5448 # 1000); (ap_southeast_1, 5424 # 1000);
      (ap_southeast_2, 5424 # 1000); (eu_central_1, 54 # 10); (eu_west_1, 4992 # 1000);
      (eu_west_2, 5273 # 1000); (us_east_1, 4464 # 1000); (us_west_1, 5064 # 1000);
      (us_west_2, 4464 # 1000)]
     "current" "HVM" true [].

Definition m4_16xlarge : Type_ :=
  mkType "m4.16xlarge" true (1250 # 1) 64 (256 # 1)
     [(ap_northeast_1, 4128 # 1000); (ap_northeast_2, 3936 # 1000);
      (ap_northeast_3, 4128 # 1000); (ap_south_1, 336 # 100); (ap_southeast_1, 4 # 1);
      (ap_southeast_2, 4 # 1); (ca_central_1, 3552 # 1000); (eu_central_1, 384 # 100);
      (eu_west_1, 3552 # 1000); (eu_west_2, 3712 # 1000); (sa_east_1, 5088 # 1000);
      (us_east_1, 32 # 10); (us_east_2, 32 # 10); (us_gov_west_1, 4032 # 1000);
      (us_west_1, 3744 # 1000); (us_west_2, 32 # 10)]
     "current" "HVM" false [(intel_avx, true); (intel_avx2, true)].

Definition r5_12xlarge : Type_ :=
  mkType "r5.12xlarge" true (875 # 1) 48 (384 # 1)
     [(ap_east_1, 4008 # 1000); (ap_northeast_1, 3648 # 1000); (ap_northeast_2, 3648 # 1000);
      (ap_northeast_3, 3648 # 1000); (ap_south_1, 312 # 100); (ap_southeast_1, 3648 # 1000);
      (ap_southeast_2, 3624 # 1000); (ca_central_1, 3312 # 1000); (eu_central_1, 3648 # 1000);
      (eu_north_1, 3216 # 1000); (eu_west_1, 3384 # 1000); (eu_west_2, 3552 # 1000);
      (eu_west_3, 3552 # 1000); (me_south_1, 3722 # 1000); (us_east_1, 3024 # 1000);
      (us_east_2, 3024 # 1000); (us_gov_east_1, 3624 # 1000); (us_gov_west_1, 3624 # 1000);
      (us_west_1, 336 # 100); (us_west_2, 3024 # 1000)]
     "current" "HVM" true [].

Definition m4_4xlarge : Type_ :=
  mkType "m4.4xlarge" true (250 # 1) 16 (64 # 1)
     [(ap_northeast_1, 1032 # 1000); (ap_northeast_2, 984 # 1000);
      (ap_northeast_3, 1032 # 1000); (ap_south_1, 84 # 100); (ap_southeast_1, 1 # 1);
      (ap_southeast_2, 1 # 1); (ca_central_1, 888 # 1000); (eu_central_1, 96 # 100);
      (eu_west_1, 888 # 1000); (eu_west_2, 928 # 1000); (sa_east_1, 1272 # 1000);
      (us_east_1, 8 # 10); (us_east_2, 8 # 10); (us_gov_west_1, 1008 # 1000);
      (us_west_1, 936 # 1000); (us_west_2, 8 # 10)]
     "current" "HVM" false [(intel_avx, true); (intel_avx2, true)].

Definition r4_xlarge : Type_ :=
  mkType "r4.xlarge" true (10625 # 100) 4 (305 # 10)
     [(ap_northeast_1, 32 # 100); (ap_northeast_2, 32 # 100); (ap_northeast_3, 32 # 100);
      (ap_south_1, 274 # 1000); (ap_southeast_1, 32 # 100); (ap_southeast_2, 3192 # 10000);
      (ca_central_1, 292 # 1000); (eu_central_1, 3201 # 10000); (eu_west_1, 2964 # 10000);
      (eu_west_2, 312 # 1000); (eu_west_3, 312 # 1000); (sa_east_1, 56 # 100);
      (us_east_1, 266 # 1000); (us_east_2, 266 # 1000); (us_gov_west_1, 3192 # 10000);
      (us_west_1, 2964 # 10000); (us_west_2, 266 # 1000)]
     "current" "HVM" false [(intel_avx, true); (intel_avx2, true)].

Definition z1d_6xlarge : Type_ :=
  mkType "z1d.6xlarge" true (875 # 1) 24 (192 # 1)
     [(ap_northeast_1, 2724 # 1000); (ap_southeast_1, 2712 # 1000);
      (ap_southeast_2, 2712 # 1000); (eu_central_1, 27 # 10); (eu_west_1, 2496 # 1000);
      (eu_west_2, 2636 # 1000); (us_east_1, 2232 # 1000); (us_west_1, 2532 # 1000);
      (us_west_2, 2232 # 1000)]
     "current" "HVM" true [].

Definition r5d_4xlarge : Type_ :=
  mkType "r5d.4xlarge" true (4375 # 10) 16 (128 # 1)
     [(ap_east_1, 14 # 10); (ap_northeast_1, 1392 # 1000); (ap_northeast_2, 1384 # 1000);
      (ap_northeast_3, 1392 # 1000); (ap_south_1, 1208 # 1000); (ap_southeast_1, 1392 # 1000);
      (ap_southeast_2, 1392 # 1000); (ca_central_1, 1264 # 1000); (eu_central_1, 1384 # 1000);
      (eu_north_1, 1216 # 1000); (eu_west_1, 128 # 100); (eu_west_2, 1352 # 1000);
      (eu_west_3, 1352 # 1000); (me_south_1, 1408 # 1000); (us_east_1, 1152 # 1000);
      (us_east_2, 1152 # 1000); (us_gov_east_1, 1384 # 1000); (us_gov_west_1, 1384 # 1000);
      (us_west_1, 1296 # 1000); (us_west_2, 1152 # 1000)]
     "current" "HVM" true [].

Definition r5a_16xlarge : Type_ :=
  mkType "r5a.16xlarge" true (875 # 1) 64 (512 # 1)
     [(ap_northeast_1, 4384 # 1000); (ap_southeast_1, 4352 # 1000);
      (ap_southeast_2, 4352 # 1000); (ca_central_1, 3968 # 1000); (eu_central_1, 4384 # 1000);
      (eu_west_1, 4064 # 1000); (eu_west_3, 4256 # 1000); (us_east_1, 3616 # 1000);
      (us_east_2, 3616 # 1000); (us_gov_east_1, 4352 # 1000); (us_gov_west_1, 4352 # 1000);
      (us_west_1, 4032 # 1000); (us_west_2, 3616 # 1000)]
     "current" "HVM" true [].

Definition p2_xlarge : Type_ :=
  mkType "p2.xlarge" true (9375 # 100) 4 (61 # 1)
     [(ap_northeast_1, 1542 # 1000); (ap_northeast_2, 1465 # 1000); (ap_south_1, 1718 # 1000);
      (ap_southeast_1, 1718 # 1000); (ap_southeast_2, 1542 # 1000);
      (eu_central_1, 1326 # 1000); (eu_west_1, 972 # 1000); (us_east_1, 9 # 10);
      (us_east_2, 9 # 10); (us_gov_west_1, 108 # 100); (us_west_2, 9 # 10)]
     "current" "HVM" false [(intel_avx, true); (intel_avx2, true)].

Definition c3_4xlarge : Type_ :=
  mkType "c3.4xlarge" false (250 # 1) 16 (30 # 1)
     [(ap_northeast_1, 1021 # 1000); (ap_northeast_2, 919 # 1000);
      (ap_southeast_1, 1058 # 1000); (ap_southeast_2, 1058 # 1000);
      (eu_central_1, 1032 # 1000); (eu_west_1, 956 # 1000); (sa_east_1, 13 # 10);
      (us_east_1, 84 # 100); (us_gov_west_1, 1008 # 1000); (us_west_1, 956 # 1000);
      (us_west_2, 84 # 100)]
     "previous" "HVM" false [(intel_avx, true)].

Definition r4_4xlarge : Type_ :=
  mkType "r4.4xlarge" true (4375 # 10) 16 (122 # 1)
     [(ap_northeast_1, 128 # 100); (ap_northeast_2, 128 # 100); (ap_northeast_3, 128 # 100);
      (ap_south_1, 1096 # 1000); (ap_southeast_1, 128 # 100); (ap_southeast_2, 12768 # 10000);
      (ca_central_1, 1168 # 1000); (eu_central_1, 12804 # 10000); (eu_west_1, 11856 # 10000);
      (eu_west_2, 1248 # 1000); (eu_west_3, 1248 # 1000); (sa_east_1, 224 # 100);
      (us_east_1, 1064 # 1000); (us_east_2, 1064 # 1000); (us_gov_west_1, 12768 # 10000);
      (us_west_1, 11856 # 10000); (us_west_2, 1064 # 1000)]
     "current" "HVM" false [(intel_avx, true); (intel_avx2, true)].

Definition r5a_xlarge : Type_ :=
  mkType "r5a.xlarge" true (265 # 1) 4 (32 # 1)
     [(ap_northeast_1, 274 # 1000); (ap_southeast_1, 272 # 1000); (ap_southeast_2, 272 # 1000);
      (ca_central_1, 248 # 1000); (eu_central_1, 274 # 1000); (eu_west_1, 254 # 1000);
      (eu_west_3, 266 # 1000); (us_east_1, 226 # 1000); (us_east_2, 226 # 1000);
      (us_gov_east_1, 272 # 1000); (us_gov_west_1, 272 # 1000); (us_west_1, 252 # 1000);
      (us_west_2, 226 # 1000)]
     "current" "HVM" true [].

Definition h1_2xlarge : Type_ :=
  mkType "h1.2xlarge" true (21875 # 100) 8 (32 # 1)
     [(eu_west_1, 519 # 1000); (us_east_1, 468 # 1000); (us_east_2, 468 # 1000);
      (us_west_2, 468 # 1000)]
     "current" "HVM" false [(intel_avx, true); (intel_avx2, true)].

Definition m5ad_24xlarge : Type_ :=
  mkType "m5ad.24xlarge" true (1250 # 1) 96 (384 # 1)
     [(ap_southeast_1, 6192 # 1000); (ap_southeast_2, 624 # 100); (ca_central_1, 552 # 100);
      (us_east_1, 4944 # 1000); (us_east_2, 4944 # 1000); (us_gov_west_1, 6288 # 1000);
      (us_west_2, 4944 # 1000)]
     "current" "HVM" true [].

Definition f1_4xlarge : Type_ :=
  mkType "f1.4xlarge" true (400 # 1) 16 (244 # 1)
     [(eu_west_1, 363 # 100); (us_east_1, 33 # 10); (us_gov_west_1, 396 # 100);
      (us_west_1, 3826 # 1000); (us_west_2, 33 # 10)]
     "current" "HVM" false [].

Definition i3en_xlarge : Type_ :=
  mkType "i3en.xlarge" true (4375 # 10) 4 (32 # 1)
     [(ap_northeast_1, 532 # 1000); (ap_northeast_2, 532 # 1000); (ap_southeast_1, 542 # 1000);
      (ap_southeast_2, 542 # 1000); (eu_central_1, 54 # 100); (eu_west_1, 5 # 10);
      (eu_west_2, 526 # 1000); (us_east_1, 452 # 1000); (us_east_2, 452 # 1000);
      (us_gov_east_1, 546 # 1000); (us_gov_west_1, 546 # 1000); (us_west_1, 5 # 10);
      (us_west_2, 452 # 1000)]
     "current" "HVM" true [].

Definition r5a_12xlarge : Type_ :=
  mkType "r5a.12xlarge" true (625 # 1) 48 (384 # 1)
     [(ap_northeast_1, 3288 # 1000); (ap_southeast_1, 3264 # 1000);
      (ap_southeast_2, 3264 # 1000); (ca_central_1, 2976 # 1000); (eu_central_1, 3288 # 1000);
      (eu_west_1, 3048 # 1000); (eu_west_3, 3192 # 1000); (us_east_1, 2712 # 1000);
      (us_east_2, 2712 # 1000); (us_gov_east_1, 3264 # 1000); (us_gov_west_1, 3264 # 1000);
      (us_west_1, 3024 # 1000); (us_west_2, 2712 # 1000)]
     "current" "HVM" true [].

Definition r5ad_24xlarge : Type_ :=
  mkType "r5ad.24xlarge" true (1250 # 1) 96 (768 # 1)
     [(ap_southeast_1, 7632 # 1000); (ap_southeast_2, 7632 # 1000);
      (ca_central_1, 6912 # 1000); (us_east_1, 6288 # 1000); (us_east_2, 6288 # 1000);
      (us_gov_west_1, 7584 # 1000); (us_west_2, 6288 # 1000)]
     "current" "HVM" true [].

Definition g2_2xlarge : Type_ :=
  mkType "g2.2xlarge" false (125 # 1) 8 (15 # 1)
     [(ap_northeast_1, 898 # 1000); (ap_northeast_2, 898 # 1000); (ap_southeast_1, 1 # 1);
      (ap_southeast_2, 898 # 1000); (eu_central_1, 772 # 1000); (eu_west_1, 702 # 1000);
      (us_east_1, 65 # 100); (us_west_1, 702 # 1000); (us_west_2, 65 # 100)]
     "previous" "HVM" false [(intel_avx, true)].

Definition c4_2xlarge : Type_ :=
  mkType "c4.2xlarge" true (125 # 1) 8 (15 # 1)
     [(ap_northeast_1, 504 # 1000); (ap_northeast_2, 454 # 1000); (ap_northeast_3, 504 # 1000);
      (ap_south_1, 4 # 10); (ap_southeast_1, 462 # 1000); (ap_southeast_2, 522 # 1000);
      (ca_central_1, 438 # 1000); (eu_central_1, 454 # 1000); (eu_west_1, 453 # 1000);
      (eu_west_2, 476 # 1000); (sa_east_1, 618 # 1000); (us_east_1, 398 # 1000);
      (us_east_2, 398 # 1000); (us_gov_west_1, 479 # 1000); (us_west_1, 498 # 1000);
      (us_west_2, 398 # 1000)]
     "current" "HVM" false [(intel_avx, true); (intel_avx2, true)].

Definition x1e_8xlarge : Type_ :=
  mkType "x1e.8xlarge" true (4375 # 10) 32 (976 # 1)
     [(ap_northeast_1, 9672 # 1000); (ap_northeast_2, 9672 # 1000);
      (ap_southeast_1, 9672 # 1000); (ap_southeast_2, 9672 # 1000);
      (eu_central_1, 9336 # 1000); (eu_west_1, 8 # 1); (us_east_1, 6672 # 1000);
      (us_east_2, 6672 # 1000); (us_gov_east_1, 8 # 1); (us_gov_west_1, 8 # 1);
      (us_west_2, 6672 # 1000)]
     "current" "HVM" false [(intel_avx, true); (intel_avx2, true)].

Definition m5_4xlarge : Type_ :=
  mkType "m5.4xlarge" true (4375 # 10) 16 (64 # 1)
     [(ap_east_1, 1056 # 1000); (ap_northeast_1, 992 # 1000); (ap_northeast_2, 944 # 1000);
      (ap_northeast_3, 992 # 1000); (ap_south_1, 808 # 1000); (ap_southeast_1, 96 # 100);
      (ap_southeast_2, 96 # 100); (ca_central_1, 856 # 1000); (eu_central_1, 92 # 100);
      (eu_north_1, 816 # 1000); (eu_west_1, 856 # 1000); (eu_west_2, 888 # 1000);
      (eu_west_3, 896 # 1000); (me_south_1, 942 # 1000); (sa_east_1, 1224 # 1000);
      (us_east_1, 768 # 1000); (us_east_2, 768 # 1000); (us_gov_east_1, 968 # 1000);
      (us_gov_west_1, 968 # 1000); (us_west_1, 896 # 1000); (us_west_2, 768 # 1000)]
     "current" "HVM" true [(intel_avx, true); (intel_avx2, true); (intel_avx512, true)].

Definition h1_16xlarge : Type_ :=
  mkType "h1.16xlarge" true (1750 # 1) 64 (256 # 1)
     [(eu_west_1, 4152 # 1000); (us_east_1, 3744 # 1000); (us_east_2, 3744 # 1000);
      (us_west_2, 3744 # 1000)]
     "current" "HVM" false [(intel_avx, true); (intel_avx2, true)].

Definition z1d_xlarge : Type_ :=
  mkType "z1d.xlarge" true (291 # 1) 4 (32 # 1)
     [(ap_northeast_1, 454 # 1000); (ap_southeast_1, 452 # 1000); (ap_southeast_2, 452 # 1000);
      (eu_central_1, 45 # 100); (eu_west_1, 416 # 1000); (eu_west_2, 439 # 1000);
      (us_east_1, 372 # 1000); (us_west_1, 422 # 1000); (us_west_2, 372 # 1000)]
     "current" "HVM" true [].

Definition r5d_8xlarge : Type_ :=
  mkType "r5d.8xlarge" true (625 # 1) 32 (256 # 1)
     [(ap_east_1, 28 # 10); (ap_northeast_1, 2784 # 1000); (ap_northeast_2, 2768 # 1000);
      (ap_northeast_3, 2784 # 1000); (ap_south_1, 2416 # 1000); (ap_southeast_1, 2784 # 1000);
      (ap_southeast_2, 2784 # 1000); (ca_central_1, 2528 # 1000); (eu_central_1, 2768 # 1000);
      (eu_north_1, 2432 # 1000); (eu_west_1, 256 # 100); (eu_west_2, 2704 # 1000);
      (eu_west_3, 2704 # 1000); (me_south_1, 2816 # 1000); (us_east_1, 2304 # 1000);
      (us_east_2, 2304 # 1000); (us_gov_east_1, 2768 # 1000); (us_gov_west_1, 2768 # 1000);
      (us_west_1, 2592 # 1000); (us_west_2, 2304 # 1000)]
     "current" "HVM" true [].

Definition t3_2xlarge : Type_ :=
  mkType "t3.2xlarge" true (256 # 1) 8 (32 # 1)
     [(ap_east_1, 4672 # 10000); (ap_northeast_1, 4352 # 10000); (ap_northeast_2, 416 # 1000);
      (ap_northeast_3, 4352 # 10000); (ap_south_1, 3584 # 10000);
      (ap_southeast_1, 4224 # 10000); (ap_southeast_2, 4224 # 10000);
      (ca_central_1, 3712 # 10000); (eu_central_1, 384 # 1000); (eu_north_1, 3456 # 10000);
      (eu_west_1, 3648 # 10000); (eu_west_2, 3776 # 10000); (eu_west_3, 3776 # 10000);
      (me_south_1, 4013 # 10000); (sa_east_1, 5376 # 10000); (us_east_1, 3328 # 10000);
      (us_east_2, 3328 # 10000); (us_gov_east_1, 3904 # 10000); (us_gov_west_1, 3904 # 10000);
      (us_west_1, 3968 # 10000); (us_west_2, 3328 # 10000)]
     "current" "HVM" true [].

Definition g3_8xlarge : Type_ :=
  mkType "g3.8xlarge" true (875 # 1) 32 (244 # 1)
     [(ap_northeast_1, 316 # 100); (ap_northeast_2, 284 # 100); (ap_southeast_1, 334 # 100);
      (ap_southeast_2, 3508 # 1000); (ca_central_1, 2832 # 1000); (eu_central_1, 285 # 100);
      (eu_west_1, 242 # 100); (eu_west_2, 2858 # 1000); (us_east_1, 228 # 100);
      (us_east_2, 228 # 100); (us_gov_west_1, 264 # 100); (us_west_1, 3068 # 1000);
      (us_west_2, 228 # 100)]
     "current" "HVM" false [(intel_avx, true); (intel_avx2, true)].

Definition m5d_8xlarge : Type_ :=
  mkType "m5d.8xlarge" true (625 # 1) 32 (128 # 1)
     [(ap_east_1, 248 # 100); (ap_northeast_1, 2336 # 1000); (ap_northeast_2, 2224 # 1000);
      (ap_northeast_3, 2336 # 1000); (ap_south_1, 1952 # 1000); (ap_southeast_1, 2256 # 1000);
      (ap_southeast_2, 2272 # 1000); (ca_central_1, 2016 # 1000); (eu_central_1, 2176 # 1000);
      (eu_north_1, 192 # 100); (eu_west_1, 2016 # 1000); (eu_west_2, 2096 # 1000);
      (eu_west_3, 2112 # 1000); (me_south_1, 2218 # 1000); (us_east_1, 1808 # 1000);
      (us_east_2, 1808 # 1000); (us_gov_east_1, 2288 # 1000); (us_gov_west_1, 2288 # 1000);
      (us_west_1, 2128 # 1000); (us_west_2, 1808 # 1000)]
     "current" "HVM" true [(intel_avx, true); (intel_avx2, true)].

Definition m5_16xlarge : Type_ :=
  mkType "m5.16xlarge" true (1250 # 1) 64 (256 # 1)
     [(ap_east_1, 4224 # 1000); (ap_northeast_1, 3968 # 1000); (ap_northeast_2, 3776 # 1000);
      (ap_northeast_3, 3968 # 1000); (ap_south_1, 3232 # 1000); (ap_southeast_1, 384 # 100);
      (ap_southeast_2, 384 # 100); (ca_central_1, 3424 # 1000); (eu_central_1, 368 # 100);
      (eu_north_1, 3264 # 1000); (eu_west_1, 3424 # 1000); (eu_west_2, 3552 # 1000);
      (eu_west_3, 3584 # 1000); (me_south_1, 3766 # 1000); (sa_east_1, 4896 # 1000);
      (us_east_1, 3072 # 1000); (us_east_2, 3072 # 1000); (us_gov_east_1, 3872 # 1000);
      (us_gov_west_1, 3872 # 1000); (us_west_1, 3584 # 1000); (us_west_2, 3072 # 1000)]
     "current" "HVM" true [(intel_avx, true); (intel_avx2, true); (intel_avx512, true)].

Definition m4_2xlarge : Type_ :=
  mkType "m4.2xlarge" true (125 # 1) 8 (32 # 1)
     [(ap_northeast_1, 516 # 1000); (ap_northeast_2, 492 # 1000); (ap_northeast_3, 516 # 1000);
      (ap_south_1, 42 # 100); (ap_southeast_1, 5 # 10); (ap_southeast_2, 5 # 10);
      (ca_central_1, 444 # 1000); (eu_central_1, 48 # 100); (eu_west_1, 444 # 1000);
      (eu_west_2, 464 # 1000); (sa_east_1, 636 # 1000); (us_east_1, 4 # 10);
      (us_east_2, 4 # 10); (us_gov_west_1, 504 # 1000); (us_west_1, 468 # 1000);
      (us_west_2, 4 # 10)]
     "current" "HVM" false [(intel_avx, true); (intel_avx2, true)].

Definition r5ad_large : Type_ :=
  mkType "r5ad.large" true (265 # 1) 2 (16 # 1)
     [(ap_southeast_1, 159 # 1000); (ap_southeast_2, 159 # 1000); (ca_central_1, 144 # 1000);
      (us_east_1, 131 # 1000); (us_east_2, 131 # 1000); (us_gov_west_1, 158 # 1000);
      (us_west_2, 131 # 1000)]
     "current" "HVM" true [].

Definition r5_4xlarge : Type_ :=
  mkType "r5.4xlarge" true (4375 # 10) 16 (128 # 1)
     [(ap_east_1, 1336 # 1000); (ap_northeast_1, 1216 # 1000); (ap_northeast_2, 1216 # 1000);
      (ap_northeast_3, 1216 # 1000); (ap_south_1, 104 # 100); (ap_southeast_1, 1216 # 1000);
      (ap_southeast_2, 1208 # 1000); (ca_central_1, 1104 # 1000); (eu_central_1, 1216 # 1000);
      (eu_north_1, 1072 # 1000); (eu_west_1, 1128 # 1000); (eu_west_2, 1184 # 1000);
      (eu_west_3, 1184 # 1000); (me_south_1, 1241 # 1000); (us_east_1, 1008 # 1000);
      (us_east_2, 1008 # 1000); (us_gov_east_1, 1208 # 1000); (us_gov_west_1, 1208 # 1000);
      (us_west_1, 112 # 100); (us_west_2, 1008 # 1000)]
     "current" "HVM" true [].

Definition r5d_2xlarge : Type_ :=
  mkType "r5d.2xlarge" true (4375 # 10) 8 (64 # 1)
     [(ap_east_1, 7 # 10); (ap_northeast_1, 696 # 1000); (ap_northeast_2, 692 # 1000);
      (ap_northeast_3, 696 # 1000); (ap_south_1, 604 # 1000); (ap_southeast_1, 696 # 1000);
      (ap_southeast_2, 696 # 1000); (ca_central_1, 632 # 1000); (eu_central_1, 692 # 1000);
      (eu_north_1, 608 # 1000); (eu_west_1, 64 # 100); (eu_west_2, 676 # 1000);
      (eu_west_3, 676 # 1000); (me_south_1, 704 # 1000); (us_east_1, 576 # 1000);
      (us_east_2, 576 # 1000); (us_gov_east_1, 692 # 1000); (us_gov_west_1, 692 # 1000);
      (us_west_1, 648 # 1000); (us_west_2, 576 # 1000)]
     "current" "HVM" true [].

Definition r5_large : Type_ :=
  mkType "r5.large" true (4375 # 10) 2 (16 # 1)
     [(ap_east_1, 167 # 1000); (ap_northeast_1, 152 # 1000); (ap_northeast_2, 152 # 1000);
      (ap_northeast_3, 152 # 1000); (ap_south_1, 13 # 100); (ap_southeast_1, 152 # 1000);
      (ap_southeast_2, 151 # 1000); (ca_central_1, 138 # 1000); (eu_central_1, 152 # 1000);
      (eu_north_1, 134 # 1000); (eu_west_1, 141 # 1000); (eu_west_2, 148 # 1000);
      (eu_west_3, 148 # 1000); (me_south_1, 155 # 1000); (us_east_1, 126 # 1000);
      (us_east_2, 126 # 1000); (us_gov_east_1, 151 # 1000); (us_gov_west_1, 151 # 1000);
      (us_west_1, 14 # 100); (us_west_2, 126 # 1000)]
     "current" "HVM" true [].

Definition i3_large : Type_ :=
  mkType "i3.large" true (5313 # 100) 2 (1525 # 100)
     [(ap_east_1, 206 # 1000); (ap_northeast_1, 183 # 1000); (ap_northeast_2, 183 # 1000);
      (ap_northeast_3, 183 # 1000); (ap_south_1, 177 # 1000); (ap_southeast_1, 187 # 1000);
      (ap_southeast_2, 187 # 1000); (ca_central_1, 172 # 1000); (eu_central_1, 186 # 1000);
      (eu_north_1, 163 # 1000); (eu_west_1, 172 # 1000); (eu_west_2, 181 # 1000);
      (eu_west_3, 181 # 1000); (me_south_1, 189 # 1000); (sa_east_1, 286 # 1000);
      (us_east_1, 156 # 1000); (us_east_2, 156 # 1000); (us_gov_east_1, 188 # 1000);
      (us_gov_west_1, 188 # 1000); (us_west_1, 172 # 1000); (us_west_2, 156 # 1000)]
     "current" "HVM" false [(intel_avx, true); (intel_avx2, true)].

Definition z1d_large : Type_ :=
  mkType "z1d.large" true (291 # 1) 2 (16 # 1)
     [(ap_northeast_1, 227 # 1000); (ap_southeast_1, 226 # 1000); (ap_southeast_2, 226 # 1000);
      (eu_central_1, 225 # 1000); (eu_west_1, 208 # 1000); (eu_west_2, 22 # 100);
      (us_east_1, 186 # 1000); (us_west_1, 211 # 1000); (us_west_2, 186 # 1000)]
     "current" "HVM" true [].

Definition i3_16xlarge : Type_ :=
  mkType "i3.16xlarge" true (1750 # 1) 64 (488 # 1)
     [(ap_east_1, 6592 # 1000); (ap_northeast_1, 5856 # 1000); (ap_northeast_2, 5856 # 1000);
      (ap_northeast_3, 5856 # 1000); (ap_south_1, 5664 # 1000); (ap_southeast_1, 5984 # 1000);
      (ap_southeast_2, 5984 # 1000); (ca_central_1, 5504 # 1000); (eu_central_1, 5952 # 1000);
      (eu_north_1, 5216 # 1000); (eu_west_1, 5504 # 1000); (eu_west_2, 5792 # 1000);
      (eu_west_3, 5792 # 1000); (me_south_1, 6054 # 1000); (sa_east_1, 9152 # 1000);
      (us_east_1, 4992 # 1000); (us_east_2, 4992 # 1000); (us_gov_east_1, 6016 # 1000);
      (us_gov_west_1, 6016 # 1000); (us_west_1, 5504 # 1000); (us_west_2, 4992 # 1000)]
     "current" "HVM" false [(intel_avx, true); (intel_avx2, true)].

Definition m5ad_12xlarge : Type_ :=
  mkType "m5ad.12xlarge" true (675 # 1) 48 (192 # 1)
     [(ap_southeast_1, 3096 # 1000); (ap_southeast_2, 312 # 100); (ca_central_1, 276 # 100);
      (us_east_1, 2472 # 1000); (us_east_2, 2472 # 1000); (us_gov_west_1, 3144 # 1000);
      (us_west_2, 2472 # 1000)]
     "current" "HVM" true [].

Definition i3en_large : Type_ :=
  mkType "i3en.large" true (4375 # 10) 2 (16 # 1)
     [(ap_northeast_1, 266 # 1000); (ap_northeast_2, 266 # 1000); (ap_southeast_1, 271 # 1000);
      (ap_southeast_2, 271 # 1000); (eu_central_1, 27 # 100); (eu_west_1, 25 # 100);
      (eu_west_2, 263 # 1000); (us_east_1, 226 # 1000); (us_east_2, 226 # 1000);
      (us_gov_east_1, 273 # 1000); (us_gov_west_1, 273 # 1000); (us_west_1, 25 # 100);
      (us_west_2, 226 # 1000)]
     "current" "HVM" true [].

Definition i2_4xlarge : Type_ :=
  mkType "i2.4xlarge" false (250 # 1) 16 (122 # 1)
     [(ap_northeast_1, 4002 # 1000); (ap_northeast_2, 4002 # 1000); (ap_south_1, 3867 # 1000);
      (ap_southeast_1, 407 # 100); (ap_southeast_2, 407 # 100); (eu_central_1, 4051 # 1000);
      (eu_west_1, 3751 # 1000); (us_east_1, 341 # 100); (us_east_2, 341 # 100);
      (us_gov_west_1, 4092 # 1000); (us_west_1, 3751 # 1000); (us_west_2, 341 # 100)]
     "previous" "HVM" false [(intel_avx, true)].

Definition c5d_9xlarge : Type_ :=
  mkType "c5d.9xlarge" true (875 # 1) 36 (72 # 1)
     [(ap_east_1, 2214 # 1000); (ap_northeast_1, 2196 # 1000); (ap_northeast_2, 198 # 100);
      (ap_northeast_3, 2196 # 1000); (ap_south_1, 1782 # 1000); (ap_southeast_1, 2016 # 1000);
      (ap_southeast_2, 2268 # 1000); (ca_central_1, 1908 # 1000); (eu_central_1, 1998 # 1000);
      (eu_north_1, 1872 # 1000); (eu_west_1, 1962 # 1000); (eu_west_2, 207 # 100);
      (eu_west_3, 207 # 100); (me_south_1, 2158 # 1000); (us_east_1, 1728 # 1000);
      (us_east_2, 1728 # 1000); (us_gov_east_1, 2088 # 1000); (us_gov_west_1, 2088 # 1000);
      (us_west_1, 216 # 100); (us_west_2, 1728 # 1000)]
     "current" "HVM" true [(intel_avx, true); (intel_avx2, true)].

Definition r5_xlarge : Type_ :=
  mkType "r5.xlarge" true (4375 # 10) 4 (32 # 1)
     [(ap_east_1, 334 # 1000); (ap_northeast_1, 304 # 1000); (ap_northeast_2, 304 # 1000);
      (ap_northeast_3, 304 # 1000); (ap_south_1, 26 # 100); (ap_southeast_1, 304 # 1000);
      (ap_southeast_2, 302 # 1000); (ca_central_1, 276 # 1000); (eu_central_1, 304 # 1000);
      (eu_north_1, 268 # 1000); (eu_west_1, 282 # 1000); (eu_west_2, 296 # 1000);
      (eu_west_3, 296 # 1000); (me_south_1, 31 # 100); (us_east_1, 252 # 1000);
      (us_east_2, 252 # 1000); (us_gov_east_1, 302 # 1000); (us_gov_west_1, 302 # 1000);
      (us_west_1, 28 # 100); (us_west_2, 252 # 1000)]
     "current" "HVM" true [].

Definition i3_2xlarge : Type_ :=
  mkType "i3.2xlarge" true (2125 # 10) 8 (61 # 1)
     [(ap_east_1, 824 # 1000); (ap_northeast_1, 732 # 1000); (ap_northeast_2, 732 # 1000);
      (ap_northeast_3, 732 # 1000); (ap_south_1, 708 # 1000); (ap_southeast_1, 748 # 1000);
      (ap_southeast_2, 748 # 1000); (ca_central_1, 688 # 1000); (eu_central_1, 744 # 1000);
      (eu_north_1, 652 # 1000); (eu_west_1, 688 # 1000); (eu_west_2, 724 # 1000);
      (eu_west_3, 724 # 1000); (me_south_1, 757 # 1000); (sa_east_1, 1144 # 1000);
      (us_east_1, 624 # 1000); (us_east_2, 624 # 1000); (us_gov_east_1, 752 # 1000);
      (us_gov_west_1, 752 # 1000); (us_west_1, 688 # 1000); (us_west_2, 624 # 1000)]
     "current" "HVM" false [(intel_avx, true); (intel_avx2, true)].

Definition r5d_large : Type_ :=
  mkType "r5d.large" true (4375 # 10) 2 (16 # 1)
     [(ap_east_1, 175 # 1000); (ap_northeast_1, 174 # 1000); (ap_northeast_2, 173 # 1000);
      (ap_northeast_3, 174 # 1000); (ap_south_1, 151 # 1000); (ap_southeast_1, 174 # 1000);
      (ap_southeast_2, 174 # 1000); (ca_central_1, 158 # 1000); (eu_central_1, 173 # 1000);
      (eu_north_1, 152 # 1000); (eu_west_1, 16 # 100); (eu_west_2, 169 # 1000);
      (eu_west_3, 169 # 1000); (me_south_1, 176 # 1000); (us_east_1, 144 # 1000);
      (us_east_2, 144 # 1000); (us_gov_east_1, 173 # 1000); (us_gov_west_1, 173 # 1000);
      (us_west_1, 162 # 1000); (us_west_2, 144 # 1000)]
     "current" "HVM" true [].

Definition g3_4xlarge : Type_ :=
  mkType "g3.4xlarge" true (4375 # 10) 16 (122 # 1)
     [(ap_northeast_1, 158 # 100); (ap_northeast_2, 142 # 100); (ap_southeast_1, 167 # 100);
      (ap_southeast_2, 1754 # 1000); (ca_central_1, 1416 # 1000); (eu_central_1, 1425 # 1000);
      (eu_west_1, 121 # 100); (eu_west_2, 1429 # 1000); (us_east_1, 114 # 100);
      (us_east_2, 114 # 100); (us_gov_west_1, 132 # 100); (us_west_1, 1534 # 1000);
      (us_west_2, 114 # 100)]
     "current" "HVM" false [(intel_avx, true); (intel_avx2, true)].

Definition r5d_12xlarge : Type_ :=
  mkType "r5d.12xlarge" true (875 # 1) 48 (384 # 1)
     [(ap_east_1, 42 # 10); (ap_northeast_1, 4176 # 1000); (ap_northeast_2, 4152 # 1000);
      (ap_northeast_3, 4176 # 1000); (ap_south_1, 3624 # 1000); (ap_southeast_1, 4176 # 1000);
      (ap_southeast_2, 4176 # 1000); (ca_central_1, 3792 # 1000); (eu_central_1, 4152 # 1000);
      (eu_north_1, 3648 # 1000); (eu_west_1, 384 # 100); (eu_west_2, 4056 # 1000);
      (eu_west_3, 4056 # 1000); (me_south_1, 4224 # 1000); (us_east_1, 3456 # 1000);
      (us_east_2, 3456 # 1000); (us_gov_east_1, 4152 # 1000); (us_gov_west_1, 4152 # 1000);
      (us_west_1, 3888 # 1000); (us_west_2, 3456 # 1000)]
     "current" "HVM" true [].

Definition g2_8xlarge : Type_ :=
  mkType "g2.8xlarge" false (0 # 1) 32 (60 # 1)
     [(ap_northeast_1, 3592 # 1000); (ap_northeast_2, 3592 # 1000); (ap_southeast_1, 4 # 1);
      (ap_southeast_2, 3592 # 1000); (eu_central_1, 3088 # 1000); (eu_west_1, 2808 # 1000);
      (us_east_1, 26 # 10); (us_west_1, 2808 # 1000); (us_west_2, 26 # 10)]
     "previous" "HVM" false [(intel_avx, true)].

Definition i3_4xlarge : Type_ :=
  mkType "i3.4xlarge" true (4375 # 10) 16 (122 # 1)
     [(ap_east_1, 1648 # 1000); (ap_northeast_1, 1464 # 1000); (ap_northeast_2, 1464 # 1000);
      (ap_northeast_3, 1464 # 1000); (ap_south_1, 1416 # 1000); (ap_southeast_1, 1496 # 1000);
      (ap_southeast_2, 1496 # 1000); (ca_central_1, 1376 # 1000); (eu_central_1, 1488 # 1000);
      (eu_north_1, 1304 # 1000); (eu_west_1, 1376 # 1000); (eu_west_2, 1448 # 1000);
      (eu_west_3, 1448 # 1000); (me_south_1, 1514 # 1000); (sa_east_1, 2288 # 1000);
      (us_east_1, 1248 # 1000); (us_east_2, 1248 # 1000); (us_gov_east_1, 1504 # 1000);
      (us_gov_west_1, 1504 # 1000); (us_west_1, 1376 # 1000); (us_west_2, 1248 # 1000)]
     "current" "HVM" false [(intel_avx, true); (intel_avx2, true)].

Definition c5_12xlarge : Type_ :=
  mkType "c5.12xlarge" true (875 # 1) 48 (96 # 1)
     [(ap_northeast_1, 2568 # 1000); (ap_south_1, 204 # 100); (ap_southeast_1, 2352 # 1000);
      (ap_southeast_2, 2664 # 1000); (ca_central_1, 2232 # 1000); (eu_central_1, 2328 # 1000);
      (eu_north_1, 2184 # 1000); (eu_west_1, 2304 # 1000); (eu_west_2, 2424 # 1000);
      (eu_west_3, 2424 # 1000); (me_south_1, 2534 # 1000); (us_east_1, 204 # 100);
      (us_east_2, 204 # 100); (us_gov_west_1, 2448 # 1000); (us_west_1, 2544 # 1000);
      (us_west_2, 204 # 100)]
     "current" "HVM" true [(intel_avx, true); (intel_avx2, true); (intel_avx512, true)].

Definition c5n_4xlarge : Type_ :=
  mkType "c5n.4xlarge" true (4375 # 10) 16 (42 # 1)
     [(ap_northeast_1, 1088 # 1000); (ap_northeast_2, 976 # 1000); (ap_south_1, 864 # 1000);
      (ap_southeast_1, 992 # 1000); (ap_southeast_2, 1128 # 1000); (ca_central_1, 944 # 1000);
      (eu_central_1, 984 # 1000); (eu_west_1, 976 # 1000); (us_east_1, 864 # 1000);
      (us_east_2, 864 # 1000); (us_gov_east_1, 104 # 100); (us_gov_west_1, 104 # 100);
      (us_west_1, 108 # 100); (us_west_2, 864 # 1000)]
     "current" "HVM" true [(intel_avx, true); (intel_avx2, true)].

Definition r3_4xlarge : Type_ :=
  mkType "r3.4xlarge" false (250 # 1) 16 (122 # 1)
     [(ap_northeast_1, 1596 # 1000); (ap_northeast_2, 1596 # 1000); (ap_south_1, 1516 # 1000);
      (ap_southeast_1, 1596 # 1000); (ap_southeast_2, 1596 # 1000); (eu_central_1, 16 # 10);
      (eu_west_1, 1482 # 1000); (sa_east_1, 2799 # 1000); (us_east_1, 133 # 100);
      (us_east_2, 1328 # 1000); (us_gov_west_1, 1596 # 1000); (us_west_1, 1482 # 1000);
      (us_west_2, 133 # 100)]
     "previous" "HVM" false [(intel_avx, true)].

Definition r3_8xlarge : Type_ :=
  mkType "r3.8xlarge" false (0 # 1) 32 (244 # 1)
     [(ap_northeast_1, 3192 # 1000); (ap_northeast_2, 3192 # 1000); (ap_south_1, 3032 # 1000);
      (ap_southeast_1, 3192 # 1000); (ap_southeast_2, 3192 # 1000);
      (eu_central_1, 3201 # 1000); (eu_west_1, 2964 # 1000); (sa_east_1, 5597 # 1000);
      (us_east_1, 266 # 100); (us_east_2, 2656 # 1000); (us_gov_west_1, 3192 # 1000);
      (us_west_1, 2964 # 1000); (us_west_2, 266 # 100)]
     "previous" "HVM" false [(intel_avx, true)].

Definition p3_8xlarge : Type_ :=
  mkType "p3.8xlarge" true (875 # 1) 32 (244 # 1)
     [(ap_northeast_1, 16776 # 1000); (ap_northeast_2, 16936 # 1000);
      (ap_southeast_1, 16936 # 1000); (ap_southeast_2, 16936 # 1000);
      (ca_central_1, 13464 # 1000); (eu_central_1, 15292 # 1000); (eu_west_1, 1322 # 100);
      (eu_west_2, 14356 # 1000); (us_east_1, 1224 # 100); (us_east_2, 1224 # 100);
      (us_gov_west_1, 14688 # 1000); (us_west_2, 1224 # 100)]
     "current" "HVM" false [(intel_avx, true); (intel_avx2, true)].

Definition g4dn_xlarge : Type_ :=
  mkType "g4dn.xlarge" true (4375 # 10) 4 (16 # 1)
     [(ap_northeast_1, 71 # 100); (ap_northeast_2, 647 # 1000); (eu_central_1, 658 # 1000);
      (eu_west_1, 587 # 1000); (eu_west_2, 615 # 1000); (us_east_1, 526 # 1000);
      (us_east_2, 526 # 1000); (us_west_1, 631 # 1000); (us_west_2, 526 # 1000)]
     "current" "HVM" true [].

Definition cc2_8xlarge : Type_ :=
  mkType "cc2.8xlarge" false (0 # 1) 32 (605 # 10)
     [(ap_northeast_1, 2349 # 1000); (eu_west_1, 225 # 100); (us_east_1, 2 # 1);
      (us_gov_west_1, 225 # 100); (us_west_2, 2 # 1)]
     "previous" "HVM" false [].

Definition t3a_2xlarge : Type_ :=
  mkType "t3a.2xlarge" true (256 # 1) 8 (32 # 1)
     [(ap_northeast_1, 3917 # 10000); (ap_northeast_2, 3744 # 10000);
      (ap_southeast_1, 3776 # 10000); (ap_southeast_2, 3802 # 10000);
      (ca_central_1, 3341 # 10000); (eu_central_1, 3456 # 10000); (eu_west_1, 3264 # 10000);
      (eu_west_2, 3398 # 10000); (eu_west_3, 3398 # 10000); (us_east_1, 3008 # 10000);
      (us_east_2, 3008 # 10000); (us_gov_east_1, 3514 # 10000); (us_gov_west_1, 3514 # 10000);
      (us_west_1, 3571 # 10000); (us_west_2, 3008 # 10000)]
     "current" "HVM" true [].

Definition r5d_16xlarge : Type_ :=
  mkType "r5d.16xlarge" true (1250 # 1) 64 (512 # 1)
     [(ap_east_1, 56 # 10); (ap_northeast_1, 5568 # 1000); (ap_northeast_2, 5536 # 1000);
      (ap_northeast_3, 5568 # 1000); (ap_south_1, 4832 # 1000); (ap_southeast_1, 5568 # 1000);
      (ap_southeast_2, 5568 # 1000); (ca_central_1, 5056 # 1000); (eu_central_1, 5536 # 1000);
      (eu_north_1, 4864 # 1000); (eu_west_1, 512 # 100); (eu_west_2, 5408 # 1000);
      (eu_west_3, 5408 # 1000); (me_south_1, 5632 # 1000); (us_east_1, 4608 # 1000);
      (us_east_2, 4608 # 1000); (us_gov_east_1, 5536 # 1000); (us_gov_west_1, 5536 # 1000);
      (us_west_1, 5184 # 1000); (us_west_2, 4608 # 1000)]
     "current" "HVM" true [].

Definition m5_8xlarge : Type_ :=
  mkType "m5.8xlarge" true (625 # 1) 32 (128 # 1)
     [(ap_east_1, 2112 # 1000); (ap_northeast_1, 1984 # 1000); (ap_northeast_2, 1888 # 1000);
      (ap_northeast_3, 1984 # 1000); (ap_south_1, 1616 # 1000); (ap_southeast_1, 192 # 100);
      (ap_southeast_2, 192 # 100); (ca_central_1, 1712 # 1000); (eu_central_1, 184 # 100);
      (eu_north_1, 1632 # 1000); (eu_west_1, 1712 # 1000); (eu_west_2, 1776 # 1000);
      (eu_west_3, 1792 # 1000); (me_south_1, 1883 # 1000); (sa_east_1, 2448 # 1000);
      (us_east_1, 1536 # 1000); (us_east_2, 1536 # 1000); (us_gov_east_1, 1936 # 1000);
      (us_gov_west_1, 1936 # 1000); (us_west_1, 1792 # 1000); (us_west_2, 1536 # 1000)]
     "current" "HVM" true [(intel_avx, true); (intel_avx2, true); (intel_avx512, true)].

Definition g4dn_2xlarge : Type_ :=
  mkType "g4dn.2xlarge" true (4375 # 10) 8 (32 # 1)
     [(ap_northeast_1, 1015 # 1000); (ap_northeast_2, 925 # 1000); (eu_central_1, 94 # 100);
      (eu_west_1, 838 # 1000); (eu_west_2, 88 # 100); (us_east_1, 752 # 1000);
      (us_east_2, 752 # 1000); (us_west_1, 902 # 1000); (us_west_2, 752 # 1000)]
     "current" "HVM" true [].

Definition r5ad_4xlarge : Type_ :=
  mkType "r5ad.4xlarge" true (265 # 1) 16 (128 # 1)
     [(ap_southeast_1, 1272 # 1000); (ap_southeast_2, 1272 # 1000);
      (ca_central_1, 1152 # 1000); (us_east_1, 1048 # 1000); (us_east_2, 1048 # 1000);
      (us_gov_west_1, 1264 # 1000); (us_west_2, 1048 # 1000)]
     "current" "HVM" true [].

Definition r5ad_12xlarge : Type_ :=
  mkType "r5ad.12xlarge" true (625 # 1) 48 (384 # 1)
     [(ap_southeast_1, 3816 # 1000); (ap_southeast_2, 3816 # 1000);
      (ca_central_1, 3456 # 1000); (us_east_1, 3144 # 1000); (us_east_2, 3144 # 1000);
      (us_gov_west_1, 3792 # 1000); (us_west_2, 3144 # 1000)]
     "current" "HVM" true [].

Definition m5a_large : Type_ :=
  mkType "m5a.large" true (265 # 1) 2 (8 # 1)
     [(ap_northeast_1, 112 # 1000); (ap_southeast_1, 108 # 1000); (ap_southeast_2, 108 # 1000);
      (ca_central_1, 96 # 1000); (eu_central_1, 104 # 1000); (eu_west_1, 96 # 1000);
      (eu_west_3, 101 # 1000); (us_east_1, 86 # 1000); (us_east_2, 86 # 1000);
      (us_gov_east_1, 109 # 1000); (us_gov_west_1, 109 # 1000); (us_west_1, 101 # 1000);
      (us_west_2, 86 # 1000)]
     "current" "HVM" true [].

Definition i3_8xlarge : Type_ :=
  mkType "i3.8xlarge" true (875 # 1) 32 (244 # 1)
     [(ap_east_1, 3296 # 1000); (ap_northeast_1, 2928 # 1000); (ap_northeast_2, 2928 # 1000);
      (ap_northeast_3, 2928 # 1000); (ap_south_1, 2832 # 1000); (ap_southeast_1, 2992 # 1000);
      (ap_southeast_2, 2992 # 1000); (ca_central_1, 2752 # 1000); (eu_central_1, 2976 # 1000);
      (eu_north_1, 2608 # 1000); (eu_west_1, 2752 # 1000); (eu_west_2, 2896 # 1000);
      (eu_west_3, 2896 # 1000); (me_south_1, 3027 # 1000); (sa_east_1, 4576 # 1000);
      (us_east_1, 2496 # 1000); (us_east_2, 2496 # 1000); (us_gov_east_1, 3008 # 1000);
      (us_gov_west_1, 3008 # 1000); (us_west_1, 2752 # 1000); (us_west_2, 2496 # 1000)]
     "current" "HVM" false [(intel_avx, true); (intel_avx2, true)].

Definition cr1_8xlarge : Type_ :=
  mkType "cr1.8xlarge" false (0 # 1) 32 (244 # 1)
     [(ap_northeast_1, 4105 # 1000); (eu_west_1, 375 # 100); (us_east_1, 35 # 10);
      (us_west_2, 35 # 10)]
     "previous" "HVM" false [].

Definition m5a_24xlarge : Type_ :=
  mkType "m5a.24xlarge" true (1250 # 1) 96 (384 # 1)
     [(ap_northeast_1, 5376 # 1000); (ap_southeast_1, 5184 # 1000);
      (ap_southeast_2, 5184 # 1000); (ca_central_1, 4608 # 1000); (eu_central_1, 4992 # 1000);
      (eu_west_1, 4608 # 1000); (eu_west_3, 4848 # 1000); (us_east_1, 4128 # 1000);
      (us_east_2, 4128 # 1000); (us_gov_east_1, 5232 # 1000); (us_gov_west_1, 5232 # 1000);
      (us_west_1, 4848 # 1000); (us_west_2, 4128 # 1000)]
     "current" "HVM" true [].

Definition c4_4xlarge : Type_ :=
  mkType "c4.4xlarge" true (250 # 1) 16 (30 # 1)
     [(ap_northeast_1, 1008 # 1000); (ap_northeast_2, 907 # 1000);
      (ap_northeast_3, 1008 # 1000); (ap_south_1, 8 # 10); (ap_southeast_1, 924 # 1000);
      (ap_southeast_2, 1042 # 1000); (ca_central_1, 876 # 1000); (eu_central_1, 909 # 1000);
      (eu_west_1, 905 # 1000); (eu_west_2, 95 # 100); (sa_east_1, 1235 # 1000);
      (us_east_1, 796 # 1000); (us_east_2, 796 # 1000); (us_gov_west_1, 958 # 1000);
      (us_west_1, 997 # 1000); (us_west_2, 796 # 1000)]
     "current" "HVM" false [(intel_avx, true); (intel_avx2, true)].

Definition f1_16xlarge : Type_ :=
  mkType "f1.16xlarge" true (1750 # 1) 64 (976 # 1)
     [(eu_west_1, 1452 # 100); (us_east_1, 132 # 10); (us_gov_west_1, 1584 # 100);
      (us_west_1, 15304 # 1000); (us_west_2, 132 # 10)]
     "current" "HVM" false [].

Definition g4dn_12xlarge : Type_ :=
  mkType "g4dn.12xlarge" true (875 # 1) 48 (192 # 1)
     [(ap_northeast_1, 5281 # 1000); (ap_northeast_2, 4812 # 1000); (eu_central_1, 489 # 100);
      (eu_west_1, 4362 # 1000); (eu_west_2, 4577 # 1000); (us_east_1, 3912 # 1000);
      (us_east_2, 3912 # 1000); (us_west_1, 4694 # 1000); (us_west_2, 3912 # 1000)]
     "current" "HVM" true [].

Definition g3s_xlarge : Type_ :=
  mkType "g3s.xlarge" true (100 # 1) 4 (305 # 10)
     [(ap_northeast_1, 104 # 100); (ap_northeast_2, 934 # 1000); (ap_southeast_2, 1154 # 1000);
      (eu_central_1, 938 # 1000); (eu_west_1, 796 # 1000); (eu_west_2, 94 # 100);
      (us_east_1, 75 # 100); (us_east_2, 75 # 100); (us_west_1, 1009 # 1000);
      (us_west_2, 75 # 100)]
     "current" "HVM" false [].

Definition f1_2xlarge : Type_ :=
  mkType "f1.2xlarge" true (2125 # 10) 8 (122 # 1)
     [(eu_west_1, 1815 # 1000); (us_east_1, 165 # 100); (us_gov_west_1, 198 # 100);
      (us_west_1, 1913 # 1000); (us_west_2, 165 # 100)]
     "current" "HVM" false [].

Definition hs1_8xlarge : Type_ :=
  mkType "hs1.8xlarge" false (0 # 1) 17 (117 # 1)
     [(ap_northeast_1, 54 # 10); (ap_southeast_1, 557 # 100); (ap_southeast_2, 557 # 100);
      (eu_west_1, 49 # 10); (us_east_1, 46 # 10); (us_gov_west_1, 552 # 100);
      (us_west_2, 46 # 10)]
     "previous" "HVM" false [].

Definition t3a_xlarge : Type_ :=
  mkType "t3a.xlarge" true (256 # 1) 4 (16 # 1)
     [(ap_northeast_1, 1958 # 10000); (ap_northeast_2, 1872 # 10000);
      (ap_southeast_1, 1888 # 10000); (ap_southeast_2, 1901 # 10000);
      (ca_central_1, 167 # 1000); (eu_central_1, 1728 # 10000); (eu_west_1, 1632 # 10000);
      (eu_west_2, 1699 # 10000); (eu_west_3, 1699 # 10000); (us_east_1, 1504 # 10000);
      (us_east_2, 1504 # 10000); (us_gov_east_1, 1757 # 10000); (us_gov_west_1, 1757 # 10000);
      (us_west_1, 1786 # 10000); (us_west_2, 1504 # 10000)]
     "current" "HVM" true [].

(** instances.Types *)
Definition Types : list Type_ :=
  [c5d_xlarge; m5a_2xlarge; c5_9xlarge; r5ad_xlarge; m5_24xlarge; i3en_12xlarge; m5d_12xlarge;
   c5_large; c5n_large; c5_24xlarge; i2_xlarge; d2_8xlarge; i3en_3xlarge; z1d_3xlarge;
   m5_2xlarge; c5_18xlarge; x1e_16xlarge; i2_8xlarge; r5a_8xlarge; i2_2xlarge; i3en_2xlarge;
   m5a_xlarge; p3_2xlarge; t2_2xlarge; h1_8xlarge; r5d_24xlarge; i3en_6xlarge; r4_8xlarge;
   x1_16xlarge; c5d_18xlarge; m5a_16xlarge; r5a_large; c3_large; r5a_24xlarge; g3_16xlarge;
   c4_xlarge; x1e_4xlarge; m5ad_xlarge; i3en_24xlarge; c5n_18xlarge; m4_large; h1_4xlarge;
   x1e_xlarge; g4dn_8xlarge; m5_large; c5_4xlarge; m5d_24xlarge; r3_large; c4_large; r5d_xlarge;
   m5d_large; r5_2xlarge; m3_2xlarge; m5d_2xlarge; m4_10xlarge; m5ad_large; c5d_large;
   x1_32xlarge; c5n_2xlarge; m5d_xlarge; m5_12xlarge; p3_16xlarge; m3_large; c5d_4xlarge;
   r5_24xlarge; r4_large; r3_xlarge; x1e_32xlarge; c5n_xlarge; m5a_4xlarge; r5ad_2xlarge;
   t2_xlarge; p3dn_24xlarge; p2_16xlarge; c3_8xlarge; m3_medium; x1e_2xlarge; m5a_8xlarge;
   m5ad_2xlarge; r5a_2xlarge; m5a_12xlarge; m5d_16xlarge; d2_xlarge; c5_2xlarge; g4dn_16xlarge;
   c5d_2xlarge; m3_xlarge; r4_16xlarge; g4dn_4xlarge; i3_xlarge; z1d_2xlarge; c3_xlarge;
   r5_8xlarge; c3_2xlarge; r3_2xlarge; r4_2xlarge; p2_8xlarge; m5_xlarge; c4_8xlarge;
   c5n_9xlarge; d2_2xlarge; d2_4xlarge; m5ad_4xlarge; c5_xlarge; m5d_4xlarge; r5_16xlarge;
   m4_xlarge; r5a_4xlarge; t3_xlarge; z1d_12xlarge; m4_16xlarge; r5_12xlarge; m4_4xlarge;
   r4_xlarge; z1d_6xlarge; r5d_4xlarge; r5a_16xlarge; p2_xlarge; c3_4xlarge; r4_4xlarge;
   r5a_xlarge; h1_2xlarge; m5ad_24xlarge; f1_4xlarge; i3en_xlarge; r5a_12xlarge; r5ad_24xlarge;
   g2_2xlarge; c4_2xlarge; x1e_8xlarge; m5_4xlarge; h1_16xlarge; z1d_xlarge; r5d_8xlarge;
   t3_2xlarge; g3_8xlarge; m5d_8xlarge; m5_16xlarge; m4_2xlarge; r5ad_large; r5_4xlarge;
   r5d_2xlarge; r5_large; i3_large; z1d_large; i3_16xlarge; m5ad_12xlarge; i3en_large;
   i2_4xlarge; c5d_9xlarge; r5_xlarge; i3_2xlarge; r5d_large; g3_4xlarge; r5d_12xlarge;
   g2_8xlarge; i3_4xlarge; c5_12xlarge; c5n_4xlarge; r3_4xlarge; r3_8xlarge; p3_8xlarge;
   g4dn_xlarge; cc2_8xlarge; t3a_2xlarge; r5d_16xlarge; m5_8xlarge; g4dn_2xlarge; r5ad_4xlarge;
   r5ad_12xlarge; m5a_large; i3_8xlarge; cr1_8xlarge; m5a_24xlarge; c4_4xlarge; f1_16xlarge;
   g4dn_12xlarge; g3s_xlarge; f1_2xlarge; hs1_8xlarge; t3a_xlarge].

(** ** What the table promises *)

(** The price of a type in a region, zero where it is not sold: indexing a Go
    map. *)
Definition price_in (region : string) (t : Type_) : Q :=
  default 0%Q (snd <$> (snd <$> list_find (fun p => p.1 = region) (Price t))).

(** ec2machine.go, init: instanceTypes, by name; a later entry would replace an
    earlier one of the same name. *)
Definition instanceTypes : gmap string Type_ :=
  foldl (fun m t => <[Name t := t]> m) ∅ Types.

(** An entry that makes sense. *)
Definition type_ok (t : Type_) : bool :=
  bool_decide (0 < VCPU t)%Z && Qle_bool 0 (EBSThroughput t) &&
  negb (Qle_bool (Memory t) 0) && forallb (fun p => negb (Qle_bool p.2 0)) (Price t) &&
  bool_decide (NoDup ((Price t).*1)).

Lemma Types_ok : forallb type_ok Types = true.
Proof. vm_compute. reflexivity. Qed.

Lemma Types_names : NoDup (Name <$> Types).
Proof. apply (bool_decide_unpack _). vm_compute. exact I. Qed.

Lemma foldl_insert_lookup (l : list Type_) (m : gmap string Type_) t :
  NoDup (Name <$> l) -> t ∈ l ->
  foldl (fun m t => <[Name t := t]> m) m l !! Name t = Some t.
Proof.
  revert m. induction l as [|x l IH]; intros m Hnd Hin; [by apply elem_of_nil in Hin|].
  rewrite fmap_cons in Hnd. apply NoDup_cons in Hnd as [Hx Hnd].
  apply elem_of_cons in Hin as [->|Hin]; simpl; [|by apply IH].
  assert (Hout : forall m' : gmap string Type_,
    foldl (fun m t => <[Name t := t]> m) m' l !! Name x = m' !! Name x).
  { clear IH Hnd. induction l as [|y l IH]; intros m'; [done|]. simpl.
    rewrite fmap_cons, not_elem_of_cons in Hx. destruct Hx as [Hxy Hx].
    rewrite IH by done. apply lookup_insert_ne. congruence. }
  by rewrite Hout, lookup_insert_eq.
Qed.

Lemma foldl_insert_inv (l : list Type_) (m : gmap string Type_) n t :
  foldl (fun m t => <[Name t := t]> m) m l !! n = Some t ->
  (t ∈ l /\ Name t = n) \/ m !! n = Some t.
Proof.
  revert m. induction l as [|x l IH]; intros m; simpl; [by right|].
  intros [[Hin Hn]|Hm]%IH; [left; split; [by right|done]|].
  apply lookup_insert_Some in Hm as [[<- <-]|[_ Hm]]; [left; split; [left|done]|by right].
Qed.

(** Every entry of the table is found under its name, and nothing else. *)
Lemma instanceTypes_spec n t :
  instanceTypes !! n = Some t <-> t ∈ Types /\ Name t = n.
Proof.
  unfold instanceTypes. split.
  - intros [H|H]%foldl_insert_inv; [done|]. by rewrite lookup_empty in H.
  - intros [Hin <-]. apply foldl_insert_lookup; [apply Types_names|done].
Qed.

Lemma Types_all t : t ∈ Types -> type_ok t = true.
Proof.
  intros Hin. pose proof Types_ok as H. rewrite forallb_forall in H. apply H.
  by apply list_elem_of_In.
Qed.

(** A type is available in a region exactly if the region has a price. *)
Lemma available t region :
  t ∈ Types -> (price_in region t == 0 <-> region ∉ (Price t).*1)%Q.
Proof.
  intros Hin. pose proof (Types_all t Hin) as Hok. unfold type_ok in Hok.
  rewrite !andb_true_iff, forallb_forall in Hok. destruct Hok as [[_ Hpos] _].
  unfold price_in. destruct (list_find _ (Price t)) as [[i p]|] eqn:Hf; simpl.
  - apply list_find_Some in Hf as (Hi & Hr & _). split.
    + intros H0. specialize (Hpos p (proj1 (list_elem_of_In _ _) (list_elem_of_lookup_2 _ _ _ Hi))).
      apply negb_true_iff in Hpos. assert (Hle : Qle_bool p.2 0 = true)
        by (apply Qle_bool_iff; rewrite H0; apply Qle_refl). congruence.
    + intros Hn. destruct Hn. apply list_elem_of_fmap. exists p. split; [done|].
      by eapply list_elem_of_lookup_2.
  - split; [|done]. intros _ (p & -> & Hp)%list_elem_of_fmap.
    eapply list_find_None, Forall_forall in Hf; [|exact Hp]. done.
Qed.
