(* ===== verification/Tmpl.v ===== *)
(** The function tmpl of ec2system/ec2machine.go, up to the call of package
    html/template: a template is written indented in the source, and its blank
    margins and the indentation of its first line are stripped. *)
From S2P Require Import Prelude GoStrings.
From Stdlib Require Import Ascii.
Local Open Scope string_scope.
Local Open Scope list_scope.

#[local] Arguments String.append !_ _ / : simpl nomatch.

(** ** Definitions *)

(** unicode.IsSpace, for ASCII. *)
Definition IsSpace (a : ascii) : bool :=
  let n := N_of_ascii a in ((9 <=? n) && (n <=? 13) || (n =? 32))%N.

(** strings.TrimSpace(s) == "" *)
Fixpoint blank (s : string) : bool :=
  match s with
  | EmptyString => true
  | String a r => IsSpace a && blank r
  end.

(** The loop that drops blank lines at the front. *)
Fixpoint drop_blank (ls : list string) : list string :=
  match ls with
  | l :: r => if blank l then drop_blank r else ls
  | [] => []
  end.

(** strings.IndexFunc of the first byte that is not a space, or 0. *)
Fixpoint index_nonspace (s : string) : option nat :=
  match s with
  | EmptyString => None
  | String a r => if IsSpace a then S <$> index_nonspace r else Some 0%nat
  end.

(** line[p:], if line[:p] exists and is blank; otherwise tmpl panics. *)
Fixpoint strip_line (p : nat) (line : string) : option string :=
  match p, line with
  | O, _ => Some line
  | S p, String a r => if IsSpace a then strip_line p r else None
  | S _, EmptyString => None
  end.

(** tmpl up to the parsing of the text; [None] is a panic. *)
Definition strip (text : string) : option string :=
  let lines := drop_blank (Split text NEWLINE) in
  let lines := rev (drop_blank (rev lines)) in
  let p := match lines with
           | [] => 0%nat
           | l :: _ => default 0%nat (index_nonspace l)
           end in
  (fun ls => Join ls (String NEWLINE EmptyString)) <$> mapM (strip_line p) lines.

(** ** Templates as the source writes them *)

Fixpoint tabs (n : nat) : string :=
  match n with O => EmptyString | S n => String "009"%char (tabs n) end.

(** The lines [ls] as a raw string literal, indented by [n] tabs and closed on a
    line of its own, indented by [k]. *)
Definition indented (n k : nat) (ls : list string) : string :=
  String NEWLINE EmptyString +:+
  Join ((fun l => tabs n +:+ l) <$> ls) (String NEWLINE EmptyString) +:+
  String NEWLINE EmptyString +:+ tabs k.

Definition starts_nonspace (s : string) : bool :=
  match s with EmptyString => false | String a _ => negb (IsSpace a) end.

(** ** Lemmas *)

Lemma blank_tabs n : blank (tabs n) = true.
Proof. by induction n. Qed.

Lemma blank_tabs_app n l : blank (tabs n +:+ l) = blank l.
Proof. by induction n. Qed.

Lemma tabs_no_newline n : has_byte NEWLINE (tabs n) = false.
Proof. by induction n. Qed.

Lemma index_tabs n l : starts_nonspace l = true -> index_nonspace (tabs n +:+ l) = Some n.
Proof.
  intros Hl. induction n as [|n IH]; simpl.
  - destruct l as [|a l]; simpl in *; [done|]. by destruct (IsSpace a).
  - by rewrite IH.
Qed.

Lemma strip_line_tabs n l : strip_line n (tabs n +:+ l) = Some l.
Proof. by induction n. Qed.

Lemma starts_not_blank l : starts_nonspace l = true -> blank l = false.
Proof. destruct l as [|a l]; simpl; [done|]. by destruct (IsSpace a). Qed.

Lemma drop_blank_stop l ls : blank l = false -> drop_blank (l :: ls) = l :: ls.
Proof. simpl. by intros ->. Qed.

(** What an indented template becomes: its lines without the indentation, and
    without the first and the last line break. *)
Lemma strip_indented n k ls l0 l1 :
  head ls = Some l0 -> starts_nonspace l0 = true -> last ls = Some l1 -> blank l1 = false ->
  Forall (fun l => has_byte NEWLINE l = false) ls ->
  strip (indented n k ls) = Some (Join ls (String NEWLINE EmptyString)).
Proof.
  intros H0 Hs0 H1 Hb1 Hall. unfold strip, indented. simpl Split.
  set (L := (fun l => tabs n +:+ l) <$> ls).
  assert (HL : Split (Join L (String NEWLINE EmptyString) +:+ String NEWLINE (tabs k)) NEWLINE = L ++ [tabs k]).
  { rewrite Split_Join_app.
    - by rewrite Split_no_sep by apply tabs_no_newline.
    - unfold L. by destruct ls.
    - apply Forall_fmap. eapply Forall_impl; [exact Hall|]. intros l Hl. simpl.
      by rewrite has_byte_app, tabs_no_newline. }
  rewrite HL. cbn [drop_blank blank].
  assert (Hd : drop_blank (L ++ [tabs k]) = L ++ [tabs k]).
  { unfold L. destruct ls as [|l ls]; [done|]. injection H0 as ->. apply drop_blank_stop.
    rewrite blank_tabs_app. by apply starts_not_blank. }
  rewrite Hd, rev_app_distr. cbn [rev app drop_blank]. rewrite blank_tabs.
  assert (Hr : drop_blank (rev L) = rev L).
  { apply last_Some in H1 as [ls' ->]. unfold L. rewrite fmap_app, rev_app_distr. apply drop_blank_stop.
    by rewrite blank_tabs_app. }
  rewrite Hr, rev_involutive.
  replace (match L with [] => 0%nat | l :: _ => default 0%nat (index_nonspace l) end) with n.
  - replace (mapM (strip_line n) L) with (Some ls); [done|]. symmetry. apply mapM_Some. unfold L. clear.
    induction ls as [|l ls IH]; constructor; [apply strip_line_tabs|done].
  - unfold L. destruct ls as [|l ls]; [done|]. injection H0 as ->. simpl. by rewrite index_tabs.
Qed.
