(* ===== verification/Ec2Config.v ===== *)
(** ec2system/cloudconfig.go and the configuration part of
    ec2system/ec2machine.go: how the data volume is cut into slices, the block
    devices an instance is launched with, and the cloud-init configuration
    that formats and mounts them and boots the machine.

    yaml.Marshal is a parameter.  The templates are given as the text they
    produce, line by line and without the indentation they have in the source
    (Tmpl.v); the code renders them with html/template, so every substituted
    value is HTML-escaped (Html.v). *)
From S2P Require Import Prelude Errors GoStrings Html.
From stdpp Require Import pretty.
From Stdlib Require Import Ascii.
Local Open Scope string_scope.
Local Open Scope list_scope.

(** ** cloudconfig.go *)

Inductive Flavor := Flatcar | Ubuntu | OtherFlavor (n : Z).

#[export] Instance Flavor_eq_dec : EqDecision Flavor.
Proof. solve_decision. Defined.

Record CloudFile := {
  Path : string;
  Permissions : string;
  Owner : string;
  f_Content : string
}.

Record CloudUnit := {
  Name : string;
  Command : string;
  Enable : bool;
  Content : string;
  Sync : bool
}.

(** cloudConfig, with CoreOS.Update.RebootStrategy and CoreOS.Units as fields. *)
Record cloudConfig := {
  cc_Flavor : Flavor;
  WriteFiles : list CloudFile;
  RebootStrategy : string;
  CoreOS_Units : list CloudUnit;
  SshAuthorizedKeys : list string;
  RunCmd : list string;
  Mounts : list (list string);
  units : list CloudUnit
}.

Definition empty_config : cloudConfig :=
  {| cc_Flavor := Flatcar; WriteFiles := []; RebootStrategy := ""; CoreOS_Units := [];
     SshAuthorizedKeys := []; RunCmd := []; Mounts := []; units := [] |}.

(** cloudConfig.Merge: RunCmd and Mounts of [d] are not taken over. *)
Definition Merge (c d : cloudConfig) : cloudConfig :=
  {| cc_Flavor := cc_Flavor c;
     WriteFiles := WriteFiles c ++ WriteFiles d;
     RebootStrategy := if decide (RebootStrategy d <> "") then RebootStrategy d else RebootStrategy c;
     CoreOS_Units := CoreOS_Units c;
     SshAuthorizedKeys := SshAuthorizedKeys c ++ SshAuthorizedKeys d;
     RunCmd := RunCmd c; Mounts := Mounts c;
     units := units c ++ units d |}.

Definition AppendFile (f : CloudFile) (c : cloudConfig) : cloudConfig :=
  {| cc_Flavor := cc_Flavor c; WriteFiles := WriteFiles c ++ [f]; RebootStrategy := RebootStrategy c;
     CoreOS_Units := CoreOS_Units c; SshAuthorizedKeys := SshAuthorizedKeys c; RunCmd := RunCmd c;
     Mounts := Mounts c; units := units c |}.

Definition AppendUnit (u : CloudUnit) (c : cloudConfig) : cloudConfig :=
  {| cc_Flavor := cc_Flavor c; WriteFiles := WriteFiles c; RebootStrategy := RebootStrategy c;
     CoreOS_Units := CoreOS_Units c; SshAuthorizedKeys := SshAuthorizedKeys c; RunCmd := RunCmd c;
     Mounts := Mounts c; units := units c ++ [u] |}.

Definition AppendRunCmd (cmd : string) (c : cloudConfig) : cloudConfig :=
  {| cc_Flavor := cc_Flavor c; WriteFiles := WriteFiles c; RebootStrategy := RebootStrategy c;
     CoreOS_Units := CoreOS_Units c; SshAuthorizedKeys := SshAuthorizedKeys c; RunCmd := RunCmd c ++ [cmd];
     Mounts := Mounts c; units := units c |}.

Definition AppendMount (mount : list string) (c : cloudConfig) : cloudConfig :=
  {| cc_Flavor := cc_Flavor c; WriteFiles := WriteFiles c; RebootStrategy := RebootStrategy c;
     CoreOS_Units := CoreOS_Units c; SshAuthorizedKeys := SshAuthorizedKeys c; RunCmd := RunCmd c;
     Mounts := Mounts c ++ [mount]; units := units c |}.

(** path.Join("/etc/systemd/system", name), for a name without slashes. *)
Definition unit_path (name : string) : string :=
  if decide (name = "") then "/etc/systemd/system" else "/etc/systemd/system/" +:+ name.

(** The loop over the units in Marshal, for flavors other than Flatcar. *)
Definition install_unit (c : cloudConfig) (u : CloudUnit) : cloudConfig :=
  let c := if decide (Content u <> "") then
             AppendFile {| Path := unit_path (Name u); Permissions := "0644"; Owner := "";
                           f_Content := Content u |} c
           else c in
  if Sync u then AppendRunCmd ("systemctl " +:+ Command u +:+ " " +:+ Name u) c
  else AppendRunCmd ("systemctl --no-block " +:+ Command u +:+ " " +:+ Name u) c.

(** The copy that Marshal renders. *)
Definition rendered (c : cloudConfig) : cloudConfig :=
  if decide (cc_Flavor c = Flatcar) then
    {| cc_Flavor := cc_Flavor c; WriteFiles := WriteFiles c; RebootStrategy := RebootStrategy c;
       CoreOS_Units := units c; SshAuthorizedKeys := SshAuthorizedKeys c; RunCmd := RunCmd c;
       Mounts := Mounts c; units := units c |}
  else
    let c' := if decide (units c <> []) then AppendRunCmd "systemctl daemon-reload" c else c in
    foldl install_unit c' (units c).

(** cloudConfig.Marshal *)
Definition Marshal {EL : ErrorsLib} (yaml_Marshal : cloudConfig -> result error string)
    (c : cloudConfig) : result error string :=
  match yaml_Marshal (rendered c) with
  | Err e => Err e
  | Ok b => Ok ("#cloud-config" +:+ String NEWLINE b)
  end.

(** ** Data volumes *)

Definition minDataVolumeSliceSize : Z := 335.
Definition maxInstanceDataVolumes : Z := 25.

(** System.sliceConfig: the number and the size of the slices.  (From a data
    volume of about 2^63 GiB on the number is negative, and cloudConfig panics
    when it makes the slice of devices; here there are then none.) *)
Definition sliceConfig (Dataspace : Z) : Z * Z :=
  let sliceSize := minDataVolumeSliceSize in
  let nslice := Z.quot (wrap64 (wrap64 (wrap64 Dataspace + sliceSize) - 1)) sliceSize in
  if decide (nslice <= maxInstanceDataVolumes)%Z then (nslice, sliceSize)
  else (maxInstanceDataVolumes, Z.quot (wrap64 Dataspace) maxInstanceDataVolumes).

(** The letter 'b'+i, as %c prints it. *)
Definition slice_letter (i : nat) : string := String (ascii_of_nat (98 + i)) "".

Record BlockDevice := { DeviceName : string; VolumeSize : Z }.

(** System.Start: the block device mappings. *)
Definition blockDevices (rootDeviceName : option string) (Diskspace Dataspace : Z) : list BlockDevice :=
  let '(nslice, sliceSize) := sliceConfig Dataspace in
  {| DeviceName := default "/dev/xvda" rootDeviceName; VolumeSize := wrap64 (50 + Diskspace) |} ::
  ((fun i => {| DeviceName := "/dev/xvd" +:+ slice_letter i; VolumeSize := sliceSize |}) <$>
     seq 0 (Z.to_nat nslice)).

(** ** The cloud configuration of a machine *)

(** The lines of a template's output, joined by newlines. *)
Definition lines (l : list string) : string := GoStrings.Join l (String NEWLINE "").

(** The fields of System (and of its instance type) that cloudConfig reads. *)
Record System := {
  s_Flavor : Flavor;
  SshKeys : list string;
  Diskspace : Z;
  Dataspace : Z;
  Binary : string;
  AdditionalFiles : list CloudFile;
  AdditionalUnits : list CloudUnit;
  NVMe : bool;
  authority_Contents : string;
  immortal : bool
}.

Definition unit_ (name command content : string) (enable : bool) : CloudUnit :=
  {| Name := name; Command := command; Enable := enable; Content := content; Sync := false |}.

(** The names of the slices inside the instance. *)
Definition slice_name (nvme : bool) (idx : nat) : string :=
  if nvme then "nvme" +:+ pretty (idx + 1) +:+ "n1" else "xvd" +:+ slice_letter idx.

(** The unit that formats a single slice. *)
Definition format_one (name : string) : CloudUnit :=
  unit_ ("format-" +:+ name +:+ ".service") "start"
    (lines ["[Unit]";
            "Description=Format /dev/" +:+ escape name;
            "After=dev-" +:+ escape name +:+ ".device";
            "Requires=dev-" +:+ escape name +:+ ".device";
            "[Service]";
            "Type=oneshot";
            "RemainAfterExit=yes";
            "ExecStart=/usr/bin/env wipefs -f /dev/" +:+ escape name;
            "ExecStart=/usr/bin/env mkfs.ext4 -F /dev/" +:+ escape name]) false.

(** The unit that stripes several slices and formats the result. *)
Definition format_striped (md : string) (devices : list string) : CloudUnit :=
  let each f := GoStrings.Join (f <$> devices) "" in
  unit_ ("format-" +:+ md +:+ ".service") "start"
    (lines ["[Unit]";
            "Description=Format /dev/" +:+ escape md;
            "After=" +:+ each (fun n => "dev-" +:+ escape n +:+ ".device ");
            "Requires=" +:+ each (fun n => "dev-" +:+ escape n +:+ ".device ");
            "[Service]";
            "Type=oneshot";
            "RemainAfterExit=yes";
            "ExecStart=/usr/bin/env mdadm --create --run --verbose /dev/" +:+ escape md +:+
              " --level=0 --chunk=256 --name=bigmachine --raid-devices=" +:+ pretty (length devices) +:+
              " " +:+ each (fun n => "/dev/" +:+ escape n +:+ " ");
            "ExecStart=/usr/bin/env mkfs.ext4 -F /dev/" +:+ escape md]) false.

(** The unit that mounts the data device. *)
Definition mount_data (name : string) : CloudUnit :=
  unit_ "mnt-data.mount" "start"
    (lines ["[Unit]";
            "After=format-" +:+ escape name +:+ ".service";
            "Requires=format-" +:+ escape name +:+ ".service";
            "[Mount]";
            "What=/dev/" +:+ escape name;
            "Where=/mnt/data";
            "Type=ext4";
            "Options=data=writeback"]) false.

(** The data device and the slices it is made of. *)
Definition data_devices (s : System) : string * list string :=
  let nslice := (sliceConfig (Dataspace s)).1 in
  if decide (nslice = 0%Z) then ("", [])
  else if decide (nslice = 1%Z) then (if NVMe s then "nvme1n1" else "xvdb", [])
  else ("md0", slice_name (NVMe s) <$> seq 0 (Z.to_nat nslice)).

Definition nropen : Z := Z.shiftl 32 20.
Definition filemax : Z := nropen * 4.

Definition sysctl_file : CloudFile :=
  {| Path := "/etc/sysctl.d/90-bigmachine"; Permissions := "0644"; Owner := "root";
     f_Content := lines ["fs.file-max = " +:+ pretty filemax; "fs.nr_open = " +:+ pretty nropen] |}.

(** The bootstrap script, with the URL that it fetches. *)
Definition boot_script (url : string) : string :=
  lines ["#!/bin/bash"; "set -e"; "systemctl set-default poweroff.target";
    "bin=/tmp/ec2boot"; "curl -s " +:+ url +:+ " >$bin"; "chmod +x $bin";
    "export BIGMACHINE_MODE=machine"; "export BIGMACHINE_SYSTEM=ec2";
    "export BIGMACHINE_ADDR=:443"; "$bin -log=debug || true"; "sleep 30"; "exit 1"].

Definition bootmachine_file (binary : string) : CloudFile :=
  {| Path := "/opt/bin/bootmachine"; Permissions := "0755"; Owner := "root";
     f_Content := boot_script (escape binary) |}.

Definition authorityPath : string := "/tmp/bigmachine.pem".

Definition authority_file (contents : string) : CloudFile :=
  {| Path := authorityPath; Permissions := "0644"; Owner := ""; f_Content := contents |}.

Definition sysctl_unit (fl : Flavor) : CloudUnit :=
  let sysctlPath := if decide (fl = Flatcar) then "/usr/lib/systemd/systemd-sysctl"
                    else "/lib/systemd/systemd-sysctl" in
  unit_ "update-sysctl.service" "start"
    (lines ["[Unit]"; "Description=Update sysctl"; "[Service]";
            "ExecStart=" +:+ escape sysctlPath +:+ " /etc/sysctl.d/90-bigmachine"]) true.

(** The unit of the boot script; a template's if leaves its lines' breaks. *)
Definition bootmachine_unit (mortal data : bool) (environ : string) : CloudUnit :=
  unit_ "bootmachine.service" "start"
    (lines ["[Unit]"; "Description=bootmachine"; "Requires=network.target"; "After=network.target";
            if data then lines [""; "After=mnt-data.mount"; "Requires=mnt-data.mount"; ""] else "";
            if mortal then lines [""; "OnFailure=poweroff.target";
                                  "OnFailureJobMode=replace-irreversibly"; ""] else "";
            "[Service]"; "OOMScoreAdjust=1000"; "Type=oneshot"; "LimitNOFILE=" +:+ pretty nropen;
            escape environ; "ExecStart=/opt/bin/bootmachine"]) true.

(** The storage part of cloudConfig: format, mount, and Ubuntu's mounts. *)
Definition storage_config (s : System) (c : cloudConfig) : cloudConfig :=
  let '(dev, devices) := data_devices s in
  if decide (dev = "") then c
  else
    let c := AppendUnit (if decide (devices = []) then format_one dev else format_striped dev devices) c in
    let c := AppendUnit (mount_data dev) c in
    if decide (s_Flavor s = Ubuntu) then
      foldl (fun c d => AppendMount [d] c) (AppendMount [dev] c) devices
    else c.

(** System.cloudConfig *)
Definition cloudConfig_of (s : System) : cloudConfig :=
  let c := {| cc_Flavor := s_Flavor s; WriteFiles := [];
              RebootStrategy := if decide (s_Flavor s = Flatcar) then "off" else "";
              CoreOS_Units := []; SshAuthorizedKeys := SshKeys s; RunCmd := []; Mounts := [];
              units := if decide (s_Flavor s = Flatcar) then
                         [unit_ "update-engine.service" "stop" "" false;
                          unit_ "locksmithd.service" "stop" "" false]
                       else [] |} in
  let c := storage_config s c in
  let data := bool_decide ((data_devices s).1 <> "") in
  let environ := if data then "Environment=TMPDIR=/mnt/data" else "" in
  let c := AppendFile sysctl_file c in
  let c := foldl (fun c f => AppendFile f c) c (AdditionalFiles s) in
  let c := foldl (fun c u => AppendUnit u c) c (AdditionalUnits s) in
  let c := AppendFile (bootmachine_file (Binary s)) c in
  let c := AppendFile (authority_file (authority_Contents s)) c in
  let c := AppendUnit (sysctl_unit (s_Flavor s)) c in
  AppendUnit (bootmachine_unit (negb (immortal s)) data environ) c.

(** ** The boot script *)

(** The script fetches the URL it was given exactly if it has none of the
    characters that html/template escapes. *)
Lemma boot_script_url binary :
  f_Content (bootmachine_file binary) = boot_script binary <->
  forall c, special c = true -> has_byte c binary = false.
Proof.
  rewrite <- escape_id. split; [|intros H; simpl; by rewrite H].
  unfold bootmachine_file, boot_script, lines. cbn [f_Content GoStrings.Join]. intros H.
  do 8 apply (inj (String.append _)) in H. rewrite !sapp_assoc in H.
  apply (inj (String.append _)) in H. by apply sapp_inj_r in H.
Qed.

Example query_lost :
  escape "https://b/ec2boot?os=linux&arch=amd64" = "https://b/ec2boot?os=linux&amp;arch=amd64".
Proof. reflexivity. Qed.

(** ** Slices *)

Lemma slice_letter_inj i j : (i < 100)%nat -> (j < 100)%nat -> slice_letter i = slice_letter j -> i = j.
Proof.
  unfold slice_letter. intros Hi Hj [= H].
  apply (f_equal nat_of_ascii) in H. rewrite !nat_ascii_embedding in H by lia. lia.
Qed.

Lemma sliceConfig_bounds D :
  (0 <= D < 2 ^ 62)%Z ->
  let '(n, sz) := sliceConfig D in
  (0 <= n <= maxInstanceDataVolumes)%Z /\ (n = 0 <-> D = 0)%Z /\
  ((D <= 25 * 335)%Z -> sz = 335%Z /\ (D <= n * sz < D + 335)%Z) /\
  ((D > 25 * 335)%Z -> n = 25%Z /\ (335 <= sz)%Z /\ (D - 25 < n * sz <= D)%Z).
Proof.
  intros HD. unfold sliceConfig, minDataVolumeSliceSize, maxInstanceDataVolumes.
  rewrite (wrap64_id D) by (unfold in_int64; lia).
  rewrite (wrap64_id (D + 335)) by (unfold in_int64; lia).
  rewrite (wrap64_id (D + 335 - 1)) by (unfold in_int64; lia).
  rewrite !Z.quot_div_nonneg by lia.
  pose proof (Z.div_mod (D + 335 - 1) 335 ltac:(lia)) as H1.
  pose proof (Z.mod_pos_bound (D + 335 - 1) 335 ltac:(lia)) as H2.
  pose proof (Z.div_mod D 25 ltac:(lia)) as H3.
  pose proof (Z.mod_pos_bound D 25 ltac:(lia)) as H4.
  set (q := ((D + 335 - 1) / 335)%Z) in *. set (q' := (D / 25)%Z) in *.
  case_decide; split_and!; intros; lia.
Qed.

(** The devices attached for data, after the root device. *)
Definition data_mappings (root : option string) (s : System) : list BlockDevice :=
  tl (blockDevices root (Diskspace s) (Dataspace s)).

(** The slices as the instance sees them. *)
Definition slices (s : System) : list string :=
  let '(dev, devices) := data_devices s in
  if decide (dev = "") then [] else if decide (devices = []) then [dev] else devices.

Lemma slices_spec s :
  (0 <= Dataspace s < 2 ^ 62)%Z ->
  slices s = slice_name (NVMe s) <$> seq 0 (Z.to_nat (sliceConfig (Dataspace s)).1).
Proof.
  intros HD. pose proof (sliceConfig_bounds (Dataspace s) HD) as H.
  unfold slices, data_devices. destruct (sliceConfig (Dataspace s)) as [n sz]. simpl.
  destruct H as ([Hn _] & _).
  destruct (decide (n = 0%Z)) as [->|H0]; [done|].
  destruct (decide (n = 1%Z)) as [->|H1].
  - by destruct (NVMe s).
  - rewrite decide_False by done. rewrite decide_False; [done|].
    intros H. apply (f_equal length) in H. rewrite length_fmap, length_seq in H. simpl in H. lia.
Qed.

(** C38. The data volume.  For a requested size (below 2^62 GiB), the instance
    is launched with at most 25 equal data volumes with distinct device names,
    and cloud-init formats exactly the devices attached, under the names they
    have inside the instance (xvdb, xvdc, ... or, with NVMe, nvme1n1, ...): all
    of them striped if there are several.  There is no volume only for size 0.
    Up to 25 * 335 GiB the volumes hold at least what was asked for, with less
    than one slice to spare; above that they hold less, by up to 24 GiB, since
    the size of a slice is rounded down. *)
Theorem data_volume root s :
  (0 <= Dataspace s < 2 ^ 62)%Z ->
  let m := data_mappings root s in
  let total := foldr Z.add 0%Z (VolumeSize <$> m) in
  (length m <= 25)%nat /\ NoDup (DeviceName <$> m) /\
  slices s = slice_name (NVMe s) <$> seq 0 (length m) /\
  (NVMe s = false -> DeviceName <$> m = (fun n => "/dev/" +:+ n) <$> slices s) /\
  (m = [] <-> Dataspace s = 0%Z) /\
  ((Dataspace s <= 25 * 335)%Z -> (Dataspace s <= total < Dataspace s + 335)%Z) /\
  ((Dataspace s > 25 * 335)%Z -> (Dataspace s - 25 < total <= Dataspace s)%Z).
Proof.
  intros HD m total. pose proof (sliceConfig_bounds (Dataspace s) HD) as H.
  pose proof (slices_spec s HD) as Hs.
  unfold total, m, data_mappings, blockDevices. clear total m.
  destruct (sliceConfig (Dataspace s)) as [n sz]. cbn [tl fst] in *.
  destruct H as ([Hn Hn25] & Hz & Hsmall & Hbig). unfold maxInstanceDataVolumes in Hn25.
  assert (Htot : foldr Z.add 0%Z (VolumeSize <$>
      ((fun i => {| DeviceName := "/dev/xvd" +:+ slice_letter i; VolumeSize := sz |}) <$>
        seq 0 (Z.to_nat n))) = (n * sz)%Z).
  { rewrite <- list_fmap_compose. rewrite <- (Z2Nat.id n) at 2 by lia.
    generalize (Z.to_nat n) as k. intros k. generalize 0%nat as o.
    induction k as [|k IH]; intros o; [done|].
    cbn [seq]. rewrite fmap_cons. cbn [foldr]. rewrite IH. unfold compose. cbn [VolumeSize]. lia. }
  rewrite length_fmap, length_seq, Htot. split_and!.
  - lia.
  - rewrite <- list_fmap_compose. apply NoDup_fmap_2_strong; [|apply NoDup_seq].
    intros i j Hi Hj He. apply elem_of_seq in Hi, Hj. simpl in He.
    apply (slice_letter_inj i j); [lia|lia|].
    by apply (inj (String.append "/dev/xvd")) in He.
  - exact Hs.
  - intros Hnv. rewrite Hs, Hnv, <- !list_fmap_compose. done.
  - split; [|intros H0; by apply Hz in H0 as ->].
    intros Hnil. apply Hz. apply (f_equal length) in Hnil.
    rewrite length_fmap, length_seq in Hnil. cbn [length] in Hnil. lia.
  - intros HS. destruct (Hsmall HS) as [-> ?]. done.
  - intros HB. destruct (Hbig HB) as (-> & _ & ?). done.
Qed.

(** ** Marshal *)

(** The file a unit is installed as, and the command that starts it. *)
Definition unit_file (u : CloudUnit) : CloudFile :=
  {| Path := unit_path (Name u); Permissions := "0644"; Owner := ""; f_Content := Content u |}.

Definition unit_command (u : CloudUnit) : string :=
  "systemctl " +:+ (if Sync u then "" else "--no-block ") +:+ Command u +:+ " " +:+ Name u.

Lemma foldl_install us c :
  foldl install_unit c us =
    {| cc_Flavor := cc_Flavor c;
       WriteFiles := WriteFiles c ++ (unit_file <$> filter (fun u => Content u <> "") us);
       RebootStrategy := RebootStrategy c; CoreOS_Units := CoreOS_Units c;
       SshAuthorizedKeys := SshAuthorizedKeys c;
       RunCmd := RunCmd c ++ (unit_command <$> us); Mounts := Mounts c; units := units c |}.
Proof.
  revert c. induction us as [|u us IH]; intros c; simpl.
  - rewrite !app_nil_r. by destruct c.
  - rewrite IH. rewrite filter_cons. unfold install_unit, unit_command.
    destruct (decide (Content u <> "")); destruct (Sync u); simpl; by rewrite <- !app_assoc.
Qed.

(** What cloud-init gets.  On Flatcar the units are passed as they are.  On
    other systems every unit with contents becomes a file in
    /etc/systemd/system, after the other files and in the order the units were
    added; then systemd is reloaded once, before any unit is started; and every
    unit is started, in that order, waiting for it only if it is Sync.
    Everything else (keys, mounts, earlier commands) is passed unchanged. *)
Lemma rendered_units c :
  cc_Flavor (rendered c) = cc_Flavor c /\ RebootStrategy (rendered c) = RebootStrategy c /\
  SshAuthorizedKeys (rendered c) = SshAuthorizedKeys c /\ Mounts (rendered c) = Mounts c /\
  if decide (cc_Flavor c = Flatcar) then
    CoreOS_Units (rendered c) = units c /\ WriteFiles (rendered c) = WriteFiles c /\
    RunCmd (rendered c) = RunCmd c
  else
    CoreOS_Units (rendered c) = CoreOS_Units c /\
    WriteFiles (rendered c) =
      WriteFiles c ++ (unit_file <$> filter (fun u => Content u <> "") (units c)) /\
    RunCmd (rendered c) =
      RunCmd c ++ (if decide (units c = []) then []
                   else "systemctl daemon-reload" :: (unit_command <$> units c)).
Proof.
  unfold rendered. case_decide; [done|].
  rewrite foldl_install. destruct (units c) as [|u us] eqn:Hu.
  - rewrite (decide_False (P := [] <> [])) by (by intros []). simpl. by rewrite !app_nil_r.
  - rewrite !decide_True by done. rewrite decide_False by done.
    cbn [cc_Flavor WriteFiles RebootStrategy CoreOS_Units SshAuthorizedKeys RunCmd Mounts AppendRunCmd].
    by rewrite <- !app_assoc.
Qed.

Module Samples.

Definition s9000 : System :=
  {| s_Flavor := Ubuntu; SshKeys := []; Diskspace := 200; Dataspace := 9024; Binary := "https://b/ec2boot";
     AdditionalFiles := []; AdditionalUnits := []; NVMe := false; authority_Contents := "pem";
     immortal := false |}.

Lemma data_volume_witness :
  (9024 - 25 < foldr Z.add 0 (VolumeSize <$> data_mappings None s9000) <= 9024)%Z.
Proof.
  apply (data_volume None s9000); simpl; lia.
Defined.

End Samples.
