(* ===== verification/Ec2Start.v ===== *)
(** ec2system/ec2machine.go and config.go: configuring the EC2 system (Init)
    and launching instances (Start).

    The EC2 API, the rate limiter, package retry and the SSH and TLS libraries
    are parameters: their answers are arguments.  That errors.E makes an
    *errors.Error, which is not an AWS error, is the named hypothesis the
    theorems about retries use. *)
From S2P Require Import Prelude Errors GoStrings Instances Ec2Config.
From Stdlib Require Import QArith.
Local Open Scope string_scope.
Local Open Scope list_scope.
Local Open Scope Z_scope.

Definition defaultEc2BootPrefix : string :=
  "https://grail-public-bin.s3-us-west-2.amazonaws.com/linux/amd64/ec2boot".
Definition defaultEc2BootVersion : string := "0.5".
Definition defaultEc2Boot : string := defaultEc2BootPrefix +:+ defaultEc2BootVersion.

Section ec2.
Context {EL : ErrorsLib}.

(** ** Init *)

(** The fields of System that Init sets. *)
Record Sys := {
  InstanceType : string;
  AMI : string;
  Region : option string;
  DefaultRegion : string;
  sys_Diskspace : Z;
  sys_Binary : string;
  sys_SshKeys : list string;
  sys_config : option Type_
}.

(** The defaults. *)
Definition boot_binary (b : string) : string :=
  if decide (b = "") then defaultEc2Boot
  else if bool_decide (b <> defaultEc2Boot) && HasPrefix b defaultEc2BootPrefix then defaultEc2Boot
  else b.

Definition with_defaults (s : Sys) : Sys :=
  {| InstanceType := if decide (InstanceType s = "") then "m3.medium" else InstanceType s;
     AMI := if decide (AMI s = "") then "ami-0bb54692374ac10a7" else AMI s;
     Region := match Region s with
               | Some r => Some r
               | None => Some (if decide (DefaultRegion s = "") then "us-west-2" else DefaultRegion s)
               end;
     DefaultRegion := DefaultRegion s;
     sys_Diskspace := if decide (sys_Diskspace s = 0) then 200 else sys_Diskspace s;
     sys_Binary := boot_binary (sys_Binary s);
     sys_SshKeys := sys_SshKeys s;
     sys_config := sys_config s |}.

(** The answers Init depends on: the check for a linux/amd64 image on other
    platforms, the session's public key, the user's keys (the file and the
    agent), the AWS session and the certificate authority. *)
Record init_env := {
  env_image : option error;
  env_sessionKey : result error string;
  env_userKeys : list string;
  env_NewSession : option error;
  env_authority : option error
}.

Definition invalid_type (t : string) : error := New ("invalid instance type " +:+ t).
Definition unavailable_type (t r : string) : error :=
  New ("instance type " +:+ t +:+ " not available in region " +:+ r).

(** The part of Init that checks the instance type: the error, and s.config,
    which is set also to the entry that is refused, and to the zero value, here
    [None], when there is no entry. *)
Definition lookup_type (s : Sys) : option error * option Type_ :=
  match instanceTypes !! InstanceType s with
  | None => (Some (invalid_type (InstanceType s)), None)
  | Some t =>
      let region := default "" (Region s) in
      (if Qeq_bool (price_in region t) 0 then Some (unavailable_type (InstanceType s) region)
       else None, Some t)
  end.

Definition set_config (c : option Type_) (s : Sys) : Sys :=
  {| InstanceType := InstanceType s; AMI := AMI s; Region := Region s; DefaultRegion := DefaultRegion s;
     sys_Diskspace := sys_Diskspace s; sys_Binary := sys_Binary s; sys_SshKeys := sys_SshKeys s;
     sys_config := c |}.

Definition append_keys (ks : list string) (s : Sys) : Sys :=
  {| InstanceType := InstanceType s; AMI := AMI s; Region := Region s; DefaultRegion := DefaultRegion s;
     sys_Diskspace := sys_Diskspace s; sys_Binary := sys_Binary s; sys_SshKeys := sys_SshKeys s ++ ks;
     sys_config := sys_config s |}.

(** System.Init: the error and the system it leaves, on every branch. *)
Definition Init (env : init_env) (s : Sys) : option error * Sys :=
  match env_image env with
  | Some e => (Some e, s)
  | None =>
      let s := with_defaults s in
      let '(err, config) := lookup_type s in
      let s := set_config config s in
      match err with
      | Some e => (Some e, s)
      | None =>
          match env_sessionKey env with
          | Err e => (Some e, s)
          | Ok key =>
              let s := append_keys (env_userKeys env) (append_keys [key] s) in
              match env_NewSession env with
              | Some e => (Some e, s)
              | None => (env_authority env, s)
              end
          end
      end
  end.

(** ** Start: the image *)

(** The types of error the code looks at: the severity of an *errors.Error, and
    the code of an AWS error. *)
Variable as_Error : error -> option Severity.
Variable awserr_Code : error -> option string.

(** describeImages is a once.Map: for each AMI, the result of the function that
    ran, until it is forgotten. *)
Abbreviation once_map := (gmap string (option error)).

(** The function run under describeImages. *)
Definition describe_image (ami : string) (out : result error (list string)) : option error :=
  match out with
  | Err e => Some e
  | Ok images =>
      if decide (length images <> 1%nat \/ head images <> Some ami)
      then Some (E [ASev Fatal; AMsg "image not found"]) else None
  end.

(** describeImages.Do and, after an error, the decision to forget it. *)
Definition describe_once (ami : string) (out : result error (list string)) (m : once_map) :
    option error * once_map :=
  let '(err, m) := match m !! ami with
                   | Some r => (r, m)
                   | None => let r := describe_image ami out in (r, <[ami := r]> m)
                   end in
  match err with
  | None => (None, m)
  | Some e =>
      (Some (E [AMsg "describe-images"; AMsg ami; AErr e]),
       match as_Error e with
       | Some sev => if decide (sev <> Fatal) then delete ami m else m
       | None => m
       end)
  end.

(** ** Start: launching *)

(** A run may also panic (an index out of range). *)
Inductive launch := Launched (ids : list string) | LaunchError (e : error) | LaunchPanic.

(** The on-demand variant of run, with the answer of RunInstances. *)
Definition run_ondemand (resv : result error (list string)) : launch :=
  match resv with
  | Err e => LaunchError (E [AMsg "run-instances"; AErr e])
  | Ok [] => LaunchError (E [AKind Invalid; AMsg "expected at least 1 instance"])
  | Ok ids => Launched ids
  end.

(** The spot variant, with the answers of RequestSpotInstances, the wait, and
    DescribeSpotInstanceRequests (an instance id may be nil).  The check of the
    number of entries compares the number of requests with itself. *)
Definition run_spot (req : result error (list string)) (wait : option error)
    (describe : result error (list (option string))) : launch :=
  match req with
  | Err e => LaunchError (E [AMsg "request-spot-instances"; AErr e])
  | Ok [] => LaunchError (E [AKind Invalid; AMsg "ec2.RequestSpotInstances: got 0 entries"])
  | Ok ids =>
      let n := length ids in
      let describeInput := ids in
      match wait with
      | Some e => LaunchError (E [AMsg "wait-until-spot-instance-request-fulfilled"; AErr e])
      | None =>
          match describe with
          | Err e => LaunchError (E [AMsg "describe-spot-instance-requests"; AErr e])
          | Ok rs =>
              if decide (n <> length describeInput)
              then LaunchError (New "ec2.DescribeSpotInstanceRequests: wrong number of entries")
              else if decide (length rs < n)%nat then LaunchPanic
              else Launched (default "" <$> take n rs)
          end
      end
  end.

(** What the API answers to the k-th attempt. *)
Inductive attempt :=
| OnDemandAnswer (resv : result error (list string))
| SpotAnswer (req : result error (list string)) (wait : option error)
    (describe : result error (list (option string))).

Definition run (a : attempt) : launch :=
  match a with
  | OnDemandAnswer r => run_ondemand r
  | SpotAnswer r w d => run_spot r w d
  end.

(** The loop around run: the outcome and the number of attempts made; [None]
    if the fuel is used up. *)
Fixpoint launch_loop (fuel retries : nat) (limiter_Wait : nat -> option error)
    (answers : nat -> attempt) (retry_Wait : nat -> option error) : option (launch * nat) :=
  match fuel with
  | O => None
  | S fuel =>
      match limiter_Wait retries with
      | Some e => Some (LaunchError e, retries)
      | None =>
          match run (answers retries) with
          | LaunchError e =>
              if decide (awserr_Code e <> Some "RequestLimitExceeded")
              then Some (LaunchError e, S retries)
              else match retry_Wait retries with
                   | Some e => Some (LaunchError e, S retries)
                   | None => launch_loop fuel (S retries) limiter_Wait answers retry_Wait
                   end
          | o => Some (o, S retries)
          end
      end
  end.

(** ** Start: the machines *)

(** ec2.Instance: strings may be nil. *)
Record Instance := {
  InstanceId : option string;
  PublicDnsName : option string;
  PublicIpAddress : option string;
  PrivateIpAddress : option string
}.

(** getAddress *)
Definition getAddress (i : Instance) : string :=
  default "" (head (filter (fun v => v <> "")
    (default "" <$> [PublicDnsName i; PublicIpAddress i; PrivateIpAddress i]))).

(** The tag with the command line. *)
Definition tag_value (tag : string) : string :=
  if decide (250 < String.length tag)%nat then String.substring 0 250 tag +:+ "..." else tag.

Record Started := { m_Addr : string; m_Maxprocs : Z }.

Definition machine_addr (useInstanceIDSuffix : bool) (i : Instance) : string :=
  "https://" +:+ getAddress i +:+ "/" +:+
    (if useInstanceIDSuffix then default "" (InstanceId i) +:+ "/" else "").

(** The loop that makes the machines. *)
Fixpoint make_machines (suffix : bool) (vcpu : Z) (insts : list Instance) : result error (list Started) :=
  match insts with
  | [] => Ok []
  | i :: insts =>
      if decide (getAddress i = "") then
        Err (New "ec2.DescribeInstances: no dns name or ip addresss available")
      else
        match make_machines suffix vcpu insts with
        | Err e => Err e
        | Ok ms => Ok ({| m_Addr := machine_addr suffix i; m_Maxprocs := vcpu |} :: ms)
        end
  end.

(** From the launched instances to the machines: the wait until they run, and
    DescribeInstances (reservations of instances).  After a failed wait, the
    variable err is overwritten by the result of DescribeInstances. *)
Definition await_instances (suffix : bool) (vcpu : Z) (ids : list string) (wait : option error)
    (describe : result error (list (list Instance))) : result error (list Started) :=
  match wait with
  | Some _ =>
      match describe with
      | Err e => Err e
      | Ok _ => Ok []
      end
  | None =>
      match describe with
      | Err e => Err e
      | Ok reservations =>
          match reservations with
          | [insts] =>
              if decide (length insts <> length ids)
              then Err (E [AKind Invalid; AMsg "ec2.DescribeInstances: invalid output"])
              else make_machines suffix vcpu insts
          | _ => Err (E [AKind Invalid; AMsg "ec2.DescribeInstances: invalid output"])
          end
      end
  end.

(** Everything Start is answered. *)
Record start_env := {
  se_Marshal : option error;
  se_DescribeImages : result error (list string);
  se_limiter : nat -> option error;
  se_attempts : nat -> attempt;
  se_retry : nat -> option error;
  se_WaitRunning : option error;
  se_DescribeInstances : result error (list (list Instance))
}.

(** How Start ends. *)
Inductive start_outcome := StartReturns (r : result error (list Started)) | StartPanics.

(** System.Start, with the number of launch attempts it made. *)
Definition Start (fuel : nat) (env : start_env) (suffix : bool) (s : Sys) (m : once_map) :
    option (start_outcome * nat * once_map) :=
  match se_Marshal env with
  | Some e => Some (StartReturns (Err (New ("failed to marshal cloud-config: " +:+ Error e))), 0%nat, m)
  | None =>
      let '(err, m) := describe_once (AMI s) (se_DescribeImages env) m in
      match err with
      | Some e => Some (StartReturns (Err e), 0%nat, m)
      | None =>
          match launch_loop fuel 0 (se_limiter env) (se_attempts env) (se_retry env) with
          | None => None
          | Some (LaunchPanic, n) => Some (StartPanics, n, m)
          | Some (LaunchError e, n) => Some (StartReturns (Err e), n, m)
          | Some (Launched ids, n) =>
              Some (StartReturns (await_instances suffix (default 0 (VCPU <$> sys_config s)) ids
                      (se_WaitRunning env) (se_DescribeInstances env)), n, m)
          end
      end
  end.

(** System.KeepaliveConfig: period, timeout and RPC timeout. *)
Definition KeepaliveConfig : Z * Z * Z := (60 * 1000000000, 600 * 1000000000, 120 * 1000000000).

End ec2.

(** ** Init *)

Section init_theorems.
Context {EL : ErrorsLib}.

Lemma with_defaults_Region s : exists r, Region (with_defaults s) = Some r.
Proof. simpl. destruct (Region s); by eexists. Qed.

(** What Init accepts.  If Init returns nil, the system is configured with
    an entry of the instance table that has the requested name (m3.medium by
    default) and a price in the requested region (the default region, or
    us-west-2), so that a spot price can be quoted; the bootstrap binary is the
    one given, unless it is an older default, which is replaced by the current
    one; and the session's own key is installed before the user's. *)
Lemma Init_configures env s s' :
  Init env s = (None, s') ->
     exists t region,
       sys_config s' = Some t /\ Region s' = Some region /\ (t ∈ Types) /\
       Instances.Name t = InstanceType s' /\ (region ∈ (Price t).*1) /\
       InstanceType s' = (if decide (InstanceType s = "") then "m3.medium" else InstanceType s) /\
       (forall r, Region s = Some r -> region = r) /\
       (HasPrefix (sys_Binary s) defaultEc2BootPrefix = false -> sys_Binary s <> "" ->
          sys_Binary s' = sys_Binary s) /\
       (HasPrefix (sys_Binary s) defaultEc2BootPrefix = true \/ sys_Binary s = "" ->
          sys_Binary s' = defaultEc2Boot) /\
       exists key, env_sessionKey env = Ok key /\
         sys_SshKeys s' = (sys_SshKeys s ++ [key]) ++ env_userKeys env.
Proof.
  unfold Init. intros H. destruct (env_image env); [done|].
  unfold lookup_type in H.
  destruct (instanceTypes !! InstanceType (with_defaults s)) as [t|] eqn:Ht; [|done].
  destruct (with_defaults_Region s) as [region Hr]. rewrite Hr in H. simpl default in H.
  destruct (Qeq_bool (price_in region t) 0) eqn:Hp; [done|].
  destruct (env_sessionKey env) as [key|]; [|done].
  destruct (env_NewSession env); [done|].
  injection H as _ <-. apply instanceTypes_spec in Ht as [Hin Hn].
  exists t, region. cbn [set_config append_keys sys_config Region InstanceType sys_Binary sys_SshKeys].
  split; [done|]. split; [done|]. split; [done|]. split; [done|]. split.
  { destruct (decide (region ∈ (Price t).*1)) as [|Hnot]; [done|].
    apply (available t region Hin) in Hnot. apply Qeq_bool_iff in Hnot. congruence. }
  split; [done|]. split; [intros r Hreg; simpl in Hr; rewrite Hreg in Hr; congruence|].
  split; [|split; [|by exists key]].
  + intros Hb Hne. simpl. unfold boot_binary. rewrite decide_False by done.
    by rewrite Hb, andb_false_r.
  + intros Hb. simpl. unfold boot_binary. case_decide; [done|].
    destruct Hb as [Hb|Hb]; [|done]. rewrite Hb, andb_true_r.
    by case_bool_decide.
Qed.

(** A failed Init leaves what it has set: after the session or the authority
    failed, its key and the user's are there, and a second Init adds to them; the
    instances then admit two session keys. *)
Lemma Init_again env env' s s1 s2 e key key' :
  Init env s = (Some e, s1) -> env_image env = None -> (lookup_type (with_defaults s)).1 = None ->
  env_sessionKey env = Ok key -> Init env' s1 = (None, s2) -> env_sessionKey env' = Ok key' ->
  sys_SshKeys s2 = (((sys_SshKeys s ++ [key]) ++ env_userKeys env) ++ [key']) ++ env_userKeys env'.
Proof.
  intros H1 Himg Hty Hkey H2 Hkey'.
  destruct (Init_configures env' s1 s2 H2) as (t & region & H). destruct H as (_&_&_&_&_&_&_&_&_&k&Hk&->).
  assert (Hs1 : sys_SshKeys s1 = (sys_SshKeys s ++ [key]) ++ env_userKeys env).
  { unfold Init in H1. rewrite Himg, Hkey in H1. destruct (lookup_type _) as [err c]. simpl in Hty.
    subst err. destruct (env_NewSession env); [by injection H1 as _ <-|]. by injection H1 as _ <-. }
  rewrite Hs1. congruence.
Qed.

(** The zero configuration is accepted. *)
Example Init_zero (key : string) :
  Init {| env_image := None; env_sessionKey := Ok key; env_userKeys := []; env_NewSession := None;
          env_authority := None |}
    {| InstanceType := ""; AMI := ""; Region := None; DefaultRegion := ""; sys_Diskspace := 0;
       sys_Binary := ""; sys_SshKeys := []; sys_config := None |} =
  (None, {| InstanceType := "m3.medium"; AMI := "ami-0bb54692374ac10a7"; Region := Some "us-west-2";
            DefaultRegion := ""; sys_Diskspace := 200; sys_Binary := defaultEc2Boot;
            sys_SshKeys := [key]; sys_config := Some m3_medium |}).
Proof. vm_compute. reflexivity. Qed.
End init_theorems.

(** ** Start *)

Section start_theorems.
Context {EL : ErrorsLib}.
Variable as_Error : error -> option Severity.
Variable awserr_Code : error -> option string.
(** errors.E returns an *errors.Error, which does not implement awserr.Error. *)
Hypothesis E_not_awserr : forall args, awserr_Code (E args) = None.

Lemma run_not_awserr a e : run a = LaunchError e -> awserr_Code e = None.
Proof.
  destruct a as [[[|id ids]|e']|[[|id ids]|e'] w d]; simpl; try (intros [= <-]; apply E_not_awserr).
  destruct w as [e'|]; [intros [= <-]; apply E_not_awserr|].
  destruct d as [rs|e']; [|intros [= <-]; apply E_not_awserr].
  rewrite decide_False by (by intros []). by case_decide.
Qed.

Lemma launch_loop_once fuel lw answers rw :
  launch_loop awserr_Code (S fuel) 0 lw answers rw =
    Some match lw 0%nat with
         | Some e => (LaunchError e, 0%nat)
         | None => (run (answers 0%nat), 1%nat)
         end.
Proof.
  cbn [launch_loop]. destruct (lw 0%nat); [done|].
  destruct (run (answers 0%nat)) as [ids|e|] eqn:Hr; [done| |done].
  by rewrite decide_True by (rewrite (run_not_awserr _ _ Hr); done).
Qed.

(** Errors that Start loses.  It always returns, and (1) it never retries a
    launch: the errors of the API are wrapped before the loop looks for the AWS
    code RequestLimitExceeded, so there is at most one attempt; (2) when the
    launched instances do not come up, the error of the wait is overwritten by
    the success of DescribeInstances, and Start returns no machines and no
    error; (3) when DescribeImages fails with an error that is not an
    *errors.Error, as those of the AWS client are, the failure is remembered,
    and every later Start for this image fails with it, whatever the API would
    answer. *)
Lemma Start_loses_errors fuel env suffix s m :
  exists o n m',
    Start as_Error awserr_Code (S fuel) env suffix s m = Some (o, n, m') /\ (n <= 1)%nat /\
    (forall ids e ds,
       se_Marshal env = None -> (describe_once as_Error (AMI s) (se_DescribeImages env) m).1 = None ->
       se_limiter env 0%nat = None -> run (se_attempts env 0%nat) = Launched ids ->
       se_WaitRunning env = Some e -> se_DescribeInstances env = Ok ds ->
       o = StartReturns (Ok [])) /\
    (forall e, se_Marshal env = None -> m !! AMI s = None ->
       se_DescribeImages env = Err e -> as_Error e = None ->
       forall env' fuel' suffix' s', AMI s' = AMI s -> se_Marshal env' = None ->
       exists e', (Start as_Error awserr_Code fuel' env' suffix' s' m' =
                     Some (StartReturns (Err e'), 0%nat, m')) /\
                  e' = E [AMsg "describe-images"; AMsg (AMI s); AErr e]).
Proof.
  unfold Start at 1. destruct (se_Marshal env) as [em|].
  { eexists _, _, _. split; [done|]. split; [lia|]. split; intros; done. }
  destruct (describe_once as_Error (AMI s) (se_DescribeImages env) m) as [err m'] eqn:Hd.
  assert (Hstick : forall e, m !! AMI s = None -> se_DescribeImages env = Err e -> as_Error e = None ->
    forall env' fuel' suffix' s', AMI s' = AMI s -> se_Marshal env' = None ->
    exists e', Start as_Error awserr_Code fuel' env' suffix' s' m' =
      Some (StartReturns (Err e'), 0%nat, m') /\
      e' = E [AMsg "describe-images"; AMsg (AMI s); AErr e]).
  { intros e Hm He Hase env' fuel' suffix' s' Hami Hmar.
    unfold describe_once in Hd. rewrite Hm, He in Hd. simpl in Hd. rewrite Hase in Hd.
    injection Hd as <- <-. eexists. split; [|done].
    unfold Start. rewrite Hmar, Hami. unfold describe_once. rewrite lookup_insert_eq.
    by rewrite Hase. }
  destruct err as [e0|].
  { eexists _, _, _. split; [done|]. split; [lia|]. split; [by intros|]. intros e _. apply Hstick. }
  rewrite launch_loop_once.
  destruct (se_limiter env 0%nat) as [e0|] eqn:Hl.
  { eexists _, _, _. split; [done|]. split; [lia|]. split; [by intros|]. intros e _. apply Hstick. }
  destruct (run (se_attempts env 0%nat)) as [ids|e0|] eqn:Hrun.
  - eexists _, _, _. split; [done|]. split; [lia|]. split; [|intros e _; apply Hstick].
    intros ids' e ds _ _ _ [= <-] Hw Hdi. unfold await_instances. by rewrite Hw, Hdi.
  - eexists _, _, _. split; [done|]. split; [lia|]. split; [by intros|]. intros e _. apply Hstick.
  - eexists _, _, _. split; [done|]. split; [lia|]. split; [by intros|]. intros e _. apply Hstick.
Qed.

Lemma getAddress_first i v :
  In v [PublicDnsName i; PublicIpAddress i; PrivateIpAddress i] -> default "" v <> "" ->
  getAddress i <> "".
Proof.
  unfold getAddress. intros Hin Hv. destruct (filter _ _) as [|a l] eqn:Hf.
  - intros _. apply (not_elem_of_nil (default "" v)). rewrite <- Hf.
    apply list_elem_of_filter. split; [done|]. apply list_elem_of_fmap. exists v.
    split; [done|]. by apply list_elem_of_In.
  - simpl. assert (Ha : a ∈ a :: l) by left. rewrite <- Hf in Ha.
    by apply list_elem_of_filter in Ha as [Ha _].
Qed.

Lemma make_machines_spec suffix vcpu insts ms :
  make_machines suffix vcpu insts = Ok ms <->
    Forall (fun i => getAddress i <> "") insts /\
    ms = (fun i => {| m_Addr := machine_addr suffix i; m_Maxprocs := vcpu |}) <$> insts.
Proof.
  revert ms. induction insts as [|i insts IH]; intros ms; simpl.
  - split; [intros [= <-]; by split|by intros [_ ->]].
  - rewrite Forall_cons. case_decide as Hi.
    + split; [done|]. by intros [[H _] _].
    + destruct (make_machines suffix vcpu insts) as [ms'|e].
      * split.
        -- intros [= <-]. destruct (proj1 (IH ms') eq_refl) as [H ->]. done.
        -- intros [[_ H] ->]. do 2 f_equal. by apply (proj1 (IH ms') eq_refl).
      * split; [done|]. intros [[_ H] _]. by specialize (proj2 (IH _) (conj H eq_refl)).
Qed.

(** What a successful launch returns: one machine for every launched instance,
    in the order of DescribeInstances, with the address of its instance and the
    processors of its type. *)
Lemma Start_returns_all fuel env suffix s m ms n m' :
  Start as_Error awserr_Code (S fuel) env suffix s m = Some (StartReturns (Ok ms), n, m') -> ms <> [] ->
  exists ids insts,
    run (se_attempts env 0%nat) = Launched ids /\ se_WaitRunning env = None /\
    se_DescribeInstances env = Ok [insts] /\ length insts = length ids /\ length ms = length ids /\
    Forall (fun i => getAddress i <> "") insts /\
    m_Addr <$> ms = machine_addr suffix <$> insts /\
    Forall (fun x => m_Maxprocs x = default 0 (VCPU <$> sys_config s)) ms.
Proof.
  unfold Start. destruct (se_Marshal env); [done|].
  destruct (describe_once _ _ _ _) as [[e|] m1]; [done|].
  rewrite launch_loop_once. destruct (se_limiter env 0%nat); [done|].
  destruct (run (se_attempts env 0%nat)) as [ids|e|]; [|done|done].
  intros [= H _ _] Hne. exists ids. unfold await_instances in H.
  destruct (se_WaitRunning env); destruct (se_DescribeInstances env) as [rs|]; simplify_eq.
  destruct rs as [|insts [|]]; [done| |done]. case_decide as Hlen; [done|].
  apply make_machines_spec in H as [Hall ->].
  exists insts. rewrite length_fmap. split_and!; try done.
  - by rewrite <- list_fmap_compose.
  - apply Forall_fmap, Forall_forall. done.
Qed.
End start_theorems.

(** ** Sample launches *)

Module Samples.

Definition as_err (e : serror) : option Severity :=
  match e with SErr _ s _ | SWrap _ s _ _ => Some s | _ => None end.

(** AWS errors are foreign ones. *)
Definition aws_code (e : serror) : option string :=
  match e with SOther c => Some c | _ => None end.

Lemma aws_code_E args : aws_code (@E SimpleErrors args) = None.
Proof. simpl. unfold serror_E. by destruct (arg_cause args). Qed.

Definition sys : Sys :=
  {| InstanceType := "m3.medium"; AMI := "ami"; Region := Some "us-west-2"; DefaultRegion := "";
     sys_Diskspace := 200; sys_Binary := ""; sys_SshKeys := []; sys_config := Some m3_medium |}.

Definition inst : Instance :=
  {| InstanceId := Some "i-1"; PublicDnsName := None; PublicIpAddress := Some "1.2.3.4";
     PrivateIpAddress := Some "10.0.0.1" |}.

Definition answers (wait : option serror) (images : result serror (list string)) :
    start_env :=
  {| se_Marshal := None; se_DescribeImages := images; se_limiter := fun _ => None;
     se_attempts := fun _ => OnDemandAnswer (Ok ["i-1"]); se_retry := fun _ => None;
     se_WaitRunning := wait; se_DescribeInstances := Ok [[inst]] |}.

Lemma Start_loses_errors_sample :
  exists o n m',
    Start (EL := SimpleErrors) as_err aws_code 1 (answers (Some (SOther "timeout")) (Ok ["ami"])) true sys ∅ =
    Some (o, n, m') /\ o = StartReturns (Ok []).
Proof.
  destruct (Start_loses_errors (EL := SimpleErrors) as_err aws_code aws_code_E 0
    (answers (Some (SOther "timeout")) (Ok ["ami"])) true sys ∅) as (o & n & m' & H & _ & Hlost & _).
  exists o, n, m'. split; [exact H|].
  exact (Hlost ["i-1"] (SOther "timeout") [[inst]] eq_refl eq_refl eq_refl eq_refl eq_refl eq_refl).
Defined.

End Samples.
