(* ===== verification/Ec2System.v ===== *)
(** ec2system/ec2machine.go and config.go: the rest of the EC2 system - what is
    asked of the API, its configuration profile, its HTTP client and server, and
    the commands it runs on its instances over SSH - and the system as the
    client of B.Start sees it.

    Package ssh, retry and once, the instance metadata and the URL parser answer
    through arguments. *)
From S2P Require Import Prelude Errors GoStrings Instances Ec2Config Ec2Start Cluster System Authority.
From Stdlib Require Import Ascii QArith.
Local Open Scope string_scope.
Local Open Scope list_scope.
Local Open Scope Z_scope.

(** ** Configuration: config.go *)

Section config.
Context {EL : ErrorsLib}.

(** The settings of the profile bigmachine/ec2system, and their defaults. *)
Record config_flags := {
  cf_ondemand : bool;
  cf_instance : string;
  cf_ami : string;
  cf_flavor : string;
  cf_instance_profile : string;
  cf_security_group : string;
  cf_default_region : string;
  cf_diskspace : Z;
  cf_dataspace : Z;
  cf_binary : string;
  cf_sshkey : string;
  cf_username : string
}.

Definition config_defaults : config_flags :=
  {| cf_ondemand := false; cf_instance := "m3.medium"; cf_ami := "ami-0bb54692374ac10a7"; cf_flavor := "flatcar";
     cf_instance_profile := ""; cf_security_group := ""; cf_default_region := "us-west-2"; cf_diskspace := 200;
     cf_dataspace := 0; cf_binary := ""; cf_sshkey := ""; cf_username := "" |}.

(** The system that constr.New makes of the settings. *)
Record profile := {
  pr_OnDemand : bool;
  pr_InstanceType : string;
  pr_AMI : string;
  pr_InstanceProfile : string;
  pr_SecurityGroup : string;
  pr_DefaultRegion : string;
  pr_Binary : string;
  pr_Username : string;
  pr_Flavor : Flavor;
  pr_Diskspace : Z;
  pr_Dataspace : Z;
  pr_SshKeys : list string
}.

(** constr.New; uint converts a negative int modulo 2^64. *)
Definition config_New (f : config_flags) : result error profile :=
  let finish fl :=
    Ok {| pr_OnDemand := cf_ondemand f; pr_InstanceType := cf_instance f; pr_AMI := cf_ami f;
          pr_InstanceProfile := cf_instance_profile f; pr_SecurityGroup := cf_security_group f;
          pr_DefaultRegion := cf_default_region f; pr_Binary := cf_binary f; pr_Username := cf_username f;
          pr_Flavor := fl; pr_Diskspace := wrapu64 (cf_diskspace f); pr_Dataspace := wrapu64 (cf_dataspace f);
          pr_SshKeys := Split (cf_sshkey f) ","%char |} in
  if decide (cf_flavor f = "flatcar") then finish Flatcar
  else if decide (cf_flavor f = "ubuntu") then finish Ubuntu
  else Err (E [AKind Invalid; AMsg ("flavor must be one of {flatcar, ubuntu}: " +:+ cf_flavor f)]).

(** The defaults of the profile are those that Init falls back on - but for the
    keys: an empty setting makes one empty key. *)
Lemma config_defaults_agree :
  exists p, config_New config_defaults = Ok p /\ pr_SshKeys p = [""] /\
    let z := with_defaults {| InstanceType := ""; AMI := ""; Region := None; DefaultRegion := "";
                              sys_Diskspace := 0; sys_Binary := ""; sys_SshKeys := []; sys_config := None |} in
    InstanceType z = pr_InstanceType p /\ AMI z = pr_AMI p /\ Region z = Some (pr_DefaultRegion p) /\
    sys_Diskspace z = pr_Diskspace p.
Proof. eexists. split; [reflexivity|]. done. Qed.

(** The keys of the user that Init adds: the file, and those of the agent,
    which answers if its socket is named and can be dialed. *)
Definition readSshAgentKeys (agentSock : string) (dial : option error) (listed : result error (list string)) :
    list string :=
  if decide (agentSock = "") then []
  else match dial with
       | Some _ => []
       | None => match listed with Ok keys => keys | Err _ => [] end
       end.

Definition userSshKeys (id_rsa_pub : result error string) (agent : list string) : list string :=
  match id_rsa_pub with Ok k => [k] | Err _ => [] end ++ agent.
End config.

(** ** Requests to the API: System.Start *)

(** The settings of the system that a request carries. *)
Record settings := {
  st_Subnet : string;
  st_SecurityGroup : string;
  st_SecurityGroups : list string;
  st_InstanceProfile : string;
  st_EC2KeyName : string;
  st_AMI : string;
  st_type : Type_;
  st_region : string
}.

(** ec2.RunInstancesInput and ec2.RequestSpotInstancesInput with its launch
    specification; a field that one of them does not have is [None].  The spot
    price is sent with three decimals. *)
Record launch_request := {
  rq_count : Z;
  rq_MinCount : option Z;
  rq_SpotPrice : option Q;
  rq_ValidUntil : option Z;
  rq_SubnetId : string;
  rq_ImageId : string;
  rq_BlockDeviceMappings : list BlockDevice;
  rq_EbsOptimized : bool;
  rq_Arn : string;
  rq_InstanceType : string;
  rq_UserData : string;
  rq_SecurityGroupIds : list string;
  rq_KeyName : option string;
  rq_Monitoring : option bool;
  rq_ShutdownBehavior : option string
}.

Definition securityGroups (s : settings) : list string :=
  if decide (0 < length (st_SecurityGroups s))%nat then st_SecurityGroups s else [st_SecurityGroup s].

Definition ec2KeyName (s : settings) : option string :=
  if decide (0 < String.length (st_EC2KeyName s))%nat then Some (st_EC2KeyName s) else None.

(** The on-demand request. *)
Definition RunInstancesInput (s : settings) (count : Z) (devices : list BlockDevice) (userData : string) :
    launch_request :=
  {| rq_count := count; rq_MinCount := Some 1; rq_SpotPrice := None; rq_ValidUntil := None;
     rq_SubnetId := st_Subnet s; rq_ImageId := st_AMI s; rq_BlockDeviceMappings := devices;
     rq_EbsOptimized := EBSOptimized (st_type s); rq_Arn := st_InstanceProfile s;
     rq_InstanceType := Instances.Name (st_type s); rq_UserData := userData;
     rq_SecurityGroupIds := securityGroups s; rq_KeyName := ec2KeyName s;
     rq_Monitoring := Some true; rq_ShutdownBehavior := Some "terminate" |}.

(** The spot request, at time [now]. *)
Definition RequestSpotInstancesInput (s : settings) (now count : Z) (devices : list BlockDevice)
    (userData : string) : launch_request :=
  {| rq_count := count; rq_MinCount := None; rq_SpotPrice := Some (price_in (st_region s) (st_type s));
     rq_ValidUntil := Some (now + 60 * 1000000000);
     rq_SubnetId := st_Subnet s; rq_ImageId := st_AMI s; rq_BlockDeviceMappings := devices;
     rq_EbsOptimized := EBSOptimized (st_type s); rq_Arn := st_InstanceProfile s;
     rq_InstanceType := Instances.Name (st_type s); rq_UserData := userData;
     rq_SecurityGroupIds := securityGroups s; rq_KeyName := ec2KeyName s;
     rq_Monitoring := None; rq_ShutdownBehavior := None |}.

(** The tags of the launched instances, set by a goroutine of Start: the value
    of Name is that of [tag_value] (Ec2Start.v), on the text made of the user,
    the binary, its digest and the arguments. *)
Definition tag_text (Username binary short : string) (args : list string) : string :=
  Username +:+ ":" +:+ binary +:+ "(" +:+ short +:+ ") " +:+ Join args " " +:+ " (bigmachine)".

Definition CreateTags_Tags (Username binary short digest goarch goos : string) (args : list string)
    (AdditionalEC2Tags : list (string * string)) : list (string * string) :=
  [("Name", tag_value (tag_text Username binary short args)); ("GOARCH", goarch); ("GOOS", goos);
   ("Digest", digest); ("bigmachine", "true"); ("bigmachine:binary", binary)] ++ AdditionalEC2Tags.

(** EC2 limits the value of a tag to 255 characters. *)
Lemma tag_value_short (tag : string) : (String.length (tag_value tag) <= 253)%nat.
Proof.
  unfold tag_value. case_decide as Hl; [|lia]. rewrite sapp_length.
  assert (H : forall n t, (String.length (String.substring 0 n t) <= n)%nat).
  { intros n. induction n as [|n IH]; intros t; destruct t; simpl; try lia. specialize (IH t). lia. }
  specialize (H 250%nat tag). simpl. lia.
Qed.

(** ** Commands over SSH *)

Section ssh.
Context {EL : ErrorsLib}.

(** dialSSH: the user, for a flavor. *)
Definition ssh_user (fl : Flavor) : string :=
  match fl with
  | Flatcar => "core"
  | Ubuntu => "ubuntu"
  | OtherFlavor _ => "root"
  end.

(** How runSSH ends: it returns an error or nil, where [is_exit] tells whether the
    error is an *ssh.ExitError, the exit status of the command; or it does not end,
    as journalctl -f does not while its connection holds: runSSH has no context. *)
Record ssh_error := { se_err : error; is_exit : bool }.
Inductive ssh_end := Returns (err : option ssh_error) | RunsOn.

Definition ssh_fails (e : error) : string * ssh_end := ("", Returns (Some {| se_err := e; is_exit := false |})).

(** runSSH: its output and how it ends.  [dial], [session] and [command] are what
    ssh.Dial, NewSession and Run do. *)
Definition runSSH (signer dial session : option error) (command : string * ssh_end) : string * ssh_end :=
  match signer with
  | Some e => ssh_fails e
  | None =>
      match dial with
      | Some e => ssh_fails e
      | None =>
          match session with
          | Some e => ssh_fails e
          | None => command
          end
      end
  end.

Definition auth_prefix : string := "ssh: unable to authenticate".

(** Does the loop of run try again after this error? *)
Definition ssh_retried (e : ssh_error) : bool :=
  negb (HasPrefix (Error (se_err e)) auth_prefix) && negb (is_exit e).

(** What the reader of a command finds after the bytes it has read: the end, with
    an error ([None]: EOF), or nothing yet. *)
Inductive reader_end := Ended (e : option error) | Open.

(** run: the goroutine's loop.  [attempts k] is what the k-th runSSH did and
    [retry_Wait k] what the wait after it returned.  The result is what the
    reader reads, what it finds then and the number of attempts; [None] if the
    fuel is used up. *)
Fixpoint run_loop (fuel retries : nat) (attempts : nat -> string * ssh_end)
    (retry_Wait : nat -> option error) : option (string * reader_end * nat) :=
  match fuel with
  | O => None
  | S fuel =>
      let '(out, err) := attempts retries in
      match err with
      | RunsOn => Some (out, Open, S retries)
      | Returns None => Some (out, Ended None, S retries)
      | Returns (Some e) =>
          if HasPrefix (Error (se_err e)) auth_prefix then Some (out, Ended (Some (se_err e)), S retries)
          else if is_exit e then Some (out, Ended (Some (se_err e)), S retries)
          else match retry_Wait retries with
               | Some e => Some (out, Ended (Some e), S retries)
               | None =>
                   match run_loop fuel (S retries) attempts retry_Wait with
                   | None => None
                   | Some (rest, e, n) => Some (out +:+ rest, e, n)
                   end
               end
      end
  end.

Definition run_command (fuel : nat) := run_loop fuel 0.

(** System.Tail and System.Read: the host and the command they run, where
    [hostname] is what url.Parse and Hostname make of the machine's address. *)
Definition Tail (hostname : result error string) : result error (string * string) :=
  match hostname with
  | Err e => Err e
  | Ok h => Ok (h, "sudo journalctl --output=cat -n all -f -u bootmachine")
  end.

Definition Read (hostname : result error string) (filename : string) : result error (string * string) :=
  match hostname with
  | Err e => Err e
  | Ok h => Ok (h, "cat " +:+ filename)
  end.

(** ** Instance actions *)

(** monitorSpotActions: what is logged at a tick, given the answer of the
    metadata service (status and body, or an error of reading it) and what a
    limitbuf.Logger of 512 bytes makes of a text. *)
Definition spot_tick (limited : string -> string) (resp : result error (Z * result error string)) : option string :=
  match resp with
  | Err _ => None
  | Ok (status, body) =>
      if decide (status <> 200) then None
      else match body with
           | Err e => Some ("error reading meta-data/spot/instance-action response body: " +:+ Error e)
           | Ok b => Some ("spot instance action: " +:+ limited (String.substring 0 513 b))
           end
  end.

(** monitorSpotActions: what is logged, over the ticks with their answers up to
    the end of the context. *)
Inductive spot_event := SpotTick (resp : result error (Z * result error string)) | SpotDone.

Fixpoint monitorSpotActions (limited : string -> string) (l : list spot_event) : list string :=
  match l with
  | SpotTick resp :: l => option_list (spot_tick limited resp) ++ monitorSpotActions limited l
  | _ => []
  end.

(** System.Event: nothing without an eventer. *)
Definition Event {A : Type} (eventer : bool) (typ : string) (pairs : list A) : option (string * list A) :=
  if eventer then Some (typ, pairs) else None.
End ssh.

(** ** The HTTP client and server *)

Section http.
Context {EL : ErrorsLib} {X : X509}.

(** once.Task: the result of the function, once it has run. *)
Abbreviation once_task := (option (result error tls_Config)).

(** System.HTTPClient: the configuration is issued, and prepared for HTTP/2, by
    the first call only, at its time; the result is the client's configuration, or log.Fatalf. *)
Definition HTTPClient (serial : result error Z) (now : Z) (rk : result error key) (configure : option error)
    (c : T) (once : once_task) : (tls_Config + string) * once_task :=
  let r := match once with
           | Some r => r
           | None => match HTTPSConfig serial now rk c with
                     | Err e => Err e
                     | Ok (client, _) => Ok (with_protos (["h2"] ++ NextProtos client ++ ["http/1.1"]) client)
                     end
           end in
  (match r with
   | Err e => inr ("error build TLS configuration: " +:+ Error e)
   | Ok config =>
       match configure with
       | Some e => inr ("error configuring transport: " +:+ Error e)
       | None => inl config
       end
   end, Some r).

(** http.StripPrefix, on the path of a request: [None] is a 404. *)
Definition StripPrefix (prefix path : string) : option string :=
  if decide (prefix = "") then Some path
  else if HasPrefix path prefix
       then Some (String.substring (String.length prefix) (String.length path - String.length prefix) path)
       else None.

(** System.ListenAndServe up to where it serves: the address, the configuration
    and the path the handler sees. *)
Definition ListenAndServe (addr BIGMACHINE_ADDR : string) (serial : result error Z) (now : Z)
    (rk : result error key) (c : T) (useInstanceIDSuffix : bool) (session : option error)
    (document : result error string) (configure : option error) :
    result error (string * tls_Config * (string -> option string)) :=
  let addr := if decide (addr = "") then BIGMACHINE_ADDR else addr in
  if decide (addr = "") then Err (E [AKind Invalid; AMsg "no address defined"])
  else
    match HTTPSConfig serial now rk c with
    | Err e => Err e
    | Ok (_, config) =>
        let handler : result error (string -> option string) :=
          if useInstanceIDSuffix then
            match session with
            | Some e => Err e
            | None => match document with
                      | Err e => Err e
                      | Ok id => Ok (StripPrefix ("/" +:+ id))
                      end
            end
          else Ok Some in
        match handler with
        | Err e => Err e
        | Ok h =>
            match configure with
            | Some e => Err e
            | None => Ok (addr, require_client_cert config, h)
            end
        end
    end.
End http.

(** ** What a command over SSH gives its reader *)

Section ssh_theorems.
Context {EL : ErrorsLib}.
Implicit Types attempts : nat -> string * ssh_end.

(** The output of d attempts from the k-th on. *)
Definition output attempts (k d : nat) : string :=
  foldr (fun i s => (attempts i).1 +:+ s) "" (seq k d).

(** Attempt i fails in a way that is tried again, and the wait lets it. *)
Definition goes_on attempts (retry_Wait : nat -> option error) (i : nat) : bool :=
  match (attempts i).2 with
  | Returns (Some er) => ssh_retried er && bool_decide (retry_Wait i = None)
  | _ => false
  end.

(** What the reader finds after attempt k, if there is no other. *)
Definition run_end attempts (retry_Wait : nat -> option error) (k : nat) : reader_end :=
  match (attempts k).2 with
  | RunsOn => Open
  | Returns None => Ended None
  | Returns (Some er) => Ended (if ssh_retried er then retry_Wait k else Some (se_err er))
  end.

Lemma run_loop_step (fuel k : nat) attempts (retry_Wait : nat -> option error) :
  run_loop (S fuel) k attempts retry_Wait =
    if goes_on attempts retry_Wait k
    then match run_loop fuel (S k) attempts retry_Wait with
         | None => None
         | Some (rest, e, n) => Some ((attempts k).1 +:+ rest, e, n)
         end
    else Some ((attempts k).1, run_end attempts retry_Wait k, S k).
Proof.
  cbn [run_loop]. unfold goes_on, run_end, ssh_retried.
  destruct (attempts k) as [out [[er|]|]]; [|done|done]. cbn [fst snd].
  destruct (HasPrefix _ _); [done|]. destruct (is_exit er); [done|]. simpl.
  destruct (retry_Wait k); [by rewrite bool_decide_eq_false_2|by rewrite bool_decide_eq_true_2].
Qed.

Lemma run_loop_runs attempts (retry_Wait : nat -> option error) (d k fuel : nat) :
  (forall i, (k <= i < k + d)%nat -> goes_on attempts retry_Wait i = true) ->
  goes_on attempts retry_Wait (k + d) = false -> (d < fuel)%nat ->
  run_loop fuel k attempts retry_Wait =
    Some (output attempts k (S d), run_end attempts retry_Wait (k + d), S (k + d)).
Proof.
  revert k fuel. induction d as [|d IH]; intros k fuel Hon Hoff Hf;
    (destruct fuel as [|fuel]; [lia|]); rewrite run_loop_step.
  - rewrite Nat.add_0_r in *. rewrite Hoff. unfold output. simpl. by rewrite sapp_nil_r.
  - rewrite Hon by lia. replace (k + S d)%nat with (S k + d)%nat in * by lia.
    rewrite (IH (S k) fuel) by (try done; try lia; intros; apply Hon; lia). done.
Qed.

(** The first round in which a loop stops. *)
Lemma first_false (f : nat -> bool) (n : nat) :
  f n = false -> exists k, (k <= n)%nat /\ f k = false /\ forall i, (i < k)%nat -> f i = true.
Proof.
  induction n as [n IH] using lt_wf_ind. intros Hn.
  destruct (decide (Exists (fun i => f i = false) (seq 0 n))) as [He|He].
  - apply Exists_exists in He as (i & Hi & Hf). apply elem_of_seq in Hi.
    destruct (IH i ltac:(lia) Hf) as (k & Hk & ?). exists k. split; [lia|done].
  - exists n. split; [done|]. split; [done|]. intros i Hi. apply not_false_iff_true. intros Hf.
    apply He, Exists_exists. exists i. split; [|done]. apply elem_of_seq. lia.
Qed.

(** C40. A command on an instance (Tail, Read): if the wait between attempts
    reports the end of the context from the n-th on, there are at most n + 1
    attempts.  The reader has read the output of all attempts, one after the other,
    so what a broken connection had already delivered is delivered again by the next
    attempt; every attempt but the last failed in a way that is tried again.  If the
    last attempt ends, the reader reaches its end: EOF after a success, the error of
    the last attempt if that is final (the command's exit status), or the error of
    the wait.  If it does not end - the context does not end it, so that a Tail,
    which follows the log, goes on for as long as its connection holds - the reader
    finds no end.  A failed authentication as ssh.Dial reports it, with "ssh:
    handshake failed: " in front, is not taken for one and is tried again. *)
Theorem run_command_reads (n : nat) attempts (retry_Wait : nat -> option error) :
  (forall k, (n <= k)%nat -> retry_Wait k <> None) ->
  (exists k, (k <= n)%nat /\
    (forall fuel, (n < fuel)%nat ->
       run_command fuel attempts retry_Wait =
         Some (output attempts 0 (S k), run_end attempts retry_Wait k, S k)) /\
    (forall i, (i < k)%nat ->
       exists er, (attempts i).2 = Returns (Some er) /\ ssh_retried er = true /\ retry_Wait i = None) /\
    match (attempts k).2, run_end attempts retry_Wait k with
    | Returns None, Ended None | Returns (Some _), Ended (Some _) | RunsOn, Open => True
    | _, _ => False
    end) /\
  (forall er rest, Error (se_err er) = "ssh: handshake failed: " +:+ rest -> is_exit er = false ->
     ssh_retried er = true).
Proof.
  intros Hw. split.
  - destruct (first_false (goes_on attempts retry_Wait) n) as (k & Hk & Hoff & Hon).
    { unfold goes_on. destruct (attempts n).2 as [[er|]|]; [|done|done].
      rewrite bool_decide_eq_false_2 by auto. apply andb_false_r. }
    exists k. split; [done|]. split_and!.
    + intros fuel Hf. apply (run_loop_runs attempts retry_Wait k 0 fuel); [|done|lia].
      intros i Hi. apply Hon. lia.
    + intros i Hi. specialize (Hon i Hi). unfold goes_on in Hon.
      destruct (attempts i).2 as [[er|]|]; [|done|done]. apply andb_true_iff in Hon as [H1 H2].
      apply bool_decide_eq_true in H2. by exists er.
    + unfold goes_on, run_end in *. destruct (attempts k).2 as [[er|]|]; [|done|done].
      destruct (ssh_retried er); [|done]. simpl in Hoff. apply bool_decide_eq_false in Hoff.
      by destruct (retry_Wait k).
  - intros er rest He Hx. unfold ssh_retried. rewrite He, Hx. done.
Qed.
End ssh_theorems.

(** ** From the driver to the instance *)

Section serving.
Context {EL : ErrorsLib} {X : X509} {XL : X509Laws X}.

(** The last file the cloud configuration writes is the authority's. *)
Lemma last_written (s : Ec2Config.System) :
  last (WriteFiles (cloudConfig_of s)) = Some (authority_file (authority_Contents s)).
Proof. unfold cloudConfig_of. cbn [AppendUnit AppendFile WriteFiles]. apply last_snoc. Qed.

(** Once issued, the client's configuration stays. *)
Lemma HTTPClient_once serial t1 rk (c : T) (client : tls_Config) once :
  HTTPClient serial t1 rk None c None = (inl client, once) ->
  (exists cl server, HTTPSConfig serial t1 rk c = Ok (cl, server) /\ client = with_protos ["h2"; "http/1.1"] cl) /\
  forall serial' t' rk', HTTPClient serial' t' rk' None c once = (inl client, once).
Proof.
  unfold HTTPClient. destruct (HTTPSConfig serial t1 rk c) as [[cl sv]|e] eqn:Hc; intros [= <- <-].
  split; [|done]. exists cl, sv. split; [done|]. by apply HTTPSConfig_Ok in Hc as (? & ? & ? & _ & _ & _ & _ & -> & _).
Qed.

(** The handler of an instance, on the URL the client calls. *)
Lemma StripPrefix_app (id path : string) : StripPrefix ("/" +:+ id) (("/" +:+ id) +:+ path) = Some path.
Proof.
  unfold StripPrefix. rewrite decide_False by discriminate.
  assert (H : HasPrefix (("/" +:+ id) +:+ path) ("/" +:+ id) = true).
  { rewrite <- (sapp_nil_r ("/" +:+ id)) at 2. rewrite HasPrefix_app. by destruct path. }
  by rewrite H, substring_app.
Qed.

(** C29. An instance becomes the machine that the driver talks to.  Let c be the
    authority of the driver, from the file at authorityPath.  The last file that
    the cloud configuration writes is at the same path and holds the contents of
    c; an instance on which that file is there gets c itself from its own Init.
    When its server then listens at the default address with the instance's id,
    the URL that the client makes of the machine's address leads the handler to
    the path of the service method.  All clients that the driver ever uses offer
    HTTP/2 first and have the certificate issued for the first one, at t1; a handshake succeeds only
    until seven days after t1 - after that no new connection does - provided
    that c is a valid authority with its own key. *)
Theorem instance_serves_driver (s : Ec2Config.System) (a a2 : answers) (fs fs' fs2 : gmap string string)
    (c : T) (inst : Instance) (id meth : string) serial t1 rk client once :
  NewAuthority a authorityPath fs = (Some (Ok c), fs') -> authority_Contents s = Contents c ->
  InstanceId inst = Some id -> id <> "" -> has_byte SLASH id = false ->
  HTTPClient serial t1 rk None c None = (inl client, once) ->
  NextProtos client = ["h2"; "http/1.1"] /\
  (exists f, last (WriteFiles (cloudConfig_of s)) = Some f /\ Path f = authorityPath /\
     (fs2 !! authorityPath = Some (f_Content f) -> a_ReadFile a2 = None ->
      NewAuthority a2 authorityPath fs2 = (Some (Ok c), fs2))) /\
  exists host, machine_addr true inst = "https://" +:+ host +:+ "/" +:+ id +:+ "/" /\
  forall serial2 t2 rk2 session doc configure addr config handler,
    doc = Ok id ->
    ListenAndServe "" ":443" serial2 t2 rk2 c true session doc configure = Ok (addr, config, handler) ->
    addr = ":443" /\
    TrimRight (machine_addr true inst) SLASH +:+ RpcPrefix +:+ meth =
      "https://" +:+ host +:+ (("/" +:+ id) +:+ RpcPrefix +:+ meth) /\
    handler (("/" +:+ id) +:+ RpcPrefix +:+ meth) = Some (RpcPrefix +:+ meth) /\
    forall serial3 t3 rk3 now,
      (HTTPClient serial3 t3 rk3 None c once).1 = inl client /\
      (handshake now client config = true <->
         whole_seconds (t1 - DriftMargin) <= now <= whole_seconds (t1 + certDuration) /\
         Public (T_key c) = c_pub (T_cert c) /\ signs (c_template (T_cert c)) = true /\
         allows ExtKeyUsageClientAuth (c_template (T_cert c)) = true /\
         valid_at now (c_template (T_cert c)) = true).
Proof.
  intros HN Hcont Hid Hne Hslash Hclient.
  pose proof HN as (p & Hl & _ & _ & _)%NewAuthority_Ok.
  apply HTTPClient_once in Hclient as [(cl0 & server & Hcfg & ->) Honce].
  split; [done|]. split.
  { exists (authority_file (authority_Contents s)). split; [apply last_written|]. split; [done|].
    cbn [f_Content authority_file]. rewrite Hcont. intros Hf Ha.
    rewrite (NewAuthority_reads _ _ (Contents c)) by done. by rewrite (load_Contents p). }
  exists (getAddress inst).
  assert (Haddr : machine_addr true inst = "https://" +:+ getAddress inst +:+ "/" +:+ id +:+ "/").
  { unfold machine_addr. by rewrite Hid. }
  split; [done|]. intros serial2 t2 rk2 session doc configure addr config handler -> Hlisten.
  unfold ListenAndServe in Hlisten. simpl in Hlisten.
  destruct (HTTPSConfig serial2 t2 rk2 c) as [[cl sv]|] eqn:Hsv; [|done].
  destruct session; [done|]. destruct configure; [done|]. injection Hlisten as <- <- <-.
  split; [done|]. split.
  { rewrite Haddr. rewrite <- !sapp_assoc. rewrite TrimRight_last by done. rewrite !sapp_assoc. done. }
  split; [by rewrite StripPrefix_app|].
  intros serial3 t3 rk3 now. split; [by rewrite Honce|].
  by apply (handshake_iff _ _ _ _ _ _ p _ _ _ _ _ _ now Hl Hcfg Hsv).
Qed.
End serving.

(** ** The system as its clients see it *)

Section instance.
Context {EL : ErrorsLib}.
Variable as_Error : error -> option Severity.
Variable awserr_Code : error -> option string.
Hypothesis E_not_awserr : forall args, awserr_Code (E args) = None.

Definition launched_of (x : Started) : Launched :=
  {| l_Addr := m_Addr x; l_Maxprocs := m_Maxprocs x; l_NoExec := false |}.

(** The state is that of the system and the images remembered; the environment
    has the fuel of the launch loop, of which one is enough. *)
#[export] Instance EC2System : System := {|
  sys := Sys * gmap string (option error);
  launch_env := bool * start_env;
  sys_Name := "ec2";
  sys_Start := fun env n s =>
    match Ec2Start.Start as_Error awserr_Code 1 env.2 env.1 s.1 s.2 with
    | None => (LRunning, s)
    | Some (StartPanics, _, m) => (LPanics, (s.1, m))
    | Some (StartReturns r, _, m) =>
        (LReturns (match r with Ok ms => Ok (launched_of <$> ms) | Err e => Err e end), (s.1, m))
    end;
  sys_Maxprocs := fun s => default 0 (VCPU <$> sys_config s.1);
  sys_KeepaliveConfig := fun _ => KeepaliveConfig
|}.

(** The API launches at most as many instances as it is asked for. *)
Definition api_ok (env : bool * start_env) (n : nat) : Prop :=
  forall k ids, Ec2Start.run (se_attempts env.2 k) = Ec2Start.Launched ids -> (length ids <= n)%nat.

Lemma EC2_Start_Ok env n s ls s' :
  sys_Start (System := EC2System) env n s = (LReturns (Ok ls), s') ->
  ls = [] \/
  exists ids insts, Ec2Start.run (se_attempts env.2 0) = Ec2Start.Launched ids /\ se_WaitRunning env.2 = None /\
    se_DescribeInstances env.2 = Ok [insts] /\ length insts = length ids /\ length ls = length ids /\
    l_Addr <$> ls = machine_addr env.1 <$> insts /\
    Forall (fun x => l_Maxprocs x = default 0 (VCPU <$> sys_config s.1)) ls.
Proof.
  cbn [sys_Start EC2System]. intros H.
  destruct (Ec2Start.Start _ _ _ _ _ _ _) as [[[[r|] k] m]|] eqn:E; [|done..].
  destruct r as [ms|e]; [|done]. injection H as <- <-.
  destruct (decide (ms = [])) as [->|Hne]; [by left|right].
  destruct (Start_returns_all as_Error awserr_Code E_not_awserr 0 env.2 env.1 s.1 s.2 ms k m E Hne)
    as (ids & insts & H1 & H2 & H3 & H4 & H5 & _ & H6 & H7).
  exists ids, insts. rewrite length_fmap. split_and!; try done.
  - rewrite <- H6. by rewrite <- list_fmap_compose.
  - apply Forall_fmap. exact H7.
Qed.

#[export] Instance EC2System_laws : SystemLaws EC2System.
Proof using E_not_awserr.
  refine {| sys_ok := fun s : sys => True; launch_ok := api_ok |}.
  - done.
  - intros env n s ls s' _ Hapi [->|(ids & insts & Hrun & _ & _ & _ & -> & _)]%EC2_Start_Ok; [simpl; lia|].
    by apply (Hapi 0%nat).
  - intros env n s ls s' _ [->|(ids & insts & _ & _ & _ & _ & _ & _ & Hp)]%EC2_Start_Ok; [by constructor|done].
  - intros s _. simpl. lia.
Defined.

(** C28. B.Start over EC2.  If it returns machines, they are at most as many as
    asked for, one for every instance that was launched, and B knows each by the
    address of its instance, as a machine it owns and keeps alive.  If the
    launched instances did not come up in time, it fails: the error of the wait
    is lost, and what the caller gets is that no machines were started
    (of kind Unavailable), although the instances have been launched and run. *)
Theorem launch_reaches_B env n params (b b' : B) (s s' : sys (System := EC2System)) r :
  api_ok env n -> B_Start (S := EC2System) env n params b s = (Some (r, b'), s') ->
  match r with
  | Ok ms =>
      exists ids insts, Ec2Start.run (se_attempts env.2 0) = Ec2Start.Launched ids /\
        se_DescribeInstances env.2 = Ok [insts] /\ length insts = length ids /\
        (0 < length ms <= n)%nat /\ length ms = length ids /\
        Addr <$> drop (length (heap b)) (heap b') = machine_addr env.1 <$> insts /\
        Forall (fun m => owner m = true /\ started m = true /\ services m <> ∅) (drop (length (heap b)) (heap b'))
  | Err e =>
      b' = b /\
      forall ids w ds, Ec2Start.run (se_attempts env.2 0) = Ec2Start.Launched ids -> se_Marshal env.2 = None ->
        (describe_once as_Error (AMI s.1) (se_DescribeImages env.2) s.2).1 = None ->
        se_limiter env.2 0%nat = None -> se_WaitRunning env.2 = Some w -> se_DescribeInstances env.2 = Ok ds ->
        e = E [AKind Unavailable; AMsg "no machines started"]
  end.
Proof using E_not_awserr.
  intros Hapi H.
  apply B_Start_cases in H as [(e & Hs & -> & ->)|[(Hs & -> & ->)|(ls & Hs & Hne & [(Hsv & -> & ->)|(Hsv & -> & ->)])]].
  - split; [done|]. intros ids w ds Hrun Hm Hdesc Hlim Hw Hds.
    cbn [sys_Start EC2System] in Hs. unfold Ec2Start.Start in Hs. rewrite Hm in Hs.
    destruct (describe_once _ _ _ _) as [err m0]. simpl in Hdesc. subst err.
    rewrite (launch_loop_once _ E_not_awserr), Hlim, Hrun in Hs. unfold await_instances in Hs.
    by rewrite Hw, Hds in Hs.
  - done.
  - split; [done|]. intros ids w ds _ _ _ _ Hw _.
    destruct (EC2_Start_Ok _ _ _ _ _ Hs) as [->|(? & ? & _ & Hw' & _)]; [done|congruence].
  - destruct (EC2_Start_Ok _ _ _ _ _ Hs) as [->|(ids & insts & Hrun & _ & Hd & Hl & Hl2 & Ha & _)]; [done|].
    exists ids, insts. rewrite length_seq. cbn [heap with_started]. rewrite drop_app_length.
    pose proof (Hapi 0%nat ids Hrun). split_and!; try done; try lia.
    + destruct ls; simpl; [done|lia].
    + rewrite <- Ha. apply list_eq. intros k.
      rewrite !list_lookup_fmap, list_lookup_imap. by destruct (ls !! k).
    + apply Forall_lookup. intros k m Hm.
      rewrite list_lookup_imap in Hm. by destruct (ls !! k); simplify_eq/=.
Qed.
End instance.

(** ** Sample runs *)

Module Samples.
Import Authority.Samples Ec2Start.Samples.

(** The connection breaks after "ab", and the second attempt succeeds. *)
Definition sample_attempts (k : nat) : string * ssh_end (EL := SimpleErrors) :=
  match k with
  | O => ("ab", Returns (Some {| se_err := SOther "connection lost"; is_exit := false |}))
  | _ => ("abc", Returns None)
  end.
Definition sample_waits (k : nat) : option (@error SimpleErrors) :=
  if decide (k < 3)%nat then None else Some (SOther "deadline").

Example sample_output : run_command 4 sample_attempts sample_waits = Some ("ababc", Ended None, 2%nat).
Proof. reflexivity. Qed.

(** The context has ended, and the log is followed still. *)
Example followed_log fuel :
  run_command (S fuel) (fun _ => ("log", RunsOn)) (fun _ => Some (@New SimpleErrors "canceled")) = Some ("log", Open, 1%nat).
Proof. reflexivity. Qed.

Lemma run_command_reads_witness :
  exists k, (k <= 3)%nat /\ run_command 4 sample_attempts sample_waits =
    Some (output sample_attempts 0 (S k), run_end sample_attempts sample_waits k, S k).
Proof.
  destruct (run_command_reads (EL := SimpleErrors) 3 sample_attempts sample_waits) as [(k & Hk & H & _) _].
  { intros k Hk. unfold sample_waits. rewrite decide_False by (apply Nat.le_ngt; exact Hk). discriminate. }
  exists k. split; [exact Hk|]. apply H. repeat constructor.
Defined.

(** The driver's authority of Authority.v, on a system with no data volume. *)
Definition ec2_driver := NewAuthority sample_answers authorityPath ∅.
Definition ec2_T : T := match ec2_driver.1 with Some (Ok c) => c | _ => sample_T end.
Definition sample_system : Ec2Config.System :=
  {| s_Flavor := Flatcar; SshKeys := []; Diskspace := 200; Dataspace := 0; Binary := defaultEc2Boot;
     AdditionalFiles := []; AdditionalUnits := []; Ec2Config.NVMe := false;
     authority_Contents := Contents ec2_T; immortal := false |}.
Definition ec2_client : tls_Config :=
  match (HTTPClient (Ok 5) 200000000000 (Ok 8) None ec2_T None).1 with inl c => c | inr _ => sample_tls.1 end.
Definition ec2_once := (HTTPClient (Ok 5) 200000000000 (Ok 8) None ec2_T None).2.

Lemma instance_serves_driver_witness :
  exists f, last (WriteFiles (cloudConfig_of sample_system)) = Some f /\ Path f = authorityPath.
Proof.
  assert (init : NewAuthority sample_answers authorityPath ∅ = (Some (Ok ec2_T), ec2_driver.2))
    by vm_cast_no_check (eq_refl (Some (Ok (E := error) ec2_T), ec2_driver.2)).
  assert (first : HTTPClient (Ok 5) 200000000000 (Ok 8) None ec2_T None = (inl ec2_client, ec2_once))
    by vm_cast_no_check (eq_refl (inl (B := string) ec2_client, ec2_once)).
  destruct (instance_serves_driver (EL := SimpleErrors) (X := SimpleX509) (XL := SimpleX509_laws) sample_system
    sample_answers sample_answers ∅ ec2_driver.2 ∅ ec2_T inst "i-1" "Supervisor.Ping" (Ok 5) 200000000000 (Ok 8)
    ec2_client ec2_once init eq_refl eq_refl ltac:(discriminate) eq_refl first) as (_ & (f & H1 & H2 & _) & _).
  exists f. split; [exact H1|exact H2].
Defined.

(** A launch of one instance, which does not come up: no machines, no error of
    the wait. *)
Definition sample_launch := (true, answers (Some (SOther "timeout")) (Ok ["ami"])).
Definition no_images : gmap string (option (@error SimpleErrors)) := ∅.
Definition sample_failed :=
  B_Start (S := EC2System (EL := SimpleErrors) as_err aws_code) sample_launch 1 [Services {["Counter" := 0%nat]}] new_B
    (Ec2Start.Samples.sys, no_images).

Lemma launch_reaches_B_witness :
  exists e, sample_failed.1 = Some (Err e, new_B) /\ e = E [AKind Unavailable; AMsg "no machines started"].
Proof.
  assert (api : api_ok sample_launch 1).
  { intros k ids H. injection H as <-. repeat constructor. }
  exists (E [AKind Unavailable; AMsg "no machines started"]). split.
  - vm_cast_no_check (eq_refl sample_failed.1).
  - refine (proj2 (launch_reaches_B (EL := SimpleErrors) as_err aws_code aws_code_E sample_launch 1
      [Services {["Counter" := 0%nat]}] new_B new_B (Ec2Start.Samples.sys, no_images) sample_failed.2
      (Err (E [AKind Unavailable; AMsg "no machines started"])) api _) ["i-1"] (SOther "timeout") [[inst]] _ _ _ _ _ _);
      reflexivity.
Defined.
End Samples.
